(* ===== verification/_CoqProject ===== *)
-Q . S2P
Prelude.v
Text.v
Calendar.v
Timestamp.v
Value.v
Types.v
Wire.v
Messages.v
Codec.v
Scheduling.v
Retention.v
Session.v
Database.v
Control.v
Events.v
Fleet.v
Storage.v
Catalog.v
Commands.v
Velero.v
Agent.v
AgentReports.v
AgentTasks.v
AgentRestore.v
AgentBackup.v
AgentCleanup.v
AgentSafety.v
AgentRuns.v
AgentProgress.v
Quota.v
Tasks.v
RestorePoints.v
Plans.v
Policies.v
Bindings.v
Dispatch.v
Delivery.v
Lifecycle.v
LifeCycleRefinement.v
PlanLifecycle.v
System.v
Handlers.v
StorageSync.v
SyncRetries.v
PlanPolicy.v
Activation.v
BackupTasks.v
RetentionCleanup.v
ProtectionCleanup.v
Capacity.v
Scheduler.v
Timeouts.v
Reports.v
AgentMessages.v
Platform.v
Membership.v
PlanEdits.v
Outbox.v
Witnesses.v
SystemWitnesses.v
SchedulerWitnesses.v
