(* ===== verification/Prelude.v ===== *)
(** * HyperCDR, verified: the protection core of the control plane

    HyperCDR backs up Kubernetes applications with Velero.  A control plane
    (backend/) keeps clusters, protection plans, backup and recovery tasks and
    restore points in PostgreSQL, and talks over a websocket to one agent per
    cluster (agent/comm-agent/), which runs the backups.  This development
    models the parts that decide what is backed up, kept, replaced and
    recovered, and the protocol between the two sides.

    ** The program's parts and the files that model them

    - When a policy fires: backend/internal/service/scheduling/policy.go, in
      [Scheduling], over the calendar of Go's time package in [Calendar].
    - What retention rules keep: backend/internal/store/retention_rules.go, in
      [Retention].
    - Payload documents and JSON: the accessors of
      backend/internal/httpserver/task_payload.go and backup_events.go, and
      encoding/json on them, in [Value]; RFC 3339 text in [Timestamp]; the
      structs of backend/internal/store/types.go in [Types].
    - Transactions: what database/sql gives the store, in [Session]; the tables
      with their constraints, the reads and reference checks every component
      shares (postgres.go, tenant_references.go), in [Database].
    - Restore point slots: backend/internal/store/restore_point_quota.go, in
      [Quota].
    - Tasks: backend/internal/store/postgres_tasks.go, in [Tasks].
    - Backup results and restore points: postgres_restore_points.go and
      backup_result.go of the same directory, in [RestorePoints].
    - Protection plans, their schedules and what deleting them takes along:
      postgres_protection.go (and GetProtectionPlan of postgres.go), in [Plans];
      policies: postgres_policies.go, in [Policies].
    - Task events (AddTaskEvent, ListTaskEvents, addTaskEventIfChanged), in
      [Events]; the reads of clusters, applications, repositories and upgrade
      jobs (postgres.go, platform_upgrade_postgres.go), in [Fleet]; which storage
      repository is configured on which cluster (postgres.go,
      protection_activation.go), in [Bindings].
    - The store as one system, over the definitions above: the invariant and
      the task, result and retention operations that keep it in [Lifecycle];
      the abstract machine of a reservation and the refinement of each operation
      in [LifeCycleRefinement]; plan and policy operations in [PlanLifecycle];
      all of them together in [System]; which application belongs to which plan
      in [Membership]; what saving a plan does in [PlanEdits].
    - The agent protocol: backend/internal/protocol/; message types as data in
      [Wire] and [Messages], contracts and codec in [Codec].
    - Handlers of backend/internal/httpserver are programs over the store, its
      clock and its agents: the language is [Control], what every handler keeps
      to [Handlers].  The data they work on: names and prefixes of storage and
      the removal of a cluster's objects (storage_sync.go) in [Storage]; the
      catalog of a restore point (restore_diagnostic_handlers.go) in [Catalog];
      the commands built from stored payloads (task_payload.go,
      exclude_defaults.go) in [Commands].
    - Sending tasks to agents (task_dispatch.go) in [Dispatch], and that agents
      accept what is sent in [Delivery]; configuring storage on a cluster
      (storage_sync.go, protection_activation.go) in [StorageSync], and that its
      retries end in [SyncRetries].
    - The schedule of a plan (protection_plan_handlers.go) in [PlanPolicy], its
      activation (protection_activation.go) in [Activation]; backups on demand
      and on schedule (backup_handlers.go, recovery_handlers.go) in
      [BackupTasks]; retention and replacement of restore points
      (backup_events.go, restore_point_replacement.go) in [RetentionCleanup];
      the removal of a plan (backup_events.go) in [ProtectionCleanup]; storage
      sizes (plan_capacity.go of httpserver and store) in [Capacity].
    - The scheduler (scheduler.go) in [Scheduler], and that it ends tasks nothing
      is heard of in [Timeouts].
    - The reports of agents: what they write into a task (backup_events.go,
      backup_execution.go, workload_readiness.go) in [Reports], the handler of
      each message (agent_messages.go) in [AgentMessages].
    - All of these routines together, as one platform, in [Platform].
    - The agent's durable outbox and task ledger:
      agent/comm-agent/internal/wsclient/outbox.go, in [Outbox].
    - The Velero objects the agent submits: agent/comm-agent/internal/velero/
      (backup.go, restore.go, schedule.go, storage.go), in [Velero].
    - The tasks of the agent are programs over its cluster: what they ask of it
      (the interfaces of internal/kube, and the client's own ledger, locks and
      connection), their runs and a logic for these are in [Agent].  What the
      agent reports (client.go of internal/wsclient) is in [AgentReports]; what
      its tasks share, submission and the waits before it (client.go, executor/)
      in [AgentTasks]; restores and the safe end of a failed one in
      [AgentRestore]; backups, storage locations and schedules in [AgentBackup];
      cleanups, the small tasks and [executeTask] itself (with plan_capacity.go
      and cache_settings.go) in [AgentCleanup].
    - When each call of a task is made, for every task and every answer of the
      cluster, is in [AgentSafety]; what that says of whole runs in [AgentRuns];
      that tasks end in [AgentProgress].
    - [Witnesses] runs the theorems on a small control plane, [SystemWitnesses]
      those about the whole store on a history from an empty one,
      [SchedulerWitnesses] those about the scheduler and the platform on a store
      with a plan that is due.

    Definitions keep the names of the Go functions.  A function too long for one
    definition is cut into steps that are composed in its order; record fields
    carry a short prefix per struct.

    ** How the parts interact

    CreateTask inserts a task; for a backup it calls reserveBackupQuota, which
    gives the task a slot of its plan, possibly naming an old restore point to
    replace; for a recovery it locks the point; for a cleanup it calls
    prepareRestorePointDeletion.  UpdateTaskStatus moves tasks on and releases
    slots of failed backups.  PublishBackupResult turns a backup's result into a
    restore point: it snapshots the result in the task, waits while the replaced
    point exists (PendingRestorePointReplacements and
    BeginRestorePointReplacement drive that), and completes task and
    reservation.  ClaimRestorePointDeletion, SetRestorePointRetention and
    BeginProtectionPlanCleanup are the other writers of restore points.
    CleanupProtectionPlanRecords and DeleteProtectionPlan remove a plan, with
    what it protected or keeping it without a plan; UpdatePolicy changes the
    count quota decisions are made against.  The
    reservation states (reserved, data_ready, deleting, published, released) and
    the metadata keys replacementTaskId and retentionState are how they exclude
    each other.

    The scheduler creates the backups that are due, as a request does; a backup
    waits for its storage to be configured on the cluster, then its task is
    dispatched.  The agent's reports come back as messages: accepted and progress
    reports update the task, a completed backup is published, which may have to
    wait for the point it replaces, and lets retention delete what is beyond the
    count; a completed cleanup marks its points deleted, upon which held results
    are published.  What stays without an answer is sent again when the agent
    reconnects, or ended by the scheduler.

    ** State and steps

    A store operation is a computation of the monad [tx] of [Session] over the
    database record [db]: it sees its own copy, which commit publishes.  Plan
    rows are locked before anything is decided, so a transaction is one step.
    Every statement may fail, at a point given by the [fuse] argument of [run];
    the theorems hold for every fuse, and [None] is a run without failures.
    Time.Now, newID and time.LoadLocation are arguments.

    A handler is a computation of the monad [ctl] of [Control]: each of its store
    calls is a transaction of its own, and the [environment] says, turn by turn,
    what the clock shows, which statement fails, which agents are connected,
    whether a message is delivered and how a polling loop wakes up, and what the
    others (requests, agents, other processes) did to the database before the
    call.  The rely ([relies] of [Control]) asks of the others that they, too, only
    call the store, and of fresh identifiers that they are not empty; nothing is
    assumed of the rest of the environment.

    A task of the agent is a tree of calls ([prog] of [Agent]), and its run the
    tree followed along the answers of an environment that sees everything asked
    before.  Its history lists the calls with their answers, the latest first.
    [wp] speaks of every run: of each call when it is made, and of the history at
    the end.  Nothing is assumed of the answers, but in [AgentProgress] that the
    clock does not go back.

    ** What the theorems show

    - [Scheduling]: the next fire time is the first instant after the given one
      at which the policy fires, and what the code does at the end of short
      months and for intervals that overflow.
    - [Retention]: the selections are exactly the points that are the ordinal-th
      of their period, stay as they are when other points are deleted, and last
      into the future.
    - [Quota], [Tasks], [RestorePoints]: a plan never exceeds its retention
      count through a reservation or a publication; only expendable points are
      replaced and only full plans refuse; recovery and deletion of a point
      exclude each other; completed tasks and published results are final;
      failed backups give their slot back; every operation is all or nothing.
    - [System]: from an empty store no history of calls leaves a plan above its
      count; a plan bound to a smaller policy only drains; what ties
      reservations, tasks and points together holds in every reachable state;
      every call refines the reservation machine; removing a plan never fails on
      a constraint or trigger.  [Membership], [PlanEdits]: applications are
      protected once; plan edits keep a plan's identity; created plans read
      back.
    - [Platform]: whatever requests, workers, agent messages and scheduler ticks
      run, the database only moves by calls of the store, so what [System] shows
      holds of the whole control plane.
    - [RetentionCleanup], [Timeouts], [SyncRetries], [Capacity]: retention keeps
      the newest points and those something retains; overdue tasks are ended;
      retries of a storage sync end; a capacity report is saved only when it
      answers its command.
    - [Delivery], [Catalog], [Storage]: what is dispatched, an agent decodes; a
      restore waits for what the catalog holds; names of storage locations are
      valid, and removing a cluster's data spares that of the others.
    - [Velero]: a backup on demand and one of a schedule have the same scope;
      how much of a task the name of its restore keeps; that a restore moves the
      first namespace of its backup alone; that a storage configuration does not
      depend on the order in which it is read.
    - [AgentRuns]: the agent deletes and replaces namespaces only where the
      command allows it and after the steps that make it safe; it submits only
      what is recorded, announced and has its storage; it reports each end once,
      and only deletions that happened.  [AgentProgress]: every task ends, with
      its report or because one could not be sent.
    - [Codec]: exactly which messages are accepted, that what one side encodes
      the other decodes, and that payloads may grow fields.
    - [Outbox]: events and recorded tasks survive failed writes and restarts
      until they are settled.

    ** Bounds and fuel

    Recursion is structural throughout but for the decimal printer of [Value],
    whose fuel is the number of digits a 64-bit number can have, and the year
    search of [Calendar], which is arithmetic.  Durations are 64-bit integers
    with wrap-around written out; instants are integers of nanoseconds, wide
    enough for any year Go computes with here.

    The loop that waits for a storage sync polls every second, so its timeout in
    seconds bounds it; the environment may end it earlier.

    The loops of the agent that watch the cluster take fuel, and a run out of it
    has no result.  They sleep a second or more per turn and stop at the deadline
    of their task (some after a time of their own, half an hour at most), so
    that many seconds of fuel give a result: [tasks_end] of [AgentProgress].

    ** Not modelled

    Of httpserver: the HTTP routes, authentication and tenants' visibility, the
    requests that create recovery tasks, plans, policies, clusters and
    repositories (what they call of the store is modelled), heartbeats and
    inventory rows, log reports and scheduleLogMaintenance, the removal of a
    cluster (finishUnregisterTask and DeleteCluster), the content index of
    restore points beyond its catalog, and dispatchControlPlaneHandover.
    Platform upgrades and cluster registration drive containers and remote
    shells.  Of the agent: its connection, heartbeats, inventory and the
    observation of Velero events, and its Kubernetes client (internal/kube), whose
    calls are answered by the environment.  One reading of the clock stands for
    those the agent makes in one pass over a set of objects; the stages of an
    uninstallation are reported when it returns; the order in which Go
    meets the entries of a map is an argument; sizes an agent adds up are exact
    integers.  Mail, diagnostic logs beyond task
    events, storage encryption, the SQL migrations beyond the constraints and
    triggers the statements meet, the frontend, packaging and the vendored
    Velero are out of scope. *)

(** ** Shared vocabulary *)

From stdpp Require Export base option list gmap strings sorting fin_maps.
From Stdlib Require Export ZArith Lia.

#[global] Open Scope Z_scope.

(** ** Go strings

    A Go string is a byte string; [""] is the "absent" value nearly every
    struct field of the program uses. *)

Declare Scope go_scope.
Delimit Scope go_scope with go.

Definition seqb (a b : string) : bool := bool_decide (a = b).
Definition nonempty (s : string) : bool := negb (bool_decide (s = "")).

Notation "a =s b" := (seqb a b) (at level 70, no associativity) : go_scope.
Notation "a <>s b" := (negb (seqb a b)) (at level 70, no associativity) : go_scope.
#[global] Open Scope go_scope.

(** Membership in a list of string constants: the shape of a Go [switch] on a
    string and of an SQL [in (...)]. *)
Definition one_of (s : string) (l : list string) : bool := bool_decide (s ∈ l).

Definition is_null {A} (o : option A) : bool :=
  match o with Some _ => false | None => true end.

(** ** Machine integers *)

(** Two's-complement wrap-around of a 64-bit signed integer. *)
Definition int64_wrap (z : Z) : Z := (z + 2 ^ 63) mod 2 ^ 64 - 2 ^ 63.

Lemma int64_wrap_id z : - 2 ^ 63 <= z < 2 ^ 63 -> int64_wrap z = z.
Proof. intros H. unfold int64_wrap. rewrite Z.mod_small by lia. lia. Qed.

Lemma int64_wrap_range z : - 2 ^ 63 <= int64_wrap z < 2 ^ 63.
Proof.
  unfold int64_wrap. pose proof (Z.mod_pos_bound (z + 2 ^ 63) (2 ^ 64)). lia.
Qed.

(** ** Automation *)

Lemma seqb_true a b : (a =s b) = true <-> a = b.
Proof. apply bool_decide_eq_true. Qed.

Lemma seqb_false a b : (a =s b) = false <-> a <> b.
Proof. apply bool_decide_eq_false. Qed.

Lemma seqb_refl a : (a =s a) = true.
Proof. by apply seqb_true. Qed.

Lemma nonempty_true s : nonempty s = true <-> s <> "".
Proof. unfold nonempty. rewrite negb_true_iff. apply bool_decide_eq_false. Qed.

Lemma nonempty_false s : nonempty s = false <-> s = "".
Proof. unfold nonempty. rewrite negb_false_iff. apply bool_decide_eq_true. Qed.

Lemma one_of_true s l : one_of s l = true <-> s ∈ l.
Proof. apply bool_decide_eq_true. Qed.

Lemma one_of_false s l : one_of s l = false <-> s ∉ l.
Proof. apply bool_decide_eq_false. Qed.

Create Rewrite HintDb go_bool.
#[export] Hint Rewrite seqb_true seqb_false nonempty_true nonempty_false
  one_of_true one_of_false andb_true_iff andb_false_iff orb_true_iff
  orb_false_iff negb_true_iff negb_false_iff Z.ltb_lt Z.ltb_ge Z.leb_le
  Z.leb_gt Z.eqb_eq Z.eqb_neq : go_bool.

(** Turn every boolean test in sight into the proposition it decides. *)
Ltac go_bool := autorewrite with go_bool in *.

(** Case analysis on the tests of the goal, keeping the equations. *)
Ltac go_case :=
  match goal with
  | |- context [if ?b then _ else _] => destruct b eqn:?
  | |- context [match ?x with _ => _ end] => destruct x eqn:?
  end.

Ltac go_case_in H :=
  match type of H with
  | context [if ?b then _ else _] => destruct b eqn:?
  | context [match ?x with _ => _ end] => destruct x eqn:?
  end.

(** A closed decidable proposition, by evaluation. *)
Ltac decide_vm :=
  match goal with
  | |- ?P => apply (@bool_decide_eq_true_1 P ltac:(apply _)); vm_compute; reflexivity
  end.

(** ** Lists *)

(** First element satisfying a test: the shape of a Go loop that returns or
    breaks at the first hit. *)
Fixpoint find_first {A} (p : A -> bool) (l : list A) : option A :=
  match l with
  | [] => None
  | x :: l => if p x then Some x else find_first p l
  end.

Lemma find_first_Some {A} (p : A -> bool) l x :
  find_first p l = Some x -> x ∈ l /\ p x = true.
Proof.
  induction l as [|y l IH]; simpl; [done|].
  destruct (p y) eqn:E; intros [= <-] || intros H.
  - split; [left|done].
  - destruct (IH H) as [? ?]. split; [by right|done].
Qed.

Lemma find_first_None {A} (p : A -> bool) l :
  find_first p l = None <-> forall x, x ∈ l -> p x = false.
Proof.
  induction l as [|y l IH]; simpl; [split; [inversion 2|done]|].
  destruct (p y) eqn:E.
  - split; [done|]. intros H. rewrite (H y) in E by left. done.
  - rewrite IH. split; intros H x.
    + rewrite elem_of_cons. intros [->|?]; auto.
    + intros ?. apply H. by right.
Qed.

(** Number of elements satisfying a test. *)
Definition count {A} (p : A -> bool) (l : list A) : Z :=
  Z.of_nat (length (List.filter p l)).

Lemma count_nil {A} (p : A -> bool) : count p [] = 0.
Proof. done. Qed.

Lemma count_cons {A} (p : A -> bool) x l :
  count p (x :: l) = (if p x then 1 else 0) + count p l.
Proof. unfold count. simpl. destruct (p x); simpl length; lia. Qed.

Lemma count_nonneg {A} (p : A -> bool) l : 0 <= count p l.
Proof. unfold count. lia. Qed.

Lemma count_app {A} (p : A -> bool) l k : count p (l ++ k) = count p l + count p k.
Proof. unfold count. rewrite List.filter_app, length_app. lia. Qed.

#[export] Instance count_Permutation {A} (p : A -> bool) :
  Proper (Permutation ==> eq) (count p).
Proof.
  intros l k H. induction H; rewrite ?count_cons; lia.
Qed.

Lemma count_ext {A} (p q : A -> bool) l :
  (forall x, x ∈ l -> p x = q x) -> count p l = count q l.
Proof.
  induction l as [|x l IH]; intros H; [done|].
  rewrite !count_cons, (H x), IH; [done| |left].
  intros y Hy. apply H. by right.
Qed.

Lemma count_fmap {A B} (f : A -> B) (p : B -> bool) l : count p (f <$> l) = count (fun x => p (f x)) l.
Proof. induction l as [|x l IH]; [done|]. by rewrite fmap_cons, !count_cons, IH. Qed.

Lemma count_filter {A} (p q : A -> bool) l :
  count p (List.filter q l) = count (fun x => q x && p x) l.
Proof.
  induction l as [|x l IH]; [done|]. simpl. rewrite count_cons, <- IH.
  destruct (q x); [by rewrite count_cons|simpl; lia].
Qed.

Lemma forallb_pointwise {A} (p q : A -> bool) l :
  (forall x, p x = q x) -> forallb p l = forallb q l.
Proof. intros H. induction l as [|x l IH]; [done|]. simpl. by rewrite H, IH. Qed.

Lemma forallb_impl {A} (p q : A -> bool) l :
  (forall x, p x = true -> q x = true) -> forallb p l = true -> forallb q l = true.
Proof. rewrite !forallb_forall. auto. Qed.

Lemma forallb_Permutation {A} (p : A -> bool) l k : l ≡ₚ k -> forallb p l = forallb p k.
Proof.
  intros H. induction H; simpl; [done|by rewrite IHPermutation| |congruence].
  rewrite !andb_assoc. f_equal. apply andb_comm.
Qed.

Lemma Permutation_filter_bool {A} (p : A -> bool) l k :
  l ≡ₚ k -> List.filter p l ≡ₚ List.filter p k.
Proof.
  intros H. induction H; simpl.
  - done.
  - destruct (p x); [by constructor|done].
  - destruct (p x), (p y); try done. constructor.
  - by etrans.
Qed.

(** Steps of a preorder are one step of it. *)
Lemma rtc_preorder {A} (R : A -> A -> Prop) `{!PreOrder R} x y : rtc R x y -> R x y.
Proof. intros H. induction H as [x|x y z Hxy _ IH]; [reflexivity|]. by etrans. Qed.
