(* ===== verification/Text.v ===== *)
(** Functions of Go's strings package the control plane uses on names and paths,
    over byte strings, and what the proofs about names need of them. *)

From S2P Require Import Prelude.
From Stdlib Require Import Ascii.

Definition chars (s : string) : list ascii := Stdlib.Strings.String.list_ascii_of_string s.
Definition of_chars (l : list ascii) : string := Stdlib.Strings.String.string_of_list_ascii l.

Lemma chars_of_chars l : chars (of_chars l) = l.
Proof. apply Stdlib.Strings.String.list_ascii_of_string_of_list_ascii. Qed.
Lemma of_chars_chars s : of_chars (chars s) = s.
Proof. apply Stdlib.Strings.String.string_of_list_ascii_of_string. Qed.
Lemma chars_app s t : chars (s +:+ t) = chars s ++ chars t.
Proof. induction s as [|c s IH]; [done|]. exact (f_equal (cons c) IH). Qed.
Lemma chars_inj s t : chars s = chars t -> s = t.
Proof. intros H. by rewrite <- (of_chars_chars s), H, of_chars_chars. Qed.
Lemma of_chars_inj l k : of_chars l = of_chars k -> l = k.
Proof. intros H. by rewrite <- (chars_of_chars l), H, chars_of_chars. Qed.
Lemma length_chars s : length (chars s) = String.length s.
Proof. induction s as [|c s IH]; [done|]. exact (f_equal S IH). Qed.
Lemma chars_nonempty s : nonempty s = true <-> chars s <> [].
Proof. rewrite nonempty_true. destruct s; split; done. Qed.

(** ** Trimming *)

Fixpoint drop_while {A} (p : A -> bool) (l : list A) : list A :=
  match l with
  | [] => []
  | x :: l' => if p x then drop_while p l' else l
  end.

Definition trim_list {A} (p : A -> bool) (l : list A) : list A :=
  rev (drop_while p (rev (drop_while p l))).

Definition is_char (c d : ascii) : bool := bool_decide (c = d).

(** [strings.Trim(s, string(c))]. *)
Definition Trim (c : ascii) (s : string) : string := of_chars (trim_list (is_char c) (chars s)).

(** [strings.TrimRight(s, string(c))]. *)
Definition TrimRight (c : ascii) (s : string) : string :=
  of_chars (rev (drop_while (is_char c) (rev (chars s)))).

Section trimming.
Context {A : Type} (p : A -> bool).

Lemma drop_while_suffix l : exists k, l = k ++ drop_while p l /\ Forall (fun x => p x = true) k.
Proof.
  induction l as [|x l (k & Hl & Hk)]; cbn; [by exists []|].
  destruct (p x) eqn:E; [|by exists []]. exists (x :: k). cbn. rewrite <- Hl. by auto.
Qed.

Lemma drop_while_head l x k : drop_while p l = x :: k -> p x = false.
Proof.
  induction l as [|y l IH]; cbn; [done|]. destruct (p y) eqn:E; [done|]. by intros [= <- _].
Qed.

Lemma drop_while_id l : (forall x k, l = x :: k -> p x = false) -> drop_while p l = l.
Proof. destruct l as [|x l]; [done|]. intros H. cbn. by rewrite (H x l eq_refl). Qed.

Lemma drop_while_nil l : drop_while p l = [] -> Forall (fun x => p x = true) l.
Proof.
  destruct (drop_while_suffix l) as (k & Hl & Hk). intros E. rewrite E, app_nil_r in Hl. by subst.
Qed.

Lemma drop_while_Forall (Q : A -> Prop) l : Forall Q l -> Forall Q (drop_while p l).
Proof.
  destruct (drop_while_suffix l) as (k & Hl & _). intros H. rewrite Hl in H.
  by apply Forall_app in H as [_ ?].
Qed.

Lemma drop_while_length l : (length (drop_while p l) <= length l)%nat.
Proof.
  destruct (drop_while_suffix l) as (k & Hl & _). rewrite Hl at 2. rewrite length_app. lia.
Qed.

(** Neither end of a trimmed list is dropped by the test. *)
Definition trimmed (l : list A) : Prop :=
  (forall x k, l = x :: k -> p x = false) /\ (forall x k, l = k ++ [x] -> p x = false).

Lemma trimmed_rev l : trimmed l -> trimmed (rev l).
Proof.
  intros [Hh Hl]. split; intros x k E.
  - apply (Hl x (rev k)). rewrite <- (rev_involutive l), E. done.
  - apply (Hh x (rev k)). rewrite <- (rev_involutive l), E. by rewrite rev_app_distr.
Qed.

Lemma trim_list_id l : trimmed l -> trim_list p l = l.
Proof.
  intros H. unfold trim_list. rewrite (drop_while_id l) by apply H.
  rewrite drop_while_id by apply (trimmed_rev l H). apply rev_involutive.
Qed.

Lemma trim_list_trimmed l : trimmed (trim_list p l).
Proof.
  unfold trim_list. set (d := drop_while p l).
  destruct (drop_while_suffix (rev d)) as (k & Hrev & _). split; intros x t E.
  - assert (Hd : d = x :: t ++ rev k).
    { rewrite <- (rev_involutive d), Hrev, rev_app_distr, E. done. }
    by apply drop_while_head in Hd.
  - apply (f_equal (@rev A)) in E. rewrite rev_involutive, rev_app_distr in E.
    by apply drop_while_head in E.
Qed.

Lemma trim_list_Forall (Q : A -> Prop) l : Forall Q l -> Forall Q (trim_list p l).
Proof.
  intros H. unfold trim_list. apply Forall_rev, drop_while_Forall, Forall_rev, drop_while_Forall, H.
Qed.

Lemma trim_list_length l : (length (trim_list p l) <= length l)%nat.
Proof.
  unfold trim_list. rewrite length_rev. pose proof (drop_while_length (rev (drop_while p l))).
  rewrite length_rev in H. pose proof (drop_while_length l). lia.
Qed.

(** A list with an element the test keeps does not vanish. *)
Lemma trim_list_nonempty l x : x ∈ l -> p x = false -> trim_list p l <> [].
Proof.
  intros Hx Hp E. unfold trim_list in E. apply (f_equal (@rev A)) in E.
  rewrite rev_involutive in E. cbn in E. apply drop_while_nil in E.
  destruct (drop_while_suffix l) as (k & Hl & Hk). rewrite Hl, elem_of_app in Hx.
  destruct Hx as [Hx|Hx].
  - rewrite Forall_forall in Hk. by rewrite (Hk x Hx) in Hp.
  - apply Forall_rev in E. rewrite rev_involutive, Forall_forall in E.
    by rewrite (E x Hx) in Hp.
Qed.

End trimming.

(** ** Prefixes and parts *)

(** [strings.HasPrefix]. *)
Definition HasPrefix (s prefix : string) : bool := bool_decide (chars prefix `prefix_of` chars s).

(** [strings.TrimPrefix], [strings.TrimSuffix], [strings.HasSuffix]. *)
Definition TrimPrefix (s prefix : string) : string :=
  if HasPrefix s prefix then of_chars (drop (length (chars prefix)) (chars s)) else s.
(** [strings.Contains]. *)
Fixpoint contains_list (pattern l : list ascii) : bool :=
  bool_decide (pattern `prefix_of` l) ||
  match l with [] => false | _ :: l => contains_list pattern l end.

Definition Contains (s pattern : string) : bool := contains_list (chars pattern) (chars s).

Definition HasSuffix (s suffix : string) : bool := bool_decide (chars suffix `suffix_of` chars s).
Definition TrimSuffix (s suffix : string) : string :=
  if HasSuffix s suffix
  then of_chars (take (length (chars s) - length (chars suffix)) (chars s)) else s.

(** [strings.Split(s, string(c))]. *)
Fixpoint split_list (c : ascii) (l : list ascii) : list (list ascii) :=
  match l with
  | [] => [[]]
  | d :: l =>
      if is_char c d then [] :: split_list c l
      else match split_list c l with
           | [] => [[d]]
           | part :: parts => (d :: part) :: parts
           end
  end.
Definition Split (s : string) (c : ascii) : list string := of_chars <$> split_list c (chars s).

(** [strings.ReplaceAll(s, string(c), _)] with the empty string. *)
Definition remove_char (c : ascii) (s : string) : string :=
  of_chars (List.filter (fun d => negb (is_char c d)) (chars s)).

(** [s[:n]]. *)
Definition first_bytes (n : nat) (s : string) : string := of_chars (take n (chars s)).

(** The parts before a separator they do not contain are determined by what
    starts with them. *)
Lemma parts_unique (c : ascii) (l1 l2 r1 r2 k : list ascii) :
  c ∉ l1 -> c ∉ l2 -> (l1 ++ c :: r1) `prefix_of` k -> (l2 ++ c :: r2) `prefix_of` k ->
  l1 = l2 /\ exists k', r1 `prefix_of` k' /\ r2 `prefix_of` k'.
Proof.
  revert l2 k. induction l1 as [|x l1 IH]; intros [|y l2] k H1 H2 [t1 E1] [t2 E2]; cbn in *.
  - split; [done|]. subst k. injection E2 as E2. exists (r1 ++ t1). split; [by eexists|].
    rewrite E2. by eexists.
  - subst k. injection E2 as <- _. destruct H2. left.
  - subst k. injection E2 as -> _. destruct H1. left.
  - subst k. injection E2 as <- E2.
    destruct (IH l2 ((l1 ++ c :: r1) ++ t1)) as [-> Hk].
    + intros ?. apply H1. by right.
    + intros ?. apply H2. by right.
    + by exists t1.
    + exists t2. exact E2.
    + done.
Qed.
