(* ===== verification/Calendar.v ===== *)
(** Instants, the proleptic Gregorian calendar and time zones, as the Go
    standard library's [time] package defines them: the part of it the
    scheduling and retention code computes with.

    An instant is a number of nanoseconds since the Unix epoch.  A location is
    the zone lookup of a tz database entry: for a Unix second, the offset in
    force and the half-open interval of seconds on which it is in force.  The
    tz database itself is data outside the repository, so a location is always
    a parameter; [utc] and the fixed-offset zones are the concrete ones. *)

From S2P Require Import Prelude.

Definition time := Z.

Definition nanosecond : Z := 1.
Definition microsecond : Z := 1000.
Definition second : Z := 1000000000.
Definition minute : Z := 60 * second.
Definition hour : Z := 60 * minute.

(** 0001-01-01T00:00:00Z, the zero [time.Time]. *)
Definition zero_time : time := - 62135596800 * second.

Definition is_zero (t : time) : bool := t =? zero_time.
Definition after (t u : time) : bool := u <? t.
Definition before (t u : time) : bool := t <? u.

(** [t.Truncate(d)] for [d] dividing the distance from the zero time to the
    epoch, as one second and one microsecond do. *)
Definition truncate (d : Z) (t : time) : time := t - t mod d.

(** ** Days *)

Definition leap (y : Z) : bool :=
  (y mod 4 =? 0) && negb (y mod 100 =? 0) || (y mod 400 =? 0).

Definition days_in_month (y m : Z) : Z :=
  match m with
  | 2 => if leap y then 29 else 28
  | 4 | 6 | 9 | 11 => 30
  | _ => 31
  end.

Definition days_before_month (y m : Z) : Z :=
  match m with
  | 1 => 0 | 2 => 31 | 3 => 59 | 4 => 90 | 5 => 120 | 6 => 151
  | 7 => 181 | 8 => 212 | 9 => 243 | 10 => 273 | 11 => 304 | _ => 334
  end + (if leap y && (2 <? m) then 1 else 0).

(** Days from 0001-01-01 to the first of January of year [y]. *)
Definition days_before_year (y : Z) : Z :=
  365 * (y - 1) + (y - 1) / 4 - (y - 1) / 100 + (y - 1) / 400.

(** Day number of a date, month and day overflow normalised as [time.Date]
    does ("October 32" is "November 1"). *)
Definition day_number (y m d : Z) : Z :=
  let y' := y + (m - 1) / 12 in
  let m' := (m - 1) mod 12 + 1 in
  days_before_year y' + days_before_month y' m' + (d - 1).

Definition year_of_day (n : Z) : Z :=
  let y := (n * 400) / 146097 + 1 in
  if n <? days_before_year y then y - 1
  else if days_before_year (y + 1) <=? n then y + 1
  else y.

Definition month_of_yday (y k : Z) : Z :=
  if k <? days_before_month y 2 then 1 else
  if k <? days_before_month y 3 then 2 else
  if k <? days_before_month y 4 then 3 else
  if k <? days_before_month y 5 then 4 else
  if k <? days_before_month y 6 then 5 else
  if k <? days_before_month y 7 then 6 else
  if k <? days_before_month y 8 then 7 else
  if k <? days_before_month y 9 then 8 else
  if k <? days_before_month y 10 then 9 else
  if k <? days_before_month y 11 then 10 else
  if k <? days_before_month y 12 then 11 else 12.

Definition civil_of_day (n : Z) : Z * Z * Z :=
  let y := year_of_day n in
  let k := n - days_before_year y in
  let m := month_of_yday y k in
  (y, m, k - days_before_month y m + 1).

(** Day number of 1970-01-01. *)
Definition epoch_day : Z := 719162.

(** ** Locations *)

Record zone := Zone { zone_offset : Z; zone_start : option Z; zone_end : option Z }.

Definition location := Z -> zone.

Definition fixed_zone (off : Z) : location := fun _ => Zone off None None.
Definition utc : location := fixed_zone 0.

Definition unix (t : time) : Z := t / second.

(** Seconds shown by a wall clock in [loc], counted from the epoch. *)
Definition wall (loc : location) (t : time) : Z := unix t + zone_offset (loc (unix t)).

Definition local_day (loc : location) (t : time) : Z := wall loc t / 86400 + epoch_day.
Definition local_second (loc : location) (t : time) : Z := wall loc t mod 86400.

Definition Year (loc : location) (t : time) : Z := fst (fst (civil_of_day (local_day loc t))).
Definition Month (loc : location) (t : time) : Z := snd (fst (civil_of_day (local_day loc t))).
Definition Day (loc : location) (t : time) : Z := snd (civil_of_day (local_day loc t)).
Definition Hour (loc : location) (t : time) : Z := local_second loc t / 3600.
Definition Minute (loc : location) (t : time) : Z := local_second loc t mod 3600 / 60.
Definition Second (loc : location) (t : time) : Z := local_second loc t mod 60.
Definition Nanosecond (t : time) : Z := t mod second.
(** Sunday is 0; 0001-01-01 was a Monday. *)
Definition Weekday (loc : location) (t : time) : Z := (local_day loc t + 1) mod 7.

Definition in_zone (u : Z) (z : zone) : bool :=
  match zone_start z with Some s => s <=? u | None => true end &&
  match zone_end z with Some e => u <? e | None => true end.

(** [time.Date]: the offset is looked up at the wall clock read as UTC, and
    looked up again when the instant it gives lies outside the zone found. *)
Definition Date (y m d h mi s ns : Z) (loc : location) : time :=
  let u := (day_number y m d - epoch_day) * 86400 + h * 3600 + mi * 60 + s in
  let z := loc u in
  let off := zone_offset z in
  let off' :=
    if off =? 0 then 0
    else if in_zone (u - off) z then off else zone_offset (loc (u - off)) in
  (u - off') * second + ns.

Definition AddDate (loc : location) (t : time) (years months days : Z) : time :=
  Date (Year loc t + years) (Month loc t + months) (Day loc t + days)
    (Hour loc t) (Minute loc t) (Second loc t) (Nanosecond t) loc.

(** ** Facts about the calendar *)

Ltac zdiv := Z.to_euclidean_division_equations; lia.

Lemma days_in_month_pos y m : 28 <= days_in_month y m <= 31.
Proof. unfold days_in_month. repeat case_match; lia. Qed.

Lemma days_before_year_step y :
  days_before_year (y + 1) = days_before_year y + (if leap y then 366 else 365).
Proof.
  unfold days_before_year, leap. replace (y + 1 - 1) with y by lia.
  destruct (Z.eqb_spec (y mod 4) 0), (Z.eqb_spec (y mod 100) 0),
    (Z.eqb_spec (y mod 400) 0); simpl; zdiv.
Qed.

Lemma days_before_year_mono y z : y <= z -> days_before_year y <= days_before_year z.
Proof. unfold days_before_year. intros. zdiv. Qed.

Lemma year_of_day_spec n :
  days_before_year (year_of_day n) <= n < days_before_year (year_of_day n + 1).
Proof.
  unfold year_of_day.
  assert (Hlo : days_before_year (n * 400 / 146097 + 1 - 1) <= n).
  { unfold days_before_year. zdiv. }
  assert (Hhi : n < days_before_year (n * 400 / 146097 + 1 + 1 + 1)).
  { unfold days_before_year. zdiv. }
  repeat case_match; go_bool;
    try replace (n * 400 / 146097 + 1 - 1 + 1) with (n * 400 / 146097 + 1) in * by lia; lia.
Qed.

Lemma year_of_day_unique n y :
  days_before_year y <= n < days_before_year (y + 1) -> year_of_day n = y.
Proof.
  intros H. pose proof (year_of_day_spec n) as H'.
  destruct (Z.lt_trichotomy (year_of_day n) y) as [Hlt|[->|Hlt]]; [|done|].
  - pose proof (days_before_year_mono (year_of_day n + 1) y). lia.
  - pose proof (days_before_year_mono (y + 1) (year_of_day n)). lia.
Qed.

(** Split a month number known to be in 1..12 into its twelve values. *)
Ltac month_cases m :=
  let H := fresh in
  assert (m = 1 \/ m = 2 \/ m = 3 \/ m = 4 \/ m = 5 \/ m = 6 \/ m = 7 \/ m = 8 \/
          m = 9 \/ m = 10 \/ m = 11 \/ m = 12) as H by lia;
  destruct H as [->|[->|[->|[->|[->|[->|[->|[->|[->|[->|[->| ->]]]]]]]]]]].

Definition valid_date (y m d : Z) : Prop := 1 <= m <= 12 /\ 1 <= d <= days_in_month y m.

Lemma month_of_yday_eq y m k :
  1 <= m <= 12 ->
  days_before_month y m <= k < days_before_month y m + days_in_month y m ->
  month_of_yday y k = m.
Proof.
  intros Hm Hk. unfold month_of_yday, days_before_month, days_in_month in *.
  month_cases m; destruct (leap y); simpl in *; repeat case_match; go_bool; lia.
Qed.

Lemma month_of_yday_spec y k :
  0 <= k < (if leap y then 366 else 365) ->
  let m := month_of_yday y k in
  1 <= m <= 12 /\
  days_before_month y m <= k < days_before_month y m + days_in_month y m.
Proof.
  intros Hk. unfold month_of_yday.
  repeat match goal with
  | |- context [if ?b then _ else _] =>
      let E := fresh "E" in destruct b eqn:E; apply Z.ltb_lt in E || apply Z.ltb_ge in E
  end;
  unfold days_before_month, days_in_month in *; destruct (leap y); simpl in *; lia.
Qed.

Lemma days_before_month_bounds y m d :
  valid_date y m d ->
  0 <= days_before_month y m + (d - 1) < (if leap y then 366 else 365).
Proof.
  intros [Hm Hd]. unfold days_before_month, days_in_month in *.
  month_cases m; destruct (leap y); simpl in *; lia.
Qed.

Lemma day_number_norm y m d :
  1 <= m <= 12 ->
  day_number y m d = days_before_year y + days_before_month y m + (d - 1).
Proof.
  intros Hm. unfold day_number. rewrite Z.div_small, Z.mod_small by lia.
  by rewrite Z.add_0_r, Z.sub_add.
Qed.

(** The date of a day number is its calendar date. *)
Lemma civil_of_day_number y m d :
  valid_date y m d -> civil_of_day (day_number y m d) = (y, m, d).
Proof.
  intros Hv. pose proof (days_before_month_bounds y m d Hv) as Hb.
  destruct Hv as [Hm Hd]. rewrite day_number_norm by done. unfold civil_of_day.
  rewrite (year_of_day_unique _ y) by (rewrite days_before_year_step; lia).
  rewrite (month_of_yday_eq y m) by lia. f_equal. lia.
Qed.

Lemma civil_of_day_valid n y m d :
  civil_of_day n = (y, m, d) -> valid_date y m d /\ day_number y m d = n.
Proof.
  unfold civil_of_day. intros [= <- <- <-].
  set (y := year_of_day n). set (k := n - days_before_year y).
  assert (Hk : 0 <= k < (if leap y then 366 else 365)).
  { pose proof (year_of_day_spec n) as H. rewrite days_before_year_step in H.
    unfold k, y. lia. }
  destruct (month_of_yday_spec y k Hk) as [Hm Hd].
  split; [split; lia|]. rewrite day_number_norm by done. unfold k. lia.
Qed.

(** Later dates have larger day numbers: the order of the calendar. *)
Lemma day_number_first_month y m :
  1 <= m <= 12 ->
  day_number y (m + 1) 1 = day_number y m 1 + days_in_month y m.
Proof.
  intros Hm. unfold day_number.
  destruct (Z.eq_dec m 12) as [->|Hne].
  - change ((12 + 1 - 1) / 12) with 1. change ((12 + 1 - 1) mod 12) with 0.
    change ((12 - 1) / 12) with 0. change ((12 - 1) mod 12) with 11.
    rewrite !Z.add_0_r, days_before_year_step. unfold days_before_month, days_in_month.
    destruct (leap y); destruct (leap (y + 1)); simpl; lia.
  - rewrite !Z.div_small, !Z.mod_small by lia.
    rewrite !Z.add_0_r. unfold days_before_month, days_in_month.
    month_cases m; try lia; destruct (leap y); simpl; lia.
Qed.

Lemma day_number_day y m d e : day_number y m d = day_number y m e + (d - e).
Proof. unfold day_number. lia. Qed.

(** Shifting the month by a multiple of twelve shifts the year. *)
Lemma day_number_month_norm y m d :
  day_number y m d = day_number (y + (m - 1) / 12) ((m - 1) mod 12 + 1) d.
Proof.
  unfold day_number. rewrite Z.add_simpl_r.
  rewrite (Z.div_small ((m - 1) mod 12)) by (apply Z.mod_pos_bound; lia).
  rewrite Z.mod_mod by lia. by rewrite Z.add_0_r.
Qed.

Lemma day_number_next_month y m :
  day_number y (m + 1) 1 =
  day_number y m 1 + days_in_month (y + (m - 1) / 12) ((m - 1) mod 12 + 1).
Proof.
  rewrite (day_number_month_norm y m).
  rewrite <- day_number_first_month by (pose proof (Z.mod_pos_bound (m - 1) 12); lia).
  rewrite (day_number_month_norm y (m + 1)),
    (day_number_month_norm (y + _) (_ + 1 + 1)).
  replace (m + 1 - 1) with m by lia.
  f_equal; zdiv.
Qed.

Lemma day_number_month_mono y m k :
  0 <= k -> day_number y m 1 + 28 * k <= day_number y (m + k) 1.
Proof.
  intros Hk. pattern k. apply natlike_ind; [|clear k Hk|done].
  - rewrite !Z.add_0_r. lia.
  - intros k Hk IH. unfold Z.succ. rewrite Z.add_assoc, day_number_next_month.
    pose proof (days_in_month_pos (y + (m + k - 1) / 12) ((m + k - 1) mod 12 + 1)). lia.
Qed.

(** ** Facts about wall clocks in a fixed-offset zone *)

Section fixed_zone.
Context (off : Z).
Let loc := fixed_zone off.

Lemma wall_fixed t : wall loc t = unix t + off.
Proof. done. Qed.

Lemma Date_fixed y m d h mi s ns :
  Date y m d h mi s ns loc =
  ((day_number y m d - epoch_day) * 86400 + h * 3600 + mi * 60 + s - off) * second + ns.
Proof.
  unfold Date. cbn. destruct (Z.eqb_spec off 0) as [->|]; done.
Qed.

(** What the wall clock shows of an instant built by [Date]. *)
Lemma wall_Date y m d h mi s ns :
  0 <= ns < second ->
  wall loc (Date y m d h mi s ns loc) =
  (day_number y m d - epoch_day) * 86400 + h * 3600 + mi * 60 + s.
Proof.
  intros Hns. rewrite wall_fixed, Date_fixed. unfold unix.
  rewrite Z.div_add_l by done. rewrite (Z.div_small ns) by done. lia.
Qed.

Definition clock_ok (h mi s : Z) : Prop := 0 <= h < 24 /\ 0 <= mi < 60 /\ 0 <= s < 60.

Lemma local_day_Date y m d h mi s ns :
  0 <= ns < second -> clock_ok h mi s ->
  local_day loc (Date y m d h mi s ns loc) = day_number y m d.
Proof.
  intros Hns (Hh & Hmi & Hs). unfold local_day. rewrite wall_Date by done.
  replace (_ * 86400 + _ + _ + _) with
    ((day_number y m d - epoch_day) * 86400 + (h * 3600 + mi * 60 + s)) by lia.
  rewrite Z.div_add_l, Z.div_small by lia. lia.
Qed.

Lemma local_second_Date y m d h mi s ns :
  0 <= ns < second -> clock_ok h mi s ->
  local_second loc (Date y m d h mi s ns loc) = h * 3600 + mi * 60 + s.
Proof.
  intros Hns (Hh & Hmi & Hs). unfold local_second. rewrite wall_Date by done.
  replace (_ * 86400 + _ + _ + _) with
    (h * 3600 + mi * 60 + s + (day_number y m d - epoch_day) * 86400) by lia.
  rewrite Z.mod_add, Z.mod_small by lia. lia.
Qed.

(** An instant is determined by what the wall clock shows and its
    sub-second part. *)
Lemma time_of_local t :
  t = ((local_day loc t - epoch_day) * 86400 + local_second loc t - off) * second
      + Nanosecond t.
Proof.
  unfold local_day, local_second, Nanosecond. rewrite wall_fixed. unfold unix, second.
  zdiv.
Qed.

Lemma local_second_range t : 0 <= local_second loc t < 86400.
Proof. apply Z.mod_pos_bound. lia. Qed.

Lemma Nanosecond_range t : 0 <= Nanosecond t < second.
Proof. apply Z.mod_pos_bound. done. Qed.

Lemma Date_of_local_day t h mi s ns :
  Date (Year loc t) (Month loc t) (Day loc t) h mi s ns loc =
  ((local_day loc t - epoch_day) * 86400 + h * 3600 + mi * 60 + s - off) * second + ns.
Proof.
  rewrite Date_fixed. unfold Year, Month, Day.
  destruct (civil_of_day (local_day loc t)) as [[y m] d] eqn:E.
  apply civil_of_day_valid in E as [_ <-]. done.
Qed.

Lemma AddDate_days t n : AddDate loc t 0 0 n = t + n * (86400 * second).
Proof.
  unfold AddDate. rewrite !Z.add_0_r, Date_fixed, (day_number_day _ _ _ (Day loc t)).
  rewrite Z.add_simpl_l.
  assert (Hd : day_number (Year loc t) (Month loc t) (Day loc t) = local_day loc t).
  { unfold Year, Month, Day.
    destruct (civil_of_day (local_day loc t)) as [[y m] d] eqn:E.
    by apply civil_of_day_valid in E as [_ <-]. }
  rewrite Hd. pose proof (time_of_local t) as Ht.
  pose proof (local_second_range t). unfold Hour, Minute, Second.
  assert (Hs : local_second loc t / 3600 * 3600 + local_second loc t mod 3600 / 60 * 60
               + local_second loc t mod 60 = local_second loc t) by zdiv.
  unfold second in *. lia.
Qed.

Lemma clock_of t : clock_ok (Hour loc t) (Minute loc t) (Second loc t).
Proof.
  pose proof (local_second_range t). unfold clock_ok, Hour, Minute, Second. zdiv.
Qed.

Lemma local_second_clock t :
  local_second loc t = Hour loc t * 3600 + Minute loc t * 60 + Second loc t.
Proof. unfold Hour, Minute, Second. pose proof (local_second_range t). zdiv. Qed.

Lemma civil_valid t : valid_date (Year loc t) (Month loc t) (Day loc t).
Proof.
  unfold Year, Month, Day.
  destruct (civil_of_day (local_day loc t)) as [[y m] d] eqn:E.
  by apply civil_of_day_valid in E as [? _].
Qed.

Lemma local_day_civil t :
  local_day loc t = day_number (Year loc t) (Month loc t) (Day loc t).
Proof.
  unfold Year, Month, Day.
  destruct (civil_of_day (local_day loc t)) as [[y m] d] eqn:E.
  by apply civil_of_day_valid in E as [_ <-].
Qed.

Lemma civil_Date y m d h mi s ns :
  valid_date y m d -> 0 <= ns < second -> clock_ok h mi s ->
  let t := Date y m d h mi s ns loc in
  Year loc t = y /\ Month loc t = m /\ Day loc t = d /\
  Hour loc t = h /\ Minute loc t = mi /\ Second loc t = s.
Proof.
  intros Hv Hns Hc t. unfold Year, Month, Day, Hour, Minute, Second, t.
  rewrite local_day_Date, local_second_Date, civil_of_day_number by done.
  destruct Hc as (Hh & Hmi & Hs). repeat split; zdiv.
Qed.
End fixed_zone.
