(* ===== verification/Timestamp.v ===== *)
(** RFC 3339 timestamps with nanoseconds, in the form the control plane writes
    ([t.UTC().Format(time.RFC3339Nano)]) and reads back ([time.Parse]) for the
    activity stamps it keeps inside task payloads.  The reader is Go's strict
    RFC 3339 reader. *)

From S2P Require Import Prelude Calendar.
From Stdlib Require Import Ascii.

#[local] Coercion Z.of_nat : nat >-> Z.

(** ** Decimal digits *)

Definition digit (z : Z) : ascii := ascii_of_N (Z.to_N (48 + z)).

Definition digit_value (c : ascii) : option Z :=
  let n := Z.of_N (N_of_ascii c) - 48 in
  if (0 <=? n) && (n <=? 9) then Some n else None.

Lemma digit_value_digit z : 0 <= z <= 9 -> digit_value (digit z) = Some z.
Proof.
  intros H.
  assert (z = 0 \/ z = 1 \/ z = 2 \/ z = 3 \/ z = 4 \/ z = 5 \/ z = 6 \/ z = 7 \/
          z = 8 \/ z = 9) as Hz by lia.
  destruct Hz as [->|[->|[->|[->|[->|[->|[->|[->|[->| ->]]]]]]]]]; done.
Qed.

(** [k] decimal digits, most significant first, zero padded. *)
Fixpoint digits (k : nat) (z : Z) : string :=
  match k with
  | O => ""
  | S k => String (digit (z / 10 ^ k)) (digits k (z mod 10 ^ k))
  end.

(** Exactly [k] digits. *)
Fixpoint read_digits (k : nat) (acc : Z) (s : string) : option (Z * string) :=
  match k, s with
  | O, _ => Some (acc, s)
  | S k, String c s =>
      match digit_value c with
      | Some d => read_digits k (acc * 10 + d) s
      | None => None
      end
  | S _, EmptyString => None
  end.

Lemma read_digits_digits (k : nat) acc z s :
  0 <= z < 10 ^ k ->
  read_digits k acc (digits k z +:+ s) = Some (acc * 10 ^ k + z, s).
Proof.
  revert acc z. induction k as [|k IH]; intros acc z Hz.
  { change (10 ^ 0%nat) with 1 in *. simpl. f_equal. f_equal. lia. }
  rewrite Nat2Z.inj_succ, Z.pow_succ_r in * by lia. simpl.
  assert (Hp : 0 < 10 ^ k) by (apply Z.pow_pos_nonneg; lia).
  rewrite digit_value_digit.
  2:{ split; [apply Z.div_pos; lia|]. cut (z / 10 ^ k < 10); [lia|].
      apply Z.div_lt_upper_bound; lia. }
  rewrite IH by (apply Z.mod_pos_bound; lia).
  do 2 f_equal. pose proof (Z.div_mod z (10 ^ k)). lia.
Qed.

(** ** Fractional seconds *)

(** The nanoseconds as the digits after the point, trailing zeros dropped;
    empty for zero. *)
Fixpoint frac_digits (k : nat) (n : Z) : string :=
  if n =? 0 then "" else
  match k with
  | O => ""
  | S k => String (digit (n / 10 ^ k)) (frac_digits k (n mod 10 ^ k))
  end.

(** Reads at most [k] digits, each worth its place; further digits are read
    and dropped by [skip_digits]. *)
Fixpoint read_frac (k : nat) (s : string) : Z * string :=
  match k, s with
  | S k, String c s' =>
      match digit_value c with
      | Some d => let '(v, rest) := read_frac k s' in (d * 10 ^ k + v, rest)
      | None => (0, s)
      end
  | _, _ => (0, s)
  end.

Fixpoint skip_digits (s : string) : string :=
  match s with
  | String c s' =>
      match digit_value c with Some _ => skip_digits s' | None => s end
  | EmptyString => s
  end.

Lemma read_frac_digits (k : nat) n s :
  0 <= n < 10 ^ k -> read_frac k (frac_digits k n +:+ String "Z" s) = (n, String "Z" s).
Proof.
  revert n. induction k as [|k IH]; intros n Hn.
  { change (10 ^ 0%nat) with 1 in *. by replace n with 0 by lia. }
  rewrite Nat2Z.inj_succ, Z.pow_succ_r in * by lia. simpl.
  assert (Hp : 0 < 10 ^ k) by (apply Z.pow_pos_nonneg; lia).
  destruct (Z.eqb_spec n 0) as [->|Hz]; [done|]. simpl.
  rewrite digit_value_digit.
  2:{ split; [apply Z.div_pos; lia|]. cut (n / 10 ^ k < 10); [lia|].
      apply Z.div_lt_upper_bound; lia. }
  rewrite IH by (apply Z.mod_pos_bound; lia).
  f_equal. pose proof (Z.div_mod n (10 ^ k)). lia.
Qed.

(** ** Timestamps *)

(** [t.UTC().Format(time.RFC3339Nano)], for the years 0 to 9999 the layout has
    room for. *)
Definition format_rfc3339nano (t : time) : string :=
  digits 4 (Year utc t) +:+ "-" +:+ digits 2 (Month utc t) +:+ "-" +:+
  digits 2 (Day utc t) +:+ "T" +:+ digits 2 (Hour utc t) +:+ ":" +:+
  digits 2 (Minute utc t) +:+ ":" +:+ digits 2 (Second utc t) +:+
  (if Nanosecond t =? 0 then "" else "." +:+ frac_digits 9 (Nanosecond t)) +:+ "Z".

Definition expect (c : ascii) (s : string) : option string :=
  match s with
  | String c' s => if bool_decide (c = c') then Some s else None
  | EmptyString => None
  end.

(** The fraction, if any. *)
Definition read_fraction (s : string) : option (Z * string) :=
  match s with
  | String "."%char (String c _ as s') =>
      match digit_value c with
      | Some _ => let '(v, rest) := read_frac 9 s' in Some (v, skip_digits rest)
      | None => None
      end
  | String "."%char EmptyString => None
  | _ => Some (0, s)
  end.

(** [Z], or a numeric offset; the answer is the offset in seconds. *)
Definition read_offset (s : string) : option Z :=
  match s with
  | String "Z"%char EmptyString => Some 0
  | String sign s =>
      '(hh, s) ← read_digits 2 0 s;
      s ← expect ":" s;
      '(mm, s) ← read_digits 2 0 s;
      if bool_decide (s = "") && (hh <=? 24) && (mm <? 60) then
        if bool_decide (sign = "+"%char) then Some (hh * 3600 + mm * 60)
        else if bool_decide (sign = "-"%char) then Some (- (hh * 3600 + mm * 60))
        else None
      else None
  | EmptyString => None
  end.

(** [time.Parse(time.RFC3339Nano, s)]. *)
Definition parse_rfc3339 (s : string) : option time :=
  '(y, s) ← read_digits 4 0 s;
  s ← expect "-" s;
  '(mo, s) ← read_digits 2 0 s;
  s ← expect "-" s;
  '(d, s) ← read_digits 2 0 s;
  s ← expect "T" s;
  '(h, s) ← read_digits 2 0 s;
  s ← expect ":" s;
  '(mi, s) ← read_digits 2 0 s;
  s ← expect ":" s;
  '(sec, s) ← read_digits 2 0 s;
  '(ns, s) ← read_fraction s;
  off ← read_offset s;
  if (1 <=? mo) && (mo <=? 12) && (1 <=? d) && (d <=? days_in_month y mo) &&
     (h <=? 23) && (mi <=? 59) && (sec <=? 59)
  then Some (Date y mo d h mi sec ns utc - off * second)
  else None.

(** ** Round trip *)

Lemma expect_hit c s : expect c (String c s) = Some s.
Proof. simpl. by rewrite bool_decide_eq_true_2. Qed.

Lemma string_app_assoc s t u : (s +:+ t) +:+ u = s +:+ (t +:+ u).
Proof.
  induction s as [|c s IH]; [done|].
  change (String c ((s +:+ t) +:+ u) = String c (s +:+ (t +:+ u))). by rewrite IH.
Qed.

Lemma string_app_String c s t : String c s +:+ t = String c (s +:+ t).
Proof. done. Qed.

Lemma string_app_nil t : "" +:+ t = t.
Proof. done. Qed.

Lemma frac_digits_head (k : nat) n :
  n <> 0 -> 0 <= n < 10 ^ S k ->
  exists d s, frac_digits (S k) n = String d s /\ is_Some (digit_value d).
Proof.
  intros Hn Hk. exists (digit (n / 10 ^ k)), (frac_digits k (n mod 10 ^ k)).
  simpl frac_digits. destruct (Z.eqb_spec n 0); [done|]. split; [done|].
  exists (n / 10 ^ k). apply digit_value_digit.
  assert (Hp : 0 < 10 ^ k) by (apply Z.pow_pos_nonneg; lia).
  rewrite Nat2Z.inj_succ, Z.pow_succ_r in Hk by lia.
  split; [apply Z.div_pos; lia|]. cut (n / 10 ^ k < 10); [lia|].
  apply Z.div_lt_upper_bound; lia.
Qed.

Lemma read_fraction_format n :
  0 <= n < second ->
  read_fraction ((if n =? 0 then "" else "." +:+ frac_digits 9 n) +:+ "Z") = Some (n, "Z").
Proof.
  intros Hn. destruct (Z.eqb_spec n 0) as [->|Hz]; [done|].
  destruct (frac_digits_head 8 n Hz Hn) as (d & s & Hd & [v Hv]).
  pose proof (read_frac_digits 9 n "" Hn) as Hr. rewrite Hd in *.
  change (("." +:+ String d s) +:+ "Z") with (String "." (String d (s +:+ "Z"))).
  cbn [read_fraction]. rewrite Hv.
  change (String d s +:+ "Z") with (String d (s +:+ "Z")) in Hr. by rewrite Hr.
Qed.

(** A stamp written with [Format] is read back as the same instant. *)
Lemma parse_format t :
  0 <= Year utc t <= 9999 -> parse_rfc3339 (format_rfc3339nano t) = Some t.
Proof.
  intros Hy. pose proof (civil_valid 0 t) as [Hm Hd]. fold utc in Hm, Hd.
  pose proof (days_in_month_pos (Year utc t) (Month utc t)) as Hdm.
  destruct (clock_of 0 t) as (Hh & Hmi & Hs). fold utc in Hh, Hmi, Hs.
  unfold format_rfc3339nano, parse_rfc3339.
  assert (Hp : forall (k : nat) z s c, 0 <= z < 10 ^ k ->
    read_digits k 0 (digits k z +:+ String c s) = Some (z, String c s)).
  { intros k z s c Hz. by rewrite read_digits_digits. }
  repeat first [rewrite string_app_assoc | rewrite string_app_String | rewrite string_app_nil].
  repeat (rewrite Hp by lia; cbn [mbind option_bind]; rewrite expect_hit;
          cbn [mbind option_bind]).
  rewrite read_digits_digits by lia. cbn [mbind option_bind].
  rewrite read_fraction_format by apply Nanosecond_range. cbn [mbind option_bind].
  cbn [read_offset mbind option_bind].
  replace (_ && _) with true by (symmetry; go_bool; lia). f_equal.
  pose proof (Date_of_local_day 0 t) as HD. pose proof (time_of_local 0 t) as Ht.
  pose proof (local_second_clock 0 t) as Hc. fold utc in HD, Ht, Hc.
  rewrite HD. unfold second in *. f_equal. lia.
Qed.
