(* ===== verification/Value.v ===== *)
(** Dynamically typed payload values ([map[string]any] and JSON documents) and
    the accessors the control plane reads them with
    (httpserver/task_payload.go, backup_events.go, protection_activation.go).

    The numeric dynamic types (int, int32, int64, float32, float64,
    json.Number) are one constructor: every reader of the program treats them
    alike, as an integer.  Fractions and magnitudes above 2^53 are outside the
    model; the program only stores sizes, counts, seconds and percentages.  A
    nil map and an empty map are the same [document]; the code tests their
    length, not their nilness, except where a definition says otherwise. *)

From S2P Require Import Prelude Calendar Timestamp.
From Stdlib Require Import Ascii.

Inductive value :=
| VNull
| VBool (b : bool)
| VNum (z : Z)
| VStr (s : string)
| VTime (t : time)
| VStrs (l : list string)
| VList (l : list value)
| VStrMap (m : gmap string string)
| VObj (m : gmap string value).

Abbreviation document := (gmap string value).

(** [m[key]]: a missing key reads as nil. *)
Definition get (m : document) (key : string) : value := default VNull (m !! key).

(** ** JSON

    [jsonify v] is what storing [v] as jsonb and reading it back yields. *)
Fixpoint jsonify (v : value) : value :=
  match v with
  | VNull => VNull
  | VBool b => VBool b
  | VNum z => VNum z
  | VStr s => VStr s
  | VTime t => VStr (format_rfc3339nano t)
  | VStrs l => VList (VStr <$> l)
  | VList l => VList (map jsonify l)
  | VStrMap m => VObj (VStr <$> m)
  | VObj m => VObj (jsonify <$> m)
  end.

Definition jsonify_doc (m : document) : document := jsonify <$> m.

(** JSON text as a list of tokens; objects list their keys in an order that
    depends only on the object, as [json.Marshal] does. *)
Inductive token :=
| TNull | TBool (b : bool) | TNum (z : Z) | TStr (s : string)
| TOpen | TClose | TBegin | TKey (k : string) | TEnd.

#[export] Instance token_eq_dec : EqDecision token.
Proof. solve_decision. Defined.

Fixpoint encode (v : value) : list token :=
  match v with
  | VNull => [TNull]
  | VBool b => [TBool b]
  | VNum z => [TNum z]
  | VStr s => [TStr s]
  | VTime t => [TStr (format_rfc3339nano t)]
  | VStrs l => TOpen :: (TStr <$> l) ++ [TClose]
  | VList l => TOpen :: List.flat_map encode l ++ [TClose]
  | VStrMap m => TBegin :: map_fold (fun k s acc => TKey k :: TStr s :: acc) [TEnd] m
  | VObj m => TBegin :: map_fold (fun k v acc => TKey k :: encode v ++ acc) [TEnd] m
  end.

(** ** Strings *)

Definition is_space (c : ascii) : bool :=
  let n := N_of_ascii c in
  bool_decide (n = 32%N) || ((9 <=? n)%N && (n <=? 13)%N).

Fixpoint trim_left (s : string) : string :=
  match s with
  | String c s' => if is_space c then trim_left s' else s
  | EmptyString => EmptyString
  end.

(** Drops trailing white space. *)
Fixpoint trim_right (s : string) : string :=
  match s with
  | EmptyString => EmptyString
  | String c s' =>
      match trim_right s' with
      | EmptyString => if is_space c then EmptyString else String c EmptyString
      | s'' => String c s''
      end
  end.

(** [strings.TrimSpace], on ASCII white space. *)
Definition TrimSpace (s : string) : string := trim_right (trim_left s).

Definition lower (c : ascii) : ascii :=
  let n := N_of_ascii c in
  if (65 <=? n)%N && (n <=? 90)%N then ascii_of_N (n + 32) else c.

(** [strings.ToLower], on ASCII letters. *)
Fixpoint ToLower (s : string) : string :=
  match s with
  | EmptyString => EmptyString
  | String c s => String (lower c) (ToLower s)
  end.

Definition EqualFold (s t : string) : bool := ToLower s =s ToLower t.

(** ** Accessors of task_payload.go *)

Definition as_string (v : value) : string := match v with VStr s => s | _ => "" end.
Definition as_bool (v : value) : bool := match v with VBool b => b | _ => false end.

Definition stringPayload (payload : document) (key : string) : string :=
  as_string (get payload key).

Definition boolPayload (payload : document) (key : string) : bool :=
  as_bool (get payload key).

Definition stringFromMap (values : document) (key : string) : string :=
  as_string (get values key).

Definition nonempty_strings (l : list value) : list string :=
  List.filter nonempty (as_string <$> l).

Definition stringSlicePayload (payload : document) (key : string) : list string :=
  match get payload key with
  | VList raw => nonempty_strings raw
  | VStrs l => l
  | _ => []
  end.

Definition nonempty_entries (m : document) : gmap string string :=
  omap (fun v => match v with VStr s => if nonempty s then Some s else None | _ => None end) m.

Definition stringMapPayload (payload : document) (key : string) : gmap string string :=
  match get payload key with
  | VObj raw => nonempty_entries raw
  | VStrMap m => m
  | _ => ∅
  end.

Definition mapPayload (values : document) (key : string) : document :=
  match get values key with
  | VObj raw => raw
  | VStrMap m => VStr <$> m
  | _ => ∅
  end.

Definition firstStringFromAny (v : value) : string :=
  match v with
  | VStrs (s :: _) => s
  | VList (x :: _) => as_string x
  | _ => ""
  end.

Definition firstStringFromStrings (values : list string) : string :=
  match values with [] => "" | s :: _ => s end.

Definition firstNonEmptyString (values : list string) : string :=
  default "" (find_first (fun s => nonempty (TrimSpace s)) values).

(** The loop shared by [uniqueNonEmptyStrings] and [dedupeStrings]: trimmed,
    empty values dropped, later duplicates dropped. *)
Fixpoint unique_from (seen : gset string) (values : list string) : list string :=
  match values with
  | [] => []
  | v :: values =>
      let v := TrimSpace v in
      if negb (nonempty v) || bool_decide (v ∈ seen) then unique_from seen values
      else v :: unique_from ({[v]} ∪ seen) values
  end.

Definition uniqueNonEmptyStrings (values : list string) : list string :=
  unique_from ∅ values.

Definition dedupeStrings (values : list string) : list string := unique_from ∅ values.

Definition stringArrayFromAny (v : value) : list string :=
  match v with
  | VStrs l => uniqueNonEmptyStrings l
  | VList l => uniqueNonEmptyStrings (nonempty_strings l)
  | _ => []
  end.

Definition parseTimeFromAny (v : value) : time :=
  match v with
  | VTime t => t
  | VStr s => default zero_time (parse_rfc3339 s)
  | _ => zero_time
  end.

(** ** Accessors of backup_events.go *)

Definition mapFromAny (v : value) : document :=
  match v with
  | VObj m => m
  | VStrMap m => VStr <$> m
  | _ => ∅
  end.

(** A value that is not a map marshals to JSON text that does not read back
    as an object, unless it was a struct; structs are stored as the object
    they marshal to. *)
Definition mapFromAnyJSON (v : value) : document := mapFromAny (jsonify v).

Definition firstNonEmptyMap (values : list document) : document :=
  default ∅ (find_first (fun m => negb (bool_decide (m = ∅))) values).

Definition sliceFromAny (v : value) : list value :=
  match v with VList l => l | _ => [] end.

(** ** Numbers written as strings *)

Definition any_digit (c : ascii) : option Z :=
  let n := Z.of_N (N_of_ascii (lower c)) in
  if (48 <=? n) && (n <=? 57) then Some (n - 48)
  else if (97 <=? n) && (n <=? 102) then Some (n - 87)
  else None.

Definition is_underscore (c : ascii) : bool := bool_decide (c = "_"%char).

Definition digit_below (base : Z) (c : ascii) : bool :=
  match any_digit c with Some d => d <? base | None => false end.

Fixpoint span (p : ascii -> bool) (s : string) : string * string :=
  match s with
  | String c s' => if p c then let '(t, r) := span p s' in (String c t, r) else ("", s)
  | EmptyString => ("", "")
  end.

(** Underscores must separate digits; [prev] is whether the previous character
    was a digit or a base prefix. *)
Fixpoint underscores_ok (prev : bool) (s : string) : bool :=
  match s with
  | EmptyString => true
  | String c s =>
      if is_underscore c then
        prev && (match s with EmptyString => false | _ => true end) && underscores_ok false s
      else underscores_ok true s
  end.

Fixpoint numeral (base acc : Z) (s : string) : option Z :=
  match s with
  | EmptyString => Some acc
  | String c s =>
      if is_underscore c then numeral base acc s
      else match any_digit c with
           | Some d => if d <? base then numeral base (acc * base + d) s else None
           | None => None
           end
  end.

Definition in_int64 (z : Z) : bool := (- 2 ^ 63 <=? z) && (z <? 2 ^ 63).

Definition split_sign (s : string) : bool * string :=
  match s with
  | String "-"%char s => (true, s)
  | String "+"%char s => (false, s)
  | _ => (false, s)
  end.

(** The base announced by the prefix of a numeral, and the digits after it. *)
Definition base_prefix (s : string) : Z * bool * string :=
  match s with
  | String "0"%char (String c r as t) =>
      match lower c with
      | "b"%char => (2, true, r)
      | "o"%char => (8, true, r)
      | "x"%char => (16, true, r)
      | _ => (8, false, t)
      end
  | String "0"%char EmptyString => (8, false, "")
  | _ => (10, false, s)
  end.

(** [fmt.Sscan(s, &parsed)] for an int64: [None] is an error. *)
Definition sscan_int64 (s : string) : option Z :=
  let '(neg, s) := split_sign s in
  let '(base, prefixed, body) := base_prefix s in
  let '(tok, _) := span (fun c => digit_below base c || is_underscore c) body in
  if (prefixed || (base =? 10)) && negb (nonempty tok) then None
  else if negb (underscores_ok (prefixed || (base =? 8)) tok) then None
  else
    n ← numeral base 0 tok;
    let z := if neg then - n else n in
    if in_int64 z then Some z else None.

Definition int64FromAny (v : value) : Z :=
  match v with
  | VNum z => z
  | VStr s => default 0 (sscan_int64 (TrimSpace s))
  | _ => 0
  end.

(** [strconv.Atoi], whose value survives a range error (clamped) but not a
    syntax error. *)
Definition atoi_value (s : string) : Z :=
  let '(neg, s) := split_sign s in
  let '(tok, rest) := span (digit_below 10) s in
  if negb (nonempty tok) || nonempty rest then 0
  else
    let n := default 0 (numeral 10 0 tok) in
    if neg then Z.max (- n) (- 2 ^ 63) else Z.min n (2 ^ 63 - 1).

Definition taskPayloadInt (payload : document) (key : string) : Z :=
  match get payload key with
  | VNum z => z
  | VStr s => atoi_value s
  | _ => 0
  end.

Definition taskPayloadBool (payload : document) (key : string) : bool :=
  match get payload key with
  | VBool b => b
  | VStr s => EqualFold s "true"
  | _ => false
  end.

(** ** [fmt.Sprint] of a payload value *)

Fixpoint decimal (fuel : nat) (z : Z) (acc : string) : string :=
  match fuel with
  | O => acc
  | S fuel =>
      let acc := String (digit (z mod 10)) acc in
      if z <? 10 then acc else decimal fuel (z / 10) acc
  end.

(** Decimal text of a number below 10^21, where [%v] of a float64 switches to
    an exponent. *)
Definition sprint_num (z : Z) : string :=
  if z <? 0 then "-" +:+ decimal 21 (- z) "" else decimal 21 z "".

Definition join (sep : string) (l : list string) : string :=
  match l with
  | [] => ""
  | s :: l => foldl (fun acc t => acc +:+ sep +:+ t) s l
  end.

Definition key_le (x y : string * string) : Prop := String.leb (fst x) (fst y) = true.
#[export] Instance key_le_dec : RelDecision key_le.
Proof. intros x y. unfold key_le. apply _. Defined.

Definition sprint_map (entries : list (string * string)) : string :=
  "map[" +:+
  join " " ((fun '(k, s) => k +:+ ":" +:+ s) <$> merge_sort key_le entries) +:+ "]".

(** [time.Time]'s [String] for a UTC time. *)
Definition sprint_time (t : time) : string :=
  digits 4 (Year utc t) +:+ "-" +:+ digits 2 (Month utc t) +:+ "-" +:+
  digits 2 (Day utc t) +:+ " " +:+ digits 2 (Hour utc t) +:+ ":" +:+
  digits 2 (Minute utc t) +:+ ":" +:+ digits 2 (Second utc t) +:+
  (if Nanosecond t =? 0 then "" else "." +:+ frac_digits 9 (Nanosecond t)) +:+
  " +0000 UTC".

Fixpoint sprint (v : value) : string :=
  match v with
  | VNull => "<nil>"
  | VBool b => if b then "true" else "false"
  | VNum z => sprint_num z
  | VStr s => s
  | VTime t => sprint_time t
  | VStrs l => "[" +:+ join " " l +:+ "]"
  | VList l => "[" +:+ join " " (map sprint l) +:+ "]"
  | VStrMap m => sprint_map (map_to_list m)
  | VObj m => sprint_map (map_fold (fun k v acc => (k, sprint v) :: acc) [] m)
  end.

Definition taskPayloadString (payload : document) (key : string) : string :=
  match get payload key with
  | VNull => ""
  | v => sprint v
  end.

(** ** encoding/json into a struct

    A field is matched by its name in any letter case; the keys of a document
    are met in byte order, null leaves a field alone, and a value of the wrong
    type is an error. *)

Definition entry_le (x y : string * value) : Prop := String.le (fst x) (fst y).
#[export] Instance entry_le_dec : RelDecision entry_le.
Proof. intros x y. unfold entry_le. apply _. Defined.

Definition field_values (m : document) (name : string) : list value :=
  snd <$> merge_sort entry_le (List.filter (fun '(k, _) => EqualFold k name) (map_to_list m)).

Definition decode_field {A} (step : A -> value -> option A) (m : document) (name : string)
    (initial : A) : option A :=
  foldl (fun acc v => a ← acc; match v with VNull => Some a | v => step a v end)
    (Some initial) (field_values m name).

Definition decode_string (_ : string) (v : value) : option string :=
  match v with VStr s => Some s | _ => None end.
Definition decode_bool (_ : bool) (v : value) : option bool :=
  match v with VBool b => Some b | _ => None end.
Definition decode_int (_ : Z) (v : value) : option Z :=
  match v with VNum z => if in_int64 z then Some z else None | _ => None end.

(** ** Facts *)

Lemma get_insert m k v : get (<[k := v]> m) k = v.
Proof. unfold get. by rewrite lookup_insert_eq. Qed.

Lemma get_insert_ne m k j v : k <> j -> get (<[k := v]> m) j = get m j.
Proof. intros. unfold get. by rewrite lookup_insert_ne. Qed.

Lemma get_delete m k : get (delete k m) k = VNull.
Proof. unfold get. by rewrite lookup_delete_eq. Qed.

Lemma get_delete_ne m k j : k <> j -> get (delete k m) j = get m j.
Proof. intros. unfold get. by rewrite lookup_delete_ne. Qed.

Lemma get_empty k : get ∅ k = VNull.
Proof. done. Qed.

Lemma get_jsonify_doc m k : get (jsonify_doc m) k = jsonify (get m k).
Proof. unfold get, jsonify_doc. rewrite lookup_fmap. by destruct (m !! k). Qed.

(** jsonb concatenation [a || b] takes the right operand's value of a key. *)
Lemma get_union (a b : document) k :
  get (b ∪ a) k = match b !! k with Some v => v | None => get a k end.
Proof.
  unfold get. destruct (b !! k) eqn:E.
  - by erewrite lookup_union_Some_l.
  - by rewrite lookup_union_r.
Qed.

Create Rewrite HintDb doc.
#[export] Hint Rewrite get_insert get_delete get_empty : doc.
#[export] Hint Rewrite get_insert_ne get_delete_ne using done : doc.

Lemma unique_from_spec seen l :
  NoDup (unique_from seen l) /\
  forall s, s ∈ unique_from seen l <->
    s ∉ seen /\ s <> "" /\ exists v, v ∈ l /\ TrimSpace v = s.
Proof.
  revert seen. induction l as [|v l IH]; intros seen; simpl.
  - split; [constructor|]. intros s. split; [inversion 1|].
    intros (_ & _ & v & Hv & _). inversion Hv.
  - destruct (_ || _) eqn:E; go_bool.
    + destruct (IH seen) as [Hnd Hin]. split; [done|]. intros s. rewrite Hin.
      split; intros (Hs & Hne & w & Hw & Ht); (split; [done|split; [done|]]).
      * exists w. split; [by right|done].
      * apply elem_of_cons in Hw as [->|Hw]; [|by exists w].
        destruct E as [E|E]; [congruence|]. apply bool_decide_eq_true in E. congruence.
    + destruct E as [Hne Hns]. apply bool_decide_eq_false in Hns.
      destruct (IH ({[TrimSpace v]} ∪ seen)) as [Hnd Hin]. split.
      { constructor; [|done]. rewrite Hin. set_solver. }
      intros s. rewrite elem_of_cons, Hin. split.
      * intros [->|(Hs & Hs' & w & Hw & Ht)].
        -- split; [done|split; [done|]]. exists v. split; [left|done].
        -- split; [set_solver|split; [done|]]. exists w. split; [by right|done].
      * intros (Hs & Hs' & w & Hw & Ht).
        destruct (decide (s = TrimSpace v)) as [->|Hd]; [by left|right].
        split; [set_solver|split; [done|]].
        apply elem_of_cons in Hw as [->|Hw]; [congruence|]. by exists w.
Qed.
