(* ===== verification/Types.v ===== *)
(** The structs of backend/internal/store/types.go that the modelled code
    computes with.  Field names carry a short prefix per struct, since Rocq
    projections share one name space. *)

From S2P Require Import Prelude Calendar Value.

Record RetentionRule := {
  rule_Period : string;
  rule_Ordinal : Z;
  rule_Keep : Z
}.

#[export] Instance RetentionRule_eq_dec : EqDecision RetentionRule.
Proof. solve_decision. Defined.

Record RetentionReason := {
  reason_Period : string;
  reason_Ordinal : Z;
  reason_Until : time
}.

Record Policy := {
  pol_RetentionRules : list RetentionRule;
  pol_RetentionTimezone : string;
  pol_ID : string;
  pol_TenantID : string;
  pol_Name : string;
  pol_Composition : string;
  pol_ScheduleType : string;
  pol_IntervalValue : Z;
  pol_IntervalUnit : string;
  pol_Hour : Z;
  pol_Minute : Z;
  pol_WeekDay : Z;
  pol_MonthDay : Z;
  pol_RetentionCount : Z;
  pol_RetentionDays : Z;
  pol_Status : string;
  pol_BoundCount : Z;
  pol_CreatedAt : time;
  pol_UpdatedAt : time
}.

Record Task := {
  task_ID : string;
  task_TenantID : string;
  task_ClusterID : string;
  task_AppID : string;
  task_ProtectionPlanID : string;
  task_RestorePointID : string;
  task_Type : string;
  task_Status : string;
  task_Progress : Z;
  task_CommandID : string;
  task_ErrorCode : string;
  task_ErrorMessage : string;
  task_Payload : document;
  task_CreatedAt : time;
  task_DispatchedAt : time;
  task_AcceptedAt : time;
  task_StartedAt : time;
  task_CompletedAt : time
}.

Record RestorePoint := {
  rp_ID : string;
  rp_TenantID : string;
  rp_ProtectionPlanID : string;
  rp_SourceClusterID : string;
  rp_AppID : string;
  rp_StorageRepoID : string;
  rp_DisplayName : string;
  rp_VeleroBackupName : string;
  rp_PointType : string;
  rp_Status : string;
  rp_SizeBytes : Z;
  rp_StartedAt : time;
  rp_CompletedAt : time;
  rp_ExpiresAt : time;
  rp_SourceNamespace : string;
  rp_LabelSelector : string;
  rp_BackupTaskID : string;
  rp_BackupStorageName : string;
  rp_TaskCreatedAt : time;
  rp_Metadata : document;
  rp_SizeMetricsV2 : document;
  rp_CreatedAt : time
}.

Record RestorePointInput := {
  rpi_ProtectionPlanID : string;
  rpi_SourceClusterID : string;
  rpi_AppID : string;
  rpi_StorageRepoID : string;
  rpi_DisplayName : string;
  rpi_TaskCreatedAt : time;
  rpi_VeleroBackupName : string;
  rpi_PointType : string;
  rpi_Status : string;
  rpi_SizeBytes : Z;
  rpi_StartedAt : time;
  rpi_CompletedAt : time;
  rpi_ExpiresAt : time;
  rpi_SourceNamespace : string;
  rpi_LabelSelector : string;
  rpi_BackupTaskID : string;
  rpi_BackupStorageName : string;
  rpi_Metadata : document;
  rpi_SizeMetricsV2 : document
}.

Record RestorePointStateInput := {
  rps_ID : string;
  rps_Status : string;
  rps_Metadata : document
}.

Record TaskInput := {
  ti_TenantID : string;
  ti_ClusterID : string;
  ti_AppID : string;
  ti_ProtectionPlanID : string;
  ti_RestorePointID : string;
  ti_Type : string;
  ti_Status : string;
  ti_CommandID : string;
  ti_Payload : document;
  ti_SuppressLatestPointer : bool
}.

Record TaskFilter := {
  tf_CapacityTrigger : string;
  tf_CapacityScheduleDay : string;
  tf_CapacityPlanID : string;
  tf_TenantID : string;
  tf_RegistrationOwnerID : string;
  tf_RegistrationKey : string;
  tf_RegistrationSessionID : string;
  tf_ClusterID : string;
  tf_ProtectionPlanID : string;
  tf_Types : list string;
  tf_Statuses : list string;
  tf_Limit : Z;
  tf_Summary : bool
}.

Record RestorePointFilter := {
  pf_TenantID : string;
  pf_ClusterID : string;
  pf_AppID : string;
  pf_ProtectionPlanID : string;
  pf_IncludeDeleted : bool;
  pf_Limit : Z;
  pf_Offset : Z;
  pf_Summary : bool
}.

Record TaskStatusInput := {
  tsi_TaskID : string;
  tsi_RestorePointID : string;
  tsi_Status : string;
  tsi_Progress : Z;
  tsi_ErrorCode : string;
  tsi_ErrorMessage : string;
  tsi_Payload : document;
  tsi_MarkAccepted : bool;
  tsi_MarkStarted : bool;
  tsi_MarkDone : bool
}.

Record TaskEventInput := {
  tei_TaskID : string;
  tei_Level : string;
  tei_Reason : string;
  tei_Message : string;
  tei_Payload : document
}.

Record TaskEvent := {
  te_ID : string;
  te_TaskID : string;
  te_Level : string;
  te_Reason : string;
  te_Message : string;
  te_Payload : document;
  te_CreatedAt : time
}.

Record DiagnosticLogInput := {
  dli_TenantID : string;
  dli_Scope : string;
  dli_Level : string;
  dli_Component : string;
  dli_Operation : string;
  dli_Message : string;
  dli_ClusterID : string;
  dli_TaskID : string;
  dli_CommandID : string;
  dli_RequestID : string;
  dli_ErrorCode : string;
  dli_Status : string;
  dli_DurationMS : Z;
  dli_Details : document;
  dli_EventAt : time;
  dli_Fingerprint : string
}.

Record StorageRepository := {
  repo_ID : string;
  repo_TenantID : string;
  repo_Name : string;
  repo_Type : string;
  repo_Endpoint : string;
  repo_Bucket : string;
  repo_Region : string;
  repo_TLSEnabled : bool;
  repo_Status : string;
  repo_Config : document;
  repo_SecretRef : string;
  repo_Secret : gmap string string;
  repo_LastValidatedAt : time;
  repo_CreatedAt : time;
  repo_UpdatedAt : time
}.

Record ProtectionPlanSchedule := {
  sched_ProtectionPlanID : string;
  sched_LastFiredAt : time;
  sched_NextFireAt : time;
  sched_Enabled : bool;
  sched_CreatedAt : time;
  sched_UpdatedAt : time
}.

Record ProtectionPlanScheduleInput := {
  schedi_ProtectionPlanID : string;
  schedi_NextFireAt : time;
  schedi_Enabled : bool
}.

Record ProtectionPlanScheduleFiredInput := {
  schedf_ProtectionPlanID : string;
  schedf_LastFiredAt : time;
  schedf_NextFireAt : time
}.

Record PolicyInput := {
  poli_RetentionRules : list RetentionRule;
  poli_RetentionTimezone : string;
  poli_TenantID : string;
  poli_Name : string;
  poli_Composition : string;
  poli_ScheduleType : string;
  poli_IntervalValue : Z;
  poli_IntervalUnit : string;
  poli_Hour : Z;
  poli_Minute : Z;
  poli_WeekDay : Z;
  poli_MonthDay : Z;
  poli_RetentionCount : Z;
  poli_RetentionDays : Z;
  poli_Status : string
}.

Record ResourceSelection := {
  rs_Mode : string;
  rs_NamespaceScoped : list string;
  rs_ClusterScoped : list string
}.

Record LabelSelectorExpression := {
  lse_Key : string;
  lse_Operator : string;
  lse_Values : list string
}.

Record LabelSelector := {
  ls_MatchLabels : gmap string string;
  ls_MatchExpressions : list LabelSelectorExpression
}.

Record ProtectionPlan := {
  plan_ID : string;
  plan_TenantID : string;
  plan_SourceClusterID : string;
  plan_AppID : string;
  plan_AppIDs : list string;
  plan_ScopeType : string;
  plan_IncludedResources : list string;
  plan_ResourceSelection : ResourceSelection;
  plan_LabelSelector : LabelSelector;
  plan_IncludeClusterScoped : bool;
  plan_StorageRepoID : string;
  plan_PolicyID : string;
  plan_TargetClusterID : string;
  plan_ExcludedResources : list string;
  plan_PreHooks : list document;
  plan_PostHooks : list document;
  plan_PlanStorageSize : document;
  plan_NextFireAt : time;
  plan_ScheduleEnabled : bool;
  plan_LatestSyncTaskID : string;
  plan_LatestRecoveryTaskID : string;
  plan_Status : string;
  plan_CreatedAt : time;
  plan_UpdatedAt : time
}.

Record ProtectionPlanInput := {
  plani_TenantID : string;
  plani_SourceClusterID : string;
  plani_AppID : string;
  plani_AppIDs : list string;
  plani_ScopeType : string;
  plani_IncludedResources : list string;
  plani_ResourceSelection : ResourceSelection;
  plani_LabelSelector : LabelSelector;
  plani_IncludeClusterScoped : bool;
  plani_StorageRepoID : string;
  plani_PolicyID : string;
  plani_TargetClusterID : string;
  plani_ExcludedResources : list string;
  plani_PreHooks : list document;
  plani_PostHooks : list document;
  plani_Status : string
}.
