(* ===== verification/Wire.v ===== *)
(** JSON decoding driven by Go types: what encoding/json does with the structs
    of the agent protocol.

    The program decodes a payload into [reflect.New(contract.payload)]: the type
    is data to it, and it is data here.  [accepts t v] says that unmarshalling
    the JSON value [v] into a variable of type [t] reports no error; [typed t v]
    that [v] is what marshalling some Go value of type [t] produces. *)

From S2P Require Import Prelude Calendar Timestamp Value.

(** Field: JSON name, whether it is omitempty, type. *)
Inductive gotype :=
| GString
| GBool
| GInt (bits : Z)
| GFloat
| GTime
| GAny
| GPtr (t : gotype)
| GSlice (t : gotype)
| GMap (t : gotype)
| GStruct (fields : list (string * bool * gotype)).

Definition opt (name : string) (t : gotype) : string * bool * gotype := (name, true, t).
Definition req (name : string) (t : gotype) : string * bool * gotype := (name, false, t).

Definition fits (bits z : Z) : bool := (- 2 ^ (bits - 1) <=? z) && (z <? 2 ^ (bits - 1)).

(** A key of the object goes to the field of that name, in any letter case, and
    is ignored when there is none; null is accepted by every type. *)
Fixpoint accepts (t : gotype) (v : value) {struct t} : bool :=
  match v with
  | VNull => true
  | _ =>
      match t, v with
      | GString, VStr _ => true
      | GBool, VBool _ => true
      | GInt bits, VNum z => fits bits z
      | GFloat, VNum _ => true
      | GTime, VStr s => match parse_rfc3339 s with Some _ => true | None => false end
      | GAny, _ => true
      | GPtr t, _ => accepts t v
      | GSlice t, VList l => forallb (accepts t) l
      | GMap t, VObj m => forallb (fun '(_, x) => accepts t x) (map_to_list m)
      | GStruct fields, VObj m =>
          forallb (fun '(k, x) =>
            (fix go (fields : list (string * bool * gotype)) :=
               match fields with
               | [] => true
               | (name, _, ft) :: fields => if EqualFold k name then accepts ft x else go fields
               end) fields) (map_to_list m)
      | _, _ => false
      end
  end.

(** What [json.Marshal] writes: nil pointers, slices and maps as null, the fields
    of a struct under their names, those marked omitempty possibly left out. *)
Fixpoint typed (t : gotype) (v : value) {struct t} : bool :=
  match t, v with
  | GString, VStr _ => true
  | GBool, VBool _ => true
  | GInt bits, VNum z => fits bits z
  | GFloat, VNum _ => true
  | GTime, VStr s => match parse_rfc3339 s with Some _ => true | None => false end
  | GAny, _ => true
  | GPtr _, VNull => true
  | GPtr t, v => typed t v
  | GSlice _, VNull => true
  | GSlice t, VList l => forallb (typed t) l
  | GMap _, VNull => true
  | GMap t, VObj m => forallb (fun '(_, x) => typed t x) (map_to_list m)
  | GStruct fields, VObj m =>
      (fix go (fields : list (string * bool * gotype)) (m : gmap string value) :=
         match fields with
         | [] => bool_decide (m = ∅)
         | (name, omitempty, ft) :: fields =>
             match m !! name with
             | Some x => typed ft x
             | None => omitempty
             end && go fields (delete name m)
         end) fields m
  | _, _ => false
  end.

(** The field a key goes to. *)
Definition field_named (fields : list (string * bool * gotype)) (k : string)
    : option (string * bool * gotype) :=
  find_first (fun '(name, _, _) => EqualFold k name) fields.

Definition field_name (f : string * bool * gotype) : string := fst (fst f).
Definition field_type (f : string * bool * gotype) : gotype := snd f.

(** No two fields of a struct differ in letter case only. *)
Fixpoint names_apart (names : list string) : bool :=
  match names with
  | [] => true
  | n :: names => forallb (fun m => negb (EqualFold m n) && negb (EqualFold n m)) names &&
                  names_apart names
  end.

Fixpoint well_formed (t : gotype) : bool :=
  match t with
  | GPtr t | GSlice t | GMap t => well_formed t
  | GStruct fields =>
      names_apart (map field_name fields) &&
      forallb (fun f => match f with (_, _, ft) => well_formed ft end) fields
  | _ => true
  end.

(** ** Unfolding *)

Lemma accepts_struct fields m :
  accepts (GStruct fields) (VObj m) =
  forallb (fun '(k, x) => match field_named fields k with
                          | Some f => accepts (field_type f) x
                          | None => true
                          end) (map_to_list m).
Proof.
  cbn. apply forallb_pointwise. intros [k x]. clear m.
  unfold field_named. induction fields as [|[[name o] ft] fields IH]; [done|]. cbn.
  destruct (EqualFold k name); [done|exact IH].
Qed.

Lemma accepts_null t : accepts t VNull = true.
Proof. by destruct t. Qed.

(** Induction on types, with the fields of a struct. *)
Lemma gotype_ind' (P : gotype -> Prop) :
  P GString -> P GBool -> (forall b, P (GInt b)) -> P GFloat -> P GTime -> P GAny ->
  (forall t, P t -> P (GPtr t)) -> (forall t, P t -> P (GSlice t)) ->
  (forall t, P t -> P (GMap t)) ->
  (forall fields, Forall (fun f => P (field_type f)) fields -> P (GStruct fields)) ->
  forall t, P t.
Proof.
  intros Hs Hb Hi Hf Ht Ha Hp Hl Hm Hst.
  fix IH 1. intros [ | |bits| | | |t|t|t|fields];
    [exact Hs|exact Hb|apply Hi|exact Hf|exact Ht|exact Ha
    |apply Hp, IH|apply Hl, IH|apply Hm, IH|].
  apply Hst. induction fields as [|[[n o] ft] fields IHf]; constructor; [apply IH|exact IHf].
Qed.

Lemma EqualFold_refl s : EqualFold s s = true.
Proof. apply seqb_refl. Qed.

(** A key that is a field's name goes to that field. *)
Lemma field_named_own fields f :
  names_apart (map field_name fields) = true -> f ∈ fields ->
  field_named fields (field_name f) = Some f.
Proof.
  unfold field_named. induction fields as [|[[n o] ft] fields IH]; intros Hap Hin; [inversion Hin|].
  cbn in *. apply andb_true_iff in Hap as [Hn Hap].
  apply elem_of_cons in Hin as [->|Hin].
  - by rewrite EqualFold_refl.
  - rewrite forallb_forall in Hn. specialize (Hn (field_name f)).
    assert (Hmap : In (field_name f) (map field_name fields)).
    { apply in_map. by apply list_elem_of_In. }
    specialize (Hn Hmap). apply andb_true_iff in Hn as [Hn _]. apply negb_true_iff in Hn.
    rewrite Hn. by apply IH.
Qed.

Lemma typed_struct_fields fields m k x :
  typed (GStruct fields) (VObj m) = true -> m !! k = Some x ->
  exists f, f ∈ fields /\ field_name f = k /\ typed (field_type f) x = true.
Proof.
  cbn. revert m. induction fields as [|[[n o] ft] fields IH]; intros m H Hk.
  - apply bool_decide_eq_true in H. by rewrite H in Hk.
  - apply andb_true_iff in H as [Hn H]. destruct (decide (k = n)) as [->|Hne].
    + rewrite Hk in Hn. exists (n, o, ft). split; [left|done].
    + destruct (IH (delete n m) H) as (f & Hf & Hname & Ht).
      { by rewrite lookup_delete_ne. }
      exists f. split; [by right|done].
Qed.

(** What marshalling a Go value of a type writes, unmarshalling into that type
    accepts. *)
Lemma typed_accepts t v : well_formed t = true -> typed t v = true -> accepts t v = true.
Proof.
  revert v. induction t as [| |b| | | |t IH|t IH|t IH|fields IH] using gotype_ind';
    intros v Hwf Hv; (destruct v; try done; [..]);
    try (by apply IH).
  - cbn in *. eapply forallb_impl; [|exact Hv]. intros x. by apply IH.
  - cbn in *. eapply forallb_impl; [|exact Hv]. intros [k x]. by apply IH.
  - rewrite accepts_struct, forallb_forall. intros [k x] Hin.
    apply list_elem_of_In, elem_of_map_to_list in Hin.
    destruct (typed_struct_fields _ _ _ _ Hv Hin) as (f & Hf & <- & Hft).
    cbn in Hwf. apply andb_true_iff in Hwf as [Hap Hwf].
    rewrite (field_named_own _ f) by done.
    rewrite Forall_forall in IH. apply IH; [done| |done].
    rewrite forallb_forall in Hwf. specialize (Hwf f (proj1 (list_elem_of_In _ _) Hf)).
    by destruct f as [[? ?] ?].
Qed.
