(* ===== verification/Messages.v ===== *)
(** The messages of the agent protocol, as Go types: every payload struct of
    backend/internal/protocol/messages.go (the agent's copy,
    agent/comm-agent/pkg/protocol/messages.go, is the same file), field by field.
    A field tagged [json:-] is not part of the message. *)

From S2P Require Import Prelude Wire.

Definition Version : string := "v1".

Definition MessageKindRequest : string := "request".
Definition MessageKindResponse : string := "response".
Definition MessageKindEvent : string := "event".

Definition MessageAgentRegister : string := "agent.register".
Definition MessageAgentHeartbeat : string := "agent.heartbeat".
Definition MessageAgentInventoryReport : string := "agent.inventory.report".
Definition MessageAgentTaskAccepted : string := "agent.task.accepted".
Definition MessageAgentTaskProgress : string := "agent.task.progress".
Definition MessageAgentTaskCompleted : string := "agent.task.completed".
Definition MessageAgentTaskFailed : string := "agent.task.failed".
Definition MessageAgentVeleroEvent : string := "agent.velero.event".
Definition MessageAgentLogReport : string := "agent.log.report".
Definition MessageAgentBackupContentReport : string := "agent.backup-content.report".
Definition MessagePlatformRegisterAccepted : string := "platform.register.accepted".
Definition MessagePlatformRegisterRejected : string := "platform.register.rejected".
Definition MessagePlatformTaskDispatch : string := "platform.task.dispatch".
Definition MessagePlatformTaskCancel : string := "platform.task.cancel".
Definition MessagePlatformInventoryRequest : string := "platform.inventory.request".
Definition MessagePlatformLogRequest : string := "platform.log.request".
Definition MessagePlatformBackupContentRequest : string := "platform.backup-content.request".
Definition MessagePlatformEventAck : string := "platform.event.ack".
Definition MessagePlatformEventError : string := "platform.event.error".
Definition MessageAgentMessageError : string := "agent.message.error".

(** ** Payloads *)

Definition ClusterSummary : gotype :=
  GStruct
    [opt "fingerprint" GString; req "name" GString; opt "controlPlaneIp" GString;
     req "kubeVersion" GString; req "nodeCount" (GInt 64); req "namespaceCount" (GInt 64);
     opt "clusterType" GString; opt "cloudProvider" GString; opt "cloudRegion" GString;
     opt "cloudClusterId" GString].

Definition AgentSummary : gotype :=
  GStruct
    [opt "capabilities" (GSlice GString); req "version" GString; req "namespace" GString;
     req "podName" GString].

Definition VeleroSummary : gotype :=
  GStruct
    [req "installed" GBool; opt "version" GString; req "status" GString].

Definition RegisterPayload : gotype :=
  GStruct
    [opt "requestId" GString; opt "installToken" GString; opt "agentCredential" GString;
     req "cluster" ClusterSummary; req "agent" AgentSummary; req "velero" VeleroSummary].

Definition CacheSettingsCommand : gotype :=
  GStruct
    [req "namespace" GString; req "enabled" GBool; req "maxGiB" (GInt 64); opt "clean" GBool].

Definition RegisterAcceptedPayload : gotype :=
  GStruct
    [opt "cacheSettings" (GPtr CacheSettingsCommand); opt "ackMessageId" GString;
     opt "ackType" GString; opt "requestId" GString; req "tenantId" GString;
     req "clusterId" GString; req "clusterName" GString; req "agentCredential" GString;
     req "heartbeatIntervalSeconds" (GInt 64); opt "inventoryResyncIntervalSeconds" (GInt 64);
     opt "inventoryChangeDebounceSeconds" (GInt 64);
     opt "inventoryMinPushIntervalSeconds" (GInt 64); opt "protocolVersion" GString;
     opt "features" (GMap GBool)].

Definition RegisterRejectedPayload : gotype :=
  GStruct
    [opt "ackMessageId" GString; opt "ackType" GString; opt "requestId" GString;
     req "reason" GString; req "message" GString; opt "errorCode" GString; opt "retryable" GBool].

Definition HeartbeatPayload : gotype :=
  GStruct
    [opt "ackRequired" GBool; req "status" GString; req "agentVersion" GString;
     opt "agentImage" GString; opt "agentImageId" GString; opt "agentImageDigest" GString;
     opt "veleroStatus" GString; opt "veleroVersion" GString; opt "veleroImage" GString;
     opt "veleroImageDigest" GString; opt "veleroServerReady" GBool;
     opt "veleroNodeAgentDesired" (GInt 32); opt "veleroNodeAgentReady" (GInt 32);
     opt "veleroNodeAgentImageDigest" GString; req "activeTasks" (GInt 64);
     opt "lastInventoryAt" GString].

Definition NamedCapabilityInventory : gotype :=
  GStruct
    [req "type" GString; req "name" GString; opt "driver" GString; opt "fields" (GMap GString)].

Definition NamespaceAPIInventory : gotype :=
  GStruct
    [opt "scope" GString; req "namespace" GString; req "group" GString; req "version" GString;
     req "resource" GString; req "kind" GString; req "count" (GInt 64)].

Definition APIResourceInventory : gotype :=
  GStruct
    [opt "group" GString; req "version" GString; req "resource" GString; req "kind" GString;
     req "namespaced" GBool].

Definition NodeInventory : gotype :=
  GStruct
    [req "name" GString; opt "role" GString; req "status" GString;
     opt "kubeletVersion" GString; opt "capacity" (GMap GString); opt "ageSeconds" (GInt 64);
     opt "unschedulable" GBool].

Definition StorageClassInventory : gotype :=
  GStruct
    [req "name" GString; req "provisioner" GString; req "reclaimPolicy" GString;
     req "volumeBindingMode" GString; req "allowVolumeExpansion" GString; opt "default" GBool;
     opt "ageSeconds" (GInt 64)].

Definition DRSupportCheck : gotype :=
  GStruct
    [req "kind" GString; req "name" GString; req "status" GString; opt "reason" GString;
     opt "storageClass" GString; opt "provisioner" GString; opt "volume" GString;
     opt "volumeType" GString].

Definition DRSupportSummary : gotype :=
  GStruct
    [req "status" GString; opt "reason" GString; opt "checks" (GSlice DRSupportCheck)].

Definition ResourceRef : gotype :=
  GStruct
    [req "name" GString; opt "namespace" GString; opt "kind" GString; opt "apiVersion" GString;
     opt "labels" (GMap GString); opt "ready" GString; opt "desiredReplicas" (GInt 32);
     opt "readyReplicas" (GInt 32); opt "updatedReplicas" (GInt 32);
     opt "availableReplicas" (GInt 32); opt "ageSeconds" (GInt 64);
     opt "containers" (GSlice GString); opt "images" (GSlice GString); opt "selector" GString;
     opt "fields" (GMap GString)].

Definition ResourceKindSummary : gotype :=
  GStruct
    [req "kind" GString; opt "shortName" GString; req "count" (GInt 64);
     opt "resources" (GSlice ResourceRef)].

Definition ResourceCategory : gotype :=
  GStruct
    [req "key" GString; req "label" GString; req "total" (GInt 64);
     opt "items" (GSlice ResourceKindSummary)].

Definition ResourceSummary : gotype :=
  GStruct
    [req "deployments" (GInt 64); req "statefulsets" (GInt 64); req "daemonsets" (GInt 64);
     opt "jobs" (GInt 64); opt "cronjobs" (GInt 64); req "services" (GInt 64);
     req "ingresses" (GInt 64); opt "networkPolicies" (GInt 64); req "configmaps" (GInt 64);
     req "secrets" (GInt 64); opt "serviceAccounts" (GInt 64); req "pvcs" (GInt 64);
     req "pvCapacityBytes" (GInt 64); opt "drSupport" (GPtr DRSupportSummary);
     opt "categories" (GSlice ResourceCategory)].

Definition ApplicationInventory : gotype :=
  GStruct
    [req "namespace" GString; req "status" GString; opt "labels" (GMap GString);
     opt "ageSeconds" (GInt 64); req "resources" ResourceSummary].

Definition VeleroInventory : gotype :=
  GStruct
    [req "status" GString; req "backupStorageLocations" (GSlice (GMap GAny));
     req "volumeSnapshotLocations" (GSlice (GMap GAny));
     req "recentBackups" (GSlice (GMap GAny)); req "recentRestores" (GSlice (GMap GAny))].

Definition InventoryReportPayload : gotype :=
  GStruct
    [opt "ackRequired" GBool; opt "ackMessageId" GString; opt "ackType" GString;
     opt "requestId" GString; opt "scope" GString; opt "reason" GString;
     opt "namespace" GString; req "full" GBool; req "collectedAt" GTime;
     req "inventoryHash" GString; req "cluster" ClusterSummary;
     req "nodes" (GSlice NodeInventory); opt "storageClasses" (GSlice StorageClassInventory);
     opt "apiResources" (GSlice APIResourceInventory);
     opt "namespaceAPIs" (GSlice NamespaceAPIInventory);
     opt "capabilities" (GSlice NamedCapabilityInventory); opt "capabilitiesComplete" GBool;
     req "applications" (GSlice ApplicationInventory); req "velero" VeleroInventory].

Definition InventoryRequestPayload : gotype :=
  GStruct
    [opt "requestId" GString; opt "scope" GString; opt "namespace" GString;
     opt "includeDetails" GBool; opt "reason" GString; opt "includeRecentVeleroObjects" GBool].

Definition LogRequestPayload : gotype :=
  GStruct
    [req "requestId" GString; req "component" GString; req "since" GTime;
     req "tailLines" (GInt 64)].

Definition LogEntry : gotype :=
  GStruct
    [req "timestamp" GTime; req "level" GString; req "component" GString; opt "pod" GString;
     opt "node" GString; req "message" GString].

Definition LogReportPayload : gotype :=
  GStruct
    [req "requestId" GString; req "component" GString; req "entries" (GSlice LogEntry);
     opt "truncated" GBool; opt "errorCode" GString; opt "message" GString].

Definition BackupContentRequestPayload : gotype :=
  GStruct
    [req "requestId" GString; req "veleroBackupName" GString; req "veleroNamespace" GString].

Definition BackupServicePortSummary : gotype :=
  GStruct
    [opt "name" GString; req "port" (GInt 64); req "protocol" GString; opt "nodePort" (GInt 64)].

Definition BackupResourceSummary : gotype :=
  GStruct
    [req "apiVersion" GString; req "kind" GString; opt "namespace" GString; req "name" GString;
     opt "group" GString; opt "resource" GString; req "clusterScoped" GBool;
     opt "images" (GSlice GString); opt "storageClasses" (GSlice GString);
     opt "servicePorts" (GSlice BackupServicePortSummary)].

Definition BackupContentReportPayload : gotype :=
  GStruct
    [req "requestId" GString; req "resources" (GSlice BackupResourceSummary);
     opt "truncated" GBool; opt "errorCode" GString; opt "message" GString].

Definition TaskCancelPayload : gotype :=
  GStruct
    [opt "taskId" GString; opt "commandId" GString; opt "targetTaskId" GString;
     opt "targetCommandId" GString; opt "reason" GString].

Definition MessageErrorPayload : gotype :=
  GStruct
    [opt "ackMessageId" GString; opt "ackType" GString; opt "requestId" GString;
     opt "taskId" GString; opt "commandId" GString; req "errorCode" GString;
     req "message" GString; req "retryable" GBool].

Definition VeleroEventPayload : gotype :=
  GStruct
    [opt "ackRequired" GBool; req "eventType" GString; req "backupName" GString;
     opt "namespace" GString; opt "planId" GString; opt "taskId" GString;
     opt "commandId" GString; opt "sourceClusterId" GString; opt "sourceNamespace" GString;
     opt "scheduleName" GString; req "phase" GString; req "progress" (GInt 64);
     opt "message" GString; opt "resourceVersion" GString; opt "storageLocation" GString;
     opt "includedNamespaces" (GSlice GString); opt "startedAt" GTime; opt "completedAt" GTime;
     opt "labels" (GMap GString); opt "velero" (GMap GAny)].

Definition PlanCapacityTarget : gotype :=
  GStruct
    [opt "storageRepositoryId" GString; opt "errorMessage" GString; req "planId" GString;
     req "storageLocation" GString; req "namespaces" (GSlice GString)].

Definition PlanCapacityCommand : gotype :=
  GStruct
    [req "namespace" GString; req "plans" (GSlice PlanCapacityTarget)].

Definition ControlPlaneHandoverCommand : gotype :=
  GStruct
    [req "action" GString; req "migrationId" GString; opt "targetEndpoint" GString;
     opt "targetInstallToken" GString; opt "rollbackDeadline" GTime].

Definition AgentUpgradeCommand : gotype :=
  GStruct
    [req "clusterId" GString; req "namespace" GString; req "image" GString;
     opt "version" GString; opt "expectedDigest" GString; opt "deploymentName" GString;
     opt "containerName" GString; opt "rolloutAnnotation" GString].

Definition VeleroUpgradeCommand : gotype :=
  GStruct
    [opt "oadp" GBool; opt "catalogImage" GString; opt "oadpPackage" GString;
     opt "oadpChannel" GString; opt "oadpTargetCsv" GString; req "clusterId" GString;
     req "namespace" GString; req "image" GString; opt "version" GString;
     opt "expectedDigest" GString; opt "deploymentName" GString; opt "daemonSetName" GString;
     opt "awsPluginImage" GString; opt "azurePluginImage" GString; opt "gcpPluginImage" GString;
     opt "concurrentBackups" (GInt 64); opt "nodeAgentConcurrency" (GInt 64);
     opt "prepareQueueLength" (GInt 64); opt "cacheStorageClass" GString;
     opt "cacheResidentThresholdMB" (GInt 64); opt "cacheLimitMB" (GInt 64);
     opt "crdsUrl" GString].

Definition UnregisterCommand : gotype :=
  GStruct
    [req "clusterId" GString; req "namespace" GString; req "deleteVelero" GBool;
     req "deleteNamespace" GBool; opt "reason" GString].

Definition ResourceSelection : gotype :=
  GStruct
    [opt "mode" GString; opt "namespaceScoped" (GSlice GString);
     opt "clusterScoped" (GSlice GString)].

Definition LabelSelectorExpression : gotype :=
  GStruct
    [req "key" GString; req "operator" GString; opt "values" (GSlice GString)].

Definition LabelSelector : gotype :=
  GStruct
    [opt "matchLabels" (GMap GString); opt "matchExpressions" (GSlice LabelSelectorExpression)].

Definition HookScript : gotype :=
  GStruct
    [req "name" GString; req "content" GString; req "entry" GBool].

Definition HookSet : gotype :=
  GStruct
    [req "pre" (GSlice HookScript); req "post" (GSlice HookScript)].

Definition BackupCommand : gotype :=
  GStruct
    [opt "planId" GString; opt "trigger" GString; opt "sourceClusterId" GString;
     req "sourceNamespace" GString; opt "sourceNamespaces" (GSlice GString);
     opt "veleroBackupName" GString; req "scope" GString;
     opt "includedResources" (GSlice GString); opt "labelSelector" LabelSelector;
     req "storageRepo" GString; req "includeClusterResources" GBool;
     opt "excludedResources" (GSlice GString); opt "resourceSelection" ResourceSelection;
     req "hooks" HookSet].

Definition BackupCancelCommand : gotype :=
  GStruct
    [req "planId" GString; req "targetTaskId" GString; opt "veleroBackupName" GString;
     opt "reason" GString].

Definition ExcludeRule : gotype :=
  GStruct
    [req "group" GString; req "resource" GString; req "name" GString; req "version" GString;
     req "labels" GString].

Definition ScheduleSyncCommand : gotype :=
  GStruct
    [req "planId" GString; req "scheduleName" GString; req "cron" GString;
     req "sourceNamespace" GString; opt "sourceNamespaces" (GSlice GString);
     req "scope" GString; opt "includedResources" (GSlice GString); opt "labelSelector" GString;
     opt "selector" LabelSelector; req "storageRepo" GString;
     req "includeClusterResources" GBool; req "excludeResources" (GSlice ExcludeRule);
     opt "resourceSelection" ResourceSelection; req "hooks" HookSet].

Definition RetentionRestorePoint : gotype :=
  GStruct
    [req "id" GString; req "veleroBackupName" GString; opt "namespace" GString].

Definition RetentionCleanupCommand : gotype :=
  GStruct
    [req "planId" GString; req "restorePoints" (GSlice RetentionRestorePoint)].

Definition ProtectionCleanupCommand : gotype :=
  GStruct
    [req "planId" GString; opt "cleanupMode" GString; opt "scheduleName" GString;
     opt "backupNamePrefix" GString; opt "namespace" GString;
     opt "sourceNamespaces" (GSlice GString); opt "storageRepo" GString;
     opt "cleanupObjectStorage" GBool; opt "restorePoints" (GSlice RetentionRestorePoint);
     opt "restoreNames" (GSlice GString); opt "drillNamespaces" (GSlice GString)].

Definition RestoreCommand : gotype :=
  GStruct
    [req "restorePointId" GString; req "veleroBackupName" GString; opt "storageRepo" GString;
     req "sourceNamespace" GString; opt "sourceNamespaces" (GSlice GString);
     req "targetNamespace" GString; opt "targetNamespaces" (GMap GString);
     req "targetMode" GString; req "restoreMode" GString; req "artifactMode" GString;
     req "conflictPolicy" GString; req "includeClusterScoped" GBool; req "useTransforms" GBool;
     req "transformPreset" GString; req "storageProfileMode" GString;
     opt "alternateProfileId" GString; opt "includedResources" (GSlice GString);
     opt "excludedResources" (GSlice GString); opt "storageClassMappings" (GMap GString);
     opt "imageMappings" (GMap GString); opt "serviceNodePortMappings" (GMap (GInt 64));
     req "waitForWorkloads" GBool; req "runValidation" GBool; opt "forceStart" GBool;
     opt "contentCatalogLoaded" GBool; opt "persistentDataExpected" GBool;
     opt "readinessExpectationsKnown" GBool; opt "runtimeWorkloadsExpected" GBool;
     opt "expectedPvcs" (GSlice GString)].

Definition S3Credentials : gotype :=
  GStruct
    [opt "accessKey" GString; opt "secretKey" GString; opt "accountName" GString;
     opt "accountKey" GString; opt "serviceAccountKey" GString].

Definition StorageSyncCommand : gotype :=
  GStruct
    [req "repositoryId" GString; req "name" GString; req "type" GString;
     opt "endpoint" GString; req "bucket" GString; opt "region" GString; req "tlsEnabled" GBool;
     opt "secretRef" GString; opt "credentials" (GPtr S3Credentials); opt "config" (GMap GAny)].

Definition TaskDispatchPayload : gotype :=
  GStruct
    [opt "planCapacity" (GPtr PlanCapacityCommand);
     opt "cacheSettings" (GPtr CacheSettingsCommand); req "taskId" GString;
     req "commandId" GString; req "type" GString; req "deadline" GTime;
     opt "backup" (GPtr BackupCommand); opt "backupCancel" (GPtr BackupCancelCommand);
     opt "restore" (GPtr RestoreCommand); opt "storageSync" (GPtr StorageSyncCommand);
     opt "scheduleSync" (GPtr ScheduleSyncCommand);
     opt "retentionCleanup" (GPtr RetentionCleanupCommand);
     opt "protectionCleanup" (GPtr ProtectionCleanupCommand);
     opt "agentUpgrade" (GPtr AgentUpgradeCommand);
     opt "veleroUpgrade" (GPtr VeleroUpgradeCommand); opt "unregister" (GPtr UnregisterCommand);
     opt "controlPlaneHandover" (GPtr ControlPlaneHandoverCommand)].

Definition PlanCapacityResult : gotype :=
  GStruct
    [req "planId" GString; req "status" GString; req "metadataBytes" (GInt 64);
     req "kopiaBytes" (GInt 64); req "totalBytes" (GInt 64); req "collectedAt" GTime;
     opt "errorMessage" GString].

Definition PlanCapacityReport : gotype :=
  GStruct
    [req "plans" (GSlice PlanCapacityResult)].

Definition TaskAcceptedPayload : gotype :=
  GStruct
    [opt "ackMessageId" GString; opt "ackType" GString; req "taskId" GString;
     req "commandId" GString; req "acceptedAt" GTime].

Definition SizeProgressV2 : gotype :=
  GStruct
    [req "schemaVersion" (GInt 64); req "operation" GString; opt "phase" GString;
     opt "processedBytes" (GInt 64); opt "totalBytes" (GInt 64); req "totalKnown" GBool;
     opt "bytesPerSecond" GFloat; opt "etaSeconds" (GInt 64); opt "totalVolumes" (GInt 64);
     opt "runningVolumes" (GInt 64); opt "completedVolumes" (GInt 64);
     opt "failedVolumes" (GInt 64); opt "sequence" (GInt 64); req "observedAt" GTime].

Definition TaskProgressPayload : gotype :=
  GStruct
    [opt "ackRequired" GBool; req "taskId" GString; opt "commandId" GString;
     req "status" GString; req "progress" (GInt 64); opt "totalBytes" (GInt 64);
     opt "syncedBytes" (GInt 64); opt "speedBytesPerSecond" GFloat; opt "percent" GFloat;
     opt "etaSeconds" (GInt 64); req "message" GString; opt "velero" (GMap GAny);
     opt "sizeProgressV2" (GPtr SizeProgressV2)].

Definition SizeValueV2 : gotype :=
  GStruct
    [opt "totalBytes" (GInt 64); opt "metadataBytes" (GInt 64); opt "volumeBytes" (GInt 64);
     req "known" GBool].

Definition SizeReuseV2 : gotype :=
  GStruct
    [opt "ratio" GFloat; req "status" GString].

Definition SizeRepositoryV2 : gotype :=
  GStruct
    [opt "storedBytes" (GInt 64); opt "metadataBytes" (GInt 64); opt "kopiaBytes" (GInt 64);
     req "known" GBool; opt "measuredAt" GTime].

Definition SizeQualityV2 : gotype :=
  GStruct
    [opt "logicalVolumeSource" GString; opt "newVolumeDataSource" GString;
     opt "repositorySource" GString; opt "logicalAccuracy" GString;
     opt "newDataAccuracy" GString; opt "repositoryAccuracy" GString].

Definition VolumeSizeMetricV2 : gotype :=
  GStruct
    [opt "namespace" GString; opt "pvcName" GString; opt "method" GString;
     opt "logicalBytes" (GInt 64); req "logicalKnown" GBool; opt "newDataBytes" (GInt 64);
     req "newDataKnown" GBool; opt "snapshotId" GString; opt "phase" GString;
     opt "source" GString].

Definition SizeMetricsV2 : gotype :=
  GStruct
    [req "schemaVersion" (GInt 64); req "operation" GString; req "measurementStatus" GString;
     req "logical" SizeValueV2; req "newData" SizeValueV2; req "allVolumesKnown" GBool;
     req "reuse" SizeReuseV2; req "repository" SizeRepositoryV2; req "quality" SizeQualityV2;
     opt "volumes" (GSlice VolumeSizeMetricV2); req "measuredAt" GTime].

Definition TaskCompletedPayload : gotype :=
  GStruct
    [opt "planCapacity" (GPtr PlanCapacityReport); opt "ackRequired" GBool;
     req "taskId" GString; opt "commandId" GString; req "status" GString;
     opt "operation" GString; req "progress" (GInt 64); req "message" GString;
     opt "size" (GMap GAny); opt "velero" (GMap GAny); opt "sizeMetricsV2" (GPtr SizeMetricsV2)].

Definition TaskFailedPayload : gotype :=
  GStruct
    [opt "ackRequired" GBool; opt "ackMessageId" GString; opt "ackType" GString;
     req "taskId" GString; opt "commandId" GString; req "errorCode" GString;
     req "message" GString; opt "details" (GMap GAny); opt "retryable" GBool].

Definition EventAckPayload : gotype :=
  GStruct
    [req "ackMessageId" GString; opt "ackType" GString; opt "taskId" GString;
     opt "commandId" GString; req "persisted" GBool].

Definition EventErrorPayload : gotype :=
  GStruct
    [req "ackMessageId" GString; opt "ackType" GString; opt "taskId" GString;
     opt "commandId" GString; req "errorCode" GString; req "message" GString;
     req "retryable" GBool].
