(* ===== verification/Codec.v ===== *)
(** Contracts and codec of the agent protocol:
    backend/internal/protocol/contract.go and codec.go.

    Message bytes are given as the JSON value they parse to, [None] when they are
    not JSON; a payload to encode as the JSON it marshals to, [None] when it does
    not marshal. *)

From S2P Require Import Prelude Calendar Timestamp Value Wire Messages.

Inductive Direction := AgentToPlatform | PlatformToAgent.

#[export] Instance Direction_eq_dec : EqDecision Direction.
Proof. solve_decision. Defined.

Record Contract := contract {
  c_Type : string;
  c_Direction : Direction;
  c_Family : string;
  c_PayloadType : string;
  c_payload : gotype;
  c_TerminalResult : bool;
  c_AllowedKinds : list string
}.

Definition Contracts : list Contract := [
  contract MessageAgentRegister AgentToPlatform "control"
    "RegisterPayload" RegisterPayload false [MessageKindRequest];
  contract MessageAgentHeartbeat AgentToPlatform "control"
    "HeartbeatPayload" HeartbeatPayload false [MessageKindEvent];
  contract MessageAgentInventoryReport AgentToPlatform "observation"
    "InventoryReportPayload" InventoryReportPayload false
    [MessageKindEvent; MessageKindResponse];
  contract MessageAgentTaskAccepted AgentToPlatform "execution"
    "TaskAcceptedPayload" TaskAcceptedPayload false [MessageKindResponse];
  contract MessageAgentTaskProgress AgentToPlatform "telemetry"
    "TaskProgressPayload" TaskProgressPayload false [MessageKindEvent];
  contract MessageAgentTaskCompleted AgentToPlatform "execution"
    "TaskCompletedPayload" TaskCompletedPayload true [MessageKindEvent];
  contract MessageAgentTaskFailed AgentToPlatform "execution"
    "TaskFailedPayload" TaskFailedPayload true [MessageKindEvent];
  contract MessageAgentVeleroEvent AgentToPlatform "observation"
    "VeleroEventPayload" VeleroEventPayload false [MessageKindEvent];
  contract MessageAgentLogReport AgentToPlatform "query"
    "LogReportPayload" LogReportPayload false [MessageKindResponse];
  contract MessageAgentBackupContentReport AgentToPlatform "query"
    "BackupContentReportPayload" BackupContentReportPayload false [MessageKindResponse];
  contract MessageAgentMessageError AgentToPlatform "control"
    "MessageErrorPayload" MessageErrorPayload false [MessageKindResponse];
  contract MessagePlatformRegisterAccepted PlatformToAgent "control"
    "RegisterAcceptedPayload" RegisterAcceptedPayload false [MessageKindResponse];
  contract MessagePlatformRegisterRejected PlatformToAgent "control"
    "RegisterRejectedPayload" RegisterRejectedPayload false [MessageKindResponse];
  contract MessagePlatformTaskDispatch PlatformToAgent "command"
    "TaskDispatchPayload" TaskDispatchPayload false [MessageKindRequest];
  contract MessagePlatformTaskCancel PlatformToAgent "command"
    "TaskCancelPayload" TaskCancelPayload false [MessageKindRequest];
  contract MessagePlatformInventoryRequest PlatformToAgent "query"
    "InventoryRequestPayload" InventoryRequestPayload false [MessageKindRequest];
  contract MessagePlatformLogRequest PlatformToAgent "query"
    "LogRequestPayload" LogRequestPayload false [MessageKindRequest];
  contract MessagePlatformBackupContentRequest PlatformToAgent "query"
    "BackupContentRequestPayload" BackupContentRequestPayload false [MessageKindRequest];
  contract MessagePlatformEventAck PlatformToAgent "control"
    "EventAckPayload" EventAckPayload false [MessageKindResponse];
  contract MessagePlatformEventError PlatformToAgent "control"
    "EventErrorPayload" EventErrorPayload false [MessageKindResponse]
].

Definition LookupContract (messageType : string) : option Contract :=
  find_first (fun definition => c_Type definition =s messageType) Contracts.

(** ** Messages *)

Record Message := {
  m_Version : string;
  m_MessageID : string;
  m_MessageKind : string;
  m_Type : string;
  m_TenantID : string;
  m_ClusterID : string;
  m_AgentID : string;
  m_Timestamp : time;
  m_Payload : value
}.

Inductive Stage := StageEncode | StageEnvelope | StageContract | StageMetadata
  | StageDirection | StageIdentity | StagePayload.

Record DecodeError := { err_Stage : Stage; err_MessageType : string }.

Definition validateMessageMetadata (version kind : string) (definition : Contract) : bool :=
  if nonempty version && (version <>s Version) then false
  else if negb (nonempty kind) then true
  else one_of kind (c_AllowedKinds definition).

(** The payload is an object, and unmarshals into the contract's type. *)
Definition validatePayload (payload : value) (definition : Contract) : bool :=
  match payload with
  | VObj _ => accepts (c_payload definition) payload
  | _ => false
  end.

(** ** Encoding *)

Definition omit_empty (key s : string) : list (string * value) :=
  if nonempty s then [(key, VStr s)] else [].

Definition message_entries (message : Message) (payload : value) : list (string * value) :=
  [("version", VStr (m_Version message)); ("messageId", VStr (m_MessageID message))] ++
  omit_empty "messageKind" (m_MessageKind message) ++
  [("type", VStr (m_Type message))] ++
  omit_empty "tenantId" (m_TenantID message) ++
  omit_empty "clusterId" (m_ClusterID message) ++
  omit_empty "agentId" (m_AgentID message) ++
  [("timestamp", VStr (format_rfc3339nano (m_Timestamp message))); ("payload", payload)].

Definition year_ok (t : time) : bool := (0 <=? Year utc t) && (Year utc t <=? 9999).

(** [json.Marshal(message)]: a timestamp beyond the year 9999 does not marshal. *)
Definition marshalMessage (message : Message) (payload : value) : option value :=
  if year_ok (m_Timestamp message)
  then Some (VObj (list_to_map (message_entries message payload))) else None.

(** [message]'s own payload is the Go value, given by what it marshals to. *)
Definition EncodeMessage (message : Message) (payload : option value) : option value :=
  definition ← LookupContract (m_Type message);
  if negb (validateMessageMetadata (m_Version message) (m_MessageKind message) definition)
  then None
  else
    payload ← payload;
    if negb (validatePayload payload definition) then None
    else marshalMessage message payload.

(** ** Decoding *)

Definition decode_time (_ : time) (v : value) : option time :=
  match v with VStr s => parse_rfc3339 s | _ => None end.

(** json.RawMessage keeps any value, null included. *)
Definition raw_payload (m : document) : value :=
  default VNull (last (field_values m "payload")).

Definition decode_envelope (m : document) : option Message :=
  version ← decode_field decode_string m "version" "";
  messageID ← decode_field decode_string m "messageId" "";
  kind ← decode_field decode_string m "messageKind" "";
  type ← decode_field decode_string m "type" "";
  tenantID ← decode_field decode_string m "tenantId" "";
  clusterID ← decode_field decode_string m "clusterId" "";
  agentID ← decode_field decode_string m "agentId" "";
  timestamp ← decode_field decode_time m "timestamp" zero_time;
  Some {| m_Version := version; m_MessageID := messageID; m_MessageKind := kind;
          m_Type := type; m_TenantID := tenantID; m_ClusterID := clusterID;
          m_AgentID := agentID; m_Timestamp := timestamp; m_Payload := raw_payload m |}.

Definition empty_message : Message :=
  {| m_Version := ""; m_MessageID := ""; m_MessageKind := ""; m_Type := ""; m_TenantID := "";
     m_ClusterID := ""; m_AgentID := ""; m_Timestamp := zero_time; m_Payload := VNull |}.

Definition unmarshalMessage (data : option value) : option Message :=
  match data with
  | Some VNull => Some empty_message
  | Some (VObj m) => decode_envelope m
  | _ => None
  end.

Definition DecodeMessage (data : option value) (direction : Direction)
    (authenticatedCluster : string) : DecodeError + Message :=
  match unmarshalMessage data with
  | None => inl {| err_Stage := StageEnvelope; err_MessageType := "" |}
  | Some message =>
      let refuse stage := inl {| err_Stage := stage; err_MessageType := m_Type message |} in
      match LookupContract (m_Type message) with
      | None => refuse StageContract
      | Some definition =>
          if negb (validateMessageMetadata (m_Version message) (m_MessageKind message) definition)
          then refuse StageMetadata
          else if negb (bool_decide (c_Direction definition = direction))
          then refuse StageDirection
          else if nonempty authenticatedCluster && nonempty (m_ClusterID message) &&
                  (m_ClusterID message <>s authenticatedCluster)
          then refuse StageIdentity
          else if negb (validatePayload (m_Payload message) definition)
          then refuse StagePayload
          else inr message
      end
  end.

Definition ValidateV1Message (data : option value) (direction : Direction)
    (authenticatedCluster : string) : option DecodeError :=
  match DecodeMessage data direction authenticatedCluster with
  | inl err => Some err
  | inr _ => None
  end.

(** ** Contracts *)

Lemma contracts_well_formed : forallb (fun c => well_formed (c_payload c)) Contracts = true.
Proof. vm_compute. reflexivity. Qed.

Lemma LookupContract_Some type c :
  LookupContract type = Some c -> c ∈ Contracts /\ c_Type c = type.
Proof. unfold LookupContract. intros [? ?%seqb_true]%find_first_Some. done. Qed.

Lemma contract_payload_wf c : c ∈ Contracts -> well_formed (c_payload c) = true.
Proof.
  intros Hc. pose proof contracts_well_formed as H. rewrite forallb_forall in H.
  apply H. by apply list_elem_of_In.
Qed.

(** C38.  A message is accepted exactly when it is a JSON object of the envelope's
    field types, of a known type, in this or no stated version and in a kind the
    type allows or none, travelling in the type's direction, not naming another
    cluster than the authenticated one, with an object payload that unmarshals
    into the type's payload struct. *)
Theorem decode_accepts_iff data direction cluster message :
  DecodeMessage data direction cluster = inr message <->
  unmarshalMessage data = Some message /\
  exists c, LookupContract (m_Type message) = Some c /\
    (m_Version message = "" \/ m_Version message = Version) /\
    (m_MessageKind message = "" \/ m_MessageKind message ∈ c_AllowedKinds c) /\
    c_Direction c = direction /\
    (cluster = "" \/ m_ClusterID message = "" \/ m_ClusterID message = cluster) /\
    (exists o, m_Payload message = VObj o) /\
    accepts (c_payload c) (m_Payload message) = true.
Proof.
  unfold DecodeMessage. destruct (unmarshalMessage data) as [m|]; [|naive_solver].
  destruct (LookupContract (m_Type m)) as [c|] eqn:Hc.
  2: { split; [done|]. intros [[= <-] (c & Hc' & _)]. congruence. }
  assert (Hmeta : validateMessageMetadata (m_Version m) (m_MessageKind m) c = true <->
    (m_Version m = "" \/ m_Version m = Version) /\
    (m_MessageKind m = "" \/ m_MessageKind m ∈ c_AllowedKinds c)).
  { unfold validateMessageMetadata.
    destruct (nonempty (m_Version m)) eqn:Hv, (m_Version m =s Version) eqn:Hv',
      (nonempty (m_MessageKind m)) eqn:Hk, (one_of (m_MessageKind m) (c_AllowedKinds c)) eqn:Ho;
      simpl; go_bool; naive_solver. }
  assert (Hpayload : validatePayload (m_Payload m) c = true <->
    (exists o, m_Payload m = VObj o) /\ accepts (c_payload c) (m_Payload m) = true).
  { unfold validatePayload. destruct (m_Payload m); naive_solver. }
  assert (Hid : nonempty cluster && nonempty (m_ClusterID m) && (m_ClusterID m <>s cluster) = false
    <-> (cluster = "" \/ m_ClusterID m = "" \/ m_ClusterID m = cluster)).
  { go_bool. tauto. }
  destruct (validateMessageMetadata _ _ _); simpl; [|naive_solver].
  destruct (bool_decide (c_Direction c = direction)) eqn:Hd; simpl;
    [apply bool_decide_eq_true in Hd|apply bool_decide_eq_false in Hd; naive_solver].
  destruct (_ && _); [naive_solver|].
  destruct (validatePayload _ _); simpl; [|naive_solver].
  split; [|naive_solver]. intros [= <-]. split; [done|]. exists c.
  destruct Hmeta as [Hm _]. destruct Hpayload as [Hp _]. destruct Hid as [Hi _].
  specialize (Hm eq_refl). specialize (Hp eq_refl). specialize (Hi eq_refl). naive_solver.
Qed.

(** Any value of the Go struct a contract names passes that contract's
    payload check, so the platform never refuses to send what it built. *)
Theorem contract_accepts_its_own_payload c payload :
  c ∈ Contracts -> typed (c_payload c) (VObj payload) = true ->
  validatePayload (VObj payload) c = true.
Proof.
  intros Hc Ht. unfold validatePayload. apply typed_accepts; [|done]. by apply contract_payload_wf.
Qed.

(** A peer may add fields: a payload key that matches no field of the struct
    changes nothing in whether the payload is accepted. *)
Theorem unknown_payload_field_is_ignored c fields payload key v :
  c_payload c = GStruct fields -> field_named fields key = None -> payload !! key = None ->
  validatePayload (VObj (<[key := v]> payload)) c = validatePayload (VObj payload) c.
Proof.
  intros Hc Hkey Hnone. unfold validatePayload. rewrite Hc, !accepts_struct.
  rewrite (forallb_Permutation _ _ _ (map_to_list_insert payload key v Hnone)).
  simpl. by rewrite Hkey.
Qed.

(** ** What is encoded decodes *)

Definition field_entries (l : list (string * value)) (name : string) : list (string * value) :=
  List.filter (fun '(k, _) => EqualFold k name) l.

(** When at most one entry of an object is for a field, its order is no matter. *)
Lemma field_values_entries l name e :
  NoDup l.*1 -> field_entries l name = [e] -> field_values (list_to_map l) name = [snd e].
Proof.
  intros Hnd He. unfold field_values. fold (field_entries (map_to_list (list_to_map l)) name).
  enough (H : field_entries (map_to_list (list_to_map l : document)) name ≡ₚ [e]).
  { by apply Permutation_singleton_r in H as ->. }
  rewrite <- He. unfold field_entries. apply Permutation_filter_bool, map_to_list_to_map, Hnd.
Qed.

Lemma field_values_none l name :
  NoDup l.*1 -> field_entries l name = [] -> field_values (list_to_map l) name = [].
Proof.
  intros Hnd He. unfold field_values. fold (field_entries (map_to_list (list_to_map l)) name).
  enough (H : field_entries (map_to_list (list_to_map l : document)) name ≡ₚ []).
  { by apply Permutation_nil_r in H as ->. }
  rewrite <- He. unfold field_entries. apply Permutation_filter_bool, map_to_list_to_map, Hnd.
Qed.

Lemma decode_field_entry {A} (step : A -> value -> option A) l name k v x a :
  NoDup l.*1 -> field_entries l name = [(k, v)] -> v <> VNull -> step x v = Some a ->
  decode_field step (list_to_map l) name x = Some a.
Proof.
  intros Hnd He Hv Ha. unfold decode_field. rewrite (field_values_entries l name _ Hnd He).
  simpl. by destruct v.
Qed.

Lemma decode_field_absent {A} (step : A -> value -> option A) l name x :
  NoDup l.*1 -> field_entries l name = [] ->
  decode_field step (list_to_map l) name x = Some x.
Proof. intros Hnd He. unfold decode_field. by rewrite (field_values_none l name Hnd He). Qed.

Definition with_payload (m : Message) (payload : value) : Message :=
  {| m_Version := m_Version m; m_MessageID := m_MessageID m; m_MessageKind := m_MessageKind m;
     m_Type := m_Type m; m_TenantID := m_TenantID m; m_ClusterID := m_ClusterID m;
     m_AgentID := m_AgentID m; m_Timestamp := m_Timestamp m; m_Payload := payload |}.

Lemma message_entries_NoDup message payload : NoDup (message_entries message payload).*1.
Proof.
  unfold message_entries, omit_empty.
  destruct (nonempty (m_MessageKind message)), (nonempty (m_TenantID message)),
    (nonempty (m_ClusterID message)), (nonempty (m_AgentID message)); simpl; decide_vm.
Qed.

(** The entry of a field of the envelope, among the entries written. *)
Lemma message_field message payload name :
  field_entries (message_entries message payload) name =
  field_entries [("version", VStr (m_Version message)); ("messageId", VStr (m_MessageID message))]
    name ++
  field_entries (omit_empty "messageKind" (m_MessageKind message)) name ++
  field_entries [("type", VStr (m_Type message))] name ++
  field_entries (omit_empty "tenantId" (m_TenantID message)) name ++
  field_entries (omit_empty "clusterId" (m_ClusterID message)) name ++
  field_entries (omit_empty "agentId" (m_AgentID message)) name ++
  field_entries [("timestamp", VStr (format_rfc3339nano (m_Timestamp message)));
                 ("payload", payload)] name.
Proof. unfold field_entries, message_entries. by rewrite !List.filter_app. Qed.

Lemma omit_empty_own key s :
  field_entries (omit_empty key s) key = omit_empty key s.
Proof.
  unfold omit_empty, field_entries. destruct (nonempty s); [|done]. simpl. by rewrite EqualFold_refl.
Qed.

Lemma omit_empty_other key s name : EqualFold key name = false ->
  field_entries (omit_empty key s) name = [].
Proof. unfold omit_empty, field_entries. intros H. destruct (nonempty s); [|done]. simpl. by rewrite H. Qed.

Lemma decode_omit_empty message payload key s :
  field_entries (message_entries message payload) key = omit_empty key s ->
  decode_field decode_string (list_to_map (message_entries message payload)) key "" = Some s.
Proof.
  intros He. pose proof (message_entries_NoDup message payload) as Hnd. unfold omit_empty in He.
  destruct (nonempty s) eqn:E.
  - by eapply decode_field_entry.
  - apply nonempty_false in E as ->. by apply decode_field_absent.
Qed.

Ltac envelope_field :=
  rewrite message_field; rewrite ?omit_empty_own, ?omit_empty_other by reflexivity;
  rewrite ?app_nil_r; reflexivity.

Lemma decode_envelope_entries message payload :
  0 <= Year utc (m_Timestamp message) <= 9999 ->
  decode_envelope (list_to_map (message_entries message payload)) =
    Some (with_payload message payload).
Proof.
  intros Hyear. pose proof (message_entries_NoDup message payload) as Hnd.
  unfold decode_envelope.
  rewrite (decode_field_entry _ _ "version" "version" (VStr (m_Version message)) _
    (m_Version message)); [|done|envelope_field|done|done].
  rewrite (decode_field_entry _ _ "messageId" "messageId" (VStr (m_MessageID message)) _
    (m_MessageID message)); [|done|envelope_field|done|done].
  rewrite (decode_omit_empty _ _ "messageKind" (m_MessageKind message)) by envelope_field.
  rewrite (decode_field_entry _ _ "type" "type" (VStr (m_Type message)) _
    (m_Type message)); [|done|envelope_field|done|done].
  rewrite (decode_omit_empty _ _ "tenantId" (m_TenantID message)) by envelope_field.
  rewrite (decode_omit_empty _ _ "clusterId" (m_ClusterID message)) by envelope_field.
  rewrite (decode_omit_empty _ _ "agentId" (m_AgentID message)) by envelope_field.
  rewrite (decode_field_entry _ _ "timestamp" "timestamp"
    (VStr (format_rfc3339nano (m_Timestamp message))) _ (m_Timestamp message));
    [|done|envelope_field|done|by apply parse_format].
  unfold raw_payload. rewrite (field_values_entries _ "payload" ("payload", payload));
    [done|done|envelope_field].
Qed.

(** C39.  What the platform encodes, the agent of the same cluster decodes to the
    message it was (and the other way round): every envelope field, the timestamp
    to the nanosecond, and the payload's JSON. *)
Theorem encode_decode_roundtrip message payload data c cluster :
  EncodeMessage message (Some payload) = Some data ->
  LookupContract (m_Type message) = Some c ->
  (cluster = "" \/ m_ClusterID message = "" \/ m_ClusterID message = cluster) ->
  DecodeMessage (Some data) (c_Direction c) cluster = inr (with_payload message payload).
Proof.
  intros He Hc Hid. unfold EncodeMessage in He. rewrite Hc in He. cbn [mbind option_bind] in He.
  destruct (validateMessageMetadata _ _ _) eqn:Hmeta; [|done]. cbn [negb] in He.
  destruct (validatePayload payload c) eqn:Hpay; [|done]. cbn [negb] in He.
  unfold marshalMessage in He. destruct (year_ok _) eqn:Hy; [|done].
  assert (data = VObj (list_to_map (message_entries message payload))) as -> by congruence.
  unfold year_ok in Hy. go_bool. destruct Hy as [Hy0 Hy1].
  unfold DecodeMessage, unmarshalMessage. rewrite decode_envelope_entries by lia.
  cbn [with_payload m_Type m_Version m_MessageKind m_ClusterID m_Payload].
  rewrite Hc, Hmeta, bool_decide_eq_true_2 by done. cbn [negb].
  replace (nonempty cluster && nonempty (m_ClusterID message) && (m_ClusterID message <>s cluster))
    with false; [by rewrite Hpay|]. symmetry. go_bool. tauto.
Qed.
