(* ===== verification/Scheduling.v ===== *)
(** Policy schedules: backend/internal/service/scheduling/policy.go. *)

From S2P Require Import Prelude Calendar Value Types.

(** ** The code *)

Definition clampMinute (value : Z) : Z :=
  if (value <? 0) || (59 <? value) then 0 else value.

Definition clampHour (value : Z) : Z :=
  if (value <? 0) || (23 <? value) then 0 else value.

Definition clampWeekday (value : Z) : Z :=
  if (value <? 0) || (6 <? value) then 0 else value.

Definition clampMonthDay (value : Z) : Z :=
  if (value <? 1) || (31 <? value) then 1 else value.

Definition monthlyTime (year month day hour minute : Z) (location : location) : time :=
  let last := Day location (Date year (month + 1) 0 hour minute 0 0 location) in
  let day := if last <? day then last else day in
  Date year month day hour minute 0 0 location.

(** [time.Duration(value) * unit]: int64 multiplication. *)
Definition duration_mul (value unit : Z) : Z := int64_wrap (value * unit).

Definition interval_next (policy : Policy) (after : time) : time :=
  let value := if pol_IntervalValue policy <=? 0 then 1 else pol_IntervalValue policy in
  if one_of (pol_IntervalUnit policy) ["minute"; "minutes"] then
    truncate second (after + duration_mul value minute)
  else if one_of (pol_IntervalUnit policy) ["hour"; "hours"; ""] then
    truncate second (after + duration_mul value hour)
  else truncate second (after + hour).

(** The instant the policy names on the local day of [t]. *)
Definition today_at (policy : Policy) (location : location) (t : time) : time :=
  Date (Year location t) (Month location t) (Day location t)
    (clampHour (pol_Hour policy)) (clampMinute (pol_Minute policy)) 0 0 location.

Definition NextPolicyFireAtInLocation
    (policy : Policy) (t : time) (location : location) : time :=
  match pol_ScheduleType policy with
  | "interval" => interval_next policy t
  | "daily" =>
      let next := today_at policy location t in
      if after next t then next else AddDate location next 0 0 1
  | "weekly" =>
      let target := clampWeekday (pol_WeekDay policy) in
      let next := today_at policy location t in
      let days := Z.rem (target - Weekday location t + 7) 7 in
      let next := AddDate location next 0 0 days in
      if after next t then next else AddDate location next 0 0 7
  | "monthly" =>
      let day := clampMonthDay (pol_MonthDay policy) in
      let h := clampHour (pol_Hour policy) in
      let mi := clampMinute (pol_Minute policy) in
      let next := monthlyTime (Year location t) (Month location t) day h mi location in
      if after next t then next
      else
        let nextMonth := AddDate location t 0 1 0 in
        monthlyTime (Year location nextMonth) (Month location nextMonth) day h mi location
  | _ => truncate second (t + hour)
  end.

Definition NextPolicyFireAt (policy : Policy) (after : time) : time :=
  NextPolicyFireAtInLocation policy after utc.

Definition ScheduleMatchesPolicy
    (next : time) (policy : Policy) (location : location) : bool :=
  if is_zero next then false
  else if pol_ScheduleType policy =s "interval" then true
  else if negb (Hour location next =? clampHour (pol_Hour policy)) ||
          negb (Minute location next =? clampMinute (pol_Minute policy)) then false
  else match pol_ScheduleType policy with
       | "daily" => true
       | "weekly" => Weekday location next =? clampWeekday (pol_WeekDay policy)
       | "monthly" =>
           Day location next =?
           Day location (monthlyTime (Year location next) (Month location next)
             (clampMonthDay (pol_MonthDay policy)) (Hour location next)
             (Minute location next) location)
       | _ => false
       end.

(** ** What a schedule means

    [fires policy loc u]: [u] is one of the instants the policy names in
    [loc].  A month too short for the policy's day uses its last day. *)
Definition on_policy_day (policy : Policy) (loc : location) (u : time) : Prop :=
  match pol_ScheduleType policy with
  | "daily" => True
  | "weekly" => Weekday loc u = clampWeekday (pol_WeekDay policy)
  | "monthly" =>
      Day loc u = Z.min (clampMonthDay (pol_MonthDay policy))
                        (days_in_month (Year loc u) (Month loc u))
  | _ => False
  end.

Definition fires (policy : Policy) (loc : location) (u : time) : Prop :=
  Hour loc u = clampHour (pol_Hour policy) /\
  Minute loc u = clampMinute (pol_Minute policy) /\
  Second loc u = 0 /\ Nanosecond u = 0 /\ on_policy_day policy loc u.

(** [next] is the first instant after [t] at which the policy fires. *)
Definition first_fire (policy : Policy) (loc : location) (t next : time) : Prop :=
  t < next /\ fires policy loc next /\
  forall u, t < u -> fires policy loc u -> next <= u.

Definition calendar_policy (policy : Policy) : Prop :=
  pol_ScheduleType policy ∈ ["daily"; "weekly"; "monthly"].

(** ** Proofs, in a zone of fixed offset *)

Lemma clampHour_range v : 0 <= clampHour v < 24.
Proof. unfold clampHour. go_case; go_bool; lia. Qed.

Lemma clampMinute_range v : 0 <= clampMinute v < 60.
Proof. unfold clampMinute. go_case; go_bool; lia. Qed.

Lemma clampWeekday_range v : 0 <= clampWeekday v < 7.
Proof. unfold clampWeekday. go_case; go_bool; lia. Qed.

Lemma clampMonthDay_range v : 1 <= clampMonthDay v <= 31.
Proof. unfold clampMonthDay. go_case; go_bool; lia. Qed.

#[local] Hint Resolve clampHour_range clampMinute_range : core.

Section fixed_offset.
Context (off : Z) (policy : Policy).
Let loc := fixed_zone off.
Let h := clampHour (pol_Hour policy).
Let mi := clampMinute (pol_Minute policy).
Let S := h * 3600 + mi * 60.

(** The policy's time of day on day [D]. *)
Definition at_day (D : Z) : time := ((D - epoch_day) * 86400 + S - off) * second.

Lemma S_range : 0 <= S < 86400.
Proof.
  unfold S, h, mi. pose proof (clampHour_range (pol_Hour policy)).
  pose proof (clampMinute_range (pol_Minute policy)). lia.
Qed.

Lemma clock_h_mi : clock_ok h mi 0.
Proof. unfold clock_ok, h, mi. split; [auto|split; [auto|lia]]. Qed.

Lemma at_day_mono D E : D < E -> at_day D < at_day E.
Proof. unfold at_day, second. lia. Qed.

Lemma at_day_Date y m d : Date y m d h mi 0 0 loc = at_day (day_number y m d).
Proof. unfold loc. rewrite Date_fixed. unfold at_day, S. f_equal. lia. Qed.

Lemma today_at_day t : today_at policy loc t = at_day (local_day loc t).
Proof.
  unfold today_at. fold h mi. rewrite at_day_Date. f_equal. symmetry.
  apply local_day_civil.
Qed.

Lemma local_day_at_day D : local_day loc (at_day D) = D.
Proof.
  pose proof S_range. unfold local_day, loc. rewrite wall_fixed. unfold at_day, unix.
  rewrite Z.div_mul by done. replace (_ + off) with (S + (D - epoch_day) * 86400) by lia.
  rewrite Z.div_add, Z.div_small by lia. lia.
Qed.

Lemma local_second_at_day D : local_second loc (at_day D) = S.
Proof.
  pose proof S_range. unfold local_second, loc. rewrite wall_fixed. unfold at_day, unix.
  rewrite Z.div_mul by done. replace (_ + off) with (S + (D - epoch_day) * 86400) by lia.
  rewrite Z.mod_add, Z.mod_small by lia. done.
Qed.

Lemma day_before_at_day t D : local_day loc t < D -> t < at_day D.
Proof.
  intros HD. rewrite (time_of_local off t). fold loc.
  pose proof (local_second_range off t) as H1. pose proof (Nanosecond_range t).
  fold loc in H1. pose proof S_range. unfold at_day, second in *. nia.
Qed.

Lemma at_day_before_day t D : D < local_day loc t -> at_day D < t.
Proof.
  intros HD. rewrite (time_of_local off t). fold loc.
  pose proof (local_second_range off t) as H1. pose proof (Nanosecond_range t).
  fold loc in H1. pose proof S_range. unfold at_day, second in *. nia.
Qed.

Lemma clock_at_day D :
  Hour loc (at_day D) = h /\ Minute loc (at_day D) = mi /\
  Second loc (at_day D) = 0 /\ Nanosecond (at_day D) = 0.
Proof.
  unfold Hour, Minute, Second. rewrite local_second_at_day.
  unfold S, h, mi. pose proof (clampHour_range (pol_Hour policy)).
  pose proof (clampMinute_range (pol_Minute policy)).
  repeat split; try zdiv. unfold Nanosecond, at_day. apply Z.mod_mul. done.
Qed.

(** A firing instant is the policy's time on its local day. *)
Lemma fires_at_day u : fires policy loc u -> u = at_day (local_day loc u).
Proof.
  intros (Hh & Hmi & Hs & Hn & _). pose proof (time_of_local off u) as Hu.
  pose proof (local_second_clock off u) as Hc. fold loc in Hu, Hc.
  rewrite Hh, Hmi, Hs in Hc. unfold at_day, S, h, mi, second in *. lia.
Qed.

Lemma fires_inv u :
  fires policy loc u -> exists D, u = at_day D /\ fires policy loc (at_day D).
Proof. intros Hu. exists (local_day loc u). by rewrite <- fires_at_day. Qed.

Lemma at_day_fires D :
  on_policy_day policy loc (at_day D) -> fires policy loc (at_day D).
Proof. intros Hd. destruct (clock_at_day D) as (?&?&?&?). by repeat split. Qed.

Lemma Weekday_at_day D : Weekday loc (at_day D) = (D + 1) mod 7.
Proof. unfold Weekday. by rewrite local_day_at_day. Qed.

(** *** Daily and weekly *)

Lemma daily_first_fire t :
  pol_ScheduleType policy = "daily" ->
  first_fire policy loc t (NextPolicyFireAtInLocation policy t loc).
Proof.
  intros Ht. unfold NextPolicyFireAtInLocation. rewrite Ht, today_at_day.
  assert (Hf : forall D, fires policy loc (at_day D)).
  { intros D. apply at_day_fires. unfold on_policy_day. by rewrite Ht. }
  unfold after. destruct (Z.ltb_spec t (at_day (local_day loc t))) as [Hlt|Hge].
  - split; [done|split; [done|]]. intros u Hu Hfu. destruct (fires_inv u Hfu) as (D & -> & _).
    destruct (Z.lt_trichotomy D (local_day loc t)) as [H|[->|H]]; [|lia|].
    + pose proof (at_day_before_day t D H). lia.
    + pose proof (at_day_mono _ _ H). lia.
  - unfold loc. rewrite AddDate_days. fold loc.
    replace (_ + _) with (at_day (local_day loc t + 1)) by (unfold at_day, second; lia).
    split; [apply day_before_at_day; lia|split; [done|]].
    intros u Hu Hfu. destruct (fires_inv u Hfu) as (D & -> & _).
    destruct (Z_lt_le_dec D (local_day loc t + 1)) as [H|H].
    + destruct (Z.eq_dec D (local_day loc t)) as [E|E]; [rewrite E in Hu; lia|].
      pose proof (at_day_before_day t D). lia.
    + destruct (Z.eq_dec D (local_day loc t + 1)) as [->|]; [lia|].
      pose proof (at_day_mono (local_day loc t + 1) D). lia.
Qed.

Lemma weekly_first_fire t :
  pol_ScheduleType policy = "weekly" ->
  first_fire policy loc t (NextPolicyFireAtInLocation policy t loc).
Proof.
  intros Ht. unfold NextPolicyFireAtInLocation. rewrite Ht, today_at_day.
  pose proof (clampWeekday_range (pol_WeekDay policy)) as Hw.
  set (w := clampWeekday (pol_WeekDay policy)) in *.
  set (L := local_day loc t). unfold loc. rewrite !AddDate_days. fold loc.
  change (Weekday loc t) with ((L + 1) mod 7).
  assert (Hwk : 0 <= (L + 1) mod 7 < 7) by (apply Z.mod_pos_bound; lia).
  rewrite Z.rem_mod_nonneg by lia. set (k := (w - (L + 1) mod 7 + 7) mod 7).
  assert (Hk : 0 <= k < 7) by (apply Z.mod_pos_bound; lia).
  assert (Hkw : (L + k + 1) mod 7 = w) by (unfold k; zdiv).
  replace (at_day L + k * (86400 * second)) with (at_day (L + k))
    by (unfold at_day, second; lia).
  replace (at_day (L + k) + 7 * (86400 * second)) with (at_day (L + k + 7))
    by (unfold at_day, second; lia).
  assert (Hfire : forall D, (D + 1) mod 7 = w -> fires policy loc (at_day D)).
  { intros D HD. apply at_day_fires. unfold on_policy_day.
    by rewrite Ht, Weekday_at_day. }
  assert (Hday : forall D, fires policy loc (at_day D) -> (D + 1) mod 7 = w).
  { intros D (_&_&_&_&Hd). unfold on_policy_day in Hd.
    by rewrite Ht, Weekday_at_day in Hd. }
  unfold after. destruct (Z.ltb_spec t (at_day (L + k))) as [Hlt|Hge].
  - split; [done|split; [by apply Hfire|]]. intros u Hu Hfu.
    destruct (fires_inv u Hfu) as (D & -> & Hud). apply Hday in Hud.
    destruct (Z_lt_le_dec D (L + k)) as [H|H].
    + exfalso. destruct (Z_lt_le_dec D L); [pose proof (at_day_before_day t D); lia|zdiv].
    + destruct (Z.eq_dec D (L + k)) as [->|]; [lia|].
      pose proof (at_day_mono (L + k) D). lia.
  - split; [apply day_before_at_day; lia|split; [apply Hfire; zdiv|]].
    intros u Hu Hfu. destruct (fires_inv u Hfu) as (D & -> & Hud). apply Hday in Hud.
    destruct (Z_lt_le_dec D (L + k + 7)) as [H|H].
    + exfalso. destruct (Z_lt_le_dec (L + k) D) as [|HD]; [zdiv|].
      destruct (Z.eq_dec D (L + k)) as [E|]; [rewrite E in Hu; lia|].
      pose proof (at_day_mono D (L + k)). lia.
    + destruct (Z.eq_dec D (L + k + 7)) as [->|]; [lia|].
      pose proof (at_day_mono (L + k + 7) D). lia.
Qed.

(** *** Monthly *)

#[local] Opaque day_number days_in_month civil_of_day.

Let md := clampMonthDay (pol_MonthDay policy).

(** The policy's day number in month [m] of year [y]. *)
Definition month_day (y m : Z) : Z := day_number y m (Z.min md (days_in_month y m)).

Lemma month_day_eq y m :
  month_day y m = day_number y m 1 + (Z.min md (days_in_month y m) - 1).
Proof. unfold month_day. apply day_number_day. Qed.

Lemma month_day_valid y m :
  1 <= m <= 12 -> valid_date y m (Z.min md (days_in_month y m)).
Proof.
  intros Hm. split; [done|]. pose proof (days_in_month_pos y m).
  pose proof (clampMonthDay_range (pol_MonthDay policy)). unfold md. lia.
Qed.

Lemma monthlyTime_at_day y m :
  1 <= m <= 12 -> monthlyTime y m md h mi loc = at_day (month_day y m).
Proof.
  intros Hm. unfold monthlyTime.
  assert (Hlast : Day loc (Date y (m + 1) 0 h mi 0 0 loc) = days_in_month y m).
  { unfold Day. rewrite (local_day_Date off) by (done || apply clock_h_mi).
    rewrite (day_number_day y (m + 1) 0 1), day_number_first_month by done.
    replace (day_number y m 1 + days_in_month y m + (0 - 1))
      with (day_number y m (days_in_month y m))
      by (rewrite (day_number_day y m (days_in_month y m) 1); lia).
    rewrite civil_of_day_number; [done|]. split; [done|].
    pose proof (days_in_month_pos y m). lia. }
  rewrite Hlast, at_day_Date. unfold month_day. do 2 f_equal.
  destruct (Z.ltb_spec (days_in_month y m) md); lia.
Qed.

Definition month_start (t : time) : Z := day_number (Year loc t) (Month loc t) 1.
Definition month_length (t : time) : Z := days_in_month (Year loc t) (Month loc t).

Lemma local_day_in_month t :
  month_start t <= local_day loc t < month_start t + month_length t.
Proof.
  pose proof (civil_valid off t) as [Hm Hd]. pose proof (local_day_civil off t) as HL.
  fold loc in Hm, Hd, HL. rewrite HL, (day_number_day _ _ _ 1).
  unfold month_start, month_length. lia.
Qed.

(** Day numbers between the first and the last of a month have that month. *)
Lemma civil_in_month y m D :
  1 <= m <= 12 ->
  day_number y m 1 <= D < day_number y m 1 + days_in_month y m ->
  Year loc (at_day D) = y /\ Month loc (at_day D) = m /\
  Day loc (at_day D) = D - day_number y m 1 + 1.
Proof.
  intros Hm HD. unfold Year, Month, Day. rewrite local_day_at_day.
  replace D with (day_number y m (D - day_number y m 1 + 1)) at 1 2 3
    by (rewrite (day_number_day _ _ _ 1); lia).
  rewrite civil_of_day_number; [done|]. split; [done|lia].
Qed.

Hypothesis monthly : pol_ScheduleType policy = "monthly".

Lemma month_day_range y m :
  1 <= m <= 12 ->
  day_number y m 1 <= month_day y m < day_number y m 1 + days_in_month y m.
Proof.
  intros Hm. destruct (month_day_valid y m Hm) as [_ Hd]. rewrite month_day_eq. lia.
Qed.

Lemma month_day_fires y m : 1 <= m <= 12 -> fires policy loc (at_day (month_day y m)).
Proof.
  intros Hm. apply at_day_fires. unfold on_policy_day. rewrite monthly.
  destruct (civil_in_month y m (month_day y m) Hm (month_day_range y m Hm))
    as (-> & -> & ->). rewrite month_day_eq. fold md. lia.
Qed.

(** Within a month, the policy fires only on its day. *)
Lemma fires_in_month y m D :
  1 <= m <= 12 ->
  day_number y m 1 <= D < day_number y m 1 + days_in_month y m ->
  fires policy loc (at_day D) -> D = month_day y m.
Proof.
  intros Hm HD (_&_&_&_&Hd). unfold on_policy_day in Hd. rewrite monthly in Hd.
  destruct (civil_in_month y m D Hm HD) as (Hy & Hmo & Hda).
  rewrite Hy, Hmo, Hda in Hd. fold md in Hd. rewrite month_day_eq. lia.
Qed.

(** When this month's day is still ahead, it is the first fire. *)
Lemma monthly_this_month t :
  t < at_day (month_day (Year loc t) (Month loc t)) ->
  first_fire policy loc t (at_day (month_day (Year loc t) (Month loc t))).
Proof.
  intros Hlt. pose proof (civil_valid off t) as [Hm _]. fold loc in Hm.
  split; [done|split; [by apply month_day_fires|]].
  intros u Hu Hfu. destruct (fires_inv u Hfu) as (D & -> & HD).
  pose proof (local_day_in_month t) as HL. unfold month_start, month_length in HL.
  set (F := day_number _ _ 1) in *.
  destruct (Z_lt_le_dec D F).
  { pose proof (at_day_before_day t D). lia. }
  destruct (Z_lt_le_dec D (F + days_in_month (Year loc t) (Month loc t))) as [H|H].
  - rewrite (fires_in_month (Year loc t) (Month loc t) D); [lia|done|unfold F in *; lia|done].
  - pose proof (month_day_range (Year loc t) (Month loc t) Hm). fold F in H0.
    pose proof (at_day_mono (month_day (Year loc t) (Month loc t)) D). lia.
Qed.

(** When it has passed, the first fire is in the following month. *)
Lemma monthly_next_month t y m :
  1 <= m <= 12 ->
  at_day (month_day (Year loc t) (Month loc t)) <= t ->
  day_number y m 1 = month_start t + month_length t ->
  first_fire policy loc t (at_day (month_day y m)).
Proof.
  intros Hm Hge Hnext. pose proof (civil_valid off t) as [Hmt _]. fold loc in Hmt.
  pose proof (local_day_in_month t) as HL.
  pose proof (month_day_range y m Hm) as Hr.
  split; [apply day_before_at_day; lia|split; [by apply month_day_fires|]].
  intros u Hu Hfu. destruct (fires_inv u Hfu) as (D & -> & HD).
  destruct (Z_lt_le_dec D (month_start t)).
  { pose proof (at_day_before_day t D). lia. }
  destruct (Z_lt_le_dec D (month_start t + month_length t)) as [H|H].
  { rewrite (fires_in_month (Year loc t) (Month loc t) D) in Hu
      by (done || (unfold month_start, month_length in *; lia)). lia. }
  destruct (Z_lt_le_dec D (day_number y m 1 + days_in_month y m)) as [H'|H'].
  - rewrite (fires_in_month y m D); [lia|done|lia|done].
  - pose proof (at_day_mono (month_day y m) D). lia.
Qed.

Lemma monthly_unfold t :
  NextPolicyFireAtInLocation policy t loc =
  let next := at_day (month_day (Year loc t) (Month loc t)) in
  if after next t then next
  else at_day (month_day (Year loc (AddDate loc t 0 1 0)) (Month loc (AddDate loc t 0 1 0))).
Proof.
  unfold NextPolicyFireAtInLocation. rewrite monthly. fold md h mi.
  pose proof (civil_valid off t) as [Hm _]. fold loc in Hm.
  pose proof (civil_valid off (AddDate loc t 0 1 0)) as [Hm' _]. fold loc in Hm'.
  by rewrite !monthlyTime_at_day.
Qed.

Lemma AddDate_month_day t :
  local_day loc (AddDate loc t 0 1 0) = day_number (Year loc t) (Month loc t + 1) (Day loc t).
Proof.
  unfold AddDate. unfold loc. rewrite local_day_Date; [by rewrite !Z.add_0_r| |apply clock_of].
  apply Nanosecond_range.
Qed.

Lemma monthly_first_fire t :
  Day loc t <= 28 -> first_fire policy loc t (NextPolicyFireAtInLocation policy t loc).
Proof.
  intros Hd28. rewrite monthly_unfold. cbv zeta. unfold after.
  destruct (Z.ltb_spec t (at_day (month_day (Year loc t) (Month loc t)))).
  { by apply monthly_this_month. }
  pose proof (civil_valid off t) as [Hm Hd]. fold loc in Hm, Hd.
  set (Y := Year loc t) in *. set (M := Month loc t) in *.
  set (y' := Y + (M + 1 - 1) / 12). set (m' := (M + 1 - 1) mod 12 + 1).
  assert (Hm' : 1 <= m' <= 12) by (unfold m'; pose proof (Z.mod_pos_bound (M + 1 - 1) 12); lia).
  assert (Hciv : civil_of_day (local_day loc (AddDate loc t 0 1 0)) = (y', m', Day loc t)).
  { rewrite AddDate_month_day. fold Y M. rewrite day_number_month_norm.
    apply civil_of_day_number. split; [done|]. pose proof (days_in_month_pos y' m'). lia. }
  unfold Year at 1, Month at 1. rewrite Hciv. simpl.
  apply monthly_next_month; [done|done|].
  unfold month_start, month_length. fold Y M. unfold y', m'.
  by rewrite <- day_number_month_norm, day_number_first_month.
Qed.

(** A month that starts before another ends before it. *)
Lemma month_disjoint y m y' m' :
  1 <= m <= 12 -> 1 <= m' <= 12 ->
  day_number y' m' 1 < day_number y m 1 ->
  day_number y' m' 1 + days_in_month y' m' <= day_number y m 1.
Proof.
  intros Hm Hm' Hlt.
  destruct (Z_le_gt_dec (day_number y' m' 1 + days_in_month y' m') (day_number y m 1))
    as [|Hin]; [done|exfalso].
  destruct (civil_in_month y' m' (day_number y m 1) Hm') as (E1 & E2 & _); [lia|].
  pose proof (days_in_month_pos y m).
  destruct (civil_in_month y m (day_number y m 1) Hm) as (F1 & F2 & _); [lia|].
  assert (y' = y) as -> by congruence. assert (m' = m) as -> by congruence. lia.
Qed.

Lemma month_after_AddDate t :
  day_number (Year loc t) (Month loc t + 1) 1 <= month_start (AddDate loc t 0 1 0).
Proof.
  pose proof (local_day_in_month (AddDate loc t 0 1 0)) as HL.
  rewrite AddDate_month_day in HL.
  pose proof (civil_valid off t) as [Hm Hd].
  pose proof (civil_valid off (AddDate loc t 0 1 0)) as [Hm' _].
  fold loc in Hm, Hd, Hm'. unfold month_start, month_length in *.
  revert HL Hm'. generalize (Year loc (AddDate loc t 0 1 0)).
  generalize (Month loc (AddDate loc t 0 1 0)). intros m' y' HL Hm'.
  rewrite (day_number_day _ _ (Day loc t) 1) in HL.
  rewrite (day_number_month_norm _ (Month loc t + 1)) in *.
  pose proof (Z.mod_pos_bound (Month loc t + 1 - 1) 12).
  destruct (Z_le_gt_dec (day_number (Year loc t + (Month loc t + 1 - 1) / 12)
    ((Month loc t + 1 - 1) mod 12 + 1) 1) (day_number y' m' 1)) as [|Hgt]; [done|exfalso].
  pose proof (month_disjoint (Year loc t + (Month loc t + 1 - 1) / 12)
    ((Month loc t + 1 - 1) mod 12 + 1) y' m'). lia.
Qed.

(** In any case the answer is a fire, in the future. *)
Lemma monthly_some_fire t :
  t < NextPolicyFireAtInLocation policy t loc /\
  fires policy loc (NextPolicyFireAtInLocation policy t loc).
Proof.
  rewrite monthly_unfold. cbv zeta. unfold after.
  pose proof (civil_valid off t) as [Hm _].
  pose proof (civil_valid off (AddDate loc t 0 1 0)) as [Hm' _]. fold loc in Hm, Hm'.
  destruct (Z.ltb_spec t (at_day (month_day (Year loc t) (Month loc t)))).
  { split; [done|by apply month_day_fires]. }
  split; [|by apply month_day_fires].
  apply day_before_at_day.
  pose proof (month_day_range (Year loc (AddDate loc t 0 1 0)) _ Hm').
  pose proof (local_day_in_month t) as HL.
  pose proof (month_after_AddDate t). unfold month_start, month_length in *.
  rewrite day_number_first_month in * by done. lia.
Qed.
End fixed_offset.

#[local] Transparent day_number days_in_month civil_of_day.

(** ** Properties *)

Definition with_schedule (kind : string) (h mi wd mday iv : Z) (unit : string) : Policy :=
  {| pol_RetentionRules := []; pol_RetentionTimezone := "UTC"; pol_ID := "p";
     pol_TenantID := "t"; pol_Name := "n"; pol_Composition := "combined";
     pol_ScheduleType := kind; pol_IntervalValue := iv; pol_IntervalUnit := unit;
     pol_Hour := h; pol_Minute := mi; pol_WeekDay := wd; pol_MonthDay := mday;
     pol_RetentionCount := 0; pol_RetentionDays := 0; pol_Status := "active";
     pol_BoundCount := 0; pol_CreatedAt := zero_time; pol_UpdatedAt := zero_time |}.


(** 2024-01-15T12:00:00Z, a Monday. *)
Definition jan15 : time := 1705320000 * second.


Lemma truncate_second t u : t + second <= u -> t < truncate second u <= u.
Proof. unfold truncate. pose proof (Z.mod_pos_bound u second). unfold second in *. lia. Qed.

Lemma interval_next_range policy t :
  pol_IntervalValue policy <= 2562047 ->
  t < interval_next policy t <=
    t + Z.max 1 (pol_IntervalValue policy) * hour.
Proof.
  intros Hv. unfold interval_next, duration_mul, hour, minute in *.
  assert (Hval : (if pol_IntervalValue policy <=? 0 then 1 else pol_IntervalValue policy)
                 = Z.max 1 (pol_IntervalValue policy)) by (go_case; go_bool; lia).
  rewrite Hval. generalize dependent (pol_IntervalValue policy). intros v Hv _.
  unfold second in *.
  repeat go_case; rewrite ?int64_wrap_id by lia;
    match goal with |- t < truncate _ ?u <= _ =>
      pose proof (truncate_second t u) as H; unfold second in H; lia end.
Qed.

(** Whatever the policy, the next fire time lies strictly in the future,
    provided an interval is at most 2562047 units (the largest number of hours
    a [time.Duration] can hold): a schedule that has fired is never
    immediately due again. *)
Theorem next_fire_in_future off policy t :
  (pol_ScheduleType policy = "interval" -> pol_IntervalValue policy <= 2562047) ->
  t < NextPolicyFireAtInLocation policy t (fixed_zone off).
Proof.
  intros Hv.
  assert (Hh : t < truncate second (t + hour)).
  { apply truncate_second. unfold hour, minute, second. lia. }
  destruct (decide (calendar_policy policy)) as [Hc|Hc].
  - unfold calendar_policy in Hc. rewrite !elem_of_cons, elem_of_nil in Hc.
    destruct Hc as [H|[H|[H|[]]]].
    + by apply daily_first_fire.
    + by apply weekly_first_fire.
    + by apply monthly_some_fire.
  - unfold NextPolicyFireAtInLocation, calendar_policy in *.
    destruct (decide (pol_ScheduleType policy = "interval")) as [Hi|Hi].
    { rewrite Hi. by apply interval_next_range, Hv. }
    repeat case_match; try done; set_solver.
Qed.

(** The overflow behind the bound of the previous property: an interval
    of 3000000 hours, which no validation rejects, wraps the int64 duration
    and puts the next fire time in the past, for every instant. *)
Theorem interval_overflow_fires_at_once policy t :
  pol_ScheduleType policy = "interval" -> pol_IntervalUnit policy = "hours" ->
  pol_IntervalValue policy = 3000000 ->
  NextPolicyFireAt policy t < t.
Proof.
  intros Ht Hu Hv. unfold NextPolicyFireAt, NextPolicyFireAtInLocation, interval_next.
  rewrite Ht, Hu, Hv. simpl. replace (duration_mul 3000000 hour) with (-7646744073709551616)
    by (vm_compute; reflexivity).
  unfold truncate. pose proof (Z.mod_pos_bound (t + -7646744073709551616) second).
  unfold second in *. lia.
Qed.

Lemma interval_overflow_fires_at_once_witness :
  NextPolicyFireAt (with_schedule "interval" 0 0 0 0 3000000 "hours") jan15 < jan15.
Proof. apply interval_overflow_fires_at_once; reflexivity. Defined.

(** A monthly policy on day 31 that fires on the 31st of January is next
    due on the 31st of March: the month is advanced with [AddDate(0, 1, 0)],
    which normalises "31 February" to March, so the February occurrence (the
    last day of February, which the policy does name) is skipped. *)
Theorem monthly_skips_february off policy y :
  pol_ScheduleType policy = "monthly" -> pol_MonthDay policy = 31 ->
  let jan := at_day off policy (day_number y 1 31) in
  let feb := at_day off policy (day_number y 2 (days_in_month y 2)) in
  jan < feb < NextPolicyFireAtInLocation policy jan (fixed_zone off) /\
  fires policy (fixed_zone off) jan /\ fires policy (fixed_zone off) feb.
Proof.
  intros Ht Hd jan feb.
  assert (Hmd : forall m, 1 <= m <= 12 ->
    month_day policy y m = day_number y m (days_in_month y m)).
  { intros m Hm. unfold month_day. rewrite Hd. f_equal.
    pose proof (days_in_month_pos y m). change (clampMonthDay 31) with 31. lia. }
  assert (Hf : forall m, 1 <= m <= 12 ->
    fires policy (fixed_zone off) (at_day off policy (day_number y m (days_in_month y m)))).
  { intros m Hm. rewrite <- Hmd by done. by apply month_day_fires. }
  pose proof (days_in_month_pos y 2) as H2.
  assert (Hjf : day_number y 1 31 < day_number y 2 (days_in_month y 2)).
  { pose proof (day_number_first_month y 1 ltac:(lia)) as Hn.
    change (1 + 1) with 2 in Hn. change (days_in_month y 1) with 31 in Hn.
    rewrite (day_number_day y 1 31 1), (day_number_day y 2 _ 1). lia. }
  split; [split; [by apply at_day_mono|]|split; [apply (Hf 1); lia|apply (Hf 2); lia]].
  rewrite monthly_unfold by done. cbv zeta.
  assert (Hciv : civil_of_day (local_day (fixed_zone off) jan) = (y, 1, 31)).
  { unfold jan. rewrite local_day_at_day. apply civil_of_day_number.
    split; [lia|]. change (days_in_month y 1) with 31. lia. }
  assert (E : at_day off policy (month_day policy (Year (fixed_zone off) jan)
                (Month (fixed_zone off) jan)) = jan).
  { unfold Year, Month. rewrite Hciv. simpl. by rewrite Hmd by lia. }
  rewrite E. unfold after. rewrite Z.ltb_irrefl. apply at_day_mono.
  assert (HA : Year (fixed_zone off) (AddDate (fixed_zone off) jan 0 1 0) = y /\
               Month (fixed_zone off) (AddDate (fixed_zone off) jan 0 1 0) = 3).
  { assert (Hs : civil_of_day (local_day (fixed_zone off) (AddDate (fixed_zone off) jan 0 1 0))
                 = (y, 3, 31 - days_in_month y 2)).
    { rewrite AddDate_month_day.
      assert (Year (fixed_zone off) jan = y /\ Month (fixed_zone off) jan = 1 /\
              Day (fixed_zone off) jan = 31) as (-> & -> & ->)
        by (unfold Year, Month, Day; rewrite Hciv; done).
      pose proof (day_number_first_month y 2 ltac:(lia)) as Hn. change (2 + 1) with 3 in Hn.
      change (1 + 1) with 2.
      replace (day_number y 2 31) with (day_number y 3 (31 - days_in_month y 2))
        by (rewrite (day_number_day y 3 _ 1), (day_number_day y 2 31 1); lia).
      apply civil_of_day_number. split; [lia|].
      change (days_in_month y 3) with 31. unfold days_in_month. destruct (leap y); lia. }
    unfold Year, Month. rewrite Hs. done. }
  destruct HA as [-> ->]. rewrite Hmd by lia. change (days_in_month y 3) with 31.
  pose proof (day_number_first_month y 2 ltac:(lia)) as Hn. change (2 + 1) with 3 in Hn.
  rewrite (day_number_day y 3 31 1), (day_number_day y 2 _ 1). lia.
Qed.

Lemma monthly_skips_february_witness :
  let p := with_schedule "monthly" 2 0 0 31 0 "" in
  let jan := at_day 0 p (day_number 2023 1 31) in
  (at_day 0 p (day_number 2023 2 28) < NextPolicyFireAt p jan)
  /\ Month utc (NextPolicyFireAt p jan) = 3.
Proof.
  split; [|vm_compute; reflexivity].
  apply (monthly_skips_february 0 (with_schedule "monthly" 2 0 0 31 0 "") 2023); reflexivity.
Defined.

(** A next fire time computed for a calendar policy is recognised by
    [ScheduleMatchesPolicy] for the same policy and zone, so reconciliation
    leaves a schedule it has just written alone. *)
Theorem computed_schedule_matches off policy t :
  calendar_policy policy ->
  NextPolicyFireAtInLocation policy t (fixed_zone off) <> zero_time ->
  ScheduleMatchesPolicy (NextPolicyFireAtInLocation policy t (fixed_zone off))
    policy (fixed_zone off) = true.
Proof.
  intros Hc Hz.
  assert (Hf : fires policy (fixed_zone off)
                 (NextPolicyFireAtInLocation policy t (fixed_zone off))).
  { unfold calendar_policy in Hc. rewrite !elem_of_cons, elem_of_nil in Hc.
    destruct Hc as [H|[H|[H|[]]]].
    - by apply daily_first_fire.
    - by apply weekly_first_fire.
    - by apply monthly_some_fire. }
  revert Hz Hf. generalize (NextPolicyFireAtInLocation policy t (fixed_zone off)).
  intros u Hz (Hh & Hmi & Hs & Hn & Hday). unfold ScheduleMatchesPolicy.
  unfold is_zero. apply Z.eqb_neq in Hz. rewrite Hz, Hh, Hmi, !Z.eqb_refl. simpl.
  unfold calendar_policy in Hc. rewrite !elem_of_cons, elem_of_nil in Hc.
  unfold on_policy_day in Hday.
  destruct Hc as [H|[H|[H|[]]]]; rewrite H in *; simpl; [done|by apply Z.eqb_eq|].
  apply Z.eqb_eq. pose proof (civil_valid off u) as [Hm _].
  rewrite Hday at 1. unfold Day. rewrite monthlyTime_at_day by done.
  rewrite local_day_at_day. unfold month_day.
  rewrite civil_of_day_number; [done|]. by apply month_day_valid.
Qed.

Lemma computed_schedule_matches_witness :
  let p := with_schedule "weekly" 23 59 0 0 0 "" in
  ScheduleMatchesPolicy (NextPolicyFireAt p jan15) p utc = true.
Proof.
  apply (computed_schedule_matches 0).
  - apply list_elem_of_In. right. left. reflexivity.
  - vm_compute. discriminate.
Defined.
