(* ===== verification/Retention.v ===== *)
(** Retention rules of a protection policy:
    backend/internal/store/retention_rules.go.

    A rule keeps the [Ordinal]-th restore point of every period (day, week,
    month, year) for [Keep] periods.  [time.LoadLocation] reads the tz
    database, so it is the parameter [LoadLocation]. *)

From S2P Require Import Prelude Calendar Value Types.

(** ** The code *)

Inductive RetentionError :=
| TooManyRules
| InvalidRetentionTimezone
| InvalidRetentionPeriod
| RetentionOutOfRange
| DuplicateRetentionRule.

(** The loop over the rules, with the set of rules seen so far. *)
Fixpoint validate_rules (seen : list RetentionRule) (rules : list RetentionRule)
    : option RetentionError :=
  match rules with
  | [] => None
  | rule :: rules =>
      if negb (one_of (rule_Period rule) ["daily"; "weekly"; "monthly"; "yearly"])
      then Some InvalidRetentionPeriod
      else if (rule_Ordinal rule <? 1) || (100000 <? rule_Ordinal rule) ||
              (rule_Keep rule <? 1) || (1000 <? rule_Keep rule)
      then Some RetentionOutOfRange
      else if bool_decide (rule ∈ seen) then Some DuplicateRetentionRule
      else validate_rules (rule :: seen) rules
  end.

Definition ValidateRetentionRules (LoadLocation : string -> option location)
    (rules : list RetentionRule) (zone : string) : option RetentionError :=
  if 32 <? Z.of_nat (length rules) then Some TooManyRules
  else match LoadLocation zone with
       | None => Some InvalidRetentionTimezone
       | Some _ => validate_rules [] rules
       end.

Definition retentionPeriodStart (value : time) (period : string) (location : location) : time :=
  let year := Year location value in
  let month := Month location value in
  let day := Day location value in
  let start := Date year month day 0 0 0 0 location in
  match period with
  | "weekly" => AddDate location start 0 0 (Z.rem (- (Weekday location start + 6)) 7)
  | "monthly" => Date year month 1 0 0 0 0 location
  | "yearly" => Date year 1 1 0 0 0 0 location
  | _ => start
  end.

(** The time's own location is an argument: [AddDate] computes in it. *)
Definition retentionPeriodAdd (location : location)
    (value : time) (period : string) (count : Z) : time :=
  match period with
  | "weekly" => AddDate location value 0 0 (count * 7)
  | "monthly" => AddDate location value 0 count 0
  | "yearly" => AddDate location value count 0 0
  | _ => AddDate location value 0 0 count
  end.

Definition restorePointOrderTime (point : RestorePoint) : time :=
  if negb (is_zero (rp_TaskCreatedAt point)) then rp_TaskCreatedAt point
  else if negb (is_zero (rp_StartedAt point)) then rp_StartedAt point
  else rp_CreatedAt point.

(** The order of [sort.Slice]; [sort.Slice] is given the strict version of it,
    which is the same order when identifiers are distinct. *)
Definition ordered_le (left right : RestorePoint) : Prop :=
  restorePointOrderTime left < restorePointOrderTime right \/
  restorePointOrderTime left = restorePointOrderTime right /\
  String.le (rp_ID left) (rp_ID right).

#[export] Instance ordered_le_dec : RelDecision ordered_le.
Proof. intros x y. unfold ordered_le. apply _. Defined.

Definition cutoff (rule : RetentionRule) (location : location) (now : time) : time :=
  retentionPeriodAdd location
    (retentionPeriodStart now (rule_Period rule) location) (rule_Period rule)
    (1 - rule_Keep rule).

(** The point survives the three [continue]s of the inner loop. *)
Definition counted (rule : RetentionRule) (location : location) (now : time)
    (point : RestorePoint) : bool :=
  one_of (rp_Status point) ["available"; "deleted"] &&
  negb (after (restorePointOrderTime point) now) &&
  negb (before (retentionPeriodStart (restorePointOrderTime point) (rule_Period rule) location)
               (cutoff rule location now)).

Definition reason_of (rule : RetentionRule) (location : location) (point : RestorePoint)
    : RetentionReason :=
  let start := retentionPeriodStart (restorePointOrderTime point) (rule_Period rule) location in
  {| reason_Period := rule_Period rule; reason_Ordinal := rule_Ordinal rule;
     reason_Until := retentionPeriodAdd location start (rule_Period rule) (rule_Keep rule) |}.

Abbreviation selections := (gmap string (list RetentionReason)).

Definition select_point (rule : RetentionRule) (location : location) (now : time)
    (state : gmap time Z * selections) (point : RestorePoint) : gmap time Z * selections :=
  let '(counts, selected) := state in
  if counted rule location now point then
    let start := retentionPeriodStart (restorePointOrderTime point) (rule_Period rule) location in
    let n := default 0 (counts !! start) + 1 in
    (<[start := n]> counts,
     if (n =? rule_Ordinal rule) && (rp_Status point =s "available") then
       <[rp_ID point := default [] (selected !! rp_ID point) ++ [reason_of rule location point]]>
         selected
     else selected)
  else state.

Definition select_rule (location : location) (now : time) (ordered : list RestorePoint)
    (selected : selections) (rule : RetentionRule) : selections :=
  snd (foldl (select_point rule location now) (∅, selected) ordered).

Definition RetentionSelections (LoadLocation : string -> option location)
    (points : list RestorePoint) (rules : list RetentionRule) (zone : string) (now : time)
    : RetentionError + selections :=
  match ValidateRetentionRules LoadLocation rules zone with
  | Some err => inl err
  | None =>
      let location := default utc (LoadLocation zone) in
      let ordered := merge_sort ordered_le points in
      inr (foldl (select_rule location now ordered) ∅ rules)
  end.

(** ** What a rule selects

    The period a point falls in, and its rank in it: the number of counted
    points of the same period that come no later. *)
Definition period_of (rule : RetentionRule) (loc : location) (p : RestorePoint) : time :=
  retentionPeriodStart (restorePointOrderTime p) (rule_Period rule) loc.

Definition no_later (rule : RetentionRule) (loc : location) (now : time) (p q : RestorePoint)
    : bool :=
  counted rule loc now q && (period_of rule loc q =? period_of rule loc p) &&
  bool_decide (ordered_le q p).

Definition rank (rule : RetentionRule) (loc : location) (now : time)
    (points : list RestorePoint) (p : RestorePoint) : Z :=
  count (no_later rule loc now p) points.

Definition keeps (rule : RetentionRule) (loc : location) (now : time)
    (points : list RestorePoint) (p : RestorePoint) : bool :=
  (rp_Status p =s "available") && counted rule loc now p &&
  (rank rule loc now points p =? rule_Ordinal rule).

Definition kept_for (rules : list RetentionRule) (loc : location) (now : time)
    (points : list RestorePoint) (p : RestorePoint) : list RetentionReason :=
  (fun rule => reason_of rule loc p) <$>
    List.filter (fun rule => keeps rule loc now points p) rules.

(** ** Proofs *)

#[export] Instance ordered_le_preorder : PreOrder ordered_le.
Proof.
  unfold ordered_le. split; [intros p; by right|].
  intros p q r [?|[? ?]] [?|[? ?]]; [left; lia|left; lia|left; lia|right].
  split; [lia|by etrans].
Qed.

#[export] Instance ordered_le_total : Total ordered_le.
Proof.
  intros p q. unfold ordered_le.
  destruct (Z.lt_trichotomy (restorePointOrderTime p) (restorePointOrderTime q)) as [?|[?|?]];
    [by left; left| |by right; left].
  destruct (total String.le (rp_ID p) (rp_ID q)); [left|right]; right; split; done || lia.
Qed.

Lemma ordered_le_antisym p q : ordered_le p q -> ordered_le q p -> rp_ID p = rp_ID q.
Proof.
  unfold ordered_le. intros [?|[? ?]] [?|[? ?]]; try lia. by apply (anti_symm String.le).
Qed.

Section rule.
Context (rule : RetentionRule) (loc : location) (now : time).

(** The counters before a point: one per period, over the points already seen. *)
Definition counts_of (seen : list RestorePoint) (counts : gmap time Z) : Prop :=
  forall s, default 0 (counts !! s) =
    count (fun q => counted rule loc now q && (period_of rule loc q =? s)) seen.

Lemma rank_in_order seen p rest :
  StronglySorted ordered_le (seen ++ p :: rest) ->
  NoDup (rp_ID <$> seen ++ p :: rest) ->
  counted rule loc now p = true ->
  rank rule loc now (seen ++ p :: rest) p =
  count (fun q => counted rule loc now q && (period_of rule loc q =? period_of rule loc p)) seen + 1.
Proof.
  intros Hs Hnd Hp. unfold rank. rewrite count_app, count_cons.
  replace (no_later rule loc now p p) with true.
  2: { symmetry. unfold no_later. rewrite Hp, Z.eqb_refl. by apply bool_decide_eq_true. }
  rewrite (count_ext _ (fun q => counted rule loc now q &&
    (period_of rule loc q =? period_of rule loc p)) seen).
  - rewrite (count_ext _ (fun _ => false) rest).
    + replace (count (fun _ => false) rest) with 0; [lia|].
      clear. induction rest; [done|]. by rewrite count_cons.
    + intros q Hq. unfold no_later. apply andb_false_iff. right. apply bool_decide_eq_false.
      intros Hle. apply StronglySorted_app_1_r in Hs as Hs'.
      apply StronglySorted_inv in Hs' as [_ Hall].
      rewrite Forall_forall in Hall. specialize (Hall q Hq).
      assert (rp_ID p = rp_ID q) as Heq by (by apply ordered_le_antisym).
      rewrite fmap_app, fmap_cons in Hnd. apply NoDup_app in Hnd as (_ & _ & Hnd).
      apply NoDup_cons in Hnd as [Hnd _]. apply Hnd. rewrite Heq. by apply list_elem_of_fmap_2.
  - intros q Hq. unfold no_later. rewrite bool_decide_eq_true_2, andb_true_r; [done|].
    eapply StronglySorted_app_1_elem_of; [exact Hs|done|left].
Qed.

Lemma counts_of_skip seen p counts :
  counts_of seen counts -> counted rule loc now p = false -> counts_of (seen ++ [p]) counts.
Proof. intros Hc Hp s. rewrite count_app, count_cons, Hp, count_nil, Hc. simpl. lia. Qed.

Lemma counts_of_count seen p counts :
  counts_of seen counts -> counted rule loc now p = true ->
  counts_of (seen ++ [p])
    (<[period_of rule loc p := default 0 (counts !! period_of rule loc p) + 1]> counts).
Proof.
  intros Hc Hp s. rewrite count_app, count_cons, Hp, count_nil. simpl.
  destruct (Z.eqb_spec (period_of rule loc p) s) as [<-|Hne].
  - rewrite lookup_insert_eq. simpl. rewrite Hc. lia.
  - rewrite lookup_insert_ne by done. rewrite Hc. lia.
Qed.

(** What the inner loop adds to the reasons of [id], over the points still to come. *)
Definition added (points rest : list RestorePoint) (id : string) : list RetentionReason :=
  reason_of rule loc <$>
    List.filter (fun p => bool_decide (rp_ID p = id) && keeps rule loc now points p) rest.

Lemma added_cons points p rest id :
  added points (p :: rest) id =
  (if bool_decide (rp_ID p = id) && keeps rule loc now points p then [reason_of rule loc p]
   else []) ++ added points rest id.
Proof. unfold added. simpl. by destruct (_ && _). Qed.

Lemma select_fold seen rest counts selected :
  StronglySorted ordered_le (seen ++ rest) -> NoDup (rp_ID <$> seen ++ rest) ->
  counts_of seen counts ->
  forall id,
    default [] (snd (foldl (select_point rule loc now) (counts, selected) rest) !! id) =
    default [] (selected !! id) ++ added (seen ++ rest) rest id.
Proof.
  revert seen counts selected.
  induction rest as [|p rest IH]; intros seen counts selected Hs Hnd Hc id.
  { simpl. by rewrite app_nil_r. }
  assert (Heq : seen ++ p :: rest = (seen ++ [p]) ++ rest) by (by rewrite <- app_assoc).
  rewrite added_cons. cbn [foldl].
  destruct (counted rule loc now p) eqn:Hp.
  - pose proof (rank_in_order seen p rest Hs Hnd Hp) as Hrank.
    rewrite <- (Hc (period_of rule loc p)) in Hrank. rewrite Heq in *.
    replace (select_point rule loc now (counts, selected) p) with
      (<[period_of rule loc p := default 0 (counts !! period_of rule loc p) + 1]> counts,
       if keeps rule loc now ((seen ++ [p]) ++ rest) p then
         <[rp_ID p := default [] (selected !! rp_ID p) ++ [reason_of rule loc p]]> selected
       else selected).
    2: { unfold select_point, keeps. rewrite Hp, Hrank. unfold period_of.
         rewrite andb_true_r, andb_comm. done. }
    rewrite (IH (seen ++ [p])) by (done || by apply counts_of_count).
    rewrite app_assoc. f_equal.
    destruct (keeps _ _ _ _ p); [|by rewrite andb_false_r, app_nil_r].
    rewrite andb_true_r. destruct (decide (rp_ID p = id)) as [<-|Hne].
    + by rewrite lookup_insert_eq, bool_decide_eq_true_2.
    + rewrite lookup_insert_ne by done. by rewrite bool_decide_eq_false_2, app_nil_r.
  - replace (select_point rule loc now (counts, selected) p) with (counts, selected)
      by (unfold select_point; by rewrite Hp).
    rewrite Heq in *. rewrite (IH (seen ++ [p])) by (done || by apply counts_of_skip).
    replace (keeps rule loc now ((seen ++ [p]) ++ rest) p) with false
      by (unfold keeps; by rewrite Hp, andb_false_r).
    by rewrite andb_false_r.
Qed.

End rule.

#[export] Instance rank_Permutation rule loc now :
  Proper (Permutation ==> eq ==> eq) (rank rule loc now).
Proof. intros l k H p ? <-. unfold rank. by rewrite H. Qed.

Lemma keeps_Permutation rule loc now points points' p :
  points ≡ₚ points' -> keeps rule loc now points p = keeps rule loc now points' p.
Proof. intros H. unfold keeps. by rewrite H. Qed.

(** With distinct identifiers, one point answers to an identifier. *)
Lemma added_point rule loc now points l p :
  NoDup (rp_ID <$> l) -> p ∈ l ->
  added rule loc now points l (rp_ID p) =
  if keeps rule loc now points p then [reason_of rule loc p] else [].
Proof.
  intros Hnd Hp. induction l as [|q l IH]; [inversion Hp|].
  rewrite fmap_cons in Hnd. apply NoDup_cons in Hnd as [Hq Hnd]. rewrite added_cons.
  apply elem_of_cons in Hp as [->|Hp].
  - rewrite bool_decide_eq_true_2 by done. simpl.
    replace (added rule loc now points l (rp_ID q)) with ([] : list RetentionReason).
    { by rewrite app_nil_r. }
    clear IH Hnd. induction l as [|r l IH]; [done|].
    rewrite fmap_cons in Hq. rewrite added_cons, bool_decide_eq_false_2; [simpl; apply IH|];
      set_solver.
  - rewrite bool_decide_eq_false_2; [simpl; by apply IH|].
    intros Heq. apply Hq. rewrite Heq. by apply list_elem_of_fmap_2.
Qed.

Lemma added_none rule loc now points l id :
  id ∉ rp_ID <$> l -> added rule loc now points l id = [].
Proof.
  induction l as [|q l IH]; intros Hid; [done|]. rewrite fmap_cons in Hid.
  rewrite added_cons, bool_decide_eq_false_2 by set_solver. simpl. apply IH. set_solver.
Qed.

Lemma sorted_points points :
  StronglySorted ordered_le (merge_sort ordered_le points).
Proof. apply StronglySorted_merge_sort. apply _. apply _. Qed.

Lemma rules_fold loc now points rules selected id :
  NoDup (rp_ID <$> points) ->
  default [] (foldl (select_rule loc now (merge_sort ordered_le points)) selected rules !! id) =
  default [] (selected !! id) ++
  (rules ≫= fun rule => added rule loc now points (merge_sort ordered_le points) id).
Proof.
  intros Hnd. pose proof (merge_sort_Permutation ordered_le points) as Hperm.
  assert (Hnd' : NoDup (rp_ID <$> merge_sort ordered_le points)) by (by rewrite Hperm).
  revert selected. induction rules as [|rule rules IH]; intros selected.
  { simpl. by rewrite app_nil_r. }
  cbn [foldl mbind list_bind]. rewrite IH. unfold select_rule at 1.
  rewrite (select_fold rule loc now []); [|apply sorted_points|done|].
  2: { intros s. rewrite lookup_empty. done. }
  rewrite <- app_assoc. f_equal. f_equal.
  unfold added. f_equal. apply List.filter_ext. intros p. f_equal.
  by apply keeps_Permutation.
Qed.

Lemma kept_for_bind rules loc now points p :
  (rules ≫= fun rule => if keeps rule loc now points p then [reason_of rule loc p] else []) =
  kept_for rules loc now points p.
Proof.
  unfold kept_for. induction rules as [|rule rules IH]; [done|]. cbn [mbind list_bind].
  rewrite IH. simpl. by destruct (keeps _ _ _ _ _).
Qed.

(** ** The selection *)

Section selection.
Context (LoadLocation : string -> option location).

Lemma RetentionSelections_inr points rules zone now selected :
  RetentionSelections LoadLocation points rules zone now = inr selected ->
  selected = foldl (select_rule (default utc (LoadLocation zone)) now
                      (merge_sort ordered_le points)) ∅ rules.
Proof. unfold RetentionSelections. case_match; [done|]. by intros [= <-]. Qed.

Lemma selection_of points rules zone now selected p :
  NoDup (rp_ID <$> points) -> p ∈ points ->
  RetentionSelections LoadLocation points rules zone now = inr selected ->
  default [] (selected !! rp_ID p) =
  kept_for rules (default utc (LoadLocation zone)) now points p.
Proof.
  intros Hnd Hp ->%RetentionSelections_inr. rewrite rules_fold, lookup_empty by done. cbn [default app from_option].
  rewrite <- kept_for_bind. pose proof (merge_sort_Permutation ordered_le points) as Hperm.
  induction rules as [|rule rules IH]; [done|]. cbn [mbind list_bind].
  rewrite IH, added_point; [done|by rewrite Hperm|by rewrite Hperm].
Qed.

Lemma selection_none points rules zone now selected id :
  NoDup (rp_ID <$> points) -> id ∉ rp_ID <$> points ->
  RetentionSelections LoadLocation points rules zone now = inr selected ->
  default [] (selected !! id) = [].
Proof.
  intros Hnd Hid ->%RetentionSelections_inr. rewrite rules_fold, lookup_empty by done. cbn [default app from_option].
  pose proof (merge_sort_Permutation ordered_le points) as Hperm.
  induction rules as [|rule rules IH]; [done|]. cbn [mbind list_bind].
  rewrite IH, added_none; [done|by rewrite Hperm].
Qed.

(** C28.  For points with distinct identifiers, the reasons computed for a point
    are, in the order of the rules, exactly those of the rules for which the
    point is available, falls in a period inside the rule's window, and is the
    [Ordinal]-th available-or-deleted point of that period in time order;
    identifiers of no point get none. *)
Theorem selections_are_ordinal_points points rules zone now selected :
  NoDup (rp_ID <$> points) ->
  RetentionSelections LoadLocation points rules zone now = inr selected ->
  (forall p, p ∈ points ->
    default [] (selected !! rp_ID p) =
    kept_for rules (default utc (LoadLocation zone)) now points p) /\
  (forall id, id ∉ rp_ID <$> points -> default [] (selected !! id) = []).
Proof.
  intros Hnd Hsel. split.
  - intros p Hp. by eapply selection_of.
  - intros id Hid. by eapply selection_none.
Qed.

End selection.

(** *** Deleting a point *)

Definition mark_deleted (id : string) (p : RestorePoint) : RestorePoint :=
  if bool_decide (rp_ID p = id) then
    {| rp_ID := rp_ID p; rp_TenantID := rp_TenantID p;
       rp_ProtectionPlanID := rp_ProtectionPlanID p;
       rp_SourceClusterID := rp_SourceClusterID p; rp_AppID := rp_AppID p;
       rp_StorageRepoID := rp_StorageRepoID p; rp_DisplayName := rp_DisplayName p;
       rp_VeleroBackupName := rp_VeleroBackupName p; rp_PointType := rp_PointType p;
       rp_Status := "deleted"; rp_SizeBytes := rp_SizeBytes p;
       rp_StartedAt := rp_StartedAt p; rp_CompletedAt := rp_CompletedAt p;
       rp_ExpiresAt := rp_ExpiresAt p; rp_SourceNamespace := rp_SourceNamespace p;
       rp_LabelSelector := rp_LabelSelector p; rp_BackupTaskID := rp_BackupTaskID p;
       rp_BackupStorageName := rp_BackupStorageName p;
       rp_TaskCreatedAt := rp_TaskCreatedAt p; rp_Metadata := rp_Metadata p;
       rp_SizeMetricsV2 := rp_SizeMetricsV2 p; rp_CreatedAt := rp_CreatedAt p |}
  else p.

Lemma mark_deleted_ID id p : rp_ID (mark_deleted id p) = rp_ID p.
Proof. unfold mark_deleted. by case_bool_decide. Qed.

Lemma mark_deleted_order id p :
  restorePointOrderTime (mark_deleted id p) = restorePointOrderTime p.
Proof. unfold mark_deleted. by case_bool_decide. Qed.

Lemma mark_deleted_counted id p rule loc now :
  (rp_ID p = id -> rp_Status p = "available") ->
  counted rule loc now (mark_deleted id p) = counted rule loc now p.
Proof.
  intros H. unfold counted. rewrite mark_deleted_order. unfold mark_deleted.
  case_bool_decide as E; [|done]. simpl. by rewrite (H E).
Qed.

Lemma mark_deleted_rank id points rule loc now p :
  (forall q, q ∈ points -> rp_ID q = id -> rp_Status q = "available") ->
  rank rule loc now (mark_deleted id <$> points) p = rank rule loc now points p.
Proof.
  intros H. unfold rank, count. f_equal. induction points as [|q points IH]; [done|].
  rewrite fmap_cons. cbn [List.filter].
  replace (no_later rule loc now p (mark_deleted id q)) with (no_later rule loc now p q).
  - destruct (no_later rule loc now p q); cbn [length]; rewrite IH; try done;
      intros; (apply H; [by right|done]).
  - unfold no_later, period_of. rewrite mark_deleted_counted by (apply H; left).
    rewrite mark_deleted_order. do 2 f_equal. apply bool_decide_ext. unfold ordered_le.
    by rewrite mark_deleted_order, mark_deleted_ID.
Qed.

(** Cleaning up an available point (its row stays, marked deleted) changes
    the retention reasons of no other point: a deletion never makes the rules
    fall back on another point of the period, nor release one. *)
Theorem deletion_keeps_other_selections
    LoadLocation points rules zone now id selected selected' :
  NoDup (rp_ID <$> points) ->
  (forall q, q ∈ points -> rp_ID q = id -> rp_Status q = "available") ->
  RetentionSelections LoadLocation points rules zone now = inr selected ->
  RetentionSelections LoadLocation (mark_deleted id <$> points) rules zone now
    = inr selected' ->
  forall other, other <> id ->
    default [] (selected' !! other) = default [] (selected !! other).
Proof.
  intros Hnd Hav Hsel Hsel' other Hne.
  assert (Hids : rp_ID <$> (mark_deleted id <$> points) = rp_ID <$> points).
  { rewrite <- list_fmap_compose. apply list_fmap_ext. intros ? p ?. apply mark_deleted_ID. }
  destruct (decide (other ∈ rp_ID <$> points)) as [Hin|Hin].
  - apply list_elem_of_fmap in Hin as (p & -> & Hp).
    rewrite (selection_of _ points _ _ _ selected) by done.
    assert (Hmark : mark_deleted id p = p).
    { unfold mark_deleted. by rewrite bool_decide_eq_false_2. }
    assert (Hp' : p ∈ mark_deleted id <$> points).
    { apply list_elem_of_fmap. by exists p. }
    rewrite (selection_of _ (mark_deleted id <$> points) _ _ _ selected')
      by (try done; by rewrite Hids).
    unfold kept_for. f_equal. apply List.filter_ext. intros rule. unfold keeps.
    by rewrite mark_deleted_rank.
  - rewrite (selection_none _ points _ _ _ selected) by done.
    by rewrite (selection_none _ (mark_deleted id <$> points) _ _ _ selected')
      by (try done; by rewrite Hids).
Qed.

(** ** Validation *)

Definition valid_rule (rule : RetentionRule) : Prop :=
  rule_Period rule ∈ ["daily"; "weekly"; "monthly"; "yearly"] /\
  1 <= rule_Ordinal rule <= 100000 /\ 1 <= rule_Keep rule <= 1000.

Lemma validate_rules_ok seen rules :
  validate_rules seen rules = None <->
  Forall valid_rule rules /\ NoDup rules /\ forall rule, rule ∈ rules -> rule ∉ seen.
Proof.
  revert seen. induction rules as [|rule rules IH]; intros seen; simpl.
  { split; [|done]. intros _. split; [constructor|]. split; [constructor|]. inversion 1. }
  unfold valid_rule at 1. rewrite Forall_cons, NoDup_cons. fold valid_rule.
  destruct (one_of _ _) eqn:Hp; go_bool; simpl; [|naive_solver].
  destruct (_ || _) eqn:Hr; go_bool.
  { split; [done|]. intros [[(_ & ? & ?) _] _]. lia. }
  case_bool_decide as Hin; [split; [done|]; set_solver|].
  rewrite IH. split.
  - intros (Hf & Hnd & Hseen). split; [split; [|done]; split; [done|lia]|].
    split; [split; [|done]|]; set_solver.
  - intros ([_ Hf] & [Hnin Hnd] & Hseen). split; [done|]. split; [done|]. set_solver.
Qed.

(** A rule list is accepted iff it has at most 32 rules, the zone loads,
    every rule names a known period with an ordinal in [1, 100000] and a
    duration in [1, 1000], and no rule is repeated. *)
Theorem validate_retention_rules_iff LoadLocation rules zone :
  ValidateRetentionRules LoadLocation rules zone = None <->
  Z.of_nat (length rules) <= 32 /\ LoadLocation zone <> None /\
  Forall valid_rule rules /\ NoDup rules.
Proof.
  unfold ValidateRetentionRules.
  destruct (32 <? _) eqn:Hlen; go_bool; [split; [done|lia]|].
  destruct (LoadLocation zone) eqn:Hzone; [|naive_solver].
  rewrite validate_rules_ok. split; [naive_solver|].
  intros (_ & _ & ? & ?). split_and!; try done. intros ? _. apply not_elem_of_nil.
Qed.

(** ** The period arithmetic, in a zone of fixed offset *)

Section fixed_offset.
Context (off : Z).
#[local] Notation loc := (fixed_zone off).

#[local] Opaque day_number days_in_month civil_of_day.

Definition midnight (D : Z) : time := ((D - epoch_day) * 86400 - off) * second.

(** First instant of the month [i] months after month 0 of year 0. *)
Definition month_instant (i : Z) : time := midnight (day_number 0 i 1).

Lemma midnight_mono D E : D <= E -> midnight D <= midnight E.
Proof. unfold midnight, second. lia. Qed.

Lemma month_instant_mono i j : i <= j -> month_instant i <= month_instant j.
Proof.
  intros H. apply midnight_mono. pose proof (day_number_month_mono 0 i (j - i)).
  rewrite Zplus_minus in *. lia.
Qed.

Lemma month_instant_strict i j : month_instant i <= month_instant j -> i <= j.
Proof.
  intros H. destruct (Z.le_gt_cases i j) as [|Hlt]; [done|].
  pose proof (day_number_month_mono 0 j (i - j)). rewrite Zplus_minus in *.
  unfold month_instant, midnight, second in *. lia.
Qed.

Lemma day_number_index y m d : day_number y m d = day_number 0 (12 * y + m) d.
Proof.
  rewrite (day_number_month_norm y m), (day_number_month_norm 0 (12 * y + m)). f_equal.
  - zdiv.
  - zdiv.
Qed.

Lemma Date_midnight y m d : Date y m d 0 0 0 0 loc = midnight (day_number y m d).
Proof. rewrite Date_fixed. unfold midnight. lia. Qed.

Lemma Date_month y m : Date y m 1 0 0 0 0 loc = month_instant (12 * y + m).
Proof. by rewrite Date_midnight, day_number_index. Qed.

Lemma AddDate_month y m n k :
  1 <= m <= 12 ->
  AddDate loc (Date y m 1 0 0 0 0 loc) n k 0 = month_instant (12 * (y + n) + (m + k)).
Proof.
  intros Hm. unfold AddDate.
  destruct (civil_Date off y m 1 0 0 0 0) as (-> & -> & -> & Hh & Hmi & Hs).
  { split; [done|]. pose proof (days_in_month_pos y m). lia. }
  { done. }
  { unfold clock_ok. lia. }
  rewrite Hh, Hmi, Hs.
  replace (Nanosecond (Date y m 1 0 0 0 0 (fixed_zone off))) with 0.
  2: { rewrite Date_fixed. unfold Nanosecond. by rewrite Z.add_0_r, Z.mod_mul. }
  by rewrite Z.add_0_r, Date_month.
Qed.

Lemma now_before_next_day t : midnight (local_day loc t) <= t < midnight (local_day loc t + 1).
Proof.
  pose proof (time_of_local off t) as H. pose proof (local_second_range off t).
  pose proof (Nanosecond_range t). unfold midnight, second in *. lia.
Qed.

Lemma now_before_next_month t :
  t < month_instant (12 * Year loc t + Month loc t + 1).
Proof.
  eapply Z.lt_le_trans; [apply now_before_next_day|]. apply midnight_mono.
  pose proof (local_day_civil off t) as ->. pose proof (civil_valid off t) as [Hm Hd].
  rewrite <- Z.add_assoc, <- day_number_index.
  rewrite day_number_first_month by done.
  rewrite (day_number_day _ _ (Day loc t) 1). lia.
Qed.

Lemma day_start t :
  Date (Year loc t) (Month loc t) (Day loc t) 0 0 0 0 loc = midnight (local_day loc t).
Proof. rewrite Date_midnight. f_equal. symmetry. apply (local_day_civil off). Qed.

Lemma week_shift d : -6 <= Z.rem (- (Weekday loc d + 6)) 7 <= 0.
Proof.
  assert (0 <= Weekday loc d < 7) by (apply Z.mod_pos_bound; lia).
  rewrite Z.rem_opp_l by lia.
  pose proof (Z.rem_bound_pos (Weekday loc d + 6) 7 ltac:(lia) ltac:(lia)). lia.
Qed.

Lemma Month_range t : 1 <= Month loc t <= 12.
Proof. apply (civil_valid off t). Qed.

(** The switch on a rule's period, as nested tests. *)
Lemma period_switch {A} (s : string) (w m y d : A) :
  match s with "weekly" => w | "monthly" => m | "yearly" => y | _ => d end =
  if decide (s = "weekly") then w else if decide (s = "monthly") then m
  else if decide (s = "yearly") then y else d.
Proof. repeat case_decide; subst; try done. repeat (case_match; try done); congruence. Qed.

(** [start] no earlier than [1 - keep] periods from the current one ends,
    [keep] periods later, after now. *)
Lemma period_ends_later period keep now t :
  retentionPeriodAdd loc (retentionPeriodStart now period loc) period (1 - keep)
    <= retentionPeriodStart t period loc ->
  now < retentionPeriodAdd loc (retentionPeriodStart t period loc) period keep.
Proof.
  unfold retentionPeriodStart, retentionPeriodAdd. rewrite !period_switch.
  pose proof (now_before_next_day now) as Hday. pose proof (now_before_next_month now) as Hmon.
  pose proof (Month_range now). pose proof (Month_range t).
  assert (Hd : midnight (local_day loc now + 1) = midnight (local_day loc now) + 86400 * second).
  { unfold midnight. lia. }
  assert (Hs : forall d, second * 86400 * -6 <= Z.rem (- (Weekday loc d + 6)) 7 * (86400 * second) <= 0).
  { intros d. pose proof (week_shift d). unfold second. lia. }
  repeat case_decide; rewrite ?day_start.
  - pose proof (Hs (midnight (local_day loc now))). pose proof (Hs (midnight (local_day loc t))).
    rewrite !AddDate_days. unfold second in *. lia.
  - rewrite !AddDate_month, Date_month by done. intros Hle%month_instant_strict.
    eapply Z.lt_le_trans; [exact Hmon|]. apply month_instant_mono. lia.
  - rewrite !AddDate_month, Date_month by lia. intros Hle%month_instant_strict.
    eapply Z.lt_le_trans; [exact Hmon|]. apply month_instant_mono. lia.
  - rewrite !AddDate_days. unfold second in *. lia.
Qed.

End fixed_offset.

(** In a zone of fixed offset, every reason a point is kept for ends
    strictly after now: the rules never keep a point for an expired period. *)
Theorem retained_until_future LoadLocation points rules zone now off selected id reason :
  LoadLocation zone = Some (fixed_zone off) ->
  NoDup (rp_ID <$> points) ->
  RetentionSelections LoadLocation points rules zone now = inr selected ->
  reason ∈ default [] (selected !! id) -> now < reason_Until reason.
Proof.
  intros Hzone Hnd Hsel Hin.
  destruct (decide (id ∈ rp_ID <$> points)) as [Hid|Hid].
  - apply list_elem_of_fmap in Hid as (p & -> & Hp).
    rewrite (selection_of LoadLocation points rules zone now) in Hin by done.
    rewrite Hzone in Hin. cbn [default from_option] in Hin.
    unfold kept_for in Hin. apply list_elem_of_fmap in Hin as (rule & -> & Hr).
    apply list_elem_of_In, List.filter_In in Hr as [_ Hkeep].
    unfold keeps in Hkeep. apply andb_true_iff in Hkeep as [Hkeep _].
    apply andb_true_iff in Hkeep as [_ Hcounted].
    unfold counted, before, cutoff in Hcounted. go_bool. destruct Hcounted as [_ Hcut].
    by apply period_ends_later with (now := now).
  - rewrite (selection_none LoadLocation points rules zone now) in Hin by done. inversion Hin.
Qed.

(** ** Witnesses: three backups of one day, the second of each day kept *)

Definition sample_point (id status : string) (t : time) : RestorePoint :=
  {| rp_ID := id; rp_TenantID := "t"; rp_ProtectionPlanID := "plan";
     rp_SourceClusterID := "c"; rp_AppID := "app"; rp_StorageRepoID := "repo";
     rp_DisplayName := id; rp_VeleroBackupName := id; rp_PointType := "scheduled";
     rp_Status := status; rp_SizeBytes := 0; rp_StartedAt := t; rp_CompletedAt := t;
     rp_ExpiresAt := zero_time; rp_SourceNamespace := "ns"; rp_LabelSelector := "";
     rp_BackupTaskID := ""; rp_BackupStorageName := ""; rp_TaskCreatedAt := t;
     rp_Metadata := ∅; rp_SizeMetricsV2 := ∅; rp_CreatedAt := t |}.

Definition sample_day (h : Z) : time := Date 2024 5 6 h 0 0 0 utc.

Definition sample_points : list RestorePoint :=
  [sample_point "c" "available" (sample_day 9); sample_point "a" "available" (sample_day 1);
   sample_point "b" "available" (sample_day 5)].

Definition second_of_day : RetentionRule :=
  {| rule_Period := "daily"; rule_Ordinal := 2; rule_Keep := 7 |}.

Definition sample_zones (zone : string) : option location :=
  if zone =s "UTC" then Some utc else None.

Definition sample_selected : selections :=
  {[ "b" := [reason_of second_of_day utc (sample_point "b" "available" (sample_day 5))] ]}.

Lemma selections_are_ordinal_points_witness :
  (default [] (sample_selected !! "b") =
   kept_for [second_of_day] utc (sample_day 12) sample_points
     (sample_point "b" "available" (sample_day 5))) /\
  default [] (sample_selected !! "z") = [].
Proof.
  destruct (selections_are_ordinal_points sample_zones sample_points [second_of_day] "UTC"
    (sample_day 12) sample_selected) as [H H'].
  - decide_vm.
  - vm_compute. reflexivity.
  - split; [apply (H (sample_point "b" "available" (sample_day 5))); right; right; left|].
    apply H'. decide_vm.
Defined.

(** Point [a] is cleaned up; [b] stays the second of its day. *)
Lemma deletion_keeps_other_selections_witness :
  default [] (sample_selected !! "b") = default [] (sample_selected !! "b").
Proof.
  apply (deletion_keeps_other_selections sample_zones sample_points [second_of_day] "UTC"
    (sample_day 12) "a" sample_selected sample_selected).
  - decide_vm.
  - intros q Hq. repeat (apply elem_of_cons in Hq as [->|Hq]; [done|]). inversion Hq.
  - vm_compute. reflexivity.
  - vm_compute. reflexivity.
  - done.
Defined.

Lemma retained_until_future_witness :
  sample_day 12 <
  reason_Until (reason_of second_of_day utc (sample_point "b" "available" (sample_day 5))).
Proof.
  apply (retained_until_future sample_zones sample_points [second_of_day] "UTC"
    (sample_day 12) 0 sample_selected "b").
  - reflexivity.
  - decide_vm.
  - vm_compute. reflexivity.
  - left.
Defined.
