(* ===== verification/Session.v ===== *)
(** Transactions of the store: what [database/sql] gives the code of
    backend/internal/store, over an arbitrary database state [D].

    A transaction works on its own copy; [tx.Commit] publishes it, and
    [defer tx.Rollback] makes every other exit drop it.  The store takes its row
    locks ([for update] on the plan) before it reads what it decides on, so a
    transaction is one step of the system; statements that fail (driver error,
    lost connection, malformed identifier) are modelled by a fuse: the number of
    statements that still succeed.  PostgreSQL fails every statement after a
    failed one of the same transaction, so a burnt fuse stays burnt, and a
    constraint violation burns it. *)

From S2P Require Import Prelude Retention.

(** ** Errors *)

Inductive error :=
| ErrNoRows
| ErrDriver
| ErrScan
| ErrMarshal
| ErrUnmarshal
| ErrProtectionPlanBusy
| ErrProtectionPlanIdentity
| ErrApplicationAlreadyProtected (plan app : string)
| ErrTenantResourceMismatch
| ErrRestorePointQuota (detail : string)
| ErrRestorePointLocked
| ErrRestorePointReplacementPending
| ErrBackupResultConflict
| ErrBackupResultIncomplete
| ErrPlanNotFound (plan kind : string)
| ErrRetention (e : RetentionError).

Definition error_is_quota (e : error) : bool :=
  match e with ErrRestorePointQuota _ => true | _ => false end.

(** ** The monad *)

Section session.
Context {D : Type}.

Record session := Session {
  committed : D;
  working : D;
  fuse : option nat
}.

Definition tx (A : Type) : Type := session -> session * (error + A).

#[global] Instance tx_ret : MRet tx := fun A a s => (s, inr a).

#[global] Instance tx_bind : MBind tx := fun A B k m s =>
  match m s with
  | (s, inl e) => (s, inl e)
  | (s, inr a) => k a s
  end.

Definition fail {A} (e : error) : tx A := fun s => (s, inl e).

(** The error of [m] as a value: Go code that looks at an error and goes on. *)
Definition attempt {A} (m : tx A) : tx (error + A) := fun s =>
  match m s with (s, r) => (s, inr r) end.

(** One statement's worth of fuse: [None] when the driver fails. *)
Definition burn (s : session) : option session :=
  match fuse s with
  | None => Some s
  | Some O => None
  | Some (S n) => Some (Session (committed s) (working s) (Some n))
  end.

Definition aborted (s : session) : session := Session (committed s) (working s) (Some O).

(** [QueryRow(...).Scan(...)]: [None] is sql.ErrNoRows. *)
Definition query {A} (f : D -> option A) : tx A := fun s =>
  match burn s with
  | None => (s, inl ErrDriver)
  | Some s =>
      match f (working s) with
      | Some a => (s, inr a)
      | None => (s, inl ErrNoRows)
      end
  end.

(** A query that always has a result: a list, a count, [select exists(...)]. *)
Definition select {A} (f : D -> A) : tx A := query (fun d => Some (f d)).

(** [tx.Exec] and its number of rows affected, or an update that returns rows;
    [None] is a violated constraint. *)
Definition exec {A} (f : D -> option (D * A)) : tx A := fun s =>
  match burn s with
  | None => (s, inl ErrDriver)
  | Some s =>
      match f (working s) with
      | Some (d, n) => (Session (committed s) d (fuse s), inr n)
      | None => (aborted s, inl ErrDriver)
      end
  end.

Definition begin_tx : tx unit := fun s =>
  match burn s with
  | None => (s, inl ErrDriver)
  | Some s => (Session (committed s) (committed s) (fuse s), inr tt)
  end.

Definition rollback : tx unit := fun s =>
  (Session (committed s) (committed s) (fuse s), inr tt).

Definition commit : tx unit := fun s =>
  match burn s with
  | None => (s, inl ErrDriver)
  | Some s => (Session (working s) (working s) (fuse s), inr tt)
  end.

(** An operation on a database [d] whose [fuse]-th statement fails: what is
    left in the database, and the result. *)
Definition run {A} (m : tx A) (fuse : option nat) (d : D) : D * (error + A) :=
  let '(s, r) := m (Session d d fuse) in (committed s, r).

(** The result of [m] in a session, and the copy it leaves behind. *)
Definition outcome {A} (m : tx A) (s : session) : error + A := snd (m s).
Definition leaves {A} (m : tx A) (s : session) : D := working (fst (m s)).

End session.
Arguments session : clear implicits.
Arguments tx : clear implicits.

(** A loop that returns at the first error. *)
Fixpoint for_each {D A} (l : list A) (f : A -> tx D unit) : tx D unit :=
  match l with
  | [] => mret tt
  | x :: l => f x ;; for_each l f
  end.

(** First element for which the body answers [true]: a loop with a [break]. *)
Fixpoint search {D A} (f : A -> tx D bool) (l : list A) : tx D (option A) :=
  match l with
  | [] => mret None
  | x :: l => b ← f x; if b : bool then mret (Some x) else search f l
  end.

(** ** What a successful execution did *)

Section facts.
Context {D : Type}.
Implicit Types s : session D.

Lemma bind_inr {A B} (m : tx D A) (k : A -> tx D B) s s' b :
  (m ≫= k) s = (s', inr b) ->
  exists a s1, m s = (s1, inr a) /\ k a s1 = (s', inr b).
Proof.
  unfold mbind, tx_bind. destruct (m s) as [s1 [e|a]] eqn:E; [done|]. intros H. by exists a, s1.
Qed.

Lemma bind_inl {A B} (m : tx D A) (k : A -> tx D B) s s' e :
  (m ≫= k) s = (s', inl e) ->
  m s = (s', inl e) \/ exists a s1, m s = (s1, inr a) /\ k a s1 = (s', inl e).
Proof.
  unfold mbind, tx_bind. destruct (m s) as [s1 [e'|a]] eqn:E.
  - intros [= -> ->]. by left.
  - intros H. right. by exists a, s1.
Qed.

Lemma ret_inr {A} (a b : A) s s' : (mret a : tx D A) s = (s', inr b) -> s' = s /\ b = a.
Proof. by intros [= -> ->]. Qed.

Lemma burn_Some s s' :
  burn s = Some s' -> committed s' = committed s /\ working s' = working s.
Proof. unfold burn. destruct (fuse s) as [[|n]|]; [done| |]; intros [= <-]; done. Qed.

Lemma query_inr {A} (f : D -> option A) s s' a :
  query f s = (s', inr a) ->
  committed s' = committed s /\ working s' = working s /\ f (working s) = Some a.
Proof.
  unfold query. destruct (burn s) as [s1|] eqn:E; [|done].
  apply burn_Some in E as [? Hw]. rewrite Hw.
  destruct (f (working s)); [|done]. intros [= <- ->]. by rewrite Hw.
Qed.

Lemma select_inr {A} (f : D -> A) s s' a :
  select f s = (s', inr a) ->
  committed s' = committed s /\ working s' = working s /\ a = f (working s).
Proof. intros (? & ? & [= <-])%query_inr. done. Qed.

Lemma exec_inr {A} (f : D -> option (D * A)) s s' n :
  exec f s = (s', inr n) ->
  committed s' = committed s /\ f (working s) = Some (working s', n).
Proof.
  unfold exec. destruct (burn s) as [s1|] eqn:E; [|done].
  apply burn_Some in E as [? Hw]. rewrite Hw.
  destruct (f (working s)) as [[d n']|]; [|done]. by intros [= <- ->].
Qed.

Lemma commit_inr s s' u :
  commit s = (s', inr u) -> committed s' = working s /\ working s' = working s.
Proof.
  unfold commit. destruct (burn s) as [s1|] eqn:E; [|done].
  apply burn_Some in E as [? Hw]. by intros [= <- _].
Qed.

Lemma commit_inl s s' e : commit s = (s', inl e) -> committed s' = committed s.
Proof.
  unfold commit. destruct (burn s) as [s1|] eqn:E; [done|]. by intros [= <- _].
Qed.

Lemma begin_inr s s' u :
  begin_tx s = (s', inr u) -> committed s' = committed s /\ working s' = committed s.
Proof.
  unfold begin_tx. destruct (burn s) as [s1|] eqn:E; [|done].
  apply burn_Some in E as [? Hw]. by intros [= <- _].
Qed.

Lemma attempt_inr {A} (m : tx D A) s s' r :
  attempt m s = (s', inr r) -> m s = (s', r).
Proof. unfold attempt. destruct (m s). by intros [= <- <-]. Qed.

Lemma outcome_inr {A} (m : tx D A) s r : outcome m s = r -> m s = (fst (m s), r).
Proof. unfold outcome. destruct (m s). by intros <-. Qed.

Lemma outcome_ex {A} (m : tx D A) s r : outcome m s = r -> exists s', m s = (s', r).
Proof. unfold outcome. destruct (m s) as [s' ?]. intros <-. by exists s'. Qed.

Lemma run_inr {A} (m : tx D A) fuse d d' a :
  run m fuse d = (d', inr a) ->
  exists s', m (Session d d fuse) = (s', inr a) /\ committed s' = d'.
Proof. unfold run. destruct (m _) as [s' r]. intros [= <- ->]. by exists s'. Qed.

(** *** The errors a statement can end in *)

Lemma query_inl {A} (f : D -> option A) s s' e :
  query f s = (s', inl e) -> e = ErrDriver \/ e = ErrNoRows.
Proof.
  unfold query. destruct (burn s) as [s1|]; [|intros [= _ <-]; by left].
  destruct (f (working s1)); [done|]. intros [= _ <-]. by right.
Qed.

Lemma select_inl {A} (f : D -> A) s s' e : select f s = (s', inl e) -> e = ErrDriver.
Proof. unfold select, query. destruct (burn s) as [s1|]; [done|]. by intros [= _ <-]. Qed.

Lemma exec_inl {A} (f : D -> option (D * A)) s s' e : exec f s = (s', inl e) -> e = ErrDriver.
Proof.
  unfold exec. destruct (burn s) as [s1|]; [|by intros [= _ <-]].
  destruct (f (working s1)) as [[d n]|]; [done|]. by intros [= _ <-].
Qed.

(** ** Transitions every statement respects

    [stable R m]: whatever [m] does, and wherever it stops, the copy it works on
    and the committed state stay [R]-reachable from any earlier state both were
    reachable from. *)

Definition tracks (R : D -> D -> Prop) (d : D) s : Prop :=
  R d (committed s) /\ R d (working s).

Definition stable (R : D -> D -> Prop) {A} (m : tx D A) : Prop :=
  forall d s, tracks R d s -> tracks R d (fst (m s)).

Section stable.
Context (R : D -> D -> Prop) `{!PreOrder R}.

Lemma tracks_burn d s s' : burn s = Some s' -> tracks R d s -> tracks R d s'.
Proof. unfold tracks. by intros [-> ->]%burn_Some. Qed.

Lemma stable_ret {A} (a : A) : stable R (mret a).
Proof. by intros d s. Qed.

Lemma stable_fail {A} e : stable R (fail e : tx D A).
Proof. by intros d s. Qed.

Lemma stable_bind {A B} (m : tx D A) (k : A -> tx D B) :
  stable R m -> (forall a, stable R (k a)) -> stable R (m ≫= k).
Proof.
  intros Hm Hk d s Hs. unfold mbind, tx_bind. specialize (Hm d s Hs).
  destruct (m s) as [s1 [e|a]]; [done|]. by apply Hk.
Qed.

Lemma stable_attempt {A} (m : tx D A) : stable R m -> stable R (attempt m).
Proof. intros Hm d s Hs. unfold attempt. specialize (Hm d s Hs). by destruct (m s). Qed.

Lemma stable_query {A} (f : D -> option A) : stable R (query f).
Proof.
  intros d s Hs. unfold query. destruct (burn s) as [s1|] eqn:E; [|done].
  pose proof (tracks_burn d s s1 E Hs). by destruct (f (working s1)).
Qed.

Lemma stable_select {A} (f : D -> A) : stable R (select f).
Proof. apply stable_query. Qed.

Lemma stable_exec {A} (f : D -> option (D * A)) :
  (forall d d' n, f d = Some (d', n) -> R d d') -> stable R (exec f).
Proof.
  intros Hf d s Hs. unfold exec. destruct (burn s) as [s1|] eqn:E; [|done].
  pose proof (tracks_burn d s s1 E Hs) as [Hc Hw].
  destruct (f (working s1)) as [[d' n]|] eqn:Ef; [|done].
  split; [done|]. simpl. etrans; [exact Hw|]. by eapply Hf.
Qed.

Lemma stable_begin : stable R begin_tx.
Proof.
  intros d s Hs. unfold begin_tx. destruct (burn s) as [s1|] eqn:E; [|done].
  by pose proof (tracks_burn d s s1 E Hs) as [Hc Hw].
Qed.

Lemma stable_rollback : stable R rollback.
Proof. by intros d s [Hc Hw]. Qed.

Lemma stable_commit : stable R commit.
Proof.
  intros d s Hs. unfold commit. destruct (burn s) as [s1|] eqn:E; [|done].
  by pose proof (tracks_burn d s s1 E Hs) as [Hc Hw].
Qed.

Lemma stable_for_each {A} (l : list A) (f : A -> tx D unit) :
  (forall x, stable R (f x)) -> stable R (for_each l f).
Proof.
  intros Hf. induction l as [|x l IH]; simpl; [apply stable_ret|].
  apply stable_bind; auto.
Qed.

Lemma stable_search {A} (f : A -> tx D bool) (l : list A) :
  (forall x, stable R (f x)) -> stable R (search f l).
Proof.
  intros Hf. induction l as [|x l IH]; simpl; [apply stable_ret|].
  apply stable_bind; [done|]. intros [|]; [apply stable_ret|done].
Qed.

Lemma run_stable {A} (m : tx D A) fuse d :
  stable R m -> R d (fst (run m fuse d)).
Proof.
  intros Hm. unfold run. specialize (Hm d (Session d d fuse)).
  destruct (m _) as [s r]. apply Hm. split; reflexivity.
Qed.

End stable.

(** ** Transitions of the working copy

    [moves R m]: the copy [m] leaves is [R]-related to the one it found, whatever
    the result; [evolves R m]: when [m] succeeds. *)
Definition moves (R : D -> D -> Prop) {A} (m : tx D A) : Prop :=
  forall s, R (working s) (working (fst (m s))).

Definition evolves (R : D -> D -> Prop) {A} (m : tx D A) : Prop :=
  forall s s' a, m s = (s', inr a) -> R (working s) (working s').

Section moves.
Context (R : D -> D -> Prop) `{!PreOrder R}.

Lemma evolves_moves {A} (m : tx D A) : moves R m -> evolves R m.
Proof. intros Hm s s' a H. specialize (Hm s). by rewrite H in Hm. Qed.

Lemma moves_ret {A} (a : A) : moves R (mret a).
Proof. by intros s. Qed.

Lemma moves_fail {A} e : moves R (fail e : tx D A).
Proof. by intros s. Qed.

Lemma moves_bind {A B} (m : tx D A) (k : A -> tx D B) :
  moves R m -> (forall a, moves R (k a)) -> moves R (m ≫= k).
Proof.
  intros Hm Hk s. unfold mbind, tx_bind. specialize (Hm s).
  destruct (m s) as [s1 [e|a]]; [done|]. simpl in *. etrans; [exact Hm|apply Hk].
Qed.

Lemma evolves_bind {A B} (m : tx D A) (k : A -> tx D B) :
  evolves R m -> (forall a, evolves R (k a)) -> evolves R (m ≫= k).
Proof.
  intros Hm Hk s s' b (a & s1 & H1 & H2)%bind_inr. etrans; [by eapply Hm|by eapply Hk].
Qed.

Lemma moves_query {A} (f : D -> option A) : moves R (query f).
Proof.
  intros s. unfold query. destruct (burn s) as [s1|] eqn:E; [|done].
  apply burn_Some in E as [_ <-]. by destruct (f (working s1)).
Qed.

Lemma moves_select {A} (f : D -> A) : moves R (select f).
Proof. apply moves_query. Qed.

Lemma moves_exec {A} (f : D -> option (D * A)) :
  (forall d d' n, f d = Some (d', n) -> R d d') -> moves R (exec f).
Proof.
  intros Hf s. unfold exec. destruct (burn s) as [s1|] eqn:E; [|done].
  apply burn_Some in E as [_ <-].
  destruct (f (working s1)) as [[d' n]|] eqn:Ef; [|done]. by eapply Hf.
Qed.

Lemma moves_attempt {A} (m : tx D A) : moves R m -> moves R (attempt m).
Proof. intros Hm s. unfold attempt. specialize (Hm s). by destruct (m s). Qed.

Lemma moves_search {A} (f : A -> tx D bool) (l : list A) :
  (forall x, moves R (f x)) -> moves R (search f l).
Proof.
  intros Hf. induction l as [|x l IH]; simpl; [apply moves_ret|].
  apply moves_bind; [done|]. intros [|]; [apply moves_ret|done].
Qed.

Lemma evolves_for_each {A} (l : list A) (f : A -> tx D unit) :
  (forall x, evolves R (f x)) -> evolves R (for_each l f).
Proof.
  intros Hf. induction l as [|x l IH]; simpl; [apply evolves_moves, moves_ret|].
  apply evolves_bind; auto.
Qed.

Lemma moves_for_each {A} (l : list A) (f : A -> tx D unit) :
  (forall x, moves R (f x)) -> moves R (for_each l f).
Proof.
  intros Hf. induction l as [|x l IH]; simpl; [apply moves_ret|]. apply moves_bind; auto.
Qed.

End moves.

(** Read-only computations. *)
Definition reads {A} (m : tx D A) : Prop := moves eq m.

Lemma reads_inr {A} (m : tx D A) s s' a : reads m -> m s = (s', inr a) -> working s' = working s.
Proof. intros Hm H. specialize (Hm s). by rewrite H in Hm. Qed.

(** ** Computations that publish nothing *)

Definition quiet {A} (m : tx D A) : Prop := forall s, committed (fst (m s)) = committed s.

Lemma quiet_ret {A} (a : A) : quiet (mret a).
Proof. done. Qed.

Lemma quiet_fail {A} e : quiet (fail e : tx D A).
Proof. done. Qed.

Lemma quiet_bind {A B} (m : tx D A) (k : A -> tx D B) :
  quiet m -> (forall a, quiet (k a)) -> quiet (m ≫= k).
Proof.
  intros Hm Hk s. unfold mbind, tx_bind. specialize (Hm s).
  destruct (m s) as [s1 [e|a]]; [done|]. simpl in *. rewrite <- Hm. apply Hk.
Qed.

Lemma quiet_attempt {A} (m : tx D A) : quiet m -> quiet (attempt m).
Proof. intros Hm s. unfold attempt. specialize (Hm s). by destruct (m s). Qed.

Lemma quiet_query {A} (f : D -> option A) : quiet (query f).
Proof.
  intros s. unfold query. destruct (burn s) as [s1|] eqn:E; [|done].
  apply burn_Some in E as [<- _]. by destruct (f (working s1)).
Qed.

Lemma quiet_select {A} (f : D -> A) : quiet (select f).
Proof. apply quiet_query. Qed.

Lemma quiet_exec {A} (f : D -> option (D * A)) : quiet (exec f).
Proof.
  intros s. unfold exec. destruct (burn s) as [s1|] eqn:E; [|done].
  apply burn_Some in E as [<- _]. by destruct (f (working s1)) as [[? ?]|].
Qed.

Lemma quiet_begin : quiet (begin_tx : tx D unit).
Proof.
  intros s. unfold begin_tx. destruct (burn s) as [s1|] eqn:E; [|done].
  by apply burn_Some in E as [<- _].
Qed.

Lemma quiet_for_each {A} (l : list A) (f : A -> tx D unit) :
  (forall x, quiet (f x)) -> quiet (for_each l f).
Proof.
  intros Hf. induction l as [|x l IH]; simpl; [apply quiet_ret|].
  apply quiet_bind; auto.
Qed.

Lemma quiet_search {A} (f : A -> tx D bool) (l : list A) :
  (forall x, quiet (f x)) -> quiet (search f l).
Proof.
  intros Hf. induction l as [|x l IH]; simpl; [apply quiet_ret|].
  apply quiet_bind; [done|]. intros [|]; [apply quiet_ret|done].
Qed.

(** ** Transactions that end in their commit

    [atomic m]: on every error, wherever it happens, the database is as it was. *)
Definition atomic {A} (m : tx D A) : Prop :=
  forall s s' e, m s = (s', inl e) -> committed s' = committed s.

Lemma atomic_quiet {A} (m : tx D A) : quiet m -> atomic m.
Proof. intros Hm s s' e H. specialize (Hm s). by rewrite H in Hm. Qed.

Lemma atomic_bind {A B} (m : tx D A) (k : A -> tx D B) :
  quiet m -> (forall a, atomic (k a)) -> atomic (m ≫= k).
Proof.
  intros Hm Hk s s' e H. apply bind_inl in H as [H|(a & s1 & H1 & H)].
  - specialize (Hm s). by rewrite H in Hm.
  - specialize (Hm s). rewrite H1 in Hm. simpl in Hm. rewrite <- Hm. by eapply Hk.
Qed.

Lemma atomic_commit : atomic commit.
Proof. intros s s' e. apply commit_inl. Qed.

Lemma atomic_commit_ret {A} (a : A) : atomic (commit;; mret a).
Proof.
  intros s s' e H. apply bind_inl in H as [H|(u & s1 & _ & H)]; [by apply commit_inl in H|done].
Qed.

Lemma run_atomic {A} (m : tx D A) fuse d d' e :
  atomic m -> run m fuse d = (d', inl e) -> d' = d.
Proof.
  intros Hm. unfold run. destruct (m (Session d d fuse)) as [s r] eqn:E.
  intros [= <- ->]. by apply Hm in E.
Qed.

(** ** What an operation may publish

    [commits Q m s]: run in [s], [m] leaves the database as it was or publishes a
    state that satisfies [Q]. *)
Definition commits (Q : D -> Prop) {A} (m : tx D A) (s : session D) : Prop :=
  committed (fst (m s)) = committed s \/ Q (committed (fst (m s))).

Lemma commits_quiet Q {A} (m : tx D A) s : quiet m -> commits Q m s.
Proof. intros H. left. apply H. Qed.

Lemma commits_bind Q {A B} (m : tx D A) (k : A -> tx D B) s :
  quiet m -> (forall a s1, m s = (s1, inr a) -> commits Q (k a) s1) -> commits Q (m ≫= k) s.
Proof.
  intros Hm Hk. unfold commits, mbind, tx_bind. specialize (Hm s).
  destruct (m s) as [s1 [e|a]] eqn:E; [by left|]. simpl in Hm. rewrite <- Hm. by apply Hk.
Qed.

Lemma commits_commit Q {A} (k : tx D A) s :
  quiet k -> Q (working s) -> commits Q (commit ;; k) s.
Proof.
  intros Hk HQ. unfold commits, mbind, tx_bind.
  destruct (commit s) as [s1 [e|u]] eqn:E; [left; by apply commit_inl in E|right].
  apply commit_inr in E as [Hc _]. rewrite Hk. simpl. by rewrite Hc.
Qed.

Lemma run_commits (Q : D -> Prop) {A} (m : tx D A) fuse d :
  Q d -> commits Q m (Session d d fuse) -> Q (fst (run m fuse d)).
Proof.
  unfold run, commits. intros Hd. destruct (m _) as [s r]. simpl. by intros [->|H].
Qed.

End facts.

Create HintDb tx.
#[export] Hint Resolve stable_ret stable_fail stable_attempt stable_query stable_select
  stable_begin stable_rollback stable_commit stable_for_each stable_search
  evolves_moves moves_ret moves_fail moves_query moves_select moves_attempt moves_search
  moves_for_each evolves_for_each
  quiet_ret quiet_fail quiet_attempt quiet_query quiet_select quiet_exec quiet_begin
  quiet_for_each quiet_search atomic_quiet atomic_commit atomic_commit_ret : tx.

(** Walk through a computation, one statement at a time. *)
Ltac tx_walk :=
  repeat first
    [ progress intros
    | solve [eauto 2 with tx]
    | apply stable_bind; [solve [typeclasses eauto]|..]
    | apply stable_bind
    | apply moves_bind; [solve [typeclasses eauto]|..]
    | apply evolves_bind; [solve [typeclasses eauto]|..]
    | apply moves_ret; solve [typeclasses eauto]
    | apply moves_fail; solve [typeclasses eauto]
    | apply moves_query; solve [typeclasses eauto]
    | apply moves_select; solve [typeclasses eauto]
    | apply moves_exec; [solve [typeclasses eauto]|..]
    | apply moves_for_each; [solve [typeclasses eauto]|..]
    | apply moves_search; [solve [typeclasses eauto]|..]
    | apply moves_attempt
    | apply stable_ret | apply stable_fail
    | apply stable_query | apply stable_select
    | apply stable_begin | apply stable_rollback | apply stable_commit
    | apply evolves_for_each; [solve [typeclasses eauto]|..]
    | apply quiet_bind
    | apply atomic_bind
    | apply stable_for_each | apply stable_search | apply stable_attempt
    | apply quiet_for_each | apply quiet_search | apply quiet_attempt
    | match goal with
      | |- stable _ (match ?x with _ => _ end) => destruct x
      | |- quiet (match ?x with _ => _ end) => destruct x
      | |- stable _ (if ?x then _ else _) => destruct x
      | |- quiet (if ?x then _ else _) => destruct x
      | |- atomic (match ?x with _ => _ end) => destruct x
      | |- atomic (if ?x then _ else _) => destruct x
      | |- atomic (fail _) => apply atomic_quiet
      | |- atomic (mret _) => apply atomic_quiet
      | |- moves _ (match ?x with _ => _ end) => destruct x
      | |- moves _ (if ?x then _ else _) => destruct x
      | |- evolves _ (match ?x with _ => _ end) => destruct x
      | |- evolves _ (if ?x then _ else _) => destruct x
      | |- evolves _ (exec _) => apply evolves_moves
      | |- evolves _ (fail _) => apply evolves_moves
      | |- evolves _ (mret _) => apply evolves_moves
      | |- stable _ (let '(_, _) := ?x in _) => destruct x
      end ].

(** Take a successful execution apart, statement by statement. *)
Ltac tx_inv :=
  repeat match goal with
  | H : (_ ≫= _) _ = (_, inr _) |- _ =>
      apply bind_inr in H as (? & ? & ? & H)
  | H : mret _ _ = (_, inr _) |- _ => apply ret_inr in H as [? ?]; subst
  | H : fail _ _ = (_, inr _) |- _ => discriminate H
  | H : select _ _ = (_, inr _) |- _ => apply select_inr in H as (? & ? & ?)
  | H : query _ _ = (_, inr _) |- _ => apply query_inr in H as (? & ? & ?)
  | H : exec _ _ = (_, inr _) |- _ => apply exec_inr in H as (? & ?)
  | H : commit _ = (_, inr _) |- _ => apply commit_inr in H as (? & ?)
  | H : begin_tx _ = (_, inr _) |- _ => apply begin_inr in H as (? & ?)
  | H : attempt _ _ = (_, inr _) |- _ => apply attempt_inr in H
  end.
