(* ===== verification/Database.v ===== *)
(** The tables of the control plane that tasks, restore points and their
    reservations live in (backend/internal/migrations/sql), with the constraints
    and triggers the migrations put on them, and the reads every component
    shares (getTask of postgres.go, GetRestorePoint of
    postgres_restore_points.go, tenant_references.go, helpers.go).

    Identifiers are opaque strings; a malformed uuid makes its statement fail,
    which the fuse of [Session] covers.  The [updated_at] columns that nothing
    modelled reads are left out.  Instants are stored with the microsecond
    precision of pgx's timestamptz encoding, and documents as the JSON they
    marshal to. *)

From S2P Require Import Prelude Calendar Timestamp Value Types Retention Session.
From Stdlib Require Import Ascii.

(** ** SQL values *)

Definition nullif (s : string) : option string := if nonempty s then Some s else None.
Definition text (o : option string) : string := default "" o.

Definition pg_time (t : time) : time := truncate microsecond t.
Definition nullif_time (t : time) : option time :=
  if is_zero (pg_time t) then None else Some (pg_time t).
Definition read_time (o : option time) : time := default zero_time o.

Definition coalesce {A} (a b : option A) : option A :=
  match a with Some _ => a | None => b end.

(** *** The text of a jsonb value *)

Definition hex_digit (n : N) : ascii :=
  ascii_of_N (if (n <? 10)%N then 48 + n else 87 + n).

Definition escape_char (c : ascii) : string :=
  let n := N_of_ascii c in
  match n with
  | 8%N => "\b" | 9%N => "\t" | 10%N => "\n" | 12%N => "\f" | 13%N => "\r"
  | 34%N => String "\" (String c EmptyString)
  | 92%N => "\\"
  | _ =>
      if (n <? 32)%N then
        "\u00" +:+ String (hex_digit (n / 16)) (String (hex_digit (n mod 16)) EmptyString)
      else String c EmptyString
  end.

Fixpoint escape (s : string) : string :=
  match s with
  | EmptyString => EmptyString
  | String c s => escape_char c +:+ escape s
  end.

Definition double_quote : string := String "034"%char EmptyString.
Definition quoted (s : string) : string := double_quote +:+ escape s +:+ double_quote.

(** jsonb keeps the keys of an object shorter first, then in byte order. *)
Definition jsonb_key_le (x y : string * string) : Prop :=
  (String.length (fst x) < String.length (fst y))%nat \/
  String.length (fst x) = String.length (fst y) /\ String.le (fst x) (fst y).

#[export] Instance jsonb_key_le_dec : RelDecision jsonb_key_le.
Proof. intros x y. unfold jsonb_key_le. apply _. Defined.

Definition jsonb_object (entries : list (string * string)) : string :=
  "{" +:+ join ", " ((fun '(k, s) => quoted k +:+ ": " +:+ s)
                       <$> merge_sort jsonb_key_le entries) +:+ "}".

Fixpoint jsonb_render (v : value) : string :=
  match v with
  | VNull => "null"
  | VBool b => if b then "true" else "false"
  | VNum z => sprint_num z
  | VStr s => quoted s
  | VTime t => quoted (format_rfc3339nano t)
  | VStrs l => "[" +:+ join ", " (quoted <$> l) +:+ "]"
  | VList l => "[" +:+ join ", " (map jsonb_render l) +:+ "]"
  | VStrMap m => jsonb_object (map_fold (fun k s acc => (k, quoted s) :: acc) [] m)
  | VObj m => jsonb_object (map_fold (fun k v acc => (k, jsonb_render v) :: acc) [] m)
  end.

(** [document->>key]. *)
Definition json_text (m : document) (key : string) : option string :=
  match get m key with
  | VNull => None
  | VStr s => Some s
  | v => Some (jsonb_render v)
  end.

Definition is_true_text (o : option string) : bool := default "false" o =s "true".

(** SQL equality of two nullable texts: unknown counts as false in a where clause. *)
Definition sql_eq (a b : option string) : bool :=
  match a, b with Some x, Some y => x =s y | _, _ => false end.

(** ** Rows *)

Definition DefaultTenantID : string := "00000000-0000-0000-0000-000000000001".

Record task_row := {
  t_tenant_id : string;
  t_cluster_id : option string;
  t_app_id : option string;
  t_protection_plan_id : option string;
  t_restore_point_id : option string;
  t_type : string;
  t_status : string;
  t_progress : Z;
  t_command_id : option string;
  t_error_code : option string;
  t_error_message : option string;
  t_payload : document;
  t_created_at : time;
  t_dispatched_at : option time;
  t_accepted_at : option time;
  t_started_at : option time;
  t_completed_at : option time
}.

Record point_row := {
  r_tenant_id : string;
  r_protection_plan_id : option string;
  r_source_cluster_id : string;
  r_app_id : option string;
  r_storage_repo_id : option string;
  r_display_name : string;
  r_velero_backup_name : string;
  r_point_type : string;
  r_status : string;
  r_size_bytes : option Z;
  r_started_at : option time;
  r_completed_at : option time;
  r_expires_at : option time;
  r_metadata : document;
  r_created_at : time;
  r_task_created_at : option time;
  r_size_metrics_v2 : document;
  r_backup_task_id : option string
}.

Record reservation_row := {
  v_protection_plan_id : string;
  v_replacement_point_id : option string;
  v_state : string;
  v_pending_point : option value;
  v_cleanup_task_id : option string;
  v_cleanup_attempts : Z;
  v_created_at : time
}.

(** The columns of a plan that saving it writes and only its readers use; the
    JSON ones as the Go values they decode to. *)
Record plan_spec := {
  ps_scope_type : string;
  ps_included_resources : list string;
  ps_resource_selection : ResourceSelection;
  ps_label_selector : LabelSelector;
  ps_include_cluster_scoped : bool;
  ps_storage_repo_id : option string;
  ps_target_cluster_id : option string;
  ps_excluded_resources : list string;
  ps_pre_hooks : list document;
  ps_post_hooks : list document
}.

Record plan_row := {
  p_tenant_id : string;
  p_source_cluster_id : string;
  p_app_id : string;
  p_spec : plan_spec;
  p_policy_id : option string;
  p_status : string;
  p_storage_size : document;
  p_latest_sync_task_id : option string;
  p_latest_recovery_task_id : option string;
  p_created_at : time;
  p_updated_at : time
}.

Record policy_row := {
  c_tenant_id : string;
  c_name : string;
  c_composition : string;
  c_schedule_type : string;
  c_interval_value : option Z;
  c_interval_unit : option string;
  c_hour : option Z;
  c_minute : option Z;
  c_week_day : option Z;
  c_month_day : option Z;
  c_retention_count : option Z;
  c_retention_days : option Z;
  c_retention_rules : list RetentionRule;
  c_retention_timezone : string;
  c_status : string;
  c_created_at : time;
  c_updated_at : time
}.

Record schedule_row := {
  s_last_fired_at : option time;
  s_next_fire_at : option time;
  s_enabled : bool;
  s_created_at : time;
  s_updated_at : time
}.

Record app_row := {
  a_tenant_id : string;
  a_cluster_id : string;
  a_namespace : string;
  a_protection_status : string
}.

Record event_row := {
  e_task_id : string;
  e_level : string;
  e_reason : option string;
  e_message : string;
  e_payload : document;
  e_created_at : time
}.

(** A storage repository, without its encrypted form: [o_secret] is what
    decodeStorageSecret makes of it, [None] when it cannot be decrypted. *)
Record repo_row := {
  o_tenant_id : string;
  o_name : string;
  o_type : string;
  o_endpoint : option string;
  o_bucket : option string;
  o_region : option string;
  o_tls_enabled : bool;
  o_status : string;
  o_config : document;
  o_secret_ref : option string;
  o_secret : option (gmap string string);
  o_last_validated_at : option time;
  o_created_at : time;
  o_updated_at : time
}.

Record diagnostic_row := {
  g_tenant_id : string;
  g_scope : string;
  g_level : string;
  g_component : string;
  g_operation : string;
  g_message : string;
  g_cluster_id : option string;
  g_task_id : option string;
  g_command_id : option string;
  g_error_code : option string;
  g_status : option string;
  g_details : document;
  g_created_at : time
}.

(** What a cluster's agent was told of a repository; the key of the table is the
    cluster, the repository and the cluster whose backups it is for. *)
Record binding_row := {
  b_id : string;
  b_tenant_id : string;
  b_bsl_name : string;
  b_object_prefix : option string;
  b_status : string;
  b_retry_count : Z;
  b_last_synced_at : option time;
  b_last_success_at : option time;
  b_last_error_code : option string;
  b_last_error_message : option string;
  b_repo_updated_at : option time;
  b_created_at : time;
  b_updated_at : time
}.

(** The columns of community_migration_sessions and platform_upgrade_jobs the
    scheduler looks at. *)
Record session_row := {
  m_frozen : bool;
  m_expires_at : time;
  m_state : string
}.

Record upgrade_row := {
  u_tenant_id : string;
  u_status : string;
  u_created_at : time
}.

(** The columns of clusters the modelled code reads. *)
Record cluster_row := {
  k_tenant_id : string;
  k_cluster_type : string;
  k_created_at : time
}.

(** The rows of protection_plan_apps by plan and application, with their creation
    times; resource scopes (the tenants) by their status. *)
Record db := {
  tasks : gmap string task_row;
  restore_points : gmap string point_row;
  reservations : gmap string reservation_row;
  protection_plans : gmap string plan_row;
  plan_apps : gmap (string * string) time;
  policies : gmap string policy_row;
  schedules : gmap string schedule_row;
  task_events : gmap string event_row;
  clusters : gmap string cluster_row;
  applications : gmap string app_row;
  storage_repositories : gmap string repo_row;
  resource_scopes : gmap string string;
  diagnostic_logs : gmap string diagnostic_row;
  migration_sessions : gmap string session_row;
  upgrade_jobs : gmap string upgrade_row;
  storage_bindings : gmap (string * string * string) binding_row
}.

Definition set_tasks (d : db) x : db :=
  {| tasks := x; restore_points := restore_points d; reservations := reservations d;
     protection_plans := protection_plans d; plan_apps := plan_apps d; policies := policies d;
     schedules := schedules d; task_events := task_events d; clusters := clusters d;
     applications := applications d; storage_repositories := storage_repositories d;
     resource_scopes := resource_scopes d; diagnostic_logs := diagnostic_logs d;
     migration_sessions := migration_sessions d; upgrade_jobs := upgrade_jobs d;
     storage_bindings := storage_bindings d |}.

Definition set_restore_points (d : db) x : db :=
  {| tasks := tasks d; restore_points := x; reservations := reservations d;
     protection_plans := protection_plans d; plan_apps := plan_apps d; policies := policies d;
     schedules := schedules d; task_events := task_events d; clusters := clusters d;
     applications := applications d; storage_repositories := storage_repositories d;
     resource_scopes := resource_scopes d; diagnostic_logs := diagnostic_logs d;
     migration_sessions := migration_sessions d; upgrade_jobs := upgrade_jobs d;
     storage_bindings := storage_bindings d |}.

Definition set_reservations (d : db) x : db :=
  {| tasks := tasks d; restore_points := restore_points d; reservations := x;
     protection_plans := protection_plans d; plan_apps := plan_apps d; policies := policies d;
     schedules := schedules d; task_events := task_events d; clusters := clusters d;
     applications := applications d; storage_repositories := storage_repositories d;
     resource_scopes := resource_scopes d; diagnostic_logs := diagnostic_logs d;
     migration_sessions := migration_sessions d; upgrade_jobs := upgrade_jobs d;
     storage_bindings := storage_bindings d |}.

Definition set_protection_plans (d : db) x : db :=
  {| tasks := tasks d; restore_points := restore_points d; reservations := reservations d;
     protection_plans := x; plan_apps := plan_apps d; policies := policies d;
     schedules := schedules d; task_events := task_events d; clusters := clusters d;
     applications := applications d; storage_repositories := storage_repositories d;
     resource_scopes := resource_scopes d; diagnostic_logs := diagnostic_logs d;
     migration_sessions := migration_sessions d; upgrade_jobs := upgrade_jobs d;
     storage_bindings := storage_bindings d |}.

Definition set_plan_apps (d : db) x : db :=
  {| tasks := tasks d; restore_points := restore_points d; reservations := reservations d;
     protection_plans := protection_plans d; plan_apps := x; policies := policies d;
     schedules := schedules d; task_events := task_events d; clusters := clusters d;
     applications := applications d; storage_repositories := storage_repositories d;
     resource_scopes := resource_scopes d; diagnostic_logs := diagnostic_logs d;
     migration_sessions := migration_sessions d; upgrade_jobs := upgrade_jobs d;
     storage_bindings := storage_bindings d |}.

Definition set_policies (d : db) x : db :=
  {| tasks := tasks d; restore_points := restore_points d; reservations := reservations d;
     protection_plans := protection_plans d; plan_apps := plan_apps d; policies := x;
     schedules := schedules d; task_events := task_events d; clusters := clusters d;
     applications := applications d; storage_repositories := storage_repositories d;
     resource_scopes := resource_scopes d; diagnostic_logs := diagnostic_logs d;
     migration_sessions := migration_sessions d; upgrade_jobs := upgrade_jobs d;
     storage_bindings := storage_bindings d |}.

Definition set_schedules (d : db) x : db :=
  {| tasks := tasks d; restore_points := restore_points d; reservations := reservations d;
     protection_plans := protection_plans d; plan_apps := plan_apps d; policies := policies d;
     schedules := x; task_events := task_events d; clusters := clusters d;
     applications := applications d; storage_repositories := storage_repositories d;
     resource_scopes := resource_scopes d; diagnostic_logs := diagnostic_logs d;
     migration_sessions := migration_sessions d; upgrade_jobs := upgrade_jobs d;
     storage_bindings := storage_bindings d |}.

Definition set_task_events (d : db) x : db :=
  {| tasks := tasks d; restore_points := restore_points d; reservations := reservations d;
     protection_plans := protection_plans d; plan_apps := plan_apps d; policies := policies d;
     schedules := schedules d; task_events := x; clusters := clusters d;
     applications := applications d; storage_repositories := storage_repositories d;
     resource_scopes := resource_scopes d; diagnostic_logs := diagnostic_logs d;
     migration_sessions := migration_sessions d; upgrade_jobs := upgrade_jobs d;
     storage_bindings := storage_bindings d |}.

Definition set_applications (d : db) x : db :=
  {| tasks := tasks d; restore_points := restore_points d; reservations := reservations d;
     protection_plans := protection_plans d; plan_apps := plan_apps d; policies := policies d;
     schedules := schedules d; task_events := task_events d; clusters := clusters d;
     applications := x; storage_repositories := storage_repositories d;
     resource_scopes := resource_scopes d; diagnostic_logs := diagnostic_logs d;
     migration_sessions := migration_sessions d; upgrade_jobs := upgrade_jobs d;
     storage_bindings := storage_bindings d |}.

Definition set_diagnostic_logs (d : db) x : db :=
  {| tasks := tasks d; restore_points := restore_points d; reservations := reservations d;
     protection_plans := protection_plans d; plan_apps := plan_apps d; policies := policies d;
     schedules := schedules d; task_events := task_events d; clusters := clusters d;
     applications := applications d; storage_repositories := storage_repositories d;
     resource_scopes := resource_scopes d; diagnostic_logs := x;
     migration_sessions := migration_sessions d; upgrade_jobs := upgrade_jobs d;
     storage_bindings := storage_bindings d |}.

Definition set_storage_bindings (d : db) x : db :=
  {| tasks := tasks d; restore_points := restore_points d; reservations := reservations d;
     protection_plans := protection_plans d; plan_apps := plan_apps d; policies := policies d;
     schedules := schedules d; task_events := task_events d; clusters := clusters d;
     applications := applications d; storage_repositories := storage_repositories d;
     resource_scopes := resource_scopes d; diagnostic_logs := diagnostic_logs d;
     migration_sessions := migration_sessions d; upgrade_jobs := upgrade_jobs d;
     storage_bindings := x |}.

(** Columns the modelled statements assign. *)
Definition point_with_metadata (r : point_row) (m : document) : point_row :=
  {| r_tenant_id := r_tenant_id r; r_protection_plan_id := r_protection_plan_id r;
     r_source_cluster_id := r_source_cluster_id r; r_app_id := r_app_id r;
     r_storage_repo_id := r_storage_repo_id r; r_display_name := r_display_name r;
     r_velero_backup_name := r_velero_backup_name r; r_point_type := r_point_type r;
     r_status := r_status r; r_size_bytes := r_size_bytes r;
     r_started_at := r_started_at r; r_completed_at := r_completed_at r;
     r_expires_at := r_expires_at r; r_metadata := m; r_created_at := r_created_at r;
     r_task_created_at := r_task_created_at r; r_size_metrics_v2 := r_size_metrics_v2 r;
     r_backup_task_id := r_backup_task_id r |}.

Definition point_with_state (r : point_row) (status : string) (m : document) : point_row :=
  {| r_tenant_id := r_tenant_id r; r_protection_plan_id := r_protection_plan_id r;
     r_source_cluster_id := r_source_cluster_id r; r_app_id := r_app_id r;
     r_storage_repo_id := r_storage_repo_id r; r_display_name := r_display_name r;
     r_velero_backup_name := r_velero_backup_name r; r_point_type := r_point_type r;
     r_status := status; r_size_bytes := r_size_bytes r;
     r_started_at := r_started_at r; r_completed_at := r_completed_at r;
     r_expires_at := r_expires_at r; r_metadata := m; r_created_at := r_created_at r;
     r_task_created_at := r_task_created_at r; r_size_metrics_v2 := r_size_metrics_v2 r;
     r_backup_task_id := r_backup_task_id r |}.

Definition reservation_with_state (v : reservation_row) (state : string) : reservation_row :=
  {| v_protection_plan_id := v_protection_plan_id v;
     v_replacement_point_id := v_replacement_point_id v; v_state := state;
     v_pending_point := v_pending_point v; v_cleanup_task_id := v_cleanup_task_id v;
     v_cleanup_attempts := v_cleanup_attempts v; v_created_at := v_created_at v |}.

Definition plan_with_status (p : plan_row) (status : string) (updated : time) : plan_row :=
  {| p_tenant_id := p_tenant_id p; p_source_cluster_id := p_source_cluster_id p;
     p_app_id := p_app_id p; p_spec := p_spec p; p_policy_id := p_policy_id p;
     p_status := status; p_storage_size := p_storage_size p;
     p_latest_sync_task_id := p_latest_sync_task_id p;
     p_latest_recovery_task_id := p_latest_recovery_task_id p;
     p_created_at := p_created_at p; p_updated_at := updated |}.

Definition plan_with_latest (p : plan_row) (sync recovery : option string) : plan_row :=
  {| p_tenant_id := p_tenant_id p; p_source_cluster_id := p_source_cluster_id p;
     p_app_id := p_app_id p; p_spec := p_spec p; p_policy_id := p_policy_id p;
     p_status := p_status p; p_storage_size := p_storage_size p;
     p_latest_sync_task_id := sync; p_latest_recovery_task_id := recovery;
     p_created_at := p_created_at p; p_updated_at := p_updated_at p |}.

(** ** Statements *)

(** [update table set ... where ...], and the number of rows it updates. *)
Definition update_where {R} (p : string -> R -> bool) (f : string -> R -> R) (m : gmap string R)
    : gmap string R * Z :=
  (map_imap (fun k r => Some (if p k r then f k r else r)) m,
   Z.of_nat (size (filter (fun '(k, r) => p k r = true) m))).

(** [select exists(select 1 from table where ...)]. *)
Definition exists_where {R} (p : string -> R -> bool) (m : gmap string R) : bool :=
  existsb (fun '(k, r) => p k r) (map_to_list m).

(** [select count( * ) from table where ...]. *)
Definition count_where {R} (p : string -> R -> bool) (m : gmap string R) : Z :=
  count (fun '(k, r) => p k r) (map_to_list m).

Definition update_tasks p f (d : db) : option (db * Z) :=
  let '(m, n) := update_where p f (tasks d) in Some (set_tasks d m, n).

Definition update_points p f (d : db) : option (db * Z) :=
  let '(m, n) := update_where p f (restore_points d) in Some (set_restore_points d m, n).

Definition update_reservations p f (d : db) : option (db * Z) :=
  let '(m, n) := update_where p f (reservations d) in Some (set_reservations d m, n).

Definition update_plans p f (d : db) : option (db * Z) :=
  let '(m, n) := update_where p f (protection_plans d) in Some (set_protection_plans d m, n).

Definition update_schedules p f (d : db) : option (db * Z) :=
  let '(m, n) := update_where p f (schedules d) in Some (set_schedules d m, n).

(** A statement followed by another one of the same [with ...] command. *)
Definition both (f g : db -> option (db * Z)) (d : db) : option (db * Z) :=
  match f d with Some (d, _) => g d | None => None end.

(** ** Constraints *)

(** A foreign key column: null, or a row of the other table. *)
Definition fk {R} (o : option string) (m : gmap string R) : bool :=
  match o with None => true | Some id => bool_decide (is_Some (m !! id)) end.

Definition plan_capacity_active (r : task_row) : bool :=
  (t_type r =s "plan-capacity") &&
  one_of (t_status r) ["queued"; "dispatched"; "accepted"; "running"].

Definition schedule_day (r : task_row) : option string :=
  if t_type r =s "plan-capacity" then json_text (t_payload r) "scheduleDay" else None.

(** Two rows the unique indexes of migration 49 keep apart. *)
Definition task_clash (r r' : task_row) : bool :=
  sql_eq (t_cluster_id r) (t_cluster_id r') &&
  (plan_capacity_active r && plan_capacity_active r' ||
   sql_eq (schedule_day r) (schedule_day r')).

Definition insert_task (id : string) (r : task_row) (d : db) : option (db * Z) :=
  if bool_decide (is_Some (tasks d !! id)) ||
     negb (fk (t_cluster_id r) (clusters d)) || negb (fk (t_app_id r) (applications d)) ||
     negb (fk (t_protection_plan_id r) (protection_plans d)) ||
     negb (fk (t_restore_point_id r) (restore_points d)) ||
     exists_where (fun _ r' => task_clash r r') (tasks d)
  then None
  else Some (set_tasks d (<[id := r]> (tasks d)), 1).

(** [update tasks set ... where id=$1], and the constraints on the new row. *)
Definition update_task (id : string) (f : task_row -> task_row) (d : db) : option (db * Z) :=
  match tasks d !! id with
  | None => Some (d, 0)
  | Some r =>
      let r' := f r in
      if negb (fk (t_restore_point_id r') (restore_points d)) ||
         exists_where (fun k other => (k <>s id) && task_clash r' other) (tasks d)
      then None
      else Some (set_tasks d (<[id := r']> (tasks d)), 1)
  end.

Definition active_reservation (v : reservation_row) : bool :=
  one_of (v_state v) ["reserved"; "data_ready"; "deleting"].

(** The primary key, the foreign keys, and the partial unique index: one
    active reservation per replaced point. *)
Definition insert_reservation (task_id : string) (v : reservation_row) (d : db)
    : option (db * Z) :=
  if bool_decide (is_Some (reservations d !! task_id)) ||
     negb (fk (Some task_id) (tasks d)) ||
     negb (fk (Some (v_protection_plan_id v)) (protection_plans d)) ||
     negb (fk (v_replacement_point_id v) (restore_points d)) ||
     exists_where (fun _ v' => active_reservation v && active_reservation v' &&
       sql_eq (v_replacement_point_id v) (v_replacement_point_id v')) (reservations d)
  then None
  else Some (set_reservations d (<[task_id := v]> (reservations d)), 1).

Definition insert_event (id : string) (e : event_row) (d : db) : option (db * Z) :=
  if bool_decide (is_Some (task_events d !! id)) || negb (fk (Some (e_task_id e)) (tasks d))
  then None
  else Some (set_task_events d (<[id := e]> (task_events d)), 1).

(** Trigger [enforce_protection_plan_latest_tasks] of migration 35. *)
Definition latest_task_ok (d : db) (plan_id : string) (types : list string) (o : option string)
    : bool :=
  match o with
  | None => true
  | Some id =>
      match tasks d !! id with
      | Some r => sql_eq (t_protection_plan_id r) (Some plan_id) && one_of (t_type r) types
      | None => false
      end
  end.

Definition latest_tasks_guard (d : db) (plan_id : string) (p : plan_row) : bool :=
  latest_task_ok d plan_id ["backup"] (p_latest_sync_task_id p) &&
  latest_task_ok d plan_id ["drill"; "restore"; "takeover"] (p_latest_recovery_task_id p).

(** Trigger [enforce_restore_point_backup_task] of migration 36: the row with the
    creation time of its backup task, or an exception. *)
Definition backup_task_guard (d : db) (backup_task_id plan_id : option string)
    : option time :=
  match backup_task_id with
  | None => None
  | Some id =>
      match tasks d !! id with
      | Some t =>
          if (t_type t =s "backup") && bool_decide (t_protection_plan_id t = plan_id)
          then Some (t_created_at t) else None
      | None => None
      end
  end.

(** What these triggers keep true of every row. *)
Definition backups_ok (d : db) : Prop :=
  forall pid r, restore_points d !! pid = Some r -> exists b t,
    r_backup_task_id r = Some b /\ tasks d !! b = Some t /\
    t_protection_plan_id t = r_protection_plan_id r.

Definition latest_ok (d : db) : Prop :=
  forall q pp, protection_plans d !! q = Some pp -> latest_tasks_guard d q pp = true.

(** ** Reading rows back *)

Definition task_of_row (id : string) (r : task_row) : Task :=
  {| task_ID := id; task_TenantID := t_tenant_id r; task_ClusterID := text (t_cluster_id r);
     task_AppID := text (t_app_id r); task_ProtectionPlanID := text (t_protection_plan_id r);
     task_RestorePointID := text (t_restore_point_id r); task_Type := t_type r;
     task_Status := t_status r; task_Progress := t_progress r;
     task_CommandID := text (t_command_id r); task_ErrorCode := text (t_error_code r);
     task_ErrorMessage := text (t_error_message r); task_Payload := t_payload r;
     task_CreatedAt := t_created_at r; task_DispatchedAt := read_time (t_dispatched_at r);
     task_AcceptedAt := read_time (t_accepted_at r); task_StartedAt := read_time (t_started_at r);
     task_CompletedAt := read_time (t_completed_at r) |}.

Definition hydrateRestorePointMetadata (item : RestorePoint) : RestorePoint :=
  {| rp_ID := rp_ID item; rp_TenantID := rp_TenantID item;
     rp_ProtectionPlanID := rp_ProtectionPlanID item;
     rp_SourceClusterID := rp_SourceClusterID item; rp_AppID := rp_AppID item;
     rp_StorageRepoID := rp_StorageRepoID item; rp_DisplayName := rp_DisplayName item;
     rp_VeleroBackupName := rp_VeleroBackupName item; rp_PointType := rp_PointType item;
     rp_Status := rp_Status item; rp_SizeBytes := rp_SizeBytes item;
     rp_StartedAt := rp_StartedAt item; rp_CompletedAt := rp_CompletedAt item;
     rp_ExpiresAt := rp_ExpiresAt item;
     rp_SourceNamespace := stringFromMap (rp_Metadata item) "sourceNamespace";
     rp_LabelSelector := stringFromMap (rp_Metadata item) "labelSelector";
     rp_BackupTaskID := rp_BackupTaskID item;
     rp_BackupStorageName := stringFromMap (rp_Metadata item) "backupStorageName";
     rp_TaskCreatedAt := rp_TaskCreatedAt item; rp_Metadata := rp_Metadata item;
     rp_SizeMetricsV2 := rp_SizeMetricsV2 item; rp_CreatedAt := rp_CreatedAt item |}.

(** [coalesce(task_created_at, created_at)]. *)
Definition point_created (r : point_row) : time := default (r_created_at r) (r_task_created_at r).

Definition point_of_row (id : string) (r : point_row) : RestorePoint :=
  hydrateRestorePointMetadata
  {| rp_ID := id; rp_TenantID := r_tenant_id r;
     rp_ProtectionPlanID := text (r_protection_plan_id r);
     rp_SourceClusterID := r_source_cluster_id r; rp_AppID := text (r_app_id r);
     rp_StorageRepoID := text (r_storage_repo_id r); rp_DisplayName := r_display_name r;
     rp_VeleroBackupName := r_velero_backup_name r; rp_PointType := r_point_type r;
     rp_Status := r_status r; rp_SizeBytes := default 0 (r_size_bytes r);
     rp_StartedAt := read_time (r_started_at r); rp_CompletedAt := read_time (r_completed_at r);
     rp_ExpiresAt := read_time (r_expires_at r); rp_SourceNamespace := "";
     rp_LabelSelector := ""; rp_BackupTaskID := text (r_backup_task_id r);
     rp_BackupStorageName := ""; rp_TaskCreatedAt := point_created r;
     rp_Metadata := r_metadata r; rp_SizeMetricsV2 := r_size_metrics_v2 r;
     rp_CreatedAt := r_created_at r |}.

(** [(Task, bool, error)]: [None] is [false]. *)
Definition getTask (taskID : string) : tx db (option Task) :=
  select (fun d => task_of_row taskID <$> tasks d !! taskID).

Definition GetRestorePoint (id : string) : tx db (option RestorePoint) :=
  select (fun d => point_of_row id <$> restore_points d !! id).

(** ** tenant_references.go *)

Inductive table := Clusters | Applications | ProtectionPlans | RestorePoints | StorageRepositories | Tasks.

Definition owner (d : db) (t : table) (id : string) : option string :=
  match t with
  | Clusters => k_tenant_id <$> clusters d !! id
  | Applications => a_tenant_id <$> applications d !! id
  | ProtectionPlans => p_tenant_id <$> protection_plans d !! id
  | RestorePoints => r_tenant_id <$> restore_points d !! id
  | StorageRepositories => o_tenant_id <$> storage_repositories d !! id
  | Tasks => t_tenant_id <$> tasks d !! id
  end.

Definition validateTenantReference (t : table) (id tenantID : string) : tx db unit :=
  if negb (nonempty id) then mret tt
  else
    found ← attempt (query (fun d => owner d t id));
    match found with
    | inl ErrNoRows => fail ErrTenantResourceMismatch
    | inl err => fail err
    | inr who => if who <>s tenantID then fail ErrTenantResourceMismatch else mret tt
    end.

Definition validateReferences (refs : list (table * string)) (tenantID : string) : tx db unit :=
  for_each refs (fun '(t, id) => validateTenantReference t id tenantID).

Definition validateTaskReferences (input : TaskInput) (tenantID : string) : tx db unit :=
  validateReferences
    [(Clusters, ti_ClusterID input); (Applications, ti_AppID input);
     (ProtectionPlans, ti_ProtectionPlanID input);
     (RestorePoints, ti_RestorePointID input)] tenantID.

Definition validateRestorePointReferences (input : RestorePointInput) (tenantID : string)
    : tx db unit :=
  validateReferences
    [(Clusters, rpi_SourceClusterID input); (Applications, rpi_AppID input);
     (ProtectionPlans, rpi_ProtectionPlanID input);
     (StorageRepositories, rpi_StorageRepoID input); (Tasks, rpi_BackupTaskID input)] tenantID.

(** ** helpers.go *)

Definition isActiveStatus (status : string) : bool :=
  one_of status
    ["queued"; "dispatched"; "accepted"; "running"; "syncing"; "finalizing"; "canceling"].

(** ** Facts about tables *)

Section tables.
Context {R : Type}.
Implicit Types (p q : string -> R -> bool) (f : string -> R -> R) (m : gmap string R).

Lemma lookup_update_where p f m k :
  fst (update_where p f m) !! k = (fun r => if p k r then f k r else r) <$> m !! k.
Proof. simpl. rewrite map_lookup_imap. by destruct (m !! k). Qed.

Lemma exists_where_true p m :
  exists_where p m = true <-> exists k r, m !! k = Some r /\ p k r = true.
Proof.
  unfold exists_where. rewrite existsb_exists. split.
  - intros ([k r] & Hin & Hp). exists k, r. split; [|done].
    by apply elem_of_map_to_list, list_elem_of_In.
  - intros (k & r & Hk & Hp). exists (k, r). split; [|done].
    by apply list_elem_of_In, elem_of_map_to_list.
Qed.

Lemma exists_where_false p m :
  exists_where p m = false <-> forall k r, m !! k = Some r -> p k r = false.
Proof.
  rewrite <- not_true_iff_false, exists_where_true. split.
  - intros H k r Hk. apply not_true_iff_false. intros Hp. apply H. by exists k, r.
  - intros H (k & r & Hk & Hp). by rewrite (H k r Hk) in Hp.
Qed.

Lemma count_where_nonneg p m : 0 <= count_where p m.
Proof. apply count_nonneg. Qed.

Lemma count_where_insert p m k r :
  m !! k = None -> count_where p (<[k := r]> m) = (if p k r then 1 else 0) + count_where p m.
Proof. intros H. unfold count_where. by rewrite map_to_list_insert, count_cons. Qed.

Lemma count_where_empty p : count_where p (∅ : gmap string R) = 0.
Proof. done. Qed.

Lemma count_where_ind p q m m' :
  (forall k, match m !! k, m' !! k with
             | Some r, Some r' => p k r = true -> q k r' = true
             | Some r, None => p k r = false
             | None, _ => True
             end) ->
  count_where p m <= count_where q m'.
Proof.
  revert m'. induction m as [|k r m Hk IH] using map_ind; intros m' H.
  { rewrite count_where_empty. apply count_where_nonneg. }
  rewrite count_where_insert by done.
  pose proof (H k) as Hkk. rewrite lookup_insert_eq in Hkk.
  assert (Hrest : count_where p m <= count_where q (delete k m')).
  { apply IH. intros j. specialize (H j). destruct (decide (j = k)) as [->|Hne].
    - by rewrite Hk.
    - rewrite lookup_insert_ne in H by done. by rewrite lookup_delete_ne. }
  destruct (m' !! k) as [r'|] eqn:E.
  - rewrite <- (insert_id m' k r' E), <- insert_delete_eq.
    rewrite count_where_insert by apply lookup_delete_eq.
    destruct (p k r) eqn:Ep; [rewrite (Hkk eq_refl); lia|].
    destruct (q k r'); lia.
  - rewrite delete_id in Hrest by done. rewrite Hkk. lia.
Qed.

Lemma count_where_none p m : (forall k r, m !! k = Some r -> p k r = false) -> count_where p m = 0.
Proof.
  intros H. apply Z.le_antisymm; [|apply count_where_nonneg].
  rewrite <- (count_where_empty p). apply count_where_ind. intros k.
  destruct (m !! k) as [r|] eqn:E; [|done]. rewrite lookup_empty. by apply H.
Qed.

Lemma count_where_ext p q m m' :
  (forall k, (p k <$> m !! k) = (q k <$> m' !! k)) -> count_where p m = count_where q m'.
Proof.
  intros H. apply Z.le_antisymm; apply count_where_ind; intros k; specialize (H k);
    destruct (m !! k), (m' !! k); simpl in H; try done; injection H as H; by rewrite H.
Qed.

Lemma count_where_delete p m k r :
  m !! k = Some r -> count_where p m = (if p k r then 1 else 0) + count_where p (delete k m).
Proof.
  intros H. rewrite <- (insert_id m k r H) at 1. rewrite <- insert_delete_eq.
  apply count_where_insert, lookup_delete_eq.
Qed.

Lemma count_where_update p q f m :
  count_where p (fst (update_where q f m)) =
  count_where (fun k r => p k (if q k r then f k r else r)) m.
Proof.
  apply count_where_ext. intros k. rewrite lookup_update_where. by destruct (m !! k).
Qed.

Lemma count_where_filter p m :
  count_where p m = Z.of_nat (length (List.filter (fun '(k, r) => p k r) (map_to_list m))).
Proof. done. Qed.

(** A statement whose rows are selected by key touches at most one. *)
Lemma update_where_key_count k p f m :
  snd (update_where (fun j r => (j =s k) && p j r) f m) =
  match m !! k with Some r => if p k r then 1 else 0 | None => 0 end.
Proof.
  unfold update_where, snd. destruct (m !! k) as [r|] eqn:E; [destruct (p k r) eqn:Ep|].
  - replace (filter _ m) with ({[k := r]} : gmap string R); [by rewrite map_size_singleton|].
    apply map_eq. intros j. symmetry. destruct (decide (j = k)) as [->|Hne].
    + rewrite lookup_singleton_eq. apply map_lookup_filter_Some. by rewrite seqb_refl.
    + rewrite lookup_singleton_ne by done. apply map_lookup_filter_None. right.
      intros r' _ Hr'. go_bool. by destruct Hr'.
  - replace (filter _ m) with (∅ : gmap string R); [by rewrite map_size_empty|].
    apply map_eq. intros j. symmetry. rewrite lookup_empty. apply map_lookup_filter_None. right.
    intros r' Hj Hr'. apply andb_true_iff in Hr' as [->%seqb_true Hr']. congruence.
  - replace (filter _ m) with (∅ : gmap string R); [by rewrite map_size_empty|].
    apply map_eq. intros j. symmetry. rewrite lookup_empty. apply map_lookup_filter_None. right.
    intros r' Hj Hr'. apply andb_true_iff in Hr' as [->%seqb_true Hr']. congruence.
Qed.

End tables.

Lemma sql_eq_Some o s : sql_eq o (Some s) = true <-> o = Some s.
Proof. destruct o; simpl; [rewrite seqb_true|]; naive_solver. Qed.

Lemma text_nullif s : text (nullif s) = s.
Proof. unfold nullif. destruct (nonempty s) eqn:E; [done|]. by apply nonempty_false in E. Qed.

(** ** What the single-row statements do *)

Lemma update_task_inv id f d d' n :
  update_task id f d = Some (d', n) ->
  tasks d !! id = None /\ d' = d /\ n = 0 \/
  exists r, tasks d !! id = Some r /\ d' = set_tasks d (<[id := f r]> (tasks d)) /\ n = 1.
Proof.
  unfold update_task. destruct (tasks d !! id) as [r|] eqn:E.
  - destruct (_ || _); [done|]. intros [= <- <-]. right. by exists r.
  - intros [= <- <-]. by left.
Qed.

Lemma insert_task_inv id r d d' n :
  insert_task id r d = Some (d', n) ->
  tasks d !! id = None /\ d' = set_tasks d (<[id := r]> (tasks d)).
Proof.
  unfold insert_task. destruct (_ || _) eqn:E; [done|]. intros [= <- _].
  rewrite !orb_false_iff in E. destruct E as [[[[[E _] _] _] _] _].
  apply bool_decide_eq_false in E. split; [by apply eq_None_not_Some|done].
Qed.

Lemma quiet_validateTenantReference t id tenantID : quiet (validateTenantReference t id tenantID).
Proof. unfold validateTenantReference. tx_walk. Qed.

Lemma quiet_validateReferences refs tenantID : quiet (validateReferences refs tenantID).
Proof.
  unfold validateReferences. apply quiet_for_each. intros [t id].
  apply quiet_validateTenantReference.
Qed.
#[export] Hint Resolve quiet_validateTenantReference quiet_validateReferences : tx.

Lemma quiet_getTask id : quiet (getTask id).
Proof. apply quiet_select. Qed.
Lemma quiet_GetRestorePoint id : quiet (GetRestorePoint id).
Proof. apply quiet_select. Qed.
#[export] Hint Resolve quiet_getTask quiet_GetRestorePoint : tx.
