(* ===== verification/Control.v ===== *)
(** The handlers of backend/internal/httpserver as programs over the store.

    A handler calls store operations one after the other; every call is a
    transaction of its own, and other requests, agents and API processes may
    write in between.  A computation of [ctl] is run in an [environment] that
    answers, turn by turn, what the handler cannot know: the clock, fresh
    identifiers, which statement of the next store call fails, what others have
    done to the database before it, and which agents are connected.  What the
    handler sends to agents and the workers it starts are recorded. *)

From S2P Require Import Prelude Calendar Value Types Retention Session Database.

(** An error of a handler: one of the store, one of its wrapped by
    [fmt.Errorf] with [%w], or [errors.New(message)]. *)
Inductive failure :=
| StoreError (e : error)
| Wrapped (e : error) (detail : string)
| Failure (message : string).

(** What [errors.Is] looks for. *)
Definition cause (f : failure) : option error :=
  match f with StoreError e | Wrapped e _ => Some e | Failure _ => None end.

(** Workers started with [r.startWorker]: the calls they make. *)
Inductive worker :=
| DispatchBackup (task : Task) (storageName storageRepoID sourceClusterID : string)
| DispatchRecovery (task : Task) (storageName storageRepoID sourceClusterID : string)
| DispatchUpgrade (task : Task) (message : string)
| CleanupUnregister (task : Task)
| FinishPlanCleanup (planID cleanupRunID : string)
| IndexContents (point : RestorePoint).

(** What ends a [select] of a polling loop. *)
Inductive wakeup := Tick | Deadline | Stopped.

Record environment := {
  now_at : nat -> time;
  id_at : nat -> string;
  fault_at : nat -> option nat;
  others_at : nat -> db -> db;
  connected_at : nat -> string -> bool;
  capacity_at : nat -> string -> bool;
  delivered_at : nat -> bool;
  stopping_at : nat -> bool;
  wakes_at : nat -> wakeup;
  exclusive_at : nat -> option bool;
  error_text : error -> string;
  agent_namespace : string
}.

Record world := World {
  database : db;
  turn : nat;
  sent : list (string * value);
  started : list worker
}.

Definition ctl (A : Type) : Type := environment -> world -> world * A.

#[export] Instance ctl_ret : MRet ctl := fun A a e w => (w, a).

#[export] Instance ctl_bind : MBind ctl := fun A B k m e w =>
  let '(w, a) := m e w in k a e w.

(** An answer of the environment, which takes a turn. *)
Definition ask {A} (answer : environment -> nat -> A) : ctl A := fun e w =>
  (World (database w) (S (turn w)) (sent w) (started w), answer e (turn w)).

(** [time.Now().UTC()] and [store.NewPublicID()]. *)
Definition time_now : ctl time := ask now_at.
Definition NewPublicID : ctl string := ask id_at.

(** [r.backgroundContext().Err() != nil], and a [select] with a ticker, a deadline
    and the shutdown. *)
Definition stopping : ctl bool := ask stopping_at.
Definition await : ctl wakeup := ask wakes_at.

(** [r.hub.get], [r.hub.supportsCapacity]. *)
Definition hub_get (clusterID : string) : ctl bool := ask (fun e n => connected_at e n clusterID).
Definition supportsCapacity (clusterID : string) : ctl bool :=
  ask (fun e n => connected_at e n clusterID && capacity_at e n clusterID).

(** [RunSchedulerExclusive] (store/scheduler_lock.go): the work runs when the
    advisory lock is free; whether it was, or an error. *)
Definition RunSchedulerExclusive (work : ctl unit) : ctl (failure + bool) :=
  fun e w =>
    let w1 := World (database w) (S (turn w)) (sent w) (started w) in
    match exclusive_at e (turn w) with
    | None => (w1, inl (StoreError ErrDriver))
    | Some false => (w1, inr false)
    | Some true => let '(w2, _) := work e w1 in (w2, inr true)
    end.

(** [err.Error()]. *)
Definition error_message (f : failure) : ctl string := fun e w =>
  (w, match f with
      | StoreError err => error_text e err
      | Wrapped err detail => error_text e err +:+ ": " +:+ detail
      | Failure message => message
      end).

(** A call of the store, after whatever the others did. *)
Definition store {A} (op : string -> time -> tx db A) : ctl (failure + A) := fun e w =>
  let n := turn w in
  let '(d, r) := run (op (id_at e n) (now_at e n)) (fault_at e n) (others_at e n (database w)) in
  (World d (S n) (sent w) (started w),
   match r with inl err => inl (StoreError err) | inr a => inr a end).

(** A store call whose result and error are dropped. *)
Definition ignore {A} (m : ctl A) : ctl unit := m ;; mret tt.

(** [r.writeAgentMessage]: [false] when the connection fails. *)
Definition writeAgentMessage (clusterID : string) (message : value) : ctl bool := fun e w =>
  if delivered_at e (turn w)
  then (World (database w) (S (turn w)) (sent w ++ [(clusterID, message)]) (started w), true)
  else (World (database w) (S (turn w)) (sent w) (started w), false).

(** [r.startWorker]: no worker is admitted while the platform shuts down. *)
Definition startWorker (x : worker) : ctl unit := fun e w =>
  if stopping_at e (turn w) then (w, tt)
  else (World (database w) (turn w) (sent w) (started w ++ [x]), tt).

(** [for _, x := range l { ... }] with a body that only continues. *)
Fixpoint range {A} (l : list A) (body : A -> ctl unit) : ctl unit :=
  match l with
  | [] => mret tt
  | x :: l => body x ;; range l body
  end.

(** A loop with an accumulator that may leave the function with an error. *)
Fixpoint collect {A S E} (l : list A) (state : S) (body : S -> A -> ctl (E + S)) : ctl (E + S) :=
  match l with
  | [] => mret (inr state)
  | x :: l =>
      r ← body state x;
      match r with
      | inl err => mret (inl err)
      | inr state => collect l state body
      end
  end.

(** [if err != nil { return ..., err }]. *)
Definition or_return {E A B} (r : E + A) (k : A -> ctl (E + B)) : ctl (E + B) :=
  match r with inl err => mret (inl err) | inr a => k a end.

(** An error, or a value of which [Q] holds. *)
Definition succeeds {E A} (Q : A -> Prop) (r : E + A) : Prop :=
  match r with inl _ => True | inr a => Q a end.

(** ** What a handler may do to the database

    [stays_in R m]: when others only make steps of [R] and identifiers are not
    empty, [m] only makes steps of [R].  This is
    the rely-guarantee rule all handlers are proved with: the relation of the
    system's calls is both what they rely on and what they guarantee. *)

Record relies (R : db -> db -> Prop) (e : environment) : Prop := {
  relies_others : forall n d, rtc R d (others_at e n d);
  relies_ids : forall n, id_at e n <> ""
}.

Definition stays_in (R : db -> db -> Prop) {A} (m : ctl A) : Prop :=
  forall e w, relies R e -> rtc R (database w) (database (fst (m e w))).

(** With what is known of its answer. *)
Definition stays_in_with (R : db -> db -> Prop) {A} (Q : A -> Prop) (m : ctl A) : Prop :=
  forall e w, relies R e ->
    rtc R (database w) (database (fst (m e w))) /\ Q (snd (m e w)).

Section rules.
Context (R : db -> db -> Prop).

Lemma stays_ret {A} (a : A) : stays_in R (mret a).
Proof. by intros e w _. Qed.

Lemma stays_bind {A B} (m : ctl A) (k : A -> ctl B) :
  stays_in R m -> (forall a, stays_in R (k a)) -> stays_in R (m ≫= k).
Proof.
  intros Hm Hk e w He. specialize (Hm e w He). unfold mbind, ctl_bind.
  destruct (m e w) as [w1 a]. etrans; [exact Hm|]. by apply (Hk a e w1).
Qed.

Lemma stays_bind_with {A B} (Q : A -> Prop) (m : ctl A) (k : A -> ctl B) :
  stays_in_with R Q m -> (forall a, Q a -> stays_in R (k a)) -> stays_in R (m ≫= k).
Proof.
  intros Hm Hk e w He. specialize (Hm e w He). unfold mbind, ctl_bind.
  destruct (m e w) as [w1 a]. destruct Hm as [Hm HQ]. etrans; [exact Hm|]. by apply (Hk a HQ e w1).
Qed.

Lemma stays_ask {A} (answer : environment -> nat -> A) : stays_in R (ask answer).
Proof. by intros e w _. Qed.

Lemma stays_message f : stays_in R (error_message f).
Proof. by intros e w _. Qed.

Lemma stays_write clusterID message : stays_in R (writeAgentMessage clusterID message).
Proof. intros e w _. unfold writeAgentMessage. by destruct (delivered_at e (turn w)). Qed.

Lemma stays_start x : stays_in R (startWorker x).
Proof. intros e w _. unfold startWorker. by destruct (stopping_at e (turn w)). Qed.

(** A store call is what the others did and a step of its own. *)
Lemma stays_store {A} (op : string -> time -> tx db A) :
  (forall id now fuse d, id <> "" -> R d (fst (run (op id now) fuse d))) -> stays_in R (store op).
Proof.
  intros Hop e w [Ho Hid]. unfold store.
  pose proof (Hop (id_at e (turn w)) (now_at e (turn w)) (fault_at e (turn w))
    (others_at e (turn w) (database w)) (Hid _)) as H.
  destruct (run _ _ _) as [d r]. eapply rtc_r; [apply Ho|exact H].
Qed.

(** A store call that writes nothing. *)
Lemma stays_read {A} (op : string -> time -> tx db A) :
  (forall id now, quiet (op id now)) -> stays_in R (store op).
Proof.
  intros Hop e w [Ho _]. unfold store, run.
  specialize (Hop (id_at e (turn w)) (now_at e (turn w))
    (Session (others_at e (turn w) (database w)) (others_at e (turn w) (database w))
       (fault_at e (turn w)))).
  destruct (op _ _ _) as [s r]. cbn in *. rewrite Hop. apply Ho.
Qed.

Lemma stays_range {A} (l : list A) body :
  (forall x, stays_in R (body x)) -> stays_in R (range l body).
Proof.
  intros Hb. induction l as [|x l IH]; cbn; [apply stays_ret|].
  apply stays_bind; [apply Hb|]. by intros _.
Qed.

Lemma stays_exclusive (work : ctl unit) : stays_in R work -> stays_in R (RunSchedulerExclusive work).
Proof.
  intros H e w He. unfold RunSchedulerExclusive. destruct (exclusive_at e (turn w)) as [[]|]; try done.
  specialize (H e (World (database w) (S (turn w)) (sent w) (started w)) He).
  by destruct (work e _).
Qed.

Lemma stays_collect {A S E} (l : list A) (body : S -> A -> ctl (E + S)) :
  (forall s x, stays_in R (body s x)) -> forall s, stays_in R (collect l s body).
Proof.
  intros Hb. induction l as [|x l IH]; intros s; cbn; [apply stays_ret|].
  apply stays_bind; [apply Hb|]. intros [err|s']; [apply stays_ret|apply IH].
Qed.

Lemma stays_or_return {E A B} (r : E + A) (k : A -> ctl (E + B)) :
  (forall a, stays_in R (k a)) -> stays_in R (or_return r k).
Proof. destruct r; cbn; [intros _; apply stays_ret|auto]. Qed.

Lemma stays_ignore {A} (m : ctl A) : stays_in R m -> stays_in R (ignore m).
Proof. intros Hm. apply stays_bind; [done|]. intros _. apply stays_ret. Qed.

Lemma stays_weaken (R' : db -> db -> Prop) {A} (m : ctl A) e w :
  stays_in R m -> relies R e -> (forall d d', R d d' -> R' d d') ->
  rtc R' (database w) (database (fst (m e w))).
Proof. intros Hm He Hi. eapply rtc_subrel; [apply Hi|]. by apply Hm. Qed.

End rules.

(** ** From the states of an invariant

    [stays_from I R m]: the same for the states of which [I] holds, which tells
    what [m] may rely on of its answers. *)

Definition stays_from (I : db -> Prop) (R : db -> db -> Prop) {A} (m : ctl A) : Prop :=
  forall e w, relies R e -> I (database w) -> rtc R (database w) (database (fst (m e w))).

Definition stays_from_with (I : db -> Prop) (R : db -> db -> Prop) {A} (Q : A -> Prop)
    (m : ctl A) : Prop :=
  forall e w, relies R e -> I (database w) ->
    rtc R (database w) (database (fst (m e w))) /\ Q (snd (m e w)).

Section invariant_rules.
Context (I : db -> Prop) (R : db -> db -> Prop).
Hypothesis I_kept : forall d d', rtc R d d' -> I d -> I d'.

Lemma stays_from_any {A} (m : ctl A) : stays_in R m -> stays_from I R m.
Proof. intros H e w He _. by apply H. Qed.

Lemma stays_from_bind {A B} (m : ctl A) (k : A -> ctl B) :
  stays_from I R m -> (forall a, stays_from I R (k a)) -> stays_from I R (m ≫= k).
Proof.
  intros Hm Hk e w He Hi. specialize (Hm e w He Hi). unfold mbind, ctl_bind.
  destruct (m e w) as [w1 a]. etrans; [exact Hm|]. apply (Hk a e w1 He). by eapply I_kept.
Qed.

Lemma stays_from_bind_with {A B} (Q : A -> Prop) (m : ctl A) (k : A -> ctl B) :
  stays_from_with I R Q m -> (forall a, Q a -> stays_from I R (k a)) -> stays_from I R (m ≫= k).
Proof.
  intros Hm Hk e w He Hi. specialize (Hm e w He Hi). unfold mbind, ctl_bind.
  destruct (m e w) as [w1 a], Hm as [Hm HQ]. etrans; [exact Hm|].
  apply (Hk a HQ e w1 He). by eapply I_kept.
Qed.

Lemma stays_from_exclusive (work : ctl unit) :
  stays_from I R work -> stays_from I R (RunSchedulerExclusive work).
Proof.
  intros H e w He Hi. unfold RunSchedulerExclusive.
  destruct (exclusive_at e (turn w)) as [[]|]; try done.
  specialize (H e (World (database w) (S (turn w)) (sent w) (started w)) He Hi).
  by destruct (work e _).
Qed.

Lemma stays_from_store {A} (Q : A -> Prop) (op : string -> time -> tx db A) :
  (forall id now fuse d, id <> "" -> R d (fst (run (op id now) fuse d))) ->
  (forall id now fuse d d' a, I d -> run (op id now) fuse d = (d', inr a) -> Q a) ->
  stays_from_with I R (succeeds Q) (store op).
Proof.
  intros Hop Hq e w [Ho Hid] Hi. unfold store.
  assert (Hi1 : I (others_at e (turn w) (database w))) by (eapply I_kept; [apply Ho|done]).
  pose proof (Hop (id_at e (turn w)) (now_at e (turn w)) (fault_at e (turn w))
    (others_at e (turn w) (database w)) (Hid _)) as H.
  destruct (run _ _ _) as [d r] eqn:E. split; [eapply rtc_r; [apply Ho|exact H]|].
  destruct r as [err|a]; [done|]. by eapply Hq.
Qed.

End invariant_rules.

Create HintDb ctl.
#[export] Hint Resolve stays_ret stays_ask stays_message stays_write stays_start stays_range
  stays_ignore stays_or_return : ctl.
#[export] Hint Extern 5 (stays_in _ time_now) => apply stays_ask : ctl.
#[export] Hint Extern 5 (stays_in _ NewPublicID) => apply stays_ask : ctl.
#[export] Hint Extern 5 (stays_in _ stopping) => apply stays_ask : ctl.
#[export] Hint Extern 5 (stays_in _ await) => apply stays_ask : ctl.
#[export] Hint Extern 5 (stays_in _ (hub_get _)) => apply stays_ask : ctl.
#[export] Hint Extern 5 (stays_in _ (supportsCapacity _)) => apply stays_ask : ctl.

(** Walk through a handler, one call at a time. *)
Ltac ctl_walk :=
  repeat first
    [ progress intros
    | solve [eauto 2 with ctl]
    | apply stays_bind
    | apply stays_range
    | apply stays_collect
    | apply stays_ignore
    | apply stays_or_return
    | match goal with
      | |- stays_in _ (match ?x with _ => _ end) => destruct x eqn:?
      | |- stays_in _ (let '(_, _) := ?x in _) => destruct x eqn:?
      end
    | progress cbv zeta ].

(** ** What a handler answers

    [answers P Q m]: in an environment of which [P] holds, whatever the others do,
    the answer of [m] satisfies [Q]. *)

Definition answers (P : environment -> Prop) {A} (Q : A -> Prop) (m : ctl A) : Prop :=
  forall e w, P e -> Q (snd (m e w)).

Section answers.
Context (P : environment -> Prop).

Lemma answers_ret {A} (Q : A -> Prop) a : Q a -> answers P Q (mret a).
Proof. by intros HQ e w _. Qed.

Lemma answers_any {A} (m : ctl A) : answers P (fun _ => True) m.
Proof. by intros e w _. Qed.

Lemma answers_bind {A B} (Q1 : A -> Prop) (Q : B -> Prop) (m : ctl A) (k : A -> ctl B) :
  answers P Q1 m -> (forall a, Q1 a -> answers P Q (k a)) -> answers P Q (m ≫= k).
Proof.
  intros Hm Hk e w He. specialize (Hm e w He). unfold mbind, ctl_bind.
  destruct (m e w) as [w1 a]. by apply (Hk a Hm e w1).
Qed.

(** An answer nothing is known of. *)
Lemma answers_skip {A B} (Q : B -> Prop) (m : ctl A) (k : A -> ctl B) :
  (forall a, answers P Q (k a)) -> answers P Q (m ≫= k).
Proof. intros Hk. apply (answers_bind (fun _ => True)); [apply answers_any|auto]. Qed.

Lemma answers_or_return {E A B} (Q1 : A -> Prop) (Q : B -> Prop) (r : E + A)
    (k : A -> ctl (E + B)) :
  succeeds Q1 r -> (forall a, Q1 a -> answers P (succeeds Q) (k a)) ->
  answers P (succeeds Q) (or_return r k).
Proof. destruct r; cbn; [intros _ _; by apply answers_ret|auto]. Qed.

Lemma answers_ask {A} (Q : A -> Prop) (answer : environment -> nat -> A) :
  (forall e n, P e -> Q (answer e n)) -> answers P Q (ask answer).
Proof. intros H e w He. by apply H. Qed.

End answers.

(** ** Running alone

    The deterministic reading of a handler: nothing fails and nobody else
    writes.  The theorems about what a handler achieves are stated in it. *)
Record alone (e : environment) : Prop := {
  alone_others : forall n d, others_at e n d = d;
  alone_fault : forall n, fault_at e n = None
}.

Lemma store_alone {A} (op : string -> time -> tx db A) e w d r :
  alone e -> run (op (id_at e (turn w)) (now_at e (turn w))) None (database w) = (d, inr r) ->
  store op e w = (World d (S (turn w)) (sent w) (started w), inr r).
Proof. intros [Ho Hf] H. unfold store. by rewrite Ho, Hf, H. Qed.

Lemma bind_ctl {A B} (m : ctl A) (k : A -> ctl B) e w w' a :
  m e w = (w', a) -> (m ≫= k) e w = k a e w'.
Proof. unfold mbind, ctl_bind. by intros ->. Qed.

Lemma range_app {A} (l k : list A) body e w :
  range (l ++ k) body e w = range k body e (fst (range l body e w)).
Proof.
  revert w. induction l as [|x l IH]; intros w; [done|]. cbn. unfold mbind, ctl_bind.
  destruct (body x e w) as [w1 []]. rewrite IH. unfold mbind, ctl_bind. done.
Qed.

(** A quiet day: the clock stands still, nothing fails, every agent is connected. *)
Definition quiet_environment (now : time) : environment :=
  {| now_at := fun _ => now; id_at := fun n => "new-" +:+ sprint_num (Z.of_nat n);
     fault_at := fun _ => None; others_at := fun _ d => d; connected_at := fun _ _ => true;
     capacity_at := fun _ _ => true; delivered_at := fun _ => true; stopping_at := fun _ => false;
     wakes_at := fun _ => Tick; exclusive_at := fun _ => Some true; error_text := fun _ => "driver error"; agent_namespace := "" |}.

Lemma quiet_alone now : alone (quiet_environment now).
Proof. by split. Qed.

Definition in_world (d : db) : world := World d 0 [] [].
