(* ===== verification/Events.v ===== *)
(** Task events: what the store keeps of them (AddTaskEvent of
    backend/internal/store/postgres_tasks.go, ListTaskEvents of postgres.go) and
    which events the control plane drops as repetitions
    (addTaskEventIfChanged of backend/internal/httpserver/backup_events.go). *)

From S2P Require Import Prelude Calendar Timestamp Value Types Retention Session Database Control.
From Stdlib Require Import Ascii.

(** ** The text of a JSON value

    [json.Marshal]: keys in byte order, no blanks, and the characters HTML would
    interpret escaped. *)

Definition escape_html (c : ascii) : string :=
  match N_of_ascii c with
  | 60%N => "\u003c"
  | 62%N => "\u003e"
  | 38%N => "\u0026"
  | _ => escape_char c
  end.

Fixpoint escape_text (s : string) : string :=
  match s with
  | EmptyString => EmptyString
  | String c s => escape_html c +:+ escape_text s
  end.

Definition quoted_text (s : string) : string := double_quote +:+ escape_text s +:+ double_quote.

Definition object_text (entries : list (string * string)) : string :=
  "{" +:+ join "," ((fun '(k, s) => quoted_text k +:+ ":" +:+ s) <$> merge_sort key_le entries)
      +:+ "}".

Fixpoint marshal_text (v : value) : string :=
  match v with
  | VNull => "null"
  | VBool b => if b then "true" else "false"
  | VNum z => sprint_num z
  | VStr s => quoted_text s
  | VTime t => quoted_text (format_rfc3339nano t)
  | VStrs l => "[" +:+ join "," (quoted_text <$> l) +:+ "]"
  | VList l => "[" +:+ join "," (map marshal_text l) +:+ "]"
  | VStrMap m => object_text (map_fold (fun k s acc => (k, quoted_text s) :: acc) [] m)
  | VObj m => object_text (map_fold (fun k v acc => (k, marshal_text v) :: acc) [] m)
  end.

(** ** Repeated observations *)

Definition string_le (x y : string) : Prop := String.leb x y = true.
#[export] Instance string_le_dec : RelDecision string_le.
Proof. intros x y. unfold string_le. apply _. Defined.

(** The document with the given keys of [m], nil where it has none. *)
Definition stable_fields (keys : list string) (m : document) : document :=
  list_to_map ((fun k => (k, get m k)) <$> keys).

Definition progress_keys : list string :=
  ["discoveryComplete"; "discoveryCount"; "bytesDone"; "totalBytes"; "knownTotal";
   "allTotalsKnown"; "itemCount"; "runningCount"; "completedCount"; "failedCount"].

Definition item_keys : list string :=
  ["kind"; "name"; "phase"; "startedAt"; "volume"; "pod"; "namespace"; "bytesDone";
   "totalBytes"; "knownTotal"; "message"; "errorCode"].

Definition volumeProgressState (progress : document) : string :=
  let items := (fun raw => marshal_text (VObj (stable_fields item_keys (mapFromAny raw))))
                 <$> sliceFromAny (get progress "items") in
  marshal_text (VObj (<["items" := VStrs (merge_sort string_le items)]>
    (stable_fields progress_keys progress))).

Definition isTerminalVeleroPhase (phase : string) : bool :=
  one_of phase ["Completed"; "PartiallyFailed"; "Failed"; "FailedValidation"; "Canceled"].

Definition empty_doc (m : document) : bool := bool_decide (m = ∅).

Definition sameVeleroEventPayload (existing incoming : document) : bool :=
  let at_ (m : document) (key : string) := sprint (get m key) in
  if empty_doc existing || empty_doc incoming then false
  else if negb (nonempty (at_ existing "name")) || (at_ existing "name" <>s at_ incoming "name")
  then false
  else if nonempty (at_ existing "kind") && nonempty (at_ incoming "kind") &&
          (at_ existing "kind" <>s at_ incoming "kind") then false
  else if volumeProgressState (mapFromAny (get existing "volumeProgress"))
          <>s volumeProgressState (mapFromAny (get incoming "volumeProgress")) then false
  else if nonempty (at_ existing "resourceVersion") && nonempty (at_ incoming "resourceVersion")
  then at_ existing "resourceVersion" =s at_ incoming "resourceVersion"
  else if at_ existing "phase" <>s at_ incoming "phase" then false
  else if isTerminalVeleroPhase (at_ incoming "phase") then true
  else
    let existingVolume := mapFromAny (get existing "volumeProgress") in
    let incomingVolume := mapFromAny (get incoming "volumeProgress") in
    if empty_doc existingVolume || empty_doc incomingVolume then false
    else (at_ existingVolume "bytesDone" =s at_ incomingVolume "bytesDone") &&
         (at_ existingVolume "totalBytes" =s at_ incomingVolume "totalBytes") &&
         (at_ existingVolume "knownTotal" =s at_ incomingVolume "knownTotal").

(** ** The store's side *)

Definition normalizeDiagnosticLevel (level : string) : string :=
  let level := ToLower (TrimSpace level) in
  if level =s "debug" then "debug"
  else if one_of level ["warn"; "warning"] then "warning"
  else if one_of level ["error"; "fatal"] then "error"
  else "info".

Definition event_row_of (input : TaskEventInput) (now : time) : event_row :=
  {| e_task_id := tei_TaskID input; e_level := tei_Level input;
     e_reason := Some (tei_Reason input); e_message := tei_Message input;
     e_payload := jsonify_doc (tei_Payload input); e_created_at := pg_time now |}.

(** [insert into diagnostic_logs ... select ... from tasks t where t.id=...]: no
    row when the task is gone. *)
Definition insert_diagnostic (id : string) (input : TaskEventInput) (now : time) (d : db)
    : option (db * Z) :=
  match tasks d !! tei_TaskID input with
  | None => Some (d, 0)
  | Some t =>
      let row := {| g_tenant_id := t_tenant_id t; g_scope := "tenant";
        g_level := normalizeDiagnosticLevel (tei_Level input); g_component := "task";
        g_operation := t_type t; g_message := tei_Message input;
        g_cluster_id := t_cluster_id t; g_task_id := Some (tei_TaskID input);
        g_command_id := t_command_id t; g_error_code := nullif (tei_Reason input);
        g_status := Some (t_status t); g_details := jsonify_doc (tei_Payload input);
        g_created_at := pg_time now |} in
      if bool_decide (is_Some (diagnostic_logs d !! id)) then None
      else Some (set_diagnostic_logs d (<[id := row]> (diagnostic_logs d)), 1)
  end.

Definition diagnostic_of (task : Task) (input : TaskEventInput) (now : time)
    : DiagnosticLogInput :=
  {| dli_TenantID := task_TenantID task; dli_Scope := "tenant"; dli_Level := tei_Level input;
     dli_Component := "task"; dli_Operation := task_Type task;
     dli_Message := tei_Message input; dli_ClusterID := task_ClusterID task;
     dli_TaskID := task_ID task; dli_CommandID := task_CommandID task; dli_RequestID := "";
     dli_ErrorCode := tei_Reason input; dli_Status := task_Status task; dli_DurationMS := 0;
     dli_Details := tei_Payload input; dli_EventAt := now; dli_Fingerprint := "" |}.

Section events.
(** [s.diagnosticWriter]: the edition's own log, when one is installed; its
    answer is its error. *)
Context (diagnosticWriter : option (DiagnosticLogInput -> option error)).

(** [eventID] and [logID] are the two identifiers newID draws. *)
Definition AddTaskEvent (eventID logID : string) (now : time) (input : TaskEventInput)
    : tx db unit :=
  begin_tx;;
  exec (insert_event eventID (event_row_of input now));;
  match diagnosticWriter with
  | None => exec (insert_diagnostic logID input now);; commit
  | Some write =>
      commit;;
      found ← getTask (tei_TaskID input);
      match found with
      | None => mret tt
      | Some task =>
          match write (diagnostic_of task input now) with
          | Some err => fail err
          | None => mret tt
          end
      end
  end.

Definition event_le (x y : string * event_row) : Prop :=
  e_created_at (snd x) <= e_created_at (snd y).
#[export] Instance event_le_dec : RelDecision event_le.
Proof. intros x y. unfold event_le. apply _. Defined.

Definition event_of_row (id : string) (e : event_row) : TaskEvent :=
  {| te_ID := id; te_TaskID := e_task_id e; te_Level := e_level e;
     te_Reason := text (e_reason e); te_Message := e_message e; te_Payload := e_payload e;
     te_CreatedAt := e_created_at e |}.

Definition ListTaskEvents (taskID : string) : tx db (list TaskEvent) :=
  select (fun d => (fun '(id, e) => event_of_row id e) <$>
    merge_sort event_le
      (List.filter (fun '(_, e) => e_task_id e =s taskID) (map_to_list (task_events d)))).

(** ** Recording an event *)

(** [r.store.AddTaskEvent(input)]. *)
Definition add_event (input : TaskEventInput) : ctl (failure + unit) :=
  logID ← NewPublicID;
  store (fun eventID now => AddTaskEvent eventID logID now input).

Definition repeats (input : TaskEventInput) (event : TaskEvent) : bool :=
  (te_Reason event =s tei_Reason input) &&
  sameVeleroEventPayload (mapFromAny (get (te_Payload event) "velero"))
    (mapFromAny (get (tei_Payload input) "velero")).

Definition addTaskEventIfChanged (input : TaskEventInput) : ctl (failure + unit) :=
  if empty_doc (mapFromAny (get (tei_Payload input) "velero")) then add_event input
  else
    events ← store (fun _ _ => ListTaskEvents (tei_TaskID input));
    match events with
    | inl _ => add_event input
    | inr events => if existsb (repeats input) (rev events) then mret (inr tt) else add_event input
    end.

End events.

(** Two events that carry no resource version count as the same whatever their
    phases are: the texts of the missing versions are equal and not empty, so the
    comparison of the phases is never reached. *)
Lemma events_without_version_repeat existing incoming :
  empty_doc existing = false -> empty_doc incoming = false ->
  get existing "resourceVersion" = VNull -> get incoming "resourceVersion" = VNull ->
  sprint (get existing "name") = sprint (get incoming "name") ->
  sprint (get existing "name") <> "" ->
  sprint (get existing "kind") = sprint (get incoming "kind") ->
  volumeProgressState (mapFromAny (get existing "volumeProgress")) =
    volumeProgressState (mapFromAny (get incoming "volumeProgress")) ->
  sameVeleroEventPayload existing incoming = true.
Proof.
  intros He Hi Hv Hw Hn Hne Hk Hp. unfold sameVeleroEventPayload. cbv zeta.
  rewrite He, Hi, <- Hn, <- Hk, <- Hp, Hv, Hw, !seqb_refl.
  rewrite (proj2 (nonempty_true _) Hne). cbn [negb orb]. rewrite !andb_false_r. reflexivity.
Qed.
