(* ===== verification/Fleet.v ===== *)
(** What the handlers read of clusters, applications, storage repositories,
    platform upgrades and migrations (ListClusters, GetApplication,
    GetStorageRepository, ListStorageRepositories, HasCommunityMigrationFreeze of
    backend/internal/store/postgres.go, ListPlatformUpgradeJobs of
    platform_upgrade_postgres.go), and the namespace of a cluster
    (httpserver/cluster_handlers.go). *)

From S2P Require Import Prelude Calendar Value Types Retention Session Database Control.

(** The columns of clusters and applications that are modelled. *)
Record Cluster := {
  cl_ID : string;
  cl_TenantID : string;
  cl_ClusterType : string
}.

Record Application := {
  app_ID : string;
  app_ClusterID : string;
  app_Namespace : string;
  app_ProtectionStatus : string
}.

Definition newest_cluster_le (x y : string * cluster_row) : Prop :=
  k_created_at (snd y) <= k_created_at (snd x).
#[export] Instance newest_cluster_le_dec : RelDecision newest_cluster_le.
Proof. intros x y. unfold newest_cluster_le. apply _. Defined.

Definition ListClusters : tx db (list Cluster) :=
  select (fun d => (fun '(id, k) =>
      {| cl_ID := id; cl_TenantID := k_tenant_id k; cl_ClusterType := k_cluster_type k |}) <$>
    merge_sort newest_cluster_le (map_to_list (clusters d))).

Definition GetApplication (id : string) : tx db (option Application) :=
  select (fun d => (fun a =>
      {| app_ID := id; app_ClusterID := a_cluster_id a; app_Namespace := a_namespace a;
         app_ProtectionStatus := a_protection_status a |}) <$> applications d !! id).

(** [None] when the secret cannot be decrypted. *)
Definition repo_of_row (id : string) (o : repo_row) : option StorageRepository :=
  (fun secret =>
     {| repo_ID := id; repo_TenantID := o_tenant_id o; repo_Name := o_name o;
        repo_Type := o_type o; repo_Endpoint := text (o_endpoint o);
        repo_Bucket := text (o_bucket o); repo_Region := text (o_region o);
        repo_TLSEnabled := o_tls_enabled o; repo_Status := o_status o;
        repo_Config := o_config o; repo_SecretRef := text (o_secret_ref o);
        repo_Secret := secret; repo_LastValidatedAt := read_time (o_last_validated_at o);
        repo_CreatedAt := o_created_at o; repo_UpdatedAt := o_updated_at o |}) <$> o_secret o.

Definition GetStorageRepository (id : string) : tx db (option StorageRepository) :=
  row ← select (fun d => storage_repositories d !! id);
  match row with
  | None => mret None
  | Some o =>
      match repo_of_row id o with
      | Some repo => mret (Some repo)
      | None => fail ErrUnmarshal
      end
  end.

Definition newest_repo_le (x y : string * repo_row) : Prop :=
  o_created_at (snd y) <= o_created_at (snd x).
#[export] Instance newest_repo_le_dec : RelDecision newest_repo_le.
Proof. intros x y. unfold newest_repo_le. apply _. Defined.

Definition ListStorageRepositories : tx db (list StorageRepository) :=
  rows ← select (fun d => merge_sort newest_repo_le (map_to_list (storage_repositories d)));
  match mapM (fun '(id, o) => repo_of_row id o) rows with
  | Some items => mret items
  | None => fail ErrUnmarshal
  end.

(** [now] is the clock of the database. *)
Definition migration_frozen (now : time) (m : session_row) : bool :=
  m_frozen m && (pg_time now <? m_expires_at m) &&
  negb (one_of (m_state m) ["committed"; "rolled-back"; "failed"; "revoked"; "expired"]).

Definition HasCommunityMigrationFreeze (now : time) : tx db bool :=
  select (fun d => exists_where (fun _ => migration_frozen now) (migration_sessions d)).

Definition newest_job_le (x y : string * upgrade_row) : Prop :=
  u_created_at (snd y) <= u_created_at (snd x).
#[export] Instance newest_job_le_dec : RelDecision newest_job_le.
Proof. intros x y. unfold newest_job_le. apply _. Defined.

(** The jobs by their status, which is all the scheduler reads. *)
Definition ListPlatformUpgradeJobs : tx db (list string) :=
  select (fun d => (fun '(_, u) => u_status u) <$>
    merge_sort newest_job_le
      (List.filter (fun '(_, u) => u_tenant_id u =s DefaultTenantID)
         (map_to_list (upgrade_jobs d)))).

Definition isTerminalPlatformUpgradeStatus (status : string) : bool :=
  one_of status ["succeeded"; "failed"; "cancelled"; "rolled_back"].

(** ** Namespaces *)

Definition normalizedClusterTypeForRouting (value : string) : string := ToLower (TrimSpace value).

Definition clusterType (clusterID : string) : ctl string :=
  clusters ← store (fun _ _ => ListClusters);
  mret match clusters with
       | inl _ => ""
       | inr clusters =>
           match find_first (fun c => cl_ID c =s clusterID) clusters with
           | Some c => normalizedClusterTypeForRouting (cl_ClusterType c)
           | None => ""
           end
       end.

(** [r.cfg.AgentNamespace], or its default. *)
Definition agentNamespace : ctl string := fun e w =>
  (w, if nonempty (agent_namespace e) then agent_namespace e else "hypercdr-agent").

Definition dataProtectionNamespaceForCluster (clusterID : string) : ctl string :=
  kind ← clusterType clusterID;
  if kind =s "openshift" then mret "openshift-adp" else agentNamespace.

Definition agentNamespaceForCluster (clusterID : string) : ctl string :=
  kind ← clusterType clusterID;
  if kind =s "openshift" then mret "openshift-adp" else agentNamespace.

(** ** These only read *)

Lemma quiet_ListClusters : quiet ListClusters.
Proof. unfold ListClusters. tx_walk. Qed.
Lemma quiet_GetApplication id : quiet (GetApplication id).
Proof. unfold GetApplication. tx_walk. Qed.
Lemma quiet_GetStorageRepository id : quiet (GetStorageRepository id).
Proof. unfold GetStorageRepository. tx_walk. Qed.
Lemma quiet_ListStorageRepositories : quiet ListStorageRepositories.
Proof. unfold ListStorageRepositories. tx_walk. Qed.
Lemma quiet_HasCommunityMigrationFreeze now : quiet (HasCommunityMigrationFreeze now).
Proof. unfold HasCommunityMigrationFreeze. tx_walk. Qed.
Lemma quiet_ListPlatformUpgradeJobs : quiet ListPlatformUpgradeJobs.
Proof. unfold ListPlatformUpgradeJobs. tx_walk. Qed.
#[export] Hint Resolve quiet_ListClusters quiet_GetApplication quiet_GetStorageRepository
  quiet_ListStorageRepositories quiet_HasCommunityMigrationFreeze quiet_ListPlatformUpgradeJobs : tx.

Lemma stays_agentNamespace R : stays_in R agentNamespace.
Proof. by intros e w _. Qed.
Lemma stays_clusterType R clusterID : stays_in R (clusterType clusterID).
Proof. unfold clusterType. apply stays_bind; [apply stays_read; auto with tx|]. ctl_walk. Qed.
#[export] Hint Resolve stays_agentNamespace stays_clusterType : ctl.
Lemma stays_dataProtectionNamespace R clusterID :
  stays_in R (dataProtectionNamespaceForCluster clusterID).
Proof. unfold dataProtectionNamespaceForCluster. ctl_walk. Qed.
Lemma stays_agentNamespaceForCluster R clusterID : stays_in R (agentNamespaceForCluster clusterID).
Proof. unfold agentNamespaceForCluster. ctl_walk. Qed.
#[export] Hint Resolve stays_dataProtectionNamespace stays_agentNamespaceForCluster : ctl.
