(* ===== verification/Storage.v ===== *)
(** Storage of backups: the names and prefixes under which a cluster's data is
    kept, and the removal of that data
    (backend/internal/httpserver/storage_sync.go; names of backups from
    protection_plan_handlers.go). *)

From S2P Require Import Prelude Text Calendar Timestamp Value Types Retention Session Database.
From S2P Require Import Control Fleet.
From Stdlib Require Import Ascii.

(** ** Names of Kubernetes resources *)

Definition dash : ascii := "-"%char.
Definition slash : ascii := "/"%char.

Definition label_char (c : ascii) : bool :=
  let n := N_of_ascii c in
  ((97 <=? n)%N && (n <=? 122)%N) || ((48 <=? n)%N && (n <=? 57)%N).

(** The loop of sanitizeKubernetesName: every run of other characters (the bytes
    of one outside ASCII included) becomes one dash. *)
Fixpoint dashed (lastDash : bool) (l : list ascii) : list ascii :=
  match l with
  | [] => []
  | c :: l =>
      if label_char c then c :: dashed false l
      else if lastDash then dashed true l
      else dash :: dashed true l
  end.

Definition sanitizeKubernetesName (value : string) : string :=
  let value := ToLower (TrimSpace value) in
  let out := Trim dash (of_chars (dashed false (chars value))) in
  if nonempty out then out else "default".

Definition storageDomainBSLName (repo : StorageRepository) (sourceClusterID : string) : string :=
  let base := sanitizeKubernetesName (repo_Name repo) in
  let sourceID := sanitizeKubernetesName (TrimSpace sourceClusterID) in
  let sourceID := if nonempty sourceID then sourceID else "unknown" in
  let name := base +:+ "-" +:+ sourceID in
  let name :=
    if (63 <? String.length name)%nat then
      let maxBase := Nat.max 1 (63 - String.length sourceID - 1) in
      Trim dash (first_bytes (Nat.min (String.length base) maxBase) base) +:+ "-" +:+ sourceID
    else name in
  Trim dash name.

Definition planUUIDNoDash (planID : string) : string :=
  let id := ToLower (remove_char dash (TrimSpace planID)) in
  if nonempty id then id else "unknown".

Definition scheduleNameForPlan (planID : string) : string := "hcdr-" +:+ planUUIDNoDash planID.

(** [now.Format("20060102150405")]. *)
Definition compact_time (t : time) : string :=
  digits 4 (Year utc t) +:+ digits 2 (Month utc t) +:+ digits 2 (Day utc t) +:+
  digits 2 (Hour utc t) +:+ digits 2 (Minute utc t) +:+ digits 2 (Second utc t).

Definition backupNameForPlan (now : time) (planID runID trigger : string) : string :=
  let base := scheduleNameForPlan planID in
  let base := if (trigger =s "manual") || (trigger =s "") then base +:+ "-m" else base in
  let base := base +:+ "-" +:+ compact_time now in
  let suffix := first_bytes 8 (remove_char dash runID) in
  let base := if nonempty suffix then base +:+ "-" +:+ suffix else base in
  if (63 <? String.length base)%nat then Trim dash (first_bytes 63 base) else base.

(** ** Prefixes of the bucket *)

Definition storageDomainPrefix (tenantID sourceClusterID : string) : string :=
  let or_unknown s := if nonempty (TrimSpace s) then TrimSpace s else "unknown" in
  "hypercdr/v1/tenants/" +:+ or_unknown tenantID +:+ "/clusters/" +:+ or_unknown sourceClusterID.

Definition validStorageDomainPrefix (prefix : string) : bool :=
  match Split (Trim slash (TrimSpace prefix)) slash with
  | p0 :: p1 :: p2 :: p3 :: p4 :: p5 :: _ =>
      (p0 =s "hypercdr") && (p1 =s "v1") && (p2 =s "tenants") && nonempty p3 &&
      (p3 <>s "unknown") && (p4 =s "clusters") && nonempty p5 && (p5 <>s "unknown")
  | _ => false
  end.

Definition storageConfigWithPrefix (repo : StorageRepository) (prefix : string) : document :=
  <["prefix" := VStr prefix]> (repo_Config repo).

Definition normalizedStoredRegion (region : string) : string :=
  let region := TrimSpace region in
  if one_of (ToLower region) ["n/a"; "na"; "-"] then "" else region.

Definition normalizedStorageRegion (storageType region : string) : string :=
  let region := normalizedStoredRegion region in
  let typeName := ToLower (TrimSpace storageType) in
  if negb (nonempty region) && one_of typeName ["s3"; "s3-compatible"; "s3 compatible"]
  then "us-east-1" else region.

Record S3Credentials := {
  cred_AccessKey : string;
  cred_SecretKey : string;
  cred_AccountName : string;
  cred_AccountKey : string;
  cred_ServiceAccountKey : string
}.

Definition storageCredentials (repo : StorageRepository) : option S3Credentials :=
  let of_secret (key : string) := default "" (repo_Secret repo !! key) in
  if bool_decide (repo_Secret repo = ∅) then None
  else
    let c := {| cred_AccessKey := of_secret "accessKey"; cred_SecretKey := of_secret "secretKey";
                cred_AccountName := of_secret "accountName";
                cred_AccountKey := of_secret "accountKey";
                cred_ServiceAccountKey := of_secret "serviceAccountKey" |} in
    if negb (nonempty (cred_AccessKey c)) && negb (nonempty (cred_SecretKey c)) &&
       negb (nonempty (cred_AccountKey c)) && negb (nonempty (cred_ServiceAccountKey c))
    then None else Some c.

Definition minioEndpoint (repo : StorageRepository) : string * bool :=
  let endpoint := TrimRight slash (TrimSpace (repo_Endpoint repo)) in
  if HasPrefix endpoint "http://" then (TrimPrefix endpoint "http://", false)
  else if HasPrefix endpoint "https://" then (TrimPrefix endpoint "https://", true)
  else (endpoint, repo_TLSEnabled repo).

Inductive BucketLookup := BucketLookupAuto | BucketLookupDNS | BucketLookupPath.

Definition storageBucketLookup (repo : StorageRepository) : BucketLookup :=
  let style := ToLower (TrimSpace (as_string (get (repo_Config repo) "urlStyle"))) in
  if one_of style ["virtual"; "virtual-host"; "virtual_host"; "dns"] then BucketLookupDNS
  else if one_of style ["path"; "path-style"; "path_style"] then BucketLookupPath
  else BucketLookupAuto.

(** ** Removing the data of a cluster *)

Record objectStorageCleanupResult := {
  clean_RepositoryID : string;
  clean_RepositoryName : string;
  clean_Prefix : string;
  clean_ObjectsDeleted : Z;
  clean_BytesDeleted : Z
}.

(** The objects of a bucket by key, with their sizes. *)
Abbreviation bucket := (gmap string Z).

Definition one_deleted (size : Z) (r : objectStorageCleanupResult) : objectStorageCleanupResult :=
  {| clean_RepositoryID := clean_RepositoryID r; clean_RepositoryName := clean_RepositoryName r;
     clean_Prefix := clean_Prefix r; clean_ObjectsDeleted := clean_ObjectsDeleted r + 1;
     clean_BytesDeleted := int64_wrap (clean_BytesDeleted r + size) |}.

Section removal.
(** minio: [connect] is [minio.New], [objects] what ListObjects yields (with
    [None] for an entry carrying an error), [removable] whether RemoveObject of a
    key succeeds. *)
Context (connect : StorageRepository -> string * bool -> string -> BucketLookup -> bool).
Context (objects : StorageRepository -> bucket -> string -> list (option (string * Z))).
Context (removable : StorageRepository -> string -> bool).

Fixpoint remove_objects (repo : StorageRepository) (l : list (option (string * Z))) (b : bucket)
    (result : objectStorageCleanupResult)
    : bucket * (failure + objectStorageCleanupResult) :=
  match l with
  | [] => (b, inr result)
  | None :: _ => (b, inl (Failure "list objects failed"))
  | Some (key, size) :: l =>
      if removable repo key
      then remove_objects repo l (delete key b) (one_deleted size result)
      else (b, inl (Failure "remove object failed"))
  end.

Definition deleteObjectStoragePrefix (repo : StorageRepository) (prefix : string) (b : bucket)
    : bucket * (failure + objectStorageCleanupResult) :=
  let result := {| clean_RepositoryID := repo_ID repo; clean_RepositoryName := repo_Name repo;
    clean_Prefix := prefix; clean_ObjectsDeleted := 0; clean_BytesDeleted := 0 |} in
  let prefix := TrimSpace prefix in
  if negb (nonempty prefix) || (prefix =s "/") then
    (b, inl (Failure "refusing to delete empty object storage prefix"))
  else if negb (validStorageDomainPrefix prefix) || negb (HasSuffix prefix "/") then
    (b, inl (Failure "refusing to delete unexpected object storage prefix"))
  else if negb (nonempty (TrimSpace (repo_Endpoint repo))) then
    (b, inl (Failure "storage repository endpoint is empty"))
  else if negb (nonempty (TrimSpace (repo_Bucket repo))) then
    (b, inl (Failure "storage repository bucket is empty"))
  else match storageCredentials repo with
  | None => (b, inl (Failure "storage repository credentials are empty"))
  | Some creds =>
      if negb (nonempty (cred_AccessKey creds)) || negb (nonempty (cred_SecretKey creds)) then
        (b, inl (Failure "storage repository credentials are empty"))
      else if negb (connect repo (minioEndpoint repo)
                      (normalizedStorageRegion (repo_Type repo) (repo_Region repo))
                      (storageBucketLookup repo))
      then (b, inl (Failure "cannot connect to the object storage"))
      else remove_objects repo (objects repo b prefix) b result
  end.

(** Repositories to clean, in the order they are listed, and the identifiers
    left over; a repository of another tenant stops the selection. *)
Fixpoint select_repositories (tenantID : string) (wanted : gset string)
    (repositories : list StorageRepository)
    : failure + (list StorageRepository * gset string) :=
  match repositories with
  | [] => inr ([], wanted)
  | repo :: rest =>
      if bool_decide (repo_ID repo ∉ wanted) then select_repositories tenantID wanted rest
      else if repo_TenantID repo <>s tenantID
      then inl (Failure "repository does not belong to cluster tenant")
      else match select_repositories tenantID (wanted ∖ {[repo_ID repo]}) rest with
           | inl err => inl err
           | inr (selected, missing) => inr (repo :: selected, missing)
           end
  end.

(** The bucket a repository stands for: two repositories may name one bucket. *)
Definition bucket_of (repo : StorageRepository) : string * string :=
  (repo_Endpoint repo, repo_Bucket repo).

(** The loop over the selected repositories; [stopped n] is [ctx.Err() != nil]
    before the [n]-th of them. *)
Fixpoint clean_selected (stopped : nat -> bool) (n : nat) (prefix : string)
    (selected : list StorageRepository) (buckets : gmap (string * string) bucket)
    (results : list objectStorageCleanupResult)
    : gmap (string * string) bucket * (failure + list objectStorageCleanupResult) :=
  match selected with
  | [] => (buckets, inr results)
  | repo :: selected =>
      if stopped n then (buckets, inl (Failure "context canceled")) else
      let '(b, r) := deleteObjectStoragePrefix repo prefix (default ∅ (buckets !! bucket_of repo)) in
      let buckets := <[bucket_of repo := b]> buckets in
      match r with
      | inl err => (buckets, inl err)
      | inr result => clean_selected stopped (S n) prefix selected buckets (results ++ [result])
      end
  end.

(** cleanupClusterObjectStorageRepositories, once the lists of clusters and
    repositories are read: every check comes before the first deletion. *)
Definition clean_repositories (stopped : nat -> bool) (clusterID : string)
    (repositoryIDs : list string) (clusters : list Cluster)
    (repositories : list StorageRepository) (buckets : gmap (string * string) bucket)
    : gmap (string * string) bucket * (failure + list objectStorageCleanupResult) :=
  match find_first (fun c => cl_ID c =s clusterID) clusters with
  | None => (buckets, inl (Failure "cluster tenant could not be resolved for object storage cleanup"))
  | Some c =>
      if negb (nonempty (cl_TenantID c)) then
        (buckets, inl (Failure "cluster tenant could not be resolved for object storage cleanup"))
      else match select_repositories (cl_TenantID c) (list_to_set repositoryIDs) repositories with
      | inl err => (buckets, inl err)
      | inr (selected, missing) =>
          if negb (bool_decide (missing = ∅))
          then (buckets, inl (Failure "associated storage repositories not found"))
          else
            let prefix := TrimSuffix (storageDomainPrefix (cl_TenantID c) clusterID) "/" +:+ "/" in
            clean_selected stopped 0 prefix selected buckets []
      end
  end.

Definition cleanupClusterObjectStorageRepositories (stopped : nat -> bool)
    (clusterID : string) (repositoryIDs : list string) (buckets : gmap (string * string) bucket)
    : ctl (gmap (string * string) bucket * (failure + list objectStorageCleanupResult)) :=
  let clusterID := TrimSpace clusterID in
  if negb (nonempty clusterID) then
    mret (buckets, inl (Failure "cluster id is required for object storage cleanup"))
  else match repositoryIDs with
  | [] => mret (buckets, inl (Failure
      "restore points exist but no storage repository is associated with them"))
  | _ =>
      clusters ← store (fun _ _ => ListClusters);
      match clusters with
      | inl err => mret (buckets, inl err)
      | inr clusters =>
          repositories ← store (fun _ _ => ListStorageRepositories);
          match repositories with
          | inl err => mret (buckets, inl err)
          | inr repositories =>
              mret (clean_repositories stopped clusterID repositoryIDs clusters repositories buckets)
          end
      end
  end.

End removal.

(** ** Names are names *)

(** A label of RFC 1123, which names of Kubernetes resources and namespaces are. *)
Definition dns_label (s : string) : Prop :=
  (1 <= String.length s <= 63)%nat /\
  Forall (fun c => label_char c = true \/ c = dash) (chars s) /\
  trimmed (is_char dash) (chars s).

Lemma label_not_dash c : label_char c = true -> is_char dash c = false.
Proof. intros H. apply bool_decide_eq_false. by intros <-. Qed.

Lemma is_dash c : is_char dash c = true -> c = dash.
Proof. by intros ->%bool_decide_eq_true. Qed.

Definition label_or_dash (c : ascii) : Prop := label_char c = true \/ c = dash.

Lemma dashed_label last l : Forall label_or_dash (dashed last l).
Proof.
  revert last. induction l as [|c l IH]; intros last; cbn; [done|].
  destruct (label_char c) eqn:E; [constructor; [by left|apply IH]|].
  destruct last; [apply IH|constructor; [by right|apply IH]].
Qed.

(** A sanitized value is not empty, made of label characters and dashes, with a
    label character at both ends. *)
Definition label_like (s : string) : Prop :=
  chars s <> [] /\ Forall label_or_dash (chars s) /\ trimmed (is_char dash) (chars s).

(** What sanitizing leaves of such characters, or else the default name. *)
Lemma label_or_default l other :
  Forall label_or_dash l -> label_like other ->
  label_like (let out := Trim dash (of_chars l) in if nonempty out then out else other).
Proof.
  intros Hl Hother. cbn zeta. destruct (nonempty (Trim dash (of_chars l))) eqn:E; [|done].
  apply chars_nonempty in E. split; [done|]. unfold Trim. rewrite !chars_of_chars.
  split; [by apply trim_list_Forall|apply trim_list_trimmed].
Qed.

(** Words of label characters are labels. *)
Lemma word_label s : chars s <> [] -> Forall (fun c => label_char c = true) (chars s) -> label_like s.
Proof.
  intros Hne H. rewrite Forall_forall in H. split; [done|]. split.
  - apply Forall_forall. intros c Hc. left. by apply H.
  - split; intros c k Hk; apply label_not_dash, H; rewrite Hk; set_solver.
Qed.

Lemma sanitized_label value : label_like (sanitizeKubernetesName value).
Proof.
  apply label_or_default; [apply dashed_label|]. apply word_label; [done|].
  repeat constructor.
Qed.

(** Its first bytes, trimmed, start with its first character. *)
Lemma trimmed_prefix n s :
  (1 <= n)%nat -> label_like s ->
  let t := Trim dash (first_bytes n s) in
  chars t <> [] /\ Forall label_or_dash (chars t) /\ trimmed (is_char dash) (chars t) /\
  (String.length t <= n)%nat.
Proof.
  intros Hn (Hne & Hall & Hh & _). cbn zeta. rewrite <- length_chars.
  unfold Trim, first_bytes. rewrite !chars_of_chars.
  destruct (chars s) as [|x l] eqn:Hs; [done|]. destruct n as [|n]; [lia|]. cbn [take].
  pose proof (Hh x l eq_refl) as Hx. split_and!.
  - eapply trim_list_nonempty; [left|exact Hx].
  - apply trim_list_Forall. change (x :: take n l) with (take (S n) (x :: l)).
    by apply Forall_take.
  - apply trim_list_trimmed.
  - etrans; [apply trim_list_length|]. cbn. rewrite length_take. lia.
Qed.

(** Two labels joined with a dash. *)
Lemma joined_label s t :
  label_like s -> label_like t -> label_like (s +:+ "-" +:+ t).
Proof.
  intros (Hs & Hsa & Hsh & _) (Ht & Hta & _ & Htl).
  assert (E : chars (s +:+ "-" +:+ t) = chars s ++ dash :: chars t) by by rewrite !chars_app.
  unfold label_like. rewrite E. split_and!.
  - by destruct (chars s).
  - apply Forall_app. split; [done|]. constructor; [by right|done].
  - split; intros x k Hk.
    + destruct (chars s) as [|y l]; [done|]. injection Hk as <- _. by apply (Hsh y l).
    + destruct (exists_last Ht) as (l & y & Hy). rewrite Hy in Hk.
      change (dash :: l ++ [y]) with ((dash :: l) ++ [y]) in Hk. rewrite app_assoc in Hk.
      apply app_inj_tail in Hk as [_ <-]. by apply (Htl y l).
Qed.

Lemma Trim_label s : label_like s -> Trim dash s = s.
Proof. intros (_ & _ & H). unfold Trim. by rewrite (trim_list_id _ _ H), of_chars_chars. Qed.

Lemma length_joined s t :
  String.length (s +:+ "-" +:+ t) = (String.length s + 1 + String.length t)%nat.
Proof. rewrite <- !length_chars, !chars_app, !length_app. cbn. lia. Qed.

Lemma label_length s : label_like s -> (1 <= String.length s)%nat.
Proof. intros (H & _). rewrite <- length_chars. destruct (chars s); [done|]. cbn. lia. Qed.

(** The name of a storage location is a valid Kubernetes name (at most 63
    characters, letters, digits and inner dashes), whatever the repository is
    called, for every cluster identifier that leaves room for the name: 61
    characters once sanitized, where a UUID has 36. *)
Theorem storage_location_name_is_valid repo cluster :
  (String.length (sanitizeKubernetesName (TrimSpace cluster)) <= 61)%nat ->
  dns_label (storageDomainBSLName repo cluster).
Proof.
  intros Hlen. unfold storageDomainBSLName.
  pose proof (sanitized_label (repo_Name repo)) as Hb.
  pose proof (sanitized_label (TrimSpace cluster)) as Hc.
  assert (Hne : nonempty (sanitizeKubernetesName (TrimSpace cluster)) = true)
    by apply chars_nonempty, Hc.
  rewrite Hne. set (b := sanitizeKubernetesName (repo_Name repo)) in *.
  set (c := sanitizeKubernetesName (TrimSpace cluster)) in *. clear Hne.
  destruct (63 <? _)%nat eqn:Hlong.
  - apply Nat.ltb_lt in Hlong. set (n := Nat.min _ _).
    assert (Hn : (1 <= n)%nat) by (unfold n; pose proof (label_length b Hb); lia).
    destruct (trimmed_prefix n b Hn Hb) as (H1 & H2 & H3 & H4).
    set (t := Trim dash (first_bytes n b)) in *.
    assert (Ht : label_like t) by done. pose proof (joined_label t c Ht Hc) as Hj.
    rewrite (Trim_label _ Hj). destruct Hj as (? & ? & ?). split; [|done].
    rewrite length_joined. pose proof (label_length t Ht). unfold n in H4. lia.
  - apply Nat.ltb_ge in Hlong. pose proof (joined_label b c Hb Hc) as Hj.
    rewrite (Trim_label _ Hj). destruct Hj as (? & ? & ?). split; [|done].
    rewrite length_joined in *. pose proof (label_length b Hb). lia.
Qed.

Definition sample_repository (name : string) : StorageRepository :=
  {| repo_ID := "repo"; repo_TenantID := "tenant"; repo_Name := name; repo_Type := "s3";
     repo_Endpoint := "https://s3.example.com/"; repo_Bucket := "backups"; repo_Region := "";
     repo_TLSEnabled := true; repo_Status := "active"; repo_Config := ∅; repo_SecretRef := "";
     repo_Secret := {[ "accessKey" := "key"; "secretKey" := "secret" ]};
     repo_LastValidatedAt := zero_time; repo_CreatedAt := zero_time;
     repo_UpdatedAt := zero_time |}.

Lemma storage_location_name_is_valid_witness :
  dns_label (storageDomainBSLName
    (sample_repository "A repository, with a name that is much too long for a label")
    "5e0fa7c2-1111-4222-8333-abcdefabcdef").
Proof. apply storage_location_name_is_valid. vm_compute. lia. Defined.

(** ** Removal stays in the cluster's domain *)

(** An identifier as the control plane makes them: no slash, no blanks around. *)
Definition plain_id (s : string) : Prop := s <> "" /\ slash ∉ chars s /\ TrimSpace s = s.

Definition domain (tenant cluster : string) : string :=
  storageDomainPrefix tenant cluster +:+ "/".

Lemma plain_nonempty s : plain_id s -> nonempty (TrimSpace s) = true.
Proof. intros (Hne & _ & ->). by apply nonempty_true. Qed.

Lemma domain_chars t c :
  plain_id t -> plain_id c ->
  chars (domain t c) =
  chars "hypercdr/v1/tenants/" ++ chars t ++ slash :: chars "clusters/" ++ chars c ++ [slash].
Proof.
  intros Ht Hc. unfold domain, storageDomainPrefix.
  rewrite (plain_nonempty t Ht), (plain_nonempty c Hc).
  destruct Ht as (_ & _ & ->), Hc as (_ & _ & ->). rewrite !chars_app, <- !app_assoc. done.
Qed.

Lemma prefix_app_cancel {A} (l k1 k2 : list A) : (l ++ k1) `prefix_of` (l ++ k2) -> k1 `prefix_of` k2.
Proof. apply prefix_app_inv. Qed.

(** The domains of two clusters have no object in common. *)
Lemma domains_disjoint t c t' c' key :
  plain_id t -> plain_id c -> plain_id t' -> plain_id c' ->
  HasPrefix key (domain t c) = true -> HasPrefix key (domain t' c') = true -> t = t' /\ c = c'.
Proof.
  intros Ht Hc Ht' Hc' H1%bool_decide_eq_true H2%bool_decide_eq_true.
  rewrite domain_chars in H1, H2 by done.
  destruct H1 as [k1 E1], H2 as [k2 E2]. rewrite <- !app_assoc in E1, E2.
  rewrite E1 in E2. apply app_inv_head in E2.
  destruct (parts_unique slash (chars t) (chars t') (chars "clusters/" ++ chars c ++ [slash])
    (chars "clusters/" ++ chars c' ++ [slash])
    ((chars t ++ slash :: chars "clusters/" ++ chars c ++ [slash]) ++ k1))
    as [Htt (k & Hk1 & Hk2)]; [apply Ht|apply Ht'|by eexists| |].
  { exists k2. rewrite <- !app_assoc in *. cbn in *. by rewrite <- !app_assoc in *. }
  apply chars_inj in Htt. split; [done|]. apply chars_inj.
  destruct Hk1 as [x1 X1], Hk2 as [x2 X2]. rewrite <- !app_assoc in X1, X2. rewrite X1 in X2.
  apply app_inv_head in X2.
  destruct (parts_unique slash (chars c) (chars c') [] [] (chars c ++ [slash] ++ x1)) as [-> _];
    [apply Hc|apply Hc'|exists x1; by rewrite <- app_assoc|exists x2; by rewrite <- app_assoc|done].
Qed.

Lemma trim_right_slash s : trim_right (s +:+ "/") = s +:+ "/".
Proof.
  induction s as [|x s IH]; [done|]. change (String x s +:+ "/") with (String x (s +:+ "/")).
  cbn [trim_right]. rewrite IH. by destruct s.
Qed.

Lemma domain_TrimSpace t c : TrimSpace (domain t c) = domain t c.
Proof. exact (trim_right_slash (storageDomainPrefix t c)). Qed.

Lemma domain_TrimSuffix t c :
  plain_id t -> plain_id c ->
  TrimSuffix (storageDomainPrefix t c) "/" = storageDomainPrefix t c.
Proof.
  intros Ht Hc. unfold TrimSuffix, HasSuffix.
  destruct (bool_decide_reflect (chars "/" `suffix_of` chars (storageDomainPrefix t c))) as [[k Hk]|];
    [|done].
  unfold storageDomainPrefix in Hk. rewrite (plain_nonempty t Ht), (plain_nonempty c Hc) in Hk.
  destruct Hc as (Hne & Hslash & Htrim). rewrite Htrim, !chars_app, !app_assoc in Hk.
  destruct (exists_last (l := chars c)) as (l & x & Hx); [by apply chars_nonempty, nonempty_true|].
  rewrite Hx, app_assoc in Hk. apply app_inj_tail in Hk as [_ ->]. destruct Hslash. rewrite Hx.
  apply elem_of_app. right. by left.
Qed.

Section safety.
Context (connect : StorageRepository -> string * bool -> string -> BucketLookup -> bool).
Context (objects : StorageRepository -> bucket -> string -> list (option (string * Z))).
Context (removable : StorageRepository -> string -> bool).
(** ListObjects with a prefix only yields keys that have it. *)
Hypothesis objects_prefixed : forall repo b prefix key size,
  Some (key, size) ∈ objects repo b prefix -> HasPrefix key prefix = true.

Lemma remove_objects_keeps repo l b result key :
  (forall size, Some (key, size) ∉ l) ->
  fst (remove_objects removable repo l b result) !! key = b !! key.
Proof.
  revert b result. induction l as [|[[k size]|] l IH]; intros b result Hkey; cbn; [done| |done].
  destruct (removable repo k); [|done]. rewrite IH.
  - apply lookup_delete_ne. intros ->. destruct (Hkey size). left.
  - intros z Hz. destruct (Hkey z). by right.
Qed.

Lemma deletion_keeps repo prefix b key :
  HasPrefix key (TrimSpace prefix) = false ->
  fst (deleteObjectStoragePrefix connect objects removable repo prefix b) !! key = b !! key.
Proof.
  intros Hkey. unfold deleteObjectStoragePrefix.
  repeat (match goal with |- context [match ?x with _ => _ end] => destruct x; [done|] end
          || match goal with |- context [if ?x then _ else _] => destruct x; [done|] end).
  destruct (storageCredentials repo) as [creds|]; [|done].
  repeat match goal with |- context [if ?x then _ else _] => destruct x; [done|] end.
  apply remove_objects_keeps. intros size Hin%objects_prefixed. congruence.
Qed.

Definition object (buckets : gmap (string * string) bucket) (b : string * string) (key : string)
    : option Z := buckets !! b ≫= fun objects => objects !! key.

Lemma clean_selected_keeps stopped n prefix selected buckets results b key :
  HasPrefix key (TrimSpace prefix) = false ->
  object (fst (clean_selected connect objects removable stopped n prefix selected buckets results))
    b key = object buckets b key.
Proof.
  intros Hkey. revert n buckets results.
  induction selected as [|repo selected IH]; intros n buckets results; cbn; [done|].
  destruct (stopped n); [done|].
  pose proof (deletion_keeps repo prefix (default ∅ (buckets !! bucket_of repo)) key Hkey) as Hd.
  destruct (deleteObjectStoragePrefix _ _ _ _ _ _) as [b' r]. cbn in Hd.
  assert (Hone : object (<[bucket_of repo := b']> buckets) b key = object buckets b key).
  { unfold object. destruct (decide (b = bucket_of repo)) as [->|Hne].
    - rewrite lookup_insert_eq. cbn. rewrite Hd. by destruct (buckets !! bucket_of repo).
    - by rewrite lookup_insert_ne. }
  destruct r; [done|]. by rewrite IH.
Qed.

Lemma select_repositories_owned tenant wanted repositories selected missing :
  select_repositories tenant wanted repositories = inr (selected, missing) ->
  forall id, id ∈ wanted -> id ∈ missing \/
    exists repo, repo ∈ repositories /\ repo_ID repo = id /\ repo_TenantID repo = tenant.
Proof.
  revert wanted selected missing.
  induction repositories as [|repo rest IH]; intros wanted selected missing; cbn.
  { intros [= _ <-]. auto. }
  destruct (bool_decide_reflect (repo_ID repo ∉ wanted)) as [Hout|Hin].
  { intros H id Hid. destruct (IH _ _ _ H id Hid) as [?|(r & ? & ?)]; [by left|].
    right. exists r. split; [by right|done]. }
  destruct (repo_TenantID repo =s tenant) eqn:Ht; [|done]. cbn. apply seqb_true in Ht.
  destruct (select_repositories tenant (wanted ∖ {[repo_ID repo]}) rest) as [|[sel left0]] eqn:H;
    [done|].
  intros [= _ <-] id Hid. destruct (decide (id = repo_ID repo)) as [->|Hne].
  - right. exists repo. split; [left|done].
  - destruct (IH _ _ _ H id) as [?|(r & ? & ?)]; [set_solver|by left|].
    right. exists r. split; [by right|done].
Qed.

(** C26.  Removing the data of a cluster never reaches another one: wherever it is
    stopped and whatever fails, no object outside the domain of the cluster
    disappears from any bucket, so the objects of every other cluster stay, also
    in a bucket both use; and before the first deletion every repository asked
    for exists and belongs to the tenant of the cluster. *)
Theorem cleanup_stays_in_the_cluster_domain stopped cluster repositoryIDs clusters repositories
    buckets buckets' r :
  plain_id cluster -> (forall c, c ∈ clusters -> plain_id (cl_TenantID c)) ->
  clean_repositories connect objects removable stopped cluster repositoryIDs clusters repositories
    buckets = (buckets', r) ->
  buckets' = buckets \/
  exists c, c ∈ clusters /\ cl_ID c = cluster /\
    (forall id, id ∈ repositoryIDs -> exists repo, repo ∈ repositories /\
       repo_ID repo = id /\ repo_TenantID repo = cl_TenantID c) /\
    (forall b key, HasPrefix key (domain (cl_TenantID c) cluster) = false ->
       object buckets' b key = object buckets b key) /\
    (forall t' c' b key, plain_id t' -> plain_id c' -> (t', c') <> (cl_TenantID c, cluster) ->
       HasPrefix key (domain t' c') = true -> object buckets' b key = object buckets b key).
Proof.
  intros Hcl Hplain. unfold clean_repositories.
  destruct (find_first _ clusters) as [c|] eqn:Hc; [|intros [= <- _]; by left].
  apply find_first_Some in Hc as [Hin Hid%seqb_true].
  destruct (nonempty (cl_TenantID c)); [|intros [= <- _]; by left]. cbn [negb].
  destruct (select_repositories _ _ _) as [|[selected missing]] eqn:Hs; [intros [= <- _]; by left|].
  destruct (bool_decide_reflect (missing = ∅)) as [->|]; [|intros [= <- _]; by left]. cbn [negb].
  rewrite (domain_TrimSuffix _ _ (Hplain c Hin) Hcl). fold (domain (cl_TenantID c) cluster).
  intros E. right. exists c. split; [done|]. split; [done|].
  assert (Hkeep : forall b key, HasPrefix key (domain (cl_TenantID c) cluster) = false ->
    object buckets' b key = object buckets b key).
  { intros b key Hkey. apply (f_equal fst) in E. cbn in E. rewrite <- E.
    apply clean_selected_keeps. by rewrite domain_TrimSpace. }
  split_and!; [|done|].
  - intros id Hwanted. destruct (select_repositories_owned _ _ _ _ _ Hs id) as [Hno|?];
      [by apply elem_of_list_to_set|set_solver|done].
  - intros t' c' b key Ht' Hc' Hother Hkey. apply Hkeep.
    apply not_true_is_false. intros Hown. destruct Hother.
    by destruct (domains_disjoint t' c' (cl_TenantID c) cluster key) as [-> ->]; auto.
Qed.

End safety.

(** A bucket that two clusters of a tenant share. *)
Definition shared_bucket : bucket :=
  {[ "hypercdr/v1/tenants/tenant/clusters/a/backups/one" := 10;
     "hypercdr/v1/tenants/tenant/clusters/b/backups/two" := 20 ]}.
Definition list_prefixed (_ : StorageRepository) (b : bucket) (prefix : string)
    : list (option (string * Z)) :=
  Some <$> List.filter (fun '(key, _) => HasPrefix key prefix) (map_to_list b).

Lemma cleanup_stays_in_the_cluster_domain_witness :
  let repo := sample_repository "primary" in
  let buckets := {[ bucket_of repo := shared_bucket ]} in
  let cluster := {| cl_ID := "a"; cl_TenantID := "tenant"; cl_ClusterType := "openshift" |} in
  let '(buckets', r) := clean_repositories (fun _ _ _ _ => true) list_prefixed (fun _ _ => true)
    (fun _ => false) "a" ["repo"] [cluster] [repo] buckets in
  (exists result, r = inr [result] /\ clean_ObjectsDeleted result = 1) /\
  (buckets' = buckets \/ exists c, c ∈ [cluster] /\ cl_ID c = "a" /\
    (forall id, id ∈ ["repo"] -> exists r', r' ∈ [repo] /\ repo_ID r' = id /\
       repo_TenantID r' = cl_TenantID c) /\
    (forall b key, HasPrefix key (domain (cl_TenantID c) "a") = false ->
       object buckets' b key = object buckets b key) /\
    (forall t' c' b key, plain_id t' -> plain_id c' -> (t', c') <> (cl_TenantID c, "a") ->
       HasPrefix key (domain t' c') = true -> object buckets' b key = object buckets b key)).
Proof.
  cbv zeta. destruct (clean_repositories _ _ _ _ _ _ _ _ _) as [buckets' r] eqn:E. split.
  - apply (f_equal snd) in E. vm_compute in E. cbn in E. subst r. eexists. split; reflexivity.
  - eapply (cleanup_stays_in_the_cluster_domain (fun _ _ _ _ => true) list_prefixed
      (fun _ _ => true)); [| | |exact E].
    + intros repo b prefix key size. unfold list_prefixed.
      intros ([k z] & [= -> ->] & Hin)%list_elem_of_fmap. apply list_elem_of_In, List.filter_In in Hin.
      by destruct Hin.
    + split; [done|]. split; [|reflexivity]. decide_vm.
    + intros c ->%list_elem_of_singleton. split; [done|]. split; [|reflexivity]. decide_vm.
Defined.
