(* ===== verification/Catalog.v ===== *)
(** The catalog of a restore point: the resources its backup holds, as the agent
    reported them and the platform keeps them in the point's metadata
    (restorePointContentIndex, normalizeBackupResourceSummaries,
    readinessExpectationsFromCatalog and storageClassesFromCatalog of
    backend/internal/httpserver/restore_diagnostic_handlers.go). *)

From S2P Require Import Prelude Text Calendar Timestamp Value Types Events.
From Stdlib Require Import Ascii.

(** Without the service ports, which nothing here reads. *)
Record BackupResourceSummary := {
  brs_APIVersion : string;
  brs_Kind : string;
  brs_Namespace : string;
  brs_Name : string;
  brs_Group : string;
  brs_Resource : string;
  brs_ClusterScoped : bool;
  brs_Images : list string;
  brs_StorageClasses : list string
}.

Record restorePointIndex := {
  ri_SchemaVersion : Z;
  ri_Status : string;
  ri_Resources : list BackupResourceSummary;
  ri_Truncated : bool;
  ri_IndexedAt : time;
  ri_GeneratorVersion : string;
  ri_LastError : string;
  ri_RetryAt : time
}.

Definition restorePointContentIndexSchemaVersion : Z := 4.

(** ** Reading it back from JSON *)

Definition decode_list {A} (f : value -> option A) (_ : list A) (v : value) : option (list A) :=
  match v with VList l => mapM f l | _ => None end.

Definition decode_strings (l : list string) (v : value) : option (list string) :=
  decode_list (fun v => match v with VNull => Some "" | _ => decode_string "" v end) l v.

Definition decode_instant (_ : time) (v : value) : option time :=
  match v with VStr s => parse_rfc3339 s | _ => None end.

Definition decode_resource (v : value) : option BackupResourceSummary :=
  m ← match v with VNull => Some ∅ | VObj m => Some m | _ => None end;
  apiVersion ← decode_field decode_string m "apiVersion" "";
  kind ← decode_field decode_string m "kind" "";
  namespace ← decode_field decode_string m "namespace" "";
  name ← decode_field decode_string m "name" "";
  group ← decode_field decode_string m "group" "";
  resource ← decode_field decode_string m "resource" "";
  clusterScoped ← decode_field decode_bool m "clusterScoped" false;
  images ← decode_field decode_strings m "images" [];
  storageClasses ← decode_field decode_strings m "storageClasses" [];
  Some {| brs_APIVersion := apiVersion; brs_Kind := kind; brs_Namespace := namespace;
          brs_Name := name; brs_Group := group; brs_Resource := resource;
          brs_ClusterScoped := clusterScoped; brs_Images := images;
          brs_StorageClasses := storageClasses |}.

Definition decode_index (v : value) : option restorePointIndex :=
  m ← match v with VNull => Some ∅ | VObj m => Some m | _ => None end;
  schemaVersion ← decode_field decode_int m "schemaVersion" 0;
  status ← decode_field decode_string m "status" "";
  resources ← decode_field (decode_list decode_resource) m "resources" [];
  truncated ← decode_field decode_bool m "truncated" false;
  indexedAt ← decode_field decode_instant m "indexedAt" zero_time;
  generator ← decode_field decode_string m "generatorVersion" "";
  lastError ← decode_field decode_string m "lastError" "";
  retryAt ← decode_field decode_instant m "retryAt" zero_time;
  Some {| ri_SchemaVersion := schemaVersion; ri_Status := status; ri_Resources := resources;
          ri_Truncated := truncated; ri_IndexedAt := indexedAt;
          ri_GeneratorVersion := generator; ri_LastError := lastError; ri_RetryAt := retryAt |}.

(** ** Repairing it *)

(** [strings.Cut(s, sep)]'s first part, when the separator occurs. *)
Definition group_of (apiVersion : string) : string :=
  match Split apiVersion "/"%char with
  | group :: _ :: _ => group
  | _ => ""
  end.

Definition with_resource (item : BackupResourceSummary) (group resource : string)
    : BackupResourceSummary :=
  {| brs_APIVersion := brs_APIVersion item; brs_Kind := brs_Kind item;
     brs_Namespace := brs_Namespace item; brs_Name := brs_Name item; brs_Group := group;
     brs_Resource := resource; brs_ClusterScoped := brs_ClusterScoped item;
     brs_Images := brs_Images item; brs_StorageClasses := brs_StorageClasses item |}.

(** Older agents took Velero's scope directory for the name of the resource. *)
Definition repaired (item : BackupResourceSummary) : BackupResourceSummary :=
  if one_of (brs_Resource item) ["namespaces"; "cluster"] then
    let apiGroup := group_of (brs_APIVersion item) in
    if negb (nonempty apiGroup) then with_resource item "" (brs_Group item)
    else if HasSuffix (brs_Group item) ("." +:+ apiGroup)
    then with_resource item apiGroup (TrimSuffix (brs_Group item) ("." +:+ apiGroup))
    else item
  else item.

(** The four fields joined with NUL bytes: none of them holds one. *)
Definition identity (item : BackupResourceSummary) : string * string * string * string :=
  (brs_APIVersion item, brs_Kind item, brs_Namespace item, brs_Name item).

Fixpoint normalize_from (seen : gset (string * string * string * string))
    (resources : list BackupResourceSummary) : list BackupResourceSummary :=
  match resources with
  | [] => []
  | item :: resources =>
      let item := repaired item in
      if bool_decide (identity item ∈ seen) then normalize_from seen resources
      else item :: normalize_from ({[identity item]} ∪ seen) resources
  end.

Definition normalizeBackupResourceSummaries (resources : list BackupResourceSummary)
    : list BackupResourceSummary := normalize_from ∅ resources.

Definition restorePointContentIndex (point : RestorePoint) : option restorePointIndex :=
  value ← rp_Metadata point !! "contentIndex";
  index ← decode_index (jsonify value);
  if nonempty (ri_Status index) then
    Some {| ri_SchemaVersion := ri_SchemaVersion index; ri_Status := ri_Status index;
            ri_Resources := normalizeBackupResourceSummaries (ri_Resources index);
            ri_Truncated := ri_Truncated index; ri_IndexedAt := ri_IndexedAt index;
            ri_GeneratorVersion := ri_GeneratorVersion index;
            ri_LastError := ri_LastError index; ri_RetryAt := ri_RetryAt index |}
  else None.

(** ** What a recovery expects of it *)

Definition in_namespaces (namespaces : list string) (resource : BackupResourceSummary) : bool :=
  negb (brs_ClusterScoped resource) &&
  match namespaces with [] => true | _ => one_of (brs_Namespace resource) namespaces end.

Definition runtime_kinds : list string :=
  ["deployment"; "statefulset"; "daemonset"; "deploymentconfig"; "replicaset"; "job"; "cronjob"].

Definition resource_kind (resource : BackupResourceSummary) : string :=
  ToLower (TrimSpace (brs_Kind resource)).

Fixpoint first_names (seen : gset string) (names : list string) : list string :=
  match names with
  | [] => []
  | n :: names =>
      if bool_decide (n ∈ seen) || negb (nonempty n) then first_names seen names
      else n :: first_names ({[n]} ∪ seen) names
  end.

(** Whether workloads should come up, and the claims that should be bound. *)
Definition readinessExpectationsFromCatalog (resources : list BackupResourceSummary)
    (sourceNamespaces : list string) : bool * list string :=
  let here := List.filter (in_namespaces (TrimSpace <$> sourceNamespaces)) resources in
  (existsb (fun r => one_of (resource_kind r) runtime_kinds) here,
   merge_sort string_le (first_names ∅ (brs_Name <$>
     List.filter (fun r => resource_kind r =s "persistentvolumeclaim") here))).

Definition storageClassesFromCatalog (resources : list BackupResourceSummary)
    (sourceNamespaces : list string) : list string :=
  let namespaces := List.filter nonempty (TrimSpace <$> sourceNamespaces) in
  let here := List.filter (in_namespaces namespaces) resources in
  merge_sort string_le (elements (list_to_set
    (List.filter nonempty (TrimSpace <$> List.flat_map brs_StorageClasses here)) : gset string)).

(** ** A catalog lists every object once *)

Lemma normalize_from_spec seen resources :
  NoDup (identity <$> normalize_from seen resources) /\
  (forall item, item ∈ normalize_from seen resources -> identity item ∉ seen) /\
  (forall item, item ∈ resources -> identity (repaired item) ∈ seen \/
     identity (repaired item) ∈ identity <$> normalize_from seen resources).
Proof.
  revert seen. induction resources as [|x l IH]; intros seen; cbn.
  { split; [constructor|]. split; by inversion 1. }
  destruct (bool_decide_reflect (identity (repaired x) ∈ seen)) as [Hin|Hout].
  - destruct (IH seen) as (H1 & H2 & H3). split; [done|]. split; [done|].
    intros item [->|?]%elem_of_cons; auto.
  - destruct (IH ({[identity (repaired x)]} ∪ seen)) as (H1 & H2 & H3). split_and!.
    + cbn. constructor; [|done]. intros (y & E & Hy)%list_elem_of_fmap.
      apply (H2 y Hy). rewrite <- E. apply elem_of_union_l, elem_of_singleton_2. done.
    + intros item [->|Hi]%elem_of_cons; [done|]. specialize (H2 item Hi).
      intros Hs. apply H2, elem_of_union_r, Hs.
    + intros item [->|Hi]%elem_of_cons; [right; left|].
      destruct (H3 item Hi) as [H|?]; [|right; by right].
      destruct (decide (identity (repaired item) ∈ seen)); [by left|].
      right. cbn. apply elem_of_union in H as [->%elem_of_singleton|]; [left|done].
Qed.

Lemma first_names_spec seen names :
  NoDup (first_names seen names) /\
  (forall n, n ∈ first_names seen names <-> n ∈ names /\ n ∉ seen /\ n <> "").
Proof.
  revert seen. induction names as [|x l IH]; intros seen; cbn.
  { split; [constructor|]. split; [by inversion 1|by intros [? _]]. }
  destruct (IH seen) as [I1 I2], (IH ({[x]} ∪ seen)) as [J1 J2].
  destruct (bool_decide_reflect (x ∈ seen)) as [Hin|Hout]; cbn.
  { split; [done|]. intros n. rewrite I2, elem_of_cons.
    split; intros (H1 & H2 & H3); split_and!; auto. destruct H1 as [->|]; done. }
  destruct (nonempty x) eqn:Hx; cbn.
  - apply nonempty_true in Hx. split.
    + constructor; [|done]. rewrite J2, elem_of_union, elem_of_singleton. tauto.
    + intros n. rewrite !elem_of_cons, J2, elem_of_union, elem_of_singleton.
      destruct (decide (n = x)) as [->|]; tauto.
  - apply nonempty_false in Hx. subst. split; [done|]. intros n. rewrite I2, elem_of_cons.
    destruct (decide (n = "")); tauto.
Qed.

(** What a recovery waits for is what the catalog holds: each object once,
    a claim is expected exactly when the catalog lists one of that name in one of
    the chosen namespaces, each once and in order, and workloads exactly when a
    workload is listed there. *)
Theorem expectations_are_the_catalog resources namespaces runtime claims :
  let catalog := normalizeBackupResourceSummaries resources in
  readinessExpectationsFromCatalog catalog namespaces = (runtime, claims) ->
  NoDup (identity <$> catalog) /\
  (forall item, item ∈ resources -> identity (repaired item) ∈ identity <$> catalog) /\
  NoDup claims /\ Sorted string_le claims /\
  (forall n, n ∈ claims <-> n <> "" /\ exists r, r ∈ catalog /\ brs_Name r = n /\
     resource_kind r = "persistentvolumeclaim" /\
     in_namespaces (TrimSpace <$> namespaces) r = true) /\
  (runtime = true <-> exists r, r ∈ catalog /\ resource_kind r ∈ runtime_kinds /\
     in_namespaces (TrimSpace <$> namespaces) r = true).
Proof.
  intros catalog. unfold readinessExpectationsFromCatalog.
  set (here := List.filter _ catalog). intros [= <- <-].
  destruct (normalize_from_spec ∅ resources) as (H1 & _ & H3).
  destruct (first_names_spec ∅ (brs_Name <$>
    List.filter (fun r => resource_kind r =s "persistentvolumeclaim") here)) as (N1 & N2).
  split; [done|]. split; [intros item Hi; by destruct (H3 item Hi)|]. split_and!.
  - by rewrite merge_sort_Permutation.
  - apply Sorted_merge_sort. intros x y. unfold string_le.
    destruct (String.leb_total x y); auto.
  - intros n. rewrite merge_sort_Permutation, N2, list_elem_of_fmap. split.
    + intros ((r & -> & Hr) & _ & Hn). split; [done|]. exists r.
      apply list_elem_of_In, List.filter_In in Hr as [Hr Hk%seqb_true].
      apply List.filter_In in Hr as [Hr ?]. by rewrite list_elem_of_In.
    + intros (Hn & r & Hr & <- & Hk & Hns). split; [|set_solver]. exists r. split; [done|].
      apply list_elem_of_In, List.filter_In. split; [|by apply seqb_true].
      apply List.filter_In. by rewrite <- list_elem_of_In.
  - rewrite existsb_exists. split.
    + intros (r & Hr & Hk%one_of_true). apply List.filter_In in Hr as [Hr ?]. exists r.
      by rewrite list_elem_of_In.
    + intros (r & Hr & Hk & Hns). exists r. split; [|by apply one_of_true].
      apply List.filter_In. by rewrite <- list_elem_of_In.
Qed.

(** A catalog of an old agent: a claim listed under its scope directory, twice. *)
Definition listed (resource group apiVersion kind name : string) : BackupResourceSummary :=
  {| brs_APIVersion := apiVersion; brs_Kind := kind; brs_Namespace := "shop"; brs_Name := name;
     brs_Group := group; brs_Resource := resource; brs_ClusterScoped := false;
     brs_Images := []; brs_StorageClasses := ["fast"] |}.
Definition old_catalog : list BackupResourceSummary :=
  [listed "namespaces" "persistentvolumeclaims" "v1" "PersistentVolumeClaim" "data";
   listed "persistentvolumeclaims" "" "v1" "PersistentVolumeClaim" "data";
   listed "namespaces" "deployments.apps" "apps/v1" "Deployment" "web"].

Lemma expectations_are_the_catalog_witness :
  normalizeBackupResourceSummaries old_catalog =
    [listed "persistentvolumeclaims" "" "v1" "PersistentVolumeClaim" "data";
     listed "deployments" "apps" "apps/v1" "Deployment" "web"] /\
  NoDup ["data"] /\ Sorted string_le ["data"].
Proof.
  split; [vm_compute; reflexivity|].
  destruct (expectations_are_the_catalog old_catalog [" shop "] true ["data"])
    as (_ & _ & H1 & H2 & _); [vm_compute; reflexivity|]. exact (conj H1 H2).
Defined.
