(* ===== verification/Commands.v ===== *)
(** The commands of a task, built from its stored payload:
    backend/internal/httpserver/task_payload.go, exclude_defaults.go,
    capacityCommand of plan_capacity.go, and the structs of task_dispatch.go.

    A struct of the agent protocol is its marshalled form: [struct t given] is
    the Go literal of type [t] with the [given] fields, the others zero. *)

From S2P Require Import Prelude Calendar Timestamp Value Types Wire Messages Storage Fleet Catalog.

(** ** Struct literals *)

Fixpoint given_field (given : list (string * value)) (name : string) : option value :=
  match given with
  | [] => None
  | (k, v) :: given => if String.eqb k name then Some v else given_field given name
  end.

(** The values [omitempty] leaves out; structs and times are never empty. *)
Definition empty_value (t : gotype) (v : value) : bool :=
  match t, v with
  | GString, VStr s => negb (nonempty s)
  | GBool, VBool b => negb b
  | GInt _, VNum z | GFloat, VNum z => z =? 0
  | GSlice _, VList [] => true
  | GMap _, VObj m => bool_decide (m = ∅)
  | (GPtr _ | GSlice _ | GMap _ | GAny), VNull => true
  | _, _ => false
  end.

Definition struct_entries (given : list (string * value)) (zero : gotype -> value)
    (fields : list (string * bool * gotype)) : list (string * value) :=
  omap (fun '(name, omitempty, t) =>
    let v := default (zero t) (given_field given name) in
    if omitempty && empty_value t v then None else Some (name, v)) fields.

(** The zero value of a type; a struct's fields are zero, at the depth the
    protocol nests them. *)
Fixpoint zero_of (depth : nat) (t : gotype) : value :=
  match t with
  | GString => VStr ""
  | GBool => VBool false
  | GInt _ | GFloat => VNum 0
  | GTime => VStr (format_rfc3339nano zero_time)
  | GStruct fields =>
      match depth with
      | O => VObj ∅
      | S depth => VObj (list_to_map (struct_entries [] (zero_of depth) fields))
      end
  | GAny | GPtr _ | GSlice _ | GMap _ => VNull
  end.

Definition zero_value : gotype -> value := zero_of 3.

Definition fields_of (t : gotype) : list (string * bool * gotype) :=
  match t with GStruct fields => fields | _ => [] end.

Definition struct (t : gotype) (given : list (string * value)) : value :=
  VObj (list_to_map (struct_entries given zero_value (fields_of t))).

(** Slices and maps, nil when empty. *)
Definition strings (l : list string) : value :=
  match l with [] => VNull | _ => VList (VStr <$> l) end.
Definition values (l : list value) : value := match l with [] => VNull | _ => VList l end.
Definition string_map (m : gmap string string) : value :=
  if bool_decide (m = ∅) then VNull else VObj (VStr <$> m).

(** ** Selections and selectors *)

Definition resourceSelectionPayload (payload : document) : Types.ResourceSelection :=
  match get payload "resourceSelection" with
  | VObj raw =>
      {| rs_Mode := firstNonEmptyString [stringFromMap raw "mode"; "all"];
         rs_NamespaceScoped := stringSlicePayload raw "namespaceScoped";
         rs_ClusterScoped := stringSlicePayload raw "clusterScoped" |}
  | _ => {| rs_Mode := "all"; rs_NamespaceScoped := []; rs_ClusterScoped := [] |}
  end.

Definition protocolResourceSelection (selection : Types.ResourceSelection) : value :=
  struct ResourceSelection
    [("mode", VStr (rs_Mode selection));
     ("namespaceScoped", strings (rs_NamespaceScoped selection));
     ("clusterScoped", strings (rs_ClusterScoped selection))].

Definition decode_string_map (m : gmap string string) (v : value) : option (gmap string string) :=
  match v with
  | VObj raw =>
      entries ← mapM (fun '(k, v) =>
        match v with VStr s => Some (k, s) | VNull => Some (k, "") | _ => None end)
        (map_to_list raw);
      Some (list_to_map entries ∪ m)
  | _ => None
  end.

Definition decode_expression (v : value) : option Types.LabelSelectorExpression :=
  m ← match v with VNull => Some ∅ | VObj m => Some m | _ => None end;
  key ← decode_field decode_string m "key" "";
  operator ← decode_field decode_string m "operator" "";
  vals ← decode_field decode_strings m "values" [];
  Some {| lse_Key := key; lse_Operator := operator; lse_Values := vals |}.

Definition empty_selector : Types.LabelSelector :=
  {| ls_MatchLabels := ∅; ls_MatchExpressions := [] |}.

Definition decode_selector (v : value) : option Types.LabelSelector :=
  m ← match v with VNull => Some ∅ | VObj m => Some m | _ => None end;
  labels ← decode_field decode_string_map m "matchLabels" ∅;
  expressions ← decode_field (decode_list decode_expression) m "matchExpressions" [];
  Some {| ls_MatchLabels := labels; ls_MatchExpressions := expressions |}.

Definition labelSelectorPayload (payload : document) : Types.LabelSelector :=
  default empty_selector (decode_selector (jsonify (get payload "labelSelector"))).

Definition protocol_expression (expression : Types.LabelSelectorExpression) : value :=
  struct LabelSelectorExpression
    [("key", VStr (lse_Key expression)); ("operator", VStr (lse_Operator expression));
     ("values", strings (lse_Values expression))].

Definition protocolLabelSelector (selector : Types.LabelSelector) : value :=
  struct LabelSelector
    [("matchLabels", string_map (ls_MatchLabels selector));
     ("matchExpressions", values (protocol_expression <$> ls_MatchExpressions selector))].

(** A port that is not a number is left out. *)
Definition intMapPayload (payload : document) (key : string) : gmap string Z :=
  match get payload key with
  | VObj value => omap (fun v => match v with VNum z => Some z | _ => None end) value
  | _ => ∅
  end.

Definition int_map (m : gmap string Z) : value :=
  if bool_decide (m = ∅) then VNull else VObj (VNum <$> m).

(** ** Cleanups *)

Definition retention_point (v : value) : option value :=
  match v with
  | VObj m =>
      let id := stringFromMap m "id" in
      let name := stringFromMap m "veleroBackupName" in
      if nonempty id && nonempty name then
        Some (struct RetentionRestorePoint
          [("id", VStr id); ("veleroBackupName", VStr name);
           ("namespace", VStr (stringFromMap m "namespace"))])
      else None
  | _ => None
  end.

Definition retentionRestorePointsFromAny (raw : value) : list value :=
  match raw with VList l => omap retention_point l | _ => [] end.

Definition retentionCleanupCommandFromPayload (payload : document) : string * list value :=
  (stringPayload payload "planId",
   retentionRestorePointsFromAny (get payload "restorePoints")).

Definition retention_cleanup (command : string * list value) : value :=
  struct RetentionCleanupCommand
    [("planId", VStr (fst command)); ("restorePoints", VList (snd command))].

Definition protectionCleanupCommandFromPayload (payload : document) : value :=
  struct ProtectionCleanupCommand
    [("planId", VStr (stringPayload payload "planId"));
     ("cleanupMode", VStr (stringPayload payload "cleanupMode"));
     ("scheduleName", VStr (stringPayload payload "scheduleName"));
     ("backupNamePrefix", VStr (stringPayload payload "backupNamePrefix"));
     ("namespace", VStr (stringPayload payload "namespace"));
     ("sourceNamespaces", strings (stringSlicePayload payload "sourceNamespaces"));
     ("storageRepo", VStr (stringPayload payload "storageRepo"));
     ("cleanupObjectStorage", VBool (boolPayload payload "cleanupObjectStorage"));
     ("restorePoints", values (retentionRestorePointsFromAny (get payload "restorePoints")));
     ("restoreNames", strings (stringSlicePayload payload "restoreNames"));
     ("drillNamespaces", strings (stringSlicePayload payload "drillNamespaces"))].

(** ** Schedules *)

(** There are no implicit exclusions. *)
Definition defaultExcludedResources (sourceNamespace : string) : list value := [].

Fixpoint unseen_rules (seen rules : list value) (more : list value) : list value :=
  match more with
  | [] => rules
  | rule :: more =>
      if existsb (fun r => bool_decide (encode r = encode rule)) seen
      then unseen_rules seen rules more
      else unseen_rules (rule :: seen) (rules ++ [rule]) more
  end.

Definition defaultExcludedResourcesForNamespaces (sourceNamespaces : list string) : list value :=
  unseen_rules [] [] (List.flat_map defaultExcludedResources sourceNamespaces).

Definition exclude_rule (v : value) : option value :=
  match v with
  | VObj m =>
      let fields := (fun key => (key, stringFromMap m key)) <$>
        ["group"; "resource"; "name"; "version"; "labels"] in
      if existsb (fun '(_, s) => nonempty s) fields
      then Some (struct ExcludeRule ((fun '(key, s) => (key, VStr s)) <$> fields))
      else None
  | _ => None
  end.

Definition excludeRulesPayload (payload : document) : list value :=
  match get payload "excludeRules" with VList raw => omap exclude_rule raw | _ => [] end.

(** The namespaces of a payload: its list, or its single one. *)
Definition source_namespaces (payload : document) : list string :=
  let sourceNamespace := stringPayload payload "sourceNamespace" in
  match stringSlicePayload payload "sourceNamespaces" with
  | [] => if nonempty sourceNamespace then [sourceNamespace] else []
  | l => l
  end.

Definition schedule_sync (payload : document) (repoName : string) : value :=
  struct ScheduleSyncCommand
    [("planId", VStr (stringPayload payload "planId"));
     ("scheduleName", VStr (stringPayload payload "scheduleName"));
     ("cron", VStr (stringPayload payload "cron"));
     ("sourceNamespace", VStr (stringPayload payload "sourceNamespace"));
     ("sourceNamespaces", strings (source_namespaces payload));
     ("scope", VStr (stringPayload payload "scope"));
     ("includedResources", strings (stringSlicePayload payload "includedResources"));
     ("selector", protocolLabelSelector (labelSelectorPayload payload));
     ("storageRepo", VStr repoName);
     ("includeClusterResources", VBool (boolPayload payload "includeClusterResources"));
     ("excludeResources", values
        (defaultExcludedResourcesForNamespaces (source_namespaces payload) ++
         excludeRulesPayload payload));
     ("resourceSelection", protocolResourceSelection (resourceSelectionPayload payload))].

(** ** Capacity collection *)

Record capacityTarget := {
  ct_PlanID : string;
  ct_StorageRepositoryID : string;
  ct_StorageLocation : string;
  ct_Namespaces : list string;
  ct_ErrorMessage : string
}.

Record capacityCollection := {
  cc_Namespace : string;
  cc_Plans : list capacityTarget
}.

Definition decode_target (v : value) : option capacityTarget :=
  m ← match v with VNull => Some ∅ | VObj m => Some m | _ => None end;
  repositoryID ← decode_field decode_string m "storageRepositoryId" "";
  message ← decode_field decode_string m "errorMessage" "";
  planID ← decode_field decode_string m "planId" "";
  location ← decode_field decode_string m "storageLocation" "";
  namespaces ← decode_field decode_strings m "namespaces" [];
  Some {| ct_PlanID := planID; ct_StorageRepositoryID := repositoryID;
          ct_StorageLocation := location; ct_Namespaces := namespaces;
          ct_ErrorMessage := message |}.

Definition decode_collection (v : value) : option capacityCollection :=
  m ← match v with VNull => Some ∅ | VObj m => Some m | _ => None end;
  namespace ← decode_field decode_string m "namespace" "";
  plans ← decode_field (decode_list decode_target) m "plans" [];
  Some {| cc_Namespace := namespace; cc_Plans := plans |}.

(** [None] when the payload does not decode, or names no namespace or no plans. *)
Definition capacityCommand (payload : document) : option capacityCollection :=
  command ← decode_collection (jsonify (get payload "planCapacity"));
  if negb (nonempty (cc_Namespace command)) || bool_decide (length (cc_Plans command) = 0%nat)
  then None else Some command.

Definition capacity_target (t : capacityTarget) : value :=
  struct PlanCapacityTarget
    [("storageRepositoryId", VStr (ct_StorageRepositoryID t));
     ("errorMessage", VStr (ct_ErrorMessage t)); ("planId", VStr (ct_PlanID t));
     ("storageLocation", VStr (ct_StorageLocation t));
     ("namespaces", strings (ct_Namespaces t))].

Definition capacity_collection (c : capacityCollection) : value :=
  struct PlanCapacityCommand
    [("namespace", VStr (cc_Namespace c)); ("plans", values (capacity_target <$> cc_Plans c))].
