(* ===== verification/Velero.v ===== *)
(** The Velero objects the agent submits: the manifests that
    agent/comm-agent/internal/velero/ builds from the commands of the platform
    (backup.go, restore.go, schedule.go, storage.go).

    A command is the JSON object its message carries; a field it does not have
    reads as the zero value of its type, which is what decoding it into the Go
    struct yields.  Strings are byte strings, with the case mapping and the
    character classes of ASCII. *)

From S2P Require Import Prelude Text Calendar Timestamp Value Storage.
From Stdlib Require Import Ascii.

(** ** Fields of a command *)

Definition text_of (command : document) (field : string) : string :=
  as_string (get command field).
Definition flag_of (command : document) (field : string) : bool := as_bool (get command field).
Definition texts_of (command : document) (field : string) : list string :=
  match get command field with VList l => as_string <$> l | VStrs l => l | _ => [] end.
Definition map_of (command : document) (field : string) : gmap string string :=
  match get command field with VObj m => as_string <$> m | VStrMap m => m | _ => ∅ end.
Definition object_of (command : document) (field : string) : document :=
  match get command field with VObj m => m | _ => ∅ end.

Definition newline : ascii := ascii_of_nat 10.
Definition dquote : ascii := ascii_of_nat 34.
Definition line (s : string) : string := s +:+ of_chars [newline].

(** [%q] of a namespace or of another word without special characters. *)
Definition quoted (s : string) : string := of_chars [dquote] +:+ s +:+ of_chars [dquote].

(** ** Names *)

(** One run of characters outside [a-z0-9-] becomes a dash. *)
Definition name_char (c : ascii) : bool := label_char c || is_char c dash.

Fixpoint dashed_runs (in_run : bool) (l : list ascii) : list ascii :=
  match l with
  | [] => []
  | c :: l =>
      if name_char c then c :: dashed_runs false l
      else if in_run then dashed_runs true l
      else dash :: dashed_runs true l
  end.

Definition sanitizeName (value : string) : string :=
  let value := Trim dash (of_chars (dashed_runs false (chars (ToLower value)))) in
  if nonempty value then value else "backup".

Definition sanitizeTaskID (taskID : string) : string :=
  let taskPart := first_bytes 8 (remove_char dash taskID) in
  if nonempty taskPart then taskPart else "task".

(** [base[:63]], when it is longer. *)
Definition at_most_63 (base : string) : string := first_bytes 63 base.

Definition backupName (now : time) (namespace taskID : string) : string :=
  at_most_63 ("hcdr-" +:+ sanitizeName namespace +:+ "-" +:+ compact_time now +:+ "-" +:+
              sanitizeTaskID taskID).

Definition restoreName (namespace taskID : string) : string :=
  at_most_63 ("hcdr-restore-" +:+ sanitizeName namespace +:+ "-" +:+ sanitizeTaskID taskID).

Definition resourceModifierName (restoreName : string) : string :=
  let suffix := "-restore-mod" in
  if (String.length restoreName + String.length suffix <=? 63)%nat then restoreName +:+ suffix
  else first_bytes (63 - String.length suffix) restoreName +:+ suffix.

(** FNV-1a of 32 bits, and [%08x]. *)
Definition fnv_step (hash : Z) (c : ascii) : Z :=
  (Z.lxor hash (Z.of_N (N_of_ascii c)) * 16777619) mod 2 ^ 32.
Definition fnv_hash (s : string) : Z := fold_left fnv_step (chars s) 2166136261.

Definition hex_digit (z : Z) : ascii :=
  if z <? 10 then digit z else ascii_of_N (Z.to_N (97 + (z - 10))).
Fixpoint hex (n : nat) (z : Z) (acc : string) : string :=
  match n with
  | O => acc
  | S n => hex n (z / 16) (String (hex_digit (z mod 16)) acc)
  end.

Definition deleteBackupRequestName (backupName : string) : string :=
  let suffix := "-" +:+ hex 8 (fnv_hash backupName) "" in
  let prefix := "hcdr-delete-" +:+ sanitizeName backupName in
  let maxPrefix := (63 - String.length suffix)%nat in
  let prefix := if (maxPrefix <? String.length prefix)%nat
                then Trim dash (first_bytes maxPrefix prefix) else prefix in
  let prefix := if nonempty prefix then prefix else "hcdr-delete" in
  Trim dash (prefix +:+ suffix).

(** ** Manifests *)

Record ManifestMetadata := {
  meta_Name : string;
  meta_Namespace : string;
  meta_Labels : gmap string string
}.

(** [None] is a nil pointer; selectors keep the JSON of the protocol. *)
Record BackupManifestSpec := {
  spec_TemplateLabels : option (gmap string string);
  spec_IncludedNamespaces : list string;
  spec_IncludedResources : list string;
  spec_ExcludedResources : list string;
  spec_IncludedClusterScopedResources : list string;
  spec_IncludedNamespaceScopedResources : list string;
  spec_ExcludedClusterScopedResources : list string;
  spec_ExcludedNamespaceScopedResources : list string;
  spec_LabelSelector : option document;
  spec_StorageLocation : string;
  spec_IncludeClusterResources : option bool;
  spec_SnapshotVolumes : option bool;
  spec_DefaultVolumesToFsBackup : option bool
}.

Record BackupManifest := {
  backup_Metadata : ManifestMetadata;
  backup_Spec : BackupManifestSpec
}.

Record ScheduleManifest := {
  schedule_Metadata : ManifestMetadata;
  schedule_Schedule : string;
  schedule_Template : BackupManifestSpec
}.

Record DeleteBackupRequestManifest := {
  delete_Metadata : ManifestMetadata;
  delete_BackupName : string
}.

Record RestoreManifestSpec := {
  spec_BackupName : string;
  spec_RestoredNamespaces : list string;
  spec_NamespaceMapping : gmap string string;
  spec_RestoreClusterResources : bool;
  spec_ExistingResourcePolicy : string;
  spec_PreserveNodePorts : option bool;
  spec_ResourceModifier : string;
  spec_RestoredResources : list string;
  spec_SkippedResources : list string
}.

Record RestoreManifest := {
  restore_Metadata : ManifestMetadata;
  restore_Spec : RestoreManifestSpec;
  restore_StorageClassMappings : gmap string string;
  restore_ImageMappings : gmap string string
}.

Record ResourceModifierConfigMap := {
  modifier_Metadata : ManifestMetadata;
  modifier_Rules : string
}.

Record BackupStorageLocationManifest := {
  bsl_Metadata : ManifestMetadata;
  bsl_Provider : string;
  bsl_Bucket : string;
  bsl_Prefix : string;
  bsl_Config : gmap string string;
  bsl_Credential : option string
}.

Record SecretManifest := {
  secret_Metadata : ManifestMetadata;
  secret_Cloud : string
}.

Record StorageManifests := {
  sm_Secret : option SecretManifest;
  sm_BackupStorageLocation : BackupStorageLocationManifest
}.

(** What a manifest is built for: the task, its command and the agent. *)
Record BuildInput := {
  in_TaskID : string;
  in_CommandID : string;
  in_TaskType : string;
  in_SourceClusterID : string;
  in_AgentNamespace : string;
  in_Command : document
}.

(** ** Backups *)

(** The namespaces of a command: the list, or else the single one. *)
Definition command_namespaces (command : document) : list string :=
  match texts_of command "sourceNamespaces" with
  | [] => if nonempty (text_of command "sourceNamespace")
          then [text_of command "sourceNamespace"] else []
  | l => l
  end.

Definition agent_namespace_of (input : BuildInput) : string :=
  if nonempty (in_AgentNamespace input) then in_AgentNamespace input else "hypercdr-agent".

Definition add_trimmed (out : list string) (resource : string) : list string :=
  let resource := TrimSpace resource in
  if negb (nonempty resource) || one_of resource out then out else out ++ [resource].

(** Events have two API groups: excluding one excludes both. *)
Definition with_events (out : list string) (resource : string) : list string :=
  let out := add_trimmed out resource in
  if resource =s "events" then add_trimmed out "events.events.k8s.io"
  else if resource =s "events.events.k8s.io" then add_trimmed out "events"
  else out.

Definition expandScopedResourceExclusions (resources : list string) : list string :=
  fold_left with_events resources [].

Definition rule_key (group resource : string) : string :=
  if nonempty group then group +:+ "/" +:+ resource else resource.

Definition add_rule (out : list string) (rule : document) : list string :=
  let group := TrimSpace (text_of rule "group") in
  let group := if group =s "core" then "" else group in
  fold_left (fun out item =>
    let resource := TrimSpace item in
    if negb (nonempty resource) || one_of (rule_key group resource) out then out
    else out ++ [rule_key group resource])
    (Split (text_of rule "resource") ","%char) out.

Definition convertExcludeRules (rules : list value) : list string :=
  fold_left (fun out rule => match rule with VObj r => add_rule out r | _ => add_rule out ∅ end)
    rules [].

Definition has_selector (selector : document) : bool :=
  negb (bool_decide (map_of selector "matchLabels" = ∅)) ||
  match get selector "matchExpressions" with VList (_ :: _) => true | _ => false end.

(** The filters of a template under the resource selection of its command: the
    scoped fields of a custom selection are never mixed with the generic ones. *)
Definition with_selection (command : document) (spec : BackupManifestSpec) : BackupManifestSpec :=
  let selection := object_of command "resourceSelection" in
  let namespaced := texts_of selection "namespaceScoped" in
  let cluster := texts_of selection "clusterScoped" in
  let scoped included_cluster included_namespaced excluded_cluster excluded_namespaced :=
    {| spec_TemplateLabels := spec_TemplateLabels spec;
       spec_IncludedNamespaces := spec_IncludedNamespaces spec;
       spec_IncludedResources := []; spec_ExcludedResources := [];
       spec_IncludedClusterScopedResources := included_cluster;
       spec_IncludedNamespaceScopedResources := included_namespaced;
       spec_ExcludedClusterScopedResources := excluded_cluster;
       spec_ExcludedNamespaceScopedResources := excluded_namespaced;
       spec_LabelSelector := spec_LabelSelector spec;
       spec_StorageLocation := spec_StorageLocation spec;
       spec_IncludeClusterResources := None;
       spec_SnapshotVolumes := spec_SnapshotVolumes spec;
       spec_DefaultVolumesToFsBackup := spec_DefaultVolumesToFsBackup spec |} in
  if text_of selection "mode" =s "exclude" then
    scoped [] ["*"] ["*"] (expandScopedResourceExclusions namespaced)
  else if text_of selection "mode" =s "custom" then
    scoped cluster namespaced (match cluster with [] => ["*"] | _ => [] end) []
  else spec.

(** The template both a backup and a schedule start from. *)
Definition backup_template (command : document) (labels : option (gmap string string))
    (namespaces excluded : list string) (selector : option document) : BackupManifestSpec :=
  {| spec_TemplateLabels := labels; spec_IncludedNamespaces := namespaces;
     spec_IncludedResources := texts_of command "includedResources";
     spec_ExcludedResources := excluded;
     spec_IncludedClusterScopedResources := []; spec_IncludedNamespaceScopedResources := [];
     spec_ExcludedClusterScopedResources := []; spec_ExcludedNamespaceScopedResources := [];
     spec_LabelSelector := selector; spec_StorageLocation := text_of command "storageRepo";
     spec_IncludeClusterResources := Some (flag_of command "includeClusterResources");
     spec_SnapshotVolumes := Some false; spec_DefaultVolumesToFsBackup := Some true |}.

Definition label_if (b : bool) (key value : string) (labels : gmap string string)
    : gmap string string := if b then <[key := value]> labels else labels.

Definition BuildBackupManifest (now : time) (input : BuildInput) : string + BackupManifest :=
  let command := in_Command input in
  let agentNamespace := agent_namespace_of input in
  match command_namespaces command with
  | [] => inl "backup source namespace is required"
  | (sourceNamespace :: _) as sourceNamespaces =>
      if one_of agentNamespace sourceNamespaces
      then inl ("refusing to back up agent namespace " +:+ quoted agentNamespace)
      else
        let name := text_of command "veleroBackupName" in
        let name := if nonempty name then name else backupName now sourceNamespace (in_TaskID input) in
        let trigger := text_of command "trigger" in
        let trigger := if nonempty trigger then trigger else "manual" in
        let labels : gmap string string :=
          {[ "hypercdr.io/task-id" := in_TaskID input;
             "hypercdr.io/command-id" := in_CommandID input;
             "hypercdr.io/managed-by" := "hypercdr";
             "hypercdr.io/source-namespace" := sourceNamespace;
             "hypercdr.io/backup-mode" := trigger ]} in
        let planID := text_of command "planId" in
        let labels := label_if (nonempty planID) "hypercdr.io/plan-id" planID labels in
        let labels := label_if (nonempty (in_SourceClusterID input))
          "hypercdr.io/source-cluster-id" (in_SourceClusterID input) labels in
        let selector := object_of command "labelSelector" in
        inr {| backup_Metadata := {| meta_Name := name; meta_Namespace := agentNamespace;
                                     meta_Labels := labels |};
               backup_Spec := with_selection command (backup_template command None sourceNamespaces
                 (texts_of command "excludedResources")
                 (if has_selector selector then Some selector else None)) |}
  end.

(** ** Schedules *)

(** [strings.Cut(s, string(c))]. *)
Fixpoint cut_list (c : ascii) (l : list ascii) : option (list ascii * list ascii) :=
  match l with
  | [] => None
  | d :: l =>
      if is_char c d then Some ([], l)
      else (fun '(before, after) => (d :: before, after)) <$> cut_list c l
  end.

Definition add_label (labels : gmap string string) (part : string) : gmap string string :=
  match cut_list "="%char (chars (TrimSpace part)) with
  | Some (key, value) =>
      let key := TrimSpace (of_chars key) in
      let value := TrimSpace (of_chars value) in
      if nonempty key && nonempty value then <[key := value]> labels else labels
  | None => labels
  end.

Definition parseLegacyScheduleLabelSelector (selector : string) : option document :=
  let labels := fold_left add_label (Split selector ","%char) ∅ in
  if bool_decide (labels = ∅) then None
  else Some {[ "matchLabels" := VObj (VStr <$> labels) ]}.

Definition BuildScheduleManifest (input : BuildInput) : string + ScheduleManifest :=
  let command := in_Command input in
  let agentNamespace := agent_namespace_of input in
  let planID := text_of command "planId" in
  if negb (nonempty planID) then inl "schedule plan id is required"
  else if negb (nonempty (text_of command "cron")) then inl "schedule cron is required"
  else match command_namespaces command with
  | [] => inl "schedule source namespaces are required"
  | sourceNamespaces =>
      if one_of agentNamespace sourceNamespaces
      then inl ("refusing to schedule agent namespace " +:+ quoted agentNamespace)
      else
        let name := text_of command "scheduleName" in
        let name := if nonempty name then name else "hcdr-plan-" +:+ sanitizeName planID in
        let labels : gmap string string :=
          {[ "hypercdr.io/managed-by" := "hypercdr"; "hypercdr.io/plan-id" := planID;
             "hypercdr.io/task-id" := in_TaskID input;
             "hypercdr.io/command-id" := in_CommandID input ]} in
        let labels := label_if (nonempty (in_SourceClusterID input))
          "hypercdr.io/source-cluster-id" (in_SourceClusterID input) labels in
        let labels := match sourceNamespaces with
                      | [namespace] => <["hypercdr.io/source-namespace" := namespace]> labels
                      | _ => labels
                      end in
        let legacy := text_of command "labelSelector" in
        let selector := object_of command "selector" in
        let selector := if nonempty legacy then parseLegacyScheduleLabelSelector legacy
                        else if has_selector selector then Some selector else None in
        let excluded := convertExcludeRules
          match get command "excludeResources" with VList l => l | _ => [] end in
        inr {| schedule_Metadata := {| meta_Name := name; meta_Namespace := agentNamespace;
                                       meta_Labels := labels |};
               schedule_Schedule := text_of command "cron";
               schedule_Template := with_selection command
                 (backup_template command (Some labels) sourceNamespaces excluded selector) |}
  end.

Definition BuildDeleteBackupRequestManifest (agentNamespace backupName : string)
    : string + DeleteBackupRequestManifest :=
  if negb (nonempty backupName) then inl "backup name is required"
  else inr {| delete_Metadata :=
                {| meta_Name := Trim dash (deleteBackupRequestName backupName);
                   meta_Namespace := if nonempty agentNamespace then agentNamespace
                                     else "hypercdr-agent";
                   meta_Labels := {[ "hypercdr.io/managed-by" := "hypercdr" ]} |};
              delete_BackupName := backupName |}.

(** ** Restores *)

Definition shouldPreserveNodePorts (command : document) : bool :=
  (text_of command "conflictPolicy" =s "replace") &&
  (text_of command "targetNamespace" =s text_of command "sourceNamespace").

Definition existingResourcePolicy (conflictPolicy : string) : string :=
  if one_of conflictPolicy ["update"; "overwrite"; "replace"] then "update" else "none".

Definition namespace_mapping (command : document) (sourceNamespace : string)
    : gmap string string :=
  let targets := map_of command "targetNamespaces" in
  let target := text_of command "targetNamespace" in
  if negb (bool_decide (targets = ∅)) then targets
  else if nonempty target && (target <>s sourceNamespace) then {[ sourceNamespace := target ]}
  else ∅.

Definition BuildRestoreManifest (input : BuildInput) : string + RestoreManifest :=
  let command := in_Command input in
  if negb (nonempty (text_of command "veleroBackupName"))
  then inl "restore velero backup name is required"
  else match command_namespaces command with
  | [] => inl "restore source namespace is required"
  | (sourceNamespace :: _) as sourceNamespaces =>
      let name := restoreName sourceNamespace (in_TaskID input) in
      let policy := text_of command "conflictPolicy" in
      inr {| restore_Metadata :=
               {| meta_Name := name; meta_Namespace := agent_namespace_of input;
                  meta_Labels :=
                    {[ "hypercdr.io/task-id" := in_TaskID input;
                       "hypercdr.io/command-id" := in_CommandID input;
                       "hypercdr.io/task-type" := in_TaskType input;
                       "hypercdr.io/restore-mode" := text_of command "restoreMode";
                       "hypercdr.io/conflict-policy" := policy;
                       "hypercdr.io/source-namespace" := sourceNamespace;
                       "hypercdr.io/target-namespace" := text_of command "targetNamespace" ]} |};
             restore_Spec :=
               {| spec_BackupName := text_of command "veleroBackupName";
                  spec_RestoredNamespaces := sourceNamespaces;
                  spec_NamespaceMapping := namespace_mapping command sourceNamespace;
                  spec_RestoreClusterResources := flag_of command "includeClusterScoped";
                  spec_ExistingResourcePolicy := existingResourcePolicy policy;
                  spec_PreserveNodePorts := Some (shouldPreserveNodePorts command);
                  spec_ResourceModifier := resourceModifierName name;
                  spec_RestoredResources := texts_of command "includedResources";
                  spec_SkippedResources := texts_of command "excludedResources" |};
             restore_StorageClassMappings := map_of command "storageClassMappings";
             restore_ImageMappings := map_of command "imageMappings" |}
  end.

(** [json.Marshal] of a string: quoted, with the escapes of encoding/json for
    ASCII; other bytes stand for themselves. *)
Definition json_char (c : ascii) : list ascii :=
  let n := Z.of_N (N_of_ascii c) in
  if is_char dquote c then chars "\" ++ [dquote]
  else if is_char "\"%char c then chars "\\"
  else if n =? 8 then chars "\b" else if n =? 9 then chars "\t"
  else if n =? 10 then chars "\n" else if n =? 12 then chars "\f" else if n =? 13 then chars "\r"
  else if (n <? 32) || one_of (of_chars [c]) ["<"; ">"; "&"]
  then chars ("\u00" +:+ hex 2 n "")
  else [c].

Definition yamlString (value : string) : string :=
  of_chars ([dquote] ++ concat (json_char <$> chars value) ++ [dquote]).

Definition sortedMappingKeys (values : gmap string string) : list string :=
  fst <$> merge_sort key_le
    (List.filter (fun '(key, value) => nonempty key && nonempty value) (map_to_list values)).

Definition rule_conditions (resource : string) (namespaces : list string) : string :=
  line "- conditions:" +:+ line ("    groupResource: " +:+ resource) +:+ line "    namespaces:" +:+
  foldr (fun namespace rest => line ("    - " +:+ namespace) +:+ rest) "" namespaces.

(** A rule that replaces a value at a path. *)
Definition replace_rule (resource path : string) (namespaces : list string) (from to : string)
    : string :=
  rule_conditions resource namespaces +:+ line "    matches:" +:+ line ("    - path: " +:+ path) +:+
  line ("      value: " +:+ yamlString from) +:+
  line "  patches:" +:+ line "  - operation: replace" +:+ line ("    path: " +:+ path) +:+
  line ("    value: " +:+ yamlString to).

Definition image_paths : list string :=
  flat_map (fun containers =>
    (fun index => "/spec/" +:+ containers +:+ "/" +:+ sprint_num (Z.of_nat index) +:+ "/image") <$>
      seq 0 10) ["containers"; "initContainers"].

Definition restoreResourceModifierYAML (namespaces : list string)
    (preserveNodePorts resetPodNetwork : bool) (storageMappings imageMappings : gmap string string)
    : string :=
  line "version: v1" +:+ line "resourceModifierRules:" +:+
  rule_conditions "persistentvolumeclaims" namespaces +:+ line "  mergePatches:" +:+
  line "  - patchData: |" +:+
  line ("      {" +:+ quoted "spec" +:+ ":{" +:+ quoted "volumeName" +:+ ":null}}") +:+
  (if resetPodNetwork then
     rule_conditions "pods" namespaces +:+ line "  mergePatches:" +:+ line "  - patchData: |" +:+
     line ("      {" +:+ quoted "metadata" +:+ ":{" +:+ quoted "annotations" +:+ ":{" +:+
           quoted "k8s.ovn.org/pod-networks" +:+ ":null," +:+
           quoted "k8s.v1.cni.cncf.io/network-status" +:+ ":null}}}")
   else "") +:+
  (if preserveNodePorts then "" else
     rule_conditions "services" namespaces +:+ line "    matches:" +:+
     line ("    - path: " +:+ quoted "/spec/type") +:+ line ("      value: " +:+ quoted "NodePort") +:+
     line "  patches:" +:+ line "  - operation: remove" +:+
     line ("    path: " +:+ quoted "/spec/ports/0/nodePort")) +:+
  foldr (fun source rest =>
    replace_rule "persistentvolumeclaims" "/spec/storageClassName" namespaces source
      (default "" (storageMappings !! source)) +:+ rest) "" (sortedMappingKeys storageMappings) +:+
  foldr (fun source rest =>
    foldr (fun path rest =>
      replace_rule "pods" path namespaces source (default "" (imageMappings !! source)) +:+ rest)
      "" image_paths +:+ rest) "" (sortedMappingKeys imageMappings).

Definition remaps (entry : string * string) : bool :=
  nonempty (fst entry) && nonempty (snd entry) && (fst entry <>s snd entry).

Definition BuildRestoreResourceModifierConfigMap (manifest : RestoreManifest)
    : ResourceModifierConfigMap :=
  let spec := restore_Spec manifest in
  let namespaces := match spec_RestoredNamespaces spec with [] => ["*"] | l => l end in
  {| modifier_Metadata :=
       {| meta_Name := resourceModifierName (meta_Name (restore_Metadata manifest));
          meta_Namespace := meta_Namespace (restore_Metadata manifest);
          meta_Labels := meta_Labels (restore_Metadata manifest) |};
     modifier_Rules := restoreResourceModifierYAML namespaces
       (default false (spec_PreserveNodePorts spec))
       (existsb remaps (map_to_list (spec_NamespaceMapping spec)))
       (restore_StorageClassMappings manifest) (restore_ImageMappings manifest) |}.

(** ** Storage locations *)

Definition normalizedS3Region (storageType region : string) : string :=
  let region := TrimSpace region in
  let region := if one_of (ToLower region) ["n/a"; "na"; "-"] then "" else region in
  if negb (nonempty region) &&
     one_of (ToLower (TrimSpace storageType)) ["s3"; "s3-compatible"; "s3 compatible"]
  then "us-east-1" else region.

Definition normalizeS3URL (endpoint : string) (tlsEnabled : bool) : string :=
  let endpoint := TrimSpace endpoint in
  if negb (nonempty endpoint) || Contains endpoint "://" then endpoint
  else if tlsEnabled then "https://" +:+ endpoint else "http://" +:+ endpoint.

Definition isHuaweiOBSEndpoint (endpoint : string) : bool :=
  let host := TrimPrefix (TrimPrefix (ToLower (TrimSpace endpoint)) "https://") "http://" in
  let host := match cut_list slash (chars host) with
              | Some (before, _) => of_chars before
              | None => host
              end in
  Contains host "huaweicloud.com" || Contains host "myhuaweicloud.com".

Definition applyHuaweiOBSCompatibility (config : gmap string string) : gmap string string :=
  <["checksumAlgorithm" := ""]> config.

Definition applyS3VendorCompatibility (config : gmap string string) (endpoint : string)
    : gmap string string :=
  if isHuaweiOBSEndpoint endpoint then applyHuaweiOBSCompatibility config else config.

(** What becomes of a field of the UI: kept out, or written to a key, with a
    value of its own if one is given. *)
Inductive ui_field :=
| NotUIField
| DroppedField
| MappedField (key override : string).

Definition mapUIStorageConfig (key value : string) : ui_field :=
  if key =s "prefix" then DroppedField
  else if one_of key ["urlStyle"; "url_style"] then
    let value := ToLower (TrimSpace value) in
    if one_of value ["path"; "path-style"; "path_style"] then MappedField "s3ForcePathStyle" "true"
    else if one_of value ["virtual"; "virtual-host"; "virtual_host"; "virtualhost";
                          "virtual-hosted"; "dns"]
    then MappedField "s3ForcePathStyle" "false"
    else DroppedField
  else if one_of key ["bucket"; "caCert"] then DroppedField
  else NotUIField.

Definition isVeleroBSLConfigKey (key : string) : bool :=
  one_of key ["region"; "s3Url"; "publicUrl"; "kmsKeyId"; "customerKeyEncryptionFile";
    "customerKeyEncryptionSecret"; "s3ForcePathStyle"; "signatureVersion"; "credentialsFile";
    "profile"; "serverSideEncryption"; "insecureSkipTLSVerify"; "enableSharedConfig"; "tagging";
    "checksumAlgorithm"; "caCert"].

Definition configure (config : gmap string string) (entry : string * value) : gmap string string :=
  let '(key, v) := entry in
  let text := as_string v in
  if negb (nonempty text) then config
  else match mapUIStorageConfig key text with
  | DroppedField => config
  | MappedField mapped override => <[mapped := if nonempty override then override else text]> config
  | NotUIField => if isVeleroBSLConfigKey key then <[key := text]> config else config
  end.

Definition providerName (value : string) : string :=
  if one_of value ["aws"; "AWS"; "s3"; "S3"; "S3-Compatible"; "S3 Compatible"; "s3-compatible";
                   "s3 compatible"] then "aws"
  else if one_of value ["azure"; "Azure"] then "azure"
  else if one_of value ["gcp"; "GCP"; "gcs"; "GCS"; "Google Cloud"; "google cloud"] then "gcp"
  else if nonempty value then value else "aws".

Definition isAzure (typeName : string) : bool := typeName =s "azure".
Definition isGCS (typeName : string) : bool := one_of typeName ["gcp"; "gcs"; "google cloud"].

Section storage_manifests.
(** The order in which Go meets the entries of the configuration. *)
Context (order : document -> list (string * value)).

Definition bsl_config (command : document) : gmap string string :=
  let typeName := ToLower (TrimSpace (text_of command "type")) in
  let cloud := isAzure typeName || isGCS typeName in
  let endpoint := text_of command "endpoint" in
  let tls := flag_of command "tlsEnabled" in
  let region := normalizedS3Region (text_of command "type") (text_of command "region") in
  let account := text_of (object_of command "credentials") "accountName" in
  let config := label_if (nonempty endpoint && negb cloud) "s3Url" (normalizeS3URL endpoint tls) ∅ in
  let config := label_if (nonempty region) "region" region config in
  let config := label_if (negb tls && negb cloud) "insecureSkipTLSVerify" "true" config in
  let config := label_if (isAzure typeName && nonempty account) "storageAccount" account config in
  applyS3VendorCompatibility
    (fold_left configure (order (object_of command "config")) config) endpoint.

Definition storage_labels (input : BuildInput) : gmap string string :=
  {[ "hypercdr.io/task-id" := in_TaskID input; "hypercdr.io/command-id" := in_CommandID input;
     "hypercdr.io/repository-id" := text_of (in_Command input) "repositoryId" ]}.

Definition BuildBackupStorageLocationManifest (input : BuildInput)
    : string + BackupStorageLocationManifest :=
  let command := in_Command input in
  if negb (nonempty (text_of command "name")) then inl "storage repository name is required"
  else if negb (nonempty (text_of command "bucket"))
  then inl "storage repository bucket is required"
  else
    inr {| bsl_Metadata := {| meta_Name := sanitizeName (text_of command "name");
                              meta_Namespace := agent_namespace_of input;
                              meta_Labels := storage_labels input |};
           bsl_Provider := providerName (text_of command "type");
           bsl_Bucket := text_of command "bucket";
           bsl_Prefix := text_of (object_of command "config") "prefix";
           bsl_Config := bsl_config command;
           bsl_Credential := let secretRef := text_of command "secretRef" in
                             if nonempty secretRef then Some secretRef else None |}.

Definition azureCredentialsFile (accountKey : string) : string :=
  if negb (nonempty (TrimSpace accountKey)) then ""
  else line ("AZURE_STORAGE_ACCOUNT_ACCESS_KEY=" +:+ TrimSpace accountKey).

Definition awsCredentialsFile (accessKey secretKey : string) : string :=
  if negb (nonempty accessKey) && negb (nonempty secretKey) then ""
  else line "[default]" +:+ line ("aws_access_key_id=" +:+ accessKey) +:+
       line ("aws_secret_access_key=" +:+ secretKey).

Definition BuildStorageManifests (input : BuildInput) : string + StorageManifests :=
  let command := in_Command input in
  match BuildBackupStorageLocationManifest input with
  | inl err => inl err
  | inr bsl =>
      let bare := {| sm_Secret := None; sm_BackupStorageLocation := bsl |} in
      match get command "credentials" with
      | VObj credentials =>
          let secretRef := text_of command "secretRef" in
          let typeName := ToLower (TrimSpace (text_of command "type")) in
          let cloud :=
            if isGCS typeName then TrimSpace (text_of credentials "serviceAccountKey")
            else if isAzure typeName then azureCredentialsFile (text_of credentials "accountKey")
            else awsCredentialsFile (text_of credentials "accessKey")
                   (text_of credentials "secretKey") in
          if negb (nonempty secretRef) || negb (nonempty cloud) then inr bare
          else inr {| sm_Secret := Some
                        {| secret_Metadata :=
                             {| meta_Name := secretRef;
                                meta_Namespace := meta_Namespace (bsl_Metadata bsl);
                                meta_Labels := storage_labels input |};
                           secret_Cloud := cloud |};
                      sm_BackupStorageLocation := bsl |}
      | _ => inr bare
      end
  end.

End storage_manifests.

(** ** What the names of a command's objects are worth *)

Lemma take_app_eq {A} n (p a b : list A) :
  take n (p ++ a) = take n (p ++ b) <-> take (n - length p) a = take (n - length p) b.
Proof. rewrite !take_app. split; [apply app_inv_head|by intros ->]. Qed.

Lemma first_bytes_eq n s t : first_bytes n s = first_bytes n t <-> take n (chars s) = take n (chars t).
Proof. unfold first_bytes. split; [apply of_chars_inj|by intros ->]. Qed.

Lemma sanitizeName_label value : label_like (sanitizeName value).
Proof.
  unfold sanitizeName. apply label_or_default.
  - generalize false. induction (chars (ToLower value)) as [|c l IH]; intros in_run; cbn; [done|].
    destruct (name_char c) eqn:E; [|destruct in_run; [apply IH|constructor; [by right|apply IH]]].
    constructor; [|apply IH]. apply orb_true_iff in E as [E|E]; [by left|]. right. by apply bool_decide_eq_true in E.
  - apply word_label; [done|]. repeat constructor.
Qed.

Lemma restoreName_chars namespace taskID :
  chars (restoreName namespace taskID) =
  take 63 ((chars "hcdr-restore-" ++ chars (sanitizeName namespace) ++ [dash]) ++
           chars (sanitizeTaskID taskID)).
Proof.
  unfold restoreName, at_most_63, first_bytes. by rewrite chars_of_chars, !chars_app, <- !app_assoc.
Qed.

Lemma sanitizeTaskID_length taskID : (1 <= length (chars (sanitizeTaskID taskID)) <= 8)%nat.
Proof.
  unfold sanitizeTaskID. destruct (nonempty (first_bytes 8 (remove_char dash taskID))) eqn:E;
    [|cbn; lia].
  apply chars_nonempty in E. unfold first_bytes in *. rewrite chars_of_chars in *.
  pose proof (firstn_le_length 8 (chars (remove_char dash taskID))).
  destruct (take 8 _); [done|]. cbn in *. lia.
Qed.



(** *** Requests to delete a backup *)

Lemma hex_app n z acc : hex n z acc = hex n z "" +:+ acc.
Proof.
  revert z acc. induction n as [|n IH]; intros z acc; [done|]. cbn.
  rewrite (IH _ (String _ acc)), (IH _ (String _ "")). apply chars_inj.
  by rewrite !chars_app, <- app_assoc.
Qed.

(** The digit a character stands for. *)
Definition hex_value (c : ascii) : Z :=
  let n := Z.of_N (N_of_ascii c) in if n <? 97 then n - 48 else n - 87.

Lemma hex_digit_spec z :
  0 <= z < 16 -> label_char (hex_digit z) = true /\ hex_value (hex_digit z) = z.
Proof.
  intros H. rewrite <- (Z2Nat.id z) by lia. assert (Hn : (Z.to_nat z < 16)%nat) by lia.
  generalize dependent (Z.to_nat z). intros n Hn. do 16 (destruct n; [done|]). lia.
Qed.

Lemma hex_label n z : length (chars (hex n z "")) = n /\
  Forall (fun c => label_char c = true) (chars (hex n z "")).
Proof.
  revert z. induction n as [|n IH]; intros z; [done|]. cbn. rewrite hex_app, chars_app.
  destruct (IH (z / 16)) as [Hl Hf]. rewrite length_app, Hl. split; [cbn; lia|].
  apply Forall_app. split; [done|]. constructor; [|done].
  apply hex_digit_spec, Z.mod_pos_bound. lia.
Qed.

Lemma hex_inj n z z' :
  0 <= z < 16 ^ Z.of_nat n -> 0 <= z' < 16 ^ Z.of_nat n -> hex n z "" = hex n z' "" -> z = z'.
Proof.
  revert z z'. induction n as [|n IH]; intros z z'; [cbn; lia|].
  rewrite Nat2Z.inj_succ, Z.pow_succ_r by lia. intros Hz Hz' E. cbn in E.
  rewrite (hex_app n (z / 16)), (hex_app n (z' / 16)) in E. apply (f_equal chars) in E.
  rewrite !chars_app in E. apply app_inj_2 in E as [E1 E2]; [|done]. injection E2 as E2.
  apply (f_equal hex_value) in E2.
  rewrite !(fun z H => proj2 (hex_digit_spec z H)) in E2 by (apply Z.mod_pos_bound; lia).
  apply chars_inj, IH in E1;
    [|split; [apply Z.div_pos; lia|apply Z.div_lt_upper_bound; lia]..].
  pose proof (Z.div_mod z 16). pose proof (Z.div_mod z' 16). lia.
Qed.

Lemma fnv_hash_bound s : 0 <= fnv_hash s < 16 ^ Z.of_nat 8.
Proof.
  unfold fnv_hash. assert (H : 0 <= 2166136261 < 16 ^ Z.of_nat 8) by done. revert H.
  generalize 2166136261. induction (chars s) as [|c l IH]; intros z H; cbn [fold_left]; [done|].
  apply IH. unfold fnv_step. apply Z.mod_pos_bound. lia.
Qed.

(** The name is a label of its own, then the hash. *)
Lemma deleteBackupRequestName_parts name :
  exists prefix, label_like prefix /\ (String.length prefix <= 54)%nat /\
    deleteBackupRequestName name = prefix +:+ "-" +:+ hex 8 (fnv_hash name) "".
Proof.
  unfold deleteBackupRequestName. destruct (hex_label 8 (fnv_hash name)) as [Hl Hf].
  set (h := hex 8 _ _) in *. assert (Hh : label_like h).
  { apply word_label; [|done]. by destruct (chars h). }
  change ("hcdr-delete-" +:+ sanitizeName name) with ("hcdr-delete" +:+ "-" +:+ sanitizeName name).
  set (p := "hcdr-delete" +:+ "-" +:+ sanitizeName name).
  assert (Hp : label_like p).
  { change p with ("hcdr" +:+ "-" +:+ ("delete" +:+ "-" +:+ sanitizeName name)).
    apply joined_label; [|apply joined_label; [|apply sanitizeName_label]];
      (apply word_label; [done|]; repeat constructor). }
  assert (Hlen : String.length ("-" +:+ h) = 9%nat).
  { rewrite <- length_chars, chars_app, length_app, Hl. done. }
  rewrite Hlen. change (63 - 9)%nat with 54%nat. set (q := if (54 <? _)%nat then _ else p).
  assert (Hq : label_like q /\ (String.length q <= 54)%nat).
  { unfold q. destruct (54 <? String.length p)%nat eqn:E; [|split; [done|]; by apply Nat.ltb_ge in E].
    destruct (trimmed_prefix 54 p ltac:(lia) Hp) as (? & ? & ? & ?). by split. }
  destruct Hq as [Hq Hqlen]. exists q. split; [done|]. split; [done|].
  replace (nonempty q) with true by (symmetry; apply chars_nonempty, Hq).
  by apply Trim_label, joined_label.
Qed.

(** The request to delete a backup has a valid Kubernetes name whatever the
    backup is called, and cutting the name down never costs it the hash: two
    backups whose requests have the same name have the same FNV-1a hash. *)
Theorem delete_requests_are_named_apart name name' :
  dns_label (deleteBackupRequestName name) /\
  (deleteBackupRequestName name = deleteBackupRequestName name' -> fnv_hash name = fnv_hash name').
Proof.
  destruct (deleteBackupRequestName_parts name) as (p & Hp & Hlen & ->).
  destruct (deleteBackupRequestName_parts name') as (p' & _ & _ & ->).
  destruct (hex_label 8 (fnv_hash name)) as [Hl Hf].
  destruct (hex_label 8 (fnv_hash name')) as [Hl' _]. split.
  - assert (Hh : label_like (hex 8 (fnv_hash name) "")).
    { apply word_label; [|done]. by destruct (chars (hex 8 _ _)). }
    destruct (joined_label p _ Hp Hh) as (? & ? & ?). split; [|done].
    rewrite length_joined, <- (length_chars (hex _ _ _)), Hl. pose proof (label_length p Hp). lia.
  - intros E%(f_equal chars). rewrite !chars_app in E. apply app_inj_2 in E as [_ E].
    + apply app_inv_head, chars_inj in E. apply hex_inj in E; [done|apply fnv_hash_bound..].
    + by rewrite !length_app, Hl, Hl'.
Qed.

Lemma delete_requests_are_named_apart_witness :
  fnv_hash "hcdr-shop" = fnv_hash "hcdr-shop" /\
  deleteBackupRequestName "Shop/Daily" = "hcdr-delete-shop-daily-4b9dbb97".
Proof.
  split; [|vm_compute; reflexivity].
  apply (proj2 (delete_requests_are_named_apart "hcdr-shop" "hcdr-shop")). reflexivity.
Defined.

(** ** What a backup and a schedule select *)

(** The two families of resource filters of Velero. *)
Definition generic_filters (spec : BackupManifestSpec) : list string * list string * option bool :=
  (spec_IncludedResources spec, spec_ExcludedResources spec, spec_IncludeClusterResources spec).
Definition scoped_filters (spec : BackupManifestSpec) : list (list string) :=
  [spec_IncludedClusterScopedResources spec; spec_IncludedNamespaceScopedResources spec;
   spec_ExcludedClusterScopedResources spec; spec_ExcludedNamespaceScopedResources spec].

Definition unmixed (spec : BackupManifestSpec) : Prop :=
  generic_filters spec = ([], [], None) \/ scoped_filters spec = [[]; []; []; []].

(** A selection of its own: of what to leave out, or of what to take. *)
Definition restricts (command : document) : bool :=
  one_of (text_of (object_of command "resourceSelection") "mode") ["exclude"; "custom"].

Lemma with_selection_unmixed command spec :
  scoped_filters spec = [[]; []; []; []] -> unmixed (with_selection command spec).
Proof.
  intros H. unfold with_selection.
  destruct (_ =s "exclude"); [by left|]. destruct (_ =s "custom"); [by left|by right].
Qed.

Lemma with_selection_agrees command command' spec spec' :
  restricts command = true ->
  object_of command "resourceSelection" = object_of command' "resourceSelection" ->
  scoped_filters (with_selection command spec) = scoped_filters (with_selection command' spec') /\
  generic_filters (with_selection command spec) = generic_filters (with_selection command' spec').
Proof.
  unfold restricts, with_selection. intros Hr <-. apply one_of_true in Hr.
  set (mode := text_of _ "mode") in *. destruct (mode =s "exclude") eqn:E1; [done|].
  destruct (mode =s "custom") eqn:E2; [done|]. exfalso.
  apply seqb_false in E1, E2. set_solver.
Qed.

Lemma with_selection_namespaces command spec :
  spec_IncludedNamespaces (with_selection command spec) = spec_IncludedNamespaces spec.
Proof. unfold with_selection. by repeat case_match. Qed.


Definition scope_input (task : string) (command : document) : BuildInput :=
  {| in_TaskID := task; in_CommandID := "cmd-1"; in_TaskType := "drill";
     in_SourceClusterID := "cluster-1"; in_AgentNamespace := ""; in_Command := command |}.

Definition scope_command : document :=
  {[ "planId" := VStr "plan-1"; "cron" := VStr "0 2 * * *";
     "sourceNamespaces" := VStrs ["shop"; "shop-db"]; "includedResources" := VStrs ["pods"];
     "resourceSelection" := VObj {[ "mode" := VStr "exclude";
       "namespaceScoped" := VStrs ["events"; " secrets "; "secrets"] ]} ]}.


(** ** Where a restore puts the namespaces *)

Definition restored_as (manifest : RestoreManifest) (namespace : string) : string :=
  default namespace (spec_NamespaceMapping (restore_Spec manifest) !! namespace).

Lemma remaps_true (mapping : gmap string string) :
  existsb remaps (map_to_list mapping) = true <->
  exists source target, mapping !! source = Some target /\ source <> "" /\ target <> "" /\
    source <> target.
Proof.
  rewrite existsb_exists. split.
  - intros ([source target] & Hin & H). apply list_elem_of_In, elem_of_map_to_list in Hin.
    unfold remaps in H. cbn in H. go_bool. exists source, target.
    naive_solver.
  - intros (source & target & Hin & H). exists (source, target).
    split; [by apply list_elem_of_In, elem_of_map_to_list|].
    unfold remaps. cbn. destruct H as (H1 & H2 & H3).
    apply nonempty_true in H1, H2. rewrite H1, H2. cbn. apply negb_true_iff. by apply seqb_false.
Qed.

(** C36. A restore without a map of target namespaces moves the first namespace
    of its command only: every other one is restored over the namespace it came
    from, whatever target was asked for.  The network identity of the pods is
    dropped exactly when the first namespace moves. *)
Theorem restore_moves_only_the_first_namespace input manifest source rest :
  BuildRestoreManifest input = inr manifest ->
  command_namespaces (in_Command input) = source :: rest ->
  map_of (in_Command input) "targetNamespaces" = ∅ ->
  let target := text_of (in_Command input) "targetNamespace" in
  spec_RestoredNamespaces (restore_Spec manifest) = source :: rest /\
  restored_as manifest source = (if nonempty target then target else source) /\
  (forall namespace, namespace ∈ rest -> namespace <> source ->
   restored_as manifest namespace = namespace) /\
  (source <> "" ->
   (existsb remaps (map_to_list (spec_NamespaceMapping (restore_Spec manifest))) = true <->
    restored_as manifest source <> source)).
Proof.
  unfold BuildRestoreManifest. intros H Hns Htargets. rewrite Hns in H.
  destruct (negb (nonempty _)); [done|]. injection H as <-. cbn zeta.
  unfold restored_as. cbn. rewrite remaps_true. unfold namespace_mapping.
  rewrite Htargets, bool_decide_eq_true_2 by done. cbn.
  set (target := text_of _ "targetNamespace").
  destruct (nonempty target) eqn:Ht; cbn; [|rewrite !lookup_empty; cbn; split_and!; try done].
  - destruct (target <>s source) eqn:Hts; go_bool; cbn.
    + rewrite lookup_singleton_eq. split_and!; [done|done| |].
      * intros n _ Hn. by rewrite lookup_singleton_ne.
      * intros Hs. cbn. split; [done|]. intros _. exists source, target.
        rewrite lookup_singleton_eq. naive_solver.
    + rewrite Hts, lookup_empty. split_and!; try done. intros _.
      split; [|done]. intros (? & ? & H & _). by rewrite lookup_empty in H.
  - intros _. split; [|done]. intros (? & ? & H & _). by rewrite lookup_empty in H.
Qed.

Definition drill_command : document :=
  {[ "veleroBackupName" := VStr "hcdr-1"; "sourceNamespaces" := VStrs ["shop"; "shop-db"];
     "targetNamespace" := VStr "shop-drill" ]}.

Lemma restore_moves_only_the_first_namespace_witness :
  exists manifest,
    BuildRestoreManifest (scope_input "task-1" drill_command) = inr manifest /\
    restored_as manifest "shop" = "shop-drill" /\ restored_as manifest "shop-db" = "shop-db".
Proof.
  eexists. split; [vm_compute; reflexivity|].
  destruct (restore_moves_only_the_first_namespace (scope_input "task-1" drill_command) _ "shop"
    ["shop-db"] eq_refl eq_refl eq_refl) as (_ & H1 & H2 & _).
  split; [exact H1|]. apply H2; [left|discriminate].
Defined.

(** ** What a storage location is configured with *)

Lemma fold_left_Permutation {A B} (f : A -> B -> A) (l k : list B) (acc : A) :
  l ≡ₚ k -> (forall a x y, x ∈ l -> y ∈ l -> f (f a x) y = f (f a y) x) ->
  fold_left f l acc = fold_left f k acc.
Proof.
  intros Hp. revert acc. induction Hp as [|x l k _ IH|x y l|l k m Hlk IH1 _ IH2]; intros acc Hf;
    cbn; [done| | |].
  - apply IH. intros; apply Hf; by right.
  - f_equal. apply Hf; set_solver.
  - rewrite IH1 by done. apply IH2. intros a x y Hx Hy. apply Hf; by rewrite Hlk.
Qed.

(** The entry of the location's configuration an entry of the command writes. *)
Definition written (entry : string * value) : option (string * string) :=
  let '(key, v) := entry in
  if negb (nonempty (as_string v)) then None
  else match mapUIStorageConfig key (as_string v) with
  | DroppedField => None
  | MappedField mapped override =>
      Some (mapped, if nonempty override then override else as_string v)
  | NotUIField => if isVeleroBSLConfigKey key then Some (key, as_string v) else None
  end.

Lemma configure_written config entry :
  configure config entry =
  match written entry with Some (key, text) => <[key := text]> config | None => config end.
Proof.
  destruct entry as [key v]. unfold configure, written.
  destruct (nonempty _); [|done]. destruct (mapUIStorageConfig _ _); try done.
  by destruct (isVeleroBSLConfigKey key).
Qed.

(** The fields that say how the bucket is addressed. *)
Definition style_keys : list string := ["urlStyle"; "url_style"; "s3ForcePathStyle"].

Lemma written_key key v key' text :
  written (key, v) = Some (key', text) ->
  isVeleroBSLConfigKey key' = true /\ (key' = key \/ key' = "s3ForcePathStyle" /\ key ∈ style_keys).
Proof.
  unfold written. destruct (negb _); [done|]. unfold mapUIStorageConfig.
  destruct (key =s "prefix"); [done|]. destruct (one_of key ["urlStyle"; "url_style"]) eqn:Hk.
  - apply one_of_true in Hk. assert (key ∈ style_keys) by (unfold style_keys; set_solver).
    repeat case_match; intros Hw; simplify_eq; by auto.
  - destruct (one_of key ["bucket"; "caCert"]); [done|].
    destruct (isVeleroBSLConfigKey key) eqn:E; [|done]. intros [= <- _]. by auto.
Qed.

Definition one_style (config : document) : Prop :=
  forall key key', key ∈ style_keys -> key' ∈ style_keys ->
  is_Some (config !! key) -> is_Some (config !! key') -> key = key'.

(** An enumeration of the entries of a map. *)
Definition enumerates (order : document -> list (string * value)) : Prop :=
  forall m, order m ≡ₚ map_to_list m.

Lemma configure_commutes (m : document) a x y :
  one_style m -> x ∈ map_to_list m -> y ∈ map_to_list m ->
  configure (configure a x) y = configure (configure a y) x.
Proof.
  destruct x as [k v], y as [k' v']. rewrite !elem_of_map_to_list, !configure_written.
  intros Hone Hx Hy. destruct (written (k, v)) as [[w t]|] eqn:E; [|done].
  destruct (written (k', v')) as [[w' t']|] eqn:E'; [|done].
  destruct (decide (k = k')) as [<-|Hne]; [by simplify_eq|].
  apply insert_insert_ne. intros <-.
  apply written_key in E as [_ E], E' as [_ E'].
  assert (Hks : k ∈ style_keys /\ k' ∈ style_keys).
  { unfold style_keys in *. destruct E as [E|[E ?]], E' as [E'|[E' ?]]; subst; set_solver. }
  destruct Hks. apply Hne, Hone; try done; by eexists.
Qed.

Lemma bsl_config_order order order' command :
  enumerates order -> enumerates order' -> one_style (object_of command "config") ->
  bsl_config order command = bsl_config order' command.
Proof.
  intros Ho Ho' Hone. unfold bsl_config. f_equal. apply fold_left_Permutation.
  - by rewrite (Ho _), (Ho' _).
  - intros a x y Hx Hy. rewrite (Ho _) in Hx, Hy. by apply (configure_commutes _ a x y Hone).
Qed.

Definition known_keys (config : gmap string string) : Prop :=
  forall key, is_Some (config !! key) -> isVeleroBSLConfigKey key = true \/ key = "storageAccount".

Lemma known_insert config key text :
  known_keys config -> isVeleroBSLConfigKey key = true \/ key = "storageAccount" ->
  known_keys (<[key := text]> config).
Proof. intros H Hk k [x Hx]. apply lookup_insert_Some in Hx as [[-> _]|[_ Hx]]; [done|]. by apply H. Qed.

Lemma bsl_config_known order command : known_keys (bsl_config order command).
Proof.
  unfold bsl_config, applyS3VendorCompatibility, label_if.
  set (start := if isAzure _ && _ then _ else _).
  assert (Hs : known_keys start).
  { unfold start. repeat case_match; repeat (apply known_insert; [|by auto]);
      intros k [x Hx]; by rewrite lookup_empty in Hx. }
  assert (Hf : forall l config, known_keys config -> known_keys (fold_left configure l config)).
  { induction l as [|[k v] l IH]; intros config H; cbn [fold_left]; [done|]. apply IH.
    rewrite configure_written. destruct (written (k, v)) as [[k' t]|] eqn:E; [|done].
    apply written_key in E as [E _]. apply known_insert; by auto. }
  destruct (isHuaweiOBSEndpoint _); [apply known_insert; [|by auto]|]; by apply Hf.
Qed.

(** C37. A storage location is configured with keys of Velero only, whatever the
    configuration the platform sends; and, where at most one field of it says how
    the bucket is addressed, with the same values in whatever order Go meets the
    entries of the map. *)
Theorem storage_configuration_is_well_defined order order' input manifests :
  enumerates order -> enumerates order' ->
  one_style (object_of (in_Command input) "config") ->
  BuildStorageManifests order input = inr manifests ->
  BuildStorageManifests order' input = inr manifests /\
  (forall key, is_Some (bsl_Config (sm_BackupStorageLocation manifests) !! key) ->
   isVeleroBSLConfigKey key = true \/ key = "storageAccount").
Proof.
  intros Ho Ho' Hone H. unfold BuildStorageManifests, BuildBackupStorageLocationManifest in *.
  rewrite (bsl_config_order order' order) by done. split; [exact H|].
  enough (Hc : bsl_Config (sm_BackupStorageLocation manifests) = bsl_config order (in_Command input))
    by (rewrite Hc; apply bsl_config_known).
  destruct (negb (nonempty (text_of _ "name"))); [done|].
  destruct (negb (nonempty (text_of _ "bucket"))); [done|]. cbn zeta in H.
  repeat case_match; by simplify_eq.
Qed.

(** With two such fields the location depends on the run. *)
Definition styled_command (fields : list (string * string)) : document :=
  {[ "name" := VStr "Primary"; "bucket" := VStr "backups"; "type" := VStr "S3";
     "endpoint" := VStr "minio:9000";
     "config" := VObj (list_to_map (prod_map id VStr <$> fields)) ]}.

Lemma storage_configuration_depends_on_the_order :
  exists order order' first second,
    enumerates order /\ enumerates order' /\
    let input := scope_input "task-1"
      (styled_command [("urlStyle", "virtual"); ("s3ForcePathStyle", "true")]) in
    BuildStorageManifests order input = inr first /\
    BuildStorageManifests order' input = inr second /\
    bsl_Config (sm_BackupStorageLocation first) !! "s3ForcePathStyle" = Some "false" /\
    bsl_Config (sm_BackupStorageLocation second) !! "s3ForcePathStyle" = Some "true".
Proof.
  exists map_to_list, (fun m => rev (map_to_list m)). do 2 eexists.
  split; [by intros m|]. split; [intros m; symmetry; apply Permutation_rev|].
  cbn zeta. split; [vm_compute; reflexivity|]. split; [vm_compute; reflexivity|].
  split; vm_compute; reflexivity.
Qed.

Lemma storage_configuration_is_well_defined_witness :
  exists manifests,
    BuildStorageManifests map_to_list (scope_input "task-1" (styled_command
      [("urlStyle", "path"); ("region", "eu-1"); ("prefix", "a/b"); ("colour", "red")])) =
      inr manifests /\
    BuildStorageManifests (fun m => rev (map_to_list m)) (scope_input "task-1" (styled_command
      [("urlStyle", "path"); ("region", "eu-1"); ("prefix", "a/b"); ("colour", "red")])) =
      inr manifests /\
    bsl_Config (sm_BackupStorageLocation manifests) !! "s3ForcePathStyle" = Some "true".
Proof.
  eexists. split; [vm_compute; reflexivity|]. split; [|vm_compute; reflexivity].
  apply (storage_configuration_is_well_defined map_to_list (fun m => rev (map_to_list m))).
  - by intros m.
  - intros m. symmetry; apply Permutation_rev.
  - intros k k' Hk Hk' H H'. unfold style_keys in *.
    repeat (apply elem_of_cons in Hk as [->|Hk]; [|]); try by apply not_elem_of_nil in Hk.
    all: repeat (apply elem_of_cons in Hk' as [->|Hk']; [|]); try by apply not_elem_of_nil in Hk'.
    all: try reflexivity; exfalso; vm_compute in H, H'; destruct H, H'; discriminate.
  - vm_compute; reflexivity.
Defined.
