(* ===== verification/Agent.v ===== *)
(** The agent as a program that talks to a cluster: what it asks (the interfaces
    of agent/comm-agent/internal/kube and the client's own ledger, locks and
    connection), what it is answered, and a logic for its runs.

    A task of the agent is a tree of calls.  Nothing is assumed of the answers:
    a run is the tree followed along the answers of an arbitrary environment,
    which may depend on everything that was asked before.  [wp] states of every
    run what holds of each call when it is made and of the history at the end. *)

From S2P Require Import Prelude Text Calendar Timestamp Value Velero.

(** ** What is exchanged *)

(** A Go error with what k8s.io/apimachinery/pkg/api/errors recognises in it:
    IsNotFound; IsTimeout, IsServerTimeout or IsTooManyRequests; IsForbidden or
    IsUnauthorized. *)
Record api_error := {
  err_text : string;
  err_missing : bool;
  err_busy : bool;
  err_denied : bool
}.

Definition new_error (text : string) : api_error :=
  {| err_text := text; err_missing := false; err_busy := false; err_denied := false |}.

(** [fmt.Errorf(prefix + "%w", err)]: the text grows, the recognised kind stays. *)
Definition wrap_error (prefix : string) (err : api_error) : api_error :=
  {| err_text := prefix +:+ err_text err; err_missing := err_missing err;
     err_busy := err_busy err; err_denied := err_denied err |}.

Record AppliedObject := {
  obj_APIVersion : string;
  obj_Kind : string;
  obj_Namespace : string;
  obj_Name : string
}.

Definition velero_object (kind namespace name : string) : AppliedObject :=
  {| obj_APIVersion := "velero.io/v1"; obj_Kind := kind; obj_Namespace := namespace;
     obj_Name := name |}.

Record ManifestStatus := {
  status_Phase : string;
  status_Message : string;
  status_Reason : string;
  status_Errors : Z;
  status_Warnings : Z;
  status_ItemsDone : Z;
  status_ItemsTotal : Z;
  status_Raw : document
}.

Record VolumeProgressItem := {
  item_Volume : string;
  item_Pod : string;
  item_Namespace : string;
  item_StartedAt : string;
  item_Kind : string;
  item_Name : string;
  item_Phase : string;
  item_BytesDone : Z;
  item_TotalBytes : Z;
  item_IncrementalBytes : Z;
  item_IncrementalKnown : bool;
  item_KnownTotal : bool;
  item_Message : string;
  item_ErrorCode : string;
  item_CreatedAt : time;
  item_ElapsedSeconds : Z
}.

Record VolumeProgress := {
  vol_DiscoveryComplete : bool;
  vol_DiscoveryCount : Z;
  vol_Items : list VolumeProgressItem;
  vol_BytesDone : Z;
  vol_TotalBytes : Z;
  vol_IncrementalBytes : Z;
  vol_IncrementalCount : Z;
  vol_KnownTotal : bool;
  vol_AllTotalsKnown : bool;
  vol_KnownTotalCount : Z;
  vol_UnknownTotalCount : Z;
  vol_RunningCount : Z;
  vol_FailedCount : Z;
  vol_Completed : Z
}.

Record BackupVolumeInfoStats := { info_VolumeBytes : Z; info_Accurate : bool }.

Record RestoreResultSummary := {
  summary_Key : string;
  summary_ErrorCount : Z;
  summary_WarningCount : Z;
  summary_Errors : list string;
  summary_Warnings : list string
}.

Record VeleroBackupSummary := {
  vb_Name : string;
  vb_Namespace : string;
  vb_Phase : string;
  vb_Labels : gmap string string;
  vb_CreatedAt : time;
  vb_StartedAt : time
}.

(** The fields of NamespaceReadiness and ReadinessObject the client reads; the
    content is the rest, which it passes on and compares. *)
Record ReadinessObject := {
  ro_Kind : string;
  ro_Name : string;
  ro_UID : string;
  ro_State : string;
  ro_Reason : string;
  ro_Container : string;
  ro_Since : time;
  ro_Content : document
}.

Record NamespaceReadiness := {
  ready_Namespace : string;
  ready_NamespacePhase : string;
  ready_Ready : bool;
  ready_Message : string;
  ready_PodCount : Z;
  ready_ReadyPodCount : Z;
  ready_WorkloadCount : Z;
  ready_ReadyWorkloads : Z;
  ready_Objects : list ReadinessObject;
  ready_FailureCode : string;
  ready_FailureMessage : string;
  ready_Content : document
}.

Record RestoreDataPathFailure := {
  dp_Code : string;
  dp_Message : string;
  dp_Pod : string;
  dp_Node : string;
  dp_LogDetail : string
}.

Record RestoreCachePreflightResult := {
  cache_Enabled : bool;
  cache_Usable : bool;
  cache_StorageClass : string;
  cache_ResidentThresholdMB : Z;
  cache_LimitMB : Z;
  cache_Message : string
}.

(** The result of measuring a plan's data, and the one it is reported as. *)
Record capacity_result := {
  cr_PlanID : string;
  cr_MetadataBytes : Z;
  cr_KopiaBytes : Z;
  cr_TotalBytes : Z;
  cr_CollectedAt : time;
  cr_Error : option string
}.

Record PlanCapacityResult := {
  pc_PlanID : string;
  pc_Status : string;
  pc_MetadataBytes : Z;
  pc_KopiaBytes : Z;
  pc_TotalBytes : Z;
  pc_CollectedAt : time;
  pc_ErrorMessage : string
}.

(** What decoding the next object of a bundle of definitions yields. *)
Inductive bundle_item :=
| BadItem (err : api_error)
| EmptyItem
| Unidentified (err : api_error)
| DefinitionItem (apiVersion kind name : string).

(** The objects the agent creates or updates. *)
Inductive manifest :=
| BackupObject (m : BackupManifest)
| ScheduleObject (m : ScheduleManifest)
| DeleteBackupRequestObject (m : DeleteBackupRequestManifest)
| RestoreObject (m : RestoreManifest)
| ModifierObject (m : ResourceModifierConfigMap)
| SecretObject (m : SecretManifest)
| StorageLocationObject (m : BackupStorageLocationManifest)
| CRDObject (name : string).

(** A dispatched task; each command is a field of [d_commands]. *)
Record dispatch := {
  d_TaskID : string;
  d_CommandID : string;
  d_Type : string;
  d_Deadline : time;
  d_commands : document
}.

Definition command_of (task : dispatch) (name : string) : option document :=
  match get (d_commands task) name with VObj command => Some command | _ => None end.

(** What the reports of a task carry. *)
Inductive report :=
| Accepted
| Progress (velero : document) (progress : Z) (message : string)
| CompletedReport (velero : document) (message : string)
| CapacityReport (plans : list PlanCapacityResult)
| FailedReport (code message : string) (details : document).

(** ** Calls *)

Inductive call :=
(* the clock *)
| Now
| Sleep (d : Z)
(* the connection, the ledger, the plan locks and the goroutines of the client *)
| Send (r : report)
| SendVeleroEvent (b : VeleroBackupSummary)
| RecordTask (planID : string) (object : AppliedObject)
| MarkBackupContext (planID : string)
| MarkCleanupPending (pending : bool)
| IsTerminalAcked (taskID : string)
| AcquirePlan (planID taskID : string)
| ReleasePlan (planID taskID : string)
| GoFinishCleanup (object : AppliedObject)
(* the interfaces of the cluster *)
| ApplyManifest (m : manifest)
| DeleteObject (object : AppliedObject)
| GetManifestStatus (object : AppliedObject)
| GetVolumeProgress (object : AppliedObject)
| ListVeleroBackups (namespace : string)
| RequireRWO (namespaces : list string)
| WaitForVeleroBackup (namespace name : string)
| WaitForVeleroBackupDeleted (namespace name : string)
| WaitForResourceModifier (namespace name : string)
| CleanupStaleRestoreState (agent source target current : string)
| ReplaceNamespaceAndWait (namespace : string)
| DeleteNamespaceAndWait (namespace : string)
| CancelRestoreVolumeOperations (namespace name : string)
| CancelBackupVolumeOperations (namespace name : string)
| PreflightRestoreCache (namespace : string)
| ApplyWorkloadImageMappings (namespace : string) (mappings : gmap string string)
| ApplyServiceNodePortMappings (namespace : string) (mappings : document)
| GetNamespaceReadiness (namespace : string) (restore : document)
| FindRestoreDataPathFailure (namespace name : string) (since : time)
| GetRestoreResultSummary (namespace storage name : string)
| GetBackupObjectStats (namespace storage name : string)
| GetBackupVolumeInfoStats (namespace storage name : string)
| DeleteVeleroBackupArtifacts (namespace : string) (names : list string)
| DeleteVeleroBackupArtifactsByNamePrefix (namespace prefix : string)
| DeleteBackupRepositories (namespace storage : string) (sources : list string)
| DeleteBackupObjectsByNamePrefix (namespace storage prefix : string)
| DeleteRestoreObjects (namespace storage : string) (names : list string)
| DeleteKopiaRepositories (namespace storage : string) (sources : list string)
| ConfigureCache (command : document)
| UpgradeAgent (options : document)
| Uninstall (command : document)
| Handover (action : string) (command : document)
| ReadCheckpoint
| WriteCheckpoint (report : list PlanCapacityResult)
| CollectPlanCapacity (namespace : string) (targets : list document)
| PrepareVeleroUpgrade (namespace : string)
| UpgradeVelero (options : document)
| UpgradeOADP (options : document)
| Download (url : string).

Inductive answer :=
| Done
| Failed (err : api_error)
| TimeIs (t : time)
| Flag (b : bool)
| Busy (taskID : string)
| Status (s : ManifestStatus)
| Volumes (v : VolumeProgress)
| Backups (l : list VeleroBackupSummary)
| Names (l : list string)
| NamesByKind (m : gmap string (list string))
| Amount (n : Z)
| VolumeInfo (s : BackupVolumeInfoStats)
| Summary (s : RestoreResultSummary)
| Readiness (r : NamespaceReadiness)
| DataPath (failure : option RestoreDataPathFailure)
| Cache (c : RestoreCachePreflightResult) (err : option api_error)
| Stages (l : list (string * string)) (err : option api_error)
| Checkpoint (taskID commandID : string) (report : list PlanCapacityResult)
| Malformed (text : string)
| Results (l : list capacity_result)
| Bundle (l : list bundle_item).

(** What the caller of each interface reads of an answer. *)
Definition error_of (r : answer) : option api_error :=
  match r with Failed err => Some err | _ => None end.
Definition time_is (r : answer) : time := match r with TimeIs t => t | _ => zero_time end.
Definition flag_is (r : answer) : bool := match r with Flag b => b | _ => false end.
Definition names_of (r : answer) : list string := match r with Names l => l | _ => [] end.
Definition status_of (r : answer) : ManifestStatus :=
  match r with
  | Status s => s
  | _ => {| status_Phase := ""; status_Message := ""; status_Reason := ""; status_Errors := 0;
            status_Warnings := 0; status_ItemsDone := 0; status_ItemsTotal := 0;
            status_Raw := ∅ |}
  end.
Definition read_status (r : answer) : api_error + ManifestStatus :=
  match r with Failed err => inl err | _ => inr (status_of r) end.
Definition amount_of (r : answer) : Z := match r with Amount n => n | _ => 0 end.

Definition read_amount (r : answer) : api_error + Z :=
  match r with Failed err => inl err | _ => inr (amount_of r) end.

(** ** Programs

    [Unfinished] is a loop whose fuel is used up. *)
Inductive prog (A : Type) : Type :=
| Ret (a : A)
| Unfinished
| Call (c : call) (k : answer -> prog A).
Arguments Ret {A} a.
Arguments Unfinished {A}.
Arguments Call {A} c k.

#[export] Instance prog_ret : MRet prog := @Ret.

Fixpoint prog_then {A B} (p : prog A) (f : A -> prog B) : prog B :=
  match p with
  | Ret a => f a
  | Unfinished => Unfinished
  | Call c k => Call c (fun r => prog_then (k r) f)
  end.
#[export] Instance prog_bind : MBind prog := fun A B f p => prog_then p f.

Definition ask (c : call) : prog answer := Call c Ret.
(** A call of which only the failure matters. *)
Definition attempt (c : call) : prog (option api_error) := Call c (fun r => Ret (error_of r)).
(** A call whose outcome is ignored. *)
Definition tell (c : call) : prog unit := Call c (fun _ => Ret tt).
Definition now : prog time := Call Now (fun r => Ret (time_is r)).
Definition sleep (d : Z) : prog unit := tell (Sleep d).

(** ** Runs

    A history lists what happened, the latest first. *)
Abbreviation history := (list (call * answer)).

(** An environment answers a call in view of what happened before. *)
Abbreviation environment := (history -> call -> answer).

(** [None]: the fuel of a loop was used up. *)
Fixpoint run {A} (env : environment) (p : prog A) (h : history) : history * option A :=
  match p with
  | Ret a => (h, Some a)
  | Unfinished => (h, None)
  | Call c k => let r := env h c in run env (k r) ((c, r) :: h)
  end.

Lemma run_then {A B} env (p : prog A) (f : A -> prog B) h :
  run env (p ≫= f) h =
  match run env p h with
  | (h', Some a) => run env (f a) h'
  | (h', None) => (h', None)
  end.
Proof. revert h. induction p as [a| |c k IH]; intros h; [done|done|]. apply IH. Qed.

(** ** A logic for runs *)

Section logic.
(** [rely] is what is known of answers, [guar] what is claimed of calls. *)
Context (rely : history -> call -> answer -> Prop) (guar : history -> call -> Prop).

(** [unfinished] is what is claimed of a run whose fuel is used up. *)
Fixpoint wp {A} (unfinished : Prop) (p : prog A) (Q : history -> A -> Prop) (h : history) : Prop :=
  match p with
  | Ret a => Q h a
  | Unfinished => unfinished
  | Call c k => guar h c /\ forall r, rely h c r -> wp unfinished (k r) Q ((c, r) :: h)
  end.

Lemma wp_mono {A} F (p : prog A) (P Q : history -> A -> Prop) h :
  wp F p P h -> (forall h a, P h a -> Q h a) -> wp F p Q h.
Proof.
  intros H HPQ. revert h H. induction p as [a| |c k IH]; intros h H; cbn in *; [by apply HPQ|done|].
  destruct H as [Hg H]. split; [done|]. intros r Hr. by apply IH, H.
Qed.

Lemma wp_then {A B} F (p : prog A) (f : A -> prog B) Q h :
  wp F p (fun h a => wp F (f a) Q h) h -> wp F (p ≫= f) Q h.
Proof.
  revert h. induction p as [a| |c k IH]; intros h H; cbn in *; [done|done|].
  destruct H as [Hg H]. split; [done|]. intros r Hr. by apply IH, H.
Qed.

(** Running one program after another that is known to do [P]. *)
Lemma wp_seq {A B} F (p : prog A) (f : A -> prog B) P Q h :
  wp F p P h -> (forall h a, P h a -> wp F (f a) Q h) -> wp F (p ≫= f) Q h.
Proof. intros Hp Hf. by apply wp_then, (wp_mono _ _ P). Qed.

(** Every call of a history was made in the way that is claimed. *)
Fixpoint kept (h : history) : Prop :=
  match h with
  | [] => True
  | (c, _) :: h => guar h c /\ kept h
  end.

Definition answers (env : environment) : Prop := forall h c, rely h c (env h c).

Theorem wp_run {A} (F : Prop) env (p : prog A) Q h :
  answers env -> kept h -> wp F p Q h ->
  kept (run env p h).1 /\ match (run env p h).2 with Some a => Q (run env p h).1 a | None => F end.
Proof.
  intros Henv. revert h. induction p as [a| |c k IH]; intros h Hh H; cbn in *; [done|done|].
  destruct H as [Hg H]. apply IH; [done|]. by apply H.
Qed.

Lemma kept_call h1 c r h2 : kept (h1 ++ (c, r) :: h2) -> guar h2 c.
Proof. induction h1 as [|[c' r'] h1 IH]; cbn; [by intros [? _]|]. intros [_ H]. by apply IH. Qed.

End logic.

(** Nothing is known of the answers. *)
Definition any_answer (_ : history) (_ : call) (_ : answer) : Prop := True.

Lemma any_answers env : answers any_answer env.
Proof. done. Qed.

(** A call was made, with an answer of some kind. *)
Definition happened (c : call) (P : answer -> Prop) (h : history) : Prop :=
  exists r, (c, r) ∈ h /\ P r.

(** It was answered without an error. *)
Definition succeeded (r : answer) : Prop := error_of r = None.

Lemma happened_cons c P x h : happened c P h -> happened c P (x :: h).
Proof. intros (r & H & ?). exists r. split; [by right|done]. Qed.

Lemma happened_now c r P h : P r -> happened c P ((c, r) :: h).
Proof. intros H. exists r. split; [left|done]. Qed.

#[export] Hint Resolve happened_cons happened_now : agent.

(** Programs that make calls of one kind only. *)
Fixpoint only {A} (P : call -> Prop) (p : prog A) : Prop :=
  match p with
  | Ret _ | Unfinished => True
  | Call c k => P c /\ forall r, only P (k r)
  end.

Lemma only_then {A B} P (p : prog A) (f : A -> prog B) :
  only P p -> (forall a, only P (f a)) -> only P (p ≫= f).
Proof.
  intros Hp Hf. induction p as [a| |c k IH]; [apply Hf|done|].
  destruct Hp as [Hc Hp]. split; [done|]. intros r. by apply IH.
Qed.

Lemma only_attempt P c : P c -> only P (attempt c).
Proof. by split. Qed.
Lemma only_ask P c : P c -> only P (ask c).
Proof. by split. Qed.
Lemma only_tell P c : P c -> only P (tell c).
Proof. by split. Qed.
Lemma only_ret {A} P (a : A) : only P (mret a).
Proof. done. Qed.

Lemma happened_suffix c P h h' : h `suffix_of` h' -> happened c P h -> happened c P h'.
Proof.
  intros [k ->] (r & Hr & H). exists r. split; [|done]. rewrite elem_of_app. by right.
Qed.
