(* ===== verification/AgentReports.v ===== *)
(** What the agent reports: the payloads it builds of manifests and statuses, the
    progress of volumes, the sizes of a finished backup and the stages of a
    recovery (agent/comm-agent/internal/wsclient/client.go).

    float64 is the standard's specification of binary64; int64 arithmetic is
    exact, its inputs being sizes and counts.  A Go struct put into a payload is
    the object it marshals to. *)

From S2P Require Import Prelude Text Calendar Timestamp Value Storage Velero Agent.
From Stdlib Require Import SpecFloat.

(** ** float64 *)

Abbreviation f64 := spec_float.

Definition float (z : Z) : f64 := binary_normalize 53 1024 z 0 false.
Definition fadd : f64 -> f64 -> f64 := SFadd 53 1024.
Definition fsub : f64 -> f64 -> f64 := SFsub 53 1024.
Definition fmul : f64 -> f64 -> f64 := SFmul 53 1024.
Definition fdiv : f64 -> f64 -> f64 := SFdiv 53 1024.
Definition fzero : f64 := float 0.

(** [int64(f)]: the fraction is cut off. *)
Definition truncate (f : f64) : Z :=
  match f with
  | S754_finite s m e =>
      let n := if 0 <=? e then Zpos m * 2 ^ e else Zpos m / 2 ^ (- e) in
      if s then - n else n
  | _ => 0
  end.

(** [%.1f] of a number that is not negative: the nearest tenth, to the even one
    in the middle. *)
Definition tenths (f : f64) : Z :=
  match f with
  | S754_finite _ m e =>
      if 0 <=? e then Zpos m * 2 ^ e * 10
      else
        let d := 2 ^ (- e) in
        let q := Zpos m * 10 / d in
        let r := Zpos m * 10 mod d in
        if 2 * r <? d then q
        else if d <? 2 * r then q + 1
        else if Z.even q then q else q + 1
  | _ => 0
  end.
Definition one_decimal (f : f64) : string :=
  sprint_num (tenths f / 10) +:+ "." +:+ sprint_num (tenths f mod 10).

(** [d.Seconds()]. *)
Definition Seconds (d : Z) : f64 :=
  fadd (float (Z.quot d second)) (fdiv (float (Z.rem d second)) (float second)).

(** ** Payloads *)

Definition fields (l : list (string * value)) : document := list_to_map l.
Definition put (b : bool) (key : string) (v : value) (m : document) : document :=
  if b then <[key := v]> m else m.

Definition some_texts (l : list string) : bool := match l with [] => false | _ => true end.
Definition some_fields (m : gmap string string) : bool := negb (bool_decide (m = ∅)).

Definition cloneVeleroPayload (input : document) : document := input.

Definition manifestPayload (kind name namespace : string) : document :=
  {[ "kind" := VStr kind; "name" := VStr name; "namespace" := VStr namespace ]}.

Definition metadata_json (m : ManifestMetadata) : value :=
  VObj (put (some_fields (meta_Labels m)) "labels" (VStrMap (meta_Labels m))
    {[ "name" := VStr (meta_Name m); "namespace" := VStr (meta_Namespace m) ]}).

Definition put_texts (key : string) (l : list string) : document -> document :=
  put (some_texts l) key (VStrs l).
Definition put_flag (key : string) (b : option bool) (m : document) : document :=
  match b with Some b => <[key := VBool b]> m | None => m end.

Definition backup_spec_json (s : BackupManifestSpec) : value :=
  VObj
    (put_texts "includedResources" (spec_IncludedResources s)
    (put_texts "excludedResources" (spec_ExcludedResources s)
    (put_texts "includedClusterScopedResources" (spec_IncludedClusterScopedResources s)
    (put_texts "includedNamespaceScopedResources" (spec_IncludedNamespaceScopedResources s)
    (put_texts "excludedClusterScopedResources" (spec_ExcludedClusterScopedResources s)
    (put_texts "excludedNamespaceScopedResources" (spec_ExcludedNamespaceScopedResources s)
    (put (nonempty (spec_StorageLocation s)) "storageLocation" (VStr (spec_StorageLocation s))
    (put_flag "includeClusterResources" (spec_IncludeClusterResources s)
    (put_flag "snapshotVolumes" (spec_SnapshotVolumes s)
    (put_flag "defaultVolumesToFsBackup" (spec_DefaultVolumesToFsBackup s)
    (match spec_LabelSelector s with
     | Some selector => <["labelSelector" := VObj selector]>
     | None => id
     end
    (match spec_TemplateLabels s with
     | Some labels => <["metadata" := VObj (put (some_fields labels) "labels" (VStrMap labels) ∅)]>
     | None => id
     end
    {[ "includedNamespaces" := VStrs (spec_IncludedNamespaces s) ]})))))))))))).

Definition object_json (apiVersion kind : string) (metadata : ManifestMetadata) (spec : value)
    : value :=
  VObj {[ "apiVersion" := VStr apiVersion; "kind" := VStr kind;
          "metadata" := metadata_json metadata; "spec" := spec ]}.

Definition backup_json (m : BackupManifest) : value :=
  object_json "velero.io/v1" "Backup" (backup_Metadata m) (backup_spec_json (backup_Spec m)).

Definition restore_spec_json (s : RestoreManifestSpec) : value :=
  VObj
    (put_texts "includedNamespaces" (spec_RestoredNamespaces s)
    (put (some_fields (spec_NamespaceMapping s)) "namespaceMapping"
       (VStrMap (spec_NamespaceMapping s))
    (put (nonempty (spec_ExistingResourcePolicy s)) "existingResourcePolicy"
       (VStr (spec_ExistingResourcePolicy s))
    (put_flag "preserveNodePorts" (spec_PreserveNodePorts s)
    (put_texts "includedResources" (spec_RestoredResources s)
    (put_texts "excludedResources" (spec_SkippedResources s)
    {[ "backupName" := VStr (spec_BackupName s);
       "includeClusterResources" := VBool (spec_RestoreClusterResources s);
       "resourceModifier" := VObj {[ "apiGroup" := VStr ""; "kind" := VStr "configmap";
                                     "name" := VStr (spec_ResourceModifier s) ]} ]})))))).

Definition restore_json (m : RestoreManifest) : value :=
  object_json "velero.io/v1" "Restore" (restore_Metadata m) (restore_spec_json (restore_Spec m)).

Definition storage_json (m : BackupStorageLocationManifest) : value :=
  object_json "velero.io/v1" "BackupStorageLocation" (bsl_Metadata m)
    (VObj
      (put (some_fields (bsl_Config m)) "config" (VStrMap (bsl_Config m))
      (match bsl_Credential m with
       | Some name => <["credential" := VObj {[ "name" := VStr name; "key" := VStr "cloud" ]}]>
       | None => id
       end
      {[ "provider" := VStr (bsl_Provider m);
         "objectStorage" := VObj (put (nonempty (bsl_Prefix m)) "prefix" (VStr (bsl_Prefix m))
           {[ "bucket" := VStr (bsl_Bucket m) ]});
         "validationFrequency" := VStr "3m"; "backupSyncPeriod" := VStr "3m";
         "accessMode" := VStr "ReadWrite" ]}))).

Definition described (kind : string) (meta : ManifestMetadata) (json : value)
    (includeManifest : bool) : document :=
  put includeManifest "manifest" json (manifestPayload kind (meta_Name meta) (meta_Namespace meta)).

Definition backupVeleroPayload (m : BackupManifest) (includeManifest : bool) : document :=
  described "Backup" (backup_Metadata m) (backup_json m) includeManifest.
Definition restoreVeleroPayload (m : RestoreManifest) (includeManifest : bool) : document :=
  described "Restore" (restore_Metadata m) (restore_json m) includeManifest.
Definition storageVeleroPayload (m : BackupStorageLocationManifest) (includeManifest : bool)
    : document :=
  described "BackupStorageLocation" (bsl_Metadata m) (storage_json m) includeManifest.

Definition wsMapFromAny (v : value) : document := match v with VObj m => m | _ => ∅ end.

Definition mapFromAnyViaJSON (v : value) : document :=
  let mapped := wsMapFromAny v in
  if negb (bool_decide (mapped = ∅)) then mapped
  else match jsonify v with VObj m => m | _ => ∅ end.

Definition backupStorageLocationFromPayload (payload : document) : string :=
  let direct := as_string (get payload "storageLocation") in
  if nonempty (TrimSpace direct) then direct
  else
    let manifest := mapFromAnyViaJSON (get payload "manifest") in
    let value := as_string (get (wsMapFromAny (get manifest "spec")) "storageLocation") in
    if nonempty (TrimSpace value) then value else "".

(** The plan without its dashes ([strings.ReplaceAll]), under the prefix of the platform's names. *)
Definition backupNamePrefixForPlan (planID : string) : string :=
  let planID := TrimSpace planID in
  if negb (nonempty planID) then ""
  else if HasPrefix planID "hcdr-" then remove_char dash planID
  else "hcdr-" +:+ remove_char dash planID.

(** ** Phases *)

Definition terminal_phase (phase : string) : bool :=
  one_of phase ["Completed"; "PartiallyFailed"; "Failed"; "FailedValidation"; "Canceled"].
Definition isTerminalBackupPhase : string -> bool := terminal_phase.
Definition isTerminalRestorePhase : string -> bool := terminal_phase.

Definition isActiveBackupPhase (phase : string) : bool :=
  one_of phase [""; "New"; "InProgress"; "WaitingForPluginOperations";
    "WaitingForPluginOperationsPartiallyFailed"; "Finalizing"].

Definition isHyperCDRBackup (labels : gmap string string) : bool :=
  (default "" (labels !! "hypercdr.io/managed-by") =s "hypercdr") ||
  nonempty (default "" (labels !! "hypercdr.io/plan-id")).

Definition progressFromElapsed (elapsed : Z) : Z :=
  Z.min (30 + Z.quot elapsed (15 * second) * 10) 85.

(** What a status means for the task: whether it is terminal, and then a success;
    the progress, the message and the error code. *)
Record decision := {
  dec_terminal : bool;
  dec_success : bool;
  dec_progress : Z;
  dec_message : string;
  dec_code : string
}.

Definition observing (progress : Z) (message : string) : decision :=
  {| dec_terminal := false; dec_success := false; dec_progress := progress;
     dec_message := message; dec_code := "" |}.
Definition concluded (success : bool) (progress : Z) (message code : string) : decision :=
  {| dec_terminal := true; dec_success := success; dec_progress := progress;
     dec_message := message; dec_code := code |}.

Definition failed_phase (phase : string) : bool :=
  one_of phase ["FailedValidation"; "Failed"; "PartiallyFailed"].

Definition backupStatusResult (status : ManifestStatus) (elapsed : Z) : decision :=
  let phase := status_Phase status in
  if phase =s "Completed" then concluded true 100 "Backup completed successfully." ""
  else if failed_phase phase then concluded false 100 "velero backup failed" "BACKUP_FAILED"
  else if phase =s "InProgress" then observing 70 "Application resource backup is in progress."
  else if one_of phase ["Finalizing"; "FinalizingPartiallyFailed"]
  then observing 90 "Backup finalization is in progress."
  else if phase =s "New" then observing 30 "Backup operation queued."
  else observing (progressFromElapsed elapsed) "Waiting for the backup operation to start.".

Definition restoreStatusResult (status : ManifestStatus) (_ : Z) : decision :=
  let phase := status_Phase status in
  if phase =s "Completed" then concluded true 0 "Resource restoration completed successfully." ""
  else if failed_phase phase then concluded false 0 "velero restore failed" "RESTORE_FAILED"
  else if phase =s "InProgress"
  then observing 0 "Application resource restoration is in progress."
  else if one_of phase ["Finalizing"; "FinalizingPartiallyFailed"]
  then observing 0 "Resource restoration finalization is in progress."
  else if phase =s "New" then observing 0 "Restore operation queued."
  else observing 0 "Waiting for the restore operation to start.".

Definition storageStatusResult (status : ManifestStatus) (elapsed : Z) : decision :=
  let phase := status_Phase status in
  if phase =s "Available" then concluded true 100 "backup storage location available" ""
  else if phase =s "Unavailable"
  then concluded false 100 "backup storage location unavailable" "BSL_UNAVAILABLE"
  else observing (progressFromElapsed elapsed) "waiting for backup storage location validation".

Definition usesVolumeProgress (object : AppliedObject) : bool :=
  one_of (obj_Kind object) ["Backup"; "Restore"].

Definition veleroPollInterval (object : AppliedObject) : Z :=
  if usesVolumeProgress object then 2 * second else 5 * second.

Definition manifestItemProgressPercent (status : ManifestStatus) : Z :=
  if (status_ItemsTotal status <=? 0) || (status_ItemsDone status <=? 0) then 0
  else Z.min (Z.quot (status_ItemsDone status * 100) (status_ItemsTotal status)) 100.

Definition manifestItemProgress (status : ManifestStatus) : Z :=
  let percent := manifestItemProgressPercent status in
  if (99 <? percent) && negb (isTerminalBackupPhase (status_Phase status)) &&
     negb (isTerminalRestorePhase (status_Phase status))
  then 99 else percent.

Definition status_json (status : ManifestStatus) : value :=
  VObj {[ "phase" := VStr (status_Phase status); "message" := VStr (status_Message status);
          "reason" := VStr (status_Reason status); "errors" := VNum (status_Errors status);
          "warnings" := VNum (status_Warnings status); "raw" := VObj (status_Raw status) ]}.

(** ** Volume progress *)

Record volumeProgressSample := { sample_bytesDone : Z; sample_observed : time }.

Definition estimateBytesPerSecond (samples : list volumeProgressSample) : f64 :=
  match samples, last samples with
  | first :: _ :: _, Some latest =>
      let seconds := Seconds (sample_observed latest - sample_observed first) in
      if SFleb seconds fzero || (sample_bytesDone latest <=? sample_bytesDone first) then fzero
      else fdiv (float (sample_bytesDone latest - sample_bytesDone first)) seconds
  | _, _ => fzero
  end.

(** The samples of the last minute; two are always kept. *)
Definition keep_samples (now : time) (samples : list volumeProgressSample)
    : list volumeProgressSample :=
  List.filter (fun sample =>
    (now - 60 * second <? sample_observed sample) || (length samples <=? 2)%nat) samples.

Fixpoint scaled (units : list string) (amount : f64) : string :=
  match units with
  | [] => one_decimal (fdiv amount (float 1024)) +:+ " PiB"
  | suffix :: units =>
      let amount := fdiv amount (float 1024) in
      if SFltb amount (float 1024) then one_decimal amount +:+ " " +:+ suffix
      else scaled units amount
  end.

Definition formatBytes (value : Z) : string :=
  if value <? 1024 then sprint_num value +:+ " B"
  else scaled ["KiB"; "MiB"; "GiB"; "TiB"] (float value).

Definition formatDuration (seconds : Z) : string :=
  let minutes := Z.quot seconds 60 in
  if seconds <? 60 then sprint_num seconds +:+ "s"
  else if minutes <? 60
  then sprint_num minutes +:+ "m " +:+ sprint_num (Z.rem seconds 60) +:+ "s"
  else sprint_num (Z.quot minutes 60) +:+ "h " +:+ sprint_num (Z.rem minutes 60) +:+ "m".

Definition at_speed (speed : f64) : string :=
  if SFltb fzero speed then " at " +:+ formatBytes (truncate speed) +:+ "/s" else "".

Definition volumeProgressMessage (operation : string) (progress : VolumeProgress) (speed : f64)
    (etaSeconds percent : Z) : string :=
  let done := formatBytes (vol_BytesDone progress) in
  if operation =s "backup"
  then "Backing up volume data: processed " +:+ done +:+
       ". Per-volume sizes are estimates until backup completes."
  else
    let verb := if operation =s "restore" then "Restoring" else "Processing" in
    if vol_KnownTotal progress && (0 <? vol_TotalBytes progress) then
      verb +:+ " volume data " +:+ done +:+ " / " +:+ formatBytes (vol_TotalBytes progress) +:+
      (if 0 <? percent then " (" +:+ sprint_num percent +:+ "%)" else "") +:+ at_speed speed +:+
      (if 0 <? etaSeconds then ", about " +:+ formatDuration etaSeconds +:+ " remaining" else "")
    else if vol_BytesDone progress <=? 0 then "Volume data transfer is being prepared."
    else verb +:+ " volume data " +:+ done +:+ at_speed speed.

Definition item_json (item : VolumeProgressItem) : value :=
  VObj (fields
    [("kind", VStr (item_Kind item)); ("volume", VStr (item_Volume item));
     ("pod", VStr (item_Pod item)); ("namespace", VStr (item_Namespace item));
     ("startedAt", VStr (item_StartedAt item)); ("name", VStr (item_Name item));
     ("phase", VStr (item_Phase item)); ("bytesDone", VNum (item_BytesDone item));
     ("totalBytes", VNum (item_TotalBytes item));
     ("incrementalBytes", VNum (item_IncrementalBytes item));
     ("incrementalKnown", VBool (item_IncrementalKnown item));
     ("knownTotal", VBool (item_KnownTotal item)); ("message", VStr (item_Message item));
     ("errorCode", VStr (item_ErrorCode item)); ("createdAt", VTime (item_CreatedAt item));
     ("elapsedSeconds", VNum (item_ElapsedSeconds item))]).

Definition volume_percent (progress : VolumeProgress) : Z :=
  if vol_AllTotalsKnown progress && (0 <? vol_TotalBytes progress) then
    let percent := Z.quot (vol_BytesDone progress * 100) (vol_TotalBytes progress) in
    if (99 <? percent) && (vol_BytesDone progress <? vol_TotalBytes progress) then 99 else percent
  else 0.

Definition volume_json (operation : string) (progress : VolumeProgress) (speed : f64)
    (etaSeconds : Z) : document :=
  fields
    [("discoveryComplete", VBool (vol_DiscoveryComplete progress));
     ("discoveryCount", VNum (vol_DiscoveryCount progress)); ("operation", VStr operation);
     ("bytesDone", VNum (vol_BytesDone progress));
     ("totalBytes", VNum (vol_TotalBytes progress));
     ("incrementalBytes", VNum (vol_IncrementalBytes progress));
     ("incrementalCount", VNum (vol_IncrementalCount progress));
     ("knownTotal", VBool (vol_KnownTotal progress));
     ("allTotalsKnown", VBool (vol_AllTotalsKnown progress));
     ("knownTotalCount", VNum (vol_KnownTotalCount progress));
     ("unknownTotalCount", VNum (vol_UnknownTotalCount progress));
     ("percent", VNum (volume_percent progress)); ("speedBytesPerSecond", VNum (truncate speed));
     ("etaSeconds", VNum etaSeconds);
     ("itemCount", VNum (Z.of_nat (length (vol_Items progress))));
     ("runningCount", VNum (vol_RunningCount progress));
     ("completedCount", VNum (vol_Completed progress));
     ("failedCount", VNum (vol_FailedCount progress));
     ("items", VList (item_json <$> vol_Items progress))].

(** The payload, the progress of the task and the message; [None] where there is
    nothing to tell, in particular where there are no volumes. *)
Definition buildVolumeProgressPayload (reader : bool) (object : AppliedObject)
    (samples : list volumeProgressSample)
    : prog (option (document * Z * string) * list volumeProgressSample) :=
  if negb reader || negb (usesVolumeProgress object) then mret (None, samples)
  else
    r ← ask (GetVolumeProgress object);
    match r with
    | Volumes progress =>
        match vol_Items progress with
        | [] => mret (None, samples)
        | _ =>
            t ← now;
            let operation := if obj_Kind object =s "Backup" then "backup" else "restore" in
            let samples := keep_samples t (samples ++
              [{| sample_bytesDone := vol_BytesDone progress; sample_observed := t |}]) in
            let speed := estimateBytesPerSecond samples in
            let eta :=
              if vol_KnownTotal progress && (vol_BytesDone progress <? vol_TotalBytes progress) &&
                 SFltb fzero speed
              then truncate (fdiv (float (vol_TotalBytes progress - vol_BytesDone progress)) speed)
              else 0 in
            let percent := volume_percent progress in
            let taskProgress :=
              if (99 <? percent) && (vol_BytesDone progress <? vol_TotalBytes progress) then 99
              else percent in
            mret (Some (volume_json operation progress speed eta, taskProgress,
                        volumeProgressMessage operation progress speed eta percent), samples)
        end
    | _ => mret (None, samples)
    end.

Definition evident (s : string) : bool := nonempty s && (s <>s "<nil>").

(** The last error code up to the first item with a message. *)
Fixpoint volume_failure_details (items : list value) (code message : string) : string * string :=
  match items with
  | [] => (code, message)
  | item :: items =>
      let item := wsMapFromAny item in
      let itemCode := TrimSpace (sprint (get item "errorCode")) in
      let code := if evident itemCode then itemCode else code in
      let detail := TrimSpace (sprint (get item "message")) in
      if evident detail then (code, detail) else volume_failure_details items code message
  end.

Definition restoreVolumeFailureDetails (volumePayload : document) : string * string :=
  volume_failure_details (match get volumePayload "items" with VList l => l | _ => [] end)
    "RESTORE_VOLUME_DEPENDENCY_MISSING" "Volume data restore validation failed.".

(** ** Sizes of a finished backup *)

Definition volumeSizeAccuracy (volumeProgress : document) : string :=
  if bool_decide (volumeProgress = ∅) then "unknown"
  else if as_bool (get volumeProgress "allTotalsKnown") then "accurate"
  else if as_bool (get volumeProgress "knownTotal") then "partial"
  else "estimated".

Definition finalVolumeBytesFromProgress (volumeProgress : document) : Z * string :=
  let totalBytes := int64FromAny (get volumeProgress "totalBytes") in
  if bool_decide (volumeProgress = ∅) then (0, "unknown")
  else if as_bool (get volumeProgress "allTotalsKnown") && (0 <? totalBytes)
  then (totalBytes, "accurate")
  else (0, volumeSizeAccuracy volumeProgress).

Definition size_warning (b : bool) (scope code message : string) : list value :=
  if b then [VObj {[ "scope" := VStr scope; "code" := VStr code; "message" := VStr message ]}]
  else [].

(** What the statistics of the object store say: the bytes of the metadata, or
    why they are not known; why the volume information is not, or its bytes. *)
Definition size_payload (objects : Z * string) (volumeInfoError : string)
    (volumes : Z * string) (volumeProgress payload : document) : document :=
  let '(metadataBytes, objectsError) := objects in
  let '(volumeBytes, accuracy) := volumes in
  let volumeCount := int64FromAny (get volumeProgress "itemCount") in
  let incrementalKnownCount := int64FromAny (get volumeProgress "incrementalCount") in
  let metadataOnly := bool_decide (is_Some (volumeProgress !! "itemCount")) &&
                      (volumeCount =? 0) && (volumeBytes =? 0) in
  let accuracy := if metadataOnly then "accurate" else accuracy in
  let uploadedVolumeBytes :=
    if metadataOnly then 0
    else if 0 <? incrementalKnownCount
    then Z.max 0 (int64FromAny (get volumeProgress "incrementalBytes"))
    else volumeBytes in
  let totalBytes := metadataBytes + volumeBytes in
  let inaccurate := accuracy <>s "accurate" in
  let warnings :=
    size_warning (nonempty objectsError) "restorePointSize.metadataBytes"
      "METADATA_SIZE_SCAN_FAILED" objectsError ++
    size_warning (nonempty volumeInfoError) "restorePointSize.volumeBytes"
      "VOLUME_INFO_READ_FAILED" volumeInfoError ++
    size_warning inaccurate "restorePointSize.volumeBytes" "VOLUME_SIZE_NOT_ACCURATE"
      "volume size was not available from Velero backup volume info" in
  let restorePointSize : document :=
    {[ "totalBytes" := VNum totalBytes; "metadataBytes" := VNum metadataBytes;
       "volumeBytes" := VNum volumeBytes;
       "uploadedBytes" := VNum (metadataBytes + uploadedVolumeBytes);
       "uploadedMetadataBytes" := VNum metadataBytes;
       "uploadedVolumeBytes" := VNum uploadedVolumeBytes; "volumeCount" := VNum volumeCount;
       "incrementalKnownCount" := VNum incrementalKnownCount;
       "allIncrementalKnown" :=
         VBool (metadataOnly || ((0 <? volumeCount) && (incrementalKnownCount =? volumeCount))) ]} in
  delete "volumeProgress"
    (<["sizeBytes" := VNum totalBytes]>
    (<["restorePointSize" := VObj restorePointSize]>
    (put (negb (bool_decide (warnings = []))) "sizeWarnings" (VList warnings)
    (<["sizeStatus" :=
         VStr (if nonempty objectsError || inaccurate then "partial" else "complete")]>
     payload)))).

Definition attachBackupSizeStats (reader : bool) (object : AppliedObject) (payload : document)
    : prog document :=
  if obj_Kind object <>s "Backup" then mret payload
  else
    let storageLocation := backupStorageLocationFromPayload payload in
    let volumeProgress := wsMapFromAny (get payload "volumeProgress") in
    let volumes := finalVolumeBytesFromProgress volumeProgress in
    if reader && nonempty storageLocation then
      stats ← ask (GetBackupObjectStats (obj_Namespace object) storageLocation (obj_Name object));
      info ← ask (GetBackupVolumeInfoStats (obj_Namespace object) storageLocation
                    (obj_Name object));
      let objects := match stats with Failed err => (0, err_text err) | _ => (amount_of stats, "") end in
      let infoError := match info with Failed err => err_text err | _ => "" end in
      let volumes := match info with
                     | VolumeInfo i => if info_Accurate i then (info_VolumeBytes i, "accurate") else volumes
                     | _ => volumes
                     end in
      mret (size_payload objects infoError volumes volumeProgress payload)
    else mret (size_payload (0, "") "" volumes volumeProgress payload).

(** ** Progress and completion metrics *)

Definition isRecoveryTask (taskType : string) : bool :=
  one_of taskType ["restore"; "drill"; "takeover"; "failback"].
Definition isBackupTask (taskType : string) : bool := EqualFold (TrimSpace taskType) "backup".

Record taskProgressMetricSet := {
  m_totalBytes : Z;
  m_syncedBytes : Z;
  m_speedBytesPerSecond : f64;
  m_percent : f64;
  m_etaSeconds : Z
}.

Definition taskProgressMetrics (velero : document) : taskProgressMetricSet :=
  let volume := wsMapFromAny (get velero "volumeProgress") in
  if bool_decide (volume = ∅)
  then {| m_totalBytes := 0; m_syncedBytes := 0; m_speedBytesPerSecond := fzero;
          m_percent := fzero; m_etaSeconds := 0 |}
  else
    let known := as_bool (get volume "knownTotal") && as_bool (get volume "allTotalsKnown") in
    let total := int64FromAny (get volume "totalBytes") in
    let synced := int64FromAny (get volume "bytesDone") in
    let totalBytes := if negb known || (total <=? 0) then 0 else total in
    let percent :=
      if known && (0 <? totalBytes) then
        let p := fdiv (fmul (float synced) (float 100)) (float totalBytes) in
        if SFltb (float 100) p then float 100 else p
      else fzero in
    {| m_totalBytes := totalBytes; m_syncedBytes := synced;
       m_speedBytesPerSecond := float (int64FromAny (get volume "speedBytesPerSecond"));
       m_percent := percent; m_etaSeconds := int64FromAny (get volume "etaSeconds") |}.

Record SizeProgressV2 := {
  spv_Operation : string;
  spv_Phase : string;
  spv_ProcessedBytes : Z;
  spv_TotalBytes : Z;
  spv_TotalKnown : bool;
  spv_BytesPerSecond : f64;
  spv_EtaSeconds : Z;
  spv_TotalVolumes : Z;
  spv_RunningVolumes : Z;
  spv_CompletedVolumes : Z;
  spv_FailedVolumes : Z;
  spv_ObservedAt : time
}.

Definition sizeProgressV2 (now : time) (taskType : string) (velero : document)
    (metrics : taskProgressMetricSet) : option SizeProgressV2 :=
  let volume := wsMapFromAny (get velero "volumeProgress") in
  if bool_decide (volume = ∅) then None
  else
    let phase := TrimSpace (as_string (get velero "phase")) in
    let phase := if nonempty phase then phase
                 else as_string (get (wsMapFromAny (get velero "status")) "phase") in
    Some {| spv_Operation := if isRecoveryTask taskType then "restore" else "backup";
            spv_Phase := phase; spv_ProcessedBytes := m_syncedBytes metrics;
            spv_TotalBytes := m_totalBytes metrics; spv_TotalKnown := 0 <? m_totalBytes metrics;
            spv_BytesPerSecond := m_speedBytesPerSecond metrics;
            spv_EtaSeconds := m_etaSeconds metrics;
            spv_TotalVolumes := int64FromAny (get volume "itemCount");
            spv_RunningVolumes := int64FromAny (get volume "runningCount");
            spv_CompletedVolumes := int64FromAny (get volume "completedCount");
            spv_FailedVolumes := int64FromAny (get volume "failedCount"); spv_ObservedAt := now |}.

(** The share of the data a backup did not have to upload. *)
Definition reuse_ratio (newTotal logicalTotal : Z) : f64 :=
  let ratio := fsub (float 1) (fdiv (float newTotal) (float logicalTotal)) in
  let ratio := if SFltb ratio fzero then fzero else ratio in
  if SFltb (float 1) ratio then float 1 else ratio.

Definition sizes_known (size : document) : bool :=
  let itemCount := int64FromAny (get size "volumeCount") in
  let knownCount := int64FromAny (get size "incrementalKnownCount") in
  match get size "allIncrementalKnown" with
  | VBool b => b
  | _ => (itemCount =? 0) || (knownCount =? itemCount)
  end.

(** Zero amounts are left out of the JSON. *)
Definition put_amount (key : string) (z : Z) : document -> document :=
  put (negb (z =? 0)) key (VNum z).

Definition size_value (total metadata volume : Z) (known : bool) : value :=
  VObj (put_amount "totalBytes" total (put_amount "metadataBytes" metadata
    (put_amount "volumeBytes" volume {[ "known" := VBool known ]}))).

Section metrics.
(** How a payload holds a fraction. *)
Context (fraction : f64 -> value).

Definition sizeMetricsV2 (now : time) (taskType : string) (velero : document) : option document :=
  let nonempty_doc (m : document) := negb (bool_decide (m = ∅)) in
  let point := wsMapFromAny (get velero "restorePointSize") in
  let size := if nonempty_doc point then point else wsMapFromAny (get velero "size") in
  if negb (isBackupTask taskType) || negb (nonempty_doc size) then None
  else
    let amount key := int64FromAny (get size key) in
    let allKnown := sizes_known size in
    let available := allKnown && (0 <? amount "totalBytes") in
    let reuse : document :=
      if available
      then {[ "status" := VStr "available";
              "ratio" := fraction (reuse_ratio (amount "uploadedBytes") (amount "totalBytes")) ]}
      else {[ "status" := VStr "unavailable" ]} in
    let repository := wsMapFromAny (get velero "planStorageSize") in
    let stored := int64FromAny (get repository "totalBytes") in
    let status := TrimSpace (sprint (get velero "sizeStatus")) in
    Some (fields
      [("schemaVersion", VNum 2); ("operation", VStr "backup");
       ("measurementStatus", VStr (if nonempty status then status else "complete"));
       ("logical", size_value (amount "totalBytes") (amount "metadataBytes") (amount "volumeBytes")
          (0 <? amount "totalBytes"));
       ("newData", size_value (amount "uploadedBytes") (amount "uploadedMetadataBytes")
          (amount "uploadedVolumeBytes") allKnown);
       ("allVolumesKnown", VBool allKnown); ("reuse", VObj reuse);
       ("repository", VObj (put_amount "storedBytes" stored
          (put_amount "metadataBytes" (int64FromAny (get repository "metadataBytes"))
          (put_amount "kopiaBytes" (int64FromAny (get repository "kopiaBytes"))
          {[ "known" := VBool (0 <? stored); "measuredAt" := VTime now ]}))));
       ("quality", VStrMap
          {[ "logicalVolumeSource" := "veleroBackupVolumeInfo";
             "newVolumeDataSource" := "veleroIncrementalBytes";
             "repositorySource" := "objectStorePrefixScan"; "logicalAccuracy" := "exact";
             "newDataAccuracy" := (if allKnown then "exact" else "unavailable");
             "repositoryAccuracy" := "measured" ]}); ("measuredAt", VTime now)]).

End metrics.

(** ** Stages of a recovery *)

Definition displayEvidenceValue (v : value) : string :=
  match v with
  | VNull => ""
  | v => let result := TrimSpace (sprint v) in if result =s "<nil>" then "" else result
  end.

Definition past_restore (payload : document) : bool :=
  nonempty (displayEvidenceValue (get payload "readinessStage")) ||
  nonempty (displayEvidenceValue (get payload "imageMappingStage")).

Definition recoveryResourcesComplete (payload : document) : bool :=
  let status := wsMapFromAny (get payload "status") in
  let counts := wsMapFromAny (get (wsMapFromAny (get status "raw")) "progress") in
  let total := int64FromAny (get counts "totalItems") in
  past_restore payload ||
  one_of (displayEvidenceValue (get status "phase")) ["Completed"; "PartiallyFailed"] ||
  ((0 <? total) && (total <=? int64FromAny (get counts "itemsRestored"))).

Definition recoveryDataComplete (payload : document) : bool :=
  let volume := wsMapFromAny (get payload "volumeProgress") in
  let count := int64FromAny (get volume "itemCount") in
  past_restore payload ||
  ((0 <? count) && (int64FromAny (get volume "completedCount") =? count) &&
   (int64FromAny (get volume "failedCount") =? 0)).

Definition recoveryTransferPercent (payload : document) : Z :=
  let volume := wsMapFromAny (get payload "volumeProgress") in
  let total := int64FromAny (get volume "totalBytes") in
  let done := int64FromAny (get volume "bytesDone") in
  if negb (as_bool (get volume "allTotalsKnown")) || (total <=? 0) then 0
  else Z.max 0 (Z.min 100 (Z.quot (done * 100) total)).

Definition stage_definitions : list (string * string) :=
  [("preparing_restore", "Preparing Restore");
   ("restoring_resources", "Restoring Kubernetes Resources");
   ("restoring_data", "Restoring Persistent Data");
   ("waiting_for_workloads", "Waiting for Workloads");
   ("application_validation", "Validating Application");
   ("finalizing_drill", "Finalizing Drill")].

Definition stage_order (id : string) : nat :=
  match list_find (fun d => fst d = id) stage_definitions with Some (i, _) => i | None => 0%nat end.

Definition failure_stage (errorCode : string) : string :=
  if Contains errorCode "WORKLOAD" || Contains errorCode "READINESS"
  then "waiting_for_workloads"
  else if Contains errorCode "VOLUME" || Contains errorCode "PVC" ||
          Contains errorCode "DATA_PATH" || (errorCode =s "RESTORE_VELERO_STALLED")
  then "restoring_data"
  else if (errorCode =s "RESTORE_FAILED") || Contains errorCode "STATUS"
  then "restoring_resources" else "preparing_restore".

Definition recoveryFailureStageStatus (stageID errorCode : string) : string :=
  let failureStage := failure_stage errorCode in
  if stageID =s failureStage then "failed"
  else if (stage_order stageID <? stage_order failureStage)%nat then "succeeded" else "pending".

Inductive stage_outcome := Running | Succeeded | FailedWith (code message : string).

Definition stage_succeeded (restore : option document) (id : string) : string :=
  let on f := match restore with Some r => f r | None => false end in
  if (id =s "restoring_data") &&
     on (fun r => flag_of r "contentCatalogLoaded" && negb (flag_of r "persistentDataExpected"))
  then "not_applicable"
  else if (id =s "waiting_for_workloads") && on (fun r => negb (flag_of r "waitForWorkloads"))
  then "skipped"
  else if (id =s "application_validation") && negb (on (fun r => flag_of r "runValidation"))
  then "skipped" else "succeeded".

Definition stage_running (payload : document) (id : string) : string :=
  let some key := negb (bool_decide (wsMapFromAny (get payload key) = ∅)) in
  let readinessStage := displayEvidenceValue (get payload "readinessStage") in
  let validation := displayEvidenceValue (get payload "applicationValidationStage") in
  if id =s "preparing_restore" then
    if negb (some "status") && negb (some "volumeProgress") &&
       negb (recoveryResourcesComplete payload) then "running" else "succeeded"
  else if id =s "restoring_resources" then
    if recoveryResourcesComplete payload then "succeeded"
    else if some "status" then "running" else "pending"
  else if id =s "restoring_data" then
    if recoveryDataComplete payload then "succeeded"
    else if some "volumeProgress" then "running" else "pending"
  else if id =s "waiting_for_workloads" then
    if one_of readinessStage ["skipped"; "succeeded"] then readinessStage
    else if readinessStage =s "started" then "running" else "pending"
  else if id =s "application_validation" then
    if nonempty validation then validation else "pending"
  else "pending".

Definition stage_status (restore : option document) (payload : document) (o : stage_outcome)
    (id : string) : string :=
  match o with
  | Succeeded => stage_succeeded restore id
  | FailedWith code _ => recoveryFailureStageStatus id code
  | Running => stage_running payload id
  end.

Definition labelled_evidence (label s : string) : list string :=
  if nonempty s then [label +:+ s] else [].

Definition recoveryStageEvidence (stageID : string) (payload : document) : list string :=
  let field key sub := displayEvidenceValue (get (wsMapFromAny (get payload key)) sub) in
  if stageID =s "restoring_resources" then
    let raw := wsMapFromAny (get (wsMapFromAny (get payload "status")) "raw") in
    labelled_evidence "Velero Restore phase: " (field "status" "phase") ++
    labelled_evidence "Resources restored: " (displayEvidenceValue (get raw "itemsRestored"))
  else if stageID =s "restoring_data"
  then labelled_evidence "Persistent bytes: " (field "volumeProgress" "totalBytes")
  else if stageID =s "waiting_for_workloads"
  then labelled_evidence "Target namespace: " (field "readiness" "namespace")
  else if stageID =s "application_validation"
  then labelled_evidence "" (field "applicationValidation" "message")
  else [].

Definition recovery_stage (now : time) (restore : option document) (payload : document)
    (o : stage_outcome) (definition : string * string) : value :=
  let '(id, name) := definition in
  let status := stage_status restore payload o id in
  let evidence := recoveryStageEvidence id payload in
  let stage : document :=
    {[ "id" := VStr id; "name" := VStr name; "status" := VStr status;
       "updatedAt" := VStr (format_rfc3339nano (now / second * second)) ]} in
  let stage := match o with
               | FailedWith code message =>
                   put (status =s "failed") "errorCode" (VStr code)
                     (put (status =s "failed") "message" (VStr message) stage)
               | _ => stage
               end in
  VObj (put_texts "evidence" evidence stage).

Definition withRecoveryStages (now : time) (task : dispatch) (payload : document) (o : stage_outcome)
    : document :=
  if negb (isRecoveryTask (d_Type task)) then payload
  else <["recoveryStages" :=
          VList (recovery_stage now (command_of task "restore") payload o <$> stage_definitions)]>
         payload.
