(* ===== verification/AgentTasks.v ===== *)
(** The tasks of the agent as programs over its cluster
    (agent/comm-agent/internal/wsclient/client.go, executor/).

    Each execute function is one program, with its early returns; a deferred
    release runs at the end.  Loops that watch the cluster take fuel; the
    goroutine a task leaves behind is a call of its own ([GoFinishCleanup]) and
    its body a program, [finishFailedDrillCleanup]. *)

From S2P Require Import Prelude Text Calendar Timestamp Value Storage Velero Agent AgentReports.

(** What a client can do besides: the interfaces its applier and its runtime
    implement. *)
Inductive capability :=
| CanApply | CanDelete | CanDeleteNamespace | CanReplaceNamespace | CanCleanStaleState
| CanWaitForBackup | CanWaitForModifier | CanCancelRestore | CanCancelBackup
| CanCleanProtection | CanReadStatus | CanReadVolumes | CanReadStats | CanListBackups
| CanReadReadiness | CanMapImages | CanMapServices | CanWaitForDeletion | CanValidatePVCs
| CanPreflightCache | CanReadDataPath | HasRuntime | CanConfigureCache | CanUninstall
| CanHandOver | CanCollectCapacity.

Record client := {
  cl_ClusterID : string;
  cl_Namespace : string;
  cl_BackupBackend : string;
  cl_ExecutorMode : string;
  cl_StateDir : string;
  cl_can : capability -> bool
}.

(** ** Errors of the Kubernetes API *)

Definition uncertain_texts : list string :=
  ["etcdserver: request timed out"; "request timed out"; "resource quota evaluation timed out";
   "context deadline exceeded"; "connect: connection refused"; "http2: server sent goaway";
   "unexpected eof"; "timeout"; "temporarily unavailable"; "connection reset"].

Definition isUncertainKubernetesSubmitError (err : api_error) : bool :=
  existsb (Contains (ToLower (err_text err))) uncertain_texts.

Definition isTransientKubernetesReadError (err : api_error) : bool :=
  err_busy err || isUncertainKubernetesSubmitError err.

Definition shouldRetryVeleroStatusRead (err : api_error) (now firstErrorAt taskDeadline : time)
    : bool :=
  isTransientKubernetesReadError err && (now <? taskDeadline) && negb (firstErrorAt =? zero_time).

Definition restoreSubmitErrorCode (err : api_error) : string :=
  if Contains (ToLower (err_text err)) "timed out waiting for stale restore state to be deleted"
  then "RESTORE_STALE_STATE_CLEANUP_TIMEOUT" else "RESTORE_SUBMIT_FAILED".

(** ** Commands *)

Definition backupTaskPlanID (task : dispatch) : string :=
  match command_of task "backup" with
  | Some command => TrimSpace (text_of command "planId")
  | None => ""
  end.

Definition restoreTargetNamespace (task : dispatch) : string :=
  match command_of task "restore" with
  | Some command =>
      if nonempty (text_of command "targetNamespace") then text_of command "targetNamespace"
      else text_of command "sourceNamespace"
  | None => ""
  end.

Definition filtered_mode (command : document) : bool :=
  let mode := ToLower (TrimSpace (text_of (object_of command "resourceSelection") "mode")) in
  nonempty mode && (mode <>s "all").

Definition some_values (v : value) : bool :=
  match v with VList (_ :: _) | VStrs (_ :: _) => true | _ => false end.

Definition full_backups_only : string :=
  "OpenShift phase one supports full backups only; resource and label filters are not supported".

Definition validateOADPFullBackup (command : document) : option string :=
  let selection := object_of command "resourceSelection" in
  if filtered_mode command || some_texts (texts_of selection "namespaceScoped") ||
     some_texts (texts_of selection "clusterScoped") ||
     some_texts (texts_of command "includedResources") ||
     some_texts (texts_of command "excludedResources") ||
     has_selector (object_of command "labelSelector")
  then Some full_backups_only else None.

Definition validateOADPFullSchedule (command : document) : option string :=
  if filtered_mode command || some_texts (texts_of command "includedResources") ||
     nonempty (TrimSpace (text_of command "labelSelector")) ||
     has_selector (object_of command "selector") || some_values (get command "excludeResources")
  then Some full_backups_only else None.

Definition validateOADPFullRestore (command : document) : option string :=
  let artifactMode := ToLower (TrimSpace (text_of command "artifactMode")) in
  let restoreMode := ToLower (TrimSpace (text_of command "restoreMode")) in
  if (nonempty artifactMode && (artifactMode <>s "all")) ||
     (nonempty restoreMode && (restoreMode <>s "full")) ||
     some_texts (texts_of command "includedResources") ||
     some_texts (texts_of command "excludedResources")
  then Some ("OpenShift phase one supports full Drill restores only; " +:+
             "artifact and resource filters are not supported")
  else None.

Definition isOADPS3StorageType (value : string) : bool :=
  one_of (ToLower (TrimSpace value)) [""; "aws"; "s3"; "s3-compatible"; "s3 compatible"].

(** Where a task stops: nothing more is done after it. *)
Definition stop (p : prog (option api_error)) : prog unit := _ ← p; mret tt.
(** Go on unless there is an error. *)
Definition unless (err : option api_error) (failed : api_error -> prog unit) (k : prog unit)
    : prog unit :=
  match err with Some err => failed err | None => k end.
(** The task ends where a report cannot be sent. *)
Definition then_if_sent (p : prog (option api_error)) (k : prog unit) : prog unit :=
  err ← p; unless err (fun _ => mret tt) k.

(** ** Reports *)

Section tasks.
Context (c : client).
(** Fuel of the loops that watch the cluster. *)
Context (fuel : nat).

Definition oadp : bool := EqualFold (cl_BackupBackend c) "oadp".

Definition sendTaskAccepted (task : dispatch) : prog (option api_error) := attempt (Send Accepted).

Definition sendTaskProgress (task : dispatch) (velero : document) (progress : Z) (text : string)
    : prog (option api_error) :=
  let progress := if isRecoveryTask (d_Type task) then recoveryTransferPercent velero
                  else progress in
  t ← now;
  attempt (Send (Progress (withRecoveryStages t task velero Running) progress text)).

Definition sendTaskCompleted (task : dispatch) (velero : document) (text : string)
    : prog (option api_error) :=
  t ← now;
  attempt (Send (CompletedReport (withRecoveryStages t task velero Succeeded) text)).

Definition sendTaskFailedWithDetails (task : dispatch) (code text : string) (details : document)
    : prog (option api_error) :=
  t ← now;
  let details :=
    if isRecoveryTask (d_Type task)
    then <["velero" := VObj (withRecoveryStages t task (wsMapFromAny (get details "velero"))
                               (FailedWith code text))]> details
    else details in
  attempt (Send (FailedReport code text details)).

Definition sendTaskFailed (task : dispatch) (code text : string) : prog (option api_error) :=
  sendTaskFailedWithDetails task code text ∅.

Definition fail_with (task : dispatch) (code text : string) (details : document) : prog unit :=
  stop (sendTaskFailedWithDetails task code text details).
Definition fail (task : dispatch) (code text : string) : prog unit := fail_with task code text ∅.

(** ** The storage location *)

Definition location_object (name : string) : AppliedObject :=
  velero_object "BackupStorageLocation" (cl_Namespace c) name.

(** What a status that could be read says. *)
Definition location_phase_error (name : string) (status : ManifestStatus) : option api_error :=
  let subject := "BackupStorageLocation " +:+ name in
  if status_Phase status =s "Available" then None
  else if nonempty (status_Message status)
  then Some (new_error (subject +:+ " is " +:+ status_Phase status +:+ ": " +:+
                        status_Message status))
  else if negb (nonempty (status_Phase status))
  then Some (new_error (subject +:+ " has no Available status yet"))
  else Some (new_error (subject +:+ " is " +:+ status_Phase status)).

Definition backupStorageLocationRetryCount : nat := 3.
Definition backupStorageLocationRetryDelay : Z := second.

(** [retries] are left; [attempt] of them were made. *)
Fixpoint read_location (name : string) (attempt : Z) (retries : nat) : prog (option api_error) :=
  r ← ask (GetManifestStatus (location_object name));
  match r with
  | Failed err =>
      let subject := "BackupStorageLocation " +:+ name in
      if err_missing err
      then mret (Some (new_error (subject +:+ " is not configured in namespace " +:+
                                  cl_Namespace c)))
      else if negb (isTransientKubernetesReadError err)
      then mret (Some (wrap_error (subject +:+ " could not be read from namespace " +:+
                                   cl_Namespace c +:+ ": ") err))
      else match retries with
      | O => mret (Some (wrap_error (subject +:+ " could not be verified because the Kubernetes " +:+
               "API is temporarily unavailable after " +:+ sprint_num attempt +:+ " retries: ") err))
      | S retries =>
          sleep (backupStorageLocationRetryDelay * (attempt + 1));;
          read_location name (attempt + 1) retries
      end
  | _ => mret (location_phase_error name (status_of r))
  end.

Definition requireBackupStorageLocation (name : string) : prog (option api_error) :=
  if negb (nonempty name)
  then mret (Some (new_error "backup storage location is required before starting this task"))
  else if negb (cl_can c CanReadStatus) then mret None
  else read_location name 0 backupStorageLocationRetryCount.

Fixpoint wait_for_location (n : nat) (name : string) (deadline : time)
    : prog (option api_error) :=
  match n with
  | O => Unfinished
  | S n =>
      err ← requireBackupStorageLocation name;
      match err with
      | None => mret None
      | Some err =>
          if negb (isTransientKubernetesReadError err) then mret (Some err)
          else
            t ← now;
            if deadline <? t then mret (Some err)
            else sleep (3 * second);; wait_for_location n name deadline
      end
  end.

Definition waitForBackupStorageLocation (name : string) (timeout : Z) : prog (option api_error) :=
  if (timeout <=? 0) || negb (cl_can c CanReadStatus) then requireBackupStorageLocation name
  else
    t ← now;
    wait_for_location fuel name (t + timeout).

Definition storagePreflightWait (taskDeadline : time) : prog Z :=
  let maximum := 10 * 60 * second in
  if taskDeadline =? zero_time then mret maximum
  else
    t ← now;
    let remaining := taskDeadline - t in
    mret (if remaining <=? 0 then 0 else Z.min remaining maximum).

(** ** Executors *)

Inductive executor_mode := DryRun | Kubernetes | Unsupported.

Definition mode : executor_mode :=
  let m := ToLower (TrimSpace (cl_ExecutorMode c)) in
  if one_of m [""; "dry-run"] then DryRun
  else if m =s "kubernetes" then Kubernetes else Unsupported.

Definition unsupported (what : string) : string :=
  "unsupported " +:+ what +:+ " executor mode " +:+ quoted (cl_ExecutorMode c).

Definition input_of (task : dispatch) (command : document) : BuildInput :=
  {| in_TaskID := d_TaskID task; in_CommandID := d_CommandID task; in_TaskType := d_Type task;
     in_SourceClusterID := ""; in_AgentNamespace := cl_Namespace c; in_Command := command |}.

(** Building with the executor of the client. *)
Definition build {A} (what field : string) (task : dispatch) (f : BuildInput -> prog (string + A))
    : prog (string + A) :=
  match mode, command_of task field with
  | Unsupported, _ => mret (inl (unsupported what))
  | _, None => mret (inl (what +:+ " command is required"))
  | _, Some command => f (input_of task command)
  end.

(** Submitting: nothing in a dry run. *)
Definition submit (what : string) (p : prog (option api_error)) : prog (option api_error) :=
  match mode with
  | DryRun => mret None
  | Unsupported => mret (Some (new_error (unsupported what)))
  | Kubernetes =>
      if negb (cl_can c CanApply)
      then mret (Some (new_error "kubernetes manifest applier is not configured"))
      else p
  end.

Definition SubmitBackup (m : BackupManifest) : prog (option api_error) :=
  submit "backup" (attempt (ApplyManifest (BackupObject m))).

Definition SubmitStorage (m : StorageManifests) : prog (option api_error) :=
  let location := attempt (ApplyManifest (StorageLocationObject (sm_BackupStorageLocation m))) in
  submit "storage"
    match sm_Secret m with
    | Some secret =>
        err ← attempt (ApplyManifest (SecretObject secret));
        match err with Some err => mret (Some err) | None => location end
    | None => location
    end.

Definition firstIncludedNamespace (m : RestoreManifest) : string :=
  match spec_RestoredNamespaces (restore_Spec m) with namespace :: _ => namespace | [] => "" end.

Definition label_of (m : RestoreManifest) (key : string) : string :=
  default "" (meta_Labels (restore_Metadata m) !! key).

Definition or_error (p : prog (option api_error)) (k : prog (option api_error))
    : prog (option api_error) :=
  err ← p; match err with Some err => mret (Some err) | None => k end.

(** The replacement of the target namespace, where the policy asks for it. *)
Definition replace_target (m : RestoreManifest) : prog (option api_error) :=
  let target := label_of m "hypercdr.io/target-namespace" in
  let agent := meta_Namespace (restore_Metadata m) in
  if label_of m "hypercdr.io/conflict-policy" <>s "replace" then mret None
  else if negb (nonempty target)
  then mret (Some (new_error "target namespace is required for namespace replacement"))
  else if (target =s agent) || (target =s cl_Namespace c)
  then mret (Some (new_error ("refusing to replace agent namespace " +:+ quoted target)))
  else if negb (cl_can c CanCleanStaleState)
  then mret (Some (new_error "kubernetes restore state cleanup is not supported by this executor"))
  else
    or_error (attempt (CleanupStaleRestoreState agent (firstIncludedNamespace m) target
                (meta_Name (restore_Metadata m))))
      (if negb (cl_can c CanReplaceNamespace)
       then mret (Some (new_error
         "kubernetes namespace replacement is not supported by this executor"))
       else
         err ← attempt (ReplaceNamespaceAndWait target);
         mret (option_map (wrap_error ("failed to replace target namespace " +:+ quoted target +:+ ": "))
                 err)).

Definition submit_with_modifier (m : RestoreManifest) : prog (option api_error) :=
  let modifier := BuildRestoreResourceModifierConfigMap m in
  or_error (attempt (ApplyManifest (ModifierObject modifier)))
    (if negb (cl_can c CanWaitForModifier)
     then mret (Some (new_error
       "kubernetes resource modifier propagation check is not supported by this executor"))
     else
       err ← attempt (WaitForResourceModifier (meta_Namespace (modifier_Metadata modifier))
                        (meta_Name (modifier_Metadata modifier)));
       match err with
       | Some err => mret (Some (wrap_error
           "resource modifier is not ready for Velero restore validation: " err))
       | None => attempt (ApplyManifest (RestoreObject m))
       end).

Definition SubmitRestore (m : RestoreManifest) : prog (option api_error) :=
  submit "restore"
    (if label_of m "hypercdr.io/restore-mode" =s "dataOnly"
     then mret (Some (new_error "data-only restore executor is not enabled"))
     else if negb (cl_can c CanWaitForBackup)
     then mret (Some (new_error
       "kubernetes velero backup readiness check is not supported by this executor"))
     else
       err ← attempt (WaitForVeleroBackup (meta_Namespace (restore_Metadata m))
                        (spec_BackupName (restore_Spec m)));
       match err with
       | Some err => mret (Some (wrap_error "velero backup is not available for restore: " err))
       | None => or_error (replace_target m) (submit_with_modifier m)
       end).

(** ** Watching *)

(** The deadline of a task, or half an hour from now. *)
Definition deadline_of (task : dispatch) : prog time :=
  if d_Deadline task =? zero_time then (t ← now; mret (t + 30 * 60 * second))
  else mret (d_Deadline task).

(** An error of reading the status: when the present row of errors began, and
    whether to read again. *)
Definition read_error (err : api_error) (t deadline since : time) : time * bool :=
  if isTransientKubernetesReadError err && (t <? deadline) then
    let since := if since =? zero_time then t else since in
    (since, shouldRetryVeleroStatusRead err t since deadline)
  else (since, false).

(** The volumes as seen in this round. *)
Record volumes_seen := {
  vs_payload : document;
  vs_failed : option (string * string);
  vs_ready : bool;
  vs_progress : Z;
  vs_message : string;
  vs_bytes : Z;
  vs_seen : bool
}.

Definition see_volumes (object : AppliedObject) (payload : document)
    (volumes : option (document * Z * string)) : volumes_seen :=
  match volumes with
  | Some (volume, progress, message) =>
      {| vs_payload := <["volumeProgress" := VObj volume]> payload;
         vs_failed :=
           if (obj_Kind object =s "Restore") && (0 <? int64FromAny (get volume "failedCount"))
           then Some (restoreVolumeFailureDetails volume) else None;
         vs_ready := true; vs_progress := progress; vs_message := message;
         vs_bytes := int64FromAny (get volume "bytesDone"); vs_seen := true |}
  | None =>
      {| vs_payload := payload; vs_failed := None; vs_ready := negb (usesVolumeProgress object);
         vs_progress := 0; vs_message := ""; vs_bytes := 0; vs_seen := false |}
  end.

Definition in_progress_message (v : volumes_seen) (status : ManifestStatus) (message : string)
    : string :=
  if vs_seen v && nonempty (vs_message v) && (status_Phase status =s "InProgress")
  then vs_message v else message.

(** The steps of a dry run. *)
Fixpoint dry_run (task : dispatch) (payload : bool -> document) (total : string)
    (steps : list (Z * bool * string)) : prog unit :=
  sleep (second / 2);;
  match steps with
  | [] => stop (sendTaskCompleted task (payload true) total)
  | (progress, prepared, message) :: steps =>
      then_if_sent (sendTaskProgress task (payload prepared) progress message)
        (dry_run task payload total steps)
  end.

End tasks.
