(* ===== verification/AgentRestore.v ===== *)
(** Restores on the agent: watching Velero and the restored application, and the
    safe end of a failed one
    (agent/comm-agent/internal/wsclient/client.go, executor/restore.go). *)

From S2P Require Import Prelude Text Calendar Timestamp Value Storage Velero Agent AgentReports.
From S2P Require Import AgentTasks.

Section restore.
Context (c : client) (fuel : nat).

(** ** The end of a failed restore *)

(** The namespace a failed task may remove: that of a drill, apart from its
    source and from the agent's own. *)
Definition drill_namespace (task : dispatch) : option string :=
  let target := TrimSpace (restoreTargetNamespace task) in
  let source := match command_of task "restore" with
                | Some command => TrimSpace (text_of command "sourceNamespace")
                | None => ""
                end in
  if (d_Type task =s "drill") && nonempty target && (target <>s source) &&
     (target <>s cl_Namespace c)
  then Some target else None.

(** Whether the objects of the restore are gone, and what the cleanup notes. *)
Definition deleteFailedDrillResources (object : AppliedObject) (cleanup : document)
    : prog (bool * document) :=
  if cl_can c CanDelete then
    err ← attempt (DeleteObject object);
    match err with
    | Some err => mret (false, <["restoreDeleteWarning" := VStr (err_text err)]> cleanup)
    | None => mret (true, <["restoreDeleted" := VBool true]> cleanup)
    end
  else mret (false, <["restoreDeleteWarning" :=
                       VStr "restore deletion is not supported by this agent"]> cleanup).

(** Left to a goroutine, and noted in the ledger for a restart. *)
Definition defer_cleanup (object : AppliedObject) (cleanup : document) : prog document :=
  err ← attempt (MarkCleanupPending true);
  tell (GoFinishCleanup object);;
  let cleanup := <["deferredCleanup" := VBool true]> cleanup in
  mret match err with
       | Some err => <["cleanupLedgerWarning" := VStr (err_text err)]> cleanup
       | None => cleanup
       end.

(** Whether Velero's volume operations are known to have stopped. *)
Definition cancel_operations (object : AppliedObject) : prog (bool * document) :=
  let cleanup : document :=
    {[ "cancelRequested" := VBool false; "cancelConfirmed" := VBool false;
       "restoreDeleted" := VBool false; "namespaceDeleted" := VBool false ]} in
  if cl_can c CanCancelRestore then
    err ← attempt (CancelRestoreVolumeOperations (obj_Namespace object) (obj_Name object));
    let cleanup := <["cancelRequested" := VBool true]> cleanup in
    match err with
    | Some err => mret (false, <["cancelWarning" := VStr (err_text err)]> cleanup)
    | None => mret (true, <["cancelConfirmed" := VBool true]> cleanup)
    end
  else mret (false, <["cancelWarning" :=
                       VStr "restore volume cancellation is not supported by this agent"]> cleanup).

Definition remove_drill_namespace (task : dispatch) (object : AppliedObject) (cleanup : document)
    : prog document :=
  match drill_namespace task with
  | Some target =>
      if cl_can c CanDeleteNamespace then
        err ← attempt (DeleteNamespaceAndWait target);
        match err with
        | Some err => defer_cleanup object (<["cleanupWarning" := VStr (err_text err)]> cleanup)
        | None => mret (<["namespaceDeleted" := VBool true]> cleanup)
        end
      else mret cleanup
  | None => mret cleanup
  end.

Definition failRestoreTask (task : dispatch) (object : AppliedObject) (code message : string)
    (details : document) : prog unit :=
  cancelled ← cancel_operations object;
  let '(confirmed, cleanup) := cancelled in
  cleanup ←
    (if confirmed : bool then
       deleted ← deleteFailedDrillResources object cleanup;
       let '(gone, cleanup) := deleted in
       cleanup ← (if gone : bool then mret cleanup else defer_cleanup object cleanup);
       remove_drill_namespace task object cleanup
     else defer_cleanup object cleanup);
  fail_with task code message (<["restoreCleanup" := VObj cleanup]> details).

(** The goroutine that finishes what a failed task left; the ledger keeps the
    cleanup until it has run to its end. *)
Definition finishFailedDrillCleanup (task : dispatch) (object : AppliedObject) : prog unit :=
  if negb (cl_can c CanCancelRestore) then mret tt
  else
    err ← attempt (CancelRestoreVolumeOperations (obj_Namespace object) (obj_Name object));
    unless err (fun _ => mret tt)
      (deleted ← deleteFailedDrillResources object ∅;
       let '(gone, _) := deleted in
       if negb gone then mret tt
       else
         let finish := tell (MarkCleanupPending false) in
         match drill_namespace task with
         | Some target =>
             if cl_can c CanDeleteNamespace then
               err ← attempt (DeleteNamespaceAndWait target);
               unless err (fun _ => mret tt) finish
             else finish
         | None => finish
         end).

(** ** Why a restore failed *)

Definition isTransientRestoreReconcileConflict (status : ManifestStatus) : bool :=
  let text := ToLower (join " " [status_Message status; status_Reason status]) in
  EqualFold (TrimSpace (status_Phase status)) "Failed" &&
  (Contains text "restore from previous reconcile still in progress" ||
   Contains text "previous reconcile still in progress").

Definition isTargetClusterAPIUnavailable (status : ManifestStatus) (message : string) : bool :=
  let text := ToLower (join " " [status_Message status; status_Reason status; message;
                                 sprint (VObj (status_Raw status))]) in
  existsb (Contains text)
    ["connection refused"; "unexpected eof"; "connection reset"; "no route to host";
     "network is unreachable"; "i/o timeout"; "context deadline exceeded";
     "the api server may have been down"; "apiserver may have been down"].

Definition restoreResultsObjectKey (restoreName : string) : string :=
  join "/" ["restores"; restoreName; "restore-" +:+ restoreName +:+ "-results.gz"].

Definition no_summary : RestoreResultSummary :=
  {| summary_Key := ""; summary_ErrorCount := 0; summary_WarningCount := 0; summary_Errors := [];
     summary_Warnings := [] |}.

Definition restoreResultSummary (object : AppliedObject) (payload : document)
    : prog RestoreResultSummary :=
  let storageLocation := backupStorageLocationFromPayload payload in
  if negb (cl_can c CanReadStats) || negb (nonempty storageLocation) then mret no_summary
  else
    r ← ask (GetRestoreResultSummary (obj_Namespace object) storageLocation (obj_Name object));
    mret match r with
         | Failed err =>
             {| summary_Key := restoreResultsObjectKey (obj_Name object); summary_ErrorCount := 0;
                summary_WarningCount := 0;
                summary_Errors := ["failed to read Velero restore results: " +:+ err_text err];
                summary_Warnings := [] |}
         | Summary s => s
         | _ => no_summary
         end.

Definition restoreResultReadFailed (summary : RestoreResultSummary) : bool :=
  match summary_Errors summary with
  | [err] => HasPrefix (ToLower (TrimSpace err)) "failed to read velero restore results:"
  | _ => false
  end.

Definition summarizeRestoreFailure (firstError : string) (total : Z) : string :=
  let firstError := TrimSpace firstError in
  if negb (nonempty firstError) then "velero restore failed"
  else if 1 <? total
  then firstError +:+ "; " +:+ sprint_num total +:+ " restore errors total" else firstError.

Definition summary_json (s : RestoreResultSummary) : value :=
  VObj {[ "key" := VStr (summary_Key s); "errorCount" := VNum (summary_ErrorCount s);
          "warningCount" := VNum (summary_WarningCount s); "errors" := VStrs (summary_Errors s);
          "warnings" := VStrs (summary_Warnings s) ]}.

Definition enrichVeleroFailure (object : AppliedObject) (payload : document)
    (status : ManifestStatus) (fallback : string) : prog (string * document) :=
  let message := if nonempty (status_Message status) then status_Message status else fallback in
  if obj_Kind object <>s "Restore" then mret (message, payload)
  else if EqualFold (status_Phase status) "FailedValidation"
  then mret (if nonempty (TrimSpace message) then message
             else "Velero rejected the restore during validation.", payload)
  else
    summary ← restoreResultSummary object payload;
    let payload := put (nonempty (summary_Key summary) || some_texts (summary_Errors summary) ||
                        some_texts (summary_Warnings summary))
                     "restoreResults" (summary_json summary) payload in
    mret match summary_Errors summary with
         | err :: _ =>
             if negb (restoreResultReadFailed summary)
             then (summarizeRestoreFailure err (summary_ErrorCount summary), payload)
             else if 0 <? status_Errors status
             then ("velero restore failed with " +:+ sprint_num (status_Errors status) +:+
                   " error(s); restore result details are not available yet", payload)
             else (message, payload)
         | [] =>
             if 0 <? status_Errors status
             then ("velero restore failed with " +:+ sprint_num (status_Errors status) +:+
                   " error(s); restore result details are not available yet", payload)
             else (message, payload)
         end.

Definition restoreDataPathFailure (object : AppliedObject) (since : time)
    : prog (option RestoreDataPathFailure) :=
  if negb (cl_can c CanReadDataPath) then mret None
  else
    r ← ask (FindRestoreDataPathFailure (obj_Namespace object) (obj_Name object) since);
    mret match r with DataPath failure => failure | _ => None end.

(** ** Readiness of the restored application *)

Definition readiness_object_json (o : ReadinessObject) : document :=
  <["Kind" := VStr (ro_Kind o)]> (<["Name" := VStr (ro_Name o)]> (<["UID" := VStr (ro_UID o)]>
  (<["State" := VStr (ro_State o)]> (<["Reason" := VStr (ro_Reason o)]>
  (<["Container" := VStr (ro_Container o)]> (<["Since" := VTime (ro_Since o)]>
  (ro_Content o))))))).

Definition readiness_json (objects : list document) (r : NamespaceReadiness) : value :=
  VObj (<["Namespace" := VStr (ready_Namespace r)]>
  (<["NamespacePhase" := VStr (ready_NamespacePhase r)]> (<["Ready" := VBool (ready_Ready r)]>
  (<["Message" := VStr (ready_Message r)]> (<["PodCount" := VNum (ready_PodCount r)]>
  (<["ReadyPodCount" := VNum (ready_ReadyPodCount r)]>
  (<["WorkloadCount" := VNum (ready_WorkloadCount r)]>
  (<["ReadyWorkloads" := VNum (ready_ReadyWorkloads r)]>
  (<["Objects" := VList (VObj <$> objects)]> (<["FailureCode" := VStr (ready_FailureCode r)]>
  (<["FailureMessage" := VStr (ready_FailureMessage r)]> (ready_Content r)))))))))))).

Definition plain_readiness (r : NamespaceReadiness) : value :=
  readiness_json (readiness_object_json <$> ready_Objects r) r.

(** What two observations are compared by: without the times and the counts of
    their events. *)
Definition without_counts (keys : list (string * value)) (v : value) : value :=
  VObj (fold_left (fun m '(k, v) => <[k := v]> m) keys (wsMapFromAny v)).

Definition readinessSnapshotKey (r : NamespaceReadiness) : value :=
  let zero key count := [(key, VTime zero_time); (count, VNum 0)] in
  let images := match get (ready_Content r) "ImageEvents" with
                | VList l => VList (without_counts (zero "LastAt" "Count") <$> l)
                | v => v
                end in
  let object o := wsMapFromAny
    (without_counts (zero "EventAt" "EventCount") (VObj (readiness_object_json o))) in
  VObj (<["ImageEvents" := images]>
    (wsMapFromAny (readiness_json (object <$> ready_Objects r) r))).

Definition pod_note (o : ReadinessObject) : string :=
  if (ro_Kind o =s "Pod") && (ro_State o <>s "Ready") then
    "; " +:+ ro_Name o +:+ ": " +:+ ro_State o +:+
    (if nonempty (ro_Reason o) then " (" +:+ ro_Reason o +:+ ")" else "")
  else "".

Definition restoreReadinessProgressMessage (r : NamespaceReadiness) : string :=
  "Restored application readiness validation is in progress: namespace " +:+ ready_Namespace r +:+
  " is " +:+ ToLower (ready_NamespacePhase r) +:+ "; pods " +:+
  sprint_num (ready_ReadyPodCount r) +:+ "/" +:+ sprint_num (ready_PodCount r) +:+
  " ready; workloads " +:+ sprint_num (ready_ReadyWorkloads r) +:+ "/" +:+
  sprint_num (ready_WorkloadCount r) +:+ " ready" +:+
  (if nonempty (TrimSpace (ready_Message r))
   then "; " +:+ TrimSuffix (TrimSpace (ready_Message r)) "." else "") +:+
  foldr (fun o rest => pod_note o +:+ rest) "." (ready_Objects r).

(** When each object came into its present state. *)
Definition object_key (o : ReadinessObject) : string :=
  ro_Kind o +:+ "/" +:+ ro_Name o +:+ "/" +:+ ro_UID o.

Definition set_since (since : time) (o : ReadinessObject) : ReadinessObject :=
  {| ro_Kind := ro_Kind o; ro_Name := ro_Name o; ro_UID := ro_UID o; ro_State := ro_State o;
     ro_Reason := ro_Reason o; ro_Container := ro_Container o; ro_Since := since;
     ro_Content := ro_Content o |}.

Definition observe_object (t : time) (previous : gmap string ReadinessObject)
    (o : ReadinessObject) : ReadinessObject :=
  match previous !! object_key o with
  | Some old =>
      if (ro_State old =s ro_State o) && (ro_Reason old =s ro_Reason o) &&
         (ro_Container old =s ro_Container o)
      then set_since (ro_Since old) o else set_since t o
  | None => set_since t o
  end.

Fixpoint observe_objects (t : time) (previous : gmap string ReadinessObject)
    (l : list ReadinessObject) : gmap string ReadinessObject * list ReadinessObject :=
  match l with
  | [] => (previous, [])
  | o :: l =>
      let o' := observe_object t previous o in
      let '(previous, l) := observe_objects t (<[object_key o := o']> previous) l in
      (previous, o' :: l)
  end.

Definition with_objects (objects : list ReadinessObject) (r : NamespaceReadiness)
    : NamespaceReadiness :=
  {| ready_Namespace := ready_Namespace r; ready_NamespacePhase := ready_NamespacePhase r;
     ready_Ready := ready_Ready r; ready_Message := ready_Message r;
     ready_PodCount := ready_PodCount r; ready_ReadyPodCount := ready_ReadyPodCount r;
     ready_WorkloadCount := ready_WorkloadCount r;
     ready_ReadyWorkloads := ready_ReadyWorkloads r; ready_Objects := objects;
     ready_FailureCode := ready_FailureCode r; ready_FailureMessage := ready_FailureMessage r;
     ready_Content := ready_Content r |}.

(** What the loop remembers: the last report and when it was made, the last
    observation and when, and the objects. *)
Record readiness_memory := {
  rm_lastReadiness : value;
  rm_lastReportedAt : time;
  rm_lastObserved : option (NamespaceReadiness * time);
  rm_objects : gmap string ReadinessObject
}.

Definition reported (snapshot : value) (t : time) (m : readiness_memory) : readiness_memory :=
  {| rm_lastReadiness := snapshot; rm_lastReportedAt := t; rm_lastObserved := rm_lastObserved m;
     rm_objects := rm_objects m |}.
Definition saw (r : NamespaceReadiness) (t : time) (objects : gmap string ReadinessObject)
    (m : readiness_memory) : readiness_memory :=
  {| rm_lastReadiness := rm_lastReadiness m; rm_lastReportedAt := rm_lastReportedAt m;
     rm_lastObserved := Some (r, t); rm_objects := objects |}.

(** [token] equality of what two values marshal to. *)
Definition same_snapshot (x y : value) : bool := bool_decide (encode x = encode y).

Definition access_note (err : api_error) : string :=
  if err_denied err
  then "Kubernetes readiness access was denied; check agent permissions."
  else if err_missing err
  then "A readiness resource was not found; retrying Kubernetes checks."
  else "Unable to read Kubernetes readiness; retrying.".

(** Report a change, or again after half a minute. *)
Definition report_readiness (task : dispatch) (payload : document) (snapshot : value)
    (message : string) (m : readiness_memory) : prog readiness_memory :=
  let changed := negb (same_snapshot snapshot (rm_lastReadiness m)) in
  t ← now;
  if changed || (30 * second <=? t - rm_lastReportedAt m) then
    err ← sendTaskProgress task (<["readinessChanged" := VBool changed]> payload) 0 message;
    match err with
    | Some _ => mret m
    | None => t ← now; mret (reported snapshot t m)
    end
  else mret m.

Definition of_restore (details : document) : document := {[ "velero" := VObj details ]}.

Definition ready_payload (task : dispatch) (namespace : string) (payload : document) : document :=
  let validated := match command_of task "restore" with
                   | Some command => flag_of command "runValidation"
                   | None => false
                   end in
  let payload := <["readinessStage" := VStr "succeeded"]> payload in
  if validated then
    <["applicationValidationStage" := VStr "succeeded"]>
    (<["applicationValidation" := VObj
        {[ "type" := VStr "kubernetes-readiness"; "namespace" := VStr namespace;
           "result" := VStr "passed";
           "message" := VStr "Namespace, workloads, and pods are ready." ]}]> payload)
  else <["applicationValidationStage" := VStr "skipped"]> payload.

Definition readiness_of (r : answer) : api_error + NamespaceReadiness :=
  match r with Readiness r => inr r | Failed err => inl err | _ => inl (new_error "") end.

Fixpoint poll_readiness (n : nat) (task : dispatch) (object : AppliedObject)
    (base : document) (command : document) (namespace restoreMessage : string)
    (startedAt deadline : time) (m : readiness_memory) : prog unit :=
  match n with
  | O => Unfinished
  | S n =>
      r ← ask (GetNamespaceReadiness namespace command);
      let payload := <["readinessStage" := VStr "started"]>
        (<["readinessDeadline" := VTime deadline]>
        (<["readinessStartedAt" := VTime startedAt]> base)) in
      let again m : prog unit := sleep (5 * second);;
        poll_readiness n task object base command namespace restoreMessage startedAt deadline m in
      match readiness_of r with
      | inl err =>
          let note := access_note err in
          let payload := <["readinessObservationError" := VStr note]> payload in
          let payload := match rm_lastObserved m with
                         | Some (seen, at_) => <["readinessObservedAt" := VTime at_]>
                             (<["readiness" := plain_readiness seen]> payload)
                         | None => payload
                         end in
          t ← now;
          if deadline <? t
          then failRestoreTask task object "RESTORE_READINESS_READ_FAILED" (err_text err)
                 (of_restore payload)
          else m ← report_readiness task payload (VStr note) note m; again m
      | inr readiness =>
          t ← now;
          let '(objects, l) := observe_objects t (rm_objects m) (ready_Objects readiness) in
          let readiness := with_objects l readiness in
          let m := saw readiness t objects m in
          let payload := <["readiness" := plain_readiness readiness]>
            (<["readinessObservedAt" := VTime t]> payload) in
          if nonempty (ready_FailureCode readiness)
          then failRestoreTask task object (ready_FailureCode readiness)
                 (ready_FailureMessage readiness) (of_restore payload)
          else if ready_Ready readiness then
            let payload := ready_payload task namespace payload in
            _ ← sendTaskProgress task payload 0
              "Restored application readiness validation completed successfully.";
            stop (sendTaskCompleted task payload
              (restoreMessage +:+ "; restored application is ready"))
          else
            t ← now;
            if deadline <? t
            then failRestoreTask task object "RESTORE_READINESS_TIMEOUT"
                   ("timed out waiting for restored application readiness: " +:+
                    ready_Message readiness) (of_restore payload)
            else m ← report_readiness task payload (readinessSnapshotKey readiness)
                       (restoreReadinessProgressMessage readiness) m; again m
      end
  end.

Definition pollRestoredNamespaceReady (task : dispatch) (object : AppliedObject)
    (base : document) (namespace restoreMessage : string) : prog unit :=
  match command_of task "restore" with
  | None => mret tt
  | Some command =>
      deadline ← deadline_of task;
      startedAt ← now;
      _ ← sendTaskProgress task (<["readinessStartedAt" := VTime startedAt]>
        (<["readinessStage" := VStr "started"]> base)) 0
        ("Resource and volume data restoration completed; " +:+
         "restored application readiness validation started.");
      poll_readiness fuel task object base command namespace restoreMessage startedAt deadline
        {| rm_lastReadiness := VStr ""; rm_lastReportedAt := zero_time; rm_lastObserved := None;
           rm_objects := ∅ |}
  end.

(** ** Watching the restore *)

Definition finish_restore (task : dispatch) (object : AppliedObject) (payload : document)
    (message : string) : prog unit :=
  let ready := match command_of task "restore" with
               | Some command => cl_can c CanReadReadiness && flag_of command "waitForWorkloads"
               | None => false
               end in
  if negb ready
  then stop (sendTaskCompleted task
         (<["applicationValidationStage" := VStr "skipped"]>
         (<["readinessStage" := VStr "skipped"]> payload)) message)
  else pollRestoredNamespaceReady task object payload (restoreTargetNamespace task) message.

Definition map_services (task : dispatch) (object : AppliedObject) (payload : document)
    (message : string) : prog unit :=
  let mappings := match command_of task "restore" with
                  | Some command => object_of command "serviceNodePortMappings"
                  | None => ∅
                  end in
  let namespace := restoreTargetNamespace task in
  if bool_decide (mappings = ∅) then finish_restore task object payload message
  else if negb (cl_can c CanMapServices)
  then failRestoreTask task object "RESTORE_SERVICE_MAPPING_UNAVAILABLE"
         "service NodePort mapping is not supported by this agent" ∅
  else
    r ← ask (ApplyServiceNodePortMappings namespace mappings);
    match read_amount r with
    | inl err =>
        failRestoreTask task object "RESTORE_SERVICE_MAPPING_FAILED" (err_text err)
          (of_restore payload)
    | inr updated =>
        finish_restore task object
          (<["serviceNodePortMapping" := VObj {[ "updatedServices" := VNum updated;
                                                 "namespace" := VStr namespace ]}]> payload) message
    end.

(** What follows a restore Velero has completed: the images, the services, then
    the readiness of the application. *)
Definition restore_succeeded (task : dispatch) (object : AppliedObject) (payload : document)
    (message : string) : prog unit :=
  let mappings := match command_of task "restore" with
                  | Some command => map_of command "imageMappings"
                  | None => ∅
                  end in
  let namespace := restoreTargetNamespace task in
  if bool_decide (mappings = ∅) then map_services task object payload message
  else
    let payload := <["imageMappingStage" := VStr "running"]> payload in
    _ ← sendTaskProgress task payload 0
      "Persistent data restoration completed; applying durable workload image mappings.";
    if negb (cl_can c CanMapImages)
    then failRestoreTask task object "RESTORE_IMAGE_MAPPING_UNAVAILABLE"
           "workload image mapping is not supported by this agent" (of_restore payload)
    else
      r ← ask (ApplyWorkloadImageMappings namespace mappings);
      match read_amount r with
      | inl err =>
          failRestoreTask task object "RESTORE_IMAGE_MAPPING_FAILED" (err_text err)
            (of_restore payload)
      | inr updated =>
          map_services task object
            (<["imageMapping" := VObj {[ "updatedContainers" := VNum updated;
                                         "namespace" := VStr namespace ]}]>
            (<["imageMappingStage" := VStr "succeeded"]> payload)) message
      end.

Definition veleroStalledAfter : Z := 5 * 60 * second.
Definition restoreReconcileConflictGrace : Z := 10 * 60 * second.

(** What the loop remembers of the restore it watches. *)
Record watch := {
  w_progress : Z;
  w_samples : list volumeProgressSample;
  w_readErrorSince : time;
  w_conflictSince : time;
  w_lastVolumeProgressAt : time;
  w_lastVolumeBytes : Z
}.

(** The decision, while a conflict of reconciliations may still resolve. *)
Definition reconciled (object : AppliedObject) (status : ManifestStatus) (deadline : time)
    (d : decision) (since : time) : prog (decision * time) :=
  if (obj_Kind object =s "Restore") && isTransientRestoreReconcileConflict status then
    t ← now;
    let since := if since =? zero_time then t else since in
    t1 ← now;
    t2 ← now;
    mret (if (t1 - since <? restoreReconcileConflictGrace) && (t2 <? deadline)
          then ({| dec_terminal := false; dec_success := false; dec_progress := dec_progress d;
                   dec_message := "Velero restore reconciliation is resuming after a " +:+
                                  "Kubernetes API interruption."; dec_code := "" |}, since)
          else (d, since))
  else mret (d, zero_time).

(** A restore Velero has given up. *)
Definition restore_failed (task : dispatch) (object : AppliedObject) (payload : document)
    (status : ManifestStatus) (d : decision) : prog unit :=
  enriched ← enrichVeleroFailure object payload status (dec_message d);
  let '(message, payload) := enriched in
  if (obj_Kind object =s "Restore") && isTargetClusterAPIUnavailable status message
  then failRestoreTask task object "TARGET_CLUSTER_API_UNAVAILABLE"
         ("Target cluster Kubernetes API was unavailable during restoration. Verify target " +:+
          "cluster control-plane health and review the last reported volume progress before " +:+
          "retrying.")
         (of_restore (<["failureClassification" :=
           VObj {[ "kind" := VStr "target_cluster_api_unavailable"; "retryable" := VBool true ]}]>
           payload))
  else failRestoreTask task object
         (if nonempty (dec_code d) then dec_code d else obj_Kind object +:+ "_FAILED") message
         (of_restore payload).

Definition data_path_json (f : RestoreDataPathFailure) : value :=
  VObj {[ "pod" := VStr (dp_Pod f); "node" := VStr (dp_Node f);
          "logDetail" := VStr (dp_LogDetail f) ]}.

(** Persistent volumes that made no progress for five minutes. *)
Definition restore_stalled (task : dispatch) (object : AppliedObject) (payload : document)
    (started : time) : prog unit :=
  failure ← restoreDataPathFailure object started;
  match failure with
  | Some f =>
      failRestoreTask task object (dp_Code f) (dp_Message f)
        (of_restore (<["dataPathFailure" := data_path_json f]> payload))
  | None =>
      failRestoreTask task object "RESTORE_VOLUME_PROGRESS_STALLED"
        ("persistent volume restoration made no progress for 5m0s while Velero Restore " +:+
         "remained InProgress") (of_restore payload)
  end.

Fixpoint watch_restore (n : nat) (task : dispatch) (object : AppliedObject) (base : document)
    (decide : ManifestStatus -> Z -> decision) (started deadline : time) (w : watch) : prog unit :=
  match n with
  | O => Unfinished
  | S n =>
      let interval := veleroPollInterval object in
      let again w : prog unit := sleep interval;;
        watch_restore n task object base decide started deadline w in
      r ← ask (GetManifestStatus object);
      match read_status r with
      | inl err =>
          t ← now;
          let '(since, retry) := read_error err t deadline (w_readErrorSince w) in
          if retry : bool
          then again {| w_progress := w_progress w; w_samples := w_samples w;
                        w_readErrorSince := since; w_conflictSince := w_conflictSince w;
                        w_lastVolumeProgressAt := w_lastVolumeProgressAt w;
                        w_lastVolumeBytes := w_lastVolumeBytes w |}
          else failRestoreTask task object (obj_Kind object +:+ "_STATUS_READ_FAILED")
                 (err_text err) ∅
      | inr status =>
          t ← now;
          checked ← reconciled object status deadline (decide status (t - started))
            (w_conflictSince w);
          let '(d, conflictSince) := checked in
          let progress := if negb (usesVolumeProgress object) && (w_progress w <? dec_progress d)
                          then dec_progress d else w_progress w in
          volumes ← buildVolumeProgressPayload (cl_can c CanReadVolumes) object (w_samples w);
          let '(volumes, samples) := volumes in
          let v := see_volumes object (<["status" := status_json status]> base) volumes in
          match vs_failed v with
          | Some (code, message) =>
              failRestoreTask task object code message (of_restore (vs_payload v))
          | None =>
              moved ← (if vs_seen v && (w_lastVolumeBytes w <? vs_bytes v)
                       then t ← now; mret (vs_bytes v, t)
                       else mret (w_lastVolumeBytes w, w_lastVolumeProgressAt w));
              let '(lastBytes, lastAt) := moved in
              let progress := if vs_seen v && (progress <? vs_progress v) then vs_progress v
                              else progress in
              let message := in_progress_message v status (dec_message d) in
              if dec_terminal d then
                if dec_success d then
                  payload ← attachBackupSizeStats (cl_can c CanReadStats) object (vs_payload v);
                  restore_succeeded task object payload message
                else restore_failed task object (vs_payload v) status
                       {| dec_terminal := true; dec_success := false;
                          dec_progress := dec_progress d; dec_message := message;
                          dec_code := dec_code d |}
              else
                stalled ← (if (obj_Kind object =s "Restore") &&
                              (status_Phase status =s "InProgress") && vs_ready v
                           then t ← now; mret (veleroStalledAfter <=? t - lastAt)
                           else mret false);
                if stalled : bool then restore_stalled task object (vs_payload v) started
                else
                  t ← now;
                  if deadline <? t
                  then failRestoreTask task object (obj_Kind object +:+ "_STATUS_TIMEOUT")
                         ("timed out waiting for Velero " +:+ obj_Kind object +:+ " to complete") ∅
                  else
                    _ ← sendTaskProgress task (vs_payload v) progress message;
                    again {| w_progress := progress; w_samples := samples;
                             w_readErrorSince := zero_time; w_conflictSince := conflictSince;
                             w_lastVolumeProgressAt := lastAt; w_lastVolumeBytes := lastBytes |}
          end
      end
  end.

Definition pollRestoreStatus (task : dispatch) (object : AppliedObject) (base : document)
    : prog unit :=
  deadline ← deadline_of task;
  started ← now;
  watch_restore fuel task object base restoreStatusResult started deadline
    {| w_progress := 0; w_samples := []; w_readErrorSince := zero_time;
       w_conflictSince := zero_time; w_lastVolumeProgressAt := started;
       w_lastVolumeBytes := 0 |}.

(** ** The task *)

Definition cache_json (r : RestoreCachePreflightResult) : document :=
  {[ "restoreCache" := VObj {[ "enabled" := VBool (cache_Enabled r);
       "usable" := VBool (cache_Usable r); "storageClass" := VStr (cache_StorageClass r);
       "residentThresholdMB" := VNum (cache_ResidentThresholdMB r);
       "cacheLimitMB" := VNum (cache_LimitMB r) ]} ]}.

Definition no_cache : RestoreCachePreflightResult :=
  {| cache_Enabled := false; cache_Usable := false; cache_StorageClass := "";
     cache_ResidentThresholdMB := 0; cache_LimitMB := 0; cache_Message := "" |}.

(** The cache of the restore, checked where the runtime can. *)
Definition preflight_cache (task : dispatch) (namespace : string) (k : prog unit) : prog unit :=
  if negb (cl_can c CanPreflightCache) then k
  else
    r ← ask (PreflightRestoreCache namespace);
    let '(cache, err) := match r with Cache cache err => (cache, err) | _ => (no_cache, None) end in
    match err with
    | Some err =>
        fail_with task "RESTORE_CACHE_PREFLIGHT_FAILED" (err_text err)
          {[ "cacheEnabled" := VBool (cache_Enabled cache);
             "cacheStorageClass" := VStr (cache_StorageClass cache) ]}
    | None =>
        _ ← sendTaskProgress task (cache_json cache) 0 (cache_Message cache);
        k
    end.

Definition restore_object (m : RestoreManifest) : AppliedObject :=
  velero_object "Restore" (meta_Namespace (restore_Metadata m)) (meta_Name (restore_Metadata m)).

Definition submitted_restore (task : dispatch) (command : document) (m : RestoreManifest)
    : prog unit :=
  if cl_can c CanReadStatus
  then pollRestoreStatus task (restore_object m)
         (<["storageLocation" := VStr (text_of command "storageRepo")]> (restoreVeleroPayload m true))
  else dry_run task (restoreVeleroPayload m) (d_Type task +:+ " dry-run completed")
         [(0, false, d_Type task +:+ " command accepted");
          (0, true, "Restore operation prepared.");
          (0, true, d_Type task +:+ " resources running")].

Definition executeRestoreTask (task : dispatch) : prog unit :=
  match command_of task "restore" with
  | None => fail task "RESTORE_COMMAND_INVALID" "restore command is required"
  | Some command =>
      match (if oadp c then validateOADPFullRestore command else None) with
      | Some text => fail task "OADP_FULL_RESTORE_REQUIRED" text
      | None =>
          timeout ← storagePreflightWait (d_Deadline task);
          err ← waitForBackupStorageLocation c fuel (text_of command "storageRepo") timeout;
          unless err (fun err => fail_with task "BSL_NOT_READY" (err_text err)
                                   {[ "storageRepo" := VStr (text_of command "storageRepo") ]})
            (built ← build c "restore" "restore" task
               (fun input => mret (BuildRestoreManifest input));
             match built with
             | inl text => fail task "RESTORE_MANIFEST_INVALID" text
             | inr m =>
                 err ← attempt (RecordTask "" (restore_object m));
                 unless err (fun err => fail task "LOCAL_LEDGER_WRITE_FAILED"
                     ("failed to persist task before accepting: " +:+ err_text err))
                   (then_if_sent (sendTaskAccepted task)
                     (preflight_cache task (meta_Namespace (restore_Metadata m))
                       (err ← SubmitRestore c m;
                        unless err (fun err => fail task (restoreSubmitErrorCode err)
                                                 (err_text err))
                          (submitted_restore task command m))))
             end)
      end
  end.

End restore.
