(* ===== verification/AgentBackup.v ===== *)
(** Backups on the agent: one per plan at a time, submitted and watched, and
    stopped by force; and the synchronisation of storage locations and schedules
    (agent/comm-agent/internal/wsclient/client.go, executor/). *)

From S2P Require Import Prelude Text Calendar Timestamp Value Storage Velero Agent AgentReports.
From S2P Require Import AgentTasks.

Section backup.
Context (c : client) (fuel : nat).

(** ** Watching a backup or a storage location *)

Definition observed_payload (object : AppliedObject) (base : document) (status : ManifestStatus)
    : document :=
  put (0 <? status_ItemsTotal status) "itemProgress"
    (VObj {[ "itemsDone" := VNum (status_ItemsDone status);
             "itemsTotal" := VNum (status_ItemsTotal status);
             "percent" := VNum (manifestItemProgressPercent status) ]})
    (<["status" := status_json status]> base).

Fixpoint watch_status (n : nat) (task : dispatch) (object : AppliedObject) (base : document)
    (decide : ManifestStatus -> Z -> decision) (started deadline : time) (progress : Z)
    (samples : list volumeProgressSample) (errorSince : time) : prog unit :=
  match n with
  | O => Unfinished
  | S n =>
      let interval := veleroPollInterval object in
      let again progress samples since : prog unit := sleep interval;;
        watch_status n task object base decide started deadline progress samples since in
      r ← ask (GetManifestStatus object);
      match read_status r with
      | inl err =>
          t ← now;
          let '(since, retry) := read_error err t deadline errorSince in
          if retry : bool then again progress samples since
          else fail task (obj_Kind object +:+ "_STATUS_READ_FAILED") (err_text err)
      | inr status =>
          t ← now;
          let d := decide status (t - started) in
          let progress := Z.max progress (if usesVolumeProgress object
                                          then manifestItemProgress status else dec_progress d) in
          volumes ← buildVolumeProgressPayload (cl_can c CanReadVolumes) object samples;
          let '(volumes, samples) := volumes in
          let v := see_volumes object (observed_payload object base status) volumes in
          match vs_failed v with
          | Some (code, message) => fail_with task code message
              {[ "velero" := VObj (vs_payload v) ]}
          | None =>
              let progress := if vs_seen v then Z.max progress (vs_progress v) else progress in
              let message := in_progress_message v status (dec_message d) in
              if dec_terminal d then
                if dec_success d then
                  payload ← attachBackupSizeStats (cl_can c CanReadStats) object (vs_payload v);
                  stop (sendTaskCompleted task payload message)
                else
                  fail_with task
                    (if nonempty (dec_code d) then dec_code d else obj_Kind object +:+ "_FAILED")
                    (if nonempty (status_Message status) then status_Message status else message)
                    {[ "velero" := VObj (vs_payload v) ]}
              else
                t ← now;
                if deadline <? t
                then fail task (obj_Kind object +:+ "_STATUS_TIMEOUT")
                       ("timed out waiting for Velero " +:+ obj_Kind object +:+ " to complete")
                else if usesVolumeProgress object && negb (vs_ready v) &&
                        (status_ItemsTotal status <=? 0)
                then again progress samples zero_time
                else
                  _ ← sendTaskProgress task (vs_payload v) progress message;
                  again progress samples zero_time
          end
      end
  end.

(** A location is observed for two minutes at least, whatever the clocks say. *)
Definition pollVeleroStatus (task : dispatch) (object : AppliedObject) (base : document)
    (decide : ManifestStatus -> Z -> decision) : prog unit :=
  deadline ← deadline_of task;
  started ← now;
  let deadline :=
    if (obj_Kind object =s "BackupStorageLocation") && (deadline <? started + 2 * 60 * second)
    then started + 2 * 60 * second else deadline in
  watch_status fuel task object base decide started deadline 0 [] zero_time.

(** ** One backup per plan *)

(** [k] with the lock of the plan of the task, which is released at its end. *)
Definition holding_plan (task : dispatch) (k : prog unit) : prog unit :=
  let planID := backupTaskPlanID task in
  if negb (nonempty planID) then k
  else
    r ← ask (AcquirePlan planID (d_TaskID task));
    match r with
    | Busy running =>
        fail_with task "BACKUP_ALREADY_RUNNING"
          "A backup is already running for this protection plan."
          {[ "planId" := VStr planID; "runningTaskId" := VStr running ]}
    | _ => k;; tell (ReleasePlan planID (d_TaskID task))
    end.

(** A Backup object whose task the platform has already seen to its end is
    removed; whether it was. *)
Definition cleanupTerminalBackupConflict (b : VeleroBackupSummary) : prog bool :=
  let taskID := TrimSpace (default "" (vb_Labels b !! "hypercdr.io/task-id")) in
  if negb (isHyperCDRBackup (vb_Labels b)) || negb (nonempty taskID) then mret false
  else
    acked ← ask (IsTerminalAcked taskID);
    if negb (flag_is acked) || negb (cl_can c CanDelete) then mret false
    else
      err ← (if cl_can c CanCancelBackup
             then attempt (CancelBackupVolumeOperations (vb_Namespace b) (vb_Name b))
             else mret None);
      match err with
      | Some _ => mret false
      | None =>
          err ← attempt (DeleteObject (velero_object "Backup" (vb_Namespace b) (vb_Name b)));
          mret (is_null err)
      end.

Fixpoint first_conflict (planID name : string) (l : list VeleroBackupSummary)
    : prog (option VeleroBackupSummary) :=
  match l with
  | [] => mret None
  | b :: l =>
      if (vb_Name b =s name) || negb (isActiveBackupPhase (vb_Phase b)) ||
         (default "" (vb_Labels b !! "hypercdr.io/plan-id") <>s planID)
      then first_conflict planID name l
      else
        cleaned ← cleanupTerminalBackupConflict b;
        if cleaned : bool then first_conflict planID name l else mret (Some b)
  end.

Definition list_backups : prog (api_error + list VeleroBackupSummary) :=
  r ← ask (ListVeleroBackups (cl_Namespace c));
  mret match r with Failed err => inl err | Backups l => inr l | _ => inr [] end.

Definition findConflictingActiveBackup (command : document) (m : BackupManifest)
    : prog (api_error + option VeleroBackupSummary) :=
  if negb (cl_can c CanListBackups) then mret (inr None)
  else
    listed ← list_backups;
    match listed with
    | inl err => mret (inl err)
    | inr l =>
        let planID := TrimSpace (text_of command "planId") in
        if negb (nonempty planID) then mret (inr None)
        else
          found ← first_conflict planID (meta_Name (backup_Metadata m)) l;
          mret (inr found)
    end.

(** ** Submitting *)

Definition backup_object (m : BackupManifest) : AppliedObject :=
  velero_object "Backup" (meta_Namespace (backup_Metadata m)) (meta_Name (backup_Metadata m)).

Definition backupManifestExists (object : AppliedObject) : prog bool :=
  if negb (cl_can c CanReadStatus) then mret false
  else err ← attempt (GetManifestStatus object); mret (is_null err).

(** [n] more looks, the next one after [delay] seconds. *)
Fixpoint shows_up (n : nat) (delay : Z) (object : AppliedObject) : prog bool :=
  match n with
  | O => mret false
  | S n =>
      sleep (delay * second);;
      found ← backupManifestExists object;
      if found : bool then mret true else shows_up n (delay + 1) object
  end.

Fixpoint submit_attempts (n : nat) (first : bool) (m : BackupManifest)
    (lastErr : option api_error) : prog (option api_error) :=
  match n with
  | O => mret (Some (default (new_error "backup submit failed") lastErr))
  | S n =>
      submitted ← SubmitBackup c m;
      match submitted with
      | None => mret None
      | Some err =>
          exists_ ← backupManifestExists (backup_object m);
          if exists_ : bool then mret None
          else if negb (isUncertainKubernetesSubmitError err) && first then mret (Some err)
          else
            found ← shows_up 4 1 (backup_object m);
            if found : bool then mret None else submit_attempts n false m (Some err)
      end
  end.

Definition submitBackupWithConfirmation (m : BackupManifest) : prog (option api_error) :=
  submit_attempts 3 true m None.

(** ** The backup task *)

Definition ensureSourceClusterLabel (m : BackupManifest) : BackupManifest :=
  if negb (nonempty (TrimSpace (cl_ClusterID c))) then m
  else
    let meta := backup_Metadata m in
    {| backup_Metadata :=
         {| meta_Name := meta_Name meta; meta_Namespace := meta_Namespace meta;
            meta_Labels := <["hypercdr.io/source-cluster-id" := cl_ClusterID c]>
                             (meta_Labels meta) |};
       backup_Spec := backup_Spec m |}.

(** What OADP asks of a backup before anything else. *)
Definition oadp_checks (task : dispatch) (command : document) (k : prog unit) : prog unit :=
  if negb (oadp c) then k
  else match validateOADPFullBackup command with
  | Some text => fail task "OADP_FULL_BACKUP_REQUIRED" text
  | None =>
      if negb (cl_can c CanValidatePVCs)
      then fail task "OADP_RWO_CHECK_UNAVAILABLE"
             "OADP backup requires the PVC access-mode preflight"
      else
        err ← attempt (RequireRWO (command_namespaces command));
        unless err (fun err => fail_with task "OADP_UNSUPPORTED_PVC_ACCESS_MODE" (err_text err)
                                 {[ "supportedAccessMode" := VStr "ReadWriteOnce" ]}) k
  end.

Definition submitted_backup (task : dispatch) (m : BackupManifest) : prog unit :=
  if cl_can c CanReadStatus
  then pollVeleroStatus task (backup_object m) (backupVeleroPayload m true) backupStatusResult
  else dry_run task (backupVeleroPayload m) "backup dry-run completed"
         [(15, false, "backup command accepted"); (45, true, "Backup operation prepared.");
          (75, true, "backup data transfer running")].

Definition submit_backup_task (task : dispatch) (command : document) (m : BackupManifest)
    : prog unit :=
  let planID := text_of command "planId" in
  conflict ← findConflictingActiveBackup command m;
  match conflict with
  | inl err =>
      fail_with task "BACKUP_CONFLICT_CHECK_FAILED" (err_text err)
        {[ "namespace" := VStr (text_of command "sourceNamespace"); "planId" := VStr planID ]}
  | inr (Some existing) =>
      tell (SendVeleroEvent existing);;
      fail_with task "BACKUP_ALREADY_RUNNING"
        "A backup is already running for this protection plan."
        {[ "backupName" := VStr (vb_Name existing); "phase" := VStr (vb_Phase existing);
           "startedAt" := VTime (vb_StartedAt existing); "planId" := VStr planID ]}
  | inr None =>
      err ← submitBackupWithConfirmation m;
      unless err (fun err => fail task "BACKUP_SUBMIT_FAILED" (err_text err))
        (submitted_backup task m)
  end.

Definition executeBackupTask (task : dispatch) : prog unit :=
  match command_of task "backup" with
  | None => fail task "BACKUP_COMMAND_INVALID" "backup command is required"
  | Some command =>
      oadp_checks task command (holding_plan task
        (timeout ← storagePreflightWait (d_Deadline task);
         err ← waitForBackupStorageLocation c fuel (text_of command "storageRepo") timeout;
         unless err (fun err => fail_with task "BSL_NOT_READY" (err_text err)
                                  {[ "storageRepo" := VStr (text_of command "storageRepo") ]})
           (built ← build c "backup" "backup" task
              (fun input => t ← now; mret (BuildBackupManifest t input));
            match built with
            | inl text => fail task "BACKUP_MANIFEST_INVALID" text
            | inr m =>
                tell (MarkBackupContext (backupTaskPlanID task));;
                let m := ensureSourceClusterLabel m in
                err ← attempt (RecordTask (backupTaskPlanID task) (backup_object m));
                unless err (fun err => fail task "LOCAL_LEDGER_WRITE_FAILED"
                    ("failed to persist task before accepting: " +:+ err_text err))
                  (then_if_sent (sendTaskAccepted task) (submit_backup_task task command m))
            end)))
  end.

(** ** Force stops *)

Definition latest_active (planID : string) (latest : option VeleroBackupSummary)
    (b : VeleroBackupSummary) : option VeleroBackupSummary :=
  if (default "" (vb_Labels b !! "hypercdr.io/plan-id") <>s planID) ||
     negb (isActiveBackupPhase (vb_Phase b))
  then latest
  else match latest with
  | Some l => if negb (nonempty (vb_Name l)) || (vb_CreatedAt l <? vb_CreatedAt b) then Some b
              else latest
  | None => Some b
  end.

(** The name is empty where there is none. *)
Definition findActiveBackupNameForCancel (planID : string) : prog (api_error + string) :=
  let planID := TrimSpace planID in
  if negb (cl_can c CanListBackups) || negb (nonempty planID) then mret (inr "")
  else
    listed ← list_backups;
    mret match listed with
         | inl err => inl err
         | inr l => inr match fold_left (latest_active planID) l None with
                        | Some b => vb_Name b
                        | None => ""
                        end
         end.

Definition releaseActiveBackupPlanForCancel (planID targetTaskID : string) : prog unit :=
  let planID := TrimSpace planID in
  if negb (nonempty planID) || negb (nonempty targetTaskID) then mret tt
  else tell (ReleasePlan planID targetTaskID).

Definition cancel_backup (task : dispatch) (command : document) (backupName : string)
    : prog unit :=
  let target := text_of command "targetTaskId" in
  let planID := text_of command "planId" in
  let named : document := {[ "backupName" := VStr backupName; "targetTaskId" := VStr target ]} in
  match BuildDeleteBackupRequestManifest (cl_Namespace c) backupName with
  | inl text => fail task "BACKUP_CANCEL_MANIFEST_INVALID" text
  | inr m =>
      let name := meta_Name (delete_Metadata m) in
      let payload := {[ "kind" := VStr "DeleteBackupRequest"; "name" := VStr name;
                        "namespace" := VStr (meta_Namespace (delete_Metadata m)) ]} ∪ named in
      let finish :=
        releaseActiveBackupPlanForCancel planID target;;
        stop (sendTaskCompleted task
          ({[ "kind" := VStr "BackupCancel"; "planId" := VStr planID;
              "deleteRequest" := VStr name; "deleted" := VBool true ]} ∪ named)
          "sync force stop completed") in
      then_if_sent (sendTaskProgress task payload 30 "submitting Velero backup delete request")
        (err ← attempt (ApplyManifest (DeleteBackupRequestObject m));
         unless err (fun err => fail_with task "BACKUP_CANCEL_SUBMIT_FAILED" (err_text err) named)
           (if cl_can c CanWaitForDeletion then
              then_if_sent (sendTaskProgress task payload 70 "waiting for Velero backup deletion")
                (err ← attempt (WaitForVeleroBackupDeleted (cl_Namespace c) backupName);
                 unless err (fun err => fail_with task "BACKUP_CANCEL_DELETE_FAILED" (err_text err)
                                          named) finish)
            else finish))
  end.

Definition executeBackupCancelTask (task : dispatch) : prog unit :=
  match command_of task "backupCancel" with
  | None => fail task "BACKUP_CANCEL_COMMAND_INVALID" "backup cancel command is required"
  | Some command =>
      let target := text_of command "targetTaskId" in
      let planID := text_of command "planId" in
      if negb (cl_can c CanApply)
      then fail task "BACKUP_CANCEL_APPLIER_UNAVAILABLE"
             "kubernetes manifest applier is not configured"
      else
        then_if_sent (sendTaskAccepted task)
          (let given := TrimSpace (text_of command "veleroBackupName") in
           found ← (if nonempty given then mret (inr given)
                    else findActiveBackupNameForCancel planID);
           match found with
           | inl err => fail_with task "BACKUP_CANCEL_LOOKUP_FAILED" (err_text err)
                          {[ "planId" := VStr planID; "targetTaskId" := VStr target ]}
           | inr backupName =>
               if negb (nonempty backupName)
               then stop (sendTaskCompleted task
                      {[ "kind" := VStr "BackupCancel"; "targetTaskId" := VStr target;
                         "planId" := VStr planID; "backupMissing" := VBool true;
                         "deleted" := VBool false ]}
                      "sync force stop completed; no active Velero backup was found")
               else cancel_backup task command backupName
           end)
  end.

(** ** Storage locations and schedules *)

Section storage.
(** The order in which Go meets the entries of a configuration. *)
Context (order : document -> list (string * value)).

Definition location_of (m : StorageManifests) : AppliedObject :=
  let meta := bsl_Metadata (sm_BackupStorageLocation m) in
  velero_object "BackupStorageLocation" (meta_Namespace meta) (meta_Name meta).

Definition executeStorageSyncTask (task : dispatch) : prog unit :=
  match command_of task "storageSync" with
  | None => fail task "STORAGE_SYNC_COMMAND_INVALID" "storage sync command is required"
  | Some command =>
      if oadp c && negb (isOADPS3StorageType (text_of command "type"))
      then fail task "OADP_STORAGE_TYPE_UNSUPPORTED"
             "OpenShift phase one supports only S3-compatible object storage"
      else
        built ← build c "storage" "storageSync" task
          (fun input => mret (BuildStorageManifests order input));
        match built with
        | inl text => fail task "BSL_MANIFEST_INVALID" text
        | inr m =>
            then_if_sent (sendTaskAccepted task)
              (err ← SubmitStorage c m;
               unless err (fun err => fail task "BSL_SUBMIT_FAILED" (err_text err))
                 (let payload := storageVeleroPayload (sm_BackupStorageLocation m) in
                  if cl_can c CanReadStatus
                  then pollVeleroStatus task (location_of m) (payload true) storageStatusResult
                  else dry_run task payload "storage repository sync dry-run completed"
                         [(25, false, "storage repository sync accepted");
                          (60, true, "velero backup storage location manifest generated")]))
        end
  end.

End storage.

Definition executeScheduleSyncTask (task : dispatch) : prog unit :=
  match command_of task "scheduleSync" with
  | None => fail task "SCHEDULE_SYNC_COMMAND_INVALID" "schedule sync command is required"
  | Some command =>
      if negb (cl_can c CanApply)
      then fail task "SCHEDULE_APPLIER_UNAVAILABLE" "Kubernetes manifest applier is not configured"
      else match (if oadp c then validateOADPFullSchedule command else None) with
      | Some text => fail task "OADP_FULL_BACKUP_REQUIRED" text
      | None =>
          match BuildScheduleManifest
            {| in_TaskID := d_TaskID task; in_CommandID := d_CommandID task;
               in_TaskType := d_Type task; in_SourceClusterID := cl_ClusterID c;
               in_AgentNamespace := cl_Namespace c; in_Command := command |} with
          | inl text => fail task "SCHEDULE_MANIFEST_INVALID" text
          | inr m =>
              let meta := schedule_Metadata m in
              then_if_sent (sendTaskAccepted task)
                (err ← attempt (ApplyManifest (ScheduleObject m));
                 unless err (fun err => fail task "SCHEDULE_SUBMIT_FAILED" (err_text err))
                   (stop (sendTaskCompleted task
                      (manifestPayload "Schedule" (meta_Name meta) (meta_Namespace meta))
                      "Velero schedule synchronized")))
          end
      end
  end.

End backup.
