(* ===== verification/AgentCleanup.v ===== *)
(** The tasks of the agent that remove things, the small ones, and the dispatch of
    a task to its function (agent/comm-agent/internal/wsclient/client.go,
    plan_capacity.go, cache_settings.go). *)

From S2P Require Import Prelude Text Calendar Timestamp Value Storage Velero Agent AgentReports.
From S2P Require Import AgentTasks AgentRestore AgentBackup.
From Stdlib Require Import Ascii.

Section cleanup.
Context (c : client) (fuel : nat).

Definition objects_of (command : document) (field : string) : list document :=
  match get command field with
  | VList l => wsMapFromAny <$> l
  | _ => []
  end.

Definition or_agent_namespace (namespace : string) : string :=
  if nonempty namespace then namespace else cl_Namespace c.

(** ** Restore points *)

Definition retentionCleanupProgress (done total : Z) : Z :=
  if total <=? 0 then 100
  else
    let progress := truncate (fmul (fdiv (float done) (float total)) (float 100)) in
    Z.max 1 (Z.min 99 progress).

(** A backup is deleted by a request, which is waited for where that is possible;
    [codes] are those of a bad request, a failed submission and a failed deletion. *)
Definition delete_point (task : dispatch) (codes : string * string * string) (namespace : string)
    (point : document) (k : DeleteBackupRequestManifest -> prog unit) : prog unit :=
  let '(invalid, unsubmitted, undeleted) := codes in
  let name := text_of point "veleroBackupName" in
  let details : document :=
    {[ "restorePointId" := VStr (text_of point "id"); "backupName" := VStr name ]} in
  match BuildDeleteBackupRequestManifest namespace name with
  | inl text => fail task invalid text
  | inr m =>
      err ← attempt (ApplyManifest (DeleteBackupRequestObject m));
      unless err (fun err => fail_with task unsubmitted (err_text err) details)
        (if cl_can c CanWaitForDeletion then
           err ← attempt (WaitForVeleroBackupDeleted namespace name);
           unless err (fun err => fail_with task undeleted (err_text err) details) (k m)
         else k m)
  end.

Definition deletion_json (m : DeleteBackupRequestManifest) (deleted : list string) : document :=
  {[ "kind" := VStr "DeleteBackupRequest"; "name" := VStr (meta_Name (delete_Metadata m));
     "namespace" := VStr (meta_Namespace (delete_Metadata m)); "deleted" := VStrs deleted ]}.

Definition retention_codes : string * string * string :=
  ("RETENTION_DELETE_MANIFEST_INVALID", "RETENTION_DELETE_SUBMIT_FAILED",
   "RETENTION_DELETE_FAILED").

Fixpoint retention_points (task : dispatch) (planID : string) (total : Z) (deleted : list string)
    (points : list document) : prog unit :=
  match points with
  | [] =>
      stop (sendTaskCompleted task
        {[ "kind" := VStr "RetentionCleanup"; "planId" := VStr planID; "deleted" := VStrs deleted ]}
        "retention cleanup completed")
  | point :: points =>
      delete_point task retention_codes (or_agent_namespace (text_of point "namespace")) point
        (fun m =>
           let deleted := deleted ++ [text_of point "id"] in
           then_if_sent (sendTaskProgress task (deletion_json m deleted)
               (retentionCleanupProgress (Z.of_nat (length deleted)) total)
               "retention cleanup deleting expired restore points")
             (retention_points task planID total deleted points))
  end.

Definition executeRetentionCleanupTask (task : dispatch) : prog unit :=
  match command_of task "retentionCleanup" with
  | None => fail task "RETENTION_CLEANUP_COMMAND_INVALID" "retention cleanup command is required"
  | Some command =>
      if negb (cl_can c CanApply)
      then fail task "RETENTION_APPLIER_UNAVAILABLE" "kubernetes manifest applier is not configured"
      else
        let points := objects_of command "restorePoints" in
        then_if_sent (sendTaskAccepted task)
          (retention_points task (text_of command "planId") (Z.of_nat (length points)) [] points)
  end.

(** ** Drills *)

(** Whether a cleanup may remove a namespace. *)
Definition safe_to_delete (namespace : string) (sources : list string) (target : string) : bool :=
  nonempty target && (target <>s namespace) && negb (one_of target sources).

Fixpoint delete_restores (task : dispatch) (namespace : string) (deleted names : list string)
    (k : list string -> prog unit) : prog unit :=
  match names with
  | [] => k deleted
  | name :: names =>
      err ← attempt (DeleteObject (velero_object "Restore" namespace name));
      unless err (fun err => fail_with task "DRILL_RESTORE_DELETE_FAILED" (err_text err)
                               {[ "restoreName" := VStr name ]})
        (delete_restores task namespace (deleted ++ [name]) names k)
  end.

Fixpoint delete_namespaces (task : dispatch) (namespace : string) (sources deleted : list string)
    (targets : list string) (k : list string -> prog unit) : prog unit :=
  match targets with
  | [] => k deleted
  | target :: targets =>
      let target := TrimSpace target in
      if negb (safe_to_delete namespace sources target)
      then fail task "DRILL_CLEANUP_TARGET_UNSAFE"
             "refusing to delete an empty, agent, or source namespace"
      else
        err ← attempt (DeleteNamespaceAndWait target);
        unless err (fun err => fail_with task "DRILL_NAMESPACE_DELETE_FAILED" (err_text err)
                                 {[ "targetNamespace" := VStr target ]})
          (let deleted := deleted ++ [target] in
           _ ← sendTaskProgress task {[ "kind" := VStr "DrillCleanup";
                                        "deletedNamespaces" := VStrs deleted ]} 90
                 "drill namespace deleted";
           delete_namespaces task namespace sources deleted targets k)
  end.

Definition cleanup_drill (task : dispatch) (command : document) (namespace : string) : prog unit :=
  let targets := texts_of command "drillNamespaces" in
  if negb (cl_can c CanDeleteNamespace)
  then fail task "DRILL_CLEANUP_UNAVAILABLE" "namespace cleanup is not supported by this agent"
  else match targets with
  | [] => fail task "DRILL_CLEANUP_TARGET_REQUIRED" "at least one drill namespace is required"
  | _ =>
      delete_restores task namespace [] (dedupeStrings (texts_of command "restoreNames"))
        (fun restores =>
           delete_namespaces task namespace (texts_of command "sourceNamespaces") [] targets
             (fun namespaces =>
                stop (sendTaskCompleted task
                  {[ "kind" := VStr "DrillCleanup"; "deletedNamespaces" := VStrs namespaces;
                     "deletedRestores" := VStrs restores ]} "drill resources cleaned")))
  end.

(** ** Protection plans *)

Definition protection_codes : string * string * string :=
  ("PROTECTION_CLEANUP_DELETE_MANIFEST_INVALID", "PROTECTION_CLEANUP_DELETE_SUBMIT_FAILED",
   "PROTECTION_CLEANUP_BACKUP_DELETE_FAILED").

Definition protection_progress (done total : Z) : Z :=
  if 0 <? total
  then 20 + truncate (fmul (fdiv (float done) (float total)) (float 80)) else 100.

Fixpoint protection_points (task : dispatch) (planID namespace : string) (total : Z)
    (deleted : list string) (points : list document) (k : list string -> prog unit) : prog unit :=
  match points with
  | [] => k deleted
  | point :: points =>
      let own := text_of point "namespace" in
      delete_point task protection_codes (if nonempty own then own else namespace) point
        (fun m =>
           let deleted := deleted ++ [text_of point "id"] in
           then_if_sent (sendTaskProgress task
               (<["planId" := VStr planID]> (deletion_json m deleted))
               (protection_progress (Z.of_nat (length deleted)) total)
               "protection cleanup deleting restore point data")
             (protection_points task planID namespace total deleted points k))
  end.

(** [k] with what a call answers, or the failure it stands for. *)
Definition step (task : dispatch) (call_ : call) (code : string) (details : document)
    (k : answer -> prog unit) : prog unit :=
  r ← ask call_;
  match r with
  | Failed err => fail_with task code (err_text err) details
  | _ => k r
  end.

Definition kinds_json (r : answer) : value :=
  match r with NamesByKind m => VObj (VStrs <$> m) | _ => VObj ∅ end.

(** A target cluster keeps the data: its Velero objects only are removed. *)
Definition cleanup_target (task : dispatch) (command : document) (namespace planID : string)
    (backupNames : list string) : prog unit :=
  let prefix := text_of command "backupNamePrefix" in
  let storage := text_of command "storageRepo" in
  let sources := texts_of command "sourceNamespaces" in
  if negb (cl_can c CanCleanProtection)
  then fail task "PROTECTION_CLEANUP_CLEANER_UNAVAILABLE"
         "velero protection cleaner is not configured"
  else
    step task (DeleteVeleroBackupArtifacts namespace backupNames)
      "PROTECTION_CLEANUP_TARGET_CR_DELETE_FAILED" {[ "backupNames" := VStrs backupNames ]}
    (fun crs =>
    step task (DeleteVeleroBackupArtifactsByNamePrefix namespace prefix)
      "PROTECTION_CLEANUP_TARGET_PREFIX_CR_DELETE_FAILED" {[ "backupNamePrefix" := VStr prefix ]}
    (fun prefixed =>
    step task (DeleteBackupRepositories namespace storage sources)
      "PROTECTION_CLEANUP_TARGET_REPOSITORY_DELETE_FAILED"
      {[ "storageRepo" := VStr storage; "sourceNamespaces" := VStrs sources ]}
    (fun repositories =>
      stop (sendTaskCompleted task
        {[ "kind" := VStr "ProtectionCleanup"; "mode" := VStr "target"; "planId" := VStr planID;
           "deleted" := VStrs []; "deletedVeleroCRs" := kinds_json crs;
           "deletedPrefixCRs" := kinds_json prefixed;
           "deletedRepositories" := VStrs (names_of repositories) ]}
        "target protection resources cleaned")))).

(** An operation that is tried again while the API is not available. *)
Fixpoint retryProtectionCleanup (operation : string) (call_ : call) (attempt total : Z)
    (retries : nat) : prog answer :=
  r ← ask call_;
  match r with
  | Failed err =>
      if negb (isUncertainKubernetesSubmitError err) then mret r
      else match retries with
      | O => mret (Failed (wrap_error (operation +:+ " failed because the Kubernetes API remained " +:+
               "temporarily unavailable after " +:+ sprint_num total +:+ " retries: ") err))
      | S retries =>
          sleep (second / 2 * (attempt + 1));;
          retryProtectionCleanup operation call_ (attempt + 1) total retries
      end
  | _ => mret r
  end.

(** What is removed besides the restore points, in the order it is reported. *)
Record removed := {
  rem_prefix : value;
  rem_repositories : list string;
  rem_backups : list string;
  rem_restores : list string;
  rem_kopia : list string
}.

Definition nothing_removed : removed :=
  {| rem_prefix := VObj ∅; rem_repositories := []; rem_backups := []; rem_restores := [];
     rem_kopia := [] |}.

Definition cleanup_object_storage (task : dispatch) (command : document) (namespace : string)
    (prefixed : answer) (repositories : list string) (k : removed -> prog unit) : prog unit :=
  let prefix := text_of command "backupNamePrefix" in
  let storage := text_of command "storageRepo" in
  let sources := texts_of command "sourceNamespaces" in
  let restores := texts_of command "restoreNames" in
  step task (DeleteBackupObjectsByNamePrefix namespace storage prefix)
    "PROTECTION_CLEANUP_BACKUP_OBJECT_DELETE_FAILED"
    {[ "storageRepo" := VStr storage; "backupNamePrefix" := VStr prefix;
       "sourceNamespaces" := VStrs sources ]}
  (fun backups =>
   r ← retryProtectionCleanup "restore objects" (DeleteRestoreObjects namespace storage restores)
         0 3 3;
   match r with
   | Failed err =>
       fail_with task "PROTECTION_CLEANUP_RESTORE_OBJECT_DELETE_FAILED" (err_text err)
         {[ "storageRepo" := VStr storage; "restoreNames" := VStrs restores ]}
   | _ =>
       step task (DeleteKopiaRepositories namespace storage sources)
         "PROTECTION_CLEANUP_KOPIA_DELETE_FAILED"
         {[ "storageRepo" := VStr storage; "sourceNamespaces" := VStrs sources ]}
         (fun kopia =>
            k {| rem_prefix := kinds_json prefixed; rem_repositories := repositories;
                 rem_backups := names_of backups; rem_restores := names_of r;
                 rem_kopia := names_of kopia |})
   end).

Definition cleanup_repositories (task : dispatch) (command : document) (namespace : string)
    (k : removed -> prog unit) : prog unit :=
  let prefix := text_of command "backupNamePrefix" in
  let storage := text_of command "storageRepo" in
  let sources := texts_of command "sourceNamespaces" in
  if negb (cl_can c CanCleanProtection) || negb (nonempty storage) || negb (some_texts sources)
  then k nothing_removed
  else
    step task (DeleteVeleroBackupArtifactsByNamePrefix namespace prefix)
      "PROTECTION_CLEANUP_PREFIX_CR_DELETE_FAILED" {[ "backupNamePrefix" := VStr prefix ]}
    (fun prefixed =>
    step task (DeleteBackupRepositories namespace storage sources)
      "PROTECTION_CLEANUP_REPOSITORY_DELETE_FAILED"
      {[ "storageRepo" := VStr storage; "sourceNamespaces" := VStrs sources ]}
    (fun repositories =>
      if flag_of command "cleanupObjectStorage"
      then cleanup_object_storage task command namespace prefixed (names_of repositories) k
      else k {| rem_prefix := kinds_json prefixed; rem_repositories := names_of repositories;
                rem_backups := []; rem_restores := []; rem_kopia := [] |})).

Definition cleanup_schedule (task : dispatch) (namespace planID schedule : string)
    (deleted : list string) (k : prog unit) : prog unit :=
  if negb (nonempty schedule) then k
  else
    err ← attempt (DeleteObject (velero_object "Schedule" namespace schedule));
    unless err (fun err => fail_with task "PROTECTION_CLEANUP_SCHEDULE_DELETE_FAILED" (err_text err)
                             {[ "scheduleName" := VStr schedule; "namespace" := VStr namespace ]})
      (then_if_sent (sendTaskProgress task
           {[ "kind" := VStr "ProtectionCleanup"; "planId" := VStr planID;
              "scheduleName" := VStr schedule; "namespace" := VStr namespace;
              "deleted" := VStrs deleted ]} 100 "velero schedule deleted") k).

Definition cleanup_source (task : dispatch) (command : document) (namespace planID mode : string)
    (points : list document) : prog unit :=
  let schedule := text_of command "scheduleName" in
  protection_points task planID namespace (Z.of_nat (length points)) [] points (fun deleted =>
  cleanup_schedule task namespace planID schedule deleted
  (cleanup_repositories task command namespace (fun rem =>
  stop (sendTaskCompleted task
    {[ "kind" := VStr "ProtectionCleanup"; "mode" := VStr mode; "planId" := VStr planID;
       "scheduleName" := VStr schedule; "deleted" := VStrs deleted;
       "deletedPrefixCRs" := rem_prefix rem; "deletedBackupObjects" := VStrs (rem_backups rem);
       "deletedRestoreObjects" := VStrs (rem_restores rem);
       "deletedRepositories" := VStrs (rem_repositories rem);
       "deletedKopiaRepositories" := VStrs (rem_kopia rem) ]} "protection resources cleaned")))).

Definition executeProtectionCleanupTask (task : dispatch) : prog unit :=
  match command_of task "protectionCleanup" with
  | None => fail task "PROTECTION_CLEANUP_COMMAND_INVALID" "protection cleanup command is required"
  | Some command =>
      if negb (cl_can c CanApply)
      then fail task "PROTECTION_CLEANUP_APPLIER_UNAVAILABLE"
             "kubernetes manifest applier is not configured"
      else if negb (cl_can c CanDelete)
      then fail task "PROTECTION_CLEANUP_DELETER_UNAVAILABLE"
             "kubernetes object deleter is not configured"
      else
        let namespace := or_agent_namespace (text_of command "namespace") in
        let mode := TrimSpace (text_of command "cleanupMode") in
        let mode := if nonempty mode then mode else "source" in
        let planID := text_of command "planId" in
        let points := objects_of command "restorePoints" in
        then_if_sent (sendTaskAccepted task)
          (if mode =s "drill" then cleanup_drill task command namespace
           else if mode =s "target"
           then cleanup_target task command namespace planID
                  (List.filter nonempty ((fun p => text_of p "veleroBackupName") <$> points))
           else cleanup_source task command namespace planID mode points)
  end.

(** ** Other tasks *)

Definition executeCacheSettingsTask (task : dispatch) : prog unit :=
  match command_of task "cacheSettings" with
  | None => fail task "CACHE_SETTINGS_REQUIRED" "Cache settings are missing"
  | Some command =>
      if negb (cl_can c CanConfigureCache)
      then fail task "CACHE_RUNTIME_UNAVAILABLE" "Cache management is unavailable"
      else
        then_if_sent (sendTaskAccepted task)
          (err ← attempt (ConfigureCache command);
           unless err (fun err => fail task "CACHE_SETTINGS_FAILED" (err_text err))
             (stop (sendTaskCompleted task
                {[ "kind" := VStr "CacheSettings"; "enabled" := VBool (flag_of command "enabled");
                   "maxGiB" := VNum (int64FromAny (get command "maxGiB"));
                   "clean" := VBool (flag_of command "clean") ]}
                "Cache settings applied for new tasks")))
  end.

Definition handover_actions : list string := ["prepare"; "confirm"; "rollback"; "commit"; "cleanup"].

Definition executeControlPlaneHandoverTask (task : dispatch) : prog unit :=
  match command_of task "controlPlaneHandover" with
  | Some command =>
      let migration := text_of command "migrationId" in
      let action := text_of command "action" in
      let payload : document :=
        {[ "kind" := VStr "ControlPlaneHandover"; "migrationId" := VStr migration;
           "action" := VStr action ]} in
      if negb (nonempty (TrimSpace migration))
      then fail task "HANDOVER_COMMAND_INVALID"
             "control-plane handover command and migration ID are required"
      else if negb (cl_can c CanHandOver)
      then fail task "HANDOVER_MANAGER_NOT_CONFIGURED"
             "control-plane handover manager is not configured"
      else
        then_if_sent (sendTaskAccepted task)
          (_ ← sendTaskProgress task payload 30 "control-plane handover accepted";
           err ← (if one_of action handover_actions then attempt (Handover action command)
                  else mret (Some (new_error ("unsupported handover action " +:+ quoted action))));
           unless err
             (fun err => fail_with task "CONTROL_PLANE_HANDOVER_FAILED"
                "control-plane handover action failed"
                {[ "action" := VStr action; "migrationId" := VStr migration;
                   "error" := VStr (err_text err) ]})
             (stop (sendTaskCompleted task payload "control-plane handover action completed")))
  | None => fail task "HANDOVER_COMMAND_INVALID"
              "control-plane handover command and migration ID are required"
  end.

Definition or_text (s other : string) : string := if nonempty s then s else other.

Definition executeAgentUpgradeTask (task : dispatch) : prog unit :=
  match command_of task "agentUpgrade" with
  | None => fail task "AGENT_UPGRADE_COMMAND_INVALID" "agent upgrade command is required"
  | Some command =>
      let namespace := or_text (or_agent_namespace (text_of command "namespace")) "hypercdr-agent" in
      let deployment := or_text (text_of command "deploymentName") "hypercdr-comm-agent" in
      let container := or_text (text_of command "containerName") "comm-agent" in
      let image := VStr (text_of command "image") in
      let payload : document :=
        {[ "kind" := VStr "AgentUpgrade"; "name" := VStr deployment;
           "namespace" := VStr namespace; "image" := image ]} in
      let digest := VStr (text_of command "expectedDigest") in
      then_if_sent (sendTaskAccepted task)
        (if negb (cl_can c HasRuntime)
         then fail task "AGENT_UPGRADER_NOT_CONFIGURED" "agent upgrader is not configured"
         else
           then_if_sent (sendTaskProgress task (<["targetHash" := digest]> payload) 20
               "agent upgrade accepted; updating deployment")
             (err ← attempt (UpgradeAgent
                {[ "namespace" := VStr namespace; "deploymentName" := VStr deployment;
                   "containerName" := VStr container; "image" := image;
                   "version" := VStr (text_of command "version");
                   "rolloutAnnotation" := VStr (text_of command "rolloutAnnotation") ]});
              unless err
                (fun err => fail_with task "AGENT_UPGRADE_FAILED" "agent deployment update failed"
                   {[ "error" := VStr (err_text err); "namespace" := VStr namespace;
                      "deployment" := VStr deployment; "image" := image ]})
                (_ ← sendTaskProgress task payload 80
                       "agent deployment updated; waiting for reconnect";
                 stop (sendTaskCompleted task (<["expectedDigest" := digest]> payload)
                   "agent deployment upgrade submitted"))))
  end.

(** The reports of the stages of an uninstallation, made while it runs. *)
Definition stage_progress (stage : string) : Z :=
  if stage =s "external_rbac_cleaning" then 65
  else if stage =s "velero_crd_check" then 75
  else if stage =s "namespace_deleting" then 85 else 50.

Fixpoint report_stages (task : dispatch) (namespace : string) (stages : list (string * string))
    (k : prog unit) : prog unit :=
  match stages with
  | [] => k
  | (stage, message) :: stages =>
      _ ← sendTaskProgress task {[ "kind" := VStr "Unregister"; "namespace" := VStr namespace;
                                   "stage" := VStr stage ]} (stage_progress stage) message;
      report_stages task namespace stages k
  end.

Definition executeUnregisterTask (task : dispatch) : prog unit :=
  match command_of task "unregister" with
  | None => fail task "UNREGISTER_COMMAND_INVALID" "unregister command is required"
  | Some command =>
      let namespace := text_of command "namespace" in
      let payload : document :=
        {[ "kind" := VStr "Unregister"; "name" := VStr (cl_ClusterID c);
           "namespace" := VStr namespace ]} in
      then_if_sent (sendTaskAccepted task)
        (then_if_sent (sendTaskProgress task payload 40
             "agent unregister acknowledged; cluster-side cleanup is starting")
          (if negb (cl_can c CanUninstall)
           then fail task "UNINSTALLER_NOT_CONFIGURED" "cluster-side uninstaller is not configured"
           else
             r ← ask (Uninstall command);
             let '(stages, err) := match r with
                                   | Stages stages err => (stages, err)
                                   | _ => ([], error_of r)
                                   end in
             report_stages task namespace stages
               (unless err
                 (fun err => fail_with task "UNREGISTER_CLEANUP_FAILED" "cluster-side cleanup failed"
                    {[ "error" := VStr (err_text err); "namespace" := VStr namespace ]})
                 (stop (sendTaskCompleted task
                    (<["deleteVelero" := VBool (flag_of command "deleteVelero")]>
                    (<["deleteNamespace" := VBool (flag_of command "deleteNamespace")]> payload))
                    "cluster-side cleanup request completed")))))
  end.

(** ** Capacity of plans *)

Definition target_json (plan : document) : document :=
  {[ "planId" := VStr (text_of plan "planId");
     "storageLocation" := VStr (text_of plan "storageLocation");
     "backupNamePrefix" := VStr (backupNamePrefixForPlan (text_of plan "planId"));
     "namespaces" := VStrs (texts_of plan "namespaces") ]}.

Definition failed_plan (t : time) (plan : document) : PlanCapacityResult :=
  {| pc_PlanID := text_of plan "planId"; pc_Status := "failed"; pc_MetadataBytes := 0;
     pc_KopiaBytes := 0; pc_TotalBytes := 0; pc_CollectedAt := t;
     pc_ErrorMessage := text_of plan "errorMessage" |}.

Definition measured_result (r : capacity_result) : PlanCapacityResult :=
  match cr_Error r with
  | Some text =>
      {| pc_PlanID := cr_PlanID r; pc_Status := "failed"; pc_MetadataBytes := 0;
         pc_KopiaBytes := 0; pc_TotalBytes := 0; pc_CollectedAt := cr_CollectedAt r;
         pc_ErrorMessage := text |}
  | None =>
      {| pc_PlanID := cr_PlanID r; pc_Status := "succeeded";
         pc_MetadataBytes := cr_MetadataBytes r; pc_KopiaBytes := cr_KopiaBytes r;
         pc_TotalBytes := cr_TotalBytes r; pc_CollectedAt := cr_CollectedAt r;
         pc_ErrorMessage := "" |}
  end.

(** The plans that failed before they were asked for, and the ones to measure;
    [None] where one is not identified. *)
Fixpoint split_plans (plans : list document) (failed : list PlanCapacityResult)
    (targets : list document) : prog (option (list PlanCapacityResult * list document)) :=
  match plans with
  | [] => mret (Some (failed, targets))
  | plan :: plans =>
      if nonempty (text_of plan "planId") && nonempty (text_of plan "errorMessage") then
        t ← now;
        split_plans plans (failed ++ [failed_plan t plan]) targets
      else if negb (nonempty (text_of plan "planId")) ||
              negb (nonempty (text_of plan "storageLocation")) ||
              negb (some_texts (texts_of plan "namespaces"))
      then mret None
      else split_plans plans failed (targets ++ [target_json plan])
  end.

Definition send_capacity (report : list PlanCapacityResult) : prog unit :=
  stop (attempt (Send (CapacityReport report))).

Definition collect_capacity (task : dispatch) (namespace : string) (plans : list document)
    : prog unit :=
  found ← split_plans plans [] [];
  match found with
  | None => fail task "CAPACITY_COMMAND_INVALID"
              "Plan identity, storage location and namespaces are required"
  | Some (failed, targets) =>
      r ← ask (CollectPlanCapacity namespace targets);
      let report := failed ++ (measured_result <$> match r with Results l => l | _ => [] end) in
      err ← attempt (WriteCheckpoint report);
      unless err (fun err => fail task "CAPACITY_STATE_WRITE_FAILED" (err_text err))
        (send_capacity report)
  end.

Definition measure_plans (task : dispatch) (namespace : string) (plans : list document)
    : prog unit :=
  if negb (nonempty (cl_StateDir c))
  then fail task "CAPACITY_STATE_REQUIRED"
         "Persistent agent state is required for capacity collection"
  else if negb (cl_can c CanCollectCapacity)
  then fail task "CAPACITY_READER_UNAVAILABLE" "Capacity collection is unavailable"
  else then_if_sent (sendTaskAccepted task) (collect_capacity task namespace plans).

(** The result of a task is kept, so that asking again does not measure again. *)
Definition executePlanCapacityTask (task : dispatch) : prog unit :=
  let command := default ∅ (command_of task "planCapacity") in
  let plans := objects_of command "plans" in
  let namespace := text_of command "namespace" in
  if match plans with [] => true | _ => false end || negb (nonempty namespace)
  then fail task "CAPACITY_COMMAND_INVALID"
         "Capacity collection requires a non-empty plan list and namespace"
  else
    r ← ask ReadCheckpoint;
    match r with
    | Malformed text => fail task "CAPACITY_STATE_INVALID" text
    | Failed err =>
        if negb (err_missing err) then fail task "CAPACITY_STATE_UNAVAILABLE" (err_text err)
        else if negb (nonempty (d_TaskID task)) && negb (nonempty (d_CommandID task))
        then send_capacity [] else measure_plans task namespace plans
    | Checkpoint taskID commandID report =>
        if (taskID =s d_TaskID task) && (commandID =s d_CommandID task)
        then send_capacity report else measure_plans task namespace plans
    | _ => measure_plans task namespace plans
    end.

(** ** Upgrades of Velero *)

(** The scheme and the host of an absolute address, as [url.Parse] finds them
    where neither has escapes. *)
Definition until (l : list ascii) (stops : list ascii) : list ascii :=
  (fix go l := match l with
               | [] => []
               | x :: l => if existsb (is_char x) stops then [] else x :: go l
               end) l.

Definition url_parts (raw : string) : string * string :=
  match cut_list ":"%char (chars raw) with
  | Some (scheme, rest) =>
      (ToLower (of_chars scheme),
       if HasPrefix (of_chars rest) "//"
       then
         let authority := until (drop 2 rest) ["/"%char; "?"%char; "#"%char] in
         of_chars match cut_list "@"%char authority with
                  | Some (_, host) => host
                  | None => authority
                  end
       else "")
  | None => ("", "")
  end.

Fixpoint apply_definitions (items : list bundle_item) (applied : bool)
    : prog (option api_error) :=
  match items with
  | [] => mret (if applied then None else Some (new_error "Velero CRD bundle is empty"))
  | item :: items =>
      match item with
      | BadItem err | Unidentified err => mret (Some err)
      | EmptyItem => apply_definitions items applied
      | DefinitionItem apiVersion kind name =>
          if (apiVersion <>s "apiextensions.k8s.io/v1") || (kind <>s "CustomResourceDefinition")
          then mret (Some (new_error ("unexpected object " +:+ apiVersion +:+ "/" +:+ kind +:+
                                      " in Velero CRD bundle")))
          else
            err ← attempt (ApplyManifest (CRDObject name));
            match err with
            | Some err => mret (Some (wrap_error ("apply Velero CRD " +:+ name +:+ ": ") err))
            | None => apply_definitions items true
            end
      end
  end.

Definition applyVeleroCRDs (platform rawURL : string) : prog (option api_error) :=
  let '(scheme, host) := url_parts (TrimSpace rawURL) in
  let '(_, platform_host) := url_parts platform in
  if negb (cl_can c CanApply) then mret (Some (new_error "manifest applier is not configured"))
  else if negb (one_of scheme ["http"; "https"]) || negb (nonempty host)
  then mret (Some (new_error ("invalid Velero CRD URL " +:+ quoted rawURL)))
  else if negb (EqualFold host platform_host)
  then mret (Some (new_error ("Velero CRD URL host " +:+ quoted host +:+
                              " does not match platform host " +:+ quoted platform_host)))
  else
    r ← ask (Download (TrimSpace rawURL));
    match r with
    | Bundle items => apply_definitions items false
    | _ => mret (Some (default (new_error "") (error_of r)))
    end.

Definition upgrade_options (command : document) (keys : list string) (namespace : string)
    : document :=
  <["namespace" := VStr namespace]> (filter (fun '(k, _) => k ∈ keys) command).

Definition upgrade_oadp (task : dispatch) (command : document) : prog unit :=
  let image := VStr (text_of command "catalogImage") in
  _ ← sendTaskProgress task {[ "kind" := VStr "OADPUpgrade"; "catalogImage" := image ]} 15
        "OADP upgrade accepted; updating the qualified OLM catalog";
  err ← attempt (UpgradeOADP (upgrade_options command
    ["catalogImage"; "oadpPackage"; "oadpChannel"; "oadpTargetCsv"] (text_of command "namespace")));
  unless err
    (fun err => fail_with task "OADP_UPGRADE_FAILED" "OADP Operator upgrade failed"
       {[ "error" := VStr (err_text err); "catalogImage" := image ]})
    (stop (sendTaskCompleted task
       {[ "kind" := VStr "OADPUpgrade"; "image" := VStr (text_of command "image");
          "expectedDigest" := VStr (text_of command "expectedDigest") ]}
       ("OADP Operator, Velero, and node-agent rollout completed; " +:+
        "waiting for heartbeat verification"))).

Definition upgrade_velero (task : dispatch) (platform : string) (command : document) : prog unit :=
  let image := VStr (text_of command "image") in
  let payload : document := {[ "kind" := VStr "VeleroUpgrade"; "image" := image ]} in
  let namespace := or_agent_namespace (text_of command "namespace") in
  let url := text_of command "crdsUrl" in
  let rollout :=
    err ← attempt (UpgradeVelero (upgrade_options command
      ["image"; "deploymentName"; "daemonSetName"; "awsPluginImage"; "azurePluginImage";
       "gcpPluginImage"; "concurrentBackups"; "nodeAgentConcurrency"; "prepareQueueLength";
       "cacheStorageClass"; "cacheResidentThresholdMB"; "cacheLimitMB"] namespace));
    unless err
      (fun err => fail_with task "VELERO_UPGRADE_FAILED" "velero rollout failed"
         {[ "error" := VStr (err_text err); "image" := image ]})
      (_ ← sendTaskProgress task payload 85
             "velero server and all scheduled node agents are ready; verifying image digest";
       stop (sendTaskCompleted task
         (<["expectedDigest" := VStr (text_of command "expectedDigest")]> payload)
         "velero rollout completed; waiting for heartbeat verification")) in
  _ ← sendTaskProgress task payload 15
        "velero upgrade accepted; updating server and node agents";
  err ← attempt (PrepareVeleroUpgrade namespace);
  unless err
    (fun err => fail_with task "VELERO_UPGRADE_PERMISSION_FAILED"
       "failed to prepare Velero upgrade permissions" {[ "error" := VStr (err_text err) ]})
    (if negb (nonempty url) then rollout
     else
       _ ← sendTaskProgress task payload 20 "applying Velero CRDs";
       err ← applyVeleroCRDs platform url;
       unless err
         (fun err => fail_with task "VELERO_CRD_UPGRADE_FAILED" "failed to apply Velero CRDs"
            {[ "error" := VStr (err_text err); "crdsUrl" := VStr url ]}) rollout).

Definition executeVeleroUpgradeTask (platform : string) (task : dispatch) : prog unit :=
  match command_of task "veleroUpgrade" with
  | None => fail task "VELERO_UPGRADE_COMMAND_INVALID" "velero upgrade command is required"
  | Some command =>
      then_if_sent (sendTaskAccepted task)
        (if negb (cl_can c HasRuntime)
         then fail task "VELERO_UPGRADER_NOT_CONFIGURED" "velero upgrader is not configured"
         else if flag_of command "oadp" then upgrade_oadp task command
         else upgrade_velero task platform command)
  end.

(** ** Dispatch *)

Definition executeTask (order : document -> list (string * value)) (platform : string)
    (task : dispatch) : prog unit :=
  if negb (nonempty (TrimSpace (d_TaskID task)))
  then fail task "TASK_ID_REQUIRED" "platform task dispatch is missing task id"
  else
    let type := d_Type task in
    if type =s "plan-capacity" then executePlanCapacityTask task
    else if type =s "cache-settings" then executeCacheSettingsTask task
    else if type =s "backup" then executeBackupTask c fuel task
    else if type =s "backup-cancel" then executeBackupCancelTask c task
    else if one_of type ["restore"; "drill"; "takeover"] then executeRestoreTask c fuel task
    else if type =s "storage-sync" then executeStorageSyncTask c fuel order task
    else if type =s "schedule-sync" then executeScheduleSyncTask c task
    else if type =s "retention-cleanup" then executeRetentionCleanupTask task
    else if type =s "protection-cleanup" then executeProtectionCleanupTask task
    else if type =s "agent-upgrade" then executeAgentUpgradeTask task
    else if type =s "velero-upgrade" then executeVeleroUpgradeTask platform task
    else if type =s "unregister" then executeUnregisterTask task
    else if type =s "control-plane-handover" then executeControlPlaneHandoverTask task
    else fail task "TASK_UNSUPPORTED" ("unsupported task type: " +:+ type).

End cleanup.
