(* ===== verification/AgentSafety.v ===== *)
(** What the agent does to a cluster on behalf of a task, whatever the cluster
    answers: which calls are made only when, and that a task ends with one
    report.

    [lawful] says what holds whenever a call is made.  It is proved of every
    program of a task by the logic of Agent.v; the properties are what it means
    for the histories of runs. *)

From S2P Require Import Prelude Text Calendar Timestamp Value Storage Velero Agent AgentReports.
From S2P Require Import AgentTasks AgentRestore AgentBackup AgentCleanup.

(** ** Ends *)

Definition terminal (x : call) : bool :=
  match x with
  | Send (CompletedReport _ _) | Send (CapacityReport _) | Send (FailedReport _ _ _) => true
  | _ => false
  end.

(** A terminal report was sent; no terminal report was sent. *)
Definition ended (h : history) : Prop := exists x r, (x, r) ∈ h /\ terminal x = true.
Definition ongoing (h : history) : Prop := forall x r, (x, r) ∈ h -> terminal x = false.

(** The acceptance or the progress of the task could not be sent. *)
Definition unsent (h : history) : Prop :=
  exists x r, (x, r) ∈ h /\ terminal x = false /\ (exists report, x = Send report) /\
    ~ succeeded r.

Definition over (h : history) (_ : unit) : Prop := ended h \/ unsent h.

Section lawful.
Context (c : client) (task : dispatch).

(** ** When a call may be made *)

(** A namespace is deleted for a failed drill, once its volume operations are
    known to have stopped, or by the cleanup of drills. *)
Definition namespace_expendable (namespace : string) (h : history) : Prop :=
  (drill_namespace c task = Some namespace /\
   exists agent name, happened (CancelRestoreVolumeOperations agent name) succeeded h) \/
  (exists command,
     d_Type task = "protection-cleanup" /\ command_of task "protectionCleanup" = Some command /\
     TrimSpace (text_of command "cleanupMode") = "drill" /\
     safe_to_delete (or_agent_namespace c (text_of command "namespace"))
       (texts_of command "sourceNamespaces") namespace = true).

(** A namespace is replaced for a restore that asks for it, once the backup it is
    restored from is known to be there. *)
Definition namespace_replaceable (namespace : string) (h : history) : Prop :=
  exists command,
    command_of task "restore" = Some command /\ text_of command "conflictPolicy" = "replace" /\
    text_of command "targetNamespace" = namespace /\ namespace <> "" /\
    namespace <> agent_namespace_of (input_of c task command) /\ namespace <> cl_Namespace c /\
    happened (WaitForVeleroBackup (agent_namespace_of (input_of c task command))
      (text_of command "veleroBackupName")) succeeded h.

(** An object is submitted once the task is in the ledger and accepted. *)
Definition announced (planID : string) (object : AppliedObject) (h : history) : Prop :=
  happened (RecordTask planID object) succeeded h /\ happened (Send Accepted) succeeded h.

Definition location_available (name : string) (h : history) : Prop :=
  cl_can c CanReadStatus = true ->
  happened (GetManifestStatus (location_object c name))
    (fun r => succeeded r /\ status_Phase (status_of r) = "Available") h.

Definition backup_ready (m : BackupManifest) (h : history) : Prop :=
  exists command,
    command_of task "backup" = Some command /\
    announced (backupTaskPlanID task) (backup_object m) h /\
    location_available (text_of command "storageRepo") h /\
    spec_IncludedNamespaces (backup_Spec m) = command_namespaces command /\
    agent_namespace_of (input_of c task command) ∉ command_namespaces command.

Definition restore_ready (m : RestoreManifest) (h : history) : Prop :=
  exists command,
    command_of task "restore" = Some command /\ announced "" (restore_object m) h /\
    location_available (text_of command "storageRepo") h /\
    happened (WaitForVeleroBackup (meta_Namespace (restore_Metadata m))
      (text_of command "veleroBackupName")) succeeded h /\
    (text_of command "conflictPolicy" = "replace" ->
     happened (ReplaceNamespaceAndWait (text_of command "targetNamespace")) succeeded h).

(** The deletion of a point was asked for and, where the agent can watch it,
    seen to be done. *)
Definition point_deleted (namespace : string) (point : document) (h : history) : Prop :=
  let name := text_of point "veleroBackupName" in
  exists m, BuildDeleteBackupRequestManifest namespace name = inr m /\
    happened (ApplyManifest (DeleteBackupRequestObject m)) succeeded h /\
    (cl_can c CanWaitForDeletion = true ->
     happened (WaitForVeleroBackupDeleted namespace name) succeeded h).

(** A retention cleanup is completed with all its points, each of them deleted. *)
Definition deletions_backed (velero : document) (h : history) : Prop :=
  d_Type task = "retention-cleanup" ->
  exists command,
    command_of task "retentionCleanup" = Some command /\
    get velero "deleted" =
      VStrs ((fun point => text_of point "id") <$> objects_of command "restorePoints") /\
    forall point, point ∈ objects_of command "restorePoints" ->
      point_deleted (or_agent_namespace c (text_of point "namespace")) point h.

Definition lawful (h : history) (x : call) : Prop :=
  match x with
  | ReleasePlan _ _ => True
  | _ =>
      ongoing h /\
      match x with
      | DeleteNamespaceAndWait namespace => namespace_expendable namespace h
      | ReplaceNamespaceAndWait namespace => namespace_replaceable namespace h
      | ApplyManifest (BackupObject m) => backup_ready m h
      | ApplyManifest (RestoreObject m) => restore_ready m h
      | DeleteObject object =>
          obj_Kind object = "Backup" ->
          exists taskID, taskID <> "" /\
            happened (IsTerminalAcked taskID) (fun r => flag_is r = true) h
      | Send (CompletedReport velero _) => deletions_backed velero h
      | _ => True
      end
  end.

(** Calls that may be made at any time before the end. *)
Definition mild (x : call) : Prop :=
  match x with
  | Send Accepted | Send (Progress _ _ _) => True
  | Send _ | DeleteNamespaceAndWait _ | ReplaceNamespaceAndWait _ => False
  | ApplyManifest (BackupObject _) | ApplyManifest (RestoreObject _) => False
  | DeleteObject object => obj_Kind object <> "Backup"
  | _ => True
  end.

Lemma mild_lawful h x : ongoing h -> mild x -> lawful h x.
Proof. intros Hh Hx. destruct x; cbn in *; repeat case_match; done. Qed.

Lemma ongoing_cons h x r : ongoing h -> terminal x = false -> ongoing ((x, r) :: h).
Proof. intros H Hx y s Hy. apply elem_of_cons in Hy as [[= -> ->]|Hy]; [done|]. by eapply H. Qed.

Lemma mild_terminal x : mild x -> terminal x = false.
Proof. destruct x; cbn; repeat case_match; done. Qed.

(** ** Rules *)

Abbreviation law := (wp any_answer lawful True).

Lemma law_mild {A} (p : prog A) (Q : history -> A -> Prop) h :
  ongoing h -> only mild p ->
  (forall h' a, ongoing h' -> h `suffix_of` h' -> Q h' a) -> law p Q h.
Proof.
  revert h. induction p as [a| |x k IH]; intros h Hh Hp HQ; cbn in *; [by apply HQ|done|].
  destruct Hp as [Hx Hp]. split; [by apply mild_lawful|]. intros r _.
  apply IH; [by apply ongoing_cons, mild_terminal|done|]. intros h' a Hh' Hs. apply HQ; [done|].
  etrans; [|done]. by eexists [_].
Qed.

(** First a program that makes mild calls, then the rest. *)
Lemma law_then {A B} (p : prog A) (f : A -> prog B) (Q : history -> B -> Prop) h :
  ongoing h -> only mild p ->
  (forall h' a, ongoing h' -> h `suffix_of` h' -> law (f a) Q h') -> law (p ≫= f) Q h.
Proof. intros Hh Hp Hf. apply wp_then, law_mild; done. Qed.

Lemma law_call {B} x (f : answer -> prog B) (Q : history -> B -> Prop) h :
  lawful h x -> (forall r, law (f r) Q ((x, r) :: h)) -> law (ask x ≫= f) Q h.
Proof. intros Hx Hf. split; [done|]. intros r _. apply Hf. Qed.

Lemma law_attempt {B} x (f : option api_error -> prog B) (Q : history -> B -> Prop) h :
  lawful h x -> (forall r, law (f (error_of r)) Q ((x, r) :: h)) -> law (attempt x ≫= f) Q h.
Proof. intros Hx Hf. split; [done|]. intros r _. apply Hf. Qed.

(** The end of a task: a terminal report. *)
Lemma law_fail code text details h : ongoing h -> law (fail_with task code text details) over h.
Proof.
  intros Hh. unfold fail_with, stop, sendTaskFailedWithDetails, now. cbn. split; [by split|].
  intros t _. split.
  - split; [|done]. by apply ongoing_cons.
  - intros r _. left. eexists _, r. split; [left|done].
Qed.

Lemma deletions_backed_mono velero velero' h h' :
  h `suffix_of` h' -> get velero' "deleted" = get velero "deleted" ->
  deletions_backed velero h -> deletions_backed velero' h'.
Proof.
  intros Hs Hg H Ht. destruct (H Ht) as (command & Hc & Hd & Hp). exists command.
  rewrite Hg. split_and!; [done|done|]. intros point Hin.
  destruct (Hp point Hin) as (m & Hm & H1 & H2). exists m.
  split_and!; [done|by eapply happened_suffix|]. intros. eapply happened_suffix; eauto.
Qed.

Lemma law_completed velero text h :
  ongoing h -> deletions_backed velero h ->
  law (stop (sendTaskCompleted task velero text)) over h.
Proof.
  intros Hh Hd. cbn. split; [by split|]. intros t _. split.
  - split; [by apply ongoing_cons|]. eapply deletions_backed_mono; [by eexists [_]| |done].
    unfold withRecoveryStages. destruct (negb _); [done|]. by rewrite get_insert_ne.
  - intros r _. left. eexists _, r. split; [left|done].
Qed.

Lemma law_ret h : over h tt -> law (mret tt) over h.
Proof. done. Qed.

Lemma law_unless err failed k h :
  (forall e, err = Some e -> law (failed e) over h) -> (err = None -> law k over h) ->
  law (unless err failed k) over h.
Proof. intros H1 H2. destruct err; [by apply H1|by apply H2]. Qed.

Lemma unsent_now report r h :
  terminal (Send report) = false -> error_of r <> None -> unsent ((Send report, r) :: h).
Proof. intros Ht Hr. exists (Send report), r. split_and!; [left|done|by eexists|done]. Qed.

Lemma law_accepted k h :
  ongoing h ->
  (forall r, succeeded r -> law k over ((Send Accepted, r) :: h)) ->
  law (then_if_sent (sendTaskAccepted task) k) over h.
Proof.
  intros Hh Hk. split; [by split|]. intros r _. cbn. destruct (error_of r) eqn:E; cbn.
  - right. apply unsent_now; [done|by rewrite E].
  - by apply Hk.
Qed.

Lemma law_progress velero progress text k h :
  ongoing h ->
  (forall h', ongoing h' -> h `suffix_of` h' -> law k over h') ->
  law (then_if_sent (sendTaskProgress task velero progress text) k) over h.
Proof.
  intros Hh Hk. split; [by split|]. intros t _. split.
  - split; [by apply ongoing_cons|done].
  - intros r _. cbn. destruct (error_of r) eqn:E; cbn.
    + right. apply unsent_now; [done|by rewrite E].
    + apply Hk; [by do 2 (apply ongoing_cons; [|done])|by eexists [_; _]].
Qed.

Lemma mild_progress velero progress text : only mild (sendTaskProgress task velero progress text).
Proof. by repeat split. Qed.
Lemma mild_now : only mild now.
Proof. by repeat split. Qed.
Lemma mild_sleep d : only mild (sleep d).
Proof. by repeat split. Qed.

End lawful.

#[export] Hint Resolve ongoing_cons mild_progress mild_now mild_sleep : agent.

(** The calls of a program are mild. *)
Ltac mild :=
  repeat lazymatch goal with
  | |- only _ (mret _) => exact I
  | |- only _ (attempt _) => apply only_attempt
  | |- only _ (ask _) => apply only_ask
  | |- only _ (tell _) => apply only_tell
  | |- only _ (match ?x with _ => _ end) => destruct x
  | |- only _ (_ ≫= _) => apply only_then; [|intros ?]
  | |- only _ _ => solve [eauto with agent]
  | |- mild _ => done
  end.

(** One step of a task: what is left are the calls that are not mild. *)
Ltac law_step :=
  lazymatch goal with
  | |- wp _ _ _ (fail_with _ _ _ _) _ _ => apply law_fail
  | |- wp _ _ _ (fail _ _ _) _ _ => apply law_fail
  | |- wp _ _ _ (stop (sendTaskCompleted _ _ _)) _ _ => apply law_completed
  | |- wp _ _ _ (unless _ _ _) _ _ => apply law_unless; intros
  | |- wp _ _ _ (then_if_sent (sendTaskAccepted _) _) _ _ => apply law_accepted; [|intros]
  | |- wp _ _ _ (then_if_sent (sendTaskProgress _ _ _ _) _) _ _ => apply law_progress; [|intros]
  | |- wp _ _ _ (if ?b then _ else _) _ _ => destruct b eqn:?
  | |- wp _ _ _ (match ?x with _ => _ end) _ _ => destruct x eqn:?
  | |- wp _ _ _ (attempt _ ≫= _) _ _ => apply law_attempt; [|intros]
  | |- wp _ _ _ (ask _ ≫= _) _ _ => apply law_call; [|intros]
  | |- wp _ _ _ (_ ≫= _) _ _ => apply law_then; [|solve [mild]|intros]
  | |- ongoing _ => solve [eauto with agent]
  | |- lawful _ _ _ _ => first [apply mild_lawful; [solve [eauto with agent]|done]]
  end.

(** Nothing that happened is forgotten. *)
Lemma wp_grows {A} rely guar F (p : prog A) (Q : history -> A -> Prop) h :
  wp rely guar F p Q h -> wp rely guar F p (fun h' a => h `suffix_of` h' /\ Q h' a) h.
Proof.
  revert h. induction p as [a| |x k IH]; intros h H; cbn in *; [done|done|].
  destruct H as [Hg H]. split; [done|]. intros r Hr.
  eapply wp_mono; [by apply IH, H|]. intros h' a [Hs HQ]. split; [|done].
  etrans; [|done]. by eexists [_].
Qed.

(** ** Restores *)

Section tasks.
Context (c : client) (fuel : nat) (task : dispatch).
Context (Hkind : d_Type task <> "retention-cleanup").

Abbreviation law := (wp any_answer (lawful c task) True).

Lemma not_retention velero h : deletions_backed c task velero h.
Proof. intros H. done. Qed.
Hint Resolve not_retention : agent.

Lemma mild_defer_cleanup object cleanup : only mild (defer_cleanup object cleanup).
Proof. unfold defer_cleanup. mild. Qed.
Lemma mild_delete_resources object cleanup :
  obj_Kind object <> "Backup" -> only mild (deleteFailedDrillResources c object cleanup).
Proof. intros H. unfold deleteFailedDrillResources. mild. Qed.
Hint Resolve mild_defer_cleanup mild_delete_resources : agent.

Lemma law_remove_namespace object cleanup h :
  ongoing h ->
  (exists agent name, happened (CancelRestoreVolumeOperations agent name) succeeded h) ->
  law (remove_drill_namespace c task object cleanup) (fun h _ => ongoing h) h.
Proof.
  intros Hh Hc. unfold remove_drill_namespace.
  destruct (drill_namespace c task) as [target|] eqn:Ed; [|done].
  destruct (cl_can c CanDeleteNamespace); [|done].
  apply law_attempt; [split; [done|by left]|]. intros r.
  assert (Ho : ongoing ((DeleteNamespaceAndWait target, r) :: h)) by eauto with agent.
  destruct (error_of r); [|done]. apply law_mild; [done|mild|done].
Qed.

Lemma law_failRestoreTask object code message details h :
  ongoing h -> obj_Kind object <> "Backup" ->
  law (failRestoreTask c task object code message details) over h.
Proof.
  intros Hh Ho. unfold failRestoreTask, cancel_operations. apply wp_then.
  destruct (cl_can c CanCancelRestore).
  2: { apply law_then; [done|mild|]. intros. by apply law_fail. }
  apply law_attempt; [by apply mild_lawful|]. intros r.
  destruct (error_of r) eqn:E.
  { apply law_then; [eauto with agent|mild|]. intros. by apply law_fail. }
  assert (Hc : happened (CancelRestoreVolumeOperations (obj_Namespace object) (obj_Name object))
    succeeded ((CancelRestoreVolumeOperations (obj_Namespace object) (obj_Name object), r) :: h))
    by by apply happened_now.
  apply (wp_seq _ _ _ _ _ (fun h _ => ongoing h)); [|intros; by apply law_fail].
  apply law_then; [eauto with agent|by mild|]. intros h1 [gone cleanup] Hh1 Hs1.
  apply law_then; [done|mild|]. intros h2 cleanup' Hh2 Hs2.
  apply law_remove_namespace; [done|]. do 2 eexists. eapply happened_suffix; [|exact Hc].
  by etrans.
Qed.
(** A restore has its own end, for which its object matters. *)
Context (object : AppliedObject) (Hobject : obj_Kind object <> "Backup").

Ltac restore_step :=
  lazymatch goal with
  | |- wp _ _ _ (failRestoreTask _ _ _ _ _ _) _ _ => apply law_failRestoreTask
  | |- wp _ _ _ (let '(_, _) := ?x in _) _ _ => destruct x
  | _ => law_step
  end.
Ltac restore_steps := repeat first [restore_step | solve [eauto with agent]].

Lemma mild_report_readiness payload snapshot message m :
  only mild (report_readiness task payload snapshot message m).
Proof. unfold report_readiness. mild. Qed.
Hint Resolve mild_report_readiness : agent.

Lemma law_poll_readiness n base command namespace text startedAt deadline m h :
  ongoing h ->
  law (poll_readiness c n task object base command namespace text startedAt deadline m) over h.
Proof.
  revert m h. induction n as [|n IH]; intros m h Hh; [done|]. cbn [poll_readiness].
  restore_steps; by apply IH.
Qed.

Lemma mild_deadline_of : only mild (deadline_of task).
Proof. unfold deadline_of. mild. Qed.
Lemma mild_volumes readable o samples : only mild (buildVolumeProgressPayload readable o samples).
Proof. unfold buildVolumeProgressPayload. mild. Qed.
Lemma mild_sizes readable o payload : only mild (attachBackupSizeStats readable o payload).
Proof. unfold attachBackupSizeStats. mild. Qed.
Lemma mild_enrich o payload status fallback :
  only mild (enrichVeleroFailure c o payload status fallback).
Proof. unfold enrichVeleroFailure, restoreResultSummary. mild. Qed.
Lemma mild_data_path o since : only mild (restoreDataPathFailure c o since).
Proof. unfold restoreDataPathFailure. mild. Qed.
Lemma mild_reconciled o status deadline d since : only mild (reconciled o status deadline d since).
Proof. unfold reconciled. mild. Qed.
Hint Resolve mild_deadline_of mild_volumes mild_sizes mild_enrich mild_data_path
  mild_reconciled : agent.

Lemma law_ready base namespace message h :
  command_of task "restore" <> None -> ongoing h ->
  law (pollRestoredNamespaceReady c fuel task object base namespace message) over h.
Proof.
  intros Hc Hh. unfold pollRestoredNamespaceReady. destruct (command_of task "restore"); [|done].
  restore_steps. by apply law_poll_readiness.
Qed.

Lemma law_finish_restore payload message h :
  ongoing h -> law (finish_restore c fuel task object payload message) over h.
Proof.
  intros Hh. unfold finish_restore. destruct (command_of task "restore") eqn:E; restore_steps; [|done].
  apply law_ready; [by rewrite E|done].
Qed.
Hint Resolve law_finish_restore : agent.

Lemma law_map_services payload message h :
  ongoing h -> law (map_services c fuel task object payload message) over h.
Proof. intros Hh. unfold map_services. restore_steps. Qed.
Hint Resolve law_map_services : agent.

Lemma law_restore_succeeded payload message h :
  ongoing h -> law (restore_succeeded c fuel task object payload message) over h.
Proof. intros Hh. unfold restore_succeeded. restore_steps. Qed.

Lemma law_restore_failed payload status d h :
  ongoing h -> law (restore_failed c task object payload status d) over h.
Proof. intros Hh. unfold restore_failed. restore_steps. Qed.

Lemma law_restore_stalled payload started h :
  ongoing h -> law (restore_stalled c task object payload started) over h.
Proof. intros Hh. unfold restore_stalled. restore_steps. Qed.
Hint Resolve law_restore_succeeded law_restore_failed law_restore_stalled : agent.

Lemma law_watch_restore n base decide started deadline w h :
  ongoing h -> law (watch_restore c fuel n task object base decide started deadline w) over h.
Proof.
  revert w h. induction n as [|n IH]; intros w h Hh; [done|]. cbn [watch_restore].
  restore_steps; try by apply IH.
Qed.

Lemma law_pollRestoreStatus base h :
  ongoing h -> law (pollRestoreStatus c fuel task object base) over h.
Proof. intros Hh. unfold pollRestoreStatus. restore_steps. by apply law_watch_restore. Qed.

End tasks.

#[export] Hint Resolve mild_deadline_of mild_volumes mild_sizes : agent.

(** ** Restore points *)

Section points.
Context (c : client) (task : dispatch).

Abbreviation law := (wp any_answer (lawful c task) True).

Lemma law_delete_point codes namespace point k h :
  ongoing h ->
  (forall m h', ongoing h' -> h `suffix_of` h' -> point_deleted c namespace point h' ->
     law (k m) over h') ->
  law (delete_point c task codes namespace point k) over h.
Proof.
  intros Hh Hk. unfold delete_point. destruct codes as [[invalid unsubmitted] undeleted].
  destruct (BuildDeleteBackupRequestManifest _ _) as [text|m] eqn:Hm; [by apply law_fail|].
  apply law_attempt; [by apply mild_lawful|]. intros r.
  assert (Hh1 : ongoing ((ApplyManifest (DeleteBackupRequestObject m), r) :: h))
    by eauto with agent.
  apply law_unless; [intros; by apply law_fail|]. intros Er.
  assert (Hr : happened (ApplyManifest (DeleteBackupRequestObject m)) succeeded
    ((ApplyManifest (DeleteBackupRequestObject m), r) :: h)) by by apply happened_now.
  destruct (cl_can c CanWaitForDeletion) eqn:Ew.
  - apply law_attempt; [by apply mild_lawful|]. intros r'.
    apply law_unless; [intros; apply law_fail; by apply ongoing_cons|]. intros Er'.
    apply Hk; [by apply ongoing_cons|by eexists [_; _]|]. exists m.
    split_and!; [done|by apply happened_cons|]. intros _. by apply happened_now.
  - apply Hk; [done|by eexists [_]|]. exists m. split_and!; [done|done|]. by rewrite Ew.
Qed.

Lemma point_deleted_suffix namespace point h h' :
  h `suffix_of` h' -> point_deleted c namespace point h -> point_deleted c namespace point h'.
Proof.
  intros Hs (m & Hm & H1 & H2). exists m.
  split_and!; [done|by eapply happened_suffix|]. intros Hw. eapply happened_suffix; eauto.
Qed.

(** The points reported as deleted are those that were, in their order. *)
Lemma law_retention_points command planID total done_ points h :
  command_of task "retentionCleanup" = Some command ->
  objects_of command "restorePoints" = done_ ++ points ->
  (forall point, point ∈ done_ ->
     point_deleted c (or_agent_namespace c (text_of point "namespace")) point h) ->
  ongoing h ->
  law (retention_points c task planID total ((fun point => text_of point "id") <$> done_) points)
    over h.
Proof.
  intros Hc. revert done_ h. induction points as [|point points IH]; intros done_ h Hp Hd Hh;
    cbn [retention_points].
  - rewrite app_nil_r in Hp. apply law_completed; [done|]. intros _. exists command.
    rewrite Hp. by split_and!.
  - apply law_delete_point; [done|]. intros m h1 Hh1 Hs1 H1.
    apply law_progress; [done|]. intros h2 Hh2 Hs2.
    replace (((fun point => text_of point "id") <$> done_) ++ [text_of point "id"])
      with ((fun point => text_of point "id") <$> (done_ ++ [point])) by by rewrite fmap_app.
    apply IH; [by rewrite <- app_assoc| |done]. intros p [Hin| ->%list_elem_of_singleton]%elem_of_app.
    + eapply point_deleted_suffix; [|by apply Hd]. by etrans.
    + by eapply point_deleted_suffix.
Qed.

Theorem law_executeRetentionCleanupTask h :
  ongoing h -> law (executeRetentionCleanupTask c task) over h.
Proof.
  intros Hh. unfold executeRetentionCleanupTask.
  destruct (command_of task "retentionCleanup") as [command|] eqn:Ec; [|by apply law_fail].
  destruct (negb _); [by apply law_fail|]. apply law_accepted; [done|]. intros r Hr.
  eapply (law_retention_points command _ _ []); [done|done| |eauto with agent].
  intros p Hp. by apply elem_of_nil in Hp.
Qed.

End points.

(** ** Before a submission *)

Section submissions.
Context (c : client) (fuel : nat) (task : dispatch).
Context (Hkind : d_Type task <> "retention-cleanup").

Abbreviation law := (wp any_answer (lawful c task) True).
Hint Resolve not_retention : agent.

Lemma law_finish velero text h :
  ongoing h -> law (stop (sendTaskCompleted task velero text)) over h.
Proof. intros Hh. apply law_completed; [done|by apply not_retention]. Qed.

Lemma location_available_suffix name h h' :
  h `suffix_of` h' -> location_available c name h -> location_available c name h'.
Proof. intros Hs H Hc. by eapply happened_suffix, H. Qed.

Lemma announced_suffix plan object h h' :
  h `suffix_of` h' -> announced plan object h -> announced plan object h'.
Proof. intros Hs [H1 H2]. split; by eapply happened_suffix. Qed.

Definition checked (name : string) (h : history) (err : option api_error) : Prop :=
  ongoing h /\ (err = None -> location_available c name h).

Lemma location_phase_ok name status :
  location_phase_error name status = None -> status_Phase status = "Available".
Proof. unfold location_phase_error. repeat case_match; try done. by apply seqb_true in H. Qed.

Lemma seen_available name r h :
  ongoing h -> succeeded r ->
  checked name ((GetManifestStatus (location_object c name), r) :: h)
    (location_phase_error name (status_of r)).
Proof.
  intros Hh Hr. split; [eauto with agent|]. intros He _. apply happened_now. split; [done|].
  by eapply location_phase_ok.
Qed.

Lemma law_read_location name attempt retries h :
  ongoing h -> law (read_location c name attempt retries) (checked name) h.
Proof.
  revert attempt h. induction retries as [|n IH]; intros k h Hh; cbn [read_location];
    (apply law_call; [by apply mild_lawful|]); intros r;
    assert (Ho : ongoing ((GetManifestStatus (location_object c name), r) :: h))
      by eauto with agent;
    destruct r; try by apply seen_available.
  all: repeat (case_match; [by split|]); try by split.
  apply law_then; [done|mild|]. intros. by apply IH.
Qed.

Lemma law_requireLocation name h :
  ongoing h -> law (requireBackupStorageLocation c name) (checked name) h.
Proof.
  intros Hh. unfold requireBackupStorageLocation. destruct (negb (nonempty name)); [done|].
  destruct (cl_can c CanReadStatus) eqn:E; [by apply law_read_location|].
  split; [done|]. intros _. unfold location_available. by rewrite E.
Qed.

Lemma law_wait_for_location n name deadline h :
  ongoing h -> law (wait_for_location c n name deadline) (checked name) h.
Proof.
  revert h. induction n as [|n IH]; intros h Hh; [done|]. cbn [wait_for_location].
  eapply wp_seq; [by apply law_requireLocation|]. intros h' [err|] [Hh' Hl]; [|by split; auto].
  destruct (negb _); [by split|]. apply law_then; [done|mild|]. intros h2 t Hh2 _.
  destruct (deadline <? t); [by split|]. apply law_then; [done|mild|]. intros. by apply IH.
Qed.

Lemma law_waitForLocation name timeout h :
  ongoing h -> law (waitForBackupStorageLocation c fuel name timeout) (checked name) h.
Proof.
  intros Hh. unfold waitForBackupStorageLocation.
  destruct (_ || _); [by apply law_requireLocation|]. apply law_then; [done|mild|].
  intros. by apply law_wait_for_location.
Qed.


Lemma law_dry_run payload total steps h :
  ongoing h -> law (dry_run task payload total steps) over h.
Proof.
  revert h. induction steps as [|[[progress prepared] text] steps IH]; intros h Hh; cbn [dry_run];
    (apply law_then; [done|mild|]; intros h' _ Hh' _).
  - apply law_completed; [done|intros ?; done].
  - apply law_progress; [done|]. intros. by apply IH.
Qed.

(** What a restore is made of, as its labels say it again. *)
Lemma restore_parts input m :
  BuildRestoreManifest input = inr m ->
  label_of m "hypercdr.io/conflict-policy" = text_of (in_Command input) "conflictPolicy" /\
  label_of m "hypercdr.io/target-namespace" = text_of (in_Command input) "targetNamespace" /\
  spec_BackupName (restore_Spec m) = text_of (in_Command input) "veleroBackupName" /\
  meta_Namespace (restore_Metadata m) = agent_namespace_of input.
Proof. unfold BuildRestoreManifest. intros H. repeat case_match; simplify_eq. done. Qed.

Section restore.
Context (command : document) (m : RestoreManifest).
Context (Hcommand : command_of task "restore" = Some command).
Context (Hm : BuildRestoreManifest (input_of c task command) = inr m).

Definition backup_found (h : history) : Prop :=
  happened (WaitForVeleroBackup (meta_Namespace (restore_Metadata m))
    (text_of command "veleroBackupName")) succeeded h.

Definition replaced_target (h : history) : Prop :=
  text_of command "conflictPolicy" = "replace" ->
  happened (ReplaceNamespaceAndWait (text_of command "targetNamespace")) succeeded h.

Lemma law_replace_target h :
  ongoing h -> backup_found h ->
  law (replace_target c m)
    (fun h' err => ongoing h' /\ h `suffix_of` h' /\ (err = None -> replaced_target h')) h.
Proof.
  intros Hh Hb. destruct (restore_parts _ _ Hm) as (Hp & Ht & _ & Hn). cbn in Hp, Ht.
  unfold replace_target. rewrite Hp, Ht.
  destruct (text_of command "conflictPolicy" <>s "replace") eqn:Ep.
  { split_and!; [done|done|]. intros _ E. by rewrite E in Ep. }
  destruct (negb (nonempty _)) eqn:Ene; [by split_and!|].
  destruct (_ || _) eqn:Eself; [by split_and!|].
  destruct (negb (cl_can c CanCleanStaleState)); [by split_and!|]. unfold or_error. apply law_attempt; [by apply mild_lawful|]. intros r.
  destruct (error_of r); [by cbn; split_and!; [eauto with agent|by eexists [_]|]|].
  destruct (negb (cl_can c CanReplaceNamespace));
    [by cbn; split_and!; [eauto with agent|by eexists [_]|]|].
  apply law_attempt.
  - split; [eauto with agent|]. exists command. go_bool. rewrite <- Hn. unfold backup_found in Hb.
    naive_solver eauto with agent.
  - intros r'. cbn. split_and!; [eauto with agent|by eexists [_; _]|]. intros E _.
    apply happened_now. by destruct r'.
Qed.

Lemma law_SubmitRestore h :
  ongoing h -> announced "" (restore_object m) h ->
  location_available c (text_of command "storageRepo") h ->
  law (SubmitRestore c m) (fun h _ => ongoing h) h.
Proof.
  intros Hh Ha Hl. destruct (restore_parts _ _ Hm) as (_ & _ & Hb & _). cbn in Hb.
  unfold SubmitRestore, submit. destruct (mode c); [done| |done].
  destruct (negb (cl_can c CanApply)); [done|]. destruct (_ =s "dataOnly"); [done|].
  destruct (negb (cl_can c CanWaitForBackup)); [done|].
  apply law_attempt; [by apply mild_lawful|]. rewrite Hb. intros r.
  destruct (error_of r) eqn:Er; [by apply ongoing_cons|].
  set (h1 := _ :: h). assert (Hs : h `suffix_of` h1) by by eexists [_].
  eapply wp_seq; [apply law_replace_target; [by apply ongoing_cons|by apply happened_now]|].
  intros h2 [err|] (Hh2 & Hs2 & Hr); [done|]. unfold submit_with_modifier, or_error.
  apply law_attempt; [by apply mild_lawful|]. intros r3.
  destruct (error_of r3); [by apply ongoing_cons|].
  destruct (negb (cl_can c CanWaitForModifier)); [by apply ongoing_cons|].
  apply law_attempt; [apply mild_lawful; [by apply ongoing_cons|done]|]. intros r4.
  destruct (error_of r4); [by do 2 (apply ongoing_cons; [|done])|].
  set (h4 := _ :: _ :: h2). assert (Hs4 : h2 `suffix_of` h4) by by eexists [_; _].
  assert (Hh4 : ongoing h4) by by do 2 (apply ongoing_cons; [|done]).
  split; [|intros; by apply ongoing_cons]. split; [done|]. exists command.
  assert (Hs14 : h1 `suffix_of` h4) by by etrans.
  split_and!; [done| | | |].
  - eapply announced_suffix; [|done]. by etrans.
  - eapply location_available_suffix; [|done]. by etrans.
  - eapply happened_suffix; [done|]. by apply happened_now.
  - intros E. by eapply happened_suffix, Hr.
Qed.

Lemma law_submitted_restore h :
  ongoing h -> law (submitted_restore c fuel task command m) over h.
Proof.
  intros Hh. unfold submitted_restore. destruct (cl_can c CanReadStatus); [|by apply law_dry_run].
  by apply law_pollRestoreStatus.
Qed.
End restore.

(** Building ends the task, or gives what the builder gives. *)
Lemma law_build {A B} what field (f : BuildInput -> prog (string + A)) (k : string + A -> prog B)
    command (Q : history -> B -> Prop) h :
  command_of task field = Some command ->
  (forall text, law (k (inl text)) Q h) ->
  law (f (input_of c task command) ≫= k) Q h ->
  law (build c what field task f ≫= k) Q h.
Proof. intros Hc Ht Hf. unfold build. rewrite Hc. destruct (mode c); [done|done|apply Ht]. Qed.

Lemma law_preflight m k h :
  ongoing h -> (forall h', ongoing h' -> h `suffix_of` h' -> law k over h') ->
  law (preflight_cache c task (meta_Namespace (restore_Metadata m)) k) over h.
Proof.
  intros Hh Hk. unfold preflight_cache. destruct (negb _); [by apply Hk|].
  apply law_call; [by apply mild_lawful|]. intros r. destruct (match r with Cache _ _ => _ | _ => _ end).
  case_match; [apply law_fail; by apply ongoing_cons|].
  apply law_then; [by apply ongoing_cons|mild|]. intros h' _ Hh' Hs. apply Hk; [done|].
  etrans; [|done]. by eexists [_].
Qed.

Theorem law_executeRestoreTask h : ongoing h -> law (executeRestoreTask c fuel task) over h.
Proof.
  intros Hh. unfold executeRestoreTask.
  destruct (command_of task "restore") as [command|] eqn:Ec; [|by apply law_fail].
  destruct (if oadp c then _ else _); [by apply law_fail|].
  unfold storagePreflightWait. apply law_then; [done|mild|]. intros h1 timeout Hh1 _.
  eapply wp_seq; [by apply law_waitForLocation|]. intros h2 err [Hh2 Hl].
  apply law_unless; [intros; by apply law_fail|]. intros He. specialize (Hl He).
  eapply law_build; [done|intros; by apply law_fail|]. cbn [prog_bind prog_then mbind mret prog_ret].
  destruct (BuildRestoreManifest _) as [text|m] eqn:Hm; [by apply law_fail|].
  apply law_attempt; [by apply mild_lawful|]. intros r.
  apply law_unless; [intros; apply law_fail; by apply ongoing_cons|]. intros Er.
  apply law_accepted; [by apply ongoing_cons|]. intros r' Hr'.
  set (h3 := _ :: _ :: h2).
  assert (Hh3 : ongoing h3) by (by do 2 (apply ongoing_cons; [|done])).
  apply law_preflight; [done|]. intros h4 Hh4 Hs4.
  eapply wp_seq; [eapply law_SubmitRestore; try done|].
  - eapply announced_suffix; [done|].
    split; [apply happened_cons; by apply happened_now|by apply happened_now].
  - eapply location_available_suffix; [|done]. etrans; [|done]. by eexists [_; _].
  - intros h5 err' Hh5. apply law_unless; [intros; by apply law_fail|]. intros _.
    by apply law_submitted_restore.
Qed.

(** ** Backups *)

Ltac task_steps := repeat first [law_step | solve [eauto with agent]
  | lazymatch goal with |- wp _ _ _ (let '(_, _) := ?x in _) _ _ => destruct x end].

Lemma law_watch_status n object base decide started deadline progress samples since h :
  ongoing h ->
  law (watch_status c n task object base decide started deadline progress samples since) over h.
Proof.
  revert progress samples since h. induction n as [|n IH]; intros ???? Hh; [done|].
  cbn [watch_status]. task_steps; by apply IH.
Qed.

Lemma law_pollVeleroStatus object base decide h :
  ongoing h -> law (pollVeleroStatus c fuel task object base decide) over h.
Proof. intros Hh. unfold pollVeleroStatus. task_steps. by apply law_watch_status. Qed.

Lemma over_cons x r h a : over h a -> terminal x = false -> over ((x, r) :: h) a.
Proof.
  intros [(y & s & Hy & Ht)|(y & s & Hy & H)] Hx; [left|right]; exists y, s;
    (split; [by right|done]).
Qed.

Lemma law_holding_plan k h :
  ongoing h -> (forall h', ongoing h' -> law k over h') -> law (holding_plan task k) over h.
Proof.
  intros Hh Hk. unfold holding_plan. destruct (negb _); [by apply Hk|].
  apply law_call; [by apply mild_lawful|]. intros r.
  assert (Ho : ongoing ((AcquirePlan (backupTaskPlanID task) (d_TaskID task), r) :: h))
    by eauto with agent.
  assert (Hr : law (k;; tell (ReleasePlan (backupTaskPlanID task) (d_TaskID task))) over
    ((AcquirePlan (backupTaskPlanID task) (d_TaskID task), r) :: h)).
  { eapply wp_seq; [by apply Hk|]. intros h' [] Hv. split; [done|]. intros r' _.
    by apply over_cons. }
  destruct r; try exact Hr. by apply law_fail.
Qed.

Lemma law_cleanup_conflict b h :
  ongoing h -> law (cleanupTerminalBackupConflict c b) (fun h _ => ongoing h) h.
Proof.
  intros Hh. unfold cleanupTerminalBackupConflict. set (taskID := TrimSpace _).
  destruct (_ || _) eqn:E; [done|]. go_bool. apply law_call; [by apply mild_lawful|]. intros r.
  destruct (_ || _) eqn:Ea; [by apply ongoing_cons|]. go_bool.
  apply law_then; [by apply ongoing_cons|mild|]. intros h' err Hh' Hs.
  destruct err; [done|]. apply law_attempt; [|intros; by apply ongoing_cons].
  split; [done|]. intros _. exists taskID. split; [tauto|]. eapply happened_suffix; [done|].
  apply happened_now. tauto.
Qed.

Lemma law_first_conflict planID name l h :
  ongoing h -> law (first_conflict c planID name l) (fun h _ => ongoing h) h.
Proof.
  revert h. induction l as [|b l IH]; intros h Hh; [done|]. cbn [first_conflict].
  destruct (_ || _); [by apply IH|]. eapply wp_seq; [by apply law_cleanup_conflict|].
  intros h' [] Hh'; [by apply IH|done].
Qed.

Lemma law_find_conflict command m h :
  ongoing h -> law (findConflictingActiveBackup c command m) (fun h _ => ongoing h) h.
Proof.
  intros Hh. unfold findConflictingActiveBackup, list_backups. destruct (negb _); [done|].
  apply law_then; [done|mild|]. intros h' [err|l] Hh' _; [done|]. destruct (negb _); [done|].
  eapply wp_seq; [by apply law_first_conflict|]. done.
Qed.

Lemma backup_ready_suffix m h h' : h `suffix_of` h' -> backup_ready c task m h -> backup_ready c task m h'.
Proof.
  intros Hs (command & H1 & H2 & H3 & H4). exists command. split_and!; try apply H4; [done| |].
  - by eapply announced_suffix.
  - by eapply location_available_suffix.
Qed.

Lemma mild_exists object : only mild (backupManifestExists c object).
Proof. unfold backupManifestExists. mild. Qed.
Hint Resolve mild_exists : agent.
Lemma mild_shows_up n delay object : only mild (shows_up c n delay object).
Proof. revert delay. induction n as [|n IH]; intros delay; cbn [shows_up]; mild. Qed.
Hint Resolve mild_shows_up : agent.

Lemma law_SubmitBackup m h :
  ongoing h -> backup_ready c task m h ->
  law (SubmitBackup c m) (fun h' _ => ongoing h' /\ h `suffix_of` h') h.
Proof.
  intros Hh Hm. unfold SubmitBackup, submit. destruct (mode c); [by split| |by split].
  destruct (negb _); [by split|]. split; [done|]. intros r _.
  split; [by apply ongoing_cons|by eexists [_]].
Qed.

Lemma law_submit_attempts n first m last h :
  ongoing h -> backup_ready c task m h ->
  law (submit_attempts c n first m last) (fun h _ => ongoing h) h.
Proof.
  revert first last h. induction n as [|n IH]; intros first last h Hh Hm; [done|].
  cbn [submit_attempts]. eapply wp_seq; [by apply law_SubmitBackup|].
  intros h1 [err|] [Hh1 Hs1]; [|done]. apply law_then; [done|mild|]. intros h2 [] Hh2 Hs2; [done|].
  destruct (_ && _); [done|]. apply law_then; [done|mild|]. intros h3 [] Hh3 Hs3; [done|].
  apply IH; [done|]. eapply backup_ready_suffix; [|done]. by do 2 (etrans; [done|]).
Qed.

Lemma law_submit_backup_task command m h :
  ongoing h -> backup_ready c task m h -> law (submit_backup_task c fuel task command m) over h.
Proof.
  intros Hh Hm. unfold submit_backup_task.
  eapply wp_seq; [by apply wp_grows, law_find_conflict|]. intros h1 found [Hs1 Hh1].
  destruct found as [err|[existing|]]; [by apply law_fail| |].
  - apply law_then; [done|mild|]. intros. by apply law_fail.
  - eapply wp_seq; [apply law_submit_attempts; [done|by eapply backup_ready_suffix]|].
    intros h2 err Hh2. apply law_unless; [intros; by apply law_fail|]. intros _.
    unfold submitted_backup. destruct (cl_can c CanReadStatus).
    + by apply law_pollVeleroStatus.
    + by apply law_dry_run.
Qed.

Lemma backup_parts t input m :
  BuildBackupManifest t input = inr m ->
  spec_IncludedNamespaces (backup_Spec m) = command_namespaces (in_Command input) /\
  agent_namespace_of input ∉ command_namespaces (in_Command input).
Proof.
  unfold BuildBackupManifest. intros H.
  destruct (command_namespaces _) as [|source rest] eqn:E; [done|].
  destruct (one_of _ _) eqn:Eo; [done|]. simplify_eq. go_bool. split; [|done].
  cbn [backup_Spec]. by rewrite with_selection_namespaces.
Qed.

Lemma law_oadp_checks command k h :
  ongoing h -> (forall h', ongoing h' -> law k over h') -> law (oadp_checks c task command k) over h.
Proof.
  intros Hh Hk. unfold oadp_checks. destruct (negb (oadp c)); [by apply Hk|].
  destruct (validateOADPFullBackup command); [by apply law_fail|].
  destruct (negb _); [by apply law_fail|]. apply law_attempt; [by apply mild_lawful|]. intros r.
  apply law_unless; intros; [apply law_fail|apply Hk]; by apply ongoing_cons.
Qed.

Theorem law_executeBackupTask h : ongoing h -> law (executeBackupTask c fuel task) over h.
Proof.
  intros Hh. unfold executeBackupTask.
  destruct (command_of task "backup") as [command|] eqn:Ec; [|by apply law_fail].
  apply law_oadp_checks; [done|]. intros h0 Hh0. apply law_holding_plan; [done|]. intros h1 Hh1.
  unfold storagePreflightWait. apply law_then; [done|mild|]. intros h2 timeout Hh2 _.
  eapply wp_seq; [by apply law_waitForLocation|]. intros h3 err [Hh3 Hl].
  apply law_unless; [intros; by apply law_fail|]. intros He. specialize (Hl He).
  eapply law_build; [done|intros; by apply law_fail|].
  split; [by apply mild_lawful|]. intros t _. cbn [prog_bind prog_then mbind mret prog_ret].
  assert (Hh4 : ongoing ((Now, t) :: h3)) by by apply ongoing_cons.
  destruct (BuildBackupManifest _ _) as [text|m] eqn:Hm; [by apply law_fail|].
  apply law_then; [done|mild|]. intros h5 _ Hh5 Hs5.
  destruct (backup_parts _ _ _ Hm) as [Hns Hagent].
  assert (Hobj : backup_object (ensureSourceClusterLabel c m) = backup_object m)
    by (unfold ensureSourceClusterLabel; by destruct (negb _)).
  assert (Hspec : backup_Spec (ensureSourceClusterLabel c m) = backup_Spec m)
    by (unfold ensureSourceClusterLabel; by destruct (negb _)).
  apply law_attempt; [by apply mild_lawful|]. intros r.
  apply law_unless; [intros; apply law_fail; by apply ongoing_cons|]. intros Er.
  apply law_accepted; [by apply ongoing_cons|]. intros r' Hr'.
  apply law_submit_backup_task; [by do 2 (apply ongoing_cons; [|done])|].
  exists command. rewrite Hspec. split_and!; try done.
  - split; [apply happened_cons; by apply happened_now|by apply happened_now].
  - eapply location_available_suffix; [|done]. etrans; [|by eexists [_; _]].
    etrans; [|done]. by eexists [_].
Qed.

(** ** The other tasks *)

Lemma law_executeBackupCancelTask h : ongoing h -> law (executeBackupCancelTask c task) over h.
Proof.
  intros Hh. unfold executeBackupCancelTask, findActiveBackupNameForCancel, list_backups.
  task_steps. unfold cancel_backup, releaseActiveBackupPlanForCancel. task_steps.
Qed.

Lemma law_executeStorageSyncTask order h :
  ongoing h -> law (executeStorageSyncTask c fuel order task) over h.
Proof.
  intros Hh. unfold executeStorageSyncTask.
  destruct (command_of task "storageSync") as [command|] eqn:Ec; [|by apply law_fail].
  destruct (_ && _); [by apply law_fail|]. eapply law_build; [done|intros; by apply law_fail|].
  cbn [prog_bind prog_then mbind mret prog_ret].
  destruct (BuildStorageManifests _ _) as [text|m]; [by apply law_fail|].
  apply law_accepted; [done|]. intros r Hr. unfold SubmitStorage, submit.
  apply law_then; [eauto with agent|mild|]. intros h' err Hh' _.
  apply law_unless; [intros; by apply law_fail|]. intros _. destruct (cl_can c CanReadStatus).
  - by apply law_pollVeleroStatus.
  - by apply law_dry_run.
Qed.

Lemma law_executeScheduleSyncTask h : ongoing h -> law (executeScheduleSyncTask c task) over h.
Proof. intros Hh. unfold executeScheduleSyncTask. task_steps. Qed.

Lemma law_executeCacheSettingsTask h : ongoing h -> law (executeCacheSettingsTask c task) over h.
Proof. intros Hh. unfold executeCacheSettingsTask. task_steps. Qed.

Lemma law_executeHandoverTask h :
  ongoing h -> law (executeControlPlaneHandoverTask c task) over h.
Proof.
  intros Hh. unfold executeControlPlaneHandoverTask. task_steps.
Qed.

Lemma law_executeAgentUpgradeTask h : ongoing h -> law (executeAgentUpgradeTask c task) over h.
Proof. intros Hh. unfold executeAgentUpgradeTask. task_steps. Qed.

Lemma law_report_stages namespace stages k h :
  ongoing h -> (forall h', ongoing h' -> law k over h') ->
  law (report_stages task namespace stages k) over h.
Proof.
  intros Hh Hk. revert h Hh. induction stages as [|[stage text] stages IH]; intros h Hh;
    [by apply Hk|]. cbn [report_stages]. apply law_then; [done|mild|]. intros. by apply IH.
Qed.

Lemma law_executeUnregisterTask h : ongoing h -> law (executeUnregisterTask c task) over h.
Proof.
  intros Hh. unfold executeUnregisterTask. task_steps.
  apply law_report_stages; [eauto with agent|]. intros. task_steps.
Qed.

Lemma mild_split_plans plans failed targets : only mild (split_plans plans failed targets).
Proof.
  revert failed targets. induction plans as [|plan plans IH]; intros; cbn [split_plans]; [done|].
  repeat (case_match; [solve [mild; eauto]|]); apply IH.
Qed.
Hint Resolve mild_split_plans : agent.

Lemma law_send_capacity report h : ongoing h -> law (send_capacity report) over h.
Proof.
  intros Hh. split; [by split|]. intros r _. left. eexists _, r. split; [left|done].
Qed.
Hint Resolve law_send_capacity : agent.

Lemma law_executePlanCapacityTask h : ongoing h -> law (executePlanCapacityTask c task) over h.
Proof.
  intros Hh. unfold executePlanCapacityTask, measure_plans, collect_capacity. task_steps.
Qed.

Lemma mild_apply_definitions items applied : only mild (apply_definitions items applied).
Proof.
  revert applied. induction items as [|item items IH]; intros; cbn [apply_definitions]; [done|].
  destruct item; try done. destruct (_ || _); [done|]. apply only_then; [mild|].
  intros []; [done|apply IH].
Qed.
Hint Resolve mild_apply_definitions : agent.

Lemma mild_applyVeleroCRDs platform url : only mild (applyVeleroCRDs c platform url).
Proof. unfold applyVeleroCRDs. destruct (url_parts _), (url_parts _). mild. Qed.
Hint Resolve mild_applyVeleroCRDs : agent.

Lemma law_executeVeleroUpgradeTask platform h :
  ongoing h -> law (executeVeleroUpgradeTask c platform task) over h.
Proof.
  intros Hh. unfold executeVeleroUpgradeTask, upgrade_oadp, upgrade_velero. cbn zeta. task_steps.
Qed.

(** *** Protection plans and drills *)

Lemma law_delete_restores namespace deleted names k h :
  ongoing h -> (forall deleted h', ongoing h' -> law (k deleted) over h') ->
  law (delete_restores task namespace deleted names k) over h.
Proof.
  intros Hh Hk. revert deleted h Hh. induction names as [|name names IH]; intros deleted h Hh;
    [by apply Hk|]. cbn [delete_restores]. task_steps.
Qed.

Lemma law_delete_namespaces command deleted targets k h :
  d_Type task = "protection-cleanup" -> command_of task "protectionCleanup" = Some command ->
  TrimSpace (text_of command "cleanupMode") = "drill" -> ongoing h ->
  (forall deleted h', ongoing h' -> law (k deleted) over h') ->
  law (delete_namespaces task (or_agent_namespace c (text_of command "namespace"))
         (texts_of command "sourceNamespaces") deleted targets k) over h.
Proof.
  intros Ht Hc Hm Hh Hk. revert deleted h Hh.
  induction targets as [|target targets IH]; intros deleted h Hh; [by apply Hk|].
  cbn [delete_namespaces]. destruct (negb (safe_to_delete _ _ _)) eqn:Es; [by apply law_fail|].
  apply law_attempt.
  - split; [done|]. right. exists command. go_bool. done.
  - intros r. apply law_unless; [intros; apply law_fail; eauto with agent|]. intros _.
    apply law_then; [eauto with agent|mild|]. intros. by apply IH.
Qed.

Lemma law_cleanup_drill command h :
  d_Type task = "protection-cleanup" -> command_of task "protectionCleanup" = Some command ->
  TrimSpace (text_of command "cleanupMode") = "drill" -> ongoing h ->
  law (cleanup_drill c task command (or_agent_namespace c (text_of command "namespace"))) over h.
Proof.
  intros Ht Hc Hm Hh. unfold cleanup_drill. destruct (negb _); [by apply law_fail|].
  destruct (texts_of command "drillNamespaces") as [|target targets]; [by apply law_fail|].
  apply law_delete_restores; [done|]. intros restores h1 Hh1.
  apply law_delete_namespaces; try done. intros namespaces h2 Hh2. by apply law_finish.
Qed.

Lemma law_protection_points planID namespace total deleted points k h :
  ongoing h -> (forall deleted h', ongoing h' -> law (k deleted) over h') ->
  law (protection_points c task planID namespace total deleted points k) over h.
Proof.
  intros Hh Hk. revert deleted h Hh. induction points as [|point points IH]; intros deleted h Hh;
    [by apply Hk|]. cbn [protection_points]. apply law_delete_point; [done|].
  intros m h1 Hh1 _ _. apply law_progress; [done|]. intros. by apply IH.
Qed.

Lemma law_step_call x code details k h :
  ongoing h -> mild x -> (forall r h', ongoing h' -> law (k r) over h') ->
  law (step task x code details k) over h.
Proof.
  intros Hh Hx Hk. apply law_call; [by apply mild_lawful|]. intros r.
  assert (Ho : ongoing ((x, r) :: h)) by by apply ongoing_cons, mild_terminal.
  destruct r; try by apply Hk. by apply law_fail.
Qed.

Lemma law_cleanup_target command namespace planID names h :
  ongoing h -> law (cleanup_target c task command namespace planID names) over h.
Proof.
  intros Hh. unfold cleanup_target. destruct (negb _); [by apply law_fail|].
  do 3 (apply law_step_call; [done|done|]; intros ? ? ?). by apply law_finish.
Qed.

Lemma mild_retry operation x attempt total retries :
  mild x -> only mild (retryProtectionCleanup operation x attempt total retries).
Proof.
  intros Hx. revert attempt. induction retries as [|n IH]; intros k; cbn [retryProtectionCleanup];
    (apply only_then; [by apply only_ask|]); intros r; destruct r; try done;
    destruct (negb _); try done.
  apply only_then; [apply mild_sleep|]. intros _. apply IH.
Qed.

Lemma law_cleanup_repositories command namespace k h :
  ongoing h -> (forall rem h', ongoing h' -> law (k rem) over h') ->
  law (cleanup_repositories c task command namespace k) over h.
Proof.
  intros Hh Hk. unfold cleanup_repositories. destruct (_ || _); [by apply Hk|].
  do 2 (apply law_step_call; [done|done|]; intros ? ? ?).
  destruct (flag_of _ _); [|by apply Hk]. unfold cleanup_object_storage.
  apply law_step_call; [done|done|]. intros ? ? ?.
  apply law_then; [done|by apply mild_retry|]. intros h2 removed Hh2 _.
  destruct removed; try (apply law_step_call; [done|done|]; intros ? ? ?; by apply Hk).
  by apply law_fail.
Qed.

Lemma law_cleanup_schedule namespace planID schedule deleted k h :
  ongoing h -> (forall h', ongoing h' -> law k over h') ->
  law (cleanup_schedule task namespace planID schedule deleted k) over h.
Proof.
  intros Hh Hk. unfold cleanup_schedule. destruct (negb _); [by apply Hk|].
  apply law_attempt; [by apply mild_lawful|]. intros r.
  apply law_unless; [intros; apply law_fail; eauto with agent|]. intros _.
  apply law_progress; [eauto with agent|]. intros. by apply Hk.
Qed.

Theorem law_executeProtectionCleanupTask h :
  d_Type task = "protection-cleanup" -> ongoing h ->
  law (executeProtectionCleanupTask c task) over h.
Proof.
  intros Ht Hh. unfold executeProtectionCleanupTask.
  destruct (command_of task "protectionCleanup") as [command|] eqn:Ec; [|by apply law_fail].
  destruct (negb _); [by apply law_fail|]. destruct (negb _); [by apply law_fail|].
  apply law_accepted; [done|]. intros r Hr.
  assert (Ho : ongoing ((Send Accepted, r) :: h)) by eauto with agent.
  destruct (_ =s "drill") eqn:Em.
  - go_bool. apply law_cleanup_drill; try done. by destruct (nonempty _).
  - destruct (_ =s "target"); [by apply law_cleanup_target|]. unfold cleanup_source.
    apply law_protection_points; [done|]. intros deleted h1 Hh1.
    apply law_cleanup_schedule; [done|]. intros h2 Hh2.
    apply law_cleanup_repositories; [done|]. intros rem h3 Hh3. by apply law_finish.
Qed.

End submissions.

(** The function of a task whose type is not that of a retention cleanup. *)
Ltac on_type :=
  match goal with
  | |- wp _ _ _ (if d_Type ?t =s ?type then _ else _) _ _ =>
      let E := fresh in
      destruct (d_Type t =s type) eqn:E; [apply seqb_true in E|clear E]
  end.

(** Every task of the agent is lawful. *)
Theorem law_executeTask c fuel order platform task h :
  ongoing h ->
  wp any_answer (lawful c task) True (executeTask c fuel order platform task) over h.
Proof.
  intros Hh. unfold executeTask. cbv zeta. destruct (negb _); [by apply law_fail|].
  on_type; [apply law_executePlanCapacityTask; first [done|by intros ?; congruence]|].
  on_type; [apply law_executeCacheSettingsTask; first [done|by intros ?; congruence]|].
  on_type; [apply law_executeBackupTask; first [done|by intros ?; congruence]|].
  on_type; [apply law_executeBackupCancelTask; first [done|by intros ?; congruence]|].
  destruct (one_of _ _) eqn:E.
  { apply law_executeRestoreTask; [|done]. intros Ht. by rewrite Ht in E. }
  clear E. on_type; [apply law_executeStorageSyncTask; first [done|by intros ?; congruence]|].
  on_type; [apply law_executeScheduleSyncTask; first [done|by intros ?; congruence]|].
  on_type; [by apply law_executeRetentionCleanupTask|].
  on_type; [apply law_executeProtectionCleanupTask; first [done|by intros ?; congruence]|].
  on_type; [apply law_executeAgentUpgradeTask; first [done|by intros ?; congruence]|].
  on_type; [apply law_executeVeleroUpgradeTask; first [done|by intros ?; congruence]|].
  on_type; [apply law_executeUnregisterTask; first [done|by intros ?; congruence]|].
  on_type; [apply law_executeHandoverTask; first [done|by intros ?; congruence]|].
  by apply law_fail.
Qed.
