(* ===== verification/AgentRuns.v ===== *)
(** What the logic of AgentSafety.v says of the runs of a task, in any
    environment: each theorem is about the whole history of [executeTask]. *)

From S2P Require Import Prelude Text Calendar Timestamp Value Storage Velero Agent AgentReports.
From S2P Require Import AgentTasks AgentRestore AgentBackup AgentCleanup AgentSafety.

(** All that a task asked of its environment, the latest first. *)
Definition history_of (env : environment) (c : client) (fuel : nat)
    (order : document -> list (string * value)) (platform : string) (task : dispatch) : history :=
  (run env (executeTask c fuel order platform task) []).1.

(** The calls after which nothing of a task is left to do. *)
Definition releases (x : call) : bool := match x with ReleasePlan _ _ => true | _ => false end.

Section runs.
Context (env : environment) (c : client) (fuel : nat).
Context (order : document -> list (string * value)) (platform : string) (task : dispatch).

Abbreviation H := (history_of env c fuel order platform task).

Lemma run_lawful :
  kept (lawful c task) H /\
  match (run env (executeTask c fuel order platform task) []).2 with
  | Some u => over H u
  | None => True
  end.
Proof.
  apply (wp_run any_answer (lawful c task) True).
  - apply any_answers.
  - done.
  - apply law_executeTask. intros x r Hx. by apply elem_of_nil in Hx.
Qed.

Lemma lookup_lawful i x r : H !! i = Some (x, r) -> lawful c task (drop (S i) H) x.
Proof.
  intros Hi. destruct run_lawful as [Hk _]. eapply (kept_call _ (take i H)).
  by rewrite take_drop_middle.
Qed.

Lemma lookup_ongoing i x r :
  H !! i = Some (x, r) -> releases x = false -> ongoing (drop (S i) H).
Proof.
  intros Hi Hx. pose proof (lookup_lawful _ _ _ Hi) as Hl. by destruct x; try destruct Hl.
Qed.

Lemma drill_namespace_Some namespace :
  drill_namespace c task = Some namespace ->
  d_Type task = "drill" /\ namespace = TrimSpace (restoreTargetNamespace task) /\
  namespace <> "" /\ namespace <> cl_Namespace c /\
  exists command, command_of task "restore" = Some command /\
    namespace <> TrimSpace (text_of command "sourceNamespace").
Proof.
  unfold drill_namespace, restoreTargetNamespace. intros Hd.
  destruct (_ && _ && _ && _) eqn:E; [|done]. simplify_eq. go_bool.
  destruct (command_of task "restore") as [command|] eqn:Ec.
  - naive_solver.
  - destruct E as [[[_ E] _] _]. by destruct E.
Qed.

(** C8. A namespace is deleted only for a drill that failed - its own target,
    apart from the source namespace of the command and from the namespace of the
    agent, and only once Velero's volume operations were seen to have stopped -
    or by a cleanup of drills that does not name it as a source. *)
Theorem deleted_namespaces_are_expendable i namespace r :
  H !! i = Some (DeleteNamespaceAndWait namespace, r) ->
  namespace <> "" /\
  ((d_Type task = "drill" /\ namespace = TrimSpace (restoreTargetNamespace task) /\
    namespace <> cl_Namespace c /\
    (exists command, command_of task "restore" = Some command /\
       namespace <> TrimSpace (text_of command "sourceNamespace")) /\
    (exists agent name,
       happened (CancelRestoreVolumeOperations agent name) succeeded (drop (S i) H))) \/
   (exists command,
      d_Type task = "protection-cleanup" /\
      command_of task "protectionCleanup" = Some command /\
      TrimSpace (text_of command "cleanupMode") = "drill" /\
      namespace <> or_agent_namespace c (text_of command "namespace") /\
      namespace ∉ texts_of command "sourceNamespaces")).
Proof.
  intros Hi. destruct (lookup_lawful _ _ _ Hi) as [_ [[Hd Hc]|(command & Ht & Hc & Hm & Hs)]].
  - destruct (drill_namespace_Some _ Hd) as (?&?&?&?&?). split; [done|]. left. by split_and!.
  - unfold safe_to_delete in Hs. go_bool. destruct Hs as [[? ?] ?]. split; [done|]. right.
    exists command. by split_and!.
Qed.

(** C9. A namespace is replaced only for a restore whose command asks for it by
    its conflict policy, never the namespace of the agent, and only once the
    backup it is restored from was seen to be there. *)
Theorem replaced_namespaces_can_be_restored i namespace r :
  H !! i = Some (ReplaceNamespaceAndWait namespace, r) ->
  exists command,
    command_of task "restore" = Some command /\
    text_of command "conflictPolicy" = "replace" /\
    namespace = text_of command "targetNamespace" /\ namespace <> "" /\
    namespace <> cl_Namespace c /\
    exists agent,
      happened (WaitForVeleroBackup agent (text_of command "veleroBackupName")) succeeded
        (drop (S i) H).
Proof.
  intros Hi. destruct (lookup_lawful _ _ _ Hi) as [_ (command & Hc & Hp & Ht & Hn & _ & Hns & Hb)].
  exists command. rewrite <- Ht in *. split_and!; try done. by eexists.
Qed.

(** C10. A task reports its end once: when a terminal report is sent none was
    sent before, and afterwards only the lock of its plan is released.  A task
    that has run to its end has sent one, unless its acceptance or its progress
    could not be sent. *)
Theorem a_task_reports_its_end_once :
  (forall i x r, H !! i = Some (x, r) -> terminal x = true ->
     ongoing (drop (S i) H) /\ Forall (fun '(y, _) => releases y = true) (take i H)) /\
  ((run env (executeTask c fuel order platform task) []).2 = Some tt -> ended H \/ unsent H).
Proof.
  split.
  - intros i x r Hi Hx. split; [eapply lookup_ongoing; [done|by destruct x]|].
    apply Forall_forall. intros [y s] (j & Hj)%list_elem_of_lookup.
    destruct (releases y) eqn:Ey; [done|].
    apply lookup_take_Some in Hj as [Hj Hlt].
    pose proof (lookup_ongoing _ _ _ Hj Ey x r) as Ho. rewrite <- Hx. symmetry. apply Ho.
    apply list_elem_of_lookup. exists (i - S j)%nat. rewrite lookup_drop.
    by replace (S j + (i - S j))%nat with i by lia.
  - intros He. destruct run_lawful as [_ Hr]. by rewrite He in Hr.
Qed.

(** C12. A backup is submitted only after the task is in the ledger of the agent
    and its acceptance was sent, and the location it is stored in was seen to be
    available; it holds the namespaces of its command, and never the agent's. *)
Theorem submitted_backups_are_announced i m r :
  H !! i = Some (ApplyManifest (BackupObject m), r) ->
  exists command,
    command_of task "backup" = Some command /\
    spec_IncludedNamespaces (backup_Spec m) = command_namespaces command /\
    agent_namespace_of (input_of c task command) ∉ command_namespaces command /\
    happened (RecordTask (backupTaskPlanID task) (backup_object m)) succeeded (drop (S i) H) /\
    happened (Send Accepted) succeeded (drop (S i) H) /\
    location_available c (text_of command "storageRepo") (drop (S i) H).
Proof.
  intros Hi.
  destruct (lookup_lawful _ _ _ Hi) as [_ (command & Hc & [Hr Ha] & Hl & Hn & Hns)].
  exists command. by split_and!.
Qed.

(** C13. A restore is submitted only after the task is in the ledger and
    accepted, its storage location was seen to be available and its backup to
    be there, and, where its policy asks for a replacement, after its target
    namespace was replaced. *)
Theorem submitted_restores_are_prepared i m r :
  H !! i = Some (ApplyManifest (RestoreObject m), r) ->
  exists command,
    command_of task "restore" = Some command /\
    happened (RecordTask "" (restore_object m)) succeeded (drop (S i) H) /\
    happened (Send Accepted) succeeded (drop (S i) H) /\
    location_available c (text_of command "storageRepo") (drop (S i) H) /\
    happened (WaitForVeleroBackup (meta_Namespace (restore_Metadata m))
      (text_of command "veleroBackupName")) succeeded (drop (S i) H) /\
    (text_of command "conflictPolicy" = "replace" ->
     happened (ReplaceNamespaceAndWait (text_of command "targetNamespace")) succeeded
       (drop (S i) H)).
Proof.
  intros Hi. destruct (lookup_lawful _ _ _ Hi) as [_ (command & Hc & [Hr Ha] & Hl & Hb & Hp)].
  exists command. by split_and!.
Qed.

(** C14. A retention cleanup reported as completed names all the points of its
    command in their order, and the deletion of each was asked of Velero and,
    where the agent can watch it, seen to be done before. *)
Theorem reported_deletions_happened i velero text r :
  d_Type task = "retention-cleanup" ->
  H !! i = Some (Send (CompletedReport velero text), r) ->
  exists command,
    command_of task "retentionCleanup" = Some command /\
    get velero "deleted" =
      VStrs ((fun point => text_of point "id") <$> objects_of command "restorePoints") /\
    forall point, point ∈ objects_of command "restorePoints" ->
      point_deleted c (or_agent_namespace c (text_of point "namespace")) point (drop (S i) H).
Proof. intros Ht Hi. destruct (lookup_lawful _ _ _ Hi) as [_ Hd]. by apply Hd. Qed.

(** A Velero backup that stands in the way of another is deleted only when the
    platform has acknowledged the end of the task it belongs to. *)
Theorem deleted_backups_are_settled i object r :
  H !! i = Some (DeleteObject object, r) -> obj_Kind object = "Backup" ->
  exists taskID, taskID <> "" /\
    happened (IsTerminalAcked taskID) (fun r => flag_is r = true) (drop (S i) H).
Proof. intros Hi Hk. destruct (lookup_lawful _ _ _ Hi) as [_ Hd]. by apply Hd. Qed.

End runs.

(** ** The goroutine of a failed drill *)

(** When the ledger may forget a cleanup. *)
Definition cleanup_done (c : client) (task : dispatch) (object : AppliedObject) (h : history)
    (x : call) : Prop :=
  x = MarkCleanupPending false ->
  happened (CancelRestoreVolumeOperations (obj_Namespace object) (obj_Name object)) succeeded h /\
  happened (DeleteObject object) succeeded h /\
  forall namespace, drill_namespace c task = Some namespace ->
    cl_can c CanDeleteNamespace = true -> happened (DeleteNamespaceAndWait namespace) succeeded h.

Lemma wp_finishFailedDrillCleanup c task object h :
  wp any_answer (cleanup_done c task object) False (finishFailedDrillCleanup c task object)
    (fun _ _ => True) h.
Proof.
  unfold finishFailedDrillCleanup. destruct (negb _); [done|]. split; [done|]. intros r _. cbn.
  destruct (error_of r) eqn:Er; [done|]. unfold deleteFailedDrillResources. cbn.
  destruct (cl_can c CanDelete); [|done]. split; [done|]. intros r' _. cbn.
  destruct (error_of r') eqn:Er'; [done|]. cbn.
  assert (Hd : forall h', happened (DeleteObject object) succeeded ((DeleteObject object, r') :: h'))
    by (intros; by apply happened_now).
  destruct (drill_namespace c task) as [target|] eqn:Ed;
    [destruct (cl_can c CanDeleteNamespace) eqn:Ec|]; cbn.
  1: split; [done|]; intros r3 _; cbn; destruct (error_of r3) eqn:E3; [done|].
  all: split; [|done]; intros _; split_and!; eauto using happened_cons, happened_now.
  all: intros namespace' Hn Hc'; simplify_eq; eauto using happened_now; congruence.
Qed.

(** C15. The ledger forgets the cleanup of a failed drill only when the volume
    operations have stopped, the restore is deleted and the namespace of the
    drill, where the agent can delete one, is gone. *)
Theorem cleanups_are_kept_until_done env c task object i r :
  (run env (finishFailedDrillCleanup c task object) []).1 !! i =
    Some (MarkCleanupPending false, r) ->
  let before := drop (S i) (run env (finishFailedDrillCleanup c task object) []).1 in
  happened (CancelRestoreVolumeOperations (obj_Namespace object) (obj_Name object)) succeeded
    before /\
  happened (DeleteObject object) succeeded before /\
  forall namespace, drill_namespace c task = Some namespace ->
    cl_can c CanDeleteNamespace = true ->
    happened (DeleteNamespaceAndWait namespace) succeeded before.
Proof.
  intros Hi. set (h := (run env _ []).1) in *.
  destruct (wp_run any_answer (cleanup_done c task object) False env
    (finishFailedDrillCleanup c task object) (fun _ _ => True) []) as [Hk _];
    [apply any_answers|done|apply wp_finishFailedDrillCleanup|].
  refine (kept_call (cleanup_done c task object) (take i h) (MarkCleanupPending false) r
    (drop (S i) h) _ eq_refl). by rewrite take_drop_middle.
Qed.

(** ** Sample runs *)

Definition sample_client : client :=
  {| cl_ClusterID := "cluster-1"; cl_Namespace := "hypercdr-agent"; cl_BackupBackend := "velero";
     cl_ExecutorMode := "kubernetes"; cl_StateDir := "/var/lib/agent"; cl_can := fun _ => true |}.

Definition status_with (phase : string) : answer :=
  Status {| status_Phase := phase; status_Message := ""; status_Reason := ""; status_Errors := 0;
            status_Warnings := 0; status_ItemsDone := 0; status_ItemsTotal := 0;
            status_Raw := ∅ |}.

(** A cluster where locations are available and every other object is in the
    given phase, which does what it is asked for, with a clock that goes on by a
    second with every call. *)
Definition sample_env (phase : string) (backups : list VeleroBackupSummary) : environment :=
  fun h x =>
  match x with
  | Now => TimeIs (Z.of_nat (length h) * second)
  | GetManifestStatus object =>
      status_with (if obj_Kind object =s "BackupStorageLocation" then "Available" else phase)
  | ListVeleroBackups _ => Backups backups
  | IsTerminalAcked _ => Flag true
  | _ => Done
  end.

Definition sample_task (type field : string) (command : document) : dispatch :=
  {| d_TaskID := "task-1"; d_CommandID := "cmd-1"; d_Type := type;
     d_Deadline := zero_time; d_commands := {[ field := VObj command ]} |}.

(** A drill that replaces its target and whose restore fails. *)
Definition drill_task : dispatch :=
  sample_task "drill" "restore"
    {[ "veleroBackupName" := VStr "hcdr-1"; "sourceNamespace" := VStr "shop";
       "targetNamespace" := VStr "shop-drill"; "storageRepo" := VStr "repo";
       "conflictPolicy" := VStr "replace" ]}.
Abbreviation failed_drill :=
  (history_of (sample_env "Failed" []) sample_client 3 map_to_list "" drill_task).

(** A backup in whose way stands the one of a task long over. *)
Definition sample_backup : dispatch :=
  sample_task "backup" "backup"
    {[ "planId" := VStr "plan-1"; "sourceNamespaces" := VStrs ["shop"; "shop-db"];
       "storageRepo" := VStr "repo" ]}.
Definition old_backup : VeleroBackupSummary :=
  {| vb_Name := "hcdr-0"; vb_Namespace := "hypercdr-agent"; vb_Phase := "InProgress";
     vb_Labels := {[ "hypercdr.io/managed-by" := "hypercdr"; "hypercdr.io/task-id" := "task-0";
                     "hypercdr.io/plan-id" := "plan-1" ]};
     vb_CreatedAt := 0; vb_StartedAt := 0 |}.
Abbreviation completed_backup :=
  (history_of (sample_env "Completed" [old_backup]) sample_client 3 map_to_list "" sample_backup).

Definition retention_task : dispatch :=
  sample_task "retention-cleanup" "retentionCleanup"
    {[ "planId" := VStr "plan-1"; "restorePoints" := VList
       [VObj {[ "id" := VStr "rp-1"; "veleroBackupName" := VStr "hcdr-1" ]};
        VObj {[ "id" := VStr "rp-2"; "veleroBackupName" := VStr "hcdr-2" ]}] ]}.
Abbreviation completed_retention :=
  (history_of (sample_env "" []) sample_client 3 map_to_list "" retention_task).

(** An equation that is evaluated, where the right-hand side is still to be found. *)
Ltac computed :=
  lazymatch goal with
  | |- ?l = ?r => let v := eval vm_compute in l in unify r v; vm_compute; reflexivity
  end.

Lemma deleted_namespaces_are_expendable_witness :
  exists r,
    failed_drill !! 2%nat = Some (DeleteNamespaceAndWait "shop-drill", r) /\
    exists agent name, happened (CancelRestoreVolumeOperations agent name) succeeded
      (drop 3 failed_drill).
Proof.
  eexists. split; [computed|].
  edestruct (deleted_namespaces_are_expendable (sample_env "Failed" []) sample_client 3
    map_to_list "" drill_task 2 "shop-drill") as [_ [(_ & _ & _ & _ & H)|(command & H & _)]].
  - computed.
  - exact H.
  - discriminate H.
Defined.

Lemma replaced_namespaces_can_be_restored_witness :
  exists r,
    failed_drill !! 14%nat = Some (ReplaceNamespaceAndWait "shop-drill", r) /\
    "shop-drill" <> cl_Namespace sample_client.
Proof.
  eexists. split; [computed|].
  edestruct (replaced_namespaces_can_be_restored (sample_env "Failed" []) sample_client 3
    map_to_list "" drill_task 14 "shop-drill") as (_ & _ & _ & _ & _ & H & _).
  - computed.
  - exact H.
Defined.

(** A call of a history of which only the form matters. *)
Lemma found (f : call -> bool) (h : history) i :
  match h !! i with Some (x, _) => f x | None => false end = true ->
  exists x r, h !! i = Some (x, r) /\ f x = true.
Proof. destruct (h !! i) as [[x r]|]; [|done]. intros H. by exists x, r. Qed.

Lemma a_task_reports_its_end_once_witness :
  (exists x r, completed_backup !! 1%nat = Some (x, r) /\ terminal x = true) /\
  ongoing (drop 2 completed_backup) /\ (ended completed_backup \/ unsent completed_backup).
Proof.
  destruct (a_task_reports_its_end_once (sample_env "Completed" [old_backup]) sample_client 3
    map_to_list "" sample_backup) as [H1 H2].
  destruct (found terminal completed_backup 1) as (x & r & E & Hx); [computed|].
  split; [exists x, r; exact (conj E Hx)|]. split; [exact (proj1 (H1 1%nat x r E Hx))|].
  apply H2. computed.
Defined.

Lemma submitted_backups_are_announced_witness :
  exists m r,
    completed_backup !! 10%nat = Some (ApplyManifest (BackupObject m), r) /\
    happened (Send Accepted) succeeded (drop 11 completed_backup).
Proof.
  destruct (found (fun x => match x with ApplyManifest (BackupObject _) => true | _ => false end)
    completed_backup 10) as (x & r & E & Hx); [computed|].
  destruct x as [| | | | | | | | | | | [m| | | | | | | ] | | | | | | | | | | | | | | | | | | | | |
    | | | | | | | | | | | | | | | | |]; try discriminate Hx.
  exists m, r. split; [exact E|].
  destruct (submitted_backups_are_announced (sample_env "Completed" [old_backup]) sample_client 3
    map_to_list "" sample_backup 10 m r E) as (_ & _ & _ & _ & _ & H & _). exact H.
Defined.

Lemma submitted_restores_are_prepared_witness :
  exists m r,
    failed_drill !! 11%nat = Some (ApplyManifest (RestoreObject m), r) /\
    happened (Send Accepted) succeeded (drop 12 failed_drill).
Proof.
  destruct (found (fun x => match x with ApplyManifest (RestoreObject _) => true | _ => false end)
    failed_drill 11) as (x & r & E & Hx); [computed|].
  destruct x as [| | | | | | | | | | | [| | |m| | | | ] | | | | | | | | | | | | | | | | | | | | |
    | | | | | | | | | | | | | | | | |]; try discriminate Hx.
  exists m, r. split; [exact E|].
  destruct (submitted_restores_are_prepared (sample_env "Failed" []) sample_client 3 map_to_list ""
    drill_task 11 m r E) as (_ & _ & _ & H & _). exact H.
Defined.

Lemma reported_deletions_happened_witness :
  exists velero text r,
    completed_retention !! 0%nat = Some (Send (CompletedReport velero text), r) /\
    get velero "deleted" = VStrs ["rp-1"; "rp-2"].
Proof.
  destruct (found (fun x => match x with Send (CompletedReport _ _) => true | _ => false end)
    completed_retention 0) as (x & r & E & Hx); [computed|].
  destruct x as [| |[| |velero text| | ] | | | | | | | | | | | | | | | | | | | | | | | | | | | | | |
    | | | | | | | | | | | | | | | | |]; try discriminate Hx.
  exists velero, text, r. split; [exact E|].
  destruct (reported_deletions_happened (sample_env "" []) sample_client 3 map_to_list ""
    retention_task 0 velero text r eq_refl E) as (command & Hc & Hd & _).
  etransitivity; [exact Hd|]. injection Hc as <-. reflexivity.
Defined.

Lemma deleted_backups_are_settled_witness :
  exists object r,
    completed_backup !! 11%nat = Some (DeleteObject object, r) /\ obj_Kind object = "Backup" /\
    exists taskID, taskID <> "" /\
      happened (IsTerminalAcked taskID) (fun r => flag_is r = true) (drop 12 completed_backup).
Proof.
  do 2 eexists. split; [computed|]. split; [reflexivity|].
  eapply (deleted_backups_are_settled (sample_env "Completed" [old_backup]) sample_client 3
    map_to_list "" sample_backup 11); [computed|reflexivity].
Defined.

Lemma cleanups_are_kept_until_done_witness :
  exists r,
    (run (sample_env "" []) (finishFailedDrillCleanup sample_client drill_task
       (velero_object "Restore" "hypercdr-agent" "r-1")) []).1 !! 0%nat =
      Some (MarkCleanupPending false, r) /\
    happened (DeleteNamespaceAndWait "shop-drill") succeeded
      (drop 1 (run (sample_env "" []) (finishFailedDrillCleanup sample_client drill_task
        (velero_object "Restore" "hypercdr-agent" "r-1")) []).1).
Proof.
  eexists. split; [computed|].
  eapply (cleanups_are_kept_until_done (sample_env "" []) sample_client drill_task
    (velero_object "Restore" "hypercdr-agent" "r-1") 0); computed.
Defined.
