(* ===== verification/AgentProgress.v ===== *)
(** The tasks of the agent end: the loops that watch the cluster stop at their
    deadline, given a clock that does not go back.

    The rules are those of Agent.v with [False] for the runs whose fuel is used
    up; [clock_of] is what the history says of the time. *)

From S2P Require Import Prelude Text Calendar Timestamp Value Storage Velero Agent AgentReports.
From S2P Require Import AgentTasks AgentRestore AgentBackup AgentCleanup AgentSafety AgentRuns.

Section clock.
(** When the task starts. *)
Context (start : time).

Fixpoint clock_of (h : history) : time :=
  match h with
  | (Now, TimeIs t) :: _ => t
  | (Sleep d, _) :: h => clock_of h + Z.max 0 d
  | _ :: h => clock_of h
  | [] => start
  end.

Abbreviation clock := clock_of.

(** The clock is read, and after what was read and slept before. *)
Definition ticking (h : history) (x : call) (r : answer) : Prop :=
  x = Now -> exists t, r = TimeIs t /\ clock h <= t.

Abbreviation law := (wp ticking (fun _ _ => True) False).

(** Programs without loops that take fuel. *)
Fixpoint bounded {A} (p : prog A) : Prop :=
  match p with
  | Ret _ => True
  | Unfinished => False
  | Call _ k => forall r, bounded (k r)
  end.

Lemma bounded_then {A B} (p : prog A) (f : A -> prog B) :
  bounded p -> (forall a, bounded (f a)) -> bounded (p ≫= f).
Proof.
  intros Hp Hf. induction p as [a| |x k IH]; [apply Hf|done|]. intros r. by apply IH.
Qed.

Lemma bounded_attempt x : bounded (attempt x).
Proof. by intros r. Qed.
Lemma bounded_ask x : bounded (ask x).
Proof. by intros r. Qed.
Lemma bounded_tell x : bounded (tell x).
Proof. by intros r. Qed.
Lemma bounded_now : bounded now.
Proof. by intros r. Qed.

Lemma clock_call h x r : ticking h x r -> clock h <= clock ((x, r) :: h).
Proof.
  intros Hr. destruct x; cbn; try lia; try (by destruct r).
  destruct (Hr eq_refl) as (t & -> & Ht). done.
Qed.

(** A program after which it is not earlier, and that ends. *)
Definition no_earlier {A} (h h' : history) (_ : A) : Prop := clock h <= clock h'.

Lemma bounded_ends {A} (p : prog A) h : bounded p -> law p (no_earlier h) h.
Proof.
  revert h. induction p as [a| |x k IH]; intros h Hp; [unfold no_earlier; cbn; lia|done|].
  split; [done|]. intros r Hr. eapply wp_mono; [by apply IH|]. intros h' a Hl.
  unfold no_earlier in *. pose proof (clock_call h x r Hr). lia.
Qed.

Lemma ends_then {A B} (p : prog A) (f : A -> prog B) (Q : history -> B -> Prop) h :
  bounded p -> (forall h' a, clock h <= clock h' -> law (f a) Q h') -> law (p ≫= f) Q h.
Proof. intros Hp Hf. eapply wp_seq; [by apply bounded_ends|]. intros h' a Hl. by apply Hf. Qed.

(** What follows a program that ends. *)
Lemma ends_seq {A B} (p : prog A) (f : A -> prog B) (Q : history -> B -> Prop) h :
  law p (no_earlier h) h -> (forall h' a, clock h <= clock h' -> law (f a) Q h') -> law (p ≫= f) Q h.
Proof. intros Hp Hf. eapply wp_seq; [done|]. intros h' a Hl. by apply Hf. Qed.

Lemma ends_now {B} (f : time -> prog B) (Q : history -> B -> Prop) h :
  (forall t, clock h <= t -> law (f t) Q ((Now, TimeIs t) :: h)) -> law (now ≫= f) Q h.
Proof.
  intros Hf. split; [done|]. intros r Hr. destruct (Hr eq_refl) as (t & -> & Ht). by apply Hf.
Qed.

Lemma ends_sleep {B} d (f : unit -> prog B) (Q : history -> B -> Prop) h :
  0 <= d -> (forall r, clock ((Sleep d, r) :: h) = clock h + d ->
    law (f tt) Q ((Sleep d, r) :: h)) -> law (sleep d ≫= f) Q h.
Proof. intros Hd Hf. split; [done|]. intros r _. apply Hf. cbn. lia. Qed.

Lemma bounded_done {A} (p : prog A) h : bounded p -> law p (fun _ _ => True) h.
Proof. intros Hp. eapply wp_mono; [by apply bounded_ends|done]. Qed.

End clock.

#[export] Hint Resolve bounded_attempt bounded_ask bounded_tell bounded_now : progress.

(** The program takes no fuel. *)
Ltac bounded :=
  repeat lazymatch goal with
  | |- bounded (mret _) => exact I
  | |- bounded (match ?x with _ => _ end) => destruct x
  | |- bounded (_ ≫= _) => apply bounded_then; [|intros ?]
  | |- bounded _ => solve [eauto with progress]
  end.

(** ** What takes no fuel *)

Section bounded.
Context (c : client) (task : dispatch).

Lemma bounded_progress velero progress text : bounded (sendTaskProgress task velero progress text).
Proof. unfold sendTaskProgress. bounded. Qed.
Lemma bounded_fail_with code text details : bounded (fail_with task code text details).
Proof. unfold fail_with, stop, sendTaskFailedWithDetails. bounded. Qed.
Lemma bounded_completed velero text : bounded (stop (sendTaskCompleted task velero text)).
Proof. unfold stop, sendTaskCompleted. bounded. Qed.
Lemma bounded_unless err failed k :
  (forall e, bounded (failed e)) -> bounded k -> bounded (unless err failed k).
Proof. intros. destruct err; cbn; auto. Qed.
Lemma bounded_if_sent p k : bounded p -> bounded k -> bounded (then_if_sent p k).
Proof. intros. apply bounded_then; [done|]. intros. by apply bounded_unless. Qed.
Lemma bounded_sleep d : bounded (sleep d).
Proof. by intros r. Qed.
Lemma bounded_accepted : bounded (sendTaskAccepted task).
Proof. by intros r. Qed.
Lemma bounded_release planID id : bounded (tell (ReleasePlan planID id)).
Proof. by intros r. Qed.
End bounded.

#[export] Hint Resolve bounded_progress bounded_fail_with bounded_completed bounded_sleep
  bounded_accepted bounded_release : progress.

Ltac bounds :=
  repeat first
  [ lazymatch goal with
    | |- bounded (fail _ _ _) => apply bounded_fail_with
    | |- bounded (unless _ _ _) => apply bounded_unless; [intros ?|]
    | |- bounded (then_if_sent _ _) => apply bounded_if_sent
    | |- bounded (let '(_, _) := ?x in _) => destruct x
    end
  | progress bounded ].

Section restore.
Context (c : client) (task : dispatch).

Lemma bounded_read_location name attempt retries : bounded (read_location c name attempt retries).
Proof.
  revert attempt. induction retries as [|n IH]; intros k; cbn [read_location]; bounds.
Qed.
Hint Resolve bounded_read_location : progress.
Lemma bounded_requireLocation name : bounded (requireBackupStorageLocation c name).
Proof. unfold requireBackupStorageLocation. bounds. Qed.

Lemma bounded_failRestoreTask object code text details :
  bounded (failRestoreTask c task object code text details).
Proof.
  unfold failRestoreTask, cancel_operations, deleteFailedDrillResources, remove_drill_namespace,
    defer_cleanup. bounds.
Qed.
Lemma bounded_volumes readable o samples : bounded (buildVolumeProgressPayload readable o samples).
Proof. unfold buildVolumeProgressPayload. bounds. Qed.
Lemma bounded_sizes readable o payload : bounded (attachBackupSizeStats readable o payload).
Proof. unfold attachBackupSizeStats. bounds. Qed.
Lemma bounded_dry_run payload total steps : bounded (dry_run task payload total steps).
Proof. induction steps as [|[[progress prepared] text] steps IH]; cbn [dry_run]; bounds. Qed.
Lemma bounded_reconciled o status deadline d since : bounded (reconciled o status deadline d since).
Proof. unfold reconciled. bounds. Qed.
Hint Resolve bounded_failRestoreTask : progress.
Lemma bounded_restore_failed object payload status d :
  bounded (restore_failed c task object payload status d).
Proof. unfold restore_failed, enrichVeleroFailure, restoreResultSummary. bounds. Qed.
Lemma bounded_restore_stalled object payload started :
  bounded (restore_stalled c task object payload started).
Proof. unfold restore_stalled, restoreDataPathFailure. bounds. Qed.
Lemma bounded_report_readiness payload snapshot text m :
  bounded (report_readiness task payload snapshot text m).
Proof. unfold report_readiness. bounds. Qed.
Lemma bounded_preflight_wait deadline : bounded (storagePreflightWait deadline).
Proof. unfold storagePreflightWait. bounds. Qed.
Lemma bounded_SubmitRestore m : bounded (SubmitRestore c m).
Proof.
  unfold SubmitRestore, submit, replace_target, submit_with_modifier, or_error. bounds.
Qed.
End restore.

#[export] Hint Resolve bounded_requireLocation bounded_failRestoreTask bounded_volumes bounded_sizes
  bounded_dry_run bounded_reconciled bounded_restore_failed bounded_restore_stalled
  bounded_report_readiness bounded_preflight_wait bounded_SubmitRestore : progress.

(** ** The loops *)

Section loops.
Context (start : time) (c : client) (fuel : nat) (task : dispatch).

Abbreviation clock := (clock_of start).
Abbreviation law := (wp (ticking start) (fun _ _ => True) False).

(** Rounds for every second that is left until the deadline, and one more. *)
Definition enough (n : nat) (deadline : time) (h : history) : Prop :=
  (1 <= n)%nat /\ deadline < clock h + (Z.of_nat n - 1) * second.

Lemma enough_again n deadline h h' :
  enough (S n) deadline h -> clock h <= deadline -> clock h + second <= clock h' ->
  enough n deadline h'.
Proof. unfold enough, second. intros [_ H1] H2 H3. split; lia. Qed.

Lemma not_enough deadline h : ~ enough 0 deadline h.
Proof. intros [H _]. lia. Qed.

Lemma wait_ends t name n deadline h :
  enough n deadline h -> t <= clock h ->
  law (wait_for_location c n name deadline) (fun h' _ => t <= clock h') h.
Proof.
  revert h. induction n as [|n IH]; intros h Hn Ht; [by apply not_enough in Hn|].
  cbn [wait_for_location]. apply ends_then; [auto with progress|]. intros h1 [err|] H1; [|cbn; lia].
  destruct (negb _); [cbn; lia|]. apply ends_now. intros t2 H2.
  destruct (deadline <? t2) eqn:Ed; [cbn; lia|]. go_bool. apply ends_sleep; [done|].
  intros r Hr. cbn [clock_of] in *. unfold second in *.
  apply IH; [eapply enough_again; [done|lia|unfold second; cbn; lia]|cbn; lia].
Qed.

Lemma waitForLocation_ends name timeout h :
  timeout <= 600 * second -> 601 * second < Z.of_nat fuel * second ->
  law (waitForBackupStorageLocation c fuel name timeout) (fun h' _ => clock h <= clock h') h.
Proof.
  intros Ht Hf. unfold waitForBackupStorageLocation.
  destruct (_ || _); [apply bounded_ends; auto with progress|]. apply ends_now. intros t Hn.
  apply wait_ends; [|cbn; lia]. unfold enough, second in *. cbn. lia.
Qed.

(** One step of a program: what is left are the rounds of its loops. *)
Ltac tick :=
  lazymatch goal with
  | |- wp _ _ _ (let '(_, _) := ?x in _) _ _ => destruct x eqn:?
  | |- wp _ _ _ (unless ?x _ _) _ _ => destruct x; cbn [unless]
  | |- wp _ _ _ (then_if_sent _ _) _ _ => unfold then_if_sent
  | |- wp _ _ _ (if ?b then _ else _) _ _ => destruct b eqn:?
  | |- wp _ _ _ (match ?x with _ => _ end) _ _ => destruct x eqn:?
  | |- wp _ _ _ (now ≫= _) _ _ => apply ends_now; intros
  | |- wp _ _ _ (sleep _ ≫= _) _ _ => apply ends_sleep; [|intros]
  | |- wp _ _ _ (_ ≫= _) _ _ => apply ends_then; [solve [bounds]|intros]
  | |- wp _ _ _ _ _ _ => solve [apply bounded_done; bounds]
  end.

Lemma interval_bound object : second <= veleroPollInterval object.
Proof. unfold veleroPollInterval. by destruct (usesVolumeProgress object). Qed.

Lemma read_again err t deadline since since' retry :
  read_error err t deadline since = (since', retry) -> retry = true -> t < deadline.
Proof. unfold read_error. destruct (_ && _) eqn:E; intros [= <- <-] H; [|done]. go_bool. tauto. Qed.

(** The next round, which comes later than this one. *)
Ltac again IH :=
  try match goal with E : read_error _ _ _ _ = (_, true) |- _ =>
    pose proof (read_again _ _ _ _ _ _ E eq_refl) end;
  cbn [clock_of] in *; go_bool; first
  [ unfold second in *; lia
  | apply IH; first [eapply enough_again; [eassumption| |]|idtac];
    cbn [clock_of]; unfold second in *; lia ].

Lemma watch_status_ends n object base decide started deadline progress samples since h :
  enough n deadline h ->
  law (watch_status c n task object base decide started deadline progress samples since)
    (fun _ _ => True) h.
Proof.
  pose proof (interval_bound object) as Hi.
  revert progress samples since h. induction n as [|n IH]; intros ???? Hn;
    [by apply not_enough in Hn|]. cbn [watch_status]. repeat tick; again IH.
Qed.

Lemma watch_restore_ends n object base decide started deadline w h :
  (forall payload text h', start <= clock h' ->
     law (restore_succeeded c fuel task object payload text) (fun _ _ => True) h') ->
  enough n deadline h -> start <= clock h ->
  law (watch_restore c fuel n task object base decide started deadline w) (fun _ _ => True) h.
Proof.
  intros Hs. pose proof (interval_bound object) as Hi.
  revert w h. induction n as [|n IH]; intros ?? Hn Hh; [by apply not_enough in Hn|].
  cbn [watch_restore]. repeat first [apply Hs | tick]; again IH.
Qed.

Lemma poll_readiness_ends n object base command namespace text startedAt deadline m h :
  enough n deadline h ->
  law (poll_readiness c n task object base command namespace text startedAt deadline m)
    (fun _ _ => True) h.
Proof.
  revert m h. induction n as [|n IH]; intros ?? Hn; [by apply not_enough in Hn|].
  cbn [poll_readiness]. repeat tick; again IH.
Qed.

(** *** Tasks

    Fuel for every second until the deadline, or for half an hour. *)
Context (Hdeadline : d_Deadline task - start < (Z.of_nat fuel - 1) * second).
Context (Hminimum : 1801 < Z.of_nat fuel).

Lemma ends_deadline {B} (f : time -> prog B) (Q : history -> B -> Prop) h :
  start <= clock h ->
  (forall h' deadline, clock h <= clock h' ->
     deadline < clock h' + (Z.of_nat fuel - 1) * second -> law (f deadline) Q h') ->
  law (deadline_of task ≫= f) Q h.
Proof.
  intros Hh Hf. unfold deadline_of. destruct (_ =? _).
  - apply wp_then, ends_now. intros t Ht. apply Hf; cbn; unfold second in *; lia.
  - apply Hf; [lia|]. unfold second in *. lia.
Qed.

Lemma enough_later deadline h h' :
  deadline < clock h + (Z.of_nat fuel - 1) * second -> clock h <= clock h' ->
  enough fuel deadline h'.
Proof. unfold enough, second. split; lia. Qed.

Lemma ready_ends object base namespace text h :
  start <= clock h ->
  law (pollRestoredNamespaceReady c fuel task object base namespace text) (fun _ _ => True) h.
Proof.
  intros Hh. unfold pollRestoredNamespaceReady. destruct (command_of _ _); [|done].
  apply ends_deadline; [done|]. intros h1 deadline H1 Hd. repeat tick.
  apply poll_readiness_ends. eapply enough_later; [done|]. cbn in *. lia.
Qed.

Ltac settle := cbn [clock_of] in *; lia.

Lemma restore_succeeded_ends object payload text h :
  start <= clock h ->
  law (restore_succeeded c fuel task object payload text) (fun _ _ => True) h.
Proof.
  intros Hh. unfold restore_succeeded, map_services, finish_restore. cbv zeta.
  repeat first [apply ready_ends; settle | tick].
Qed.

Lemma pollRestoreStatus_ends object base h :
  start <= clock h -> law (pollRestoreStatus c fuel task object base) (fun _ _ => True) h.
Proof.
  intros Hh. unfold pollRestoreStatus. apply ends_deadline; [done|]. intros h1 deadline H1 Hd.
  apply ends_now. intros t Ht.
  apply watch_restore_ends; [intros; by apply restore_succeeded_ends| |settle].
  eapply enough_later; [done|settle].
Qed.

Lemma pollVeleroStatus_ends object base decide h :
  start <= clock h -> law (pollVeleroStatus c fuel task object base decide) (fun _ _ => True) h.
Proof.
  intros Hh. unfold pollVeleroStatus. apply ends_deadline; [done|]. intros h1 deadline H1 Hd.
  apply ends_now. intros t Ht. apply watch_status_ends. unfold enough, second in *.
  destruct (_ && _); cbn in *; lia.
Qed.

(** The first wait of a task, for its storage location. *)
Lemma ends_location {B} name (f : option api_error -> prog B) (Q : history -> B -> Prop) h :
  (forall h' err, clock h <= clock h' -> law (f err) Q h') ->
  law (timeout ← storagePreflightWait (d_Deadline task);
       err ← waitForBackupStorageLocation c fuel name timeout; f err) Q h.
Proof.
  intros Hf. unfold storagePreflightWait.
  assert (Hw : forall h' timeout, clock h <= clock h' -> timeout <= 600 * second ->
    law (err ← waitForBackupStorageLocation c fuel name timeout; f err) Q h').
  { intros h' timeout H1 H2. eapply wp_seq; [apply waitForLocation_ends; unfold second in *; lia|].
    intros h2 err H3. apply Hf. unfold second in *. lia. }
  destruct (_ =? _); [apply Hw; unfold second; lia|].
  apply wp_then, ends_now. intros t Ht. apply Hw; [cbn; lia|]. destruct (_ <=? _); unfold second; lia.
Qed.

(** A builder of objects that takes no fuel. *)
Lemma ends_build {A B} what field (f : BuildInput -> prog (string + A)) (k : string + A -> prog B)
    (Q : history -> B -> Prop) h :
  (forall input, bounded (f input)) ->
  (forall h' built, clock h <= clock h' -> law (k built) Q h') ->
  law (build c what field task f ≫= k) Q h.
Proof.
  intros Hf Hk. apply ends_then; [|done]. unfold build.
  destruct (mode c), (command_of task field); try exact I; apply Hf.
Qed.

Lemma executeRestoreTask_ends h :
  start <= clock h -> law (executeRestoreTask c fuel task) (fun _ _ => True) h.
Proof.
  intros Hh. unfold executeRestoreTask.
  destruct (command_of task "restore") as [command|]; [|tick].
  destruct (if oadp c then _ else _); [tick|].
  apply ends_location. intros h1 [err|] H1; cbn [unless]; [tick|].
  apply ends_build; [done|]. intros h2 [text|m] H2; [tick|].
  unfold preflight_cache, submitted_restore.
  repeat first [apply pollRestoreStatus_ends; settle | tick].
Qed.

Lemma bounded_conflict command m : bounded (findConflictingActiveBackup c command m).
Proof.
  assert (Hb : forall planID name l, bounded (first_conflict c planID name l)).
  { intros planID name l. induction l as [|b l IH]; cbn [first_conflict];
      unfold cleanupTerminalBackupConflict; bounds. }
  unfold findConflictingActiveBackup, list_backups. bounds.
Qed.

Lemma bounded_submission m : bounded (submitBackupWithConfirmation c m).
Proof.
  assert (Ha : forall n delay object, bounded (shows_up c n delay object)).
  { intros n. induction n as [|n IH]; intros; cbn [shows_up]; unfold backupManifestExists; bounds. }
  unfold submitBackupWithConfirmation. generalize 3%nat, true, (@None api_error).
  intros n. induction n as [|n IH]; intros; cbn [submit_attempts];
    unfold SubmitBackup, submit, backupManifestExists; bounds.
Qed.
Hint Resolve bounded_conflict bounded_submission : progress.

Lemma ends_holding_plan k h :
  (forall h', clock h <= clock h' -> law k (fun _ _ => True) h') ->
  law (holding_plan task k) (fun _ _ => True) h.
Proof.
  intros Hk. unfold holding_plan. destruct (negb _); [by apply Hk|].
  apply ends_then; [bounds|]. intros h1 r H1.
  assert (Hr : law (k;; tell (ReleasePlan (backupTaskPlanID task) (d_TaskID task)))
    (fun _ _ => True) h1) by (eapply wp_seq; [by apply Hk|done]).
  destruct r; try exact Hr. tick.
Qed.

Lemma ends_oadp_checks command k h :
  (forall h', clock h <= clock h' -> law k (fun _ _ => True) h') ->
  law (oadp_checks c task command k) (fun _ _ => True) h.
Proof.
  intros Hk. unfold oadp_checks. repeat first [apply Hk; settle | tick].
Qed.

Lemma executeBackupTask_ends h :
  start <= clock h -> law (executeBackupTask c fuel task) (fun _ _ => True) h.
Proof.
  intros Hh. unfold executeBackupTask.
  destruct (command_of task "backup") as [command|]; [|tick].
  apply ends_oadp_checks. intros h1 H1. apply ends_holding_plan. intros h2 H2.
  apply ends_location. intros h3 [err|] H3; cbn [unless]; [tick|].
  apply ends_build; [intros; bounds|]. intros h4 [text|m] H4; [tick|].
  unfold submit_backup_task, submitted_backup. cbv zeta.
  repeat first [apply pollVeleroStatus_ends; settle | tick].
Qed.

Lemma executeStorageSyncTask_ends order h :
  start <= clock h -> law (executeStorageSyncTask c fuel order task) (fun _ _ => True) h.
Proof.
  intros Hh. unfold executeStorageSyncTask.
  destruct (command_of task "storageSync") as [command|]; [|tick].
  destruct (_ && _); [tick|]. apply ends_build; [done|]. intros h1 [text|m] H1; [tick|].
  unfold SubmitStorage, submit. cbv zeta.
  repeat first [apply pollVeleroStatus_ends; settle | tick].
Qed.

End loops.

(** ** The tasks without loops that take fuel *)

Section others.
Context (c : client) (task : dispatch).

Lemma bounded_executeBackupCancelTask : bounded (executeBackupCancelTask c task).
Proof.
  unfold executeBackupCancelTask, findActiveBackupNameForCancel, list_backups, cancel_backup,
    releaseActiveBackupPlanForCancel. cbv zeta. bounds.
Qed.
Lemma bounded_executeScheduleSyncTask : bounded (executeScheduleSyncTask c task).
Proof. unfold executeScheduleSyncTask. cbv zeta. bounds. Qed.
Lemma bounded_executeCacheSettingsTask : bounded (executeCacheSettingsTask c task).
Proof. unfold executeCacheSettingsTask. bounds. Qed.
Lemma bounded_executeHandoverTask : bounded (executeControlPlaneHandoverTask c task).
Proof. unfold executeControlPlaneHandoverTask. cbv zeta. bounds. Qed.
Lemma bounded_executeAgentUpgradeTask : bounded (executeAgentUpgradeTask c task).
Proof. unfold executeAgentUpgradeTask. cbv zeta. bounds. Qed.

Lemma bounded_report_stages namespace stages k :
  bounded k -> bounded (report_stages task namespace stages k).
Proof. intros Hk. induction stages as [|[stage text] stages IH]; cbn [report_stages]; bounds. Qed.
Hint Resolve bounded_report_stages : progress.
Lemma bounded_executeUnregisterTask : bounded (executeUnregisterTask c task).
Proof. unfold executeUnregisterTask. cbv zeta. bounds. apply bounded_report_stages. bounds. Qed.

Lemma bounded_executePlanCapacityTask : bounded (executePlanCapacityTask c task).
Proof.
  assert (Ht : forall plans failed targets, bounded (split_plans plans failed targets)).
  { intros plans. induction plans as [|plan plans IH]; intros; cbn [split_plans]; bounds. }
  unfold executePlanCapacityTask, measure_plans, collect_capacity, send_capacity, stop.
  cbv zeta. bounds.
Qed.

Lemma bounded_executeVeleroUpgradeTask platform : bounded (executeVeleroUpgradeTask c platform task).
Proof.
  assert (Ha : forall items applied, bounded (apply_definitions items applied)).
  { intros items. induction items as [|item items IH]; intros; cbn [apply_definitions]; bounds. }
  unfold executeVeleroUpgradeTask, upgrade_oadp, upgrade_velero, applyVeleroCRDs. cbv zeta. bounds.
Qed.

Lemma bounded_delete_point codes namespace point k :
  (forall m, bounded (k m)) -> bounded (delete_point c task codes namespace point k).
Proof. intros Hk. unfold delete_point. destruct codes as [[? ?] ?]. bounds; apply Hk. Qed.

Lemma bounded_executeRetentionCleanupTask : bounded (executeRetentionCleanupTask c task).
Proof.
  assert (Hp : forall planID total points deleted,
    bounded (retention_points c task planID total deleted points)).
  { intros planID total points. induction points as [|point points IH]; intros;
      cbn [retention_points]; [bounds|]. apply bounded_delete_point. intros m. bounds. }
  unfold executeRetentionCleanupTask. bounds.
Qed.

Lemma bounded_protection_points planID namespace total deleted points k :
  (forall deleted, bounded (k deleted)) ->
  bounded (protection_points c task planID namespace total deleted points k).
Proof.
  intros Hk. revert deleted. induction points as [|point points IH]; intros;
    cbn [protection_points]; [apply Hk|]. apply bounded_delete_point. intros m. bounds.
Qed.

Lemma bounded_step x code details k :
  (forall r, bounded (k r)) -> bounded (step task x code details k).
Proof. intros Hk. unfold step. bounds; apply Hk. Qed.

Lemma bounded_retry operation x attempt total retries :
  bounded (retryProtectionCleanup operation x attempt total retries).
Proof.
  revert attempt. induction retries as [|n IH]; intros; cbn [retryProtectionCleanup]; bounds.
Qed.

Lemma bounded_cleanup_repositories command namespace k :
  (forall rem, bounded (k rem)) -> bounded (cleanup_repositories c task command namespace k).
Proof.
  intros Hk. unfold cleanup_repositories, cleanup_object_storage. destruct (_ || _); [apply Hk|].
  do 2 (apply bounded_step; intros ?). destruct (flag_of _ _); [|apply Hk].
  apply bounded_step. intros ?. apply bounded_then; [apply bounded_retry|]. intros removed.
  destruct removed; try (apply bounded_step; intros ?; apply Hk). bounds.
Qed.

Lemma bounded_cleanup_drill command namespace : bounded (cleanup_drill c task command namespace).
Proof.
  assert (Hr : forall names deleted k, (forall deleted, bounded (k deleted)) ->
    bounded (delete_restores task namespace deleted names k)).
  { intros names. induction names as [|name names IH]; intros deleted k Hk;
      cbn [delete_restores]; [apply Hk|]. bounds. }
  assert (Hn : forall sources targets deleted k, (forall deleted, bounded (k deleted)) ->
    bounded (delete_namespaces task namespace sources deleted targets k)).
  { intros sources targets. induction targets as [|target targets IH]; intros deleted k Hk;
      cbn [delete_namespaces]; [apply Hk|]. cbv zeta. bounds. }
  unfold cleanup_drill. cbv zeta. bounds.
Qed.

Lemma bounded_executeProtectionCleanupTask : bounded (executeProtectionCleanupTask c task).
Proof.
  pose proof bounded_cleanup_drill.
  assert (Ht : forall command namespace planID names,
    bounded (cleanup_target c task command namespace planID names)).
  { intros. unfold cleanup_target. cbv zeta. destruct (negb _); [bounds|].
    do 3 (apply bounded_step; intros ?). bounds. }
  assert (Hs : forall command namespace planID mode points,
    bounded (cleanup_source c task command namespace planID mode points)).
  { intros. unfold cleanup_source, cleanup_schedule. cbv zeta.
    apply bounded_protection_points. intros deleted. destruct (negb _).
    - apply bounded_cleanup_repositories. intros rem. bounds.
    - bounds. apply bounded_cleanup_repositories. intros rem. bounds. }
  unfold executeProtectionCleanupTask. cbv zeta. bounds.
Qed.
End others.

Lemma executeTask_ends start c fuel order platform task h :
  d_Deadline task - start < (Z.of_nat fuel - 1) * second -> 1801 < Z.of_nat fuel ->
  start <= clock_of start h ->
  wp (ticking start) (fun _ _ => True) False (executeTask c fuel order platform task)
    (fun _ _ => True) h.
Proof.
  intros Hd Hf Hh. unfold executeTask. cbv zeta. destruct (negb _); [by apply bounded_done; bounds|].
  on_type; [apply bounded_done, bounded_executePlanCapacityTask|].
  on_type; [apply bounded_done, bounded_executeCacheSettingsTask|].
  on_type; [by apply executeBackupTask_ends|].
  on_type; [apply bounded_done, bounded_executeBackupCancelTask|].
  destruct (one_of _ _); [by apply executeRestoreTask_ends|].
  on_type; [by apply executeStorageSyncTask_ends|].
  on_type; [apply bounded_done, bounded_executeScheduleSyncTask|].
  on_type; [apply bounded_done, bounded_executeRetentionCleanupTask|].
  on_type; [apply bounded_done, bounded_executeProtectionCleanupTask|].
  on_type; [apply bounded_done, bounded_executeAgentUpgradeTask|].
  on_type; [apply bounded_done, bounded_executeVeleroUpgradeTask|].
  on_type; [apply bounded_done, bounded_executeUnregisterTask|].
  on_type; [apply bounded_done, bounded_executeHandoverTask|].
  apply bounded_done, bounded_fail_with.
Qed.

(** C11. Every task of the agent comes to its end, with a terminal report unless
    a report could not be sent, whatever the cluster answers, where the clock
    does not go back and there is fuel for every second until its deadline, or
    for half an hour. *)
Theorem tasks_end env c fuel order platform task start :
  answers (ticking start) env ->
  Z.max (d_Deadline task - start) (1800 * second) < (Z.of_nat fuel - 1) * second ->
  (run env (executeTask c fuel order platform task) []).2 = Some tt /\
  (ended (history_of env c fuel order platform task) \/
   unsent (history_of env c fuel order platform task)).
Proof.
  intros Hanswers Hfuel.
  assert (He : (run env (executeTask c fuel order platform task) []).2 = Some tt).
  { destruct (wp_run (ticking start) (fun _ _ => True) False env
      (executeTask c fuel order platform task) (fun _ _ => True) []) as [_ Hr]; [done|done| |].
    - apply executeTask_ends; unfold second in *; cbn; lia.
    - by destruct (run env _ []) as [h [[]|]]. }
  split; [done|]. pose proof (run_lawful env c fuel order platform task) as [_ Hr].
  by rewrite He in Hr.
Qed.

(** An environment with a clock that goes on by a second with every look. *)
Definition clocked (env : environment) : environment := fun h x =>
  match x with Now => TimeIs (clock_of 0 h + second) | _ => env h x end.

Lemma clocked_ticking env : answers (ticking 0) (clocked env).
Proof. intros h x ->. exists (clock_of 0 h + second). split; [done|]. unfold second. lia. Qed.

(** A backup that never gets on. *)
Lemma tasks_end_witness :
  answers (ticking 0) (clocked (sample_env "InProgress" [])) /\
  (run (clocked (sample_env "InProgress" []))
     (executeTask sample_client (Z.to_nat 1802) map_to_list "" sample_backup) []).2 = Some tt.
Proof.
  split; [apply clocked_ticking|].
  apply (tasks_end (clocked (sample_env "InProgress" [])) sample_client (Z.to_nat 1802) map_to_list
    "" sample_backup 0); [apply clocked_ticking|].
  rewrite Z2Nat.id by lia. unfold second. cbn [d_Deadline sample_backup sample_task]. unfold zero_time, second. lia.
Defined.
