(* ===== verification/Quota.v ===== *)
(** Restore point slots of a protection plan:
    backend/internal/store/restore_point_quota.go.

    A plan with a retention count has that many slots.  A backup task reserves
    one when it is created, naming the point it will replace when none is free;
    the reservation goes reserved, data_ready (the backup is stored, its point
    pending), deleting (the replaced point is being removed), published; or
    released when the task fails. *)

From S2P Require Import Prelude Calendar Timestamp Value Types Retention Session Database.

(** ** The snapshot of a restore point input kept as jsonb *)

Definition json_time_ok (t : time) : bool := (0 <=? Year utc t) && (Year utc t <=? 9999).

Definition encode_input (i : RestorePointInput) : document :=
  list_to_map
    [("ProtectionPlanID", VStr (rpi_ProtectionPlanID i));
     ("SourceClusterID", VStr (rpi_SourceClusterID i)); ("AppID", VStr (rpi_AppID i));
     ("StorageRepoID", VStr (rpi_StorageRepoID i)); ("DisplayName", VStr (rpi_DisplayName i));
     ("TaskCreatedAt", VTime (rpi_TaskCreatedAt i));
     ("VeleroBackupName", VStr (rpi_VeleroBackupName i));
     ("PointType", VStr (rpi_PointType i)); ("Status", VStr (rpi_Status i));
     ("SizeBytes", VNum (rpi_SizeBytes i)); ("StartedAt", VTime (rpi_StartedAt i));
     ("CompletedAt", VTime (rpi_CompletedAt i)); ("ExpiresAt", VTime (rpi_ExpiresAt i));
     ("SourceNamespace", VStr (rpi_SourceNamespace i));
     ("LabelSelector", VStr (rpi_LabelSelector i));
     ("BackupTaskID", VStr (rpi_BackupTaskID i));
     ("BackupStorageName", VStr (rpi_BackupStorageName i));
     ("Metadata", VObj (rpi_Metadata i)); ("SizeMetricsV2", VObj (rpi_SizeMetricsV2 i))].

(** [json.Marshal(input)] stored as jsonb; years beyond 9999 do not marshal. *)
Definition marshal_input (i : RestorePointInput) : option value :=
  if forallb json_time_ok
       [rpi_TaskCreatedAt i; rpi_StartedAt i; rpi_CompletedAt i; rpi_ExpiresAt i]
  then Some (VObj (jsonify_doc (encode_input i))) else None.

Lemma marshal_input_Some i v :
  marshal_input i = Some v ->
  forallb json_time_ok
    [rpi_TaskCreatedAt i; rpi_StartedAt i; rpi_CompletedAt i; rpi_ExpiresAt i] = true /\
  v = VObj (jsonify_doc (encode_input i)).
Proof.
  unfold marshal_input. generalize (VObj (jsonify_doc (encode_input i))).
  intros w. destruct (forallb _ _); [|done]. by intros [= <-].
Qed.

Definition field_string (m : document) (key : string) : option string :=
  match get m key with VNull => Some "" | VStr s => Some s | _ => None end.
Definition field_int64 (m : document) (key : string) : option Z :=
  match get m key with
  | VNull => Some 0
  | VNum z => if in_int64 z then Some z else None
  | _ => None
  end.
Definition field_time (m : document) (key : string) : option time :=
  match get m key with VNull => Some zero_time | VStr s => parse_rfc3339 s | _ => None end.
Definition field_map (m : document) (key : string) : option document :=
  match get m key with VNull => Some ∅ | VObj o => Some o | _ => None end.

(** [json.Unmarshal(raw, &input)]. *)
Definition unmarshal_input (v : value) : option RestorePointInput :=
  match v with
  | VObj m =>
      planID ← field_string m "ProtectionPlanID"; clusterID ← field_string m "SourceClusterID";
      appID ← field_string m "AppID"; repoID ← field_string m "StorageRepoID";
      displayName ← field_string m "DisplayName"; taskCreatedAt ← field_time m "TaskCreatedAt";
      backupName ← field_string m "VeleroBackupName"; pointType ← field_string m "PointType";
      status ← field_string m "Status"; sizeBytes ← field_int64 m "SizeBytes";
      startedAt ← field_time m "StartedAt"; completedAt ← field_time m "CompletedAt";
      expiresAt ← field_time m "ExpiresAt"; namespace ← field_string m "SourceNamespace";
      selector ← field_string m "LabelSelector"; taskID ← field_string m "BackupTaskID";
      storage ← field_string m "BackupStorageName"; metadata ← field_map m "Metadata";
      metrics ← field_map m "SizeMetricsV2";
      Some {| rpi_ProtectionPlanID := planID; rpi_SourceClusterID := clusterID;
              rpi_AppID := appID; rpi_StorageRepoID := repoID; rpi_DisplayName := displayName;
              rpi_TaskCreatedAt := taskCreatedAt; rpi_VeleroBackupName := backupName;
              rpi_PointType := pointType; rpi_Status := status; rpi_SizeBytes := sizeBytes;
              rpi_StartedAt := startedAt; rpi_CompletedAt := completedAt;
              rpi_ExpiresAt := expiresAt; rpi_SourceNamespace := namespace;
              rpi_LabelSelector := selector; rpi_BackupTaskID := taskID;
              rpi_BackupStorageName := storage; rpi_Metadata := metadata;
              rpi_SizeMetricsV2 := metrics |}
  | VNull =>
      Some {| rpi_ProtectionPlanID := ""; rpi_SourceClusterID := ""; rpi_AppID := "";
              rpi_StorageRepoID := ""; rpi_DisplayName := ""; rpi_TaskCreatedAt := zero_time;
              rpi_VeleroBackupName := ""; rpi_PointType := ""; rpi_Status := "";
              rpi_SizeBytes := 0; rpi_StartedAt := zero_time; rpi_CompletedAt := zero_time;
              rpi_ExpiresAt := zero_time; rpi_SourceNamespace := ""; rpi_LabelSelector := "";
              rpi_BackupTaskID := ""; rpi_BackupStorageName := ""; rpi_Metadata := ∅;
              rpi_SizeMetricsV2 := ∅ |}
  | _ => None
  end.

Record RestorePointReplacement := {
  rep_Attempts : Z;
  rep_TaskID : string;
  rep_PointID : string;
  rep_CleanupTaskID : string;
  rep_State : string;
  rep_Input : RestorePointInput
}.

(** Lift a decoding failure of the transaction's caller into its error. *)
Definition or_fail {A} (e : error) (o : option A) : tx db A :=
  match o with Some a => mret a | None => fail e end.

(** ** Locks and reads *)

(** Locking is what makes the transaction atomic; what is left of the statement
    is that an unknown plan is sql.ErrNoRows. *)
Definition quotaPlanLock (planID : string) : tx db unit :=
  if negb (nonempty planID) then mret tt
  else query (fun d => (fun _ => tt) <$> protection_plans d !! planID).

Definition quota_point_le (x y : string * point_row) : Prop :=
  point_created (snd x) < point_created (snd y) \/
  point_created (snd x) = point_created (snd y) /\ String.le (fst x) (fst y).

#[export] Instance quota_point_le_dec : RelDecision quota_point_le.
Proof. intros x y. unfold quota_point_le. apply _. Defined.

(** The columns [quotaPoints] scans; the other fields keep their zero values. *)
Definition quota_point (id : string) (r : point_row) : RestorePoint :=
  {| rp_ID := id; rp_TenantID := ""; rp_ProtectionPlanID := ""; rp_SourceClusterID := "";
     rp_AppID := ""; rp_StorageRepoID := ""; rp_DisplayName := ""; rp_VeleroBackupName := "";
     rp_PointType := ""; rp_Status := r_status r; rp_SizeBytes := 0; rp_StartedAt := zero_time;
     rp_CompletedAt := zero_time; rp_ExpiresAt := zero_time; rp_SourceNamespace := "";
     rp_LabelSelector := ""; rp_BackupTaskID := ""; rp_BackupStorageName := "";
     rp_TaskCreatedAt := point_created r; rp_Metadata := r_metadata r;
     rp_SizeMetricsV2 := ∅; rp_CreatedAt := r_created_at r |}.

Definition of_plan (planID : string) (r : point_row) : bool :=
  sql_eq (r_protection_plan_id r) (Some planID).

Definition plan_points (planID : string) (d : db) : list RestorePoint :=
  (fun '(id, r) => quota_point id r) <$>
    merge_sort quota_point_le
      (List.filter (fun '(_, r) => of_plan planID r) (map_to_list (restore_points d))).

Definition quotaPoints (planID : string) : tx db (list RestorePoint) :=
  select (plan_points planID).

Record RetentionPolicy := {
  q_RetentionCount : Z;
  q_RetentionRules : list RetentionRule;
  q_RetentionTimezone : string
}.

Definition no_policy : RetentionPolicy :=
  {| q_RetentionCount := 0; q_RetentionRules := []; q_RetentionTimezone := "" |}.

(** The joined row, if the plan has a policy that retains. *)
Definition retention_policy_row (planID : string) (d : db) : option policy_row :=
  pp ← protection_plans d !! planID;
  policy_id ← p_policy_id pp;
  p ← policies d !! policy_id;
  if one_of (c_composition p) ["combined"; "retention"] then Some p else None.

Definition quotaPolicy (planID : string) : tx db RetentionPolicy :=
  found ← attempt (query (retention_policy_row planID));
  match found with
  | inl ErrNoRows => mret no_policy
  | inl err => fail err
  | inr p =>
      count ← or_fail ErrScan (c_retention_count p);
      mret {| q_RetentionCount := count; q_RetentionRules := c_retention_rules p;
              q_RetentionTimezone := c_retention_timezone p |}
  end.

Definition terminal_status (status : string) : bool :=
  one_of status ["succeeded"; "failed"; "canceled"; "cancelled"].

Definition uses_point (pointID : string) (r : task_row) : bool :=
  (sql_eq (t_restore_point_id r) (Some pointID) ||
   sql_eq (json_text (t_payload r) "restorePointId") (Some pointID)) &&
  one_of (t_type r) ["drill"; "restore"; "takeover"] &&
  is_null (t_completed_at r) && negb (terminal_status (t_status r)).

Definition replaces_point (pointID : string) (v : reservation_row) : bool :=
  sql_eq (v_replacement_point_id v) (Some pointID) && active_reservation v.

Definition point_busy (pointID : string) (d : db) : bool :=
  exists_where (fun _ => uses_point pointID) (tasks d) ||
  exists_where (fun _ => replaces_point pointID) (reservations d).

Definition pointBusy (pointID : string) : tx db bool := select (point_busy pointID).

Definition metadata_protected (metadata : document) : bool :=
  as_bool (get metadata "manualRetained") || as_bool (get metadata "drillRetained").

Definition pointProtected (point : RestorePoint) : bool := metadata_protected (rp_Metadata point).

(** ** Cleaning up a whole plan *)

Definition plan_busy (planID : string) (d : db) : bool :=
  exists_where (fun _ r =>
    (sql_eq (t_protection_plan_id r) (Some planID) ||
     exists_where (fun id p => sql_eq (t_restore_point_id r) (Some id) && of_plan planID p)
       (restore_points d) ||
     exists_where (fun id p => sql_eq (json_text (t_payload r) "restorePointId") (Some id) &&
       of_plan planID p) (restore_points d)) &&
    negb (terminal_status (t_status r))) (tasks d) ||
  exists_where (fun _ v => (v_protection_plan_id v =s planID) && active_reservation v)
    (reservations d).

Definition BeginProtectionPlanCleanup (now : time) (planID : string) : tx db unit :=
  begin_tx;;
  quotaPlanLock planID;;
  status ← query (fun d => p_status <$> protection_plans d !! planID);
  if one_of status ["cleanup_running"; "cleaning"] then fail ErrProtectionPlanBusy
  else
    busy ← select (plan_busy planID);
    if busy : bool then fail ErrProtectionPlanBusy
    else
      exec (update_points
        (fun _ r => of_plan planID r && (r_status r <>s "deleted"))
        (fun _ r => point_with_metadata r
           (<["retentionState" := VStr "pending_delete"]> (r_metadata r))));;
      exec (update_plans (fun id _ => id =s planID)
        (fun _ p => plan_with_status p "cleanup_running" (pg_time now)));;
      exec (update_schedules (fun id _ => id =s planID)
        (fun _ s => {| s_last_fired_at := s_last_fired_at s;
                       s_next_fire_at := s_next_fire_at s; s_enabled := false;
                       s_created_at := s_created_at s; s_updated_at := pg_time now |}));;
      commit;; mret tt.

(** ** Deleting a point *)

Section location.
Context (LoadLocation : string -> option location).

(** [json.Unmarshal] of one target. *)
Definition target_id (v : value) : option string :=
  match jsonify v with
  | VNull => Some ""
  | VObj m => decode_field decode_string m "id" ""
  | _ => None
  end.

Definition deletion_targets (payload : document) : option (list string) :=
  match jsonify (get payload "restorePoints") with
  | VNull => Some []
  | VList l => mapM target_id l
  | _ => None
  end.

Definition selections_of (points : list RestorePoint) (policy : RetentionPolicy) (now : time)
    : tx db selections :=
  match RetentionSelections LoadLocation points (q_RetentionRules policy)
          (q_RetentionTimezone policy) now with
  | inl err => fail (ErrRetention err)
  | inr selected => mret selected
  end.

Definition selected_point (selected : selections) (id : string) : bool :=
  match default [] (selected !! id) with [] => false | _ => true end.

(** A point that a backup is replacing is deleted by that backup's cleanup only,
    once its result is stored: the reservation is then deleting. *)
Definition lock_replaced (task : Task) (target owner : string) : tx db unit :=
  state ← query (fun d =>
    v ← reservations d !! owner;
    if sql_eq (v_replacement_point_id v) (Some target) then Some (v_state v) else None);
  if (task_Type task <>s "retention-cleanup") ||
     negb (one_of state ["data_ready"; "deleting"])
  then fail ErrRestorePointLocked
  else
    exec (fun d =>
      if fk (Some (task_ID task)) (tasks d) then
        update_reservations (fun id _ => id =s owner)
          (fun _ v =>
             {| v_protection_plan_id := v_protection_plan_id v;
                v_replacement_point_id := v_replacement_point_id v;
                v_state := "deleting"; v_pending_point := v_pending_point v;
                v_cleanup_task_id := Some (task_ID task);
                v_cleanup_attempts := v_cleanup_attempts v + 1;
                v_created_at := v_created_at v |}) d
      else None);; mret tt.

Definition prepare_target (task : Task) (now : time) (target : string) : tx db unit :=
  row ← query (fun d =>
    r ← restore_points d !! target;
    if r_tenant_id r =s task_TenantID task then Some r else None);
  let planID := text (r_protection_plan_id row) in
  let status := r_status row in
  let metadata := r_metadata row in
  quotaPlanLock planID;;
  if status =s "deleted" then mret tt
  else
    fullCleanup ←
      (if (task_Type task =s "protection-cleanup") && (task_ProtectionPlanID task =s planID)
       then query (fun d =>
         (fun p => p_status p =s "cleanup_running") <$> protection_plans d !! planID)
       else mret false);
    if negb fullCleanup && metadata_protected metadata then fail ErrRestorePointLocked
    else
      let owner := stringFromMap metadata "replacementTaskId" in
      (if nonempty owner && negb fullCleanup then
         lock_replaced task target owner
       else
         busy ← pointBusy target;
         if busy : bool then fail ErrRestorePointLocked else mret tt);;
      (if negb fullCleanup &&
          (negb (as_bool (get (task_Payload task) "manualDelete")) ||
           match get metadata "replacementTaskId" with VNull => false | _ => true end)
       then
         policy ← quotaPolicy planID;
         if nonempty (q_RetentionTimezone policy) then
           points ← quotaPoints planID;
           selected ← selections_of points policy now;
           if selected_point selected target then fail ErrRestorePointLocked else mret tt
         else mret tt
       else mret tt);;
      exec (update_points (fun id _ => id =s target)
        (fun _ r => point_with_metadata r
           (<["retentionState" := VStr "deleting"]>
             (<["retentionCleanupTask" := VStr (task_ID task)]> (r_metadata r)))));;
      mret tt.

Definition prepareRestorePointDeletion (task : Task) (now : time) : tx db unit :=
  if negb (one_of (task_Type task) ["retention-cleanup"; "protection-cleanup"]) then mret tt
  else if one_of (stringFromMap (task_Payload task) "cleanupMode") ["drill"; "target"] then mret tt
  else
    targets ← or_fail ErrUnmarshal (deletion_targets (task_Payload task));
    for_each targets (prepare_target task now).

(** ** Reserving a slot for a backup *)

Definition failed_status (status : string) : bool :=
  one_of status ["failed"; "canceled"; "cancelled"].

(** The reservations the [with released] clause releases. *)
Definition releasable (planID : string) (d : db) (task_id : string) (v : reservation_row) : bool :=
  (v_protection_plan_id v =s planID) && (v_state v =s "reserved") &&
  match tasks d !! task_id with Some t => failed_status (t_status t) | None => false end.

Definition release_failed (planID : string) (d : db) : option (db * Z) :=
  both
    (update_points
       (fun id r => exists_where (fun task_id v => releasable planID d task_id v &&
          sql_eq (v_replacement_point_id v) (Some id) &&
          sql_eq (json_text (r_metadata r) "replacementTaskId") (Some task_id)) (reservations d))
       (fun _ r => point_with_metadata r (delete "replacementTaskId" (r_metadata r))))
    (update_reservations (releasable planID d)
       (fun _ v => reservation_with_state v "released")) d.

Definition releaseFailedBackupReservations_tx (planID : string) : tx db unit :=
  exec (release_failed planID);; mret tt.

(** Slots already spoken for, besides the live points: active reservations that
    replace nothing, or whose replaced point is already deleted. *)
Definition reserves_slot (planID : string) (d : db) (v : reservation_row) : bool :=
  (v_protection_plan_id v =s planID) && active_reservation v &&
  match v_replacement_point_id v with
  | None => true
  | Some id => match restore_points d !! id with
               | Some r => r_status r =s "deleted"
               | None => false
               end
  end.

Definition reserved_slots (planID : string) (d : db) : Z :=
  count_where (fun _ => reserves_slot planID d) (reservations d).

Definition occupied_slots (points : list RestorePoint) : Z :=
  count (fun point => rp_Status point <>s "deleted") points.

Definition quota_detail (used count : Z) : string :=
  " (" +:+ sprint_num used +:+ "/" +:+ sprint_num count +:+ " slots occupied)".

(** The point passes every [continue] of the search for a replacement. *)
Definition replaceable (selected : selections) (point : RestorePoint) : bool :=
  (rp_Status point =s "available") && negb (pointProtected point) &&
  negb (selected_point selected (rp_ID point)) &&
  negb (one_of (stringFromMap (rp_Metadata point) "retentionState")
          ["pending_delete"; "deleting"]).

Definition choose_replacement (points : list RestorePoint) (selected : selections)
    : tx db (option RestorePoint) :=
  search (fun point =>
    if replaceable selected point then
      busy ← pointBusy (rp_ID point); mret (negb busy)
    else mret false) points.

(** The replacement a full plan needs; none while a slot is free. *)
Definition pick_replacement (policy : RetentionPolicy) (points : list RestorePoint)
    (selected : selections) (used : Z) : tx db (option string) :=
  if q_RetentionCount policy <=? used then
    found ← choose_replacement points selected;
    match found with
    | None => fail (ErrRestorePointQuota (quota_detail used (q_RetentionCount policy)))
    | Some point => mret (Some (rp_ID point))
    end
  else mret None.

Definition new_reservation (task : Task) (now : time) (replacement : option string)
    : reservation_row :=
  {| v_protection_plan_id := task_ProtectionPlanID task; v_replacement_point_id := replacement;
     v_state := "reserved"; v_pending_point := None; v_cleanup_task_id := None;
     v_cleanup_attempts := 0; v_created_at := pg_time now |}.

Definition insert_slot (task : Task) (now : time) (replacement : option string) : tx db unit :=
  exec (insert_reservation (task_ID task) (new_reservation task now replacement));;
  match replacement with
  | None => mret tt
  | Some id =>
      exec (update_points (fun k _ => k =s id)
        (fun _ r => point_with_metadata r
           (<["replacementTaskId" := VStr (task_ID task)]> (r_metadata r))));; mret tt
  end.

Definition reserveBackupQuota (task : Task) (now : time) : tx db unit :=
  if (task_Type task <>s "backup") || negb (nonempty (task_ProtectionPlanID task)) then mret tt
  else
    let planID := task_ProtectionPlanID task in
    releaseFailedBackupReservations_tx planID;;
    policy ← quotaPolicy planID;
    if q_RetentionCount policy <=? 0 then mret tt
    else
      points ← quotaPoints planID;
      selected ← selections_of points policy now;
      let occupied := occupied_slots points in
      reserved ← select (reserved_slots planID);
      if q_RetentionCount policy <? occupied + reserved then
        fail (ErrRestorePointQuota (quota_detail (occupied + reserved) (q_RetentionCount policy)))
      else
        replacement ← pick_replacement policy points selected (occupied + reserved);
        insert_slot task now replacement.

End location.

(** ** The repository operations *)

Definition failed_reservation_plans (d : db) : list string :=
  merge_sort String.le (remove_dups
    (fmap (fun '(_, v) => v_protection_plan_id v)
      (List.filter (fun '(task_id, v) => (v_state v =s "reserved") &&
         match tasks d !! task_id with Some t => failed_status (t_status t) | None => false end)
        (map_to_list (reservations d))))).

Definition releaseFailedBackupReservations : tx db unit :=
  plans ← select failed_reservation_plans;
  for_each plans (fun planID =>
    begin_tx;;
    released ← attempt (quotaPlanLock planID;; releaseFailedBackupReservations_tx planID);
    match released with
    | inl err => rollback;; fail err
    | inr _ => commit
    end).

Definition SetRestorePointRetention (id tenantID : string) (retain : bool) : tx db unit :=
  begin_tx;;
  planID ← query (fun d =>
    r ← restore_points d !! id;
    if (r_tenant_id r =s tenantID) && (r_status r =s "available")
    then Some (text (r_protection_plan_id r)) else None);
  quotaPlanLock planID;;
  busy ← pointBusy id;
  if busy : bool then fail ErrRestorePointLocked
  else
    affected ← exec (update_points
      (fun k r => (k =s id) && (r_tenant_id r =s tenantID) && (r_status r =s "available") &&
         negb (one_of (text (json_text (r_metadata r) "retentionState"))
                 ["deleting"; "pending_delete"]))
      (fun _ r => point_with_metadata r (<["manualRetained" := VBool retain]> (r_metadata r))));
    if negb (affected =? 1) then fail ErrRestorePointLocked
    else commit;; mret tt.

(** The [where] clause of the claim. *)
Definition claimable (r : point_row) : bool :=
  (r_status r =s "available") &&
  negb (is_true_text (json_text (r_metadata r) "manualRetained")) &&
  negb (is_true_text (json_text (r_metadata r) "drillRetained")) &&
  negb (one_of (text (json_text (r_metadata r) "retentionState")) ["pending_delete"; "deleting"]).

Definition claim_point (id : string) : tx db unit :=
  planID ← query (fun d => text ∘ r_protection_plan_id <$> restore_points d !! id);
  quotaPlanLock planID;;
  busy ← pointBusy id;
  if busy : bool then fail ErrRestorePointLocked
  else
    n ← exec (update_points (fun k r => (k =s id) && claimable r)
      (fun _ r => point_with_metadata r
         (<["retentionState" := VStr "pending_delete"]> (r_metadata r))));
    if negb (n =? 1) then fail ErrRestorePointLocked else mret tt.

Definition ClaimRestorePointDeletion (ids : list string) : tx db unit :=
  begin_tx;; for_each ids claim_point;; commit;; mret tt.

(** Reservations whose point is still to be published, or whose task is still to
    be finished. *)
Definition pending_replacement (d : db) (task_id : string) (v : reservation_row) : bool :=
  match v_pending_point v, tasks d !! task_id with
  | Some _, Some t =>
      one_of (v_state v) ["data_ready"; "deleting"] ||
      (v_state v =s "published") && is_null (t_completed_at t)
  | _, _ => false
  end.

Definition reservation_le (x y : string * reservation_row) : Prop :=
  v_created_at (snd x) <= v_created_at (snd y).

#[export] Instance reservation_le_dec : RelDecision reservation_le.
Proof. intros x y. unfold reservation_le. apply _. Defined.

Definition replacement_item (x : string * reservation_row) : option RestorePointReplacement :=
  let '(task_id, v) := x in
  input ← v_pending_point v ≫= unmarshal_input;
  Some {| rep_Attempts := v_cleanup_attempts v; rep_TaskID := task_id;
          rep_PointID := text (v_replacement_point_id v);
          rep_CleanupTaskID := text (v_cleanup_task_id v);
          rep_State := v_state v; rep_Input := input |}.

Definition PendingRestorePointReplacements : tx db (list RestorePointReplacement) :=
  releaseFailedBackupReservations;;
  rows ← select (fun d => merge_sort reservation_le
    (List.filter (fun '(id, v) => pending_replacement d id v) (map_to_list (reservations d))));
  or_fail ErrUnmarshal (mapM replacement_item rows).

Definition BeginRestorePointReplacement (taskID cleanupID : string) : tx db unit :=
  exec (fun d =>
    if exists_where (fun id v => (id =s taskID) && one_of (v_state v) ["data_ready"; "deleting"])
         (reservations d) && negb (fk (Some cleanupID) (tasks d))
    then None
    else update_reservations
      (fun id v => (id =s taskID) && one_of (v_state v) ["data_ready"; "deleting"])
      (fun _ v =>
         {| v_protection_plan_id := v_protection_plan_id v;
            v_replacement_point_id := v_replacement_point_id v; v_state := "deleting";
            v_pending_point := v_pending_point v; v_cleanup_task_id := Some cleanupID;
            v_cleanup_attempts := v_cleanup_attempts v; v_created_at := v_created_at v |}) d);;
  commit.

(** ** Slots *)

Definition live_point (planID : string) (r : point_row) : bool :=
  of_plan planID r && (r_status r <>s "deleted").

Definition live_points (planID : string) (d : db) : Z :=
  count_where (fun _ => live_point planID) (restore_points d).

(** What the plan's retention count bounds: live points plus reserved slots. *)
Definition slots_used (planID : string) (d : db) : Z :=
  live_points planID d + reserved_slots planID d.

Lemma occupied_live planID d : occupied_slots (plan_points planID d) = live_points planID d.
Proof.
  unfold occupied_slots, plan_points, live_points, count_where.
  rewrite count_fmap. rewrite (merge_sort_Permutation quota_point_le). rewrite count_filter.
  apply count_ext. intros [id r] _. done.
Qed.

Lemma plan_points_in planID d p :
  p ∈ plan_points planID d <->
  exists r, restore_points d !! rp_ID p = Some r /\ of_plan planID r = true /\
            p = quota_point (rp_ID p) r.
Proof.
  unfold plan_points. rewrite list_elem_of_fmap. split.
  - intros ([id r] & -> & Hin). exists r. simpl.
    rewrite (merge_sort_Permutation quota_point_le) in Hin.
    apply list_elem_of_In, List.filter_In in Hin as [Hin Hp].
    apply list_elem_of_In, elem_of_map_to_list in Hin. done.
  - intros (r & Hr & Hp & Heq). exists (rp_ID p, r). split; [done|].
    rewrite (merge_sort_Permutation quota_point_le).
    apply list_elem_of_In, List.filter_In. split; [|done].
    by apply list_elem_of_In, elem_of_map_to_list.
Qed.

Lemma plan_points_NoDup planID d : NoDup (rp_ID <$> plan_points planID d).
Proof.
  unfold plan_points. rewrite <- list_fmap_compose.
  rewrite (merge_sort_Permutation quota_point_le).
  rewrite (list_fmap_ext _ fst) by (by intros ? []).
  pose proof (NoDup_fst_map_to_list (restore_points d)) as Hnd.
  induction (map_to_list (restore_points d)) as [|[k r] l IH]; [constructor|].
  rewrite fmap_cons in Hnd. apply NoDup_cons in Hnd as [Hk Hnd]. simpl.
  destruct (of_plan planID r); [|by apply IH]. rewrite fmap_cons. constructor; [|by apply IH].
  intros Hin. apply Hk. apply list_elem_of_fmap in Hin as ([k' r'] & Heq & Hin). simpl in Heq.
  subst k'. apply list_elem_of_fmap. exists (k, r'). split; [done|].
  apply list_elem_of_In. apply list_elem_of_In, List.filter_In in Hin. tauto.
Qed.

(** *** Statements that change neither the plan nor the status of any point *)

Definition point_standing (r : point_row) : option string * string :=
  (r_protection_plan_id r, r_status r).

Definition same_standing (d d' : db) : Prop :=
  forall id, point_standing <$> restore_points d !! id = point_standing <$> restore_points d' !! id.

#[export] Instance same_standing_equiv : Equivalence same_standing.
Proof.
  split; unfold same_standing; [done|by intros x y H id|].
  intros x y z H H' id. by rewrite H.
Qed.

Lemma standing_live planID r r' :
  point_standing r = point_standing r' -> live_point planID r = live_point planID r'.
Proof. unfold point_standing, live_point, of_plan. by intros [= -> ->]. Qed.

Lemma live_points_same planID d d' : same_standing d d' -> live_points planID d = live_points planID d'.
Proof.
  intros H. apply count_where_ext. intros id. specialize (H id).
  destruct (restore_points d !! id), (restore_points d' !! id); simpl in *; try done.
  injection H as H H'. f_equal. apply standing_live. unfold point_standing. congruence.
Qed.

Lemma reserves_slot_same planID d d' v :
  same_standing d d' -> reserves_slot planID d v = reserves_slot planID d' v.
Proof.
  intros H. unfold reserves_slot. f_equal. destruct (v_replacement_point_id v) as [id|]; [|done].
  specialize (H id).
  destruct (restore_points d !! id), (restore_points d' !! id); simpl in *; try done.
  unfold point_standing in H. by injection H as _ ->.
Qed.

Lemma reserved_slots_same planID d d' :
  same_standing d d' -> reservations d = reservations d' ->
  reserved_slots planID d = reserved_slots planID d'.
Proof.
  intros H Hv. unfold reserved_slots. rewrite Hv. apply count_where_ext. intros id.
  destruct (reservations d' !! id); [|done]. simpl. f_equal. by apply reserves_slot_same.
Qed.

Lemma slots_used_same planID d d' :
  same_standing d d' -> reservations d = reservations d' ->
  slots_used planID d = slots_used planID d'.
Proof.
  intros H Hv. unfold slots_used.
  by rewrite (live_points_same planID d d'), (reserved_slots_same planID d d').
Qed.

(** Updates of the metadata column keep every other table and every standing. *)
Lemma update_metadata p g d d' n :
  update_points p (fun k r => point_with_metadata r (g k r)) d = Some (d', n) ->
  same_standing d d' /\ tasks d' = tasks d /\ reservations d' = reservations d /\
  protection_plans d' = protection_plans d /\ policies d' = policies d.
Proof.
  unfold update_points. intros [= <- <-]. split; [|done]. intros id. simpl.
  rewrite map_lookup_imap. destruct (restore_points d !! id) as [r|]; [|done]. simpl.
  by destruct (p id r).
Qed.

Lemma insert_reservation_inv id v d d' n :
  insert_reservation id v d = Some (d', n) ->
  d' = set_reservations d (<[id := v]> (reservations d)) /\
  reservations d !! id = None /\ is_Some (tasks d !! id) /\
  exists_where (fun _ v' => active_reservation v && active_reservation v' &&
    sql_eq (v_replacement_point_id v) (v_replacement_point_id v')) (reservations d) = false.
Proof.
  unfold insert_reservation. destruct (_ || _) eqn:E; [done|]. intros [= <- _].
  rewrite !orb_false_iff in E. destruct E as [[[[E1 E2] _] _] E3].
  split; [done|]. split; [|split; [|done]].
  - apply bool_decide_eq_false in E1. by apply eq_None_not_Some.
  - apply negb_false_iff, bool_decide_eq_true in E2. done.
Qed.

Lemma release_failed_inv planID d d' n :
  release_failed planID d = Some (d', n) ->
  same_standing d d' /\ tasks d' = tasks d /\ protection_plans d' = protection_plans d /\
  policies d' = policies d /\
  reservations d' = fst (update_where (releasable planID d)
    (fun _ v => reservation_with_state v "released") (reservations d)).
Proof.
  unfold release_failed, both. destruct (update_points _ _ d) as [[d1 n1]|] eqn:E; [|done].
  apply (update_metadata _ (fun _ r => delete "replacementTaskId" (r_metadata r)))
    in E as (Hs & Ht & Hv & Hp & Hc).
  unfold update_reservations. intros [= <- <-]. simpl. by rewrite Ht, Hp, Hc, Hv.
Qed.

Lemma choose_replacement_inr points selected s s' found :
  choose_replacement points selected s = (s', inr found) ->
  working s' = working s /\ committed s' = committed s /\
  match found with
  | Some p => p ∈ points /\ replaceable selected p = true /\
              point_busy (rp_ID p) (working s) = false
  | None => forall p, p ∈ points -> replaceable selected p = true ->
              point_busy (rp_ID p) (working s) = true
  end.
Proof.
  unfold choose_replacement. revert s. induction points as [|p points IH]; simpl; intros s H.
  { tx_inv. split; [done|]. split; [done|]. intros p Hp. inversion Hp. }
  apply bind_inr in H as (b & s1 & Hb & H).
  assert (Hstep : working s1 = working s /\ committed s1 = committed s /\
    b = (replaceable selected p && negb (point_busy (rp_ID p) (working s)))).
  { destruct (replaceable selected p); tx_inv; [|done].
    unfold pointBusy in *. tx_inv. subst. split_and!; congruence || done. }
  destruct Hstep as (Hw & Hc & Hbb). destruct b.
  - tx_inv. subst. split; [done|]. split; [done|]. symmetry in Hbb.
    apply andb_true_iff in Hbb as [Hr Hbusy]. apply negb_true_iff in Hbusy.
    split; [left|]. split; [done|congruence].
  - apply IH in H as (Hw' & Hc' & H). split; [congruence|]. split; [congruence|].
    rewrite Hw in H. destruct found as [q|].
    + destruct H as (Hq & ? & ?). split; [by right|done].
    + intros q [->|Hq]%elem_of_cons Hr; [|by apply H].
      rewrite Hr in Hbb. simpl in Hbb. symmetry in Hbb. by apply negb_false_iff in Hbb.
Qed.

Lemma quotaPolicy_inr planID s s' policy :
  quotaPolicy planID s = (s', inr policy) ->
  working s' = working s /\ committed s' = committed s /\
  match retention_policy_row planID (working s) with
  | Some p => c_retention_count p = Some (q_RetentionCount policy) /\
              q_RetentionRules policy = c_retention_rules p /\
              q_RetentionTimezone policy = c_retention_timezone p
  | None => policy = no_policy
  end.
Proof.
  unfold quotaPolicy. intros H. apply bind_inr in H as (r & s1 & Hr & H). tx_inv.
  unfold query in Hr. destruct (burn s) as [s2|] eqn:E.
  - apply burn_Some in E as [Hc Hw]. rewrite Hw in Hr.
    destruct (retention_policy_row planID (working s)) as [p|]; injection Hr as <- <-.
    + unfold or_fail in H. destruct (c_retention_count p) eqn:Ec; tx_inv. done.
    + tx_inv. done.
  - injection Hr as <- <-. tx_inv.
Qed.

Lemma selections_of_inr LL points policy now s s' selected :
  selections_of LL points policy now s = (s', inr selected) ->
  s' = s /\
  RetentionSelections LL points (q_RetentionRules policy) (q_RetentionTimezone policy) now
    = inr selected.
Proof. unfold selections_of. destruct (RetentionSelections _ _ _ _ _); intros H; tx_inv; done. Qed.

Lemma reserved_slots_insert planID d id v :
  reservations d !! id = None ->
  reserved_slots planID (set_reservations d (<[id := v]> (reservations d))) =
  (if reserves_slot planID d v then 1 else 0) + reserved_slots planID d.
Proof. intros H. unfold reserved_slots. simpl. by rewrite count_where_insert. Qed.

(** *** What a successful reservation did *)

Lemma pick_replacement_inr policy points selected used s s' replacement :
  pick_replacement policy points selected used s = (s', inr replacement) ->
  working s' = working s /\ committed s' = committed s /\
  match replacement with
  | Some id => exists p, p ∈ points /\ rp_ID p = id /\ replaceable selected p = true /\
                 point_busy id (working s) = false
  | None => used < q_RetentionCount policy
  end.
Proof.
  unfold pick_replacement. destruct (_ <=? _) eqn:E; go_bool; intros H; [|by tx_inv].
  apply bind_inr in H as (found & s1 & Hc & H).
  apply choose_replacement_inr in Hc as (Hw & Hcm & Hfound).
  destruct found as [p|]; tx_inv. destruct Hfound as (Hp & Hr & Hb).
  split; [done|]. split; [done|]. by exists p.
Qed.

Lemma insert_slot_inr task now replacement s s' u :
  insert_slot task now replacement s = (s', inr u) ->
  same_standing (working s) (working s') /\ tasks (working s') = tasks (working s) /\
  reservations (working s) !! task_ID task = None /\
  exists_where (fun _ v' => active_reservation v' && sql_eq replacement (v_replacement_point_id v'))
    (reservations (working s)) = false /\
  reservations (working s') =
    <[task_ID task := new_reservation task now replacement]> (reservations (working s)).
Proof.
  intros H. apply bind_inr in H as (n & s1 & Hi & H). tx_inv.
  rename select (insert_reservation _ _ _ = _) into Hi.
  apply insert_reservation_inv in Hi as (Hw & Hnone & _ & Hclash).
  assert (Hs1 : same_standing (working s) (working s1)) by (by rewrite Hw).
  destruct replacement as [id|]; tx_inv.
  - rename select (update_points _ _ _ = _) into Hu.
    apply (update_metadata _ (fun _ r => <["replacementTaskId" := VStr (task_ID task)]>
      (r_metadata r))) in Hu as (Hs & Ht & Hv & _).
    rewrite Ht, Hv, Hw. split_and!; try done. by etrans.
  - rewrite Hw. done.
Qed.

Lemma release_tx_inr planID s s' u :
  releaseFailedBackupReservations_tx planID s = (s', inr u) ->
  exists n, release_failed planID (working s) = Some (working s', n).
Proof. unfold releaseFailedBackupReservations_tx. intros H. tx_inv. eauto. Qed.

Section reservation.
Context (LoadLocation : string -> option location) (task : Task) (now : time).
Let plan := task_ProtectionPlanID task.

(** The plan's policy, as a reservation sees it. *)
Definition counted_policy (d : db) (p : policy_row) (count : Z) : Prop :=
  retention_policy_row plan d = Some p /\ c_retention_count p = Some count /\ 0 < count.

(** The retention rules' selections in [d]. *)
Definition selections_in (d : db) (p : policy_row) (selected : selections) : Prop :=
  RetentionSelections LoadLocation (plan_points plan d) (c_retention_rules p)
    (c_retention_timezone p) now = inr selected.

(** A point a new backup may overwrite, in [d]. *)
Definition expendable (d : db) (selected : selections) (id : string) : Prop :=
  exists r, restore_points d !! id = Some r /\ of_plan plan r = true /\
    r_status r = "available" /\
    metadata_protected (r_metadata r) = false /\
    selected_point selected id = false /\
    stringFromMap (r_metadata r) "retentionState" ∉ ["pending_delete"; "deleting"] /\
    point_busy id d = false.

Lemma expendable_of d selected p :
  p ∈ plan_points plan d -> replaceable selected p = true ->
  point_busy (rp_ID p) d = false -> expendable d selected (rp_ID p).
Proof.
  intros (r & Hr & Hplan & Hp)%plan_points_in Hrep Hbusy. exists r.
  unfold replaceable, pointProtected in Hrep. rewrite Hp in Hrep. simpl in Hrep.
  rewrite !andb_true_iff, !negb_true_iff in Hrep.
  destruct Hrep as [[[Hst Hprot] Hsel] Hstate].
  split_and!; try done; by go_bool.
Qed.

Lemma release_failed_policy d d1 n :
  release_failed plan d = Some (d1, n) ->
  retention_policy_row plan d1 = retention_policy_row plan d.
Proof.
  intros (_ & _ & Hp & Hc & _)%release_failed_inv. unfold retention_policy_row.
  by rewrite Hp, Hc.
Qed.

Lemma reserveBackupQuota_inr s s' u p count :
  task_Type task = "backup" -> plan <> "" ->
  counted_policy (working s) p count ->
  reserveBackupQuota LoadLocation task now s = (s', inr u) ->
  exists d1 n1 selected replacement,
    release_failed plan (working s) = Some (d1, n1) /\
    selections_in d1 p selected /\
    slots_used plan d1 <= count /\
    match replacement with
    | None => slots_used plan d1 < count
    | Some id => expendable d1 selected id
    end /\
    same_standing d1 (working s') /\ tasks (working s') = tasks d1 /\
    reservations d1 !! task_ID task = None /\
    reservations (working s') =
      <[task_ID task := new_reservation task now replacement]> (reservations d1).
Proof.
  intros Htype Hplan (Hrow & Hcount & Hpos) H. unfold reserveBackupQuota in H.
  fold plan in H. rewrite Htype, seqb_refl, (proj2 (nonempty_true plan) Hplan) in H.
  cbn [negb orb] in H.
  apply bind_inr in H as (u1 & s1 & Hrel & H).
  apply release_tx_inr in Hrel as [n1 Hrel].
  apply bind_inr in H as (policy & s2 & Hpolicy & H).
  apply quotaPolicy_inr in Hpolicy as (Hw2 & _ & Hpolicy).
  rewrite (release_failed_policy _ _ _ Hrel), Hrow in Hpolicy.
  destruct Hpolicy as (Hc & Hrules & Hzone). rewrite Hcount in Hc. injection Hc as Hc.
  rewrite <- Hc in H. rewrite (proj2 (Z.leb_gt count 0) Hpos) in H.
  apply bind_inr in H as (points & s3 & Hpoints & H).
  apply select_inr in Hpoints as (_ & Hw3 & Hpoints).
  apply bind_inr in H as (selected & s4 & Hsel & H).
  apply selections_of_inr in Hsel as [-> Hsel].
  apply bind_inr in H as (reserved & s5 & Hres & H).
  apply select_inr in Hres as (_ & Hw5 & Hres).
  destruct (count <? _) eqn:Hover; [by tx_inv|]. go_bool.
  apply bind_inr in H as (replacement & s6 & Hpick & H).
  apply pick_replacement_inr in Hpick as (Hw6 & _ & Hpick).
  apply insert_slot_inr in H as (Hstand & Htasks & Hnone & _ & Hrows).
  rewrite Hw6, Hw5 in *. rewrite Hw3, Hw2 in *. subst points reserved.
  rewrite occupied_live in *.
  exists (working s1), n1, selected, replacement. fold (slots_used plan (working s1)) in *.
  split; [exact Hrel|]. split; [|split; [exact Hover|split; [|done]]].
  - unfold selections_in. by rewrite <- Hrules, <- Hzone.
  - destruct replacement as [id|]; [|by rewrite <- Hc in Hpick].
    destruct Hpick as (q & Hq & <- & Hr & Hb). by apply expendable_of.
Qed.

Lemma slots_after_insert d1 d' replacement :
  same_standing d1 d' -> reservations d1 !! task_ID task = None ->
  reservations d' = <[task_ID task := new_reservation task now replacement]> (reservations d1) ->
  slots_used plan d' =
  slots_used plan d1 +
    (if reserves_slot plan d1 (new_reservation task now replacement) then 1 else 0).
Proof.
  intros Hs Hnone Hrows. unfold slots_used.
  rewrite <- (live_points_same plan d1 d') by done.
  rewrite <- (reserved_slots_same plan
    (set_reservations d1 (<[task_ID task := new_reservation task now replacement]>
       (reservations d1))) d') by done.
  rewrite reserved_slots_insert by done. lia.
Qed.

Lemma reserves_slot_replacement d selected id :
  expendable d selected id -> reserves_slot plan d (new_reservation task now (Some id)) = false.
Proof.
  intros (r & Hr & _ & Hst & _). unfold reserves_slot. simpl. rewrite Hr, Hst.
  by rewrite andb_false_r.
Qed.

(** A reservation keeps the plan within its count. *)
Lemma slots_after_reservation s p count :
  task_Type task = "backup" -> plan <> "" -> counted_policy (working s) p count ->
  outcome (reserveBackupQuota LoadLocation task now) s = inr tt ->
  let d := leaves (reserveBackupQuota LoadLocation task now) s in
  slots_used plan d <= count /\
  exists v, reservations d !! task_ID task = Some v /\ v_state v = "reserved" /\
            v_protection_plan_id v = plan.
Proof.
  intros Htype Hplan Hpol Hok%outcome_inr d.
  destruct (reserveBackupQuota_inr s _ tt p count Htype Hplan Hpol Hok)
    as (d1 & n1 & selected & replacement & _ & _ & Hle & Hrep & Hs & _ & Hnone & Hrows).
  fold (leaves (reserveBackupQuota LoadLocation task now) s) in *. fold d in Hs, Hrows.
  split.
  - rewrite (slots_after_insert d1 d replacement) by done.
    destruct replacement as [id|].
    + rewrite (reserves_slot_replacement d1 selected id) by done. lia.
    + destruct (reserves_slot _ _ _); lia.
  - exists (new_reservation task now replacement). rewrite Hrows. by rewrite lookup_insert_eq.
Qed.

(** C21.  The point such a reservation replaces was expendable when the
    reservation was made (after the reservations of failed tasks were released):
    available, of the plan, neither manually nor drill retained, kept by no
    retention rule, not being deleted, used by no running recovery task and
    replaced by no other active reservation. *)
Theorem replaced_point_was_expendable s p count v id :
  task_Type task = "backup" -> plan <> "" -> counted_policy (working s) p count ->
  outcome (reserveBackupQuota LoadLocation task now) s = inr tt ->
  reservations (leaves (reserveBackupQuota LoadLocation task now) s) !! task_ID task = Some v ->
  v_replacement_point_id v = Some id ->
  exists d n selected,
    release_failed plan (working s) = Some (d, n) /\ selections_in d p selected /\
    expendable d selected id.
Proof.
  intros Htype Hplan Hpol Hok%outcome_inr Hv Hid.
  destruct (reserveBackupQuota_inr s _ tt p count Htype Hplan Hpol Hok)
    as (d1 & n1 & selected & replacement & Hrel & Hsel & _ & Hrep & _ & _ & _ & Hrows).
  unfold leaves in Hv. rewrite Hrows, lookup_insert_eq in Hv. injection Hv as <-.
  simpl in Hid. subst replacement. by exists d1, n1, selected.
Qed.

(** *** When the quota refuses *)

Lemma choose_replacement_inl points selected s s' e :
  choose_replacement points selected s = (s', inl e) -> e = ErrDriver.
Proof.
  unfold choose_replacement. revert s. induction points as [|q points IH]; simpl; intros s H; [done|].
  apply bind_inl in H as [H|([|] & s1 & _ & H)]; [|done|by eapply IH].
  destruct (replaceable selected q); [|done].
  apply bind_inl in H as [H|(b & s1 & _ & H)]; [by eapply select_inl|done].
Qed.

Lemma pick_replacement_quota policy points selected used s s' detail :
  pick_replacement policy points selected used s = (s', inl (ErrRestorePointQuota detail)) ->
  q_RetentionCount policy <= used /\
  forall p, p ∈ points -> replaceable selected p = true -> point_busy (rp_ID p) (working s) = true.
Proof.
  unfold pick_replacement. destruct (_ <=? _) eqn:E; [|done]. go_bool. intros H.
  apply bind_inl in H as [H|(found & s1 & Hc & H)]; [by apply choose_replacement_inl in H|].
  apply choose_replacement_inr in Hc as (_ & _ & Hfound). by destruct found.
Qed.

Lemma quotaPolicy_inl planID s s' e :
  quotaPolicy planID s = (s', inl e) -> e = ErrDriver \/ e = ErrScan.
Proof.
  unfold quotaPolicy. intros H. apply bind_inl in H as [H|(r & s1 & Hr & H)].
  { unfold attempt in H. by destruct (query _ _). }
  apply attempt_inr in Hr. destruct r as [err|p0].
  - apply query_inl in Hr as [->| ->]; [injection H as <- <-; by left|done].
  - apply bind_inl in H as [H|(c & s2 & _ & H)]; [|done].
    unfold or_fail in H. destruct (c_retention_count p0); [done|]. injection H as _ <-. by right.
Qed.

Lemma insert_slot_inl replacement s s' e :
  insert_slot task now replacement s = (s', inl e) -> e = ErrDriver.
Proof.
  intros H. apply bind_inl in H as [H|(n & s1 & _ & H)]; [by eapply exec_inl|].
  destruct replacement; [|done].
  apply bind_inl in H as [H|(n' & s2 & _ & H)]; [by eapply exec_inl|done].
Qed.


End reservation.

(** ** Reads *)

Lemma reads_or_fail {A} e (o : option A) : reads (or_fail e o).
Proof. unfold reads, or_fail. tx_walk. Qed.
Lemma reads_quotaPlanLock planID : reads (quotaPlanLock planID).
Proof. unfold reads, quotaPlanLock. tx_walk. Qed.
Lemma reads_pointBusy id : reads (pointBusy id).
Proof. apply moves_select. apply _. Qed.
Lemma reads_quotaPolicy planID : reads (quotaPolicy planID).
Proof.
  unfold reads, quotaPolicy. tx_walk. apply reads_or_fail.
Qed.
Lemma reads_validateReferences refs tenantID : reads (validateReferences refs tenantID).
Proof.
  apply moves_for_each; [apply _|]. intros [t id]. unfold validateTenantReference. tx_walk.
Qed.

(** ** What the statements leave untouched *)

Definition keeps_tasks (d d' : db) : Prop := tasks d' = tasks d.

#[export] Instance keeps_tasks_preorder : PreOrder keeps_tasks.
Proof. unfold keeps_tasks. split; [done|]. intros x y z -> ->. done. Qed.

Lemma update_points_tasks p f d d' n : update_points p f d = Some (d', n) -> keeps_tasks d d'.
Proof. by intros [= <- _]. Qed.
Lemma update_reservations_tasks p f d d' n :
  update_reservations p f d = Some (d', n) -> keeps_tasks d d'.
Proof. by intros [= <- _]. Qed.
Lemma insert_reservation_tasks id v d d' n :
  insert_reservation id v d = Some (d', n) -> keeps_tasks d d'.
Proof. by intros (-> & _)%insert_reservation_inv. Qed.
Lemma release_failed_tasks planID d d' n :
  release_failed planID d = Some (d', n) -> keeps_tasks d d'.
Proof. by intros (_ & ? & _)%release_failed_inv. Qed.
#[export] Hint Resolve update_points_tasks update_reservations_tasks insert_reservation_tasks
  release_failed_tasks : tx.

(** What only reads moves nothing. *)
Lemma reads_moves {D A} (R : D -> D -> Prop) `{!PreOrder R} (m : tx D A) : reads m -> moves R m.
Proof. intros H s. rewrite (H s). done. Qed.

#[export] Hint Extern 3 (moves _ (quotaPlanLock _)) =>
  apply reads_moves; [typeclasses eauto|apply reads_quotaPlanLock] : tx.
#[export] Hint Extern 3 (moves _ (quotaPolicy _)) =>
  apply reads_moves; [typeclasses eauto|apply reads_quotaPolicy] : tx.
#[export] Hint Extern 3 (moves _ (pointBusy _)) =>
  apply reads_moves; [typeclasses eauto|apply reads_pointBusy] : tx.
#[export] Hint Extern 3 (moves _ (or_fail _ _)) =>
  apply reads_moves; [typeclasses eauto|apply reads_or_fail] : tx.
#[export] Hint Extern 3 (moves _ (validateReferences _ _)) =>
  apply reads_moves; [typeclasses eauto|apply reads_validateReferences] : tx.

Lemma keeps_tasks_reserve LL task now : moves keeps_tasks (reserveBackupQuota LL task now).
Proof.
  unfold reserveBackupQuota, releaseFailedBackupReservations_tx, quotaPoints, selections_of,
    pick_replacement, choose_replacement, insert_slot. tx_walk.
Qed.

Lemma keeps_tasks_prepare LL task now : moves keeps_tasks (prepareRestorePointDeletion LL task now).
Proof.
  unfold prepareRestorePointDeletion, prepare_target, lock_replaced, quotaPoints, selections_of.
  tx_walk. destruct (fk _ _); [by eapply update_reservations_tasks|done].
Qed.

Lemma keeps_tasks_claim id : moves keeps_tasks (claim_point id).
Proof. unfold claim_point. tx_walk. Qed.

(** ** Errors leave the database alone *)

Lemma quiet_or_fail {A} e (o : option A) : quiet (or_fail e o).
Proof. unfold or_fail. tx_walk. Qed.
#[export] Hint Resolve quiet_or_fail : tx.

Lemma quiet_quotaPlanLock planID : quiet (quotaPlanLock planID).
Proof. unfold quotaPlanLock. tx_walk. Qed.
#[export] Hint Resolve quiet_quotaPlanLock : tx.

Lemma quiet_pointBusy id : quiet (pointBusy id).
Proof. apply quiet_select. Qed.
#[export] Hint Resolve quiet_pointBusy : tx.

Lemma quiet_quotaPolicy planID : quiet (quotaPolicy planID).
Proof. unfold quotaPolicy. tx_walk. Qed.
#[export] Hint Resolve quiet_quotaPolicy : tx.

Lemma quiet_selections_of LL points policy now : quiet (selections_of LL points policy now).
Proof. unfold selections_of. tx_walk. Qed.
#[export] Hint Resolve quiet_selections_of : tx.

Lemma quiet_reserveBackupQuota LL task now : quiet (reserveBackupQuota LL task now).
Proof.
  unfold reserveBackupQuota, releaseFailedBackupReservations_tx, quotaPoints,
    pick_replacement, choose_replacement, insert_slot. tx_walk.
Qed.
#[export] Hint Resolve quiet_reserveBackupQuota : tx.

Lemma quiet_prepareRestorePointDeletion LL task now :
  quiet (prepareRestorePointDeletion LL task now).
Proof. unfold prepareRestorePointDeletion, prepare_target, lock_replaced, quotaPoints. tx_walk. Qed.
#[export] Hint Resolve quiet_prepareRestorePointDeletion : tx.

Lemma quiet_claim_point id : quiet (claim_point id).
Proof. unfold claim_point. tx_walk. Qed.
#[export] Hint Resolve quiet_claim_point : tx.

Lemma atomic_BeginProtectionPlanCleanup now planID :
  atomic (BeginProtectionPlanCleanup now planID).
Proof. unfold BeginProtectionPlanCleanup. tx_walk. Qed.

Lemma atomic_SetRestorePointRetention id tenant retain :
  atomic (SetRestorePointRetention id tenant retain).
Proof. unfold SetRestorePointRetention. tx_walk. Qed.

Lemma atomic_ClaimRestorePointDeletion ids : atomic (ClaimRestorePointDeletion ids).
Proof. unfold ClaimRestorePointDeletion. tx_walk. Qed.

Lemma atomic_BeginRestorePointReplacement taskID cleanupID :
  atomic (BeginRestorePointReplacement taskID cleanupID).
Proof. unfold BeginRestorePointReplacement. tx_walk. Qed.
