(* ===== verification/Tasks.v ===== *)
(** Tasks: backend/internal/store/postgres_tasks.go.

    A task is created queued (a backup also reserves a restore point slot),
    claimed by an executor or dispatched to an agent, reported on by status
    updates, and completed once: [completed_at] is what makes a status final. *)

From S2P Require Import Prelude Calendar Timestamp Value Types Retention Session Database Quota.

Definition payload_or_empty_union (payload patch : document) : document :=
  jsonify_doc patch ∪ payload.

(** ** CreateTask *)

Definition plan_in_cleanup (status : string) : bool :=
  one_of status ["cleanup_running"; "cleaning"; "cleanup_failed"].

(** The tenant the task is created in. *)
Definition resolveTaskTenant (input : TaskInput) (kind : string) : tx db string :=
  let requested :=
    if nonempty (ti_TenantID input) then ti_TenantID input else DefaultTenantID in
  if nonempty (ti_ProtectionPlanID input) then
    found ← attempt (query (fun d =>
      p_tenant_id <$> protection_plans d !! ti_ProtectionPlanID input));
    match found with
    | inl ErrNoRows => fail (ErrPlanNotFound (ti_ProtectionPlanID input) kind)
    | inl err => fail err
    | inr tenantID =>
        planStatus ← query (fun d =>
          p_status <$> protection_plans d !! ti_ProtectionPlanID input);
        if plan_in_cleanup planStatus && (kind <>s "protection-cleanup")
        then fail ErrProtectionPlanBusy else mret tenantID
    end
  else if nonempty (ti_ClusterID input) then
    found ← attempt (query (fun d => k_tenant_id <$> clusters d !! ti_ClusterID input));
    mret (match found with inr tenantID => tenantID | inl _ => requested end)
  else mret requested.

Definition backup_running (planID : string) (d : db) : bool :=
  exists_where (fun _ r => sql_eq (t_protection_plan_id r) (Some planID) &&
    (t_type r =s "backup") && negb (terminal_status (t_status r))) (tasks d) ||
  exists_where (fun _ v => (v_protection_plan_id v =s planID) &&
    one_of (v_state v) ["data_ready"; "deleting"]) (reservations d).

Definition irreversible_backup (target : string) (d : db) : bool :=
  exists_where (fun id v => sql_eq (Some id) (nullif target) &&
    one_of (v_state v) ["data_ready"; "deleting"; "published"]) (reservations d).

(** The retention state and creation time of a point of the tenant that can be
    recovered from. *)
Definition recoverable (pointID tenantID : string) (d : db) : option point_row :=
  r ← restore_points d !! pointID;
  if (r_tenant_id r =s tenantID) && (r_status r =s "available") then Some r else None.

(** The payload of the task, with the time of the point it recovers from. *)
Definition lockRecoveryPoint (input : TaskInput) (kind tenantID pointID : string)
    (payload : document) : tx db document :=
  if nonempty pointID && one_of kind ["drill"; "restore"; "takeover"] then
    row ← query (recoverable pointID tenantID);
    let pointPlan := text (r_protection_plan_id row) in
    row ←
      (if pointPlan <>s ti_ProtectionPlanID input then
         quotaPlanLock pointPlan;; query (recoverable pointID tenantID)
       else mret row);
    busy ← pointBusy pointID;
    if busy || one_of (text (json_text (r_metadata row) "retentionState"))
                 ["deleting"; "pending_delete"]
    then fail ErrRestorePointLocked
    else mret (<["restorePointTaskCreatedAt" :=
                   VStr (format_rfc3339nano (point_created row))]> payload)
  else mret payload.

Definition task_row_of (task : Task) : task_row :=
  {| t_tenant_id := task_TenantID task; t_cluster_id := nullif (task_ClusterID task);
     t_app_id := nullif (task_AppID task);
     t_protection_plan_id := nullif (task_ProtectionPlanID task);
     t_restore_point_id := nullif (task_RestorePointID task); t_type := task_Type task;
     t_status := task_Status task; t_progress := 0; t_command_id := nullif (task_CommandID task);
     t_error_code := None; t_error_message := None;
     t_payload := jsonify_doc (task_Payload task); t_created_at := task_CreatedAt task;
     t_dispatched_at := None; t_accepted_at := None; t_started_at := None;
     t_completed_at := None |}.

Definition quota_error_text (detail : string) : string :=
  "restore point quota exhausted: no unprotected point can be replaced" +:+ detail.

Definition fail_task_row (message : string) (now : time) (r : task_row) : task_row :=
  {| t_tenant_id := t_tenant_id r; t_cluster_id := t_cluster_id r; t_app_id := t_app_id r;
     t_protection_plan_id := t_protection_plan_id r; t_restore_point_id := t_restore_point_id r;
     t_type := t_type r; t_status := "failed"; t_progress := t_progress r;
     t_command_id := t_command_id r; t_error_code := Some "RESTORE_POINT_QUOTA_EXHAUSTED";
     t_error_message := Some message; t_payload := t_payload r; t_created_at := t_created_at r;
     t_dispatched_at := t_dispatched_at r; t_accepted_at := t_accepted_at r;
     t_started_at := t_started_at r; t_completed_at := Some (pg_time now) |}.

Definition fail_task (message : string) (now : time) (task : Task) : Task :=
  {| task_ID := task_ID task; task_TenantID := task_TenantID task;
     task_ClusterID := task_ClusterID task; task_AppID := task_AppID task;
     task_ProtectionPlanID := task_ProtectionPlanID task;
     task_RestorePointID := task_RestorePointID task; task_Type := task_Type task;
     task_Status := "failed"; task_Progress := task_Progress task;
     task_CommandID := task_CommandID task; task_ErrorCode := "RESTORE_POINT_QUOTA_EXHAUSTED";
     task_ErrorMessage := message; task_Payload := task_Payload task;
     task_CreatedAt := task_CreatedAt task; task_DispatchedAt := task_DispatchedAt task;
     task_AcceptedAt := task_AcceptedAt task; task_StartedAt := task_StartedAt task;
     task_CompletedAt := now |}.

(** [update protection_plans set <column>=$2 where id=$1], under its trigger. *)
Definition set_latest_task (planID taskID kind : string) (d : db) : option (db * Z) :=
  match protection_plans d !! planID with
  | None => Some (d, 0)
  | Some p =>
      let p' :=
        plan_with_latest p
          (if kind =s "backup" then Some taskID else p_latest_sync_task_id p)
          (if kind =s "backup" then p_latest_recovery_task_id p else Some taskID) in
      if latest_tasks_guard d planID p'
      then Some (set_protection_plans d (<[planID := p']> (protection_plans d)), 1)
      else None
  end.

Section location.
Context (LoadLocation : string -> option location).

(** Reserve the slot; a task over the quota is kept, failed. *)
Definition reserveOrFail (task : Task) (now : time) : tx db Task :=
  reserved ← attempt (reserveBackupQuota LoadLocation task now);
  match reserved with
  | inr _ => mret task
  | inl (ErrRestorePointQuota detail) =>
      let message := quota_error_text detail in
      exec (update_task (task_ID task) (fail_task_row message now));;
      mret (fail_task message (pg_time now) task)
  | inl err => fail err
  end.

Definition publishLatestPointer (task : Task) : tx db unit :=
  if one_of (task_Type task) ["backup"; "drill"; "restore"; "takeover"] then
    affected ← exec (set_latest_task (task_ProtectionPlanID task) (task_ID task) (task_Type task));
    if negb (affected =? 1)
    then fail (ErrPlanNotFound (task_ProtectionPlanID task) (task_Type task))
    else mret tt
  else mret tt.

Definition new_task (id tenantID : string) (input : TaskInput) (kind status : string)
    (payload : document) (now : time) : Task :=
  {| task_ID := id; task_TenantID := tenantID; task_ClusterID := ti_ClusterID input;
     task_AppID := ti_AppID input; task_ProtectionPlanID := ti_ProtectionPlanID input;
     task_RestorePointID := ti_RestorePointID input; task_Type := kind; task_Status := status;
     task_Progress := 0; task_CommandID := ti_CommandID input; task_ErrorCode := "";
     task_ErrorMessage := ""; task_Payload := payload; task_CreatedAt := pg_time now;
     task_DispatchedAt := zero_time; task_AcceptedAt := zero_time;
     task_StartedAt := zero_time; task_CompletedAt := zero_time |}.

Definition task_kind (input : TaskInput) : string :=
  if nonempty (ti_Type input) then ti_Type input else "backup".
Definition task_status (input : TaskInput) : string :=
  if nonempty (ti_Status input) then ti_Status input else "queued".

(** The checks before the insertion: the task to insert. *)
Definition admitTask (id : string) (now : time) (input : TaskInput) : tx db Task :=
  let kind := task_kind input in
  tenantID ← resolveTaskTenant input kind;
  if nonempty (ti_TenantID input) && (ti_TenantID input <>s tenantID)
  then fail ErrTenantResourceMismatch
  else
    validateTaskReferences input tenantID;;
    (if (kind =s "backup") && nonempty (ti_ProtectionPlanID input) &&
        negb (ti_SuppressLatestPointer input)
     then
       busy ← select (backup_running (ti_ProtectionPlanID input));
       if busy : bool then fail ErrProtectionPlanBusy else mret tt
     else mret tt);;
    (if kind =s "backup-cancel" then
       irreversible ← select
         (irreversible_backup (stringFromMap (ti_Payload input) "targetTaskId"));
       if irreversible : bool then fail ErrRestorePointLocked else mret tt
     else mret tt);;
    let pointID :=
      if nonempty (ti_RestorePointID input) then ti_RestorePointID input
      else stringFromMap (ti_Payload input) "restorePointId" in
    payload ← lockRecoveryPoint input kind tenantID pointID (ti_Payload input);
    mret (new_task id tenantID input kind (task_status input) payload now).

(** A task of a plan reserves its slot and becomes the plan's latest, unless it
    is being imported. *)
Definition attachToPlan (input : TaskInput) (task : Task) (now : time) : tx db Task :=
  if nonempty (task_ProtectionPlanID task) && negb (ti_SuppressLatestPointer input) then
    task ← reserveOrFail task now;
    publishLatestPointer task;; mret task
  else mret task.

(** [id] is what newID returns, [now] what time.Now does. *)
Definition CreateTask (id : string) (now : time) (input : TaskInput) : tx db Task :=
  begin_tx;;
  task ← admitTask id now input;
  exec (insert_task (task_ID task) (task_row_of task));;
  task ← attachToPlan input task now;
  prepareRestorePointDeletion LoadLocation task now;;
  commit;; mret task.

End location.

(** ** Claiming *)

Definition claim_row (executorID : string) (now : time) (r : task_row) : task_row :=
  {| t_tenant_id := t_tenant_id r; t_cluster_id := t_cluster_id r; t_app_id := t_app_id r;
     t_protection_plan_id := t_protection_plan_id r; t_restore_point_id := t_restore_point_id r;
     t_type := t_type r; t_status := "running"; t_progress := t_progress r;
     t_command_id := t_command_id r; t_error_code := t_error_code r;
     t_error_message := t_error_message r;
     t_payload := <["executorId" := VStr executorID]>
                    (<["stage" := VStr "preparing"]> (t_payload r));
     t_created_at := t_created_at r; t_dispatched_at := t_dispatched_at r;
     t_accepted_at := coalesce (t_accepted_at r) (Some (pg_time now));
     t_started_at := coalesce (t_started_at r) (Some (pg_time now));
     t_completed_at := t_completed_at r |}.

Definition created_le (x y : string * task_row) : Prop :=
  t_created_at (snd x) <= t_created_at (snd y).
#[export] Instance created_le_dec : RelDecision created_le.
Proof. intros x y. unfold created_le. apply _. Defined.

(** [order by created_at asc limit 1 for update skip locked]: [locked] are the
    rows other transactions hold. *)
Definition oldest_queued (taskType : string) (locked : gset string) (d : db) : option string :=
  fst <$> head (merge_sort created_le
    (List.filter (fun '(id, r) => (t_type r =s taskType) && (t_status r =s "queued") &&
       negb (bool_decide (id ∈ locked))) (map_to_list (tasks d)))).

(** [update tasks ... where id=$1 and <condition>]. *)
Definition update_task_if (id : string) (p : task_row -> bool) (f : task_row -> task_row) (d : db)
    : option (db * Z) :=
  match tasks d !! id with
  | Some r => if p r then update_task id f d else Some (d, 0)
  | None => Some (d, 0)
  end.

Definition ClaimQueuedTask (locked : gset string) (now : time) (taskType executorID : string)
    : tx db (option Task) :=
  begin_tx;;
  found ← attempt (query (oldest_queued taskType locked));
  match found with
  | inl ErrNoRows => rollback;; mret None
  | inl err => fail err
  | inr id =>
      rows ← exec (update_task_if id (fun r => t_status r =s "queued") (claim_row executorID now));
      if negb (rows =? 1) then rollback;; mret None
      else commit;; getTask id
  end.

Definition ClaimQueuedTaskByID (now : time) (taskID taskType executorID : string)
    : tx db (option Task) :=
  rows ← exec (update_task_if taskID
    (fun r => (t_type r =s taskType) && (t_status r =s "queued")) (claim_row executorID now));
  commit;;
  if negb (rows =? 1) then mret None else getTask taskID.

(** ** Listing *)

Fixpoint strip_nulls (v : value) : value :=
  match v with
  | VObj m => VObj (omap (fun v => match v with VNull => None | v => Some (strip_nulls v) end) m)
  | VList l => VList (map strip_nulls l)
  | v => v
  end.

Definition summary_keys : list string :=
  ["namespace"; "sourceNamespace"; "targetNamespace"; "targetNamespaces"; "targetClusterName";
   "applicationName"; "stage"; "recoveryStages"; "archivedClusterId"; "archivedClusterName";
   "restorePointId"; "archivedRestorePointId"; "pointId"; "veleroBackupName"; "backupName";
   "storageRepoId"; "repositoryId"; "storageRepo"; "backupStorageName"; "storageLocation";
   "repository"; "name"].

Definition summarize (keys : list string) (m : document) : document :=
  mapFromAny (strip_nulls (VObj (list_to_map ((fun k => (k, get m k)) <$> keys)))).

(** [payload->'planCapacity'->'plans' @> '[{"planId": ...}]']. *)
Definition has_capacity_plan (planID : string) (payload : document) : bool :=
  match get (mapFromAny (get payload "planCapacity")) "plans" with
  | VList l => existsb (fun v => match v with
      | VObj m => match get m "planId" with VStr s => s =s planID | _ => false end
      | _ => false end) l
  | _ => false
  end.

(** A condition is added only when its value is given. *)
Definition when_given (given : string) (test : bool) : bool := negb (nonempty given) || test.

Definition payload_is (r : task_row) (key given : string) : bool :=
  when_given given (sql_eq (json_text (t_payload r) key) (Some given)).

Definition task_matches (filter : TaskFilter) (r : task_row) : bool :=
  payload_is r "trigger" (tf_CapacityTrigger filter) &&
  payload_is r "scheduleDay" (tf_CapacityScheduleDay filter) &&
  when_given (tf_CapacityPlanID filter)
    (has_capacity_plan (tf_CapacityPlanID filter) (t_payload r)) &&
  payload_is r "ownerId" (tf_RegistrationOwnerID filter) &&
  payload_is r "idempotencyKey" (tf_RegistrationKey filter) &&
  payload_is r "sessionId" (tf_RegistrationSessionID filter) &&
  when_given (tf_TenantID filter) (t_tenant_id r =s tf_TenantID filter) &&
  when_given (tf_ClusterID filter) (sql_eq (t_cluster_id r) (Some (tf_ClusterID filter))) &&
  when_given (tf_ProtectionPlanID filter)
    (sql_eq (t_protection_plan_id r) (Some (tf_ProtectionPlanID filter))) &&
  (bool_decide (tf_Types filter = []) || one_of (t_type r) (tf_Types filter)) &&
  (bool_decide (tf_Statuses filter = []) || one_of (t_status r) (tf_Statuses filter)).

Definition newest_le (x y : string * task_row) : Prop :=
  t_created_at (snd y) <= t_created_at (snd x).
#[export] Instance newest_le_dec : RelDecision newest_le.
Proof. intros x y. unfold newest_le. apply _. Defined.

Definition limit {A} (n : Z) (l : list A) : list A := if 0 <? n then take (Z.to_nat n) l else l.

Definition listed_task (summary : bool) (x : string * task_row) : Task :=
  let '(id, r) := x in
  let task := task_of_row id r in
  if summary then
    {| task_ID := task_ID task; task_TenantID := task_TenantID task;
       task_ClusterID := task_ClusterID task; task_AppID := task_AppID task;
       task_ProtectionPlanID := task_ProtectionPlanID task;
       task_RestorePointID := task_RestorePointID task; task_Type := task_Type task;
       task_Status := task_Status task; task_Progress := task_Progress task;
       task_CommandID := task_CommandID task; task_ErrorCode := task_ErrorCode task;
       task_ErrorMessage := task_ErrorMessage task;
       task_Payload := summarize summary_keys (t_payload r);
       task_CreatedAt := task_CreatedAt task; task_DispatchedAt := task_DispatchedAt task;
       task_AcceptedAt := task_AcceptedAt task; task_StartedAt := task_StartedAt task;
       task_CompletedAt := task_CompletedAt task |}
  else task.

Definition listTasks (filter : TaskFilter) : tx db (list Task) :=
  select (fun d => listed_task (tf_Summary filter) <$>
    limit (tf_Limit filter)
      (merge_sort newest_le
        (List.filter (fun '(_, r) => task_matches filter r) (map_to_list (tasks d))))).

(** ** UpdateTaskStatus *)

(** The assignments of the update statement. *)
Definition status_row (now : time) (input : TaskStatusInput) (payload : document) (r : task_row)
    : task_row :=
  let done := negb (is_null (t_completed_at r)) in
  let at_ (mark : bool) (o : option time) :=
    if mark then coalesce o (Some (pg_time now)) else o in
  {| t_tenant_id := t_tenant_id r; t_cluster_id := t_cluster_id r; t_app_id := t_app_id r;
     t_protection_plan_id := t_protection_plan_id r;
     t_restore_point_id :=
       if done then t_restore_point_id r
       else coalesce (nullif (tsi_RestorePointID input)) (t_restore_point_id r);
     t_type := t_type r;
     t_status := if done then t_status r else default (t_status r) (nullif (tsi_Status input));
     t_progress := Z.max (t_progress r) (tsi_Progress input);
     t_command_id := t_command_id r;
     t_error_code := if done then t_error_code r else nullif (tsi_ErrorCode input);
     t_error_message := if done then t_error_message r else nullif (tsi_ErrorMessage input);
     t_payload := payload_or_empty_union (t_payload r) payload;
     t_created_at := t_created_at r;
     t_dispatched_at := at_ (tsi_Status input =s "dispatched") (t_dispatched_at r);
     t_accepted_at := at_ (tsi_MarkAccepted input) (t_accepted_at r);
     t_started_at := at_ (tsi_MarkStarted input) (t_started_at r);
     t_completed_at := at_ (tsi_MarkDone input) (t_completed_at r) |}.

Definition publishing_task (taskID : string) (d : db) : bool :=
  match reservations d !! taskID, tasks d !! taskID with
  | Some v, Some t =>
      one_of (v_state v) ["data_ready"; "deleting"; "published"] && is_null (t_completed_at t)
  | _, _ => false
  end.

(** A task whose backup is being published cannot be failed or canceled. *)
Definition keep_publishing (input : TaskStatusInput) (publishing : bool) : TaskStatusInput :=
  if publishing then
    {| tsi_TaskID := tsi_TaskID input; tsi_RestorePointID := tsi_RestorePointID input;
       tsi_Status := "finalizing"; tsi_Progress := tsi_Progress input;
       tsi_ErrorCode := tsi_ErrorCode input; tsi_ErrorMessage := tsi_ErrorMessage input;
       tsi_Payload := tsi_Payload input; tsi_MarkAccepted := tsi_MarkAccepted input;
       tsi_MarkStarted := tsi_MarkStarted input; tsi_MarkDone := false |}
  else input.

Definition failed_task (taskID : string) (d : db) : bool :=
  match tasks d !! taskID with Some t => failed_status (t_status t) | None => false end.

(** The point a failed task was going to replace is no longer claimed by it. *)
Definition release_point (taskID : string) (d : db) : option (db * Z) :=
  update_points
    (fun id _ => match reservations d !! taskID with
       | Some v => sql_eq (v_replacement_point_id v) (Some id) && (v_state v =s "reserved") &&
                   failed_task taskID d
       | None => false
       end)
    (fun _ r => point_with_metadata r (delete "replacementTaskId" (r_metadata r))) d.

Definition release_reservation (taskID : string) (d : db) : option (db * Z) :=
  update_reservations
    (fun id v => (id =s taskID) && (v_state v =s "reserved") && failed_task taskID d)
    (fun _ v => reservation_with_state v "released") d.

(** The point a drill used: [coalesce(restore_point_id, payload->>'restorePointId')]. *)
Definition drill_point (t : task_row) : option string :=
  coalesce (t_restore_point_id t) (json_text (t_payload t) "restorePointId" ≫= nullif).

Definition drill_just_succeeded (taskID : string) (now : time) (d : db) : option task_row :=
  t ← tasks d !! taskID;
  if (t_type t =s "drill") && (t_status t =s "succeeded") &&
     bool_decide (t_completed_at t = Some (pg_time now)) then Some t else None.

(** The last drilled point of a plan is retained, the others no longer are. *)
Definition retain_drilled (taskID planID : string) (now : time) (d : db) : option (db * Z) :=
  update_points
    (fun _ r => of_plan planID r && negb (is_null (drill_just_succeeded taskID now d)))
    (fun id r => point_with_metadata r
       (<["drillRetained" :=
            match drill_just_succeeded taskID now d ≫= drill_point with
            | Some pointID => VBool (id =s pointID)
            | None => VNull
            end]> (r_metadata r))) d.

Definition UpdateTaskStatus (now : time) (input : TaskStatusInput) : tx db (option Task) :=
  begin_tx;;
  let taskID := tsi_TaskID input in
  found ← attempt (query (fun d => text ∘ t_protection_plan_id <$> tasks d !! taskID));
  match found with
  | inl ErrNoRows => rollback;; mret None
  | inl err => fail err
  | inr planID =>
      quotaPlanLock planID;;
      publishing ←
        (if tsi_MarkDone input && (tsi_Status input <>s "succeeded")
         then select (publishing_task taskID) else mret false);
      let input := keep_publishing input publishing in
      (* The row found above is still there: the transaction is one step. *)
      (if nonempty (tsi_RestorePointID input) then
         row ← query (fun d => tasks d !! taskID);
         if is_null (t_completed_at row)
         then validateTenantReference RestorePoints (tsi_RestorePointID input) (t_tenant_id row)
         else mret tt
       else mret tt);;
      let payload := <["lastStatusAt" := VStr (format_rfc3339nano now)]> (tsi_Payload input) in
      affected ← exec (update_task taskID (status_row now input payload));
      (if tsi_MarkDone input || failed_status (tsi_Status input) then
         exec (release_point taskID);;
         exec (release_reservation taskID);;
         exec (retain_drilled taskID planID now);; mret tt
       else mret tt);;
      commit;;
      if affected =? 0 then mret None else getTask taskID
  end.

(** ** Errors leave the database alone *)

Lemma quiet_resolveTaskTenant input kind : quiet (resolveTaskTenant input kind).
Proof. unfold resolveTaskTenant. tx_walk. Qed.
Lemma quiet_lockRecoveryPoint input kind tenantID pointID payload :
  quiet (lockRecoveryPoint input kind tenantID pointID payload).
Proof. unfold lockRecoveryPoint. tx_walk. Qed.
#[export] Hint Resolve quiet_resolveTaskTenant quiet_lockRecoveryPoint : tx.

Lemma quiet_admitTask id now input : quiet (admitTask id now input).
Proof. unfold admitTask, validateTaskReferences. tx_walk. Qed.
#[export] Hint Resolve quiet_admitTask : tx.

Lemma quiet_reserveOrFail LL task now : quiet (reserveOrFail LL task now).
Proof. unfold reserveOrFail. tx_walk. Qed.
Lemma quiet_publishLatestPointer task : quiet (publishLatestPointer task).
Proof. unfold publishLatestPointer. tx_walk. Qed.
#[export] Hint Resolve quiet_reserveOrFail quiet_publishLatestPointer : tx.

Lemma quiet_attachToPlan LL input task now : quiet (attachToPlan LL input task now).
Proof. unfold attachToPlan. tx_walk. Qed.
#[export] Hint Resolve quiet_attachToPlan : tx.

Lemma atomic_CreateTask LL id now input : atomic (CreateTask LL id now input).
Proof. unfold CreateTask. tx_walk. Qed.

(** ** What admission checks *)

Lemma reads_resolveTaskTenant input kind : reads (resolveTaskTenant input kind).
Proof. unfold reads, resolveTaskTenant. tx_walk. Qed.

Definition recovery_kind (kind : string) : bool := one_of kind ["drill"; "restore"; "takeover"].

Definition retention_pending (r : point_row) : bool :=
  one_of (text (json_text (r_metadata r) "retentionState")) ["deleting"; "pending_delete"].

Lemma lockRecoveryPoint_inr input kind tenantID pointID payload s s' payload' :
  lockRecoveryPoint input kind tenantID pointID payload s = (s', inr payload') ->
  working s' = working s /\
  if nonempty pointID && recovery_kind kind then
    exists row, recoverable pointID tenantID (working s) = Some row /\
      point_busy pointID (working s) = false /\ retention_pending row = false /\
      payload' = <["restorePointTaskCreatedAt" :=
                     VStr (format_rfc3339nano (point_created row))]> payload
  else payload' = payload.
Proof.
  unfold lockRecoveryPoint. fold (recovery_kind kind).
  destruct (nonempty pointID && recovery_kind kind); [|intros H; by tx_inv]. intros H.
  apply bind_inr in H as (row & s1 & H1 & H). apply query_inr in H1 as (_ & Hw1 & Hrow).
  apply bind_inr in H as (row' & s2 & H2 & H).
  assert (Hrow' : working s2 = working s1 /\ row' = row).
  { destruct (_ <>s _); [|by tx_inv].
    apply bind_inr in H2 as (u & s3 & H3 & H2). apply reads_inr in H3; [|apply reads_quotaPlanLock].
    apply query_inr in H2 as (_ & Hw2 & H2). split; [congruence|].
    rewrite H3, Hw1, Hrow in H2. congruence. }
  destruct Hrow' as [Hw2 ->].
  apply bind_inr in H as (busy & s3 & H3 & H). apply select_inr in H3 as (_ & Hw3 & ->).
  destruct (point_busy pointID (working s2)) eqn:Hb; [by tx_inv|].
  fold (retention_pending row) in H. destruct (retention_pending row) eqn:Hr; [by tx_inv|].
  cbn [orb] in H. tx_inv. split; [congruence|].
  exists row. split; [done|]. split; [congruence|]. by split.
Qed.

(** The point a recovery task works from. *)
Definition recovered_point (input : TaskInput) : string :=
  if nonempty (ti_RestorePointID input) then ti_RestorePointID input
  else stringFromMap (ti_Payload input) "restorePointId".

Definition admitted (d : db) (id : string) (now : time) (input : TaskInput) (task : Task) : Prop :=
  exists tenantID payload,
    task = new_task id tenantID input (task_kind input) (task_status input) payload now /\
    (task_kind input = "backup" -> ti_ProtectionPlanID input <> "" ->
     ti_SuppressLatestPointer input = false ->
     backup_running (ti_ProtectionPlanID input) d = false) /\
    if nonempty (recovered_point input) && recovery_kind (task_kind input) then
      exists row, recoverable (recovered_point input) tenantID d = Some row /\
        point_busy (recovered_point input) d = false /\ retention_pending row = false /\
        payload = <["restorePointTaskCreatedAt" :=
                      VStr (format_rfc3339nano (point_created row))]> (ti_Payload input)
    else payload = ti_Payload input.

Lemma admitTask_inr id now input s s' task :
  admitTask id now input s = (s', inr task) ->
  working s' = working s /\ admitted (working s) id now input task.
Proof.
  unfold admitTask. intros H.
  apply bind_inr in H as (tenantID & s1 & H1 & H).
  apply reads_inr in H1; [|apply reads_resolveTaskTenant].
  destruct (_ && (_ <>s tenantID)); [by tx_inv|].
  apply bind_inr in H as (u & s2 & H2 & H). apply reads_inr in H2; [|apply reads_validateReferences].
  apply bind_inr in H as (u' & s3 & H3 & H).
  assert (Hbusy : working s3 = working s2 /\
    (task_kind input = "backup" -> ti_ProtectionPlanID input <> "" ->
     ti_SuppressLatestPointer input = false ->
     backup_running (ti_ProtectionPlanID input) (working s2) = false)).
  { destruct ((task_kind input =s "backup") && _ && _) eqn:E.
    - apply bind_inr in H3 as (busy & s4 & H4 & H3). apply select_inr in H4 as (_ & Hw & ->).
      destruct (backup_running _ _) eqn:Hb; tx_inv. done.
    - tx_inv. split; [done|]. intros Hk Hp Hs. rewrite Hk, Hs in E.
      rewrite (proj2 (nonempty_true _) Hp) in E. done. }
  destruct Hbusy as [Hw3 Hbusy].
  apply bind_inr in H as (u'' & s4 & H4 & H).
  assert (Hw4 : working s4 = working s3).
  { destruct (_ =s "backup-cancel"); [|by tx_inv].
    apply bind_inr in H4 as (b & s5 & H5 & H4). apply select_inr in H5 as (_ & Hw & _).
    destruct b; tx_inv. done. }
  apply bind_inr in H as (payload & s5 & H5 & H).
  apply lockRecoveryPoint_inr in H5 as [Hw5 H5]. fold (recovered_point input) in H5. tx_inv.
  assert (Heq : working s4 = working s) by congruence.
  split; [congruence|]. exists tenantID, payload. rewrite Heq in H5.
  split; [done|]. split; [|exact H5].
  intros Hk Hp Hs. replace (working s) with (working s2) by congruence. auto.
Qed.

(** ** What a created task leaves in the database *)

Lemma reserveOrFail_inr LL task now s s' task' :
  reserveOrFail LL task now s = (s', inr task') ->
  (task' = task /\ reserveBackupQuota LL task now s = (s', inr tt)) \/
  exists detail s1 n,
    reserveBackupQuota LL task now s = (s1, inl (ErrRestorePointQuota detail)) /\
    update_task (task_ID task) (fail_task_row (quota_error_text detail) now) (working s1)
      = Some (working s', n) /\
    task' = fail_task (quota_error_text detail) (pg_time now) task.
Proof.
  unfold reserveOrFail. intros (r & s1 & H1 & H)%bind_inr. apply attempt_inr in H1.
  destruct r as [[]|[]]; try by tx_inv.
  - right. apply bind_inr in H as (n & s2 & H2 & H). apply exec_inr in H2 as [_ H2]. tx_inv. eauto 6.
  - left. tx_inv. done.
Qed.

(** Moving the plan's latest-task pointer changes that plan's row only. *)
Definition same_work (d d' : db) : Prop :=
  tasks d' = tasks d /\ restore_points d' = restore_points d /\ reservations d' = reservations d.

#[export] Instance same_work_preorder : PreOrder same_work.
Proof. unfold same_work. split; [done|]. intros x y z (-> & -> & ->) (-> & -> & ->). done. Qed.

Lemma set_latest_task_work planID taskID kind d d' n :
  set_latest_task planID taskID kind d = Some (d', n) -> same_work d d'.
Proof.
  unfold set_latest_task. destruct (protection_plans d !! planID); [|by intros [= <- _]].
  destruct (latest_tasks_guard _ _ _); [|done]. by intros [= <- _].
Qed.

Lemma same_work_pointer task : moves same_work (publishLatestPointer task).
Proof. unfold publishLatestPointer. tx_walk. by eapply set_latest_task_work. Qed.

(** The row of a created task: as admitted, or failed for the quota. *)
Definition created_row (now : time) (admitted_task task : Task) (r : task_row) : Prop :=
  (task = admitted_task /\ r = task_row_of admitted_task) \/
  task_Type admitted_task = "backup" /\
  exists detail,
    task = fail_task (quota_error_text detail) (pg_time now) admitted_task /\
    r = fail_task_row (quota_error_text detail) now (task_row_of admitted_task).

Definition reserves (input : TaskInput) : Prop :=
  ti_ProtectionPlanID input <> "" /\ ti_SuppressLatestPointer input = false.

Lemma reserve_quota_backup LL task now s s' e :
  reserveBackupQuota LL task now s = (s', inl e) -> task_Type task = "backup".
Proof.
  unfold reserveBackupQuota. destruct (task_Type task =s "backup") eqn:E; [|done].
  by apply seqb_true in E.
Qed.

Lemma attachToPlan_rows LL input task now s s' task' :
  tasks (working s) !! task_ID task = Some (task_row_of task) ->
  attachToPlan LL input task now s = (s', inr task') ->
  exists r, created_row now task task' r /\
    tasks (working s') = <[task_ID task := r]> (tasks (working s)).
Proof.
  unfold attachToPlan. intros Hrow. destruct (_ && _).
  - intros (t & s1 & H1 & H)%bind_inr. apply bind_inr in H as (u & s2 & H2 & H).
    pose proof (same_work_pointer t s1) as Hw. rewrite H2 in Hw. destruct Hw as (Ht & _). simpl in Ht.
    tx_inv. apply reserveOrFail_inr in H1 as [[-> H1]|(detail & s3 & n & H1 & Hu & ->)];
      pose proof (keeps_tasks_reserve LL task now s) as Hk; rewrite H1 in Hk;
      unfold keeps_tasks in Hk; simpl in Hk.
    + exists (task_row_of task). split; [by left|]. rewrite Ht, Hk. by rewrite insert_id.
    + exists (fail_task_row (quota_error_text detail) now (task_row_of task)).
      split; [right; split; [by eapply reserve_quota_backup|by exists detail]|]. rewrite Ht.
      apply update_task_inv in Hu as [(Hn & _)|(r & Hr & -> & _)]; [congruence|].
      simpl. rewrite Hk in *. congruence.
  - intros H. tx_inv. exists (task_row_of task). split; [by left|]. by rewrite insert_id.
Qed.

(** A successful creation, step by step. *)
Lemma CreateTask_steps LL id now input s s' task :
  CreateTask LL id now input s = (s', inr task) ->
  exists task0 n s3 s4 s5,
    admitted (committed s) id now input task0 /\ task_ID task0 = id /\
    insert_task id (task_row_of task0) (committed s) = Some (working s3, n) /\
    attachToPlan LL input task0 now s3 = (s4, inr task) /\
    prepareRestorePointDeletion LL task now s4 = (s5, inr tt) /\
    committed s' = working s5.
Proof.
  unfold CreateTask. intros H.
  apply bind_inr in H as (u & s1 & H1 & H). apply begin_inr in H1 as [Hc1 Hw1].
  apply bind_inr in H as (task0 & s2 & H2 & H). apply admitTask_inr in H2 as [Hw2 Hadm].
  apply bind_inr in H as (n & s3 & H3 & H). apply exec_inr in H3 as [_ H3].
  assert (Hid : task_ID task0 = id) by (destruct Hadm as (? & ? & Heq & _); by rewrite Heq).
  apply bind_inr in H as (task1 & s4 & H4 & H).
  apply bind_inr in H as ([] & s5 & H5 & H).
  apply bind_inr in H as (u'' & s6 & H6 & H). apply commit_inr in H6 as [Hc6 _].
  apply ret_inr in H as [-> ->]. rewrite Hw2, Hw1, Hid in H3. rewrite Hw1 in Hadm.
  by exists task0, n, s3, s4, s5.
Qed.

Lemma CreateTask_inr LL id now input s s' task :
  CreateTask LL id now input s = (s', inr task) ->
  exists task0 r,
    admitted (committed s) id now input task0 /\ created_row now task0 task r /\
    tasks (committed s) !! id = None /\ tasks (committed s') = <[id := r]> (tasks (committed s)).
Proof.
  intros (task0 & n & s3 & s4 & s5 & Hadm & Hid & H3 & H4 & H5 & Hc)%CreateTask_steps.
  apply insert_task_inv in H3 as [Hnone Hw3].
  apply attachToPlan_rows in H4 as (r & Hr & Ht4).
  2: { rewrite Hw3, Hid. apply lookup_insert_eq. }
  pose proof (keeps_tasks_prepare LL task now s4) as Hk. rewrite H5 in Hk.
  unfold keeps_tasks in Hk. simpl in Hk.
  exists task0, r. split; [done|]. split; [done|]. split; [done|].
  rewrite Hc, Hk, Ht4, Hid, Hw3. simpl. by rewrite insert_insert_eq.
Qed.

(** The task as reading it back gives it: its payload went through JSON. *)
Definition stored_task (task : Task) : Task :=
  {| task_ID := task_ID task; task_TenantID := task_TenantID task;
     task_ClusterID := task_ClusterID task; task_AppID := task_AppID task;
     task_ProtectionPlanID := task_ProtectionPlanID task;
     task_RestorePointID := task_RestorePointID task; task_Type := task_Type task;
     task_Status := task_Status task; task_Progress := task_Progress task;
     task_CommandID := task_CommandID task; task_ErrorCode := task_ErrorCode task;
     task_ErrorMessage := task_ErrorMessage task;
     task_Payload := jsonify_doc (task_Payload task); task_CreatedAt := task_CreatedAt task;
     task_DispatchedAt := task_DispatchedAt task; task_AcceptedAt := task_AcceptedAt task;
     task_StartedAt := task_StartedAt task; task_CompletedAt := task_CompletedAt task |}.

Lemma created_row_reads d id now input task0 task r :
  admitted d id now input task0 -> created_row now task0 task r ->
  task_of_row id r = stored_task task.
Proof.
  intros (tenantID & payload & -> & _) [[-> ->]|(_ & detail & -> & ->)];
    unfold task_of_row, stored_task; cbn -[text nullif]; rewrite !text_nullif; reflexivity.
Qed.

(** C31.  Creating a task is all or nothing, whichever statement fails: on an
    error the database is as before, and on success exactly one task was added,
    under the new identifier, and reading it back gives the task returned. *)
Theorem create_task_all_or_nothing LL id now input fuse d d' r :
  run (CreateTask LL id now input) fuse d = (d', r) ->
  match r with
  | inl _ => d' = d
  | inr task => exists row,
      tasks d !! id = None /\ tasks d' = <[id := row]> (tasks d) /\
      task_of_row id row = stored_task task
  end.
Proof.
  destruct r as [e|task]; intros H.
  - eapply run_atomic; [apply atomic_CreateTask|exact H].
  - apply run_inr in H as (s' & H & <-).
    apply CreateTask_inr in H as (task0 & row & Hadm & Hrow & Hnone & Htasks).
    exists row. split; [done|]. split; [done|]. by eapply created_row_reads.
Qed.

(** *** Backups and the quota *)

Definition same_plan_policy (planID : string) (d d' : db) : Prop :=
  retention_policy_row planID d = retention_policy_row planID d'.

Lemma prepare_backup LL task now s s' u :
  task_Type task = "backup" ->
  prepareRestorePointDeletion LL task now s = (s', inr u) -> s' = s.
Proof.
  unfold prepareRestorePointDeletion. intros ->.
  replace (one_of "backup" _) with false by (vm_compute; reflexivity). cbn [negb].
  intros H. by tx_inv.
Qed.

Lemma insert_task_policy id r d d' n planID :
  insert_task id r d = Some (d', n) ->
  retention_policy_row planID d' = retention_policy_row planID d.
Proof. by intros [_ ->]%insert_task_inv. Qed.

Lemma slots_used_work planID d d' : same_work d d' -> slots_used planID d' = slots_used planID d.
Proof.
  intros (_ & Hp & Hv). symmetry. apply slots_used_same; [|done].
  intros id. by rewrite Hp.
Qed.

Lemma attachToPlan_type LL input task now s s' task' :
  attachToPlan LL input task now s = (s', inr task') -> task_Type task' = task_Type task.
Proof.
  unfold attachToPlan. destruct (_ && _); [|intros H; by tx_inv].
  intros (t & s1 & H1 & H)%bind_inr. apply bind_inr in H as (u & s2 & _ & H).
  apply ret_inr in H as [_ ->].
  by apply reserveOrFail_inr in H1 as [[-> _]|(detail & s3 & n & _ & _ & ->)].
Qed.

(** Attaching a backup to a plan that retains a count: a slot, or a failed task. *)
Lemma attachToPlan_slot LL input task now s s' task' p count :
  reserves input -> task_Type task = "backup" ->
  task_ProtectionPlanID task = ti_ProtectionPlanID input ->
  retention_policy_row (task_ProtectionPlanID task) (working s) = Some p ->
  c_retention_count p = Some count -> 0 < count ->
  tasks (working s) !! task_ID task = Some (task_row_of task) ->
  attachToPlan LL input task now s = (s', inr task') ->
  (slots_used (task_ProtectionPlanID task) (working s') <= count /\
   exists v, reservations (working s') !! task_ID task = Some v /\ v_state v = "reserved") \/
  (exists r, tasks (working s') !! task_ID task = Some r /\ t_status r = "failed" /\
     t_error_code r = Some "RESTORE_POINT_QUOTA_EXHAUSTED" /\
     t_completed_at r = Some (pg_time now)).
Proof.
  intros [Hplan Hsup] Htype Heq Hpol Hcount Hpos Hrow. unfold attachToPlan.
  rewrite Heq in *. rewrite (proj2 (nonempty_true _) Hplan), Hsup. cbn [andb negb].
  intros (t & s1 & H1 & H)%bind_inr. apply bind_inr in H as (u & s2 & H2 & H).
  pose proof (same_work_pointer t s1) as Hw. rewrite H2 in Hw. cbn [fst] in Hw.
  apply ret_inr in H as [-> ->]. rewrite (slots_used_work _ _ _ Hw).
  destruct Hw as (-> & _ & ->).
  apply reserveOrFail_inr in H1 as [[-> H1]|(detail & s3 & n & H1 & Hu & ->)].
  - left. assert (Hout : outcome (reserveBackupQuota LL task now) s = inr tt)
      by (unfold outcome; by rewrite H1).
    apply (slots_after_reservation LL task now s p count) in Hout;
      [|done|by rewrite Heq|unfold counted_policy; by rewrite Heq].
    unfold leaves in Hout. rewrite H1, Heq in Hout. destruct Hout as [Hle (v & Hv & Hst & _)].
    split; [done|]. by exists v.
  - right. pose proof (keeps_tasks_reserve LL task now s) as Hk. rewrite H1 in Hk.
    unfold keeps_tasks in Hk. simpl in Hk.
    apply update_task_inv in Hu as [(Hn & _)|(r & Hr & -> & _)]; [congruence|].
    exists (fail_task_row (quota_error_text detail) now r). simpl.
    by rewrite lookup_insert_eq.
Qed.

(** C17.  A backup task created for a plan with a retention count either holds
    a reservation, with live points and reserved slots within the count, or is
    stored failed and completed with RESTORE_POINT_QUOTA_EXHAUSTED; and no other
    backup of the plan was running. *)
Theorem created_backup_holds_a_slot LL id now input fuse d d' task p count :
  task_kind input = "backup" -> reserves input ->
  retention_policy_row (ti_ProtectionPlanID input) d = Some p ->
  c_retention_count p = Some count -> 0 < count ->
  run (CreateTask LL id now input) fuse d = (d', inr task) ->
  backup_running (ti_ProtectionPlanID input) d = false /\
  ((slots_used (ti_ProtectionPlanID input) d' <= count /\
    exists v, reservations d' !! id = Some v /\ v_state v = "reserved") \/
   (exists r, tasks d' !! id = Some r /\ t_status r = "failed" /\
      t_error_code r = Some "RESTORE_POINT_QUOTA_EXHAUSTED" /\
      t_completed_at r = Some (pg_time now))).
Proof.
  intros Hkind [Hplan Hsup] Hpol Hcount Hpos (s' & H & <-)%run_inr.
  apply CreateTask_steps in H as (task0 & n & s3 & s4 & s5 & Hadm & Hid & H3 & H4 & H5 & ->).
  cbn [committed] in *. pose proof Hadm as (tenantID & payload & Heq & Hbusy & _).
  split; [by apply Hbusy|].
  assert (Hkept : same_work (working s4) (working s5)).
  { apply prepare_backup in H5 as ->; [done|].
    apply attachToPlan_type in H4. rewrite H4, Heq. done. }
  rewrite (slots_used_work _ _ _ Hkept). destruct Hkept as (-> & _ & ->).
  assert (Hp0 : task_ProtectionPlanID task0 = ti_ProtectionPlanID input) by (by rewrite Heq).
  assert (Ht0 : task_Type task0 = "backup") by (by rewrite Heq).
  rewrite <- Hp0, <- Hid. rewrite <- Hp0 in Hpol. rewrite <- Hid in H3. clear Heq.
  assert (Hpol3 : retention_policy_row (task_ProtectionPlanID task0) (working s3) = Some p).
  { erewrite insert_task_policy by done. done. }
  apply (attachToPlan_slot LL input task0 now s3 s4 task p count); try done.
  apply insert_task_inv in H3 as [_ Hw3]. rewrite Hw3. apply lookup_insert_eq.
Qed.

(** *** Recovery and deletion *)

Lemma point_busy_used id d t taskID :
  tasks d !! taskID = Some t -> uses_point id t = true -> point_busy id d = true.
Proof.
  intros Ht Hu. unfold point_busy. apply orb_true_iff. left.
  apply exists_where_true. by exists taskID, t.
Qed.

Lemma claim_point_busy id s s' u :
  point_busy id (working s) = true -> claim_point id s <> (s', inr u).
Proof.
  intros Hb H. unfold claim_point in H.
  apply bind_inr in H as (planID & s1 & H1 & H). apply query_inr in H1 as (_ & Hw1 & _).
  apply bind_inr in H as (v & s2 & H2 & H). apply reads_inr in H2; [|apply reads_quotaPlanLock].
  apply bind_inr in H as (busy & s3 & H3 & H). apply select_inr in H3 as (_ & _ & ->).
  rewrite H2, Hw1, Hb in H. by tx_inv.
Qed.

Lemma claim_points_busy id ids s s' u t taskID :
  id ∈ ids -> tasks (working s) !! taskID = Some t -> uses_point id t = true ->
  for_each ids claim_point s <> (s', inr u).
Proof.
  intros Hin Ht Hu. revert s Ht. induction ids as [|k ids IH]; intros s Ht H; [inversion Hin|].
  apply bind_inr in H as (v & s1 & H1 & H).
  apply elem_of_cons in Hin as [<-|Hin].
  - eapply claim_point_busy; [|exact H1]. by eapply point_busy_used.
  - apply (IH Hin s1); [|done]. pose proof (keeps_tasks_claim k s) as Hk. rewrite H1 in Hk.
    unfold keeps_tasks in Hk. simpl in Hk. by rewrite Hk.
Qed.

Lemma admitted_uses_point d id now input task0 :
  admitted d id now input task0 -> recovery_kind (task_kind input) = true ->
  recovered_point input <> "" -> terminal_status (task_status input) = false ->
  uses_point (recovered_point input) (task_row_of task0) = true.
Proof.
  intros (tenantID & payload & -> & _ & Hpoint) Hkind Hp Hst. unfold uses_point. simpl.
  fold (recovery_kind (task_kind input)). rewrite Hkind, Hst, !andb_true_r.
  rewrite Hkind, (proj2 (nonempty_true _) Hp) in Hpoint. cbn [andb] in Hpoint.
  destruct Hpoint as (row & _ & _ & _ & ->). apply orb_true_iff. rewrite !sql_eq_Some.
  unfold recovered_point in *. unfold nullif.
  destruct (nonempty (ti_RestorePointID input)); [by left|right].
  unfold json_text. rewrite get_jsonify_doc, get_insert_ne by done.
  unfold stringFromMap in *. by destruct (get (ti_Payload input) "restorePointId").
Qed.


(** ** What a status update does *)

Definition status_payload (now : time) (input : TaskStatusInput) : document :=
  <["lastStatusAt" := VStr (format_rfc3339nano now)]> (tsi_Payload input).

(** The input as the update statement gets it. *)
Definition effective_input (d : db) (input : TaskStatusInput) : TaskStatusInput :=
  keep_publishing input
    (tsi_MarkDone input && (tsi_Status input <>s "succeeded") &&
     publishing_task (tsi_TaskID input) d).

Lemma keep_publishing_ID input b : tsi_TaskID (keep_publishing input b) = tsi_TaskID input.
Proof. by destruct b. Qed.

(** The three releasing statements after the update. *)
Definition releases (taskID planID : string) (now : time) (d d' : db) : Prop :=
  exists d2 d3 n2 n3 n4,
    release_point taskID d = Some (d2, n2) /\ release_reservation taskID d2 = Some (d3, n3) /\
    retain_drilled taskID planID now d3 = Some (d', n4).

Lemma UpdateTaskStatus_inr now input s s' r t :
  tasks (committed s) !! tsi_TaskID input = Some t ->
  UpdateTaskStatus now input s = (s', inr r) ->
  let input' := effective_input (committed s) input in
  exists d1 n,
    update_task (tsi_TaskID input) (status_row now input' (status_payload now input'))
      (committed s) = Some (d1, n) /\
    if tsi_MarkDone input' || failed_status (tsi_Status input')
    then releases (tsi_TaskID input) (text (t_protection_plan_id t)) now d1 (committed s')
    else committed s' = d1.
Proof.
  intros Ht H. unfold UpdateTaskStatus in H.
  apply bind_inr in H as (u & s1 & H1 & H). apply begin_inr in H1 as [Hc1 Hw1].
  apply bind_inr in H as (found & s2 & H2 & H). apply attempt_inr in H2.
  destruct found as [e|planID].
  { exfalso. unfold query in H2. destruct (burn s1) as [s3|] eqn:E.
    - apply burn_Some in E as [_ E]. rewrite E, Hw1, Ht in H2. done.
    - injection H2 as <- <-. by tx_inv. }
  apply query_inr in H2 as (_ & Hw2 & Hplan). rewrite Hw1, Ht in Hplan. injection Hplan as <-.
  apply bind_inr in H as (u2 & s3 & H3 & H). apply reads_inr in H3; [|apply reads_quotaPlanLock].
  assert (Hw3 : working s3 = committed s) by congruence. clear H3 Hw2 Hw1 Hc1.
  apply bind_inr in H as (publishing & s4 & H4 & H).
  assert (Hpub : working s4 = committed s /\
    keep_publishing input publishing = effective_input (committed s) input).
  { unfold effective_input. destruct (tsi_MarkDone input && _).
    - apply select_inr in H4 as (_ & Hw & ->). rewrite Hw3 in *. by rewrite Hw.
    - apply ret_inr in H4 as [-> ->]. done. }
  destruct Hpub as [Hw4 Heff]. rewrite Heff in H.
  apply bind_inr in H as (u3 & s5 & H5 & H).
  assert (Hw5 : working s5 = committed s).
  { rewrite <- Hw4. eapply reads_inr; [|exact H5].
    unfold validateTenantReference, reads. tx_walk. }
  apply bind_inr in H as (n & s6 & H6 & H). apply exec_inr in H6 as [_ H6]. rewrite Hw5 in H6.
  apply bind_inr in H as (u4 & s7 & H7 & H).
  apply bind_inr in H as (u5 & s8 & H8 & H). apply commit_inr in H8 as [Hc8 _].
  assert (Hfin : committed s' = working s7).
  { rewrite <- Hc8. destruct (n =? 0); [by apply ret_inr in H as [-> _]|].
    by apply select_inr in H as (-> & _). }
  exists (working s6), n. split; [exact H6|]. rewrite Hfin.
  destruct (tsi_MarkDone _ || _).
  - apply bind_inr in H7 as (n2 & s9 & H9 & H7). apply exec_inr in H9 as [_ H9].
    apply bind_inr in H7 as (n3 & s10 & H10 & H7). apply exec_inr in H10 as [_ H10].
    apply bind_inr in H7 as (n4 & s11 & H11 & H7). apply exec_inr in H11 as [_ H11].
    apply ret_inr in H7 as [-> _]. by exists (working s9), (working s10), n2, n3, n4.
  - by apply ret_inr in H7 as [-> _].
Qed.

(** What no status update ever changes of a task. *)
Definition task_kept (t t' : task_row) : Prop :=
  t_tenant_id t' = t_tenant_id t /\ t_cluster_id t' = t_cluster_id t /\
  t_protection_plan_id t' = t_protection_plan_id t /\ t_type t' = t_type t /\
  t_created_at t' = t_created_at t /\ t_progress t <= t_progress t' /\
  (t_completed_at t <> None ->
   t_completed_at t' = t_completed_at t /\ t_status t' = t_status t /\
   t_error_code t' = t_error_code t /\ t_error_message t' = t_error_message t /\
   t_restore_point_id t' = t_restore_point_id t).

#[export] Instance task_kept_preorder : PreOrder task_kept.
Proof.
  unfold task_kept. split; [intros t; split_and!; try done; lia|].
  intros x y z (?&?&?&?&?&?&Hx) (?&?&?&?&?&?&Hy). split_and!; try congruence; [lia|].
  intros Hc. destruct (Hx Hc) as (Hc' & ? & ? & ? & ?). rewrite <- Hc' in Hc.
  destruct (Hy Hc) as (? & ? & ? & ? & ?). split_and!; congruence.
Qed.

Definition only_task_advances (id : string) (d d' : db) : Prop :=
  (forall k, k <> id -> tasks d' !! k = tasks d !! k) /\
  match tasks d !! id, tasks d' !! id with
  | Some t, Some t' => task_kept t t'
  | None, None => True
  | _, _ => False
  end.

#[export] Instance only_task_advances_preorder id : PreOrder (only_task_advances id).
Proof.
  unfold only_task_advances. split.
  - intros d. split; [done|]. by destruct (tasks d !! id).
  - intros x y z [Hx Hx'] [Hy Hy']. split; [intros k Hk; by rewrite Hy, Hx|].
    destruct (tasks x !! id), (tasks y !! id), (tasks z !! id); try done. by etrans.
Qed.

Lemma keeps_tasks_advances id d d' : keeps_tasks d d' -> only_task_advances id d d'.
Proof.
  unfold keeps_tasks, only_task_advances. intros ->. split; [done|]. by destruct (tasks d !! id).
Qed.

Lemma status_row_kept now input payload t : task_kept t (status_row now input payload t).
Proof.
  unfold task_kept, status_row. simpl. split_and!; try done; [lia|].
  intros Hc. destruct (t_completed_at t); [|done]. simpl. by destruct (tsi_MarkDone input).
Qed.

Lemma update_task_advances id f d d' n :
  (forall t, task_kept t (f t)) -> update_task id f d = Some (d', n) -> only_task_advances id d d'.
Proof.
  intros Hf [(Hn & -> & _)|(r & Hr & -> & _)]%update_task_inv.
  - reflexivity.
  - split; simpl; [intros k Hk; by rewrite lookup_insert_ne|].
    by rewrite Hr, lookup_insert_eq.
Qed.


(** The update statement on the row of the task. *)
Lemma update_task_row id f d d' n t :
  tasks d !! id = Some t -> update_task id f d = Some (d', n) ->
  d' = set_tasks d (<[id := f t]> (tasks d)).
Proof.
  intros Ht [(Hn & _)|(r & Hr & -> & _)]%update_task_inv; [congruence|].
  by assert (r = t) as -> by congruence.
Qed.

(** A backup whose result is being published (its reservation past
    reserved, the task not completed) cannot be ended otherwise: a report that
    it failed or was canceled leaves it finalizing, not completed, and its
    reservation and the plan's points as they are. *)
Theorem publishing_task_cannot_fail now input fuse d d' r t v :
  tasks d !! tsi_TaskID input = Some t -> t_completed_at t = None ->
  reservations d !! tsi_TaskID input = Some v ->
  v_state v ∈ ["data_ready"; "deleting"; "published"] ->
  tsi_MarkDone input = true -> tsi_Status input <> "succeeded" ->
  run (UpdateTaskStatus now input) fuse d = (d', inr r) ->
  reservations d' = reservations d /\ restore_points d' = restore_points d /\
  exists t', tasks d' !! tsi_TaskID input = Some t' /\ t_status t' = "finalizing" /\
             t_completed_at t' = None.
Proof.
  intros Ht Hopen Hv Hst Hdone Hns (s' & H & <-)%run_inr.
  eapply UpdateTaskStatus_inr in H as (d1 & n & Hu & H); [|done]. cbn [committed] in *.
  assert (Heff : effective_input d input = keep_publishing input true).
  { unfold effective_input, publishing_task. rewrite Hv, Ht, Hopen, Hdone. f_equal.
    rewrite (proj2 (one_of_true _ _) Hst). cbn [is_null andb].
    rewrite (proj2 (seqb_false _ _) Hns). done. }
  rewrite Heff in *. cbn in H. rewrite H.
  rewrite (update_task_row _ _ _ _ _ _ Ht Hu). simpl. split; [done|]. split; [done|].
  eexists. split; [apply lookup_insert_eq|]. simpl. by rewrite Hopen.
Qed.

(** *** Releasing the slot of a failed backup *)

Lemma release_point_lookup taskID d d' n id :
  release_point taskID d = Some (d', n) ->
  tasks d' = tasks d /\ reservations d' = reservations d /\
  restore_points d' !! id =
    (fun r => if match reservations d !! taskID with
                 | Some v => sql_eq (v_replacement_point_id v) (Some id) &&
                             (v_state v =s "reserved") && failed_task taskID d
                 | None => false
                 end
              then point_with_metadata r (delete "replacementTaskId" (r_metadata r)) else r)
      <$> restore_points d !! id.
Proof.
  unfold release_point, update_points. intros [= <- _]. split; [done|]. split; [done|]. simpl.
  rewrite map_lookup_imap. by destruct (restore_points d !! id).
Qed.

Lemma release_reservation_lookup taskID d d' n :
  release_reservation taskID d = Some (d', n) ->
  tasks d' = tasks d /\ restore_points d' = restore_points d /\
  reservations d' !! taskID =
    (fun v => if (v_state v =s "reserved") && failed_task taskID d
              then reservation_with_state v "released" else v) <$> reservations d !! taskID.
Proof.
  unfold release_reservation, update_reservations. intros [= <- _].
  split; [done|]. split; [done|]. simpl. rewrite map_lookup_imap.
  destruct (reservations d !! taskID); [|done]. simpl. by rewrite seqb_refl.
Qed.

Lemma retain_drilled_lookup taskID planID now d d' n id :
  retain_drilled taskID planID now d = Some (d', n) ->
  tasks d' = tasks d /\ reservations d' = reservations d /\
  restore_points d' !! id =
    (fun r => if of_plan planID r && negb (is_null (drill_just_succeeded taskID now d))
              then point_with_metadata r (<["drillRetained" :=
                match drill_just_succeeded taskID now d ≫= drill_point with
                | Some pointID => VBool (id =s pointID) | None => VNull end]> (r_metadata r))
              else r) <$> restore_points d !! id.
Proof.
  unfold retain_drilled, update_points. intros [= <- _]. split; [done|]. split; [done|]. simpl.
  rewrite map_lookup_imap. by destruct (restore_points d !! id).
Qed.

(** A report that ends the task: the effective input is the report itself. *)
Lemma effective_reserved d input v :
  reservations d !! tsi_TaskID input = Some v -> v_state v = "reserved" ->
  effective_input d input = input.
Proof.
  intros Hv Hst. unfold effective_input, publishing_task. rewrite Hv, Hst.
  replace (one_of "reserved" _) with false by (vm_compute; reflexivity).
  destruct (tasks d !! tsi_TaskID input); by rewrite andb_false_r.
Qed.

(** When a report fails or cancels a backup task that holds a reserved
    slot, the reservation is released and the point it was going to replace is no
    longer locked by it. *)
Theorem failed_backup_releases_its_slot now input fuse d d' r t v :
  tasks d !! tsi_TaskID input = Some t -> t_completed_at t = None ->
  reservations d !! tsi_TaskID input = Some v -> v_state v = "reserved" ->
  failed_status (tsi_Status input) = true ->
  run (UpdateTaskStatus now input) fuse d = (d', inr r) ->
  reservations d' !! tsi_TaskID input = Some (reservation_with_state v "released") /\
  forall id p', v_replacement_point_id v = Some id -> restore_points d' !! id = Some p' ->
    get (r_metadata p') "replacementTaskId" = VNull.
Proof.
  intros Ht Hopen Hv Hst Hfail (s' & H & <-)%run_inr.
  eapply UpdateTaskStatus_inr in H as (d1 & n & Hu & H); [|done]. cbn [committed] in *.
  rewrite (effective_reserved d input v Hv Hst) in *. rewrite Hfail, orb_true_r in H.
  rewrite (update_task_row _ _ _ _ _ _ Ht Hu) in H. clear Hu.
  destruct H as (d2 & d3 & n2 & n3 & n4 & H2 & H3 & H4).
  assert (Hfailed : failed_task (tsi_TaskID input) (set_tasks d
    (<[tsi_TaskID input := status_row now input (status_payload now input) t]> (tasks d))) = true).
  { unfold failed_task. simpl. rewrite lookup_insert_eq. simpl. rewrite Hopen. simpl.
    destruct (nonempty (tsi_Status input)) eqn:E; unfold nullif; rewrite E; [done|].
    apply nonempty_false in E. by rewrite E in Hfail. }
  split.
  - apply (release_reservation_lookup _ _ _ _) in H3 as (_ & _ & H3).
    apply (retain_drilled_lookup _ _ _ _ _ _ "") in H4 as (_ & -> & _).
    apply (release_point_lookup _ _ _ _ "") in H2 as (Ht2 & Hv2 & _).
    rewrite H3, Hv2. simpl. rewrite Hv. simpl. rewrite Hst. cbn [andb seqb].
    unfold failed_task in *. by rewrite Ht2, Hfailed, seqb_refl.
  - intros id p' Hid Hp'. apply (retain_drilled_lookup _ _ _ _ _ _ id) in H4 as (_ & _ & H4).
    apply release_reservation_lookup in H3 as (_ & Hp3 & _).
    apply (release_point_lookup _ _ _ _ id) in H2 as (_ & _ & H2).
    cbn [reservations set_tasks] in H2. rewrite Hv, Hid, Hst, Hfailed in H2. simpl in H2.
    rewrite !seqb_refl in H2. rewrite H4, Hp3, H2 in Hp'. clear -Hp'.
    destruct (restore_points d !! id) as [p|]; [|done]. injection Hp' as <-. simpl.
    destruct (_ && _); simpl; [rewrite get_insert_ne by done|]; apply get_delete.
Qed.

(** When a drill task of a plan completes successfully, exactly the point it
    drilled is retained for the drill among all the plan's points. *)
Theorem drill_retains_its_point now input fuse d d' r t planID pointID :
  tasks d !! tsi_TaskID input = Some t -> t_completed_at t = None ->
  t_type t = "drill" -> t_protection_plan_id t = Some planID ->
  reservations d !! tsi_TaskID input = None ->
  tsi_Status input = "succeeded" -> tsi_MarkDone input = true ->
  tsi_RestorePointID input = "" -> t_restore_point_id t = Some pointID ->
  run (UpdateTaskStatus now input) fuse d = (d', inr r) ->
  forall id p', restore_points d' !! id = Some p' -> of_plan planID p' = true ->
    get (r_metadata p') "drillRetained" = VBool (id =s pointID).
Proof.
  intros Ht Hopen Htype Hplan Hnone Hst Hdone Hrp Hpoint (s' & H & <-)%run_inr id p' Hp' Hof.
  eapply UpdateTaskStatus_inr in H as (d1 & n & Hu & H); [|done]. cbn [committed] in *.
  assert (Heff : effective_input d input = input).
  { unfold effective_input. rewrite Hst, seqb_refl, Hdone. simpl. by destruct input. }
  rewrite Heff, Hdone in *. rewrite (update_task_row _ _ _ _ _ _ Ht Hu) in H. clear Hu.
  destruct H as (d2 & d3 & n2 & n3 & n4 & H2 & H3 & H4). rewrite Hplan in H4. simpl in H4.
  apply (release_point_lookup _ _ _ _ id) in H2 as (Ht2 & _ & Hp2).
  apply release_reservation_lookup in H3 as (Ht3 & Hp3 & _).
  apply (retain_drilled_lookup _ _ _ _ _ _ id) in H4 as (_ & _ & H4).
  assert (Hjust : drill_just_succeeded (tsi_TaskID input) now d3 =
    Some (status_row now input (status_payload now input) t)).
  { unfold drill_just_succeeded. rewrite Ht3, Ht2. simpl. rewrite lookup_insert_eq. simpl.
    rewrite Hopen, Htype, Hst, Hdone. simpl. by rewrite bool_decide_eq_true_2. }
  rewrite Hjust in H4. simpl in H4. unfold drill_point in H4. simpl in H4.
  rewrite Hopen, Hrp, Hpoint in H4. simpl in H4.
  rewrite H4, Hp3, Hp2 in Hp'. cbn [reservations restore_points set_tasks] in Hp'. rewrite Hnone in Hp'.
  clear - Hp' Hof. destruct (restore_points d !! id) as [p|]; [|done].
  simpl in Hp'. injection Hp' as <-. destruct (of_plan planID p) eqn:E.
  - simpl. apply get_insert.
  - simpl in Hof. congruence.
Qed.
