(* ===== verification/RestorePoints.v ===== *)
(** Publishing backup results as restore points, and reading and updating the
    points: backend/internal/store/postgres_restore_points.go, backup_result.go.

    PublishBackupResult is called once per report of a finished backup, and a
    report may come twice, late or contradicted.  The metadata map of an input is
    taken to be non-nil, as its one caller passes it: the function then writes
    the same map its input holds. *)

From S2P Require Import Prelude Calendar Timestamp Value Types.
From S2P Require Import Retention Session Database Quota Tasks.

(** ** backup_result.go *)

Definition backupMetricsEqual (first second : document) : bool :=
  bool_decide (encode (VObj first) = encode (VObj second)).

(** The nested struct with fields known and totalBytes. *)
Definition decode_measure (acc : bool * Z) (v : value) : option (bool * Z) :=
  match v with
  | VObj m =>
      known ← decode_field decode_bool m "known" (fst acc);
      total ← decode_field decode_int m "totalBytes" (snd acc);
      Some (known, total)
  | _ => None
  end.

Definition CompleteBackupMetrics (metrics : document) : bool :=
  let raw := jsonify_doc metrics in
  match
    (version ← decode_field decode_int raw "schemaVersion" 0;
     logical ← decode_field decode_measure raw "logical" (false, 0);
     newData ← decode_field decode_measure raw "newData" (false, 0);
     Some (version, logical, newData))
  with
  | Some (version, (logicalKnown, logicalBytes), (newKnown, newBytes)) =>
      (version =? 2) && logicalKnown && (0 <? logicalBytes) && newKnown && (0 <=? newBytes)
  | None => false
  end.

(** ** The input of a restore point *)

Definition with_metadata (i : RestorePointInput) (metadata metrics : document)
    : RestorePointInput :=
  {| rpi_ProtectionPlanID := rpi_ProtectionPlanID i; rpi_SourceClusterID := rpi_SourceClusterID i;
     rpi_AppID := rpi_AppID i; rpi_StorageRepoID := rpi_StorageRepoID i;
     rpi_DisplayName := rpi_DisplayName i; rpi_TaskCreatedAt := rpi_TaskCreatedAt i;
     rpi_VeleroBackupName := rpi_VeleroBackupName i; rpi_PointType := rpi_PointType i;
     rpi_Status := rpi_Status i; rpi_SizeBytes := rpi_SizeBytes i;
     rpi_StartedAt := rpi_StartedAt i; rpi_CompletedAt := rpi_CompletedAt i;
     rpi_ExpiresAt := rpi_ExpiresAt i; rpi_SourceNamespace := rpi_SourceNamespace i;
     rpi_LabelSelector := rpi_LabelSelector i; rpi_BackupTaskID := rpi_BackupTaskID i;
     rpi_BackupStorageName := rpi_BackupStorageName i; rpi_Metadata := metadata;
     rpi_SizeMetricsV2 := metrics |}.

Definition set_given (key given : string) (m : document) : document :=
  if nonempty given then <[key := VStr given]> m else m.

(** The defaults, and the metadata keys written from the other fields. *)
Definition normalize_input (i : RestorePointInput) : RestorePointInput :=
  {| rpi_ProtectionPlanID := rpi_ProtectionPlanID i; rpi_SourceClusterID := rpi_SourceClusterID i;
     rpi_AppID := rpi_AppID i; rpi_StorageRepoID := rpi_StorageRepoID i;
     rpi_DisplayName := rpi_DisplayName i; rpi_TaskCreatedAt := rpi_TaskCreatedAt i;
     rpi_VeleroBackupName := rpi_VeleroBackupName i;
     rpi_PointType := if nonempty (rpi_PointType i) then rpi_PointType i else "backup";
     rpi_Status := if nonempty (rpi_Status i) then rpi_Status i else "available";
     rpi_SizeBytes := rpi_SizeBytes i; rpi_StartedAt := rpi_StartedAt i;
     rpi_CompletedAt := rpi_CompletedAt i; rpi_ExpiresAt := rpi_ExpiresAt i;
     rpi_SourceNamespace := rpi_SourceNamespace i; rpi_LabelSelector := rpi_LabelSelector i;
     rpi_BackupTaskID := rpi_BackupTaskID i; rpi_BackupStorageName := rpi_BackupStorageName i;
     rpi_Metadata :=
       set_given "backupStorageName" (rpi_BackupStorageName i)
         (set_given "backupTaskId" (rpi_BackupTaskID i)
           (set_given "labelSelector" (rpi_LabelSelector i)
             (set_given "sourceNamespace" (rpi_SourceNamespace i) (rpi_Metadata i))));
     rpi_SizeMetricsV2 := rpi_SizeMetricsV2 i |}.

(** ** Accepting the result of a backup task *)

Definition named (cluster name : string) (r : point_row) : bool :=
  (r_source_cluster_id r =s cluster) && (r_velero_backup_name r =s name).

(** [select id from restore_points where source_cluster_id=.. and velero_backup_name=..]. *)
Definition point_named (cluster name : string) (d : db) : option string :=
  fst <$> head (List.filter (fun '(_, r) => named cluster name r) (map_to_list (restore_points d))).

Definition conflicting_point (input : RestorePointInput) (tenantID : string) (d : db) : bool :=
  exists_where (fun _ r =>
    named (rpi_SourceClusterID input) (rpi_VeleroBackupName input) r &&
    ((r_tenant_id r <>s tenantID) ||
     negb (bool_decide (r_backup_task_id r = nullif (rpi_BackupTaskID input)))))
    (restore_points d).

(** The backup task of the input, in its tenant, cluster and plan. *)
Definition backup_task (input : RestorePointInput) (tenantID : string) (d : db) : option task_row :=
  id ← nullif (rpi_BackupTaskID input);
  t ← tasks d !! id;
  if (t_tenant_id t =s tenantID) &&
     sql_eq (t_cluster_id t) (Some (rpi_SourceClusterID input)) &&
     sql_eq (t_protection_plan_id t) (Some (rpi_ProtectionPlanID input))
  then Some t else None.

Definition accept_row (input : RestorePointInput) (snapshot : value) (t : task_row) : task_row :=
  {| t_tenant_id := t_tenant_id t; t_cluster_id := t_cluster_id t; t_app_id := t_app_id t;
     t_protection_plan_id := t_protection_plan_id t; t_restore_point_id := t_restore_point_id t;
     t_type := t_type t;
     t_status := if is_null (t_completed_at t) then "finalizing" else t_status t;
     t_progress := t_progress t; t_command_id := t_command_id t;
     t_error_code := t_error_code t; t_error_message := t_error_message t;
     t_payload :=
       <["backupResult" := snapshot]>
       (<["sizeMetricsV2" := VObj (jsonify_doc (rpi_SizeMetricsV2 input))]>
       (<["veleroBackupName" := VStr (rpi_VeleroBackupName input)]>
       (<["backupResultStatus" := VStr "accepted"]>
       (<["sizeProgressV2" := VNull]> (<["volumeProgress" := VNull]> (t_payload t))))));
     t_created_at := t_created_at t; t_dispatched_at := t_dispatched_at t;
     t_accepted_at := t_accepted_at t; t_started_at := t_started_at t;
     t_completed_at := t_completed_at t |}.

(** A repeated report of a published result, or the input to publish. *)
Inductive acceptance :=
| AlreadyPublished (pointID : string)
| Publish (input : RestorePointInput).

Definition rejected_status (status : string) : bool :=
  one_of status ["failed"; "canceling"; "canceled"; "cancelled"].

Definition acceptBackupResult (input : RestorePointInput) (tenantID : string) : tx db acceptance :=
  conflict ← select (conflicting_point input tenantID);
  if conflict : bool then fail ErrBackupResultConflict
  else
    t ← query (backup_task input tenantID);
    if (t_type t <>s "backup") || rejected_status (t_status t) then fail ErrBackupResultConflict
    else
      match get (t_payload t) "backupResult" with
      | VNull =>
          if negb (CompleteBackupMetrics (rpi_SizeMetricsV2 input))
          then fail ErrBackupResultIncomplete
          else
            snapshot ← or_fail ErrMarshal (marshal_input input);
            exec (update_task (rpi_BackupTaskID input) (accept_row input snapshot));;
            mret (Publish input)
      | accepted =>
          snapshot ← or_fail ErrUnmarshal (unmarshal_input accepted);
          if (rpi_VeleroBackupName snapshot <>s rpi_VeleroBackupName input) ||
             negb (backupMetricsEqual (rpi_SizeMetricsV2 snapshot) (rpi_SizeMetricsV2 input))
          then fail ErrBackupResultConflict
          else if (t_status t =s "succeeded") && nonempty (text (t_restore_point_id t))
          then mret (AlreadyPublished (text (t_restore_point_id t)))
          else mret (Publish snapshot)
      end.

(** A point without measurements takes those its task has collected. *)
Definition fillSizeMetrics (input : RestorePointInput) : tx db RestorePointInput :=
  if nonempty (rpi_BackupTaskID input) && bool_decide (rpi_SizeMetricsV2 input = ∅) then
    found ← attempt (query (fun d =>
      t ← tasks d !! rpi_BackupTaskID input;
      if sql_eq (t_protection_plan_id t) (nullif (rpi_ProtectionPlanID input))
      then Some (get (t_payload t) "sizeMetricsV2") else None));
    match found with
    | inl ErrNoRows => mret input
    | inl err => fail err
    | inr VNull => mret input
    | inr (VObj metrics) =>
        if bool_decide (metrics = ∅) then mret input
        else mret (with_metadata input
               (<["sizeMetricsV2" := VObj metrics]> (rpi_Metadata input)) metrics)
    | inr _ => fail ErrUnmarshal
    end
  else mret input.

(** ** The reservation of the backup *)

Definition reservation_of (taskID : string) (d : db) : option reservation_row :=
  reservations d !! taskID.

Section location.
Context (LoadLocation : string -> option location).

(** State and replaced point of the task's reservation; a task that has none
    reserves its slot now.  Both are empty when the plan has no count. *)
Definition findReservation (input : RestorePointInput) (now : time) : tx db (string * string) :=
  let taskID := rpi_BackupTaskID input in
  let columns (v : reservation_row) := (v_state v, text (v_replacement_point_id v)) in
  found ← attempt (query (reservation_of taskID));
  found ←
    match found with
    | inl ErrNoRows =>
        if nonempty (rpi_ProtectionPlanID input) then
          reserveBackupQuota LoadLocation
            {| task_ID := taskID; task_TenantID := ""; task_ClusterID := ""; task_AppID := "";
               task_ProtectionPlanID := rpi_ProtectionPlanID input; task_RestorePointID := "";
               task_Type := "backup"; task_Status := ""; task_Progress := 0; task_CommandID := "";
               task_ErrorCode := ""; task_ErrorMessage := ""; task_Payload := ∅;
               task_CreatedAt := zero_time; task_DispatchedAt := zero_time;
               task_AcceptedAt := zero_time; task_StartedAt := zero_time;
               task_CompletedAt := zero_time |} now;;
          attempt (query (reservation_of taskID))
        else mret found
    | _ => mret found
    end;
  match found with
  | inr v => mret (columns v)
  | inl ErrNoRows => mret ("", "")
  | inl err => fail err
  end.

Definition data_ready_row (pending : value) (v : reservation_row) : reservation_row :=
  {| v_protection_plan_id := v_protection_plan_id v;
     v_replacement_point_id := v_replacement_point_id v;
     v_state := if v_state v =s "reserved" then "data_ready" else v_state v;
     v_pending_point := Some pending; v_cleanup_task_id := v_cleanup_task_id v;
     v_cleanup_attempts := v_cleanup_attempts v; v_created_at := v_created_at v |}.

Definition published_row (pending : value) (v : reservation_row) : reservation_row :=
  {| v_protection_plan_id := v_protection_plan_id v;
     v_replacement_point_id := v_replacement_point_id v; v_state := "published";
     v_pending_point := Some pending; v_cleanup_task_id := v_cleanup_task_id v;
     v_cleanup_attempts := v_cleanup_attempts v; v_created_at := v_created_at v |}.

(** [true]: the replaced point is not deleted yet, and the result now waits as
    the reservation's pending point. *)
Definition awaitReplacement (input : RestorePointInput) (now : time) : tx db bool :=
  if nonempty (rpi_BackupTaskID input) then
    '(state, replacement) ← findReservation input now;
    if state =s "released" then fail (ErrRestorePointQuota "")
    else if nonempty replacement && (state <>s "published") then
      oldStatus ← query (fun d => r_status <$> restore_points d !! replacement);
      if oldStatus <>s "deleted" then
        raw ← or_fail ErrMarshal (marshal_input input);
        exec (update_reservations (fun id _ => id =s rpi_BackupTaskID input)
          (fun _ => data_ready_row raw));;
        mret true
      else mret false
    else mret false
  else mret false.

(** ** The point itself *)

Definition dropped_keys : list string :=
  ["velero"; "size"; "restorePointSize"; "planStorageSize"; "sizeStatus"; "sizeWarnings"].

Definition new_point_row (tenantID : string) (now : time) (input : RestorePointInput) : point_row :=
  {| r_tenant_id := tenantID; r_protection_plan_id := nullif (rpi_ProtectionPlanID input);
     r_source_cluster_id := rpi_SourceClusterID input; r_app_id := nullif (rpi_AppID input);
     r_storage_repo_id := nullif (rpi_StorageRepoID input); r_display_name := "";
     r_velero_backup_name := rpi_VeleroBackupName input; r_point_type := rpi_PointType input;
     r_status := rpi_Status input;
     r_size_bytes := if rpi_SizeBytes input =? 0 then None else Some (rpi_SizeBytes input);
     r_started_at := nullif_time (rpi_StartedAt input);
     r_completed_at := nullif_time (rpi_CompletedAt input);
     r_expires_at := nullif_time (rpi_ExpiresAt input);
     r_metadata := jsonify_doc (rpi_Metadata input); r_created_at := pg_time now;
     r_task_created_at := Some (pg_time
       (if is_zero (rpi_TaskCreatedAt input) then now else rpi_TaskCreatedAt input));
     r_size_metrics_v2 := jsonify_doc (rpi_SizeMetricsV2 input);
     r_backup_task_id := nullif (rpi_BackupTaskID input) |}.

Definition with_task_created (r : point_row) (t : time) : point_row :=
  {| r_tenant_id := r_tenant_id r; r_protection_plan_id := r_protection_plan_id r;
     r_source_cluster_id := r_source_cluster_id r; r_app_id := r_app_id r;
     r_storage_repo_id := r_storage_repo_id r; r_display_name := r_display_name r;
     r_velero_backup_name := r_velero_backup_name r; r_point_type := r_point_type r;
     r_status := r_status r; r_size_bytes := r_size_bytes r; r_started_at := r_started_at r;
     r_completed_at := r_completed_at r; r_expires_at := r_expires_at r;
     r_metadata := r_metadata r; r_created_at := r_created_at r; r_task_created_at := Some t;
     r_size_metrics_v2 := r_size_metrics_v2 r; r_backup_task_id := r_backup_task_id r |}.

(** The [do update set] of the upsert. *)
Definition merge_point (old excluded : point_row) : point_row :=
  {| r_tenant_id := r_tenant_id old; r_protection_plan_id := r_protection_plan_id old;
     r_source_cluster_id := r_source_cluster_id old;
     r_app_id := coalesce (r_app_id old) (r_app_id excluded);
     r_storage_repo_id := coalesce (r_storage_repo_id old) (r_storage_repo_id excluded);
     r_display_name := ""; r_velero_backup_name := r_velero_backup_name old;
     r_point_type := r_point_type old; r_status := r_status old;
     r_size_bytes := coalesce (r_size_bytes excluded) (r_size_bytes old);
     r_started_at := r_started_at old;
     r_completed_at := coalesce (r_completed_at excluded) (r_completed_at old);
     r_expires_at := r_expires_at old;
     r_metadata :=
       foldr delete (r_metadata excluded) dropped_keys ∪ r_metadata old;
     r_created_at := r_created_at old;
     r_task_created_at := coalesce (r_task_created_at old) (r_task_created_at excluded);
     r_size_metrics_v2 :=
       if bool_decide (r_size_metrics_v2 excluded = ∅) then r_size_metrics_v2 old
       else r_size_metrics_v2 excluded;
     r_backup_task_id := coalesce (r_backup_task_id old) (r_backup_task_id excluded) |}.

Definition point_references_ok (d : db) (r : point_row) : bool :=
  fk (r_protection_plan_id r) (protection_plans d) &&
  fk (Some (r_source_cluster_id r)) (clusters d) &&
  fk (r_app_id r) (applications d) && fk (r_storage_repo_id r) (storage_repositories d).

(** [insert into restore_points ... on conflict (source_cluster_id,
    velero_backup_name) do update ...], with the trigger on both. *)
Definition upsert_point (id : string) (r : point_row) (d : db) : option (db * Z) :=
  created ← backup_task_guard d (r_backup_task_id r) (r_protection_plan_id r);
  let r := with_task_created r created in
  match point_named (r_source_cluster_id r) (r_velero_backup_name r) d with
  | None =>
      if bool_decide (is_Some (restore_points d !! id)) || negb (point_references_ok d r)
      then None
      else Some (set_restore_points d (<[id := r]> (restore_points d)), 1)
  | Some k =>
      old ← restore_points d !! k;
      let merged := merge_point old r in
      created ← backup_task_guard d (r_backup_task_id merged) (r_protection_plan_id merged);
      let merged := with_task_created merged created in
      if point_references_ok d merged
      then Some (set_restore_points d (<[k := merged]> (restore_points d)), 1) else None
  end.

(** The task of a published result. *)
Definition publish_row (now : time) (pointID : option string) (t : task_row) : task_row :=
  {| t_tenant_id := t_tenant_id t; t_cluster_id := t_cluster_id t; t_app_id := t_app_id t;
     t_protection_plan_id := t_protection_plan_id t; t_restore_point_id := pointID;
     t_type := t_type t; t_status := "succeeded"; t_progress := 100;
     t_command_id := t_command_id t; t_error_code := None; t_error_message := None;
     t_payload :=
       <["quotaStage" := VStr "published"]>
       (<["restorePointId" := match pointID with Some id => VStr id | None => VNull end]>
         (t_payload t));
     t_created_at := t_created_at t; t_dispatched_at := t_dispatched_at t;
     t_accepted_at := t_accepted_at t; t_started_at := t_started_at t;
     t_completed_at := coalesce (t_completed_at t) (Some (pg_time now)) |}.

Definition published_event (taskID : string) (now : time) : event_row :=
  {| e_task_id := taskID; e_level := "info"; e_reason := Some "completed";
     e_message := "Backup result accepted and restore point published.";
     e_payload := {[ "backupResultPublished" := VBool true ]}; e_created_at := pg_time now |}.

(** ** Listing *)

Definition point_summary_keys : list string :=
  ["sourceNamespace"; "labelSelector"; "backupTaskId"; "backupStorageName"; "includedNamespaces";
   "scheduled"; "retentionState"; "retentionWarning"; "manualRetained"; "drillRetained";
   "replacementTaskId"; "protectionCleanupState"].

Definition point_matches (filter : RestorePointFilter) (d : db) (r : point_row) : bool :=
  when_given (pf_TenantID filter) (r_tenant_id r =s pf_TenantID filter) &&
  when_given (pf_ClusterID filter) (r_source_cluster_id r =s pf_ClusterID filter) &&
  when_given (pf_AppID filter) (sql_eq (r_app_id r) (Some (pf_AppID filter))) &&
  when_given (pf_ProtectionPlanID filter) (of_plan (pf_ProtectionPlanID filter) r) &&
  (pf_IncludeDeleted filter ||
   (r_status r <>s "deleted") &&
   match r_protection_plan_id r ≫= fun plan => protection_plans d !! plan with
   | Some pp => p_source_cluster_id pp =s r_source_cluster_id r
   | None => false
   end).

Definition newest_point_le (x y : string * point_row) : Prop :=
  r_created_at (snd y) <= r_created_at (snd x).
#[export] Instance newest_point_le_dec : RelDecision newest_point_le.
Proof. intros x y. unfold newest_point_le. apply _. Defined.

Definition offset {A} (n : Z) (l : list A) : list A := if 0 <? n then drop (Z.to_nat n) l else l.

Definition listed_point (summary : bool) (x : string * point_row) : RestorePoint :=
  let '(id, r) := x in
  point_of_row id
    (if summary then point_with_metadata r (summarize point_summary_keys (r_metadata r)) else r).

Definition ListRestorePoints (filter : RestorePointFilter) : tx db (list RestorePoint) :=
  select (fun d => listed_point (pf_Summary filter) <$>
    limit (pf_Limit filter) (offset (pf_Offset filter)
      (merge_sort newest_point_le
        (List.filter (fun '(_, r) => point_matches filter d r) (map_to_list (restore_points d)))))).

(** ** createRestorePoint *)

Definition created_point (id tenantID : string) (now : time) (input : RestorePointInput)
    : RestorePoint :=
  {| rp_ID := id; rp_TenantID := tenantID; rp_ProtectionPlanID := rpi_ProtectionPlanID input;
     rp_SourceClusterID := rpi_SourceClusterID input; rp_AppID := rpi_AppID input;
     rp_StorageRepoID := rpi_StorageRepoID input; rp_DisplayName := "";
     rp_VeleroBackupName := rpi_VeleroBackupName input; rp_PointType := rpi_PointType input;
     rp_Status := rpi_Status input; rp_SizeBytes := rpi_SizeBytes input;
     rp_StartedAt := rpi_StartedAt input; rp_CompletedAt := rpi_CompletedAt input;
     rp_ExpiresAt := rpi_ExpiresAt input; rp_SourceNamespace := rpi_SourceNamespace input;
     rp_LabelSelector := rpi_LabelSelector input; rp_BackupTaskID := rpi_BackupTaskID input;
     rp_BackupStorageName := rpi_BackupStorageName input;
     rp_TaskCreatedAt :=
       if is_zero (rpi_TaskCreatedAt input) then now else rpi_TaskCreatedAt input;
     rp_Metadata := rpi_Metadata input; rp_SizeMetricsV2 := rpi_SizeMetricsV2 input;
     rp_CreatedAt := now |}.

Definition clusterFilter (clusterID : string) : RestorePointFilter :=
  {| pf_TenantID := ""; pf_ClusterID := clusterID; pf_AppID := ""; pf_ProtectionPlanID := "";
     pf_IncludeDeleted := false; pf_Limit := 0; pf_Offset := 0; pf_Summary := false |}.

(** The statements from the insertion to the end of the transaction. *)
Definition storePoint (finalizeBackup : bool) (id eventID tenantID : string) (now : time)
    (input : RestorePointInput) : tx db unit :=
  let taskID := rpi_BackupTaskID input in
  exec (upsert_point id (new_point_row tenantID now input));;
  (if nonempty taskID then
     raw ← or_fail ErrMarshal (marshal_input input);
     exec (update_reservations (fun k v => (k =s taskID) && active_reservation v)
       (fun _ => published_row raw));; mret tt
   else mret tt);;
  (if finalizeBackup then
     exec (fun d => update_task taskID
       (publish_row now
         (point_named (rpi_SourceClusterID input) (rpi_VeleroBackupName input) d)) d);;
     exec (insert_event eventID (published_event taskID now));; mret tt
   else mret tt).

Definition clusterTenant (clusterID : string) : tx db string :=
  found ← attempt (query (fun d => k_tenant_id <$> clusters d !! clusterID));
  match found with
  | inl ErrNoRows => fail ErrTenantResourceMismatch
  | inl err => fail err
  | inr tenantID => mret tenantID
  end.

(** What the transaction ends in, before its commit. *)
Inductive publication :=
| Replayed (pointID : string)
| Pending
| Stored (tenantID : string) (input : RestorePointInput).

Definition publishPoint (finalizeBackup : bool) (id eventID : string) (now : time)
    (input : RestorePointInput) : tx db publication :=
  let input := normalize_input input in
  quotaPlanLock (rpi_ProtectionPlanID input);;
  tenantID ← clusterTenant (rpi_SourceClusterID input);
  validateRestorePointReferences input tenantID;;
  accepted ← (if finalizeBackup then acceptBackupResult input tenantID else mret (Publish input));
  match accepted with
  | AlreadyPublished pointID => mret (Replayed pointID)
  | Publish input =>
      input ← fillSizeMetrics input;
      pending ← awaitReplacement input now;
      if pending : bool then mret Pending
      else storePoint finalizeBackup id eventID tenantID now input;; mret (Stored tenantID input)
  end.

Definition createRestorePoint (finalizeBackup : bool) (id eventID : string) (now : time)
    (input : RestorePointInput) : tx db RestorePoint :=
  begin_tx;;
  published ← publishPoint finalizeBackup id eventID now input;
  commit;;
  match published with
  | Replayed pointID =>
      found ← GetRestorePoint pointID;
      match found with Some point => mret point | None => fail ErrBackupResultConflict end
  | Pending => fail ErrRestorePointReplacementPending
  | Stored tenantID input =>
      points ← ListRestorePoints (clusterFilter (rpi_SourceClusterID input));
      mret (default (created_point id tenantID now input)
        (find_first (fun p => rp_VeleroBackupName p =s rpi_VeleroBackupName input) points))
  end.

Definition PublishBackupResult := createRestorePoint true.
Definition CreateRestorePoint := createRestorePoint false.

End location.

(** ** Updates *)

(** The columns the update returns: all but backup_task_id and size_metrics_v2. *)
Definition returned_point (id : string) (r : point_row) : RestorePoint :=
  point_of_row id
    {| r_tenant_id := r_tenant_id r; r_protection_plan_id := r_protection_plan_id r;
       r_source_cluster_id := r_source_cluster_id r; r_app_id := r_app_id r;
       r_storage_repo_id := r_storage_repo_id r; r_display_name := r_display_name r;
       r_velero_backup_name := r_velero_backup_name r; r_point_type := r_point_type r;
       r_status := r_status r; r_size_bytes := r_size_bytes r;
       r_started_at := r_started_at r; r_completed_at := r_completed_at r;
       r_expires_at := r_expires_at r; r_metadata := r_metadata r;
       r_created_at := r_created_at r; r_task_created_at := r_task_created_at r;
       r_size_metrics_v2 := ∅; r_backup_task_id := None |}.

Definition state_row (status : string) (patch : document) (r : point_row) : point_row :=
  point_with_state r (if r_status r =s "deleted" then r_status r else status)
    (patch ∪ r_metadata r).

Definition set_point_state (id status : string) (patch : document) (d : db)
    : option (db * option RestorePoint) :=
  match restore_points d !! id with
  | None => Some (d, None)
  | Some r =>
      let r' := state_row status patch r in
      Some (set_restore_points d (<[id := r']> (restore_points d)), Some (returned_point id r'))
  end.

Definition UpdateRestorePointState (input : RestorePointStateInput)
    : tx db (option RestorePoint) :=
  if negb (nonempty (rps_ID input)) then mret None
  else
    let status := if nonempty (rps_Status input) then rps_Status input else "available" in
    begin_tx;;
    found ← attempt (query (fun d =>
      text ∘ r_protection_plan_id <$> restore_points d !! rps_ID input));
    match found with
    | inl ErrNoRows => rollback;; mret None
    | inl err => fail err
    | inr planID =>
        quotaPlanLock planID;;
        item ← exec (set_point_state (rps_ID input) status (jsonify_doc (rps_Metadata input)));
        match item with
        | None => rollback;; mret None
        | Some item => commit;; mret (Some item)
        end
    end.

Definition UpdateRestorePointSizeMetrics (id : string) (metrics : document) : tx db unit :=
  if negb (nonempty id) || bool_decide (metrics = ∅) then mret tt
  else
    let raw := jsonify_doc metrics in
    exec (update_points
      (fun k r => (k =s id) && bool_decide (r_size_metrics_v2 r = ∅))
      (fun _ r =>
         {| r_tenant_id := r_tenant_id r; r_protection_plan_id := r_protection_plan_id r;
            r_source_cluster_id := r_source_cluster_id r; r_app_id := r_app_id r;
            r_storage_repo_id := r_storage_repo_id r; r_display_name := r_display_name r;
            r_velero_backup_name := r_velero_backup_name r; r_point_type := r_point_type r;
            r_status := r_status r; r_size_bytes := r_size_bytes r;
            r_started_at := r_started_at r; r_completed_at := r_completed_at r;
            r_expires_at := r_expires_at r;
            r_metadata := <["sizeMetricsV2" := VObj raw]> (r_metadata r);
            r_created_at := r_created_at r; r_task_created_at := r_task_created_at r;
            r_size_metrics_v2 := raw; r_backup_task_id := r_backup_task_id r |}));;
    commit.

(** ** Errors before the commit leave the database alone *)

Lemma quiet_clusterTenant id : quiet (clusterTenant id).
Proof. unfold clusterTenant. tx_walk. Qed.
Lemma quiet_acceptBackupResult input tenantID : quiet (acceptBackupResult input tenantID).
Proof. unfold acceptBackupResult. tx_walk. Qed.
Lemma quiet_fillSizeMetrics input : quiet (fillSizeMetrics input).
Proof. unfold fillSizeMetrics. tx_walk. Qed.
Lemma quiet_awaitReplacement LL input now : quiet (awaitReplacement LL input now).
Proof. unfold awaitReplacement, findReservation. tx_walk. Qed.
Lemma quiet_storePoint finalize id eventID tenantID now input :
  quiet (storePoint finalize id eventID tenantID now input).
Proof. unfold storePoint. tx_walk. Qed.
#[export] Hint Resolve quiet_clusterTenant quiet_acceptBackupResult quiet_fillSizeMetrics
  quiet_awaitReplacement quiet_storePoint : tx.

Lemma quiet_publishPoint LL finalize id eventID now input :
  quiet (publishPoint LL finalize id eventID now input).
Proof. unfold publishPoint, validateRestorePointReferences. tx_walk. Qed.
#[export] Hint Resolve quiet_publishPoint : tx.

Lemma begin_clean {D} (d : D) fuse s' u :
  begin_tx (Session d d fuse) = (s', inr u) -> committed s' = d /\ working s' = d.
Proof. intros H. by apply begin_inr in H. Qed.

(** A run of createRestorePoint either leaves the database alone, or commits what
    [publishPoint] made of it. *)
Lemma createRestorePoint_run LL finalize id eventID now input fuse d d' r :
  run (createRestorePoint LL finalize id eventID now input) fuse d = (d', r) ->
  (d' = d /\ exists e, r = inl e) \/
  exists s1 s2 published,
    working s1 = d /\
    publishPoint LL finalize id eventID now input s1 = (s2, inr published) /\
    d' = working s2 /\
    (published = Pending -> r = inl ErrRestorePointReplacementPending).
Proof.
  unfold run. destruct (createRestorePoint _ _ _ _ _ _ _) as [s r'] eqn:E. intros [= <- <-].
  unfold createRestorePoint in E. unfold mbind at 1, tx_bind at 1 in E.
  destruct (begin_tx _) as [s1 [e|u]] eqn:E1.
  { injection E as <- <-. left. split; [|by exists e].
    pose proof (quiet_begin (Session d d fuse)) as Hq. by rewrite E1 in Hq. }
  apply begin_clean in E1 as [Hc1 Hw1]. unfold mbind at 1, tx_bind at 1 in E.
  pose proof (quiet_publishPoint LL finalize id eventID now input s1) as Hq.
  destruct (publishPoint _ _ _ _ _ _ s1) as [s2 [e|published]] eqn:E2; simpl in Hq.
  { injection E as <- <-. left. split; [congruence|by exists e]. }
  unfold mbind at 1, tx_bind at 1 in E.
  destruct (commit s2) as [s3 [e|u3]] eqn:E3.
  { injection E as <- <-. left. apply commit_inl in E3. split; [congruence|by exists e]. }
  apply commit_inr in E3 as [Hc3 _]. right. exists s1, s2, published.
  split; [done|]. split; [done|]. rewrite <- Hc3. destruct published.
  - split; [|done].
    assert (Hq' : quiet (found ← GetRestorePoint pointID;
      match found with Some point => mret point | None => fail ErrBackupResultConflict end))
      by tx_walk.
    specialize (Hq' s3). by rewrite E in Hq'.
  - injection E as <- <-. done.
  - split; [|done].
    assert (Hq' : quiet (points ← ListRestorePoints (clusterFilter (rpi_SourceClusterID input0));
      mret (default (created_point id tenantID now input0)
        (find_first (fun p => rp_VeleroBackupName p =s rpi_VeleroBackupName input0) points))))
      by (unfold ListRestorePoints; tx_walk).
    specialize (Hq' s3). by rewrite E in Hq'.
Qed.

(** ** Acceptance *)

(** The snapshot a task holds, if any. *)
Definition accepted_snapshot (t : task_row) : option value :=
  match get (t_payload t) "backupResult" with VNull => None | v => Some v end.

(** The report agrees with the snapshot. *)
Definition agrees (input snapshot : RestorePointInput) : Prop :=
  rpi_VeleroBackupName snapshot = rpi_VeleroBackupName input /\
  backupMetricsEqual (rpi_SizeMetricsV2 snapshot) (rpi_SizeMetricsV2 input) = true.

Record acceptable (d : db) (input : RestorePointInput) (tenantID : string) (t : task_row) : Prop := {
  acc_task : backup_task input tenantID d = Some t;
  acc_type : t_type t = "backup";
  acc_status : rejected_status (t_status t) = false;
  acc_conflict : conflicting_point input tenantID d = false
}.

Lemma acceptBackupResult_inr input tenantID s s' accepted :
  acceptBackupResult input tenantID s = (s', inr accepted) ->
  exists t, acceptable (working s) input tenantID t /\
  match accepted_snapshot t, accepted with
  | None, Publish input' =>
      input' = input /\ CompleteBackupMetrics (rpi_SizeMetricsV2 input) = true /\
      exists snapshot n, marshal_input input = Some snapshot /\
        update_task (rpi_BackupTaskID input) (accept_row input snapshot) (working s)
          = Some (working s', n)
  | Some v, Publish snapshot =>
      working s' = working s /\ unmarshal_input v = Some snapshot /\ agrees input snapshot /\
      ~ (t_status t = "succeeded" /\ text (t_restore_point_id t) <> "")
  | Some v, AlreadyPublished pointID =>
      working s' = working s /\ t_status t = "succeeded" /\
      pointID = text (t_restore_point_id t) /\ pointID <> "" /\
      exists snapshot, unmarshal_input v = Some snapshot /\ agrees input snapshot
  | None, AlreadyPublished _ => False
  end.
Proof.
  unfold acceptBackupResult. intros H.
  apply bind_inr in H as (conflict & s1 & H1 & H). apply select_inr in H1 as (_ & Hw1 & ->).
  destruct (conflicting_point _ _ _) eqn:Hconf; [by tx_inv|].
  apply bind_inr in H as (t & s2 & H2 & H). apply query_inr in H2 as (_ & Hw2 & Ht).
  rewrite Hw1 in Ht. assert (Hw : working s2 = working s) by congruence. clear Hw1 Hw2.
  destruct (_ || _) eqn:Hrej; [by tx_inv|]. go_bool. destruct Hrej as [Htype Hst].
  exists t. split; [by split|]. unfold accepted_snapshot.
  destruct (get (t_payload t) "backupResult") eqn:Hsnap.
  { destruct (CompleteBackupMetrics _) eqn:Hm; [|by tx_inv]. cbn [negb] in H.
    apply bind_inr in H as (snapshot & s3 & H3 & H).
    unfold or_fail in H3. destruct (marshal_input input) as [raw|]; [|by tx_inv].
    apply ret_inr in H3 as [-> ->]. apply bind_inr in H as (n & s4 & H4 & H).
    apply exec_inr in H4 as [_ H4]. rewrite Hw in H4. apply ret_inr in H as [-> ->].
    split; [done|]. split; [done|]. by exists raw, n. }
  all: apply bind_inr in H as (snapshot & s3 & H3 & H); unfold or_fail in H3;
    destruct (unmarshal_input _) as [snap|] eqn:Hun; [|by tx_inv];
    apply ret_inr in H3 as [-> ->];
    destruct (_ || _) eqn:Hag in H; [by tx_inv|]; go_bool; destruct Hag as [Hname Hmetrics];
    destruct (_ && _) eqn:Hdone in H; go_bool; apply ret_inr in H as [-> ->]; split_and!;
    try done; try tauto; eexists; done.
Qed.

Lemma reads_clusterTenant id : reads (clusterTenant id).
Proof. unfold reads, clusterTenant. tx_walk. Qed.

Lemma reads_fillSizeMetrics input : reads (fillSizeMetrics input).
Proof. unfold reads, fillSizeMetrics. tx_walk. Qed.

Lemma clusterTenant_inr id s s' tenantID :
  clusterTenant id s = (s', inr tenantID) -> (k_tenant_id <$> clusters (working s) !! id) = Some tenantID.
Proof.
  unfold clusterTenant. intros (found & s1 & H1 & H)%bind_inr. apply attempt_inr in H1.
  destruct found as [[]|t]; by tx_inv.
Qed.

(** The steps of a publication that was not rejected. *)
Lemma publishPoint_steps LL id eventID now input s s' published :
  publishPoint LL true id eventID now input s = (s', inr published) ->
  let input := normalize_input input in
  exists tenantID s0 s1 accepted,
    (k_tenant_id <$> clusters (working s) !! rpi_SourceClusterID input) = Some tenantID /\
    working s0 = working s /\
    acceptBackupResult input tenantID s0 = (s1, inr accepted) /\
    match accepted with
    | AlreadyPublished pointID => published = Replayed pointID /\ s' = s1
    | Publish input1 => exists input2 s2 s3 pending,
        fillSizeMetrics input1 s1 = (s2, inr input2) /\ working s2 = working s1 /\
        awaitReplacement LL input2 now s2 = (s3, inr pending) /\
        if pending : bool then published = Pending /\ s' = s3
        else storePoint true id eventID tenantID now input2 s3 = (s', inr tt) /\
             published = Stored tenantID input2
    end.
Proof.
  unfold publishPoint. intros H.
  apply bind_inr in H as (u & s1 & H1 & H). apply reads_inr in H1; [|apply reads_quotaPlanLock].
  apply bind_inr in H as (tenantID & s2 & H2 & H).
  pose proof H2 as Ht. apply clusterTenant_inr in Ht.
  apply reads_inr in H2; [|apply reads_clusterTenant].
  apply bind_inr in H as (u2 & s3 & H3 & H). apply reads_inr in H3; [|apply reads_validateReferences].
  apply bind_inr in H as (accepted & s4 & H4 & H).
  exists tenantID, s3, s4, accepted. split; [by rewrite <- H1|]. split; [congruence|].
  split; [done|]. destruct accepted as [pid|input1].
  - by apply ret_inr in H as [-> ->].
  - apply bind_inr in H as (input2 & s5 & H5 & H). pose proof H5 as Hw5.
    apply reads_inr in Hw5; [|apply reads_fillSizeMetrics].
    apply bind_inr in H as (pending & s6 & H6 & H). exists input2, s5, s6, pending.
    split; [done|]. split; [done|]. split; [done|]. destruct pending.
    + by apply ret_inr in H as [-> ->].
    + apply bind_inr in H as ([] & s7 & H7 & H). by apply ret_inr in H as [-> ->].
Qed.

(** The task a report was accepted for; once published, it is only replayed. *)
Lemma publishPoint_accepted LL id eventID now input s s' published :
  publishPoint LL true id eventID now input s = (s', inr published) ->
  exists tenantID t, acceptable (working s) (normalize_input input) tenantID t /\
    (accepted_snapshot t <> None -> t_status t = "succeeded" ->
     text (t_restore_point_id t) <> "" -> exists pointID, published = Replayed pointID).
Proof.
  intros H. apply publishPoint_steps in H as (tenantID & s0 & s1 & accepted & _ & Hw0 & Hacc & H).
  apply acceptBackupResult_inr in Hacc as (t & Hok & Hacc). rewrite Hw0 in Hok.
  exists tenantID, t. split; [done|]. intros Hsnap Hst Hpid.
  destruct accepted as [pid|input1]; [destruct H as [-> _]; by exists pid|].
  destruct (accepted_snapshot t); [|done]. destruct Hacc as (_ & _ & _ & Hno). tauto.
Qed.

(** *** Reports that come late *)

(** Once a backup task has succeeded with its result accepted and its point
    published, no report about it changes the database: a repeated report is
    answered, a contradicting one refused. *)
Theorem published_result_is_final LL id eventID now input fuse d d' r t snapshot :
  tasks d !! rpi_BackupTaskID input = Some t -> t_status t = "succeeded" ->
  text (t_restore_point_id t) <> "" -> accepted_snapshot t = Some snapshot ->
  run (PublishBackupResult LL id eventID now input) fuse d = (d', r) -> d' = d.
Proof.
  intros Ht Hst Hpoint Hsnap H.
  unfold PublishBackupResult in H. apply createRestorePoint_run in H as [[-> _]|(s1 & s2 & published & Hw & H & -> & _)]; [done|].
  apply publishPoint_steps in H as (tenantID & s0 & s3 & accepted & _ & Hw0 & Hacc & H).
  apply acceptBackupResult_inr in Hacc as (t' & Hok & Hacc).
  assert (t' = t) as ->.
  { pose proof (acc_task _ _ _ _ Hok) as Htask. unfold backup_task in Htask.
    rewrite Hw0, Hw in Htask. simpl in Htask. unfold nullif in Htask.
    destruct (nonempty _); [|done]. simpl in Htask. rewrite Ht in Htask. simpl in Htask.
    destruct (_ && _); congruence. }
  rewrite Hsnap in Hacc. destruct accepted as [pid|input1].
  - destruct H as [_ ->]. destruct Hacc as [-> _]. congruence.
  - by destruct Hacc as (_ & _ & _ & []).
Qed.


(** ** Waiting for the replaced point *)

Lemma insert_reservation_standing id v d d' n :
  insert_reservation id v d = Some (d', n) -> same_standing d d'.
Proof. intros (-> & _)%insert_reservation_inv. done. Qed.
Lemma release_failed_standing planID d d' n :
  release_failed planID d = Some (d', n) -> same_standing d d'.
Proof. by intros (? & _)%release_failed_inv. Qed.
Lemma update_metadata_standing p g d d' n :
  update_points p (fun k r => point_with_metadata r (g k r)) d = Some (d', n) -> same_standing d d'.
Proof. by intros (? & _)%update_metadata. Qed.

Lemma standing_reserve LL task now : moves same_standing (reserveBackupQuota LL task now).
Proof.
  unfold reserveBackupQuota, releaseFailedBackupReservations_tx, quotaPoints, selections_of,
    pick_replacement, choose_replacement, insert_slot.
  tx_walk; eauto using insert_reservation_standing, release_failed_standing.
  by eapply (update_metadata_standing _ (fun _ r => <["replacementTaskId" := VStr (task_ID task)]>
    (r_metadata r))).
Qed.

Definition reservation_columns (o : option reservation_row) : string * string :=
  match o with
  | Some v => (v_state v, text (v_replacement_point_id v))
  | None => ("", "")
  end.

Lemma attempt_lookup {A} (f : db -> option A) s s' r :
  attempt (query f) s = (s', inr r) ->
  r = inl ErrDriver \/
  working s' = working s /\
  r = match f (working s) with Some a => inr a | None => inl ErrNoRows end.
Proof.
  intros H%attempt_inr. unfold query in H. destruct (burn s) as [s1|] eqn:E.
  - right. apply burn_Some in E as [_ Hw]. rewrite Hw in H.
    destruct (f (working s)); injection H as <- <-; done.
  - left. by injection H as <- <-.
Qed.

Lemma findReservation_inr LL input now s s' columns :
  findReservation LL input now s = (s', inr columns) ->
  keeps_tasks (working s) (working s') /\ same_standing (working s) (working s') /\
  columns = reservation_columns (reservations (working s') !! rpi_BackupTaskID input) /\
  (reservations (working s) !! rpi_BackupTaskID input <> None -> working s' = working s).
Proof.
  unfold findReservation. intros H.
  apply bind_inr in H as (found & s1 & H1 & H). apply attempt_lookup in H1.
  apply bind_inr in H as (found2 & s2 & H2 & H).
  assert (Hlast : s' = s2 /\ match found2 with
    | inr v => columns = reservation_columns (Some v)
    | inl ErrNoRows => columns = reservation_columns None | inl _ => False end).
  { destruct found2 as [[]|v]; try (by tx_inv); by apply ret_inr in H as [-> ->]. }
  clear H. destruct Hlast as [-> Hlast].
  destruct H1 as [->|[Hw1 ->]]; [by apply ret_inr in H2 as [-> ->]|].
  unfold reservation_of in *. destruct (reservations (working s) !! _) as [v|] eqn:Hv.
  - apply ret_inr in H2 as [-> ->]. rewrite Hw1. rewrite Hv. done.
  - destruct (nonempty _).
    + apply bind_inr in H2 as (u & s3 & H3 & H2).
      match type of H3 with reserveBackupQuota _ ?t _ _ = _ =>
        pose proof (keeps_tasks_reserve LL t now s1) as Hk;
        pose proof (standing_reserve LL t now s1) as Hs end.
      rewrite H3 in Hk, Hs. simpl in Hk, Hs. rewrite Hw1 in *.
      apply attempt_lookup in H2 as [->|[Hw3 ->]]; [done|]. rewrite Hw3.
      split_and!; try done. by destruct (reservations (working s3) !! _).
    + apply ret_inr in H2 as [-> ->]. rewrite Hw1, Hv. done.
Qed.

(** Published, or with nothing left to replace. *)
Definition slot_free (d : db) (v : reservation_row) : Prop :=
  v_state v <> "released" /\
  (v_state v <> "published" -> forall id, v_replacement_point_id v = Some id -> id <> "" ->
     r_status <$> restore_points d !! id = Some "deleted").

Lemma awaitReplacement_inr LL input now s s' pending :
  awaitReplacement LL input now s = (s', inr pending) ->
  keeps_tasks (working s) (working s') /\ same_standing (working s) (working s') /\
  (reservations (working s) !! rpi_BackupTaskID input <> None -> pending = false ->
     working s' = working s) /\
  match pending with
  | false => rpi_BackupTaskID input <> "" -> forall v,
      reservations (working s') !! rpi_BackupTaskID input = Some v -> slot_free (working s') v
  | true => exists v raw d1,
      marshal_input input = Some raw /\ v_state v <> "released" /\ v_state v <> "published" /\
      reservations d1 !! rpi_BackupTaskID input = Some v /\
      (reservations (working s) !! rpi_BackupTaskID input <> None -> d1 = working s) /\
      reservations (working s') =
        fst (update_where (fun id _ => id =s rpi_BackupTaskID input) (fun _ => data_ready_row raw)
               (reservations d1))
  end.
Proof.
  unfold awaitReplacement. destruct (nonempty (rpi_BackupTaskID input)) eqn:Hid.
  2: { apply nonempty_false in Hid. intros H. apply ret_inr in H as [-> ->]. done. }
  intros ([state replacement] & s1 & H1 & H)%bind_inr.
  apply findReservation_inr in H1 as (Hk & Hs & Hcols & Hsame).
  destruct (state =s "released") eqn:Hrel; [by tx_inv|]. go_bool.
  destruct (_ && _) eqn:Hwait; go_bool.
  - destruct Hwait as [Hrep Hpub].
    apply bind_inr in H as (old & s2 & H2 & H). apply query_inr in H2 as (_ & Hw2 & Hold).
    destruct (old <>s "deleted") eqn:Hdel; go_bool.
    + apply bind_inr in H as (raw & s3 & H3 & H). unfold or_fail in H3.
      destruct (marshal_input input) as [raw'|] eqn:Hm; [|by tx_inv].
      apply ret_inr in H3 as [-> ->]. apply bind_inr in H as (n & s4 & H4 & H).
      apply exec_inr in H4 as [_ H4]. apply ret_inr in H as [-> ->].
      unfold update_reservations in H4. injection H4 as H4 _. rewrite Hw2 in H4.
      rewrite <- H4. split; [done|]. split; [done|]. split; [done|].
      destruct (reservations (working s1) !! _) as [v|] eqn:Hv; [|by simplify_eq/=].
      injection Hcols as -> ->. exists v, raw', (working s1). split_and!; try done.
    + apply ret_inr in H as [-> ->]. rewrite Hw2. split_and!; try done; [by intros; apply Hsame|].
      intros _ v Hv. rewrite Hv in Hcols. injection Hcols as -> ->. split; [done|].
      intros _ id Hid' _. rewrite Hid' in Hold. simpl in Hold. by rewrite Hold, Hdel.
  - apply ret_inr in H as [-> ->]. split_and!; try done; [by intros; apply Hsame|].
    intros _ v Hv. rewrite Hv in Hcols. injection Hcols as -> ->. split; [done|].
    intros Hpub id Hid' Hne. destruct Hwait as [Hr|Hr]; [|congruence].
    rewrite Hid' in Hr. simpl in Hr. congruence.
Qed.

(** ** Storing the point *)

Lemma point_named_Some cluster name d k :
  point_named cluster name d = Some k ->
  exists r, restore_points d !! k = Some r /\ named cluster name r = true.
Proof.
  unfold point_named. destruct (List.filter _ _) as [|[j r] l] eqn:E; [done|].
  simpl. intros [= <-]. exists r.
  assert (Hin : (j, r) ∈ List.filter (fun '(_, r) => named cluster name r)
    (map_to_list (restore_points d))) by (rewrite E; left).
  apply list_elem_of_In, List.filter_In in Hin as [Hin Hn]. split; [|done].
  by apply elem_of_map_to_list, list_elem_of_In.
Qed.

Lemma point_named_None cluster name d :
  point_named cluster name d = None <->
  forall k r, restore_points d !! k = Some r -> named cluster name r = false.
Proof.
  unfold point_named. split.
  - intros H k r Hk. destruct (named cluster name r) eqn:E; [|done].
    destruct (List.filter _ _) eqn:Ef; [|done].
    assert (Hin : In (k, r) (List.filter (fun '(_, r) => named cluster name r)
      (map_to_list (restore_points d)))).
    { apply List.filter_In. split; [|done]. by apply list_elem_of_In, elem_of_map_to_list. }
    rewrite Ef in Hin. destruct Hin.
  - intros H. destruct (List.filter _ _) as [|[j r] l] eqn:E; [done|]. exfalso.
    assert (Hin : In (j, r) ((j, r) :: l)) by (by left).
    rewrite <- E in Hin. apply List.filter_In in Hin as [Hin Hn].
    apply list_elem_of_In, elem_of_map_to_list in Hin. rewrite (H j r Hin) in Hn. done.
Qed.

(** The upsert writes one row, the point of that name: a new one as given, or an
    old one that keeps its plan and status. *)
Lemma upsert_point_inv id r d d' n :
  upsert_point id r d = Some (d', n) ->
  exists k r', d' = set_restore_points d (<[k := r']> (restore_points d)) /\
    named (r_source_cluster_id r) (r_velero_backup_name r) r' = true /\
    ((restore_points d !! k = None /\ k = id /\ point_standing r' = point_standing r /\
      r_backup_task_id r' = r_backup_task_id r) \/
     exists old, restore_points d !! k = Some old /\ point_standing r' = point_standing old /\
      named (r_source_cluster_id r) (r_velero_backup_name r) old = true /\
      r_backup_task_id r' = coalesce (r_backup_task_id old) (r_backup_task_id r)).
Proof.
  unfold upsert_point. destruct (backup_task_guard d _ _) as [created|]; [|done]. simpl.
  destruct (point_named _ _ d) as [k|] eqn:Ek.
  - apply point_named_Some in Ek as (old & Hold & Hn). rewrite Hold. simpl.
    destruct (backup_task_guard d _ _) as [created'|]; [|done]. simpl.
    destruct (point_references_ok _ _); [|done]. intros [= <- _].
    eexists k, _. split; [done|]. split; [done|]. right. exists old. done.
  - destruct (_ || _) eqn:Eok; [done|]. intros [= <- _]. apply orb_false_iff in Eok as [Eid _].
    apply bool_decide_eq_false, eq_None_not_Some in Eid.
    eexists id, _. split; [done|]. split; [|by left].
    unfold named. simpl. by rewrite !seqb_refl.
Qed.

Definition publish_reservations (taskID : string) (raw : value) (d : db)
    : gmap string reservation_row :=
  fst (update_where (fun k v => (k =s taskID) && active_reservation v)
    (fun _ => published_row raw) (reservations d)).

(** What a finished publication of [input] made of the state [d]. *)
Record stored (id tenantID : string) (now : time) (input : RestorePointInput) (d d' : db) := {
  st_upsert : exists d1 n,
    upsert_point id (new_point_row tenantID now input) d = Some (d1, n) /\
    restore_points d' = restore_points d1;
  st_reservations : exists raw, marshal_input input = Some raw /\
    reservations d' = publish_reservations (rpi_BackupTaskID input) raw d;
  st_task : exists pid p, restore_points d' !! pid = Some p /\
    named (rpi_SourceClusterID input) (rpi_VeleroBackupName input) p = true /\
    forall t, tasks d !! rpi_BackupTaskID input = Some t ->
      tasks d' = <[rpi_BackupTaskID input := publish_row now (Some pid) t]> (tasks d)
}.

Lemma storePoint_inr id eventID tenantID now input s s' :
  rpi_BackupTaskID input <> "" ->
  storePoint true id eventID tenantID now input s = (s', inr tt) ->
  stored id tenantID now input (working s) (working s').
Proof.
  intros Htask H. unfold storePoint in H. rewrite (proj2 (nonempty_true _) Htask) in H.
  apply bind_inr in H as (n & s1 & H1 & H). apply exec_inr in H1 as [_ H1].
  apply bind_inr in H as (u & s2 & H2 & H).
  apply bind_inr in H2 as (raw & s3 & H3 & H2). unfold or_fail in H3.
  destruct (marshal_input input) as [raw'|] eqn:Hm; [|by tx_inv].
  apply ret_inr in H3 as [-> ->]. apply bind_inr in H2 as (n2 & s4 & H4 & H2).
  apply exec_inr in H4 as [_ H4]. apply ret_inr in H2 as [-> ->].
  apply bind_inr in H as (n3 & s5 & H5 & H). apply exec_inr in H5 as [_ H5].
  apply bind_inr in H as (n4 & s6 & H6 & H). apply exec_inr in H6 as [_ H6].
  apply ret_inr in H as [-> _].
  unfold insert_event in H6. destruct (_ || _); [done|]. injection H6 as H6 _. rewrite <- H6.
  unfold update_reservations in H4. injection H4 as H4 _.
  pose proof H1 as Hup. apply upsert_point_inv in Hup as (k & r' & Hd1 & Hnamed & _).
  assert (Hk : restore_points (working s4) !! k = Some r').
  { rewrite <- H4, Hd1. apply lookup_insert_eq. }
  destruct (point_named (rpi_SourceClusterID input) (rpi_VeleroBackupName input) (working s4))
    as [pid|] eqn:Hpid.
  2: { exfalso. pose proof (proj1 (point_named_None _ _ _) Hpid k r' Hk) as Hno.
       simpl in Hnamed. congruence. }
  pose proof Hpid as (p & Hp & Hpn)%point_named_Some.
  assert (Htasks4 : tasks (working s4) = tasks (working s)) by (by rewrite <- H4, Hd1).
  assert (Hrest : restore_points (working s5) = restore_points (working s4) /\
    reservations (working s5) = reservations (working s4)).
  { by apply update_task_inv in H5 as [(_ & -> & _)|(t & _ & -> & _)]. }
  destruct Hrest as [Hpts Hres]. split; simpl.
  - exists (working s1), n. split; [done|]. by rewrite Hpts, <- H4.
  - exists raw'. split; [done|]. rewrite Hres, <- H4, Hd1. done.
  - exists pid, p. rewrite Hpts. split; [done|]. split; [done|]. intros t Ht.
    rewrite <- Htasks4 in Ht. rewrite (update_task_row _ _ _ _ _ _ Ht H5). simpl.
    by rewrite Htasks4.
Qed.

(** *** Publishing *)

(** Same task, cluster, plan, backup and status. *)
Definition same_subject (a b : RestorePointInput) : Prop :=
  rpi_BackupTaskID a = rpi_BackupTaskID b /\ rpi_SourceClusterID a = rpi_SourceClusterID b /\
  rpi_ProtectionPlanID a = rpi_ProtectionPlanID b /\
  rpi_VeleroBackupName a = rpi_VeleroBackupName b /\ rpi_Status a = rpi_Status b.

(** The snapshot a task holds is about that task. *)
Definition own_snapshot (t : task_row) (input : RestorePointInput) : Prop :=
  forall v snapshot, accepted_snapshot t = Some v -> unmarshal_input v = Some snapshot ->
    rpi_VeleroBackupName snapshot = rpi_VeleroBackupName input ->
    same_subject snapshot (normalize_input input).

Lemma fillSizeMetrics_subject input s s' input' :
  fillSizeMetrics input s = (s', inr input') -> same_subject input' input.
Proof.
  unfold fillSizeMetrics. destruct (_ && _); [|intros [_ ->]%ret_inr; by split_and!].
  intros (found & s1 & H1 & H)%bind_inr. clear H1.
  destruct found as [[]|[| | | | | | | |metrics]]; try discriminate H;
    try (apply ret_inr in H as [_ ->]; by split_and!).
  destruct (bool_decide (metrics = ∅)); apply ret_inr in H as [_ ->]; by split_and!.
Qed.

Lemma backup_task_inv input tenantID d t :
  backup_task input tenantID d = Some t ->
  rpi_BackupTaskID input <> "" /\ tasks d !! rpi_BackupTaskID input = Some t /\
  t_protection_plan_id t = Some (rpi_ProtectionPlanID input) /\
  t_cluster_id t = Some (rpi_SourceClusterID input).
Proof.
  unfold backup_task, nullif. destruct (nonempty _) eqn:E; [|done]. simpl.
  destruct (tasks d !! _) as [t0|]; [|done]. simpl.
  destruct (_ && _) eqn:Em; [|done]. intros [= ->]. apply nonempty_true in E.
  rewrite !andb_true_iff in Em. destruct Em as [[_ Ec] Em]. by apply sql_eq_Some in Em, Ec.
Qed.

(** A publication that was not a replay: the task as acceptance left it, the
    input that was stored, and the state it was stored from. *)
Lemma publication_steps LL id eventID now input s s' published t :
  tasks (working s) !! rpi_BackupTaskID input = Some t -> own_snapshot t input ->
  publishPoint LL true id eventID now input s = (s', inr published) ->
  (exists pointID, published = Replayed pointID /\ working s' = working s /\
     t_status t = "succeeded" /\ text (t_restore_point_id t) <> "") \/
  exists tenantID t1 input2 s2 s3,
    rpi_BackupTaskID input <> "" /\
    same_subject input2 (normalize_input input) /\
    (accepted_snapshot t = None ->
       CompleteBackupMetrics (rpi_SizeMetricsV2 (normalize_input input)) = true) /\
    tasks (working s2) = <[rpi_BackupTaskID input := t1]> (tasks (working s)) /\
    t_completed_at t1 = t_completed_at t /\ t_status t1 <> "failed" /\
    restore_points (working s2) = restore_points (working s) /\
    reservations (working s2) = reservations (working s) /\
    (t_status t1 = "finalizing" \/ t_status t1 = t_status t) /\
    (if match published with Pending => true | _ => false end
     then awaitReplacement LL input2 now s2 = (s', inr true)
     else awaitReplacement LL input2 now s2 = (s3, inr false) /\
          stored id tenantID now input2 (working s3) (working s')).
Proof.
  intros Ht Hown H. apply publishPoint_steps in H as (tenantID & s0 & s1 & accepted & _ & Hw0 & Hacc & H).
  apply acceptBackupResult_inr in Hacc as (t' & Hok & Hacc).
  pose proof (acc_task _ _ _ _ Hok) as Htask. apply backup_task_inv in Htask as (Hid & Htask & _).
  rewrite Hw0 in Htask. change (rpi_BackupTaskID (normalize_input input)) with
    (rpi_BackupTaskID input) in *. assert (t' = t) as -> by congruence.
  destruct accepted as [pid|input1].
  { left. destruct H as [-> ->]. destruct (accepted_snapshot t); [|done].
    destruct Hacc as (Hw & Hst & -> & Hp & _). eexists. split_and!; try done. congruence. }
  right. destruct H as (input2 & s2 & s3 & pending & Hfill & Hw2 & Hwait & H).
  assert (Hsub : same_subject input1 (normalize_input input)).
  { destruct (accepted_snapshot t) as [v|] eqn:Ev.
    - destruct Hacc as (_ & Hun & [Hname _] & _). by eapply Hown.
    - by destruct Hacc as [-> _]. }
  pose proof (fillSizeMetrics_subject _ _ _ _ Hfill) as Hsub2.
  assert (Hsubject : same_subject input2 (normalize_input input)).
  { unfold same_subject in *. intuition congruence. }
  assert (Hnf : t_status t <> "failed").
  { pose proof (acc_status _ _ _ _ Hok) as Hrej. intros Hf. by rewrite Hf in Hrej. }
  assert (Hrest : exists t1, tasks (working s2) = <[rpi_BackupTaskID input := t1]> (tasks (working s)) /\
    t_completed_at t1 = t_completed_at t /\ t_status t1 <> "failed" /\
    restore_points (working s2) = restore_points (working s) /\
    reservations (working s2) = reservations (working s) /\
    (t_status t1 = "finalizing" \/ t_status t1 = t_status t)).
  { rewrite Hw2. destruct (accepted_snapshot t) as [v|].
    - destruct Hacc as [-> _]. rewrite Hw0. exists t. rewrite insert_id by done. split_and!; auto.
    - destruct Hacc as (_ & _ & snapshot & n & _ & Hu). rewrite Hw0 in Hu.
      rewrite (update_task_row _ _ _ _ _ _ Ht Hu). simpl. exists (accept_row (normalize_input input) snapshot t).
      split_and!; try done; unfold accept_row; simpl; destruct (t_completed_at t); simpl; auto. }
  destruct Hrest as (t1 & ? & ? & ? & ? & ? & ?).
  exists tenantID, t1, input2, s2, s3. split_and!; try done.
  - intros Hnone. rewrite Hnone in Hacc. by destruct Hacc as (_ & ? & _).
  - destruct pending; destruct H as [H ->]; [by subst|]. split; [done|].
    eapply storePoint_inr; [|exact H]. destruct Hsubject as [-> _]. done.
Qed.

Definition not_published (t : task_row) : Prop :=
  t_status t <> "succeeded" \/ text (t_restore_point_id t) = "".

Lemma published_reservation_inactive taskID raw d v :
  publish_reservations taskID raw d !! taskID = Some v ->
  active_reservation v = false.
Proof.
  unfold publish_reservations. rewrite lookup_update_where.
  destruct (reservations d !! taskID) as [v0|]; [|done]. simpl. rewrite seqb_refl.
  destruct (active_reservation v0) eqn:E; intros [= <-]; done.
Qed.

Lemma stored_parts input2 input :
  same_subject input2 (normalize_input input) ->
  rpi_BackupTaskID input2 = rpi_BackupTaskID input /\
  rpi_SourceClusterID input2 = rpi_SourceClusterID input /\
  rpi_ProtectionPlanID input2 = rpi_ProtectionPlanID input /\
  rpi_VeleroBackupName input2 = rpi_VeleroBackupName input.
Proof. by intros (-> & -> & -> & -> & _). Qed.

(** C18.  When publishing the result of an unfinished backup succeeds, the task is
    succeeded, complete and at 100 percent, names a restore point that exists
    under the backup's cluster and name, its slot is no longer reserved, and the
    first accepted report carried complete size measurements. *)
Theorem publication_completes_the_backup LL id eventID now input fuse d d' point t :
  tasks d !! rpi_BackupTaskID input = Some t -> own_snapshot t input -> not_published t ->
  run (PublishBackupResult LL id eventID now input) fuse d = (d', inr point) ->
  (exists t' pid p,
    tasks d' !! rpi_BackupTaskID input = Some t' /\ t_status t' = "succeeded" /\
    t_progress t' = 100 /\ t_completed_at t' <> None /\ t_restore_point_id t' = Some pid /\
    restore_points d' !! pid = Some p /\
    named (rpi_SourceClusterID input) (rpi_VeleroBackupName input) p = true) /\
  (forall v, reservations d' !! rpi_BackupTaskID input = Some v ->
     active_reservation v = false) /\
  (accepted_snapshot t = None ->
     CompleteBackupMetrics (rpi_SizeMetricsV2 input) = true).
Proof.
  intros Ht Hown Hnot H. unfold PublishBackupResult in H.
  apply createRestorePoint_run in H as [[_ [e He]]|(s1 & s2 & published & Hw & H & -> & Hpend)];
    [done|].
  rewrite <- Hw in Ht. eapply publication_steps in H as [(pid & _ & _ & Hst & Hp)|H]; [| |done|done].
  { by destruct Hnot. }
  destruct H as (tenantID & t1 & input2 & s3 & s4 & Hid & Hsub & Hcomplete & Htasks & Hc1 & _ & _ &
    _ & _ & H).
  apply stored_parts in Hsub as (Hid2 & Hcl & _ & Hname).
  destruct published; [|by specialize (Hpend eq_refl)|]; destruct H as [Hwait Hstored];
    apply awaitReplacement_inr in Hwait as (Hk & _); destruct Hstored as [_ (raw & _ & Hres) Hfin];
    destruct Hfin as (pid & p & Hp & Hn & Htask); rewrite Hid2, Hcl, Hname in *;
    (split; [|split; [|exact Hcomplete]];
     [|intros v Hv; rewrite Hres in Hv; by eapply published_reservation_inactive]);
    exists (publish_row now (Some pid) t1), pid, p;
    (rewrite (Htask t1); [|by rewrite Hk, Htasks, lookup_insert_eq]);
    rewrite lookup_insert_eq; split_and!; try done; simpl; by destruct (t_completed_at t1).
Qed.

(** C20.  A result is never stored while the point its backup replaces is still
    there: whatever the outcome of the call, it is an error, no restore point is
    added or changes its status, and the task is not completed; and when the
    caller is told to wait, the reservation holds the result. *)
Theorem result_waits_for_replacement LL id eventID now input fuse d d' r t v old pid :
  tasks d !! rpi_BackupTaskID input = Some t -> own_snapshot t input -> not_published t ->
  t_completed_at t = None ->
  reservations d !! rpi_BackupTaskID input = Some v -> v_state v <> "published" ->
  v_replacement_point_id v = Some pid -> pid <> "" ->
  restore_points d !! pid = Some old -> r_status old <> "deleted" ->
  run (PublishBackupResult LL id eventID now input) fuse d = (d', r) ->
  exists e, r = inl e /\ same_standing d d' /\
    (exists t', tasks d' !! rpi_BackupTaskID input = Some t' /\ t_completed_at t' = None) /\
    (d' = d \/ e = ErrRestorePointReplacementPending /\
      exists v', reservations d' !! rpi_BackupTaskID input = Some v' /\ v_pending_point v' <> None).
Proof.
  intros Ht Hown Hnot Hopen Hv Hst Hpid Hne Hold Hlive H. unfold PublishBackupResult in H.
  apply createRestorePoint_run in H as [[-> [e ->]]|(s1 & s2 & published & Hw & H & -> & Hpend)].
  { exists e. split_and!; eauto. done. }
  pose proof Ht as Ht1. rewrite <- Hw in Ht1.
  eapply publication_steps in H as [(p & _ & _ & Hs & Hp)|H]; [| |done|done].
  { by destruct Hnot. }
  destruct H as (tenantID & t1 & input2 & s3 & s4 & Hid & Hsub & _ & Htasks & Hc1 & _ & Hpts &
    Hres & _ & H).
  apply stored_parts in Hsub as (Hid2 & _). rewrite Hw in *.
  assert (Hv3 : reservations (working s3) !! rpi_BackupTaskID input2 = Some v)
    by (by rewrite Hid2, Hres).
  destruct published.
  1, 3: exfalso; destruct H as [Hwait _];
    apply awaitReplacement_inr in Hwait as (_ & _ & Hsame & Hfree);
    rewrite Hsame in Hfree by (done || by rewrite Hv3);
    destruct (Hfree ltac:(by rewrite Hid2) v Hv3) as [_ Hf];
    specialize (Hf Hst pid Hpid Hne); rewrite Hpts, Hold in Hf; simpl in Hf; congruence.
  apply awaitReplacement_inr in H as (Hk & Hs & _ & v' & raw & d1 & _ & _ & _ & Hv' & _ & Hrows).
  exists ErrRestorePointReplacementPending. split; [by apply Hpend|].
  split; [etrans; [|exact Hs]; intros k; by rewrite Hpts|].
  split.
  - exists t1. rewrite Hk, Htasks, lookup_insert_eq. split; [done|congruence].
  - right. split; [done|]. exists (data_ready_row raw v').
    rewrite Hrows, lookup_update_where. rewrite Hid2 in *. rewrite Hv'. simpl.
    by rewrite seqb_refl.
Qed.

(** *** Slots *)

(** Publishing writes one point: counted once if new, and no reservation sees
    another point deleted because of it. *)
Lemma stored_standing id tenantID now input d d' :
  stored id tenantID now input d d' -> rpi_Status input <> "deleted" ->
  (forall q w, reserves_slot q d' w = reserves_slot q d w) /\
  forall q, live_points q d' <=
    live_points q d + (if rpi_ProtectionPlanID input =s q then 1 else 0).
Proof.
  intros [(d1 & n & Hup & Hpts) _ _] Hst.
  apply upsert_point_inv in Hup as (k & r' & -> & _ & Hnew). simpl in Hpts. split.
  - intros q w. unfold reserves_slot. f_equal. destruct (v_replacement_point_id w) as [j|]; [|done].
    rewrite Hpts. destruct (decide (j = k)) as [->|Hne]; [|by rewrite lookup_insert_ne].
    rewrite lookup_insert_eq.
    destruct Hnew as [(-> & _ & Hs & _)|(old & -> & Hs & _)]; injection Hs as _ ->; [|done].
    by apply seqb_false.
  - intros q. unfold live_points. rewrite Hpts.
    destruct Hnew as [(Hnone & _ & Hs & _)|(old & Hold & Hs & _)].
    + rewrite count_where_insert by done.
      assert (Hle : (if live_point q r' then 1 else 0) <=
        (if rpi_ProtectionPlanID input =s q then 1 else 0)); [|lia].
      rewrite (standing_live q _ _ Hs). unfold live_point, of_plan, new_point_row, nullif. simpl.
      destruct (nonempty _); simpl; [|by destruct (_ =s q)].
      destruct (_ =s q); simpl; [|done]. by destruct (_ <>s _).
    + rewrite (count_where_ext _ (fun _ => live_point q) _ (restore_points d)).
      { destruct (_ =s q); lia. }
      intros j. destruct (decide (j = k)) as [->|Hne]; [|by rewrite lookup_insert_ne].
      rewrite lookup_insert_eq, Hold. simpl. f_equal. by apply standing_live.
Qed.

Lemma reserved_after_publish q taskID raw d d' v :
  (forall w, reserves_slot q d' w = reserves_slot q d w) ->
  reservations d' = publish_reservations taskID raw d ->
  reservations d !! taskID = Some v -> active_reservation v = true ->
  reserved_slots q d = reserved_slots q d' + (if reserves_slot q d v then 1 else 0).
Proof.
  intros Hsame Hres Hv Hact. unfold reserved_slots.
  assert (Hv' : reservations d' !! taskID = Some (published_row raw v)).
  { rewrite Hres. unfold publish_reservations. rewrite lookup_update_where, Hv. simpl.
    by rewrite seqb_refl, Hact. }
  rewrite (count_where_delete _ (reservations d) _ _ Hv).
  rewrite (count_where_delete _ (reservations d') _ _ Hv').
  replace (reserves_slot q d' (published_row raw v)) with false.
  2: { unfold reserves_slot. cbn [active_reservation published_row v_state].
       replace (active_reservation _) with false by (symmetry; vm_compute; reflexivity).
       by rewrite andb_false_r. }
  rewrite (count_where_ext _ (fun _ => reserves_slot q d) (delete taskID (reservations d'))
    (delete taskID (reservations d))); [lia|].
  intros k. destruct (decide (k = taskID)) as [->|Hne]; [by rewrite !lookup_delete_eq|].
  rewrite !lookup_delete_ne by done. rewrite Hres. unfold publish_reservations.
  rewrite lookup_update_where. destruct (reservations d !! k); [|done]. simpl.
  rewrite (proj2 (seqb_false k taskID) Hne). simpl. by rewrite Hsame.
Qed.

Lemma reserves_slot_free q d v :
  active_reservation v = true -> slot_free d v -> v_replacement_point_id v <> Some "" ->
  reserves_slot q d v = (v_protection_plan_id v =s q).
Proof.
  intros Hact [_ Hfree] Hne. unfold reserves_slot. rewrite Hact, andb_true_r.
  destruct (v_replacement_point_id v) as [pid|]; [|by rewrite andb_true_r].
  assert (Hdel : r_status <$> restore_points d !! pid = Some "deleted").
  { apply Hfree; [|done|congruence]. intros Hp. unfold active_reservation in Hact. rewrite Hp in Hact.
    by vm_compute in Hact. }
  destruct (restore_points d !! pid) as [p|]; [|done]. injection Hdel as ->.
  by rewrite seqb_refl, andb_true_r.
Qed.

Lemma reserves_slot_data_ready q d raw v :
  v_state v <> "released" -> v_state v <> "published" ->
  reserves_slot q d (data_ready_row raw v) = reserves_slot q d v.
Proof.
  intros Hr Hp. unfold reserves_slot, active_reservation, data_ready_row. simpl.
  destruct (v_state v =s "reserved") eqn:E; [|done]. apply seqb_true in E. by rewrite E.
Qed.

Lemma reserved_after_data_ready q taskID raw d v :
  reservations d !! taskID = Some v -> v_state v <> "released" -> v_state v <> "published" ->
  count_where (fun _ => reserves_slot q d)
    (fst (update_where (fun id _ => id =s taskID) (fun _ => data_ready_row raw) (reservations d)))
  = reserved_slots q d.
Proof.
  intros Hv Hr Hp. apply count_where_ext. intros k. rewrite lookup_update_where.
  destruct (reservations d !! k) as [w|] eqn:Ek; [|done]. simpl.
  destruct (k =s taskID) eqn:E; [|done]. apply seqb_true in E as ->.
  assert (w = v) as -> by congruence. by rewrite reserves_slot_data_ready.
Qed.

(** A reserved slot pays for the point it publishes. *)
Lemma publication_slots LL id eventID now input s s' published t v q :
  tasks (working s) !! rpi_BackupTaskID input = Some t -> own_snapshot t input ->
  rpi_Status input <> "deleted" ->
  reservations (working s) !! rpi_BackupTaskID input = Some v -> active_reservation v = true ->
  v_protection_plan_id v = rpi_ProtectionPlanID input -> v_replacement_point_id v <> Some "" ->
  publishPoint LL true id eventID now input s = (s', inr published) ->
  slots_used q (working s') <= slots_used q (working s).
Proof.
  intros Ht Hown Hst Hv Hact Hplan Hne H.
  eapply publication_steps in H as [(p & _ & -> & _ & _)|H]; [| |done|done]; [done|].
  destruct H as (tenantID & t1 & input2 & s2 & s3 & Hid & Hsub & _ & Htasks & _ & _ & Hpts &
    Hres & _ & H).
  assert (Hst2 : rpi_Status input2 <> "deleted").
  { destruct Hsub as (_ & _ & _ & _ & ->). simpl. by destruct (nonempty _). }
  apply stored_parts in Hsub as (Hid2 & _ & Hplan2 & _).
  assert (Hsame0 : same_standing (working s) (working s2)) by (intros k; by rewrite Hpts).
  rewrite (slots_used_same q _ _ Hsame0) by done.
  assert (Hv2 : reservations (working s2) !! rpi_BackupTaskID input2 = Some v)
    by (by rewrite Hid2, Hres).
  destruct published.
  2: { apply awaitReplacement_inr in H as (_ & Hs & _ & w & raw & d1 & _ & Hr & Hp & Hw & Hd1 & Hrows).
       rewrite Hd1 in Hw, Hrows by (by rewrite Hv2). assert (w = v) as -> by congruence.
       unfold slots_used. rewrite <- (live_points_same q _ _ Hs).
       assert (Heq : reserved_slots q (working s') = reserved_slots q (working s2)); [|lia].
       rewrite <- (reserved_after_data_ready q _ raw _ v Hw Hr Hp), <- Hrows.
       apply count_where_ext. intros k. destruct (reservations (working s') !! k); [|done].
       simpl. f_equal. symmetry. by apply reserves_slot_same. }
  all: destruct H as [Hwait Hstored]; apply awaitReplacement_inr in Hwait as (_ & _ & Hsame & Hfree);
    rewrite Hsame in * by (done || by rewrite Hv2);
    specialize (Hfree ltac:(by rewrite Hid2) v Hv2);
    destruct (stored_standing _ _ _ _ _ _ Hstored Hst2) as [Hslots Hlive];
    destruct Hstored as [_ (raw & _ & Hrows) _];
    pose proof (reserved_after_publish q _ raw _ _ v (Hslots q) Hrows Hv2 Hact) as Hcount;
    rewrite (reserves_slot_free q _ v Hact Hfree Hne), Hplan in Hcount;
    specialize (Hlive q); rewrite Hplan2 in Hlive; unfold slots_used; lia.
Qed.

(** Publishing through a reserved slot never raises the number of slots any
    plan uses, whatever the outcome: the point takes the place of its
    reservation. *)
Theorem publishing_uses_its_own_slot LL id eventID now input fuse d d' r t v q :
  tasks d !! rpi_BackupTaskID input = Some t -> own_snapshot t input ->
  rpi_Status input <> "deleted" ->
  reservations d !! rpi_BackupTaskID input = Some v -> active_reservation v = true ->
  v_protection_plan_id v = rpi_ProtectionPlanID input -> v_replacement_point_id v <> Some "" ->
  run (PublishBackupResult LL id eventID now input) fuse d = (d', r) ->
  slots_used q d' <= slots_used q d.
Proof.
  intros Ht Hown Hst Hv Hact Hplan Hne H. unfold PublishBackupResult in H.
  apply createRestorePoint_run in H as [[-> _]|(s1 & s2 & published & <- & H & -> & _)]; [done|].
  by eapply publication_slots.
Qed.

(** ** The snapshot round trip *)

(** The input as its snapshot reads back: its documents went through JSON. *)
Definition json_input (i : RestorePointInput) : RestorePointInput :=
  with_metadata i (jsonify_doc (rpi_Metadata i)) (jsonify_doc (rpi_SizeMetricsV2 i)).

Lemma read_string m k s : get m k = VStr s -> field_string m k = Some s.
Proof. unfold field_string. by intros ->. Qed.
Lemma read_time_field m k t :
  get m k = VTime t -> json_time_ok t = true -> field_time (jsonify_doc m) k = Some t.
Proof.
  unfold field_time. rewrite get_jsonify_doc. intros -> Hok. cbn [jsonify].
  unfold json_time_ok in Hok. go_bool. by apply parse_format.
Qed.
Lemma read_map m k o : get m k = VObj o -> field_map (jsonify_doc m) k = Some (jsonify_doc o).
Proof. unfold field_map. rewrite get_jsonify_doc. by intros ->. Qed.

(** Reading back what was marshalled, size out of range or not. *)
Lemma unmarshal_marshal i v :
  marshal_input i = Some v ->
  unmarshal_input v = if in_int64 (rpi_SizeBytes i) then Some (json_input i) else None.
Proof.
  intros (Hok & ->)%marshal_input_Some. cbn [forallb] in Hok. rewrite !andb_true_iff in Hok.
  destruct Hok as (H1 & H2 & H3 & H4 & _). unfold unmarshal_input.
  rewrite (read_time_field (encode_input i) "TaskCreatedAt" (rpi_TaskCreatedAt i) eq_refl H1),
    (read_time_field (encode_input i) "StartedAt" (rpi_StartedAt i) eq_refl H2),
    (read_time_field (encode_input i) "CompletedAt" (rpi_CompletedAt i) eq_refl H3),
    (read_time_field (encode_input i) "ExpiresAt" (rpi_ExpiresAt i) eq_refl H4),
    (read_map (encode_input i) "Metadata" (rpi_Metadata i) eq_refl),
    (read_map (encode_input i) "SizeMetricsV2" (rpi_SizeMetricsV2 i) eq_refl).
  set (m := jsonify_doc (encode_input i)).
  rewrite (read_string m "ProtectionPlanID" (rpi_ProtectionPlanID i) eq_refl),
    (read_string m "SourceClusterID" (rpi_SourceClusterID i) eq_refl),
    (read_string m "AppID" (rpi_AppID i) eq_refl),
    (read_string m "StorageRepoID" (rpi_StorageRepoID i) eq_refl),
    (read_string m "DisplayName" (rpi_DisplayName i) eq_refl),
    (read_string m "VeleroBackupName" (rpi_VeleroBackupName i) eq_refl),
    (read_string m "PointType" (rpi_PointType i) eq_refl),
    (read_string m "Status" (rpi_Status i) eq_refl),
    (read_string m "SourceNamespace" (rpi_SourceNamespace i) eq_refl),
    (read_string m "LabelSelector" (rpi_LabelSelector i) eq_refl),
    (read_string m "BackupTaskID" (rpi_BackupTaskID i) eq_refl),
    (read_string m "BackupStorageName" (rpi_BackupStorageName i) eq_refl).
  replace (field_int64 m "SizeBytes") with
    (if in_int64 (rpi_SizeBytes i) then Some (rpi_SizeBytes i) else None);
    [by destruct (in_int64 _)|].
  unfold field_int64. by replace (get m "SizeBytes") with (VNum (rpi_SizeBytes i)) by reflexivity.
Qed.

(** The snapshot of a result kept with its task and its reservation reads
    back as the result it was taken of, up to the JSON form of its documents. *)
Theorem snapshot_roundtrip i v :
  marshal_input i = Some v -> in_int64 (rpi_SizeBytes i) = true ->
  unmarshal_input v = Some (json_input i).
Proof. intros Hv Hsize. by rewrite (unmarshal_marshal i v Hv), Hsize. Qed.
