(* ===== verification/Plans.v ===== *)
(** Protection plans, their schedules and what deleting them takes along:
    backend/internal/store/postgres_protection.go, GetProtectionPlan of
    postgres.go.

    Deleting rows follows the foreign keys of the migrations: a reference
    without an action refuses the deletion, [on delete cascade] removes the
    referring rows, [on delete set null] clears their column and, where a trigger
    watches the column, is refused when the trigger would raise. *)

From S2P Require Import Prelude Calendar Timestamp Value Types Retention Session Database Quota Tasks.

(** ** Helpers *)

Fixpoint dedup_from (seen : gset string) (values : list string) : list string :=
  match values with
  | [] => []
  | v :: values =>
      if negb (nonempty v) || bool_decide (v ∈ seen) then dedup_from seen values
      else v :: dedup_from ({[v]} ∪ seen) values
  end.

Definition dedupNonEmpty (values : list string) : list string := dedup_from ∅ values.

Definition planIDsSlice (values : list string) : list string := List.filter nonempty values.

(** [$n::uuid is null or exists(select 1 from table where id=$n and tenant_id=$1)]. *)
Definition reference_valid (d : db) (t : table) (tenant id : string) : bool :=
  negb (nonempty id) || sql_eq (owner d t id) (Some tenant).

(** The application ids of a plan, as of [order by created_at]. *)
Definition plan_app_le (x y : string * time) : Prop := snd x <= snd y.
#[export] Instance plan_app_le_dec : RelDecision plan_app_le.
Proof. intros x y. unfold plan_app_le. apply _. Defined.

Definition apps_of_plan (planID : string) (d : db) : list string :=
  fst <$> merge_sort plan_app_le
    (omap (fun '(k, created) =>
       if fst k =s planID then Some (snd k, created) else None) (map_to_list (plan_apps d))).

(** ** Reading plans *)

Definition normalize_selection (s : ResourceSelection) : ResourceSelection :=
  {| rs_Mode := if nonempty (rs_Mode s) then rs_Mode s else "all";
     rs_NamespaceScoped := rs_NamespaceScoped s; rs_ClusterScoped := rs_ClusterScoped s |}.

Definition plan_of_row (d : db) (id : string) (p : plan_row) (appIDs : list string)
    : ProtectionPlan :=
  let schedule := schedules d !! id in
  {| plan_ID := id; plan_TenantID := p_tenant_id p;
     plan_SourceClusterID := p_source_cluster_id p; plan_AppID := p_app_id p;
     plan_AppIDs := appIDs; plan_ScopeType := ps_scope_type (p_spec p);
     plan_IncludedResources := ps_included_resources (p_spec p);
     plan_ResourceSelection := normalize_selection (ps_resource_selection (p_spec p));
     plan_LabelSelector := ps_label_selector (p_spec p);
     plan_IncludeClusterScoped := ps_include_cluster_scoped (p_spec p);
     plan_StorageRepoID := text (ps_storage_repo_id (p_spec p));
     plan_PolicyID := text (p_policy_id p);
     plan_TargetClusterID := text (ps_target_cluster_id (p_spec p));
     plan_ExcludedResources := ps_excluded_resources (p_spec p);
     plan_PreHooks := ps_pre_hooks (p_spec p); plan_PostHooks := ps_post_hooks (p_spec p);
     plan_PlanStorageSize := p_storage_size p;
     plan_NextFireAt := read_time (schedule ≫= s_next_fire_at);
     plan_ScheduleEnabled := default false (s_enabled <$> schedule);
     plan_LatestSyncTaskID := text (p_latest_sync_task_id p);
     plan_LatestRecoveryTaskID := text (p_latest_recovery_task_id p);
     plan_Status := p_status p; plan_CreatedAt := p_created_at p;
     plan_UpdatedAt := p_updated_at p |}.

Definition with_apps (plan : ProtectionPlan) (appIDs : list string) : ProtectionPlan :=
  {| plan_ID := plan_ID plan; plan_TenantID := plan_TenantID plan;
     plan_SourceClusterID := plan_SourceClusterID plan; plan_AppID := plan_AppID plan;
     plan_AppIDs := appIDs; plan_ScopeType := plan_ScopeType plan;
     plan_IncludedResources := plan_IncludedResources plan;
     plan_ResourceSelection := plan_ResourceSelection plan;
     plan_LabelSelector := plan_LabelSelector plan;
     plan_IncludeClusterScoped := plan_IncludeClusterScoped plan;
     plan_StorageRepoID := plan_StorageRepoID plan; plan_PolicyID := plan_PolicyID plan;
     plan_TargetClusterID := plan_TargetClusterID plan;
     plan_ExcludedResources := plan_ExcludedResources plan;
     plan_PreHooks := plan_PreHooks plan; plan_PostHooks := plan_PostHooks plan;
     plan_PlanStorageSize := plan_PlanStorageSize plan; plan_NextFireAt := plan_NextFireAt plan;
     plan_ScheduleEnabled := plan_ScheduleEnabled plan;
     plan_LatestSyncTaskID := plan_LatestSyncTaskID plan;
     plan_LatestRecoveryTaskID := plan_LatestRecoveryTaskID plan;
     plan_Status := plan_Status plan; plan_CreatedAt := plan_CreatedAt plan;
     plan_UpdatedAt := plan_UpdatedAt plan |}.

(** The list starts with the primary application and repeats it. *)
Definition GetProtectionPlan (id : string) : tx db (option ProtectionPlan) :=
  found ← attempt (query (fun d =>
    (fun p => plan_of_row d id p [p_app_id p]) <$> protection_plans d !! id));
  match found with
  | inl ErrNoRows => mret None
  | inl err => fail err
  | inr item =>
      apps ← select (apps_of_plan id);
      mret (Some (with_apps item (plan_AppIDs item ++ apps)))
  end.

Definition newest_plan_le (x y : string * plan_row) : Prop :=
  p_created_at (snd y) <= p_created_at (snd x).
#[export] Instance newest_plan_le_dec : RelDecision newest_plan_le.
Proof. intros x y. unfold newest_plan_le. apply _. Defined.

(** Plans without their applications, then [loadProtectionPlanApps]. *)
Definition ListProtectionPlans (clusterID : string) : tx db (list ProtectionPlan) :=
  items ← select (fun d => (fun '(id, p) => plan_of_row d id p []) <$>
    merge_sort newest_plan_le
      (List.filter (fun '(_, p) => when_given clusterID (p_source_cluster_id p =s clusterID))
        (map_to_list (protection_plans d))));
  match items with
  | [] => mret []
  | _ => select (fun d => (fun plan => with_apps plan (apps_of_plan (plan_ID plan) d)) <$> items)
  end.

(** ** Saving plans *)

(** The merged application ids and the primary one. *)
Definition merged_apps (input : ProtectionPlanInput) : list string :=
  let appIDs := dedupNonEmpty (plani_AppIDs input) in
  if nonempty (plani_AppID input) then dedupNonEmpty (appIDs ++ [plani_AppID input]) else appIDs.

Definition plan_tenant (input : ProtectionPlanInput) : string :=
  if nonempty (plani_TenantID input) then plani_TenantID input else DefaultTenantID.

Definition input_spec (input : ProtectionPlanInput) : plan_spec :=
  {| ps_scope_type := if nonempty (plani_ScopeType input) then plani_ScopeType input else "all";
     ps_included_resources := plani_IncludedResources input;
     ps_resource_selection := normalize_selection (plani_ResourceSelection input);
     ps_label_selector := plani_LabelSelector input;
     ps_include_cluster_scoped := plani_IncludeClusterScoped input;
     ps_storage_repo_id := nullif (plani_StorageRepoID input);
     ps_target_cluster_id := nullif (plani_TargetClusterID input);
     ps_excluded_resources := plani_ExcludedResources input;
     ps_pre_hooks := jsonify_doc <$> plani_PreHooks input;
     ps_post_hooks := jsonify_doc <$> plani_PostHooks input |}.

Definition new_plan (id : string) (now created : time) (input : ProtectionPlanInput)
    : ProtectionPlan :=
  let spec := input_spec input in
  {| plan_ID := id; plan_TenantID := plan_tenant input;
     plan_SourceClusterID := plani_SourceClusterID input;
     plan_AppID := default "" (head (merged_apps input)); plan_AppIDs := merged_apps input;
     plan_ScopeType := ps_scope_type spec; plan_IncludedResources := plani_IncludedResources input;
     plan_ResourceSelection := ps_resource_selection spec;
     plan_LabelSelector := plani_LabelSelector input;
     plan_IncludeClusterScoped := plani_IncludeClusterScoped input;
     plan_StorageRepoID := plani_StorageRepoID input; plan_PolicyID := plani_PolicyID input;
     plan_TargetClusterID := plani_TargetClusterID input;
     plan_ExcludedResources := plani_ExcludedResources input;
     plan_PreHooks := plani_PreHooks input; plan_PostHooks := plani_PostHooks input;
     plan_PlanStorageSize := ∅; plan_NextFireAt := zero_time; plan_ScheduleEnabled := false;
     plan_LatestSyncTaskID := ""; plan_LatestRecoveryTaskID := "";
     plan_Status := if nonempty (plani_Status input) then plani_Status input else "active";
     plan_CreatedAt := created; plan_UpdatedAt := now |}.

(** [count( * ) = cardinality($2) and coalesce(bool_and(app_id = any($2)), false)]. *)
Definition same_apps (id : string) (appIDs : list string) (d : db) : bool :=
  let apps := apps_of_plan id d in
  (length apps =? length appIDs)%nat && negb (length apps =? 0)%nat &&
  forallb (fun app => one_of app appIDs) apps.

Definition plan_has_work (id : string) (d : db) : bool :=
  exists_where (fun _ t => sql_eq (t_protection_plan_id t) (Some id) &&
    one_of (t_status t) ["queued"; "pending"; "running"; "dispatched"; "accepted"; "syncing";
                         "finalizing"; "canceling"; "cancelling"]) (tasks d).

Definition plan_locked_status (status : string) : bool :=
  one_of status ["cleanup_running"; "activating_storage"; "activating_schedule"].

(** The checks of an update: the plan's creation time. *)
Definition checkExistingPlan (id : string) (input : ProtectionPlanInput) : tx db time :=
  p ← query (fun d => protection_plans d !! id);
  if p_tenant_id p <>s plan_tenant input then fail ErrTenantResourceMismatch
  else if p_source_cluster_id p <>s plani_SourceClusterID input
  then fail ErrProtectionPlanIdentity
  else
    same ← select (same_apps id (planIDsSlice (merged_apps input)));
    if negb same then fail ErrProtectionPlanIdentity
    else
      busy ← select (plan_has_work id);
      if busy || plan_locked_status (p_status p) then fail ErrProtectionPlanBusy
      else mret (p_created_at p).

Definition plan_references_valid (input : ProtectionPlanInput) (d : db) : bool :=
  let tenant := plan_tenant input in
  reference_valid d Clusters tenant (plani_SourceClusterID input) &&
  reference_valid d Clusters tenant (plani_TargetClusterID input) &&
  reference_valid d StorageRepositories tenant (plani_StorageRepoID input) &&
  (negb (nonempty (plani_PolicyID input)) ||
   sql_eq (c_tenant_id <$> policies d !! plani_PolicyID input) (Some tenant)).

Definition plan_app_valid (input : ProtectionPlanInput) (appID : string) (d : db) : bool :=
  match applications d !! appID with
  | Some a =>
      (a_cluster_id a =s plani_SourceClusterID input) &&
      sql_eq (k_tenant_id <$> clusters d !! a_cluster_id a) (Some (plan_tenant input))
  | None => false
  end.

(** Another plan of the tenant and cluster that has one of the applications. *)
Definition app_conflict (id tenant cluster : string) (appIDs : list string) (d : db)
    : option (string * string) :=
  fst <$> head (List.filter (fun '((plan, app), _) =>
    one_of app appIDs && (plan <>s id) &&
    match protection_plans d !! plan with
    | Some p => (p_tenant_id p =s tenant) && (p_source_cluster_id p =s cluster)
    | None => false
    end) (map_to_list (plan_apps d))).

Definition checkApplications (id : string) (input : ProtectionPlanInput) : tx db unit :=
  let appIDs := merged_apps input in
  for_each appIDs (fun appID =>
    valid ← select (plan_app_valid input appID);
    if valid : bool then mret tt else fail ErrTenantResourceMismatch);;
  match appIDs with
  | [] => mret tt
  | _ =>
      found ← attempt (query
        (app_conflict id (plan_tenant input) (plani_SourceClusterID input) (planIDsSlice appIDs)));
      match found with
      | inr (plan, app) => fail (ErrApplicationAlreadyProtected plan app)
      | inl ErrNoRows => mret tt
      | inl err => fail err
      end
  end.

Definition scope_ok (spec : plan_spec) : bool := one_of (ps_scope_type spec) ["all"; "filtered"].

(** [update protection_plans set ... where id=$1], under the check of its scope
    (its references were just validated). *)
Definition update_plan_spec (id : string) (now : time) (plan : ProtectionPlan) (spec : plan_spec)
    (d : db) : option (db * Z) :=
  match protection_plans d !! id with
  | None => Some (d, 0)
  | Some p =>
      if scope_ok spec then
        Some (set_protection_plans d (<[id :=
          {| p_tenant_id := p_tenant_id p; p_source_cluster_id := p_source_cluster_id p;
             p_app_id := p_app_id p; p_spec := spec; p_policy_id := nullif (plan_PolicyID plan);
             p_status := plan_Status plan; p_storage_size := p_storage_size p;
             p_latest_sync_task_id := p_latest_sync_task_id p;
             p_latest_recovery_task_id := p_latest_recovery_task_id p;
             p_created_at := p_created_at p; p_updated_at := pg_time now |}]>
          (protection_plans d)), 1)
      else None
  end.

Definition insert_plan (now : time) (plan : ProtectionPlan) (spec : plan_spec) (d : db)
    : option (db * Z) :=
  if bool_decide (is_Some (protection_plans d !! plan_ID plan)) ||
     negb (fk (Some (plan_TenantID plan)) (resource_scopes d)) ||
     negb (fk (Some (plan_SourceClusterID plan)) (clusters d)) ||
     negb (nonempty (plan_AppID plan)) || negb (fk (Some (plan_AppID plan)) (applications d)) ||
     negb (scope_ok spec)
  then None
  else Some (set_protection_plans d (<[plan_ID plan :=
    {| p_tenant_id := plan_TenantID plan; p_source_cluster_id := plan_SourceClusterID plan;
       p_app_id := plan_AppID plan; p_spec := spec; p_policy_id := nullif (plan_PolicyID plan);
       p_status := plan_Status plan; p_storage_size := ∅; p_latest_sync_task_id := None;
       p_latest_recovery_task_id := None; p_created_at := pg_time now;
       p_updated_at := pg_time now |}]> (protection_plans d)), 1).

Definition insert_plan_app (planID appID : string) (now : time) (d : db) : option (db * Z) :=
  if fk (Some planID) (protection_plans d) && fk (Some appID) (applications d) then
    match plan_apps d !! (planID, appID) with
    | Some _ => Some (d, 0)
    | None => Some (set_plan_apps d (<[(planID, appID) := pg_time now]> (plan_apps d)), 1)
    end
  else None.

(** [saveProtectionPlan]: [id] is empty for a new plan, [newID] what newID
    returns, [now] what time.Now does. *)
Definition saveProtectionPlan (newID : string) (now : time) (id : string)
    (input : ProtectionPlanInput) : tx db ProtectionPlan :=
  let spec := input_spec input in
  begin_tx;;
  created ← (if nonempty id then checkExistingPlan id input else mret now);
  let plan := new_plan (if nonempty id then id else newID) now created input in
  valid ← select (plan_references_valid input);
  if negb valid then fail ErrTenantResourceMismatch
  else
    checkApplications id input;;
    if nonempty id then
      exec (update_plan_spec id now plan spec);;
      exec (update_schedules (fun k _ => k =s id)
        (fun _ s => {| s_last_fired_at := s_last_fired_at s; s_next_fire_at := None;
                       s_enabled := false; s_created_at := s_created_at s;
                       s_updated_at := pg_time now |}));;
      commit;; mret plan
    else
      exec (insert_plan now plan spec);;
      for_each (merged_apps input) (fun appID =>
        exec (insert_plan_app (plan_ID plan) appID now);; mret tt);;
      commit;; mret plan.

Definition CreateProtectionPlan (newID : string) (now : time) (input : ProtectionPlanInput)
    : tx db ProtectionPlan := saveProtectionPlan newID now "" input.

Definition UpdateProtectionPlan (newID : string) (now : time) (id : string)
    (input : ProtectionPlanInput) : tx db ProtectionPlan := saveProtectionPlan newID now id input.

(** ** Single-statement updates *)

Definition UpdateProtectionPlanStatus (now : time) (id status : string)
    : tx db (option ProtectionPlan) :=
  if negb (nonempty id) then mret None
  else
    let status := if nonempty status then status else "pending_activation" in
    exec (update_plans (fun k _ => k =s id) (fun _ p => plan_with_status p status (pg_time now)));;
    commit;; GetProtectionPlan id.

Definition plan_with_size (p : plan_row) (size : document) (updated : time) : plan_row :=
  {| p_tenant_id := p_tenant_id p; p_source_cluster_id := p_source_cluster_id p;
     p_app_id := p_app_id p; p_spec := p_spec p; p_policy_id := p_policy_id p;
     p_status := p_status p; p_storage_size := size;
     p_latest_sync_task_id := p_latest_sync_task_id p;
     p_latest_recovery_task_id := p_latest_recovery_task_id p;
     p_created_at := p_created_at p; p_updated_at := updated |}.

(** Sizes measured by a collection, which carry [requestedAt], are not overwritten. *)
Definition UpdateProtectionPlanStorageSize (now : time) (id : string) (size : document)
    : tx db (option ProtectionPlan) :=
  if negb (nonempty id) || bool_decide (size = ∅) then mret None
  else
    exec (update_plans
      (fun k p => (k =s id) && negb (bool_decide (is_Some (p_storage_size p !! "requestedAt"))))
      (fun _ p => plan_with_size p (jsonify_doc size) (pg_time now)));;
    commit;; GetProtectionPlan id.

(** [coalesce(plan_storage_size->>'requestedAt', ...)::timestamptz]: [None] when the
    text is no timestamp. *)
Definition requested_at (size : document) : option time :=
  match json_text size "requestedAt" with
  | None => Some zero_time
  | Some s => pg_time <$> parse_rfc3339 s
  end.

Definition capacity_row (now : time) (result : document) (p : plan_row) : plan_row :=
  plan_with_size p (jsonify_doc result ∪ p_storage_size p) (pg_time now).

Definition save_capacity (now : time) (planID clusterID tenantID : string) (result : document)
    (requestedAt : time) (d : db) : option (db * Z) :=
  match protection_plans d !! planID with
  | Some p =>
      if (p_source_cluster_id p =s clusterID) && (p_tenant_id p =s tenantID) then
        stored ← requested_at (p_storage_size p);
        if stored <? pg_time requestedAt then
          Some (set_protection_plans d (<[planID := capacity_row now result p]> (protection_plans d)),
                1)
        else Some (d, 0)
      else Some (d, 0)
  | None => Some (d, 0)
  end.

Definition SavePlanCapacityResult (now : time) (planID clusterID tenantID : string)
    (result : document) (requestedAt : time) : tx db unit :=
  exec (save_capacity now planID clusterID tenantID result requestedAt);;
  commit.

Definition clear_target (spec : plan_spec) : plan_spec :=
  {| ps_scope_type := ps_scope_type spec; ps_included_resources := ps_included_resources spec;
     ps_resource_selection := ps_resource_selection spec;
     ps_label_selector := ps_label_selector spec;
     ps_include_cluster_scoped := ps_include_cluster_scoped spec;
     ps_storage_repo_id := ps_storage_repo_id spec; ps_target_cluster_id := None;
     ps_excluded_resources := ps_excluded_resources spec; ps_pre_hooks := ps_pre_hooks spec;
     ps_post_hooks := ps_post_hooks spec |}.

Definition targets (targetClusterID : string) (p : plan_row) : bool :=
  sql_eq (ps_target_cluster_id (p_spec p)) (Some targetClusterID).

Definition ClearProtectionPlanTargetCluster (now : time) (id targetClusterID : string)
    : tx db (option ProtectionPlan) :=
  n ← exec (update_plans (fun k p => (k =s id) && targets targetClusterID p)
    (fun _ p =>
       {| p_tenant_id := p_tenant_id p; p_source_cluster_id := p_source_cluster_id p;
          p_app_id := p_app_id p; p_spec := clear_target (p_spec p);
          p_policy_id := p_policy_id p; p_status := p_status p;
          p_storage_size := p_storage_size p;
          p_latest_sync_task_id := p_latest_sync_task_id p;
          p_latest_recovery_task_id := p_latest_recovery_task_id p;
          p_created_at := p_created_at p; p_updated_at := pg_time now |}));
  commit;;
  if n =? 0 then mret None else GetProtectionPlan id.

(** ** Schedules *)

Definition schedule_of_row (id : string) (s : schedule_row) : ProtectionPlanSchedule :=
  {| sched_ProtectionPlanID := id; sched_LastFiredAt := read_time (s_last_fired_at s);
     sched_NextFireAt := read_time (s_next_fire_at s); sched_Enabled := s_enabled s;
     sched_CreatedAt := s_created_at s; sched_UpdatedAt := s_updated_at s |}.

(** The upsert and its [returning]. *)
Definition upsert_schedule (now : time) (input : ProtectionPlanScheduleInput) (d : db)
    : option (db * ProtectionPlanSchedule) :=
  let id := schedi_ProtectionPlanID input in
  if fk (Some id) (protection_plans d) then
    let old := schedules d !! id in
    let row :=
      {| s_last_fired_at := old ≫= s_last_fired_at;
         s_next_fire_at := nullif_time (schedi_NextFireAt input);
         s_enabled := schedi_Enabled input;
         s_created_at := default (pg_time now) (s_created_at <$> old);
         s_updated_at := pg_time now |} in
    Some (set_schedules d (<[id := row]> (schedules d)), schedule_of_row id row)
  else None.

Definition UpsertProtectionPlanSchedule (now : time) (input : ProtectionPlanScheduleInput)
    : tx db ProtectionPlanSchedule :=
  item ← exec (upsert_schedule now input); commit;; mret item.

Definition GetProtectionPlanSchedule (planID : string) : tx db (option ProtectionPlanSchedule) :=
  select (fun d => schedule_of_row planID <$> schedules d !! planID).

Definition due_schedule (now : time) (d : db) (id : string) (s : schedule_row) : bool :=
  match protection_plans d !! id with
  | Some pp => sql_eq (resource_scopes d !! p_tenant_id pp) (Some "active")
  | None => false
  end && s_enabled s &&
  match s_next_fire_at s with Some t => t <=? pg_time now | None => false end.

Definition fires_first_le (x y : string * schedule_row) : Prop :=
  read_time (s_next_fire_at (snd x)) <= read_time (s_next_fire_at (snd y)).
#[export] Instance fires_first_le_dec : RelDecision fires_first_le.
Proof. intros x y. unfold fires_first_le. apply _. Defined.

Definition ListDueProtectionPlanSchedules (now : time) : tx db (list ProtectionPlanSchedule) :=
  select (fun d => (fun '(id, s) => schedule_of_row id s) <$>
    merge_sort fires_first_le
      (List.filter (fun '(id, s) => due_schedule now d id s) (map_to_list (schedules d)))).

Definition fired_row (now : time) (input : ProtectionPlanScheduleFiredInput) (s : schedule_row)
    : schedule_row :=
  {| s_last_fired_at := nullif_time (schedf_LastFiredAt input);
     s_next_fire_at := nullif_time (schedf_NextFireAt input); s_enabled := s_enabled s;
     s_created_at := s_created_at s; s_updated_at := pg_time now |}.

Definition MarkProtectionPlanScheduleFired (now : time) (input : ProtectionPlanScheduleFiredInput)
    : tx db (option ProtectionPlanSchedule) :=
  let id := schedf_ProtectionPlanID input in
  item ← exec (fun d =>
    match schedules d !! id with
    | None => Some (d, None)
    | Some s =>
        let row := fired_row now input s in
        Some (set_schedules d (<[id := row]> (schedules d)), Some (schedule_of_row id row))
    end);
  commit;; mret item.

Definition DisableProtectionPlanSchedule (now : time) (planID : string) : tx db unit :=
  exec (update_schedules (fun k _ => k =s planID)
    (fun _ s => {| s_last_fired_at := s_last_fired_at s; s_next_fire_at := s_next_fire_at s;
                   s_enabled := false; s_created_at := s_created_at s;
                   s_updated_at := pg_time now |}));;
  commit.

(** ** Deleting rows *)

Definition task_of_plan (id : string) (t : task_row) : bool :=
  sql_eq (t_protection_plan_id t) (Some id).

(** The row a column refers to is among those to delete. *)
Definition refers {R} (p : string -> R -> bool) (m : gmap string R) (o : option string) : bool :=
  match o with
  | Some id => match m !! id with Some r => p id r | None => false end
  | None => false
  end.

Definition reservation_without_point (v : reservation_row) : reservation_row :=
  {| v_protection_plan_id := v_protection_plan_id v; v_replacement_point_id := None;
     v_state := v_state v; v_pending_point := v_pending_point v;
     v_cleanup_task_id := v_cleanup_task_id v; v_cleanup_attempts := v_cleanup_attempts v;
     v_created_at := v_created_at v |}.

(** [delete from restore_points where ...]: refused while a task refers to one of
    them; reservations forget the point they were to replace. *)
Definition points_deleted (p : string -> point_row -> bool) (d : db) : db :=
  set_reservations
    (set_restore_points d (filter (fun '(id, r) => p id r = false) (restore_points d)))
    ((fun v => if refers p (restore_points d) (v_replacement_point_id v)
      then reservation_without_point v else v) <$> reservations d).

Definition rows_gone {R} (m m' : gmap string R) : Z := Z.of_nat (size m) - Z.of_nat (size m').

Definition delete_points (p : string -> point_row -> bool) (d : db) : option (db * Z) :=
  if exists_where (fun _ t => refers p (restore_points d) (t_restore_point_id t)) (tasks d)
  then None
  else
    let d' := points_deleted p d in
    Some (d', rows_gone (restore_points d) (restore_points d')).

Definition reservation_without_cleanup (v : reservation_row) : reservation_row :=
  {| v_protection_plan_id := v_protection_plan_id v;
     v_replacement_point_id := v_replacement_point_id v; v_state := v_state v;
     v_pending_point := v_pending_point v; v_cleanup_task_id := None;
     v_cleanup_attempts := v_cleanup_attempts v; v_created_at := v_created_at v |}.

(** [delete from tasks where ...]: refused while a remaining point has one of them
    as its backup task, or a plan points at two of them; reservations and events
    of the tasks go with them, and pointers to them are cleared. *)
Definition tasks_deleted (p : string -> task_row -> bool) (d : db) : db :=
  let gone := refers p (tasks d) in
  let clear (o : option string) := if gone o then None else o in
  let d' := set_tasks d (filter (fun '(id, t) => p id t = false) (tasks d)) in
  let d' := set_task_events d'
    (filter (fun '(_, e) => gone (Some (e_task_id e)) = false) (task_events d)) in
  let d' := set_diagnostic_logs d'
    (filter (fun '(_, g) => gone (g_task_id g) = false) (diagnostic_logs d)) in
  let d' := set_protection_plans d'
    ((fun pp => plan_with_latest pp (clear (p_latest_sync_task_id pp))
                  (clear (p_latest_recovery_task_id pp))) <$> protection_plans d) in
  set_reservations d'
    ((fun v => if gone (v_cleanup_task_id v) then reservation_without_cleanup v else v)
      <$> filter (fun '(id, _) => gone (Some id) = false) (reservations d)).

Definition delete_tasks (p : string -> task_row -> bool) (d : db) : option (db * Z) :=
  let gone := refers p (tasks d) in
  if exists_where (fun _ r => gone (r_backup_task_id r)) (restore_points d) ||
     exists_where (fun _ pp => gone (p_latest_sync_task_id pp) && gone (p_latest_recovery_task_id pp))
       (protection_plans d)
  then None
  else
    let d' := tasks_deleted p d in Some (d', rows_gone (tasks d) (tasks d')).

Definition delete_plan_apps (id : string) (d : db) : option (db * Z) :=
  let kept := filter (fun '(k, _) => k.1 <> id) (plan_apps d) in
  Some (set_plan_apps d kept, Z.of_nat (size (plan_apps d)) - Z.of_nat (size kept)).

(** [delete from protection_plans where id=$1]: refused while a task or a restore
    point refers to the plan; its schedule, reservations and applications go. *)
Definition plan_deleted (id : string) (d : db) : db :=
  let d' := set_protection_plans d (delete id (protection_plans d)) in
  let d' := set_plan_apps d' (filter (fun '(k, _) => k.1 <> id) (plan_apps d)) in
  let d' := set_schedules d' (delete id (schedules d)) in
  set_reservations d' (filter (fun '(_, v) => v_protection_plan_id v <> id) (reservations d)).

Definition delete_plan (id : string) (d : db) : option (db * Z) :=
  if exists_where (fun _ => task_of_plan id) (tasks d) ||
     exists_where (fun _ => of_plan id) (restore_points d)
  then None
  else Some (plan_deleted id d, 1).

Definition update_applications p f (d : db) : option (db * Z) :=
  let '(m, n) := update_where p f (applications d) in Some (set_applications d m, n).

Definition app_with_status (a : app_row) (status : string) : app_row :=
  {| a_tenant_id := a_tenant_id a; a_cluster_id := a_cluster_id a; a_namespace := a_namespace a;
     a_protection_status := status |}.

(** ** Deleting a plan *)

(** The plan as the deletions read it: no schedule, no latest tasks. *)
Definition read_for_deletion (id : string) (d : db) : option ProtectionPlan :=
  p ← protection_plans d !! id;
  let apps := apps_of_plan id d in
  Some (plan_of_row (set_schedules d ∅) id (plan_with_latest p None None)
    (match apps with
     | [] => if nonempty (p_app_id p) then [p_app_id p] else []
     | _ => apps
     end)).

Definition with_plan {A} (found : error + ProtectionPlan) (k : ProtectionPlan -> tx db (option A))
    : tx db (option A) :=
  match found with
  | inl ErrNoRows => mret None
  | inl err => fail err
  | inr plan => k plan
  end.

Definition task_without_plan (t : task_row) : task_row :=
  {| t_tenant_id := t_tenant_id t; t_cluster_id := t_cluster_id t; t_app_id := t_app_id t;
     t_protection_plan_id := None; t_restore_point_id := t_restore_point_id t;
     t_type := t_type t; t_status := t_status t; t_progress := t_progress t;
     t_command_id := t_command_id t; t_error_code := t_error_code t;
     t_error_message := t_error_message t;
     t_payload := <["archivedProtectionPlanId" :=
       match t_protection_plan_id t with Some id => VStr id | None => VNull end]> (t_payload t);
     t_created_at := t_created_at t; t_dispatched_at := t_dispatched_at t;
     t_accepted_at := t_accepted_at t; t_started_at := t_started_at t;
     t_completed_at := t_completed_at t |}.

Definition point_without_plan (created : time) (r : point_row) : point_row :=
  {| r_tenant_id := r_tenant_id r; r_protection_plan_id := None;
     r_source_cluster_id := r_source_cluster_id r; r_app_id := r_app_id r;
     r_storage_repo_id := r_storage_repo_id r; r_display_name := r_display_name r;
     r_velero_backup_name := r_velero_backup_name r; r_point_type := r_point_type r;
     r_status := r_status r; r_size_bytes := r_size_bytes r; r_started_at := r_started_at r;
     r_completed_at := r_completed_at r; r_expires_at := r_expires_at r;
     r_metadata := <["archivedProtectionPlanId" :=
       match r_protection_plan_id r with Some id => VStr id | None => VNull end]> (r_metadata r);
     r_created_at := r_created_at r; r_task_created_at := Some created;
     r_size_metrics_v2 := r_size_metrics_v2 r; r_backup_task_id := r_backup_task_id r |}.

(** The trigger runs on every archived point. *)
Definition archive_points (id : string) (d : db) : option (db * Z) :=
  if exists_where (fun _ r => of_plan id r &&
       is_null (backup_task_guard d (r_backup_task_id r) None)) (restore_points d)
  then None
  else update_points (fun _ => of_plan id)
    (fun _ r => point_without_plan
       (default zero_time (backup_task_guard d (r_backup_task_id r) None)) r) d.

Definition DeleteProtectionPlan (id : string) : tx db (option ProtectionPlan) :=
  begin_tx;;
  found ← attempt (query (read_for_deletion id));
  with_plan found (fun item =>
    exec (update_tasks (fun _ => task_of_plan id) (fun _ => task_without_plan));;
    exec (archive_points id);;
    exec (delete_plan_apps id);;
    exec (delete_plan id);;
    (match plan_AppIDs item with
     | [] => mret tt
     | _ => exec (update_applications (fun k _ => one_of k (planIDsSlice (plan_AppIDs item)))
              (fun _ a => app_with_status a "unprotected"));; mret tt
     end);;
    commit;; mret (Some item)).

(** ** Removing a plan with everything it protected *)

Definition task_without_point (t : task_row) : task_row :=
  {| t_tenant_id := t_tenant_id t; t_cluster_id := t_cluster_id t; t_app_id := t_app_id t;
     t_protection_plan_id := t_protection_plan_id t; t_restore_point_id := None;
     t_type := t_type t; t_status := t_status t; t_progress := t_progress t;
     t_command_id := t_command_id t; t_error_code := t_error_code t;
     t_error_message := t_error_message t; t_payload := t_payload t;
     t_created_at := t_created_at t; t_dispatched_at := t_dispatched_at t;
     t_accepted_at := t_accepted_at t; t_started_at := t_started_at t;
     t_completed_at := t_completed_at t |}.

Definition names_point_of (id : string) (d : db) (t : task_row) : bool :=
  match t_restore_point_id t ≫= fun pid => restore_points d !! pid with
  | Some r => of_plan id r
  | None => false
  end.

Definition forget_points (id : string) (d : db) : option (db * Z) :=
  update_tasks (fun _ => names_point_of id d) (fun _ => task_without_point) d.

Definition still_protected (tenant cluster app : string) (d : db) : bool :=
  existsb (fun '((plan, a), _) => (a =s app) &&
    match protection_plans d !! plan with
    | Some p => (p_tenant_id p =s tenant) && (p_source_cluster_id p =s cluster)
    | None => false
    end) (map_to_list (plan_apps d)).

Definition CleanupProtectionPlanRecords (id : string) : tx db (option ProtectionPlan) :=
  begin_tx;;
  found ← attempt (query (read_for_deletion id));
  with_plan found (fun item =>
    exec (forget_points id);;
    exec (delete_points (fun _ => of_plan id));;
    exec (update_plans (fun k _ => k =s id) (fun _ p => plan_with_latest p None None));;
    exec (delete_tasks (fun _ => task_of_plan id));;
    exec (delete_plan_apps id);;
    exec (delete_plan id);;
    (match plan_AppIDs item with
     | [] => mret tt
     | _ =>
         exec (fun d => update_applications
           (fun k _ => one_of k (planIDsSlice (plan_AppIDs item)) &&
              negb (still_protected (plan_TenantID item) (plan_SourceClusterID item) k d))
           (fun _ a => app_with_status a "pending_protection") d);; mret tt
     end);;
    commit;; mret (Some item)).

(** ** Runs without failures *)

Section runs.
Context {D : Type}.

Lemma bind_run {A B} (m : tx D A) (k : A -> tx D B) s s' a :
  m s = (s', inr a) -> (m ≫= k) s = k a s'.
Proof. unfold mbind, tx_bind. by intros ->. Qed.

Lemma exec_run {A} (f : D -> option (D * A)) c d d' n :
  f d = Some (d', n) -> exec f (Session c d None) = (Session c d' None, inr n).
Proof. unfold exec, burn. simpl. by intros ->. Qed.

Lemma query_run {A} (f : D -> option A) c d a :
  f d = Some a -> query f (Session c d None) = (Session c d None, inr a).
Proof. unfold query, burn. simpl. by intros ->. Qed.

Lemma attempt_run {A} (m : tx D A) s s' r : m s = (s', r) -> attempt m s = (s', inr r).
Proof. unfold attempt. by intros ->. Qed.

Lemma begin_run (c d : D) : begin_tx (Session c d None) = (Session c c None, inr tt).
Proof. done. Qed.

Lemma commit_run (c d : D) : commit (Session c d None) = (Session d d None, inr tt).
Proof. done. Qed.

End runs.

(** ** Removing a plan *)

Lemma latest_task_plan d q types id t :
  latest_task_ok d q types (Some id) = true -> tasks d !! id = Some t ->
  t_protection_plan_id t = Some q.
Proof.
  unfold latest_task_ok. intros H Ht. rewrite Ht in H. apply andb_true_iff in H as [H _].
  by apply sql_eq_Some.
Qed.

Lemma reservations_after_tasks_deleted p d k v :
  reservations d !! k = Some v -> refers p (tasks d) (Some k) = false ->
  reservations (tasks_deleted p d) !! k =
  Some (if refers p (tasks d) (v_cleanup_task_id v) then reservation_without_cleanup v else v).
Proof.
  intros Hv Hk. cbn. rewrite lookup_fmap.
  by rewrite (map_lookup_filter_Some_2 _ _ k v).
Qed.

Lemma reservations_after_points_deleted p d k :
  reservations (points_deleted p d) !! k =
  (fun v => if refers p (restore_points d) (v_replacement_point_id v)
            then reservation_without_point v else v) <$> reservations d !! k.
Proof. apply lookup_fmap. Qed.

Lemma plans_after_tasks_deleted p d q :
  protection_plans (tasks_deleted p d) !! q =
  (fun pp => plan_with_latest pp
     (if refers p (tasks d) (p_latest_sync_task_id pp) then None else p_latest_sync_task_id pp)
     (if refers p (tasks d) (p_latest_recovery_task_id pp) then None
      else p_latest_recovery_task_id pp)) <$> protection_plans d !! q.
Proof. apply lookup_fmap. Qed.

(** The statements of the cleanup, when none of them fails. *)
Lemma cleanup_steps id d p d1 n1 d2 n2 d3 n3 d4 n4 d5 n5 d6 n6 :
  protection_plans d !! id = Some p ->
  forget_points id d = Some (d1, n1) ->
  delete_points (fun _ => of_plan id) d1 = Some (d2, n2) ->
  update_plans (fun k _ => k =s id) (fun _ p => plan_with_latest p None None) d2 = Some (d3, n3) ->
  delete_tasks (fun _ => task_of_plan id) d3 = Some (d4, n4) ->
  delete_plan_apps id d4 = Some (d5, n5) ->
  delete_plan id d5 = Some (d6, n6) ->
  exists d' item, run (CleanupProtectionPlanRecords id) None d = (d', inr (Some item)) /\
    exists apps, d' = set_applications d6 apps.
Proof.
  intros Hp H1 H2 H3 H4 H5 H6. unfold run, CleanupProtectionPlanRecords.
  rewrite (bind_run _ _ _ _ _ (begin_run d d)).
  erewrite bind_run by (apply attempt_run, query_run; unfold read_for_deletion; rewrite Hp;
    reflexivity).
  cbn [with_plan].
  rewrite (bind_run _ _ _ _ _ (exec_run _ _ _ _ _ H1)), (bind_run _ _ _ _ _ (exec_run _ _ _ _ _ H2)),
    (bind_run _ _ _ _ _ (exec_run _ _ _ _ _ H3)), (bind_run _ _ _ _ _ (exec_run _ _ _ _ _ H4)),
    (bind_run _ _ _ _ _ (exec_run _ _ _ _ _ H5)), (bind_run _ _ _ _ _ (exec_run _ _ _ _ _ H6)).
  match goal with |- context [match plan_AppIDs ?i with _ => _ end] => destruct (plan_AppIDs i) end.
  - rewrite (bind_run _ _ _ _ _ eq_refl), (bind_run _ _ _ _ _ (commit_run _ _)).
    eexists _, _. split; [reflexivity|]. exists (applications d6). by destruct d6.
  - erewrite bind_run by (erewrite bind_run by (apply exec_run; reflexivity); reflexivity).
    rewrite (bind_run _ _ _ _ _ (commit_run _ _)).
    eexists _, _. split; [reflexivity|]. eexists. reflexivity.
Qed.

Section cleanup.
Context (id : string) (d : db).

Definition forgotten : gmap string task_row :=
  (fun t => if names_point_of id d t then task_without_point t else t) <$> tasks d.

Definition cleaned_tasks : gmap string task_row :=
  filter (fun '(_, t) => task_of_plan id t = false) forgotten.
Definition cleaned_points : gmap string point_row :=
  filter (fun '(_, r) => of_plan id r = false) (restore_points d).

(** The states the deletions go through. *)
Definition points_gone : db := points_deleted (fun _ => of_plan id) (set_tasks d forgotten).
Definition pointers_gone : db := set_protection_plans points_gone
  (fst (update_where (fun k _ => k =s id) (fun _ p => plan_with_latest p None None)
     (protection_plans d))).
Definition tasks_gone : db := tasks_deleted (fun _ => task_of_plan id) pointers_gone.
Definition apps_gone : db :=
  set_plan_apps tasks_gone (filter (fun '(k, _) => k.1 <> id) (plan_apps d)).
Definition cleaned : db := plan_deleted id apps_gone.

Hypothesis (Hbackups : backups_ok d) (Hlatest : latest_ok d).

Lemma forget_points_eq : exists n, forget_points id d = Some (set_tasks d forgotten, n).
Proof.
  unfold forget_points, update_tasks. eexists. f_equal. f_equal.
  apply (f_equal (set_tasks d)). apply map_eq. intros k. cbn. rewrite map_lookup_imap.
  unfold forgotten. rewrite lookup_fmap. by destruct (tasks d !! k).
Qed.

Lemma forgotten_lookup k t' :
  forgotten !! k = Some t' ->
  exists t, tasks d !! k = Some t /\ t_protection_plan_id t' = t_protection_plan_id t /\
    names_point_of id d t' = false.
Proof.
  unfold forgotten. rewrite lookup_fmap. destruct (tasks d !! k) as [t|]; [|done].
  intros [= <-]. exists t. destruct (names_point_of id d t) eqn:E; done.
Qed.

Lemma forgotten_plan k t :
  tasks d !! k = Some t -> exists t', forgotten !! k = Some t' /\
    t_protection_plan_id t' = t_protection_plan_id t.
Proof.
  intros Hk. unfold forgotten. rewrite lookup_fmap, Hk. cbn. eexists. split; [done|].
  by destruct (names_point_of id d t).
Qed.

(** No task still names a point that goes. *)
Lemma no_task_names_a_point :
  exists_where (fun _ t => refers (fun _ => of_plan id) (restore_points d) (t_restore_point_id t))
    forgotten = false.
Proof.
  apply exists_where_false. intros k t' (t & _ & _ & Hn)%forgotten_lookup.
  unfold names_point_of in Hn. unfold refers.
  destruct (t_restore_point_id t') as [pid|]; [|done]. cbn in Hn.
  by destruct (restore_points d !! pid).
Qed.

(** No point that stays has a backup task that goes. *)
Lemma no_point_loses_its_backup :
  exists_where (fun _ r => refers (fun _ => task_of_plan id) forgotten (r_backup_task_id r))
    cleaned_points = false.
Proof.
  apply exists_where_false. intros k r [Hr Hof]%map_lookup_filter_Some.
  destruct (Hbackups k r Hr) as (b & t & -> & Ht & Hplan). unfold refers.
  destruct (forgotten_plan b t Ht) as (t' & -> & Hplan'). unfold task_of_plan, of_plan in *.
  congruence.
Qed.

(** The pointers of the other plans name tasks of those plans. *)
Lemma pointer_stays q types o :
  q <> id -> latest_task_ok d q types o = true ->
  refers (fun _ => task_of_plan id) forgotten o = false.
Proof.
  intros Hne Hok. destruct o as [k|]; [|done]. unfold refers.
  destruct (forgotten !! k) as [t'|] eqn:E; [|done].
  apply forgotten_lookup in E as (t & Ht & Hplan & _).
  pose proof (latest_task_plan _ _ _ _ _ Hok Ht) as Hown. unfold task_of_plan.
  rewrite Hplan, Hown. cbn. by apply seqb_false.
Qed.

Lemma no_pointer_blocks :
  exists_where (fun _ pp =>
    refers (fun _ => task_of_plan id) forgotten (p_latest_sync_task_id pp) &&
    refers (fun _ => task_of_plan id) forgotten (p_latest_recovery_task_id pp))
    (protection_plans pointers_gone) = false.
Proof.
  apply exists_where_false. intros q pp. cbn. rewrite map_lookup_imap.
  destruct (protection_plans d !! q) as [pp0|] eqn:Hq; [|done]. cbn.
  destruct (q =s id) eqn:E; intros [= <-]; [done|]. apply seqb_false in E.
  pose proof (Hlatest q pp0 Hq) as [Hs _]%andb_true_iff.
  by rewrite (pointer_stays q _ _ E Hs).
Qed.

Lemma nothing_refers_to_the_plan :
  exists_where (fun _ => task_of_plan id) (tasks apps_gone) ||
  exists_where (fun _ => of_plan id) (restore_points apps_gone) = false.
Proof.
  apply orb_false_iff. split; apply exists_where_false; intros k r;
    by intros [_ ?]%map_lookup_filter_Some.
Qed.

Lemma delete_points_ok : exists n,
  delete_points (fun _ => of_plan id) (set_tasks d forgotten) = Some (points_gone, n).
Proof.
  unfold delete_points. cbn [tasks restore_points set_tasks].
  rewrite no_task_names_a_point. by eexists.
Qed.

Lemma delete_tasks_ok : exists n, delete_tasks (fun _ => task_of_plan id) pointers_gone = Some (tasks_gone, n).
Proof.
  unfold delete_tasks. change (tasks pointers_gone) with forgotten.
  change (restore_points pointers_gone) with cleaned_points.
  rewrite no_point_loses_its_backup, no_pointer_blocks. by eexists.
Qed.

Lemma delete_plan_ok : delete_plan id apps_gone = Some (cleaned, 1).
Proof. unfold delete_plan. by rewrite nothing_refers_to_the_plan. Qed.

Lemma pointers_ok : exists n,
  update_plans (fun k _ => k =s id) (fun _ p => plan_with_latest p None None) points_gone =
  Some (pointers_gone, n).
Proof.
  unfold pointers_gone. change (protection_plans d) with (protection_plans points_gone).
  generalize points_gone. intros x. by eexists.
Qed.

Lemma apps_ok : exists n, delete_plan_apps id tasks_gone = Some (apps_gone, n).
Proof.
  unfold apps_gone. change (plan_apps d) with (plan_apps tasks_gone).
  generalize tasks_gone. intros x. by eexists.
Qed.

Lemma cleanup_run p :
  protection_plans d !! id = Some p ->
  exists d' item, run (CleanupProtectionPlanRecords id) None d = (d', inr (Some item)) /\
    exists apps, d' = set_applications cleaned apps.
Proof.
  intros Hp. destruct forget_points_eq as [n1 H1], delete_points_ok as [n2 H2].
  destruct pointers_ok as [n3 H3], delete_tasks_ok as [n4 H4], apps_ok as [n5 H5].
  exact (cleanup_steps _ _ _ _ _ _ _ _ _ _ _ _ _ _ _ Hp H1 H2 H3 H4 H5 delete_plan_ok).
Qed.

Lemma other_plan_kept q :
  q <> id -> protection_plans cleaned !! q = protection_plans d !! q.
Proof.
  intros Hne. change (protection_plans cleaned) with (delete id (protection_plans tasks_gone)).
  rewrite lookup_delete_ne by done. unfold tasks_gone. rewrite plans_after_tasks_deleted.
  cbn. rewrite map_lookup_imap.
  destruct (protection_plans d !! q) as [pp|] eqn:Hq; [|done]. cbn.
  rewrite (proj2 (seqb_false q id) Hne).
  pose proof (Hlatest q pp Hq) as [Hs Hr]%andb_true_iff. fold forgotten.
  rewrite (pointer_stays q _ _ Hne Hs), (pointer_stays q _ _ Hne Hr). by destruct pp.
Qed.

Lemma kept_apps q app : q <> id -> plan_apps cleaned !! (q, app) = plan_apps d !! (q, app).
Proof.
  intros Hne.
  assert (Hkept : forall m : gmap (string * string) time,
    filter (fun '(k, _) => k.1 <> id) m !! (q, app) = m !! (q, app)).
  { intros m. rewrite map_lookup_filter. destruct (m !! (q, app)); [|done]. cbn.
    by rewrite option_guard_True. }
  change (plan_apps cleaned) with
    (filter (fun '(k, _) => k.1 <> id) (filter (fun '(k, _) => k.1 <> id) (plan_apps d))).
  by rewrite !Hkept.
Qed.

Lemma kept_task k t :
  tasks d !! k = Some t -> task_of_plan id t = false ->
  tasks cleaned !! k = Some (if names_point_of id d t then task_without_point t else t).
Proof.
  intros Ht Hof. change (tasks cleaned) with cleaned_tasks. apply map_lookup_filter_Some. split.
  - unfold forgotten. by rewrite lookup_fmap, Ht.
  - by destruct (names_point_of id d t).
Qed.

Lemma kept_point k r :
  restore_points d !! k = Some r -> of_plan id r = false -> restore_points cleaned !! k = Some r.
Proof.
  intros Hr Hof. change (restore_points cleaned) with cleaned_points.
  by apply map_lookup_filter_Some.
Qed.

Lemma kept_reservation k v :
  reservations d !! k = Some v -> v_protection_plan_id v <> id ->
  (forall t, tasks d !! k = Some t -> task_of_plan id t = false) ->
  exists v', reservations cleaned !! k = Some v' /\ v_state v' = v_state v /\
    v_protection_plan_id v' = v_protection_plan_id v /\ v_pending_point v' = v_pending_point v.
Proof.
  intros Hv Hplan Htask. set (w := if refers (fun _ => of_plan id) (restore_points d)
    (v_replacement_point_id v) then reservation_without_point v else v).
  assert (Hw : v_state w = v_state v /\ v_protection_plan_id w = v_protection_plan_id v /\
    v_pending_point w = v_pending_point v) by (unfold w; by destruct (refers _ (restore_points d) _)).
  exists (if refers (fun _ => task_of_plan id) forgotten (v_cleanup_task_id w)
          then reservation_without_cleanup w else w).
  split; [|destruct Hw as (? & ? & ?); by destruct (refers _ forgotten _)].
  change (reservations cleaned) with
    (filter (fun '(_, v) => v_protection_plan_id v <> id) (reservations tasks_gone)).
  apply map_lookup_filter_Some.
  split; [|destruct Hw as (_ & Hw & _); destruct (refers _ _ (v_cleanup_task_id w)); cbn; congruence].
  apply (reservations_after_tasks_deleted _ pointers_gone).
  - change (reservations pointers_gone) with (reservations points_gone). unfold points_gone.
    by rewrite reservations_after_points_deleted; cbn; rewrite Hv.
  - unfold refers. change (tasks pointers_gone) with forgotten. destruct (forgotten !! k) as [t'|] eqn:E; [|done].
    apply forgotten_lookup in E as (t & Ht & Hp & _). unfold task_of_plan. rewrite Hp.
    by apply Htask.
Qed.

(** Nothing of the plan is left, whatever becomes of its applications. *)
Lemma nothing_left apps :
  let d' := set_applications cleaned apps in
  protection_plans d' !! id = None /\ schedules d' !! id = None /\
  (forall app, plan_apps d' !! (id, app) = None) /\
  (forall k t, tasks d' !! k = Some t -> task_of_plan id t = false) /\
  (forall k r, restore_points d' !! k = Some r -> of_plan id r = false) /\
  (forall k v, reservations d' !! k = Some v -> v_protection_plan_id v <> id).
Proof.
  cbn -[plan_deleted]. split_and!.
  - apply lookup_delete_eq.
  - apply lookup_delete_eq.
  - intros app. apply map_lookup_filter_None. right. intros c _ Hne. by apply Hne.
  - by intros k t [_ ?]%map_lookup_filter_Some.
  - by intros k r [_ ?]%map_lookup_filter_Some.
  - by intros k v [_ ?]%map_lookup_filter_Some.
Qed.

(** The plan, schedule and applications of other plans are. *)
Lemma others_left q :
  q <> id -> protection_plans cleaned !! q = protection_plans d !! q /\
  schedules cleaned !! q = schedules d !! q /\
  forall app, plan_apps cleaned !! (q, app) = plan_apps d !! (q, app).
Proof.
  intros Hq. split; [by apply other_plan_kept|]. split; [by apply lookup_delete_ne|].
  intros app. by apply kept_apps.
Qed.

End cleanup.
