(* ===== verification/Policies.v ===== *)
(** Policies: backend/internal/store/postgres_policies.go.

    Lowering a policy's retention count is refused while one of its plans uses
    more slots than the new count. *)

From S2P Require Import Prelude Calendar Value Types Retention Session Database Quota.

(** ** Writing policies *)

Definition policy_timezone (input : PolicyInput) : string :=
  if nonempty (poli_RetentionTimezone input) then poli_RetentionTimezone input else "UTC".

Definition or_default (s d : string) : string := if nonempty s then s else d.

Definition new_policy (id : string) (now : time) (input : PolicyInput) : Policy :=
  {| pol_RetentionRules := poli_RetentionRules input;
     pol_RetentionTimezone := policy_timezone input; pol_ID := id;
     pol_TenantID := or_default (poli_TenantID input) DefaultTenantID;
     pol_Name := poli_Name input; pol_Composition := or_default (poli_Composition input) "manual";
     pol_ScheduleType := or_default (poli_ScheduleType input) "manual";
     pol_IntervalValue := poli_IntervalValue input; pol_IntervalUnit := poli_IntervalUnit input;
     pol_Hour := poli_Hour input; pol_Minute := poli_Minute input;
     pol_WeekDay := poli_WeekDay input; pol_MonthDay := poli_MonthDay input;
     pol_RetentionCount := poli_RetentionCount input;
     pol_RetentionDays := poli_RetentionDays input;
     pol_Status := or_default (poli_Status input) "pending_activation";
     pol_BoundCount := 0; pol_CreatedAt := now; pol_UpdatedAt := now |}.

(** [integer] columns: the driver refuses what 32 bits cannot hold. *)
Definition in_int32 (z : Z) : bool := (- 2 ^ 31 <=? z) && (z <? 2 ^ 31).

Definition policy_fits (c : policy_row) : bool :=
  forallb (fun o => in_int32 (default 0 o))
    [c_interval_value c; c_hour c; c_minute c; c_week_day c; c_month_day c;
     c_retention_count c; c_retention_days c].

(** The unique index on tenant and name. *)
Definition policy_clash (id : string) (c : policy_row) (d : db) : bool :=
  exists_where (fun k c' => (k <>s id) && (c_tenant_id c' =s c_tenant_id c) &&
    (c_name c' =s c_name c)) (policies d).

Definition policy_row_of (now : time) (p : Policy) : policy_row :=
  {| c_tenant_id := pol_TenantID p; c_name := pol_Name p; c_composition := pol_Composition p;
     c_schedule_type := pol_ScheduleType p; c_interval_value := Some (pol_IntervalValue p);
     c_interval_unit := Some (pol_IntervalUnit p); c_hour := Some (pol_Hour p);
     c_minute := Some (pol_Minute p); c_week_day := Some (pol_WeekDay p);
     c_month_day := Some (pol_MonthDay p); c_retention_count := Some (pol_RetentionCount p);
     c_retention_days := Some (pol_RetentionDays p); c_retention_rules := pol_RetentionRules p;
     c_retention_timezone := pol_RetentionTimezone p; c_status := pol_Status p;
     c_created_at := pg_time now; c_updated_at := pg_time now |}.

Definition insert_policy (id : string) (c : policy_row) (d : db) : option (db * Z) :=
  if bool_decide (is_Some (policies d !! id)) || policy_clash id c d ||
     negb (fk (Some (c_tenant_id c)) (resource_scopes d)) || negb (policy_fits c)
  then None
  else Some (set_policies d (<[id := c]> (policies d)), 1).

Section policies.
Context (LoadLocation : string -> option location).

Definition CreatePolicy (newID : string) (now : time) (input : PolicyInput) : tx db Policy :=
  match ValidateRetentionRules LoadLocation (poli_RetentionRules input) (policy_timezone input) with
  | Some err => fail (ErrRetention err)
  | None =>
      let policy := new_policy newID now input in
      exec (insert_policy newID (policy_row_of now policy));; commit;; mret policy
  end.

(** ** Reading policies *)

(** [count(distinct app_id)] over the plans bound to the policy. *)
Definition bound_apps (id : string) (d : db) : gset string :=
  list_to_set
    (omap (fun '(_, p) => if sql_eq (p_policy_id p) (Some id) then Some (p_app_id p) else None)
       (map_to_list (protection_plans d)) ++
     omap (fun '((plan, app), _) =>
       if sql_eq (protection_plans d !! plan ≫= p_policy_id) (Some id) then Some app else None)
       (map_to_list (plan_apps d))).

Definition policy_of_row (d : db) (id : string) (c : policy_row) : Policy :=
  {| pol_RetentionRules := c_retention_rules c; pol_RetentionTimezone := c_retention_timezone c;
     pol_ID := id; pol_TenantID := c_tenant_id c; pol_Name := c_name c;
     pol_Composition := c_composition c; pol_ScheduleType := c_schedule_type c;
     pol_IntervalValue := default 0 (c_interval_value c);
     pol_IntervalUnit := text (c_interval_unit c); pol_Hour := default 0 (c_hour c);
     pol_Minute := default 0 (c_minute c); pol_WeekDay := default 0 (c_week_day c);
     pol_MonthDay := default 0 (c_month_day c);
     pol_RetentionCount := default 0 (c_retention_count c);
     pol_RetentionDays := default 0 (c_retention_days c); pol_Status := c_status c;
     pol_BoundCount := Z.of_nat (size (bound_apps id d)); pol_CreatedAt := c_created_at c;
     pol_UpdatedAt := c_updated_at c |}.

Definition newest_policy_le (x y : string * policy_row) : Prop :=
  c_created_at (snd y) <= c_created_at (snd x).
#[export] Instance newest_policy_le_dec : RelDecision newest_policy_le.
Proof. intros x y. unfold newest_policy_le. apply _. Defined.

Definition ListPolicies : tx db (list Policy) :=
  select (fun d => (fun '(id, c) => policy_of_row d id c) <$>
    merge_sort newest_policy_le (map_to_list (policies d))).

(** ** Updating policies *)

Definition plans_of_policy (id : string) (d : db) : list string :=
  merge_sort String.le (fst <$> List.filter
    (fun '(_, p) => sql_eq (p_policy_id p) (Some id)) (map_to_list (protection_plans d))).

(** The slots the plan occupies, counted in one statement. *)
Definition occupied (planID : string) (d : db) : Z :=
  count_where (fun _ r => of_plan planID r && (r_status r <>s "deleted")) (restore_points d) +
  count_where (fun _ v => (v_protection_plan_id v =s planID) &&
    match v_replacement_point_id v with
    | None => true
    | Some id => match restore_points d !! id with
                 | Some r => r_status r =s "deleted"
                 | None => false
                 end
    end && one_of (v_state v) ["reserved"; "data_ready"; "deleting"]) (reservations d).

Definition counts_points (input : PolicyInput) : bool :=
  (0 <? poli_RetentionCount input) &&
  ((poli_Composition input =s "combined") || (poli_Composition input =s "retention")).

Definition checkOccupied (input : PolicyInput) (planID : string) : tx db unit :=
  used ← select (occupied planID);
  if counts_points input && (poli_RetentionCount input <? used)
  then fail (ErrRestorePointQuota "") else mret tt.

Definition updated_policy (now : time) (input : PolicyInput) (c : policy_row) : policy_row :=
  {| c_tenant_id := c_tenant_id c; c_name := poli_Name input;
     c_composition := poli_Composition input; c_schedule_type := poli_ScheduleType input;
     c_interval_value := Some (poli_IntervalValue input);
     c_interval_unit := nullif (poli_IntervalUnit input); c_hour := Some (poli_Hour input);
     c_minute := Some (poli_Minute input); c_week_day := Some (poli_WeekDay input);
     c_month_day := Some (poli_MonthDay input);
     c_retention_count := Some (poli_RetentionCount input);
     c_retention_days := Some (poli_RetentionDays input);
     c_retention_rules := poli_RetentionRules input;
     c_retention_timezone := policy_timezone input; c_status := poli_Status input;
     c_created_at := c_created_at c; c_updated_at := pg_time now |}.

Definition update_policy (id : string) (now : time) (input : PolicyInput) (d : db)
    : option (db * Z) :=
  match policies d !! id with
  | None => Some (d, 0)
  | Some c =>
      let c' := updated_policy now input c in
      if policy_clash id c' d || negb (policy_fits c') then None
      else Some (set_policies d (<[id := c']> (policies d)), 1)
  end.

Definition UpdatePolicy (now : time) (id : string) (input : PolicyInput)
    : tx db (option Policy) :=
  match ValidateRetentionRules LoadLocation (poli_RetentionRules input) (policy_timezone input) with
  | Some err => fail (ErrRetention err)
  | None =>
      begin_tx;;
      plans ← select (plans_of_policy id);
      for_each plans (checkOccupied input);;
      n ← exec (update_policy id now input);
      if n =? 0 then mret None
      else
        commit;;
        items ← ListPolicies;
        mret (List.find (fun item => pol_ID item =s id) items)
  end.

(** ** Deleting policies *)

(** The foreign key of protection_plans refuses to lose its row. *)
Definition delete_policy (id tenantID : string) (d : db) : option (db * Z) :=
  match policies d !! id with
  | Some c =>
      if c_tenant_id c =s tenantID then
        if exists_where (fun _ p => sql_eq (p_policy_id p) (Some id)) (protection_plans d)
        then None
        else Some (set_policies d (delete id (policies d)), 1)
      else Some (d, 0)
  | None => Some (d, 0)
  end.

(** [(deleted, inUse, error)]. *)
Definition DeletePolicy (id : string) : tx db (bool * bool) :=
  found ← attempt (query (fun d => c_tenant_id <$> policies d !! id));
  match found with
  | inl ErrNoRows => mret (false, false)
  | inl err => fail err
  | inr tenantID =>
      inUse ← select (fun d => exists_where
        (fun _ p => (p_tenant_id p =s tenantID) && sql_eq (p_policy_id p) (Some id))
        (protection_plans d));
      if inUse : bool then mret (false, true)
      else
        n ← exec (delete_policy id tenantID);
        commit;; mret (0 <? n, false)
  end.

End policies.

(** ** Facts *)

Lemma occupied_slots_used planID d : occupied planID d = slots_used planID d.
Proof.
  unfold occupied, slots_used. f_equal. unfold reserved_slots, reserves_slot.
  apply count_where_ext. intros k. destruct (reservations d !! k) as [v|]; [|done]. cbn.
  f_equal. unfold active_reservation. by rewrite <- !andb_assoc, (andb_comm (one_of _ _)).
Qed.

Lemma plans_of_policy_in id d q :
  q ∈ plans_of_policy id d <->
  exists p, protection_plans d !! q = Some p /\ p_policy_id p = Some id.
Proof.
  unfold plans_of_policy. rewrite (merge_sort_Permutation String.le), list_elem_of_fmap. split.
  - intros ([k p] & -> & Hin). apply list_elem_of_In, filter_In in Hin as [Hin Hp].
    exists p. split; [|by apply sql_eq_Some].
    by apply elem_of_map_to_list, list_elem_of_In.
  - intros (p & Hq & Hp). exists (q, p). split; [done|].
    apply list_elem_of_In, filter_In. split; [|by apply sql_eq_Some].
    by apply list_elem_of_In, elem_of_map_to_list.
Qed.
