(* ===== verification/Bindings.v ===== *)
(** What the agent of a cluster knows of a storage repository: the table
    cluster_storage_bindings (UpsertClusterStorageBinding,
    GetClusterStorageBinding and UpdateClusterStorageBindingStatus of
    backend/internal/store/postgres.go) and when a binding may be used
    (clusterStorageBindingReady, protectionPlanStorageBindingsReady and the
    handlers that record a sync's result, of
    backend/internal/httpserver/protection_activation.go). *)

From S2P Require Import Prelude Calendar Value Types Retention Session Database Control.
From S2P Require Import Fleet Storage Plans Policies.

Record ClusterStorageBinding := {
  csb_ID : string;
  csb_TenantID : string;
  csb_ClusterID : string;
  csb_StorageRepoID : string;
  csb_SourceClusterID : string;
  csb_BSLName : string;
  csb_ObjectPrefix : string;
  csb_Status : string;
  csb_RetryCount : Z;
  csb_LastSyncedAt : time;
  csb_LastSuccessAt : time;
  csb_LastErrorCode : string;
  csb_LastErrorMessage : string;
  csb_RepoUpdatedAt : time;
  csb_CreatedAt : time;
  csb_UpdatedAt : time
}.

Record ClusterStorageBindingInput := {
  csbi_ClusterID : string;
  csbi_StorageRepoID : string;
  csbi_SourceClusterID : string;
  csbi_BSLName : string;
  csbi_ObjectPrefix : string;
  csbi_Status : string;
  csbi_RetryCount : Z;
  csbi_RepoUpdatedAt : time
}.

Record ClusterStorageBindingStatusInput := {
  cssi_ClusterID : string;
  cssi_StorageRepoID : string;
  cssi_SourceClusterID : string;
  cssi_Status : string;
  cssi_RetryCount : Z;
  cssi_LastSyncedAt : time;
  cssi_LastSuccessAt : time;
  cssi_LastErrorCode : string;
  cssi_LastErrorMessage : string;
  cssi_RepoUpdatedAt : time
}.

(** ** The store *)

Definition scanClusterStorageBinding (key : string * string * string) (b : binding_row)
    : ClusterStorageBinding :=
  let '(clusterID, repoID, sourceID) := key in
  {| csb_ID := b_id b; csb_TenantID := b_tenant_id b; csb_ClusterID := clusterID;
     csb_StorageRepoID := repoID; csb_SourceClusterID := sourceID;
     csb_BSLName := b_bsl_name b; csb_ObjectPrefix := text (b_object_prefix b);
     csb_Status := b_status b; csb_RetryCount := b_retry_count b;
     csb_LastSyncedAt := read_time (b_last_synced_at b);
     csb_LastSuccessAt := read_time (b_last_success_at b);
     csb_LastErrorCode := text (b_last_error_code b);
     csb_LastErrorMessage := text (b_last_error_message b);
     csb_RepoUpdatedAt := read_time (b_repo_updated_at b); csb_CreatedAt := b_created_at b;
     csb_UpdatedAt := b_updated_at b |}.

Definition or_else (s d : string) : string := if nonempty s then s else d.

Definition binding_tenant (clusterID repoID : string) (d : db) : option string :=
  k ← clusters d !! clusterID;
  o ← storage_repositories d !! repoID;
  if k_tenant_id k =s o_tenant_id o then Some (k_tenant_id k) else None.

Definition configured_binding (now : time) (input : ClusterStorageBindingInput) (b : binding_row)
    : binding_row :=
  {| b_id := b_id b; b_tenant_id := b_tenant_id b;
     b_bsl_name := or_else (csbi_BSLName input) "default";
     b_object_prefix := Some (csbi_ObjectPrefix input);
     b_status := or_else (csbi_Status input) "pending"; b_retry_count := csbi_RetryCount input;
     b_last_synced_at := b_last_synced_at b; b_last_success_at := b_last_success_at b;
     b_last_error_code := b_last_error_code b; b_last_error_message := b_last_error_message b;
     b_repo_updated_at := nullif_time (csbi_RepoUpdatedAt input);
     b_created_at := b_created_at b; b_updated_at := pg_time now |}.

Definition new_binding (id tenantID : string) (now : time) : binding_row :=
  {| b_id := id; b_tenant_id := tenantID; b_bsl_name := ""; b_object_prefix := None;
     b_status := ""; b_retry_count := 0; b_last_synced_at := None; b_last_success_at := None;
     b_last_error_code := None; b_last_error_message := None; b_repo_updated_at := None;
     b_created_at := pg_time now; b_updated_at := pg_time now |}.

Definition binding_id_taken (id : string) (d : db) : bool :=
  existsb (fun '(_, b) => b_id b =s id) (map_to_list (storage_bindings d)).

(** [insert ... on conflict (cluster_id, storage_repo_id, source_cluster_id) do update]. *)
Definition upsert_binding (id tenantID : string) (now : time) (key : string * string * string)
    (input : ClusterStorageBindingInput) (d : db) : option (db * binding_row) :=
  if negb (in_int32 (csbi_RetryCount input)) then None
  else
    let put b := Some (set_storage_bindings d (<[key := b]> (storage_bindings d)), b) in
    match storage_bindings d !! key with
    | Some b => put (configured_binding now input b)
    | None =>
        if negb (bool_decide (is_Some (clusters d !! key.2))) || binding_id_taken id d then None
        else put (configured_binding now input (new_binding id tenantID now))
    end.

Definition UpsertClusterStorageBinding (id : string) (now : time)
    (input : ClusterStorageBindingInput) : tx db ClusterStorageBinding :=
  let key := (csbi_ClusterID input, csbi_StorageRepoID input,
              or_else (csbi_SourceClusterID input) (csbi_ClusterID input)) in
  tenantID ← query (binding_tenant (csbi_ClusterID input) (csbi_StorageRepoID input));
  b ← exec (upsert_binding id tenantID now key input);
  commit;; mret (scanClusterStorageBinding key b).

Definition GetClusterStorageBinding (clusterID storageRepoID sourceClusterID : string)
    : tx db (option ClusterStorageBinding) :=
  let key := (clusterID, storageRepoID, or_else sourceClusterID clusterID) in
  select (fun d => scanClusterStorageBinding key <$> storage_bindings d !! key).

Definition reported_binding (now : time) (input : ClusterStorageBindingStatusInput)
    (b : binding_row) : binding_row :=
  {| b_id := b_id b; b_tenant_id := b_tenant_id b; b_bsl_name := b_bsl_name b;
     b_object_prefix := b_object_prefix b;
     b_status := or_else (cssi_Status input) "pending";
     b_retry_count := Z.max (b_retry_count b) (cssi_RetryCount input);
     b_last_synced_at := coalesce (nullif_time (cssi_LastSyncedAt input)) (b_last_synced_at b);
     b_last_success_at := coalesce (nullif_time (cssi_LastSuccessAt input)) (b_last_success_at b);
     b_last_error_code := nullif (cssi_LastErrorCode input);
     b_last_error_message := nullif (cssi_LastErrorMessage input);
     b_repo_updated_at := coalesce (nullif_time (cssi_RepoUpdatedAt input)) (b_repo_updated_at b);
     b_created_at := b_created_at b; b_updated_at := pg_time now |}.

Definition update_binding (now : time) (key : string * string * string)
    (input : ClusterStorageBindingStatusInput) (d : db) : option (db * option binding_row) :=
  if negb (in_int32 (cssi_RetryCount input)) then None
  else
    match storage_bindings d !! key with
    | None => Some (d, None)
    | Some b =>
        let b := reported_binding now input b in
        Some (set_storage_bindings d (<[key := b]> (storage_bindings d)), Some b)
    end.

(** [now] is the clock of the database. *)
Definition UpdateClusterStorageBindingStatus (now : time)
    (input : ClusterStorageBindingStatusInput) : tx db (option ClusterStorageBinding) :=
  let key := (cssi_ClusterID input, cssi_StorageRepoID input,
              or_else (cssi_SourceClusterID input) (cssi_ClusterID input)) in
  b ← exec (update_binding now key input);
  commit;; mret (scanClusterStorageBinding key <$> b).

Lemma quiet_GetClusterStorageBinding c r s : quiet (GetClusterStorageBinding c r s).
Proof. unfold GetClusterStorageBinding. tx_walk. Qed.
#[export] Hint Resolve quiet_GetClusterStorageBinding : tx.

(** ** When a binding may be used *)

(** [time.Time.After] and [Add(-time.Second)]. *)
Definition synced_since (binding : ClusterStorageBinding) (repo : StorageRepository) : bool :=
  repo_UpdatedAt repo - second <? csb_LastSuccessAt binding.

Definition binding_ready (repo : StorageRepository) (binding : ClusterStorageBinding)
    (sourceClusterID : string) : bool * string :=
  if (csb_BSLName binding <>s storageDomainBSLName repo sourceClusterID) ||
     (csb_ObjectPrefix binding <>s storageDomainPrefix (repo_TenantID repo) sourceClusterID)
  then (false, "storage binding uses an outdated backup storage location")
  else if EqualFold (csb_Status binding) "ready" && synced_since binding repo then (true, "")
  else if EqualFold (csb_Status binding) "failed" then
    (false, or_else (csb_LastErrorMessage binding)
              (or_else (csb_LastErrorCode binding) "storage binding failed"))
  else if EqualFold (csb_Status binding) "configuring"
  then (false, "storage binding is being configured")
  else (false, "storage binding is not ready").

Definition clusterStorageBindingReady (clusterID storageRepoID sourceClusterID : string)
    : ctl (failure + bool * string) :=
  repo ← store (fun _ _ => GetStorageRepository storageRepoID);
  or_return repo (fun repo =>
    match repo with
    | None => mret (inr (false, "storage repository not found"))
    | Some repo =>
        binding ← store (fun _ _ => GetClusterStorageBinding clusterID storageRepoID sourceClusterID);
        or_return binding (fun binding =>
          match binding with
          | None => mret (inr (false, "storage binding has not been configured"))
          | Some binding => mret (inr (binding_ready repo binding sourceClusterID))
          end)
    end).

(** A target that is not ready is only a warning. *)
Definition protectionPlanStorageBindingsReady (plan : ProtectionPlan)
    : ctl (failure + bool * string) :=
  if negb (nonempty (plan_StorageRepoID plan)) then
    mret (inr (false, "storage repository is not set"))
  else
    source ← clusterStorageBindingReady (plan_SourceClusterID plan) (plan_StorageRepoID plan)
               (plan_SourceClusterID plan);
    or_return source (fun '(sourceReady, sourceMessage) =>
      if negb sourceReady then
        mret (inr (false, or_else sourceMessage "source cluster storage binding is not ready"))
      else if negb (nonempty (plan_TargetClusterID plan)) ||
              (plan_TargetClusterID plan =s plan_SourceClusterID plan)
      then mret (inr (true, ""))
      else
        target ← clusterStorageBindingReady (plan_TargetClusterID plan) (plan_StorageRepoID plan)
                   (plan_SourceClusterID plan);
        or_return target (fun '(targetReady, targetMessage) =>
          mret (inr (true,
            if targetReady : bool then ""
            else or_else targetMessage "target cluster storage binding is not ready")))).

Lemma stays_clusterStorageBindingReady R c r s : stays_in R (clusterStorageBindingReady c r s).
Proof.
  unfold clusterStorageBindingReady. apply stays_bind; [apply stays_read; auto with tx|].
  ctl_walk. apply stays_read; auto with tx.
Qed.
#[export] Hint Resolve stays_clusterStorageBindingReady : ctl.

Lemma stays_protectionPlanStorageBindingsReady R plan :
  stays_in R (protectionPlanStorageBindingsReady plan).
Proof. unfold protectionPlanStorageBindingsReady. ctl_walk. Qed.
#[export] Hint Resolve stays_protectionPlanStorageBindingsReady : ctl.
