(* ===== verification/Dispatch.v ===== *)
(** Sending tasks to agents: backend/internal/httpserver/task_dispatch.go.

    A connection is named by the cluster of its agent.  A dispatch is built from
    the stored task alone, so that it can be sent again after the agent
    reconnects or the platform restarts. *)

From S2P Require Import Prelude Calendar Timestamp Value Types Wire Messages Codec Retention Session.
From S2P Require Import Database Control Events Fleet Storage Catalog Commands Tasks RestorePoints.
From S2P Require Import Plans Policies Bindings.

(** ** Reading tasks *)

Definition no_filter : TaskFilter :=
  {| tf_CapacityTrigger := ""; tf_CapacityScheduleDay := ""; tf_CapacityPlanID := "";
     tf_TenantID := ""; tf_RegistrationOwnerID := ""; tf_RegistrationKey := "";
     tf_RegistrationSessionID := ""; tf_ClusterID := ""; tf_ProtectionPlanID := "";
     tf_Types := []; tf_Statuses := []; tf_Limit := 0; tf_Summary := false |}.

Definition of_cluster (clusterID : string) : TaskFilter :=
  {| tf_CapacityTrigger := ""; tf_CapacityScheduleDay := ""; tf_CapacityPlanID := "";
     tf_TenantID := ""; tf_RegistrationOwnerID := ""; tf_RegistrationKey := "";
     tf_RegistrationSessionID := ""; tf_ClusterID := clusterID; tf_ProtectionPlanID := "";
     tf_Types := []; tf_Statuses := []; tf_Limit := 0; tf_Summary := false |}.

Definition ListTasks (clusterID : string) : tx db (list Task) := listTasks (of_cluster clusterID).

(** [r.store.ListTasks], [r.store.UpdateTaskStatus]. *)
Definition list_tasks (clusterID : string) : ctl (failure + list Task) :=
  store (fun _ _ => ListTasks clusterID).
Definition update_task_status (input : TaskStatusInput) : ctl (failure + option Task) :=
  store (fun _ now => UpdateTaskStatus now input).

Definition report (taskID status : string) (progress : Z) (code message : string) (done : bool)
    : TaskStatusInput :=
  {| tsi_TaskID := taskID; tsi_RestorePointID := ""; tsi_Status := status;
     tsi_Progress := progress; tsi_ErrorCode := code; tsi_ErrorMessage := message;
     tsi_Payload := ∅; tsi_MarkAccepted := false; tsi_MarkStarted := false; tsi_MarkDone := done |}.

Definition event (taskID level reason message : string) (payload : document) : TaskEventInput :=
  {| tei_TaskID := taskID; tei_Level := level; tei_Reason := reason; tei_Message := message;
     tei_Payload := payload |}.

Definition isActiveTaskStatus (status : string) : bool :=
  one_of (ToLower status)
    ["queued"; "dispatched"; "accepted"; "running"; "syncing"; "finalizing"; "canceling"].

Definition isCompletedTaskStatus (status : string) : bool :=
  one_of (ToLower status) ["succeeded"; "completed"; "success"].

Definition findTask (taskID : string) : ctl (failure + option Task) :=
  tasks ← list_tasks "";
  or_return tasks (fun tasks => mret (inr (find_first (fun t => task_ID t =s taskID) tasks))).

(** [timeout] in seconds: the ticker ticks once a second, and the deadline is
    noticed at the latest with the last tick. *)
Fixpoint waitForTaskSucceeded (taskID : string) (timeout : nat) : ctl (failure + unit) :=
  found ← findTask taskID;
  or_return found (fun found =>
    let again :=
      why ← await;
      match why, timeout with
      | Stopped, _ => mret (inl (Failure "context canceled"))
      | Tick, S timeout => waitForTaskSucceeded taskID timeout
      | _, _ => mret (inl (Failure "timed out waiting for storage sync task to complete"))
      end in
    match found with
    | None => again
    | Some task =>
        if isCompletedTaskStatus (task_Status task) then mret (inr tt)
        else if ToLower (task_Status task) =s "failed" then
          mret (inl (Failure (or_else (or_else (task_ErrorMessage task) (task_ErrorCode task))
            "task failed")))
        else again
    end).

(** ** Building a dispatch *)

Definition time_value (t : time) : value := VStr (format_rfc3339nano t).

Definition storage_credentials (repo : StorageRepository) : value :=
  match storageCredentials repo with
  | None => VNull
  | Some c =>
      struct Messages.S3Credentials
        [("accessKey", VStr (cred_AccessKey c)); ("secretKey", VStr (cred_SecretKey c));
         ("accountName", VStr (cred_AccountName c)); ("accountKey", VStr (cred_AccountKey c));
         ("serviceAccountKey", VStr (cred_ServiceAccountKey c))]
  end.

Definition storage_sync (repo : StorageRepository) (name : string) (config : document) : value :=
  struct StorageSyncCommand
    [("repositoryId", VStr (repo_ID repo)); ("name", VStr name); ("type", VStr (repo_Type repo));
     ("endpoint", VStr (repo_Endpoint repo)); ("bucket", VStr (repo_Bucket repo));
     ("region", VStr (normalizedStorageRegion (repo_Type repo) (repo_Region repo)));
     ("tlsEnabled", VBool (repo_TLSEnabled repo)); ("secretRef", VStr (repo_SecretRef repo));
     ("credentials", storage_credentials repo); ("config", VObj (jsonify_doc config))].

Definition backup_command (task : Task) : value :=
  let payload := task_Payload task in
  struct BackupCommand
    [("planId", VStr (task_ProtectionPlanID task));
     ("trigger", VStr (firstNonEmptyString [stringPayload payload "trigger"; "manual"]));
     ("sourceClusterId", VStr (task_ClusterID task));
     ("sourceNamespace", VStr (stringPayload payload "sourceNamespace"));
     ("sourceNamespaces", strings (source_namespaces payload));
     ("veleroBackupName", VStr (stringPayload payload "veleroBackupName"));
     ("scope", VStr (stringPayload payload "scope"));
     ("includedResources", strings (stringSlicePayload payload "includedResources"));
     ("resourceSelection", protocolResourceSelection (resourceSelectionPayload payload));
     ("labelSelector", protocolLabelSelector (labelSelectorPayload payload));
     ("storageRepo", VStr (stringPayload payload "storageRepo"));
     ("includeClusterResources", VBool (boolPayload payload "includeClusterResources"));
     ("excludedResources", strings (stringSlicePayload payload "excludedResources"))].

Definition backup_cancel (task : Task) : value :=
  let payload := task_Payload task in
  struct BackupCancelCommand
    [("planId", VStr (firstNonEmptyString [stringPayload payload "planId";
        task_ProtectionPlanID task]));
     ("targetTaskId", VStr (stringPayload payload "targetTaskId"));
     ("veleroBackupName", VStr (stringPayload payload "veleroBackupName"));
     ("reason", VStr (firstNonEmptyString [stringPayload payload "reason"; "user_requested"]))].

Definition agent_upgrade (task : Task) (namespace : string) : value :=
  let payload := task_Payload task in
  struct AgentUpgradeCommand
    [("clusterId", VStr (or_else (stringPayload payload "clusterId") (task_ClusterID task)));
     ("namespace", VStr namespace); ("image", VStr (stringPayload payload "image"));
     ("version", VStr (stringPayload payload "version"));
     ("expectedDigest", VStr (stringPayload payload "expectedDigest"));
     ("deploymentName", VStr (stringPayload payload "deploymentName"));
     ("containerName", VStr (stringPayload payload "containerName"));
     ("rolloutAnnotation", VStr (stringPayload payload "rolloutAnnotation"))].

Definition cache_settings (payload : document) : value :=
  struct CacheSettingsCommand
    [("namespace", VStr (stringPayload payload "namespace"));
     ("enabled", VBool (boolPayload payload "enabled"));
     ("maxGiB", VNum (int64FromAny (get payload "maxGiB")));
     ("clean", VBool (boolPayload payload "clean"))].

Definition velero_upgrade (task : Task) (namespace : string) : value :=
  let payload := task_Payload task in
  let text_field (key : string) := (key, VStr (stringPayload payload key)) in
  let number_field (key : string) := (key, VNum (int64FromAny (get payload key))) in
  struct VeleroUpgradeCommand
    [("oadp", VBool (boolPayload payload "oadp")); text_field "catalogImage";
     text_field "oadpPackage"; text_field "oadpChannel"; text_field "oadpTargetCsv";
     ("clusterId", VStr (task_ClusterID task)); ("namespace", VStr namespace);
     text_field "image"; text_field "version"; text_field "expectedDigest";
     text_field "deploymentName"; text_field "daemonSetName"; text_field "awsPluginImage";
     text_field "azurePluginImage"; text_field "gcpPluginImage";
     number_field "concurrentBackups"; number_field "nodeAgentConcurrency";
     number_field "prepareQueueLength"; text_field "cacheStorageClass";
     number_field "cacheResidentThresholdMB"; number_field "cacheLimitMB"; text_field "crdsUrl"].

(** What is known of the recovery's expectations: whether they are known, whether
    workloads and which claims are expected, and whether the catalog was read. *)
Record readiness := {
  ready_Known : bool;
  ready_Workloads : bool;
  ready_PVCs : list string;
  ready_CatalogLoaded : bool
}.

Definition stored_readiness (payload : document) : readiness :=
  {| ready_Known := boolPayload payload "readinessExpectationsKnown";
     ready_Workloads := boolPayload payload "runtimeWorkloadsExpected";
     ready_PVCs := stringSlicePayload payload "expectedPvcs";
     ready_CatalogLoaded := boolPayload payload "contentCatalogLoaded" |}.

Definition catalog_readiness (point : RestorePoint) (payload : document) (r : readiness)
    : readiness :=
  match restorePointContentIndex point with
  | Some index =>
      if (ri_Status index =s "ready") && negb (ri_Truncated index) then
        let '(workloads, pvcs) :=
          readinessExpectationsFromCatalog (ri_Resources index) (source_namespaces payload) in
        {| ready_Known := true; ready_Workloads := workloads; ready_PVCs := pvcs;
           ready_CatalogLoaded := true |}
      else r
  | None => r
  end.

Definition restore_command (payload : document) (r : readiness) : value :=
  let text_field (key : string) := (key, VStr (stringPayload payload key)) in
  let flag (key : string) := (key, VBool (boolPayload payload key)) in
  struct RestoreCommand
    [text_field "restorePointId"; text_field "veleroBackupName"; text_field "storageRepo";
     text_field "sourceNamespace";
     ("sourceNamespaces", strings (source_namespaces payload)); text_field "targetNamespace";
     ("targetNamespaces", string_map (stringMapPayload payload "targetNamespaces"));
     text_field "targetMode"; text_field "restoreMode"; text_field "artifactMode";
     text_field "conflictPolicy"; flag "includeClusterScoped"; flag "useTransforms";
     text_field "transformPreset"; text_field "storageProfileMode";
     text_field "alternateProfileId";
     ("includedResources", strings (stringSlicePayload payload "includedResources"));
     ("excludedResources", strings (stringSlicePayload payload "excludedResources"));
     ("storageClassMappings", string_map (stringMapPayload payload "storageClassMappings"));
     ("imageMappings", string_map (stringMapPayload payload "imageMappings"));
     ("serviceNodePortMappings", int_map (intMapPayload payload "serviceNodePortMappings"));
     flag "waitForWorkloads"; flag "runValidation"; flag "forceStart";
     ("contentCatalogLoaded", VBool (ready_CatalogLoaded r)); flag "persistentDataExpected";
     ("readinessExpectationsKnown", VBool (ready_Known r));
     ("runtimeWorkloadsExpected", VBool (ready_Workloads r));
     ("expectedPvcs", strings (ready_PVCs r))].

Definition unregister_command (task : Task) (namespace : string) : value :=
  let payload := task_Payload task in
  struct UnregisterCommand
    [("clusterId", VStr (or_else (stringPayload payload "clusterId") (task_ClusterID task)));
     ("namespace", VStr namespace);
     ("deleteVelero", VBool (boolPayload payload "deleteVelero"));
     ("deleteNamespace", VBool (boolPayload payload "deleteNamespace"));
     ("reason", VStr (stringPayload payload "reason"))].

Definition control_plane_handover (payload : document) (rollbackDeadline : time) : value :=
  struct ControlPlaneHandoverCommand
    [("action", VStr (stringPayload payload "action"));
     ("migrationId", VStr (stringPayload payload "migrationId"));
     ("targetEndpoint", VStr (stringPayload payload "targetEndpoint"));
     ("targetInstallToken", VStr (stringPayload payload "targetInstallToken"));
     ("rollbackDeadline", time_value rollbackDeadline)].

(** The command of a task: its deadline and the field of the payload it goes to. *)
Definition command : Type := time * (string * value).

Definition ten_minutes : Z := 10 * minute.

Definition storage_sync_command (task : Task) : ctl (failure + command) :=
  let payload := task_Payload task in
  found ← store (fun _ _ => GetStorageRepository (stringPayload payload "repositoryId"));
  or_return found (fun found =>
    match found with
    | None => mret (inl (Failure "storage repository not found"))
    | Some repo =>
        let name := or_else (stringPayload payload "name")
          (storageDomainBSLName repo (stringPayload payload "sourceClusterId")) in
        let config := match get payload "config" with VObj raw => raw | _ => repo_Config repo end in
        now ← time_now;
        mret (inr (now + ten_minutes, ("storageSync", storage_sync repo name config)))
    end).

Definition scheduleSyncCommandFromPayload (payload : document) : ctl (failure + value) :=
  let repoName := stringPayload payload "storageRepo" in
  let repoID := stringPayload payload "storageRepoId" in
  if nonempty repoName || negb (nonempty repoID) then mret (inr (schedule_sync payload repoName))
  else
    found ← store (fun _ _ => GetStorageRepository repoID);
    or_return found (fun found =>
      match found with
      | None => mret (inl (Failure "storage repository not found"))
      | Some repo => mret (inr (schedule_sync payload (repo_Name repo)))
      end).

Definition restore_readiness (task : Task) : ctl readiness :=
  let r := stored_readiness (task_Payload task) in
  if negb (ready_Known r) && nonempty (task_RestorePointID task) then
    found ← store (fun _ _ => GetRestorePoint (task_RestorePointID task));
    mret match found with
         | inr (Some point) => catalog_readiness point (task_Payload task) r
         | _ => r
         end
  else mret r.

(** The errors are those of [errors.New]; a payload of planCapacity that does not
    decode is reported with its decoding error instead. *)
Definition task_command (task : Task) (deadline : time) : ctl (failure + command) :=
  let payload := task_Payload task in
  let refuse (message : string) : ctl (failure + command) := mret (inl (Failure message)) in
  let kind := task_Type task in
  if kind =s "plan-capacity" then
    supported ← supportsCapacity (task_ClusterID task);
    if negb supported then refuse "agent does not support plan capacity collection"
    else match capacityCommand payload with
         | None => refuse "capacity collection requires a namespace and plans"
         | Some c => mret (inr (deadline, ("planCapacity", capacity_collection c)))
         end
  else if kind =s "storage-sync" then storage_sync_command task
  else if kind =s "schedule-sync" then
    built ← scheduleSyncCommandFromPayload payload;
    or_return built (fun c => mret (inr (deadline, ("scheduleSync", c))))
  else if kind =s "backup" then mret (inr (deadline, ("backup", backup_command task)))
  else if kind =s "backup-cancel" then
    if negb (nonempty (stringPayload payload "targetTaskId"))
    then refuse "backup cancel target task id is required"
    else now ← time_now; mret (inr (now + ten_minutes, ("backupCancel", backup_cancel task)))
  else if kind =s "retention-cleanup" then
    let c := retentionCleanupCommandFromPayload payload in
    if bool_decide (snd c = []) then refuse "retention cleanup has no restore points"
    else now ← time_now; mret (inr (now + 30 * minute, ("retentionCleanup", retention_cleanup c)))
  else if kind =s "protection-cleanup" then
    if negb (nonempty (stringPayload payload "planId"))
    then refuse "protection cleanup plan id is required"
    else
      now ← time_now;
      mret (inr (now + 30 * minute,
                 ("protectionCleanup", protectionCleanupCommandFromPayload payload)))
  else if kind =s "agent-upgrade" then
    now ← time_now;
    namespace ← (if nonempty (stringPayload payload "namespace")
                 then mret (stringPayload payload "namespace")
                 else agentNamespaceForCluster (task_ClusterID task));
    if negb (nonempty (stringPayload payload "image")) then refuse "agent upgrade image is required"
    else mret (inr (now + ten_minutes, ("agentUpgrade", agent_upgrade task namespace)))
  else if kind =s "cache-settings" then
    now ← time_now; mret (inr (now + ten_minutes, ("cacheSettings", cache_settings payload)))
  else if kind =s "velero-upgrade" then
    now ← time_now;
    default_namespace ← dataProtectionNamespaceForCluster (task_ClusterID task);
    let namespace := firstNonEmptyString [stringPayload payload "namespace"; default_namespace] in
    if negb (nonempty (stringPayload payload "image"))
    then refuse "velero upgrade image is required"
    else mret (inr (now + 15 * minute, ("veleroUpgrade", velero_upgrade task namespace)))
  else if one_of kind ["restore"; "drill"; "takeover"] then
    r ← restore_readiness task;
    mret (inr (deadline, ("restore", restore_command payload r)))
  else if kind =s "unregister" then
    now ← time_now;
    namespace ← (if nonempty (stringPayload payload "namespace")
                 then mret (stringPayload payload "namespace")
                 else agentNamespaceForCluster (task_ClusterID task));
    mret (inr (now + ten_minutes, ("unregister", unregister_command task namespace)))
  else if kind =s "control-plane-handover" then
    match parse_rfc3339 (stringPayload payload "rollbackDeadline") with
    | None => refuse "control-plane handover rollback deadline is invalid"
    | Some rollback =>
        if negb (nonempty (stringPayload payload "action")) ||
           negb (nonempty (stringPayload payload "migrationId"))
        then refuse "control-plane handover action and migration ID are required"
        else mret (inr (rollback, ("controlPlaneHandover", control_plane_handover payload rollback)))
    end
  else refuse "unsupported task type for redispatch".

Definition dispatch_payload (task : Task) (commandID : string) (c : command) : value :=
  struct TaskDispatchPayload
    [("taskId", VStr (task_ID task)); ("commandId", VStr commandID);
     ("type", VStr (task_Type task)); ("deadline", time_value (fst c)); snd c].

Definition buildStoredTaskDispatch (task : Task) : ctl (failure + Message) :=
  commandID ← (if nonempty (task_CommandID task) then mret (task_CommandID task) else NewPublicID);
  now ← time_now;
  built ← task_command task (now + 30 * minute);
  or_return built (fun c =>
    messageID ← NewPublicID;
    timestamp ← time_now;
    mret (inr
      {| m_Version := Version; m_MessageID := messageID; m_MessageKind := MessageKindRequest;
         m_Type := MessagePlatformTaskDispatch; m_TenantID := "";
         m_ClusterID := task_ClusterID task; m_AgentID := ""; m_Timestamp := timestamp;
         m_Payload := dispatch_payload task commandID c |})).

(** ** Sending it *)

Definition unregister_not_ready (task : Task) : bool :=
  (task_Type task =s "unregister") && boolPayload (task_Payload task) "cleanupObjectStorage" &&
  negb (boolPayload (task_Payload task) "unregisterPreflightCompleted").

(** [conn.WriteJSON(message)] fails when the message does not marshal. *)
Definition write_message (clusterID : string) (message : Message) : ctl (failure + unit) :=
  match marshalMessage message (m_Payload message) with
  | None => mret (inl (Failure "json: error calling MarshalJSON"))
  | Some data =>
      delivered ← writeAgentMessage clusterID data;
      mret (if delivered : bool then inr tt else inl (Failure "connection write failed"))
  end.

(** [conn] is the cluster whose connection it is. *)
Definition dispatchStoredTask (conn : string) (task : Task) : ctl (failure + unit) :=
  if unregister_not_ready task
  then mret (inl (Failure "unregister object-storage preflight is not complete"))
  else
    dispatch ← buildStoredTaskDispatch task;
    or_return dispatch (write_message conn).

Definition isStorageAlreadySynced (clusterID storageName repositoryID sourceClusterID : string)
    : ctl bool :=
  if nonempty repositoryID then
    ready ← clusterStorageBindingReady clusterID repositoryID sourceClusterID;
    mret match ready with inl _ => false | inr (ready, _) => ready end
  else
    tasks ← list_tasks clusterID;
    mret match tasks with
         | inl _ => false
         | inr tasks =>
             existsb (fun task =>
               (task_Type task =s "storage-sync") && isCompletedTaskStatus (task_Status task) &&
               (nonempty storageName &&
                (taskPayloadString (task_Payload task) "name" =s storageName))) tasks
         end.

Section sending.
Context (diagnosticWriter : option (DiagnosticLogInput -> option error)).

Notation AddTaskEvent input := (ignore (add_event diagnosticWriter input)).

Definition resume_preflight (task : Task) (repositoryID sourceClusterID : string) : ctl bool :=
  if negb (nonempty repositoryID) then mret false
  else
    let name := taskPayloadString (task_Payload task) "storageRepo" in
    synced ← isStorageAlreadySynced (task_ClusterID task) name repositoryID sourceClusterID;
    if synced : bool then mret false
    else
      startWorker (if task_Type task =s "backup"
                   then DispatchBackup task name repositoryID sourceClusterID
                   else DispatchRecovery task name repositoryID sourceClusterID);;
      mret true.

Definition resumeQueuedStoragePreflight (task : Task) : ctl bool :=
  if task_Type task =s "backup" then
    if negb (nonempty (task_ProtectionPlanID task)) then mret false
    else
      plan ← store (fun _ _ => GetProtectionPlan (task_ProtectionPlanID task));
      match plan with
      | inr (Some plan) =>
          if plan_TenantID plan <>s task_TenantID task then mret true
          else resume_preflight task (plan_StorageRepoID plan) (plan_SourceClusterID plan)
      | _ => mret true
      end
  else if one_of (task_Type task) ["restore"; "drill"; "takeover"] then
    let pointID := taskPayloadString (task_Payload task) "restorePointId" in
    if negb (nonempty pointID) then mret false
    else
      point ← store (fun _ _ => GetRestorePoint pointID);
      match point with
      | inr (Some point) =>
          if rp_TenantID point <>s task_TenantID task then mret true
          else resume_preflight task (rp_StorageRepoID point) (rp_SourceClusterID point)
      | _ => mret true
      end
  else mret false.

(** [r.startUnregisterCleanup(task)] starts the worker unless one runs already,
    which the worker list does not show. *)
Definition redispatch (conn : string) (task : Task) : ctl unit :=
  result ← dispatchStoredTask conn task;
  match result with
  | inl err =>
      message ← error_message err;
      ignore (update_task_status
        (report (task_ID task) "queued" (task_Progress task) "REDISPATCH_FAILED" message false))
  | inr _ =>
      ignore (update_task_status
        (report (task_ID task) "dispatched" (task_Progress task) "" "" false));;
      AddTaskEvent (event (task_ID task) "info" "redispatched"
        "task redispatched after agent reconnect" ∅)
  end.

Definition redispatch_one (conn : string) (task : Task) : ctl unit :=
  let status := task_Status task in
  if unregister_not_ready task && one_of status ["queued"; "dispatched"; "running"]
  then startWorker (CleanupUnregister task)
  else if negb (one_of status ["queued"; "dispatched"]) then mret tt
  else
    resumed ← (if status =s "queued" then resumeQueuedStoragePreflight task else mret false);
    if resumed : bool then mret tt else redispatch conn task.

(** The loop stops when the platform shuts down. *)
Fixpoint redispatch_all (conn : string) (tasks : list Task) : ctl unit :=
  match tasks with
  | [] => mret tt
  | task :: tasks =>
      stop ← stopping;
      if stop : bool then mret tt else redispatch_one conn task;; redispatch_all conn tasks
  end.

Definition redispatchPendingTasks (clusterID : string) : ctl unit :=
  tasks ← list_tasks clusterID;
  match tasks with
  | inl _ => mret tt
  | inr tasks => redispatch_all clusterID tasks
  end.

Definition supportedControlPlaneHandoverAction (action : string) : bool :=
  one_of action ["confirm"; "commit"; "rollback"; "cleanup"].

End sending.
