(* ===== verification/Delivery.v ===== *)
(** What the platform sends reaches the agent: every dispatch built from a stored
    task is a message the agent's decoder accepts, with the one command its type
    calls for. *)

From S2P Require Import Prelude Calendar Timestamp Value Types Wire Messages Codec Retention Session.
From S2P Require Import Database Control Events Fleet Storage Catalog Commands Tasks RestorePoints.
From S2P Require Import Plans Policies Bindings Dispatch.

(** ** Struct literals are values of their type *)

Definition fields_typed (given : list (string * value)) (fields : list (string * bool * gotype))
    : bool :=
  forallb (fun '(name, _, t) => typed t (default (zero_value t) (given_field given name))) fields.

Lemma entries_names given fields k v :
  (k, v) ∈ struct_entries given zero_value fields -> k ∈ field_name <$> fields.
Proof.
  unfold struct_entries. intros ([[n o] t] & Hin & Hk)%list_elem_of_omap.
  destruct (_ && _); [done|]. injection Hk as -> _. apply list_elem_of_fmap. by exists (k, o, t).
Qed.

Lemma entries_absent given fields k :
  k ∉ field_name <$> fields ->
  (list_to_map (struct_entries given zero_value fields) : document) !! k = None.
Proof.
  intros Hk. apply not_elem_of_list_to_map_1. intros ([k' v] & -> & Hin)%list_elem_of_fmap.
  by apply Hk, (entries_names given _ _ v).
Qed.

Lemma struct_typed fields given :
  NoDup (field_name <$> fields) -> fields_typed given fields = true ->
  typed (GStruct fields) (struct (GStruct fields) given) = true.
Proof.
  unfold struct. cbn [fields_of]. intros Hnd Ht.
  induction fields as [|[[n o] t] fields IH]; [reflexivity|].
  apply NoDup_cons in Hnd as [Hn Hnd]. apply andb_true_iff in Ht as [Hv Ht].
  specialize (IH Hnd Ht). pose proof (entries_absent given fields n Hn) as Habs.
  cbn [struct_entries omap list_omap] in *. set (v := default _ _) in *.
  set (m := list_to_map (struct_entries given zero_value fields) : document) in *.
  change (omap _ fields) with (struct_entries given zero_value fields).
  destruct (o && empty_value t v) eqn:He; cbn [list_to_map foldr].
  - apply andb_true_iff in He as [-> _]. fold m. cbn [typed]. rewrite Habs. cbn [andb].
    rewrite delete_id by exact Habs. exact IH.
  - fold m. cbn [typed fst snd]. rewrite lookup_insert_eq, Hv. cbn [andb].
    rewrite delete_insert_id by exact Habs. exact IH.
Qed.

Lemma typed_strings l : typed (GSlice GString) (strings l) = true.
Proof.
  destruct l as [|x l]; [done|]. unfold strings. cbn [typed]. apply forallb_forall.
  intros v (s & -> & _)%list_elem_of_In%list_elem_of_fmap. done.
Qed.

Lemma typed_values t l :
  (forall v, v ∈ l -> typed t v = true) -> typed (GSlice t) (values l) = true.
Proof.
  intros H. destruct l as [|x l]; [done|]. unfold values. cbn [typed]. apply forallb_forall.
  intros v Hv%list_elem_of_In. by apply H.
Qed.

Lemma typed_string_map m : typed (GMap GString) (string_map m) = true.
Proof.
  unfold string_map. destruct (bool_decide _); [done|]. cbn [typed]. apply forallb_forall.
  intros [k v] Hin%list_elem_of_In%elem_of_map_to_list.
  apply lookup_fmap_Some in Hin as (s & <- & _). done.
Qed.

Lemma typed_document m : typed (GMap GAny) (VObj m) = true.
Proof. cbn [typed]. apply forallb_forall. by intros [k v] _. Qed.

Lemma typed_time t : year_ok t = true -> typed GTime (time_value t) = true.
Proof.
  intros Hy. unfold year_ok in Hy. go_bool. unfold time_value. cbn [typed].
  by rewrite parse_format by lia.
Qed.

Lemma typed_int z : in_int64 z = true -> typed (GInt 64) (VNum z) = true.
Proof. intros H. exact H. Qed.

Create HintDb typed.
#[export] Hint Resolve typed_strings typed_string_map typed_document typed_time typed_int : typed.
#[export] Hint Extern 1 (typed _ _ = true) => reflexivity : typed.

(** A struct literal, field by field. *)
Ltac struct_literal :=
  apply struct_typed;
  [ apply (bool_decide_unpack _); vm_compute; exact I
  | unfold fields_typed;
    cbn [forallb given_field String.eqb Ascii.eqb Bool.eqb default from_option id opt req];
    repeat match goal with |- _ && _ = true => apply andb_true_iff; split end;
    auto with typed ].

Lemma typed_selection s : typed ResourceSelection (protocolResourceSelection s) = true.
Proof. struct_literal. Qed.

Lemma typed_expression x : typed LabelSelectorExpression (protocol_expression x) = true.
Proof. struct_literal. Qed.

Lemma typed_selector s : typed LabelSelector (protocolLabelSelector s) = true.
Proof.
  struct_literal. apply typed_values. intros v (x & -> & _)%list_elem_of_fmap. apply typed_expression.
Qed.
#[export] Hint Resolve typed_selection typed_selector : typed.

Lemma typed_backup task : typed BackupCommand (backup_command task) = true.
Proof. unfold backup_command. cbv zeta. struct_literal. Qed.

Lemma typed_point v p : retention_point v = Some p -> typed RetentionRestorePoint p = true.
Proof.
  unfold retention_point. destruct v as [| | | | | | | |m]; try done. destruct (_ && _); [|done].
  intros [= <-]. struct_literal.
Qed.

Lemma typed_points raw p :
  p ∈ retentionRestorePointsFromAny raw -> typed RetentionRestorePoint p = true.
Proof.
  unfold retentionRestorePointsFromAny. destruct raw; try by intros ?%not_elem_of_nil.
  intros (v & _ & H)%list_elem_of_omap. by eapply typed_point.
Qed.

Lemma typed_rule v r : exclude_rule v = Some r -> typed ExcludeRule r = true.
Proof.
  unfold exclude_rule. destruct v as [| | | | | | | |m]; try done. destruct (existsb _ _); [|done].
  intros [= <-]. struct_literal.
Qed.

Lemma typed_rules payload ns r :
  r ∈ defaultExcludedResourcesForNamespaces ns ++ excludeRulesPayload payload ->
  typed ExcludeRule r = true.
Proof.
  assert (Hnone : defaultExcludedResourcesForNamespaces ns = []).
  { unfold defaultExcludedResourcesForNamespaces. by induction ns. }
  rewrite Hnone. unfold excludeRulesPayload. cbn [app].
  destruct (get payload "excludeRules"); try by intros ?%not_elem_of_nil.
  intros (v & _ & H)%list_elem_of_omap. by eapply typed_rule.
Qed.

Lemma typed_target t : typed PlanCapacityTarget (capacity_target t) = true.
Proof. struct_literal. Qed.

Lemma typed_collection c : typed PlanCapacityCommand (capacity_collection c) = true.
Proof.
  struct_literal. apply typed_values. intros v (t & -> & _)%list_elem_of_fmap. apply typed_target.
Qed.

Lemma typed_retention c :
  (forall p, p ∈ snd c -> typed RetentionRestorePoint p = true) ->
  typed RetentionCleanupCommand (retention_cleanup c) = true.
Proof.
  intros H. unfold retention_cleanup. struct_literal.
  apply forallb_forall. intros p Hp%list_elem_of_In. by apply H.
Qed.

Lemma typed_protection payload :
  typed ProtectionCleanupCommand (protectionCleanupCommandFromPayload payload) = true.
Proof.
  unfold protectionCleanupCommandFromPayload. struct_literal.
  apply typed_values. intros p. apply typed_points.
Qed.

Lemma typed_schedule payload name : typed ScheduleSyncCommand (schedule_sync payload name) = true.
Proof.
  unfold schedule_sync. struct_literal. apply typed_values. intros r. apply typed_rules.
Qed.

Lemma typed_cancel task : typed BackupCancelCommand (backup_cancel task) = true.
Proof. unfold backup_cancel. cbv zeta. struct_literal. Qed.

Lemma typed_agent_upgrade task ns : typed AgentUpgradeCommand (agent_upgrade task ns) = true.
Proof. unfold agent_upgrade. cbv zeta. struct_literal. Qed.

Lemma typed_unregister task ns : typed UnregisterCommand (unregister_command task ns) = true.
Proof. unfold unregister_command. cbv zeta. struct_literal. Qed.

Lemma typed_handover payload t :
  year_ok t = true -> typed ControlPlaneHandoverCommand (control_plane_handover payload t) = true.
Proof. intros Ht. unfold control_plane_handover. struct_literal. Qed.

Lemma typed_credentials repo : typed (GPtr Messages.S3Credentials) (storage_credentials repo) = true.
Proof.
  unfold storage_credentials. destruct (storageCredentials repo) as [c|]; [|done].
  change (typed Messages.S3Credentials (struct Messages.S3Credentials
    [("accessKey", VStr (cred_AccessKey c)); ("secretKey", VStr (cred_SecretKey c));
     ("accountName", VStr (cred_AccountName c)); ("accountKey", VStr (cred_AccountKey c));
     ("serviceAccountKey", VStr (cred_ServiceAccountKey c))]) = true).
  struct_literal.
Qed.
#[export] Hint Resolve typed_credentials : typed.

Lemma typed_storage_sync repo name config :
  typed StorageSyncCommand (storage_sync repo name config) = true.
Proof. unfold storage_sync. struct_literal. Qed.

(** Numbers of the payload are 64-bit integers, as in the Go maps they come from. *)
Definition int64_value (v : value) : bool :=
  match v with VNum z => in_int64 z | _ => true end.

Definition int64_numbers (payload : document) : bool :=
  forallb (fun '(_, v) => int64_value v &&
    match v with
    | VObj m => forallb (fun '(_, x) => int64_value x) (map_to_list m)
    | _ => true
    end) (map_to_list payload).

Lemma int64_number payload key z :
  int64_numbers payload = true -> get payload key = VNum z -> in_int64 z = true.
Proof.
  unfold int64_numbers, get. rewrite forallb_forall. intros H Hz.
  destruct (payload !! key) as [v|] eqn:Hv; [|done]. cbn in Hz. subst v.
  specialize (H (key, VNum z)). cbn in H. rewrite andb_true_r in H. apply H.
  by apply list_elem_of_In, elem_of_map_to_list.
Qed.

Lemma int64_port payload field m key z :
  int64_numbers payload = true -> get payload field = VObj m -> m !! key = Some (VNum z) ->
  in_int64 z = true.
Proof.
  unfold int64_numbers, get. rewrite forallb_forall. intros H Hm Hz.
  destruct (payload !! field) as [v|] eqn:Hv; [|done]. cbn in Hm. subst v.
  specialize (H (field, VObj m)). cbn in H. rewrite forallb_forall in H. apply (H ltac:(
    by apply list_elem_of_In, elem_of_map_to_list) (key, VNum z)).
  by apply list_elem_of_In, elem_of_map_to_list.
Qed.

Lemma typed_number payload key :
  int64_numbers payload = true -> typed (GInt 64) (VNum (int64FromAny (get payload key))) = true.
Proof.
  intros H. apply typed_int. destruct (get payload key) as [| |z|s| | | | |] eqn:Hk; try done.
  { by apply (int64_number payload key). }
  cbn.
  destruct (sscan_int64 (TrimSpace s)) as [z|] eqn:E; [|done]. cbn. unfold sscan_int64 in E.
  destruct (split_sign _) as [neg t], (base_prefix _) as [[base prefixed] body],
    (span _ _) as [tok rest].
  destruct (_ && _); [done|]. destruct (negb _); [done|].
  destruct (numeral base 0 tok) as [n|]; [|done]. cbn in E.
  by destruct (in_int64 _) eqn:Hz; [injection E as <-|].
Qed.

Lemma typed_cache payload :
  int64_numbers payload = true -> typed CacheSettingsCommand (cache_settings payload) = true.
Proof. intros H. unfold cache_settings. struct_literal. by apply typed_number. Qed.

Lemma typed_velero_upgrade task ns :
  int64_numbers (task_Payload task) = true -> typed VeleroUpgradeCommand (velero_upgrade task ns) = true.
Proof.
  intros H. unfold velero_upgrade. cbv zeta. struct_literal. all: by apply typed_number.
Qed.

Lemma typed_ports payload :
  int64_numbers payload = true ->
  typed (GMap (GInt 64)) (int_map (intMapPayload payload "serviceNodePortMappings")) = true.
Proof.
  intros H. unfold int_map. destruct (bool_decide _); [done|]. cbn [typed].
  apply forallb_forall. intros [k v] Hin%list_elem_of_In%elem_of_map_to_list.
  apply lookup_fmap_Some in Hin as (z & <- & Hz). unfold intMapPayload in Hz.
  destruct (get payload "serviceNodePortMappings") as [| | | | | | | |m] eqn:Hm;
    try by rewrite lookup_empty in Hz.
  apply lookup_omap_Some in Hz as (x & Hx & Hmx). destruct x; try done. injection Hx as ->.
  by apply (int64_port payload _ m k z H Hm).
Qed.

Lemma typed_restore payload r :
  int64_numbers payload = true -> typed RestoreCommand (restore_command payload r) = true.
Proof.
  intros H. unfold restore_command. cbv zeta. struct_literal. by apply typed_ports.
Qed.

(** ** The command of each type of task *)

Definition commands : list (string * (string * gotype)) :=
  [("plan-capacity", ("planCapacity", PlanCapacityCommand));
   ("storage-sync", ("storageSync", StorageSyncCommand));
   ("schedule-sync", ("scheduleSync", ScheduleSyncCommand));
   ("backup", ("backup", BackupCommand)); ("backup-cancel", ("backupCancel", BackupCancelCommand));
   ("retention-cleanup", ("retentionCleanup", RetentionCleanupCommand));
   ("protection-cleanup", ("protectionCleanup", ProtectionCleanupCommand));
   ("agent-upgrade", ("agentUpgrade", AgentUpgradeCommand));
   ("cache-settings", ("cacheSettings", CacheSettingsCommand));
   ("velero-upgrade", ("veleroUpgrade", VeleroUpgradeCommand));
   ("restore", ("restore", RestoreCommand)); ("drill", ("restore", RestoreCommand));
   ("takeover", ("restore", RestoreCommand)); ("unregister", ("unregister", UnregisterCommand));
   ("control-plane-handover", ("controlPlaneHandover", ControlPlaneHandoverCommand))].

Definition command_of (kind : string) : option (string * gotype) :=
  snd <$> find_first (fun c => fst c =s kind) commands.

(** The clock of the platform shows years 0 to 9999 for the next half hour. *)
Definition clock_ok (e : environment) : Prop :=
  forall n k, 0 <= k <= 30 * minute -> year_ok (now_at e n + k) = true.

Definition rollback_ok (payload : document) : bool :=
  match parse_rfc3339 (stringPayload payload "rollbackDeadline") with
  | Some t => year_ok t
  | None => true
  end.

(** A deadline that marshals, and the type's command in its field. *)
Definition fits_type (kind : string) (c : command) : Prop :=
  year_ok (fst c) = true /\
  exists key t o, command_of kind = Some (key, t) /\ snd c = (key, VObj o) /\
    typed t (VObj o) = true.

Lemma fits_intro kind deadline key t o :
  command_of kind = Some (key, t) -> year_ok deadline = true -> typed t (VObj o) = true ->
  fits_type kind (deadline, (key, VObj o)).
Proof. intros. split; [done|]. by exists key, t, o. Qed.

Lemma answers_time (Q : time -> Prop) :
  (forall t, (forall k, 0 <= k <= 30 * minute -> year_ok (t + k) = true) -> Q t) ->
  answers clock_ok Q time_now.
Proof. intros H. apply answers_ask. intros e n He. apply H. intros k. apply He. Qed.

(** A deadline read from the clock. *)
Lemma answers_deadline k {B} (f : time -> B) (Q : B -> Prop) :
  0 <= k <= 30 * minute -> (forall t, year_ok (t + k) = true -> Q (f t)) ->
  answers clock_ok (succeeds (E := failure) Q) (now ← time_now; mret (inr (f now))).
Proof.
  intros Hk H. apply (answers_bind _ (fun t => year_ok (t + k) = true)).
  - apply answers_time. auto.
  - intros t Ht. apply answers_ret. by apply H.
Qed.

Ltac refused := apply answers_ret; exact I.
Ltac fitting lem := eapply fits_intro; [reflexivity|assumption|by apply lem].
Ltac sends lem := apply answers_ret; fitting lem.

Lemma storage_sync_fits task :
  task_Type task = "storage-sync" ->
  answers clock_ok (succeeds (fits_type (task_Type task))) (storage_sync_command task).
Proof.
  intros ->. unfold storage_sync_command. apply answers_skip. intros found.
  apply (answers_or_return _ (fun _ => True)); [by destruct found|]. intros [repo|] _; [|refused].
  cbv zeta. apply (answers_deadline ten_minutes); [vm_compute; split; discriminate|].
  intros t Ht. fitting typed_storage_sync.
Qed.

Lemma schedule_sync_fits task deadline :
  task_Type task = "schedule-sync" -> year_ok deadline = true ->
  answers clock_ok (succeeds (fits_type (task_Type task)))
    (built ← scheduleSyncCommandFromPayload (task_Payload task);
     or_return built (fun c => mret (inr (deadline, ("scheduleSync", c))))).
Proof.
  intros -> Hd.
  apply (answers_bind _ (succeeds (fun c => exists name, c = schedule_sync (task_Payload task) name))).
  - unfold scheduleSyncCommandFromPayload. destruct (_ || _).
    { apply answers_ret. by eexists. }
    apply answers_skip. intros found. apply (answers_or_return _ (fun _ => True)); [by destruct found|].
    intros [repo|] _; [|refused]. apply answers_ret. by eexists.
  - intros built Hb. eapply answers_or_return; [exact Hb|]. intros c [name ->].
    apply answers_ret. fitting typed_schedule.
Qed.

Lemma restore_fits task deadline :
  int64_numbers (task_Payload task) = true -> one_of (task_Type task) ["restore"; "drill"; "takeover"] = true ->
  year_ok deadline = true ->
  answers clock_ok (succeeds (E := failure) (fits_type (task_Type task)))
    (r ← restore_readiness task;
     mret (inr (deadline, ("restore", restore_command (task_Payload task) r)))).
Proof.
  intros Hn Hk%one_of_true Hd. apply answers_skip. intros r. apply answers_ret.
  apply (fits_intro _ _ _ RestoreCommand); [|done|by apply typed_restore].
  apply elem_of_cons in Hk as [->|[->|[->|[]%not_elem_of_nil]%elem_of_cons]%elem_of_cons];
    reflexivity.
Qed.

(** The types whose deadline is read from the clock and whose namespace is looked up. *)
Lemma upgrade_fits kind k key t (ns : ctl string) (refuse : bool) message
    (build : string -> document) :
  0 <= k <= 30 * minute -> command_of kind = Some (key, t) ->
  (forall ns, typed t (VObj (build ns)) = true) ->
  answers clock_ok (succeeds (fits_type kind))
    (now ← time_now; namespace ← ns;
     if refuse then mret (inl (Failure message))
     else mret (inr (now + k, (key, VObj (build namespace))))).
Proof.
  intros Hk Hc Ht. apply (answers_bind _ (fun t => year_ok (t + k) = true)).
  - apply answers_time. auto.
  - intros now Hnow. apply answers_skip. intros namespace. destruct refuse; [refused|].
    apply answers_ret. by eapply fits_intro.
Qed.

Lemma task_command_fits task deadline :
  int64_numbers (task_Payload task) = true -> rollback_ok (task_Payload task) = true -> year_ok deadline = true ->
  answers clock_ok (succeeds (fits_type (task_Type task))) (task_command task deadline).
Proof.
  intros Hn Hr Hd. unfold task_command. cbv zeta.
  destruct (task_Type task =s "plan-capacity") eqn:K1; [apply seqb_true in K1 as ->|].
  { apply answers_skip. intros [|]; cbn [negb]; [|refused].
    destruct (capacityCommand _) as [c|]; [|refused]. sends typed_collection. }
  destruct (task_Type task =s "storage-sync") eqn:K2.
  { apply seqb_true in K2. by apply storage_sync_fits. }
  destruct (task_Type task =s "schedule-sync") eqn:K3.
  { apply seqb_true in K3. by apply schedule_sync_fits. }
  destruct (task_Type task =s "backup") eqn:K4; [apply seqb_true in K4 as ->|].
  { sends typed_backup. }
  destruct (task_Type task =s "backup-cancel") eqn:K5; [apply seqb_true in K5 as ->|].
  { destruct (negb _); [refused|]. apply (answers_deadline ten_minutes); [vm_compute; split; discriminate|].
    intros t Ht. fitting typed_cancel. }
  destruct (task_Type task =s "retention-cleanup") eqn:K6; [apply seqb_true in K6 as ->|].
  { destruct (bool_decide _); [refused|].
    apply (answers_deadline (30 * minute)); [vm_compute; split; discriminate|].
    intros t Ht. eapply fits_intro; [reflexivity|done|]. apply typed_retention.
    intros p. apply typed_points. }
  destruct (task_Type task =s "protection-cleanup") eqn:K7; [apply seqb_true in K7 as ->|].
  { destruct (negb _); [refused|].
    apply (answers_deadline (30 * minute)); [vm_compute; split; discriminate|].
    intros t Ht. fitting typed_protection. }
  destruct (task_Type task =s "agent-upgrade") eqn:K8; [apply seqb_true in K8 as ->|].
  { apply (upgrade_fits _ _ _ AgentUpgradeCommand); [vm_compute; split; discriminate|done|].
    intros ns. apply typed_agent_upgrade. }
  destruct (task_Type task =s "cache-settings") eqn:K9; [apply seqb_true in K9 as ->|].
  { apply (answers_deadline ten_minutes); [vm_compute; split; discriminate|].
    intros t Ht. fitting typed_cache. }
  destruct (task_Type task =s "velero-upgrade") eqn:K10; [apply seqb_true in K10 as ->|].
  { apply (upgrade_fits _ (15 * minute) _ VeleroUpgradeCommand); [vm_compute; split; discriminate|done|].
    intros ns. by apply typed_velero_upgrade. }
  destruct (one_of (task_Type task) ["restore"; "drill"; "takeover"]) eqn:K11.
  { by apply restore_fits. }
  destruct (task_Type task =s "unregister") eqn:K12; [apply seqb_true in K12 as ->|].
  { apply (upgrade_fits _ ten_minutes _ UnregisterCommand _ false ""); [vm_compute; split; discriminate|done|].
    intros ns. apply typed_unregister. }
  destruct (task_Type task =s "control-plane-handover") eqn:K13; [apply seqb_true in K13 as ->|refused].
  unfold rollback_ok in Hr. destruct (parse_rfc3339 _) as [t|]; [|refused].
  destruct (_ || _); [refused|]. sends typed_handover.
Qed.

(** ** The message *)

Definition base_fields : list string := ["taskId"; "commandId"; "type"; "deadline"].

Definition command_fields : list string :=
  List.filter (fun k => negb (one_of k base_fields)) (field_name <$> fields_of TaskDispatchPayload).

Lemma dispatch_payload_typed task commandID c :
  fits_type (task_Type task) c -> typed TaskDispatchPayload (dispatch_payload task commandID c) = true.
Proof.
  destruct c as [deadline [k v]]. intros (Hy & key & t & o & Hk & [= -> ->] & Ht).
  cbn [fst] in Hy. unfold command_of in Hk. apply fmap_Some in Hk as ([kind kt] & Hf & Heq).
  apply find_first_Some in Hf as [Hin _]. cbn [snd] in Heq. subst kt. unfold dispatch_payload.
  cbn [fst snd].
  repeat (apply elem_of_cons in Hin as [[= -> -> ->]|Hin]; [struct_literal; exact Ht|]).
  by apply not_elem_of_nil in Hin.
Qed.

Lemma entries_lookup given fields n o t :
  NoDup (field_name <$> fields) -> (n, o, t) ∈ fields ->
  (list_to_map (struct_entries given zero_value fields) : document) !! n =
    let v := default (zero_value t) (given_field given n) in
    if o && empty_value t v then None else Some v.
Proof.
  intros Hnd Hin. induction fields as [|[[n' o'] t'] fields IH]; [by apply not_elem_of_nil in Hin|].
  apply NoDup_cons in Hnd as [Hn Hnd]. unfold struct_entries. cbn [omap list_omap].
  change (list_omap _ _ _ fields) with (struct_entries given zero_value fields).
  apply elem_of_cons in Hin as [[= <- <- <-]|Hin].
  - cbv zeta. destruct (o && _); [by apply entries_absent|]. cbn. apply lookup_insert_eq.
  - assert (n <> n').
    { intros ->. apply Hn, list_elem_of_fmap. by exists (n', o, t). }
    destruct (o' && _); [by apply IH|]. cbn. rewrite lookup_insert_ne by done. by apply IH.
Qed.

Lemma dispatch_fields_NoDup : NoDup (field_name <$> fields_of TaskDispatchPayload).
Proof. apply (bool_decide_unpack _). vm_compute. exact I. Qed.

Ltac field_in := apply list_elem_of_In; cbv [TaskDispatchPayload fields_of opt req]; cbn [In]; tauto.

Lemma command_field_pointer key :
  key ∈ command_fields ->
  key ∉ base_fields /\ exists t, (key, true, GPtr t) ∈ fields_of TaskDispatchPayload.
Proof.
  intros Hkey. split.
  { apply list_elem_of_In, List.filter_In in Hkey as [_ Hb%negb_true_iff].
    intros Hin%one_of_true. congruence. }
  assert (Hfields : command_fields = ["planCapacity"; "cacheSettings"; "backup"; "backupCancel";
    "restore"; "storageSync"; "scheduleSync"; "retentionCleanup"; "protectionCleanup";
    "agentUpgrade"; "veleroUpgrade"; "unregister"; "controlPlaneHandover"]) by reflexivity.
  rewrite Hfields in Hkey.
  repeat (apply elem_of_cons in Hkey as [->|Hkey]; [eexists; field_in|]).
  by apply not_elem_of_nil in Hkey.
Qed.

(** A literal of a dispatch gives one field besides the base fields. *)
Lemma given_command task commandID deadline key v key' :
  key' ∉ base_fields ->
  given_field [("taskId", VStr (task_ID task)); ("commandId", VStr commandID);
    ("type", VStr (task_Type task)); ("deadline", time_value deadline); (key, v)] key' =
  if String.eqb key key' then Some v else None.
Proof.
  unfold base_fields. intros Hk. rewrite !not_elem_of_cons in Hk. cbn [given_field].
  destruct Hk as (H1 & H2 & H3 & H4 & _).
  by rewrite !(proj2 (String.eqb_neq _ _)) by (intros E; by subst).
Qed.

Lemma dispatch_payload_fields task commandID c :
  fits_type (task_Type task) c ->
  exists o, dispatch_payload task commandID c = VObj o /\
    get o "taskId" = VStr (task_ID task) /\ get o "commandId" = VStr commandID /\
    get o "type" = VStr (task_Type task) /\
    (forall key, key ∈ command_fields ->
       (is_Some (o !! key) <-> fst <$> command_of (task_Type task) = Some key)).
Proof.
  destruct c as [deadline [k v]]. intros (_ & key & t & o & Hk & [= -> ->] & _).
  rewrite Hk. eexists. split; [reflexivity|]. unfold get. cbn [fst snd].
  split_and!; try by (rewrite (entries_lookup _ _ _ false GString dispatch_fields_NoDup) by field_in).
  intros key' Hkey. destruct (command_field_pointer key' Hkey) as [Hb [t' Hin]].
  rewrite (entries_lookup _ _ _ _ _ dispatch_fields_NoDup Hin), given_command by done. cbn.
  destruct (String.eqb_spec key key') as [->|Hne]; cbn.
  - split; [done|]. intros _. by eexists.
  - split; [by intros [? [=]]|congruence].
Qed.

Definition dispatch_message (task : Task) (id commandID : string) (timestamp : time) (c : command)
    : Message :=
  {| m_Version := Version; m_MessageID := id; m_MessageKind := MessageKindRequest;
     m_Type := MessagePlatformTaskDispatch; m_TenantID := ""; m_ClusterID := task_ClusterID task;
     m_AgentID := ""; m_Timestamp := timestamp; m_Payload := dispatch_payload task commandID c |}.

Lemma built_dispatch task :
  int64_numbers (task_Payload task) = true -> rollback_ok (task_Payload task) = true ->
  answers clock_ok (succeeds (fun message => exists id timestamp commandID c,
    (task_CommandID task <> "" -> commandID = task_CommandID task) /\
    fits_type (task_Type task) c /\ year_ok timestamp = true /\
    message = dispatch_message task id commandID timestamp c)) (buildStoredTaskDispatch task).
Proof.
  intros Hn Hr. unfold buildStoredTaskDispatch.
  apply (answers_bind _ (fun c => task_CommandID task <> "" -> c = task_CommandID task)).
  { destruct (nonempty _) eqn:E; [by apply answers_ret|]. apply nonempty_false in E.
    intros e w _ ?. done. }
  intros commandID Hcmd. apply (answers_bind _ (fun t => year_ok (t + 30 * minute) = true)).
  { apply answers_time. intros t Ht. apply Ht. vm_compute. split; discriminate. }
  intros now Hnow. apply (answers_bind _ (succeeds (fits_type (task_Type task)))).
  { by apply task_command_fits. }
  intros built Hb. eapply answers_or_return; [exact Hb|]. intros c Hc.
  apply answers_skip. intros id. apply (answers_bind _ (fun t => year_ok t = true)).
  { apply answers_time. intros t Ht. rewrite <- (Z.add_0_r t). apply Ht.
    vm_compute. split; discriminate. }
  intros timestamp Ht. apply answers_ret. cbn. by exists id, timestamp, commandID, c.
Qed.

(** C25.  What the platform sends an agent for a stored task is a message the agent of
    that cluster accepts: it decodes to the message built, under the task's id,
    type and command id, and its payload carries the command of the task's type and
    no other.  So a task that is not refused can be sent again after any number of
    reconnects. *)
Theorem dispatch_is_accepted task e w w' message :
  clock_ok e -> int64_numbers (task_Payload task) = true -> rollback_ok (task_Payload task) = true ->
  buildStoredTaskDispatch task e w = (w', inr message) ->
  exists data o,
    marshalMessage message (m_Payload message) = Some data /\
    DecodeMessage (Some data) PlatformToAgent (task_ClusterID task) = inr message /\
    m_Payload message = VObj o /\
    get o "taskId" = VStr (task_ID task) /\ get o "type" = VStr (task_Type task) /\
    (task_CommandID task <> "" -> get o "commandId" = VStr (task_CommandID task)) /\
    (forall key, key ∈ command_fields ->
       (is_Some (o !! key) <-> fst <$> command_of (task_Type task) = Some key)).
Proof.
  intros He Hn Hr Hrun. pose proof (built_dispatch task Hn Hr e w He) as H.
  rewrite Hrun in H. destruct H as (id & timestamp & commandID & c & Hcmd & Hc & Ht & ->).
  destruct (dispatch_payload_fields task commandID c Hc) as (o & Ho & Hid & Hcid & Htype & Hkeys).
  eexists _, o. split; [unfold marshalMessage, dispatch_message; cbn [m_Timestamp]; by rewrite Ht|].
  split; [|split; [done|]; split_and!; [done|done|intros; rewrite Hcid; f_equal; by apply Hcmd|done]].
  unfold year_ok in Ht. go_bool. unfold DecodeMessage, unmarshalMessage.
  rewrite decode_envelope_entries by (cbn [m_Timestamp dispatch_message]; lia).
  unfold with_payload, dispatch_message. cbn [m_Type m_Version m_MessageKind m_ClusterID m_Payload].
  change (LookupContract MessagePlatformTaskDispatch) with (Some (contract
    MessagePlatformTaskDispatch PlatformToAgent "command" "TaskDispatchPayload" TaskDispatchPayload
    false [MessageKindRequest])).
  cbn [c_Direction]. rewrite bool_decide_eq_true_2 by done.
  rewrite seqb_refl. cbn [negb]. rewrite andb_false_r.
  change (validateMessageMetadata Version MessageKindRequest _) with true. cbn [negb].
  rewrite Ho. cbn [validatePayload c_payload].
  rewrite <- Ho, typed_accepts; [done|reflexivity|by apply dispatch_payload_typed].
Qed.

Lemma clock_ok_constant now :
  year_ok now = true ->
  (forall k, 0 <= k <= 30 * minute -> local_day utc (now + k) = local_day utc now) ->
  clock_ok (quiet_environment now).
Proof. intros Hy Hd n k Hk. unfold year_ok, Year in *. cbn [now_at]. by rewrite Hd. Qed.

(** A restore whose expectations the platform recorded when it was requested. *)
Definition sample_restore : Task :=
  {| task_ID := "task-7"; task_TenantID := "tenant"; task_ClusterID := "cluster-2";
     task_AppID := "app"; task_ProtectionPlanID := "plan"; task_RestorePointID := "point";
     task_Type := "restore"; task_Status := "queued"; task_Progress := 0;
     task_CommandID := "command-7"; task_ErrorCode := ""; task_ErrorMessage := "";
     task_Payload := {[ "restorePointId" := VStr "point"; "targetMode" := VStr "new";
       "sourceNamespaces" := VList [VStr "shop"; VStr ""]; "waitForWorkloads" := VBool true;
       "readinessExpectationsKnown" := VBool true; "expectedPvcs" := VList [VStr "data"];
       "serviceNodePortMappings" := VObj {[ "web" := VNum 30080 ]} ]};
     task_CreatedAt := 0; task_DispatchedAt := zero_time; task_AcceptedAt := zero_time;
     task_StartedAt := zero_time; task_CompletedAt := zero_time |}.

Definition monday : time := Date 2024 5 6 12 0 0 0 utc.

Definition no_rows : db :=
  {| tasks := ∅; restore_points := ∅; reservations := ∅; protection_plans := ∅; plan_apps := ∅;
     policies := ∅; schedules := ∅; task_events := ∅; clusters := ∅; applications := ∅;
     storage_repositories := ∅; resource_scopes := ∅; diagnostic_logs := ∅;
     migration_sessions := ∅; upgrade_jobs := ∅; storage_bindings := ∅ |}.

Lemma clock_ok_monday : clock_ok (quiet_environment monday).
Proof.
  apply clock_ok_constant; [vm_compute; reflexivity|]. intros k Hk.
  assert (Hm : monday = 1714996800 * second) by (vm_compute; reflexivity). rewrite Hm.
  unfold local_day, wall, utc, fixed_zone, unix, minute, second, zone_offset in *.
  f_equal. rewrite !Z.add_0_r.
  rewrite Z.div_add_l by lia. rewrite Z.div_mul by lia.
  assert (0 <= k / 1000000000 <= 1800) by (split; [apply Z.div_pos; lia|];
    apply Z.div_le_upper_bound; lia).
  transitivity 19849; [|reflexivity]. symmetry.
  apply (Z.div_unique _ 86400 19849 (43200 + k / 1000000000)); lia.
Qed.

Lemma dispatch_is_accepted_witness :
  exists message data o,
    snd (buildStoredTaskDispatch sample_restore (quiet_environment monday) (in_world no_rows)) =
      inr message /\
    DecodeMessage (Some data) PlatformToAgent "cluster-2" = inr message /\
    m_Payload message = VObj o /\ is_Some (o !! "restore") /\ o !! "backup" = None.
Proof.
  destruct (buildStoredTaskDispatch sample_restore (quiet_environment monday) (in_world no_rows))
    as [w' [err|message]] eqn:E; [vm_compute in E; discriminate E|].
  destruct (dispatch_is_accepted sample_restore _ _ w' message clock_ok_monday
    ltac:(vm_compute; reflexivity) ltac:(vm_compute; reflexivity) E)
    as (data & o & _ & Hdec & Ho & _ & _ & _ & Hkeys).
  exists message, data, o. split_and!; try done.
  - apply Hkeys; [|reflexivity]. apply (bool_decide_unpack _). vm_compute. exact I.
  - destruct (o !! "backup") as [v|] eqn:Hb; [|done].
    assert (Hin : "backup" ∈ command_fields) by (apply (bool_decide_unpack _); vm_compute; exact I).
    pose proof (proj1 (Hkeys "backup" Hin) (ex_intro _ v Hb)) as K. vm_compute in K. discriminate K.
Defined.
