(* ===== verification/Lifecycle.v ===== *)
(** The store as one system: backend/internal/store/restore_point_quota.go,
    postgres_tasks.go, postgres_restore_points.go and backup_result.go together.

    Any number of the operations run one after the other, each against the
    database the previous ones left, each with a statement that may fail at any
    point.  The invariant says what ties tasks, reservations and restore points
    together; from it follows that no plan ever holds more live points and
    reserved slots than its policy retains.  Plan and policy edits are not among
    the steps. *)

From S2P Require Import Prelude Calendar Value Types Retention Session Database.
From S2P Require Import Quota Tasks RestorePoints.

(** ** Rows before and after a step *)

Definition rows_rel {A} (R : A -> A -> Prop) (m m' : gmap string A) : Prop :=
  forall k, match m !! k, m' !! k with
            | Some a, Some b => R a b
            | None, None => True
            | _, _ => False
            end.

Section rows_rel.
Context {A : Type} (R : A -> A -> Prop) `{!PreOrder R}.

#[export] Instance rows_rel_preorder : PreOrder (rows_rel R).
Proof.
  split; unfold rows_rel.
  - intros m k. destruct (m !! k); done.
  - intros x y z H1 H2 k. specialize (H1 k). specialize (H2 k).
    destruct (x !! k), (y !! k), (z !! k); try done. by etrans.
Qed.

Lemma rows_rel_update p f m :
  (forall k r, p k r = true -> R r (f k r)) -> rows_rel R m (fst (update_where p f m)).
Proof.
  intros H k. rewrite lookup_update_where. destruct (m !! k) as [r|]; [|done]. simpl.
  destruct (p k r) eqn:E; [by apply H|reflexivity].
Qed.

Lemma rows_rel_insert m k r r' : m !! k = Some r -> R r r' -> rows_rel R m (<[k := r']> m).
Proof.
  intros Hr H j. destruct (decide (j = k)) as [->|Hne].
  - by rewrite Hr, lookup_insert_eq.
  - rewrite lookup_insert_ne by done. by destruct (m !! j).
Qed.

Lemma rows_rel_lookup m m' k b :
  rows_rel R m m' -> m' !! k = Some b -> exists a, m !! k = Some a /\ R a b.
Proof. intros H Hb. specialize (H k). rewrite Hb in H. destruct (m !! k); [eauto|done]. Qed.

Lemma rows_rel_lookup_l m m' k a :
  rows_rel R m m' -> m !! k = Some a -> exists b, m' !! k = Some b /\ R a b.
Proof. intros H Ha. specialize (H k). rewrite Ha in H. destruct (m' !! k); [eauto|done]. Qed.

End rows_rel.

Definition point_kept (r r' : point_row) : Prop :=
  point_standing r' = point_standing r /\ r_backup_task_id r' = r_backup_task_id r /\
  r_source_cluster_id r' = r_source_cluster_id r /\
  r_velero_backup_name r' = r_velero_backup_name r.

(** What waits to be published is an available point. *)
Definition waits_available (v : reservation_row) : Prop :=
  forall raw input, v_pending_point v = Some raw -> unmarshal_input raw = Some input ->
    rpi_Status input = "available".

Definition reservation_kept (v v' : reservation_row) : Prop :=
  v_protection_plan_id v' = v_protection_plan_id v /\
  v_replacement_point_id v' = v_replacement_point_id v /\
  (v_state v' = "released" \/ v_state v' = v_state v \/
   active_reservation v = true /\ active_reservation v' = true) /\
  (waits_available v -> waits_available v').

Lemma released_inactive v : v_state v = "released" -> active_reservation v = false.
Proof. unfold active_reservation. by intros ->. Qed.

Lemma active_same v v' :
  v_state v' = v_state v -> active_reservation v' = active_reservation v.
Proof. unfold active_reservation. by intros ->. Qed.

Lemma kept_active v v' :
  reservation_kept v v' -> active_reservation v' = true -> active_reservation v = true.
Proof.
  intros (_ & _ & [H|[H|[H _]]] & _) Ha; [|by rewrite <- (active_same _ _ H)|done].
  by rewrite (released_inactive _ H) in Ha.
Qed.

(** Succeeded, with its result accepted and its point named. *)
Definition settled (t : task_row) : Prop :=
  t_status t = "succeeded" /\ t_completed_at t <> None /\ text (t_restore_point_id t) <> "" /\
  accepted_snapshot t <> None.

Definition task_steady (t t' : task_row) : Prop :=
  t_type t' = t_type t /\ t_protection_plan_id t' = t_protection_plan_id t /\
  t_cluster_id t' = t_cluster_id t /\ accepted_snapshot t' = accepted_snapshot t /\
  (settled t -> settled t' /\ t_restore_point_id t' = t_restore_point_id t).

#[export] Instance point_kept_preorder : PreOrder point_kept.
Proof. unfold point_kept. split; [done|]. intros x y z. intuition congruence. Qed.
#[export] Instance reservation_kept_preorder : PreOrder reservation_kept.
Proof.
  split; [intros v; split_and!; auto|]. intros x y z Hxy Hyz.
  pose proof (kept_active _ _ Hxy) as Ha. pose proof (kept_active _ _ Hyz) as Ha'.
  destruct Hxy as (? & ? & Hxy & ?), Hyz as (? & ? & Hyz & ?). split_and!; [congruence..| |auto].
  destruct Hyz as [Hz|[Hz|[Hy Hz]]]; [by left| |by right; right; auto].
  destruct Hxy as [Hy|[Hy|[Hx Hy]]]; [left; congruence|right; left; congruence|].
  right; right. by rewrite (active_same _ _ Hz).
Qed.
#[export] Instance task_steady_preorder : PreOrder task_steady.
Proof. unfold task_steady. split; [done|]. intros x y z. intuition congruence. Qed.

(** A step that adds no row, keeps what the points count for, and lets
    reservations only give up their slots. *)
Record tame (d d' : db) : Prop := {
  tame_points : rows_rel point_kept (restore_points d) (restore_points d');
  tame_reservations : rows_rel reservation_kept (reservations d) (reservations d');
  tame_tasks : rows_rel task_steady (tasks d) (tasks d');
  tame_policies : forall q, retention_policy_row q d' = retention_policy_row q d;
  tame_latest : latest_ok d -> latest_ok d'
}.

#[export] Instance tame_preorder : PreOrder tame.
Proof.
  split.
  - intros d. split; try reflexivity. done.
  - intros x y z [] []. split; [by etrans|by etrans|by etrans|congruence|auto].
Qed.

Lemma standing_of_plan q r r' : point_standing r = point_standing r' -> of_plan q r = of_plan q r'.
Proof. unfold point_standing, of_plan. by intros [= -> _]. Qed.

Lemma tame_standing d d' : tame d d' -> same_standing d d'.
Proof.
  intros [H _ _ _ _] k. specialize (H k).
  destruct (restore_points d !! k), (restore_points d' !! k); simpl; try done. by rewrite (proj1 H).
Qed.

(** The pointers of the plans to their latest tasks stay valid. *)
Definition pointers (pp : plan_row) : option string * option string :=
  (p_latest_sync_task_id pp, p_latest_recovery_task_id pp).

(** Tasks stay, with their types and plans. *)
Definition tasks_kept (d d' : db) : Prop :=
  forall k t, tasks d !! k = Some t -> exists t', tasks d' !! k = Some t' /\
    t_type t' = t_type t /\ t_protection_plan_id t' = t_protection_plan_id t.

Lemma steady_tasks_kept d d' : rows_rel task_steady (tasks d) (tasks d') -> tasks_kept d d'.
Proof.
  intros H k t Hk. destruct (rows_rel_lookup_l _ _ _ _ _ H Hk) as (t' & Ht' & (? & ? & _)).
  by exists t'.
Qed.

Lemma latest_task_kept d d' q types o :
  tasks_kept d d' -> latest_task_ok d q types o = true -> latest_task_ok d' q types o = true.
Proof.
  intros Ht. unfold latest_task_ok. destruct o as [id|]; [|done].
  destruct (tasks d !! id) as [t|] eqn:E; [|done].
  by destruct (Ht id t E) as (t' & -> & -> & ->).
Qed.

Lemma latest_guard_kept d d' q pp pp' :
  tasks_kept d d' -> pointers pp' = pointers pp ->
  latest_tasks_guard d q pp = true -> latest_tasks_guard d' q pp' = true.
Proof.
  unfold pointers, latest_tasks_guard. intros Ht [= -> ->] [? ?]%andb_true_iff.
  by rewrite !(latest_task_kept d d').
Qed.

Lemma latest_ok_kept d d' :
  tasks_kept d d' ->
  (forall q, pointers <$> protection_plans d' !! q = pointers <$> protection_plans d !! q) ->
  latest_ok d -> latest_ok d'.
Proof.
  intros Ht Hp H q pp' Hq. specialize (Hp q). rewrite Hq in Hp.
  destruct (protection_plans d !! q) as [pp|] eqn:E; [|done]. injection Hp as Hp1 Hp2.
  eapply latest_guard_kept; [exact Ht| |by apply H]. unfold pointers. congruence.
Qed.

Lemma latest_kept d d' :
  rows_rel task_steady (tasks d) (tasks d') ->
  (forall q, pointers <$> protection_plans d' !! q = pointers <$> protection_plans d !! q) ->
  latest_ok d -> latest_ok d'.
Proof. intros ?%steady_tasks_kept. by apply latest_ok_kept. Qed.

Lemma backups_ok_kept d d' :
  tasks_kept d d' -> restore_points d' = restore_points d -> backups_ok d -> backups_ok d'.
Proof.
  intros Ht Hp H pid r. rewrite Hp. intros Hr. destruct (H pid r Hr) as (b & t & -> & Hb & <-).
  destruct (Ht b t Hb) as (t' & ? & _ & ?). eauto.
Qed.

(** ** Statements *)

Lemma update_points_tame p f d d' n :
  (forall k r, p k r = true -> point_kept r (f k r)) ->
  update_points p f d = Some (d', n) -> tame d d'.
Proof.
  intros H. unfold update_points. intros [= <- _]. split; cbn; try reflexivity.
  - apply rows_rel_update; [apply _|exact H].
  - by apply latest_kept.
Qed.

Lemma update_metadata_tame p g d d' n :
  update_points p (fun k r => point_with_metadata r (g k r)) d = Some (d', n) -> tame d d'.
Proof. by apply update_points_tame. Qed.

Lemma update_reservations_tame p f d d' n :
  (forall k v, reservations d !! k = Some v -> p k v = true -> reservation_kept v (f k v)) ->
  update_reservations p f d = Some (d', n) -> tame d d'.
Proof.
  intros H. unfold update_reservations. intros [= <- _].
  split; cbn; try reflexivity; [|by apply latest_kept].
  intros k. specialize (H k). rewrite map_lookup_imap.
  destruct (reservations d !! k) as [v|]; simpl; [|done].
  destruct (p k v) eqn:E; [by apply H|reflexivity].
Qed.

Lemma update_task_tame id f d d' n :
  (forall t, tasks d !! id = Some t -> task_steady t (f t)) ->
  update_task id f d = Some (d', n) -> tame d d'.
Proof.
  intros H [(_ & -> & _)|(r & Hr & -> & _)]%update_task_inv; [reflexivity|].
  assert (Hrows : rows_rel task_steady (tasks d) (<[id := f r]> (tasks d)))
    by (by eapply rows_rel_insert; [apply _| |auto]).
  split; cbn; try reflexivity; [done|by apply latest_kept].
Qed.

Lemma update_task_if_tame id p f d d' n :
  (forall t, p t = true -> task_steady t (f t)) ->
  update_task_if id p f d = Some (d', n) -> tame d d'.
Proof.
  unfold update_task_if. intros H. destruct (tasks d !! id) as [t|] eqn:Ht; [|by intros [= <- _]].
  destruct (p t) eqn:E; [|by intros [= <- _]]. apply update_task_tame.
  intros t' Ht'. assert (t' = t) as -> by congruence. auto.
Qed.

(** Plans keep their policies when only their other columns change. *)
Definition plans_kept (d d' : db) : Prop :=
  forall q, p_policy_id <$> protection_plans d' !! q = p_policy_id <$> protection_plans d !! q.

Lemma policies_of_plans d m :
  (forall q, p_policy_id <$> m !! q = p_policy_id <$> protection_plans d !! q) ->
  forall q, retention_policy_row q (set_protection_plans d m) = retention_policy_row q d.
Proof.
  intros H q. unfold retention_policy_row. simpl.
  specialize (H q). destruct (m !! q), (protection_plans d !! q); simpl in *; try done.
  by injection H as ->.
Qed.

Lemma tame_plans d m :
  (forall q, p_policy_id <$> m !! q = p_policy_id <$> protection_plans d !! q) ->
  (latest_ok d -> latest_ok (set_protection_plans d m)) ->
  tame d (set_protection_plans d m).
Proof.
  intros H Hl. split; try reflexivity; [|exact Hl]. by apply policies_of_plans.
Qed.

(** An update of columns of plans that are neither policies nor pointers. *)
Lemma update_plans_tame_when p f d d' n :
  (forall q pp, p_policy_id (f q pp) = p_policy_id pp /\ pointers (f q pp) = pointers pp) ->
  update_plans p f d = Some (d', n) -> tame d d'.
Proof.
  intros Hf. unfold update_plans. intros [= <- _]. apply tame_plans.
  - intros q. rewrite map_lookup_imap. destruct (protection_plans d !! q) as [pp|]; [|done].
    cbn. destruct (p q pp); [|done]. f_equal. apply Hf.
  - apply latest_kept; [reflexivity|]. intros q. cbn. rewrite map_lookup_imap.
    destruct (protection_plans d !! q) as [pp|]; [|done].
    cbn. destruct (p q pp); [|done]. f_equal. apply Hf.
Qed.

Lemma update_plans_tame p st now d d' n :
  update_plans p (fun _ pp => plan_with_status pp st now) d = Some (d', n) -> tame d d'.
Proof.
  by apply update_plans_tame_when.
Qed.

Lemma update_schedules_tame p f d d' n : update_schedules p f d = Some (d', n) -> tame d d'.
Proof.
  unfold update_schedules. intros [= <- _]. split; try reflexivity. by apply latest_kept.
Qed.

Lemma set_latest_task_tame planID taskID kind d d' n :
  set_latest_task planID taskID kind d = Some (d', n) -> tame d d'.
Proof.
  unfold set_latest_task. destruct (protection_plans d !! planID) as [pp|] eqn:E;
    [|by intros [= <- _]].
  destruct (latest_tasks_guard _ _ _) eqn:Hg; [|done]. intros [= <- _]. apply tame_plans.
  - intros q. destruct (decide (q = planID)) as [->|Hne]; [by rewrite lookup_insert_eq, E|].
    by rewrite lookup_insert_ne.
  - intros H q pp'. cbn. intros [(<- & <-)|[_ Hq]]%lookup_insert_Some; [exact Hg|].
    by apply (H q).
Qed.

Lemma insert_event_tame id e d d' n : insert_event id e d = Some (d', n) -> tame d d'.
Proof.
  unfold insert_event. destruct (_ || _); [done|]. intros [= <- _].
  split; try reflexivity. by apply latest_kept.
Qed.

(** A reservation that changes its state, but not whether it holds a slot. *)
Lemma reservation_state_kept v st cleanup attempts :
  one_of st ["reserved"; "data_ready"; "deleting"] = true -> active_reservation v = true ->
  reservation_kept v
    {| v_protection_plan_id := v_protection_plan_id v;
       v_replacement_point_id := v_replacement_point_id v; v_state := st;
       v_pending_point := v_pending_point v; v_cleanup_task_id := cleanup;
       v_cleanup_attempts := attempts; v_created_at := v_created_at v |}.
Proof. intros H H'. split_and!; auto. Qed.

Lemma released_kept v : reservation_kept v (reservation_with_state v "released").
Proof. split_and!; auto. Qed.

Lemma active_of v states :
  one_of (v_state v) states = true -> states ⊆ ["reserved"; "data_ready"; "deleting"] ->
  active_reservation v = true.
Proof. unfold active_reservation. rewrite !one_of_true. set_solver. Qed.

Lemma release_failed_tame planID d d' n : release_failed planID d = Some (d', n) -> tame d d'.
Proof.
  unfold release_failed, both. destruct (update_points _ _ d) as [[d1 n1]|] eqn:E; [|done].
  intros H. transitivity d1.
  - by eapply (update_metadata_tame _ (fun _ r => delete "replacementTaskId" (r_metadata r))).
  - eapply update_reservations_tame; [|exact H]. intros. apply released_kept.
Qed.

#[export] Hint Resolve update_schedules_tame update_plans_tame set_latest_task_tame
  insert_event_tame release_failed_tame : tx.

(** ** Operations that are tame, whatever their outcome *)

(** The statements left once [tx_walk] has taken a computation apart. *)
Ltac tame_statement :=
  lazymatch goal with
  | |- stable tame (exec _) => apply stable_exec; [apply _|]; intros ? ? ?
  | |- moves tame (exec _) => apply moves_exec; [apply _|]; intros ? ? ?
  end.

Lemma stable_quotaPlanLock planID : stable tame (quotaPlanLock planID).
Proof. unfold quotaPlanLock. tx_walk. Qed.
Lemma stable_pointBusy id : stable tame (pointBusy id).
Proof. apply stable_select. Qed.
Lemma stable_getTask id : stable tame (getTask id).
Proof. apply stable_select. Qed.
Lemma stable_or_fail {A} e (o : option A) : stable tame (or_fail e o).
Proof. unfold or_fail. tx_walk. Qed.
Lemma stable_validateTenantReference t id tenantID :
  stable tame (validateTenantReference t id tenantID).
Proof. unfold validateTenantReference. tx_walk. Qed.
#[export] Hint Resolve stable_quotaPlanLock stable_pointBusy stable_getTask stable_or_fail
  stable_validateTenantReference : tx.

Lemma tame_SetRestorePointRetention id tenantID retain :
  stable tame (SetRestorePointRetention id tenantID retain).
Proof.
  unfold SetRestorePointRetention. tx_walk. tame_statement.
  by apply (update_metadata_tame _ (fun _ r => <["manualRetained" := VBool retain]> (r_metadata r))).
Qed.

Lemma tame_ClaimRestorePointDeletion ids : stable tame (ClaimRestorePointDeletion ids).
Proof.
  unfold ClaimRestorePointDeletion, claim_point. tx_walk. tame_statement.
  by apply (update_metadata_tame _
    (fun _ r => <["retentionState" := VStr "pending_delete"]> (r_metadata r))).
Qed.

Lemma tame_BeginProtectionPlanCleanup now planID :
  stable tame (BeginProtectionPlanCleanup now planID).
Proof.
  unfold BeginProtectionPlanCleanup. tx_walk; tame_statement; eauto with tx.
  by apply (update_metadata_tame _
    (fun _ r => <["retentionState" := VStr "pending_delete"]> (r_metadata r))).
Qed.

Lemma tame_releaseFailed : stable tame releaseFailedBackupReservations.
Proof.
  unfold releaseFailedBackupReservations, releaseFailedBackupReservations_tx. tx_walk.
  tame_statement. eauto with tx.
Qed.

Lemma tame_PendingRestorePointReplacements : stable tame PendingRestorePointReplacements.
Proof. unfold PendingRestorePointReplacements. pose proof tame_releaseFailed. tx_walk. Qed.

Lemma tame_BeginRestorePointReplacement taskID cleanupID :
  stable tame (BeginRestorePointReplacement taskID cleanupID).
Proof.
  unfold BeginRestorePointReplacement. tx_walk. tame_statement.
  destruct (_ && _); [done|]. apply update_reservations_tame. intros k v _ Hp.
  apply reservation_state_kept; [done|].
  apply andb_true_iff in Hp as [_ Hp]. eapply active_of; [exact Hp|]. set_solver.
Qed.

Lemma claim_row_steady executorID now t :
  t_status t = "queued" -> task_steady t (claim_row executorID now t).
Proof.
  intros Hq. split_and!; try done.
  - unfold accepted_snapshot, claim_row. cbn [t_payload]. by rewrite !get_insert_ne.
  - intros [Hst _]. congruence.
Qed.

Lemma tame_ClaimQueuedTask locked now taskType executorID :
  stable tame (ClaimQueuedTask locked now taskType executorID).
Proof.
  unfold ClaimQueuedTask. tx_walk. tame_statement. apply update_task_if_tame.
  intros t Hq%seqb_true. by apply claim_row_steady.
Qed.

Lemma tame_ClaimQueuedTaskByID now taskID taskType executorID :
  stable tame (ClaimQueuedTaskByID now taskID taskType executorID).
Proof.
  unfold ClaimQueuedTaskByID. tx_walk. tame_statement. apply update_task_if_tame.
  intros t [_ Hq%seqb_true]%andb_true_iff. by apply claim_row_steady.
Qed.

Lemma tame_UpdateRestorePointSizeMetrics id metrics :
  stable tame (UpdateRestorePointSizeMetrics id metrics).
Proof.
  unfold UpdateRestorePointSizeMetrics. tx_walk. tame_statement. by apply update_points_tame.
Qed.

(** *** Reports *)

Lemma status_row_steady now input payload t :
  payload !! "backupResult" = None -> task_steady t (status_row now input payload t).
Proof.
  intros Hp. split_and!; try done.
  - unfold accepted_snapshot, status_row, payload_or_empty_union. cbn [t_payload].
    unfold get at 1. rewrite lookup_union_r; [done|]. unfold jsonify_doc.
    by rewrite lookup_fmap, Hp.
  - intros (Hst & Hc & Hpid & Hs). unfold settled, status_row. cbn.
    destruct (t_completed_at t) as [c|] eqn:E; [|done]. cbn. split_and!; try done.
    + by destruct (tsi_MarkDone input).
    + intros Hnone. apply Hs. clear Hs. revert Hnone. unfold accepted_snapshot. cbn [t_payload].
      unfold payload_or_empty_union, get. rewrite lookup_union_r; [done|]. unfold jsonify_doc.
      by rewrite lookup_fmap, Hp.
Qed.

(** A report does not bring a result of its own: only an accepted backup result
    writes the key. *)
Definition plain_report (input : TaskStatusInput) : Prop :=
  tsi_Payload input !! "backupResult" = None.

Lemma tame_UpdateTaskStatus now input :
  plain_report input -> stable tame (UpdateTaskStatus now input).
Proof.
  intros Hplain. unfold UpdateTaskStatus. tx_walk; tame_statement.
  - apply update_task_tame. intros t _. apply status_row_steady.
    rewrite lookup_insert_ne by done. match goal with |- tsi_Payload (keep_publishing _ ?b) !! _ = _ =>
      by destruct b end.
  - by apply (update_metadata_tame _ (fun _ r => delete "replacementTaskId" (r_metadata r))).
  - apply update_reservations_tame. intros. apply released_kept.
  - unfold retain_drilled. apply update_points_tame. done.
Qed.

(** ** Preparing deletions *)

(** A query whose result the rest may rely on. *)
Lemma moves_query_bind (R : db -> db -> Prop) `{!PreOrder R} {A B} (f : db -> option A)
    (k : A -> tx db B) :
  (forall a s, f (working s) = Some a -> R (working s) (working (fst (k a s)))) ->
  moves R (query f ≫= k).
Proof.
  intros H s. unfold mbind, tx_bind, query. destruct (burn s) as [s1|] eqn:E; [|done].
  apply burn_Some in E as [_ Hw]. rewrite <- Hw.
  destruct (f (working s1)) as [a|] eqn:Ef; [by apply H|done].
Qed.

Lemma tame_lock_replaced task target owner : moves tame (lock_replaced task target owner).
Proof.
  unfold lock_replaced. apply moves_query_bind; [apply _|]. intros state s Hstate.
  destruct (reservations (working s) !! owner) as [v|] eqn:Hv; [|done]. simpl in Hstate.
  destruct (sql_eq _ _); [|done]. injection Hstate as <-.
  destruct (_ || _) eqn:Hst; [done|]. apply orb_false_iff in Hst as [_ Hst].
  apply negb_false_iff in Hst. unfold mbind, tx_bind, exec.
  destruct (burn s) as [s1|] eqn:E; [|done]. apply burn_Some in E as [_ Hw]. rewrite <- Hw in *.
  destruct (fk _ _); [|done]. destruct (update_reservations _ _ _) as [[d' n]|] eqn:Hu; [|done].
  cbn. eapply update_reservations_tame; [|exact Hu].
  intros k w Hk Hkey%seqb_true. subst k. assert (w = v) as -> by congruence.
  apply reservation_state_kept; [done|]. eapply active_of; [exact Hst|]. set_solver.
Qed.
#[export] Hint Resolve tame_lock_replaced : tx.

Lemma tame_prepare LL task now : moves tame (prepareRestorePointDeletion LL task now).
Proof.
  unfold prepareRestorePointDeletion, prepare_target, quotaPoints, selections_of. tx_walk.
  by eapply (update_metadata_tame _
    (fun _ r => <["retentionState" := VStr "deleting"]>
       (<["retentionCleanupTask" := VStr (task_ID task)]> (r_metadata r)))).
Qed.

(** *** What every statement keeps *)

Definition same_policies (d d' : db) : Prop :=
  forall q, retention_policy_row q d' = retention_policy_row q d.

(** A step that keeps what is retained, and what the triggers watch over. *)
Definition checked (d d' : db) : Prop :=
  same_policies d d' /\ (backups_ok d -> backups_ok d') /\ (latest_ok d -> latest_ok d').

#[export] Instance checked_preorder : PreOrder checked.
Proof.
  unfold checked, same_policies. split; [done|].
  intros x y z (H & ? & ?) (H' & ? & ?). split_and!; auto. intros q. by rewrite H'.
Qed.

Lemma tame_backups d d' : tame d d' -> backups_ok d -> backups_ok d'.
Proof.
  intros [Hp _ Ht _ _] H pid r' Hr'.
  destruct (rows_rel_lookup _ _ _ _ _ Hp Hr') as (r & Hr & [Hst [-> _]]).
  destruct (H pid r Hr) as (b & t & -> & Hb & Hplan). exists b.
  destruct (rows_rel_lookup_l _ _ _ _ _ Ht Hb) as (t' & -> & (_ & Htp & _)). exists t'.
  split_and!; try done. unfold point_standing in Hst. congruence.
Qed.

(** Every point of a name has the backup task [o]. *)
Definition all_named (cluster name : string) (o : option string) (d : db) : Prop :=
  forall k r, restore_points d !! k = Some r -> named cluster name r = true ->
    r_backup_task_id r = o.

Definition names_kept (d d' : db) : Prop :=
  forall cluster name o, all_named cluster name o d -> all_named cluster name o d'.

#[export] Instance names_kept_preorder : PreOrder names_kept.
Proof. split; [by intros d ???|]. intros x y z H H' ???. auto. Qed.

Lemma tame_names d d' : tame d d' -> names_kept d d'.
Proof.
  intros [Hp _ _ _ _] c n o H k r' Hr' Hn.
  destruct (rows_rel_lookup _ _ _ _ _ Hp Hr') as (r & Hr & (_ & -> & Hc & Hv)).
  apply (H k r Hr). unfold named in *. congruence.
Qed.

Lemma tame_checked d d' : tame d d' -> checked d d'.
Proof.
  intros H. split_and!; [|by apply tame_backups|by apply tame_latest].
  intros q. by apply tame_policies.
Qed.

(** ** The invariant *)

(** The point the task names is one of the plan. *)
Definition names_own (q : string) (t : task_row) (d : db) : Prop :=
  exists pid r, t_restore_point_id t = Some pid /\ restore_points d !! pid = Some r /\
    of_plan q r = true.

(** A result reported for the task, of the plan the task still has. *)
Definition result_of (id : string) (t : task_row) (snapshot : RestorePointInput) : Prop :=
  rpi_BackupTaskID snapshot = id /\
  (forall q, t_protection_plan_id t = Some q -> q = rpi_ProtectionPlanID snapshot) /\
  t_cluster_id t = Some (rpi_SourceClusterID snapshot) /\ rpi_Status snapshot = "available".

(** The plans are held to their retention count or to [bound], whichever is
    larger: [bound] is what they held when their policies were last edited. *)
Section bounded.
Context (bound : string -> Z).

Definition within_count (q : string) (d : db) : Prop :=
  forall p c, retention_policy_row q d = Some p -> c_retention_count p = Some c -> 0 < c ->
    slots_used q d <= Z.max c (bound q).

Record invariant (d : db) : Prop := {
  (** a reservation belongs to a backup task of its plan, and holds its slot
      until it is released or the task is settled *)
  inv_owner : forall id v, reservations d !! id = Some v -> exists t,
    tasks d !! id = Some t /\ t_type t = "backup" /\
    t_protection_plan_id t = Some (v_protection_plan_id v) /\
    (active_reservation v = true \/ v_state v = "released" \/
     settled t /\ names_own (v_protection_plan_id v) t d);
  (** no two active reservations replace the same point *)
  inv_exclusive : forall id id' v v' pid,
    reservations d !! id = Some v -> reservations d !! id' = Some v' ->
    active_reservation v = true -> active_reservation v' = true ->
    v_replacement_point_id v = Some pid -> v_replacement_point_id v' = Some pid -> id = id';
  (** what a reservation replaces is a point of its plan *)
  inv_replaces : forall id v pid, reservations d !! id = Some v ->
    v_replacement_point_id v = Some pid ->
    exists r, restore_points d !! pid = Some r /\ of_plan (v_protection_plan_id v) r = true;
  inv_points : restore_points d !! "" = None;
  inv_pending : forall id v, reservations d !! id = Some v -> waits_available v;
  (** the snapshot a task holds is a result of that task *)
  inv_snapshots : forall id t raw snapshot,
    tasks d !! id = Some t -> accepted_snapshot t = Some raw ->
    unmarshal_input raw = Some snapshot ->
    result_of id t snapshot;
  (** what the triggers watch over: the backup task of a point, the latest tasks
      of a plan *)
  inv_backups : backups_ok d;
  inv_latest : latest_ok d;
  inv_slots : forall q, q <> "" -> within_count q d
}.

(** What a step must do for the invariant. *)
Definition keeps_invariant (d d' : db) : Prop := invariant d -> invariant d'.

#[export] Instance keeps_invariant_preorder : PreOrder keeps_invariant.
Proof. unfold keeps_invariant. split; [by intros d|]. intros x y z. auto. Qed.

Lemma reserved_slots_le q d d' :
  same_standing d d' -> rows_rel reservation_kept (reservations d) (reservations d') ->
  reserved_slots q d' <= reserved_slots q d.
Proof.
  intros Hs H. apply count_where_ind. intros k. specialize (H k).
  destruct (reservations d !! k) as [v|], (reservations d' !! k) as [v'|];
    [|destruct H|destruct H|exact I].
  pose proof (kept_active _ _ H) as Hact. destruct H as (Hplan & Hrep & _). rewrite <- (reserves_slot_same q d d' v') by exact Hs.
  unfold reserves_slot. rewrite Hplan, Hrep, !andb_true_iff. intros [[? ?] ?]. auto.
Qed.

Lemma tame_slots q d d' : tame d d' -> slots_used q d' <= slots_used q d.
Proof.
  intros H. pose proof (tame_standing d d' H) as Hs. unfold slots_used.
  rewrite <- (live_points_same q d d' Hs).
  pose proof (reserved_slots_le q d d' Hs (tame_reservations d d' H)). lia.
Qed.

Lemma tame_keeps d d' : tame d d' -> keeps_invariant d d'.
Proof.
  intros H I. pose proof H as [Hp Hv Ht Hpol Hlat]. split.
  - intros id v' Hv'. destruct (rows_rel_lookup _ _ _ _ _ Hv Hv') as (v & Hid & Hplan & _ & Hst & _).
    destruct (inv_owner d I id v Hid) as (t & Htask & Htype & Htp & Hset).
    destruct (rows_rel_lookup_l _ _ _ _ _ Ht Htask) as (t' & Ht' & Hsteady). exists t'.
    destruct Hsteady as (-> & -> & _ & _ & Hkeep). rewrite Hplan. split_and!; auto.
    destruct Hst as [Hst|[Hst|[_ Hst]]]; [auto| |auto].
    rewrite (active_same _ _ Hst), Hst.
    destruct Hset as [?|[?|[Hset (pid & r & Hpid & Hr & Hof)]]]; [by auto..|].
    destruct (Hkeep Hset) as [Hset' Hsame]. right; right. split; [done|].
    destruct (rows_rel_lookup_l _ _ _ _ _ Hp Hr) as (r' & Hr' & [Hkept _]). exists pid, r'.
    rewrite Hsame. split_and!; try done. by rewrite (standing_of_plan _ r' r).
  - intros id id' v v' pid H1 H2 Ha Ha' Hr Hr'.
    destruct (rows_rel_lookup _ _ _ _ _ Hv H1) as (w & Hw & Hkw).
    destruct (rows_rel_lookup _ _ _ _ _ Hv H2) as (w' & Hw' & Hkw').
    pose proof (kept_active _ _ Hkw). pose proof (kept_active _ _ Hkw').
    destruct Hkw as (_ & Hrw & _), Hkw' as (_ & Hrw' & _).
    eapply (inv_exclusive d I id id' w w' pid); auto; congruence.
  - intros id v' pid Hv' Hpid.
    destruct (rows_rel_lookup _ _ _ _ _ Hv Hv') as (v & Hid & -> & Hrep & _).
    destruct (inv_replaces d I id v pid Hid) as (r & Hr & Hof); [congruence|].
    destruct (rows_rel_lookup_l _ _ _ _ _ Hp Hr) as (r' & Hr' & [Hkept _]). exists r'.
    split; [done|]. by rewrite (standing_of_plan _ r' r).
  - specialize (Hp ""). rewrite (inv_points d I) in Hp. by destruct (restore_points d' !! "").
  - intros id v' Hv'. destruct (rows_rel_lookup _ _ _ _ _ Hv Hv') as (v & Hid & _ & _ & _ & Hw).
    eapply Hw, inv_pending; done.
  - intros id t' raw snapshot Ht' Hsnap Hun.
    destruct (rows_rel_lookup _ _ _ _ _ Ht Ht') as (t & Hid & (_ & Hpl & Hcl & Hs & _)).
    unfold result_of. rewrite Hpl, Hcl. eapply (inv_snapshots d I); [done| |done]. congruence.
  - by apply (tame_backups d d'), (inv_backups d I).
  - apply Hlat, (inv_latest d I).
  - intros q Hq p c Hp' Hc Hpos. rewrite Hpol in Hp'. pose proof (tame_slots q d d' H).
    pose proof (inv_slots d I q Hq p c Hp' Hc Hpos). lia.
Qed.

(** ** Creating tasks *)

Lemma standing_point q d d' pid r :
  same_standing d d' -> restore_points d !! pid = Some r -> of_plan q r = true ->
  exists r', restore_points d' !! pid = Some r' /\ of_plan q r' = true.
Proof.
  intros Hs Hr Hof. specialize (Hs pid). rewrite Hr in Hs.
  destruct (restore_points d' !! pid) as [r'|]; [|done]. injection Hs as Hst Hst'. exists r'.
  split; [done|]. rewrite <- Hof. apply standing_of_plan. unfold point_standing. congruence.
Qed.

Lemma names_own_standing q t d d' : same_standing d d' -> names_own q t d -> names_own q t d'.
Proof.
  intros Hs (pid & r & Hpid & Hr & Hof).
  destruct (standing_point q d d' pid r Hs Hr Hof) as (r' & ? & ?). by exists pid, r'.
Qed.

Lemma insert_task_keeps id t d d' n :
  accepted_snapshot t = None -> insert_task id t d = Some (d', n) -> keeps_invariant d d'.
Proof.
  intros Hsnap [Hnone ->]%insert_task_inv [Ho He Hr Hp Hw Hs Hb Hl Hslots].
  assert (Hkept : tasks_kept d (set_tasks d (<[id := t]> (tasks d)))).
  { intros k t0 Hk. exists t0. cbn. rewrite lookup_insert_ne; [done|]. intros ->. congruence. }
  split; cbn; try done; [| |by eapply backups_ok_kept|by eapply latest_ok_kept].
  - intros k v (t0 & Ht0 & H)%Ho. exists t0. rewrite lookup_insert_ne; [done|].
    intros ->. congruence.
  - intros k t0 raw snapshot Hk. destruct (decide (k = id)) as [->|Hne].
    + rewrite lookup_insert_eq in Hk. injection Hk as <-. congruence.
    + rewrite lookup_insert_ne in Hk by done. eauto.
Qed.

Section reservation.
Context (LoadLocation : string -> option location) (task : Task) (now : time).
Local Notation plan := (task_ProtectionPlanID task).

(** What every reservation of a backup begins with. *)
Lemma reserve_begin s s' u :
  task_Type task = "backup" -> plan <> "" ->
  reserveBackupQuota LoadLocation task now s = (s', inr u) ->
  exists d1 n1 policy, release_failed plan (working s) = Some (d1, n1) /\
    match retention_policy_row plan (working s) with
    | Some p => c_retention_count p = Some (q_RetentionCount policy)
    | None => policy = no_policy
    end /\
    (q_RetentionCount policy <= 0 -> working s' = d1).
Proof.
  intros Htype Hplan H. unfold reserveBackupQuota in H.
  rewrite Htype, seqb_refl, (proj2 (nonempty_true plan) Hplan) in H. cbn [negb orb] in H.
  apply bind_inr in H as (u1 & s1 & H1 & H). apply release_tx_inr in H1 as [n1 Hrel].
  apply bind_inr in H as (policy & s2 & Hq & H). apply quotaPolicy_inr in Hq as (Hw & _ & Hq).
  rewrite (release_failed_policy task _ _ _ Hrel) in Hq.
  exists (working s1), n1, policy. split; [done|]. split.
  - destruct (retention_policy_row _ _); [by destruct Hq as [? _]|done].
  - intros Hle%Z.leb_le. rewrite Hle in H. by apply ret_inr in H as [-> _].
Qed.

Definition uncounted (q : string) (d : db) : Prop :=
  forall p c, retention_policy_row q d = Some p -> c_retention_count p = Some c -> c <= 0.

(** A reservation either has nothing to count, or is made within the count. *)
Lemma reserve_cases s s' u :
  task_Type task = "backup" -> plan <> "" ->
  reserveBackupQuota LoadLocation task now s = (s', inr u) ->
  tame (working s) (working s') /\ uncounted plan (working s) \/
  exists p count, counted_policy task (working s) p count.
Proof.
  intros Htype Hplan H. apply reserve_begin in H as (d1 & n1 & policy & Hrel & Hpol & Hle); [|done..].
  destruct (decide (q_RetentionCount policy <= 0)) as [Hc|Hc].
  - left. rewrite (Hle Hc). split; [by eapply release_failed_tame|].
    intros p c Hp Hpc. rewrite Hp, Hpc in Hpol. by injection Hpol as ->.
  - right. destruct (retention_policy_row plan (working s)) as [p|] eqn:Hp; [|by subst policy].
    exists p, (q_RetentionCount policy). split; [done|]. split; [done|lia].
Qed.

Lemma checked_reserve : moves checked (reserveBackupQuota LoadLocation task now).
Proof.
  unfold reserveBackupQuota, releaseFailedBackupReservations_tx, quotaPoints, selections_of,
    pick_replacement, choose_replacement, insert_slot. tx_walk.
  - by eapply tame_checked, release_failed_tame.
  - by match goal with H : insert_reservation _ _ _ = _ |- _ =>
      apply insert_reservation_inv in H as (-> & _) end.
  - eapply tame_checked. by eapply (update_metadata_tame _
      (fun _ r => <["replacementTaskId" := VStr (task_ID task)]> (r_metadata r))).
Qed.

Lemma names_reserve : moves names_kept (reserveBackupQuota LoadLocation task now).
Proof.
  unfold reserveBackupQuota, releaseFailedBackupReservations_tx, quotaPoints, selections_of,
    pick_replacement, choose_replacement, insert_slot. tx_walk.
  - by eapply tame_names, release_failed_tame.
  - match goal with H : insert_reservation _ _ _ = _ |- _ =>
      apply insert_reservation_inv in H as (-> & _) end. by intros ????.
  - eapply tame_names. by eapply (update_metadata_tame _
      (fun _ r => <["replacementTaskId" := VStr (task_ID task)]> (r_metadata r))).
Qed.

(** A slot kept for a backup keeps the invariant. *)
Lemma new_reservation_keeps d d' t selected replacement p count :
  tasks d !! task_ID task = Some t -> t_type t = "backup" -> t_protection_plan_id t = Some plan ->
  counted_policy task d p count ->
  slots_used plan d <= count ->
  match replacement with
  | None => slots_used plan d < count
  | Some id => expendable task d selected id
  end ->
  same_standing d d' -> same_policies d d' -> backups_ok d' -> latest_ok d' ->
  tasks d' = tasks d ->
  reservations d !! task_ID task = None ->
  reservations d' = <[task_ID task := new_reservation task now replacement]> (reservations d) ->
  keeps_invariant d d'.
Proof.
  intros Ht Htt Htp (Hpol & Hcount & _) Hle Hrep Hs Hpols Hback Hlat Htasks Hnone Hrows I.
  assert (Hfree : forall k v pid, reservations d !! k = Some v -> active_reservation v = true ->
    v_replacement_point_id v = Some pid -> replacement = Some pid -> False).
  { intros k v pid Hv Ha Hpid ->. destruct Hrep as (r & _ & _ & _ & _ & _ & _ & Hb).
    apply orb_false_iff in Hb as [_ Hb].
    pose proof (proj1 (exists_where_false _ _) Hb k v Hv) as Hno. unfold replaces_point in Hno.
    by rewrite Hpid, Ha, (proj2 (sql_eq_Some _ _) eq_refl) in Hno. }
  split.
  - intros k v. rewrite Hrows, Htasks. destruct (decide (k = task_ID task)) as [->|Hne].
    + rewrite lookup_insert_eq. intros [= <-]. exists t. split_and!; try done. by left.
    + rewrite lookup_insert_ne by done. intros Hv.
      destruct (inv_owner d I k v Hv) as (t0 & ? & ? & ? & Hset). exists t0. split_and!; try done.
      destruct Hset as [?|[?|[? Hown]]]; [by auto..|]. right; right. split; [done|].
      by eapply names_own_standing.
  - intros k k' v v' pid. rewrite Hrows.
    destruct (decide (k = task_ID task)) as [->|Hne], (decide (k' = task_ID task)) as [->|Hne'];
      rewrite ?lookup_insert_eq, ?lookup_insert_ne by done; try done.
    + intros [= <-] Hv' _ Ha' Hp Hp'. simpl in Hp. exfalso. eauto.
    + intros Hv [= <-] Ha _ Hp Hp'. simpl in Hp'. exfalso. eauto.
    + apply (inv_exclusive d I).
  - intros k v pid. rewrite Hrows. destruct (decide (k = task_ID task)) as [->|Hne].
    + rewrite lookup_insert_eq. intros [= <-]. simpl. intros ->.
      destruct Hrep as (r & Hr & Hof & _). by eapply standing_point.
    + rewrite lookup_insert_ne by done. intros Hv Hp.
      destruct (inv_replaces d I k v pid Hv Hp) as (r & Hr & Hof). by eapply standing_point.
  - specialize (Hs ""). rewrite (inv_points d I) in Hs. by destruct (restore_points d' !! "").
  - intros k v. rewrite Hrows. destruct (decide (k = task_ID task)) as [->|Hne].
    + rewrite lookup_insert_eq. by intros [= <-].
    + rewrite lookup_insert_ne by done. apply (inv_pending d I).
  - rewrite Htasks. apply (inv_snapshots d I).
  - exact Hback.
  - exact Hlat.
  - intros q Hq p' c Hp' Hc Hpos. rewrite Hpols in Hp'. destruct (decide (q = plan)) as [->|Hne].
    + rewrite (slots_after_insert task now d d' replacement) by done.
      assert (c = count) as -> by congruence. destruct replacement as [id|].
      * rewrite (reserves_slot_replacement task now d selected id) by done. lia.
      * destruct (reserves_slot _ _ _); lia.
    + unfold slots_used. rewrite <- (live_points_same q d d' Hs).
      rewrite <- (reserved_slots_same q
        (set_reservations d (<[task_ID task := new_reservation task now replacement]>
           (reservations d))) d') by done.
      rewrite reserved_slots_insert by done. unfold reserves_slot. simpl.
      rewrite (proj2 (seqb_false plan q)) by done. simpl.
      pose proof (inv_slots d I q Hq p' c Hp' Hc Hpos) as Hslots. unfold slots_used in Hslots. lia.
Qed.

Lemma reserve_keeps s s' u t :
  task_Type task = "backup" -> plan <> "" ->
  tasks (working s) !! task_ID task = Some t -> t_type t = "backup" ->
  t_protection_plan_id t = Some plan ->
  reserveBackupQuota LoadLocation task now s = (s', inr u) ->
  keeps_invariant (working s) (working s').
Proof.
  intros Htype Hplan Ht Htt Htp H.
  pose proof (reserve_cases s s' u Htype Hplan H) as [[Htame _]|(p & c & Hpol)];
    [by apply tame_keeps|].
  destruct (reserveBackupQuota_inr _ _ _ _ _ _ _ _ Htype Hplan Hpol H)
    as (d1 & n1 & selected & replacement & Hrel & _ & Hle & Hrep & Hs & Hts & Hnone & Hrows).
  pose proof (release_failed_tame _ _ _ _ Hrel) as Htame.
  pose proof (checked_reserve s) as Hp. rewrite H in Hp. simpl in Hp. destruct Hp as (Hp & Hb & Hl).
  intros I. pose proof (tame_keeps _ _ Htame I) as I1.
  apply release_failed_inv in Hrel as (_ & Ht1 & _). revert I1.
  apply (new_reservation_keeps d1 _ t selected replacement p c); try done.
  - by rewrite Ht1.
  - destruct Hpol as (Hpol & ? & ?). split; [|done]. by rewrite (tame_policies _ _ Htame).
  - intros q. rewrite Hp. symmetry. apply (tame_policies _ _ Htame).
  - by apply Hb, (inv_backups _ I).
  - by apply Hl, (inv_latest _ I).
Qed.

End reservation.

(** A refused reservation has done no more than release those of failed tasks. *)
Lemma reserve_refused LL task now s s' detail :
  reserveBackupQuota LL task now s = (s', inl (ErrRestorePointQuota detail)) ->
  tame (working s) (working s').
Proof.
  unfold reserveBackupQuota. destruct (_ || _); [done|]. intros H.
  apply bind_inl in H as [H|(u1 & s1 & H1 & H)].
  { apply bind_inl in H as [H|(? & ? & _ & H)]; [by apply exec_inl in H|done]. }
  apply release_tx_inr in H1 as [n1 Hrel]. apply release_failed_tame in Hrel.
  etrans; [exact Hrel|]. clear Hrel.
  apply bind_inl in H as [H|(policy & s2 & H2 & H)]; [by apply quotaPolicy_inl in H as [?|?]|].
  apply quotaPolicy_inr in H2 as (Hw2 & _). destruct (_ <=? 0); [done|].
  apply bind_inl in H as [H|(points & s3 & H3 & H)]; [by apply select_inl in H|].
  apply select_inr in H3 as (_ & Hw3 & _).
  apply bind_inl in H as [H|(selected & s4 & H4 & H)].
  { unfold selections_of in H. by destruct (RetentionSelections _ _ _ _ _). }
  apply selections_of_inr in H4 as [-> _].
  apply bind_inl in H as [H|(reserved & s5 & H5 & H)]; [by apply select_inl in H|].
  apply select_inr in H5 as (_ & Hw5 & _).
  assert (Hw : working s5 = working s1) by congruence. rewrite <- Hw. clear Hw Hw2 Hw3 Hw5.
  destruct (_ <? _); [by injection H as <- _|].
  apply bind_inl in H as [H|(replacement & s6 & _ & H)]; [|by apply insert_slot_inl in H].
  assert (Hm : moves tame (pick_replacement policy points selected
    (occupied_slots points + reserved))).
  { unfold pick_replacement, choose_replacement. tx_walk. }
  specialize (Hm s5). by rewrite H in Hm.
Qed.

(** A new task brings no result. *)
Definition plain_input (input : TaskInput) : Prop := ti_Payload input !! "backupResult" = None.

Lemma admitted_plain d id now input task :
  admitted d id now input task -> plain_input input ->
  accepted_snapshot (task_row_of task) = None.
Proof.
  intros (tenantID & payload & -> & _ & Hp) Hplain.
  assert (Hnone : payload !! "backupResult" = None).
  { destruct (_ && _); [destruct Hp as (row & _ & _ & _ & ->)|by subst].
    by rewrite lookup_insert_ne. }
  unfold accepted_snapshot. cbn [t_payload task_row_of task_Payload new_task].
  rewrite get_jsonify_doc. unfold get. by rewrite Hnone.
Qed.

Lemma attachToPlan_keeps LL input task now s s' task' :
  tasks (working s) !! task_ID task = Some (task_row_of task) ->
  attachToPlan LL input task now s = (s', inr task') ->
  keeps_invariant (working s) (working s').
Proof.
  intros Hrow. unfold attachToPlan. destruct (_ && _) eqn:Hplan; [|intros H; by apply ret_inr in H as [-> _]].
  apply andb_true_iff in Hplan as [Hplan%nonempty_true _].
  intros (t & s1 & H1 & H)%bind_inr. apply bind_inr in H as (u & s2 & H2 & H).
  apply ret_inr in H as [-> _].
  assert (Hpointer : tame (working s1) (working s2)).
  { assert (Hm : moves tame (publishLatestPointer t)).
    { unfold publishLatestPointer. tx_walk. }
    specialize (Hm s1). by rewrite H2 in Hm. }
  etrans; [|by apply tame_keeps]. clear Hpointer H2.
  apply reserveOrFail_inr in H1 as [[-> H1]|(detail & s3 & n & H1 & Hu & ->)].
  - destruct (decide (task_Type task = "backup")) as [Htype|Htype].
    + eapply (reserve_keeps LL task now); try done.
      unfold task_row_of, nullif. cbn. by rewrite (proj2 (nonempty_true _) Hplan).
    + unfold reserveBackupQuota in H1. rewrite (proj2 (seqb_false _ _) Htype) in H1.
      by apply ret_inr in H1 as [-> _].
  - pose proof (keeps_tasks_reserve LL task now s) as Hk. rewrite H1 in Hk.
    unfold keeps_tasks in Hk. simpl in Hk. apply tame_keeps.
    etrans; [by eapply reserve_refused|]. eapply update_task_tame; [|exact Hu].
    intros r Hr. assert (r = task_row_of task) as -> by congruence.
    split_and!; try done. by intros (_ & ? & _).
Qed.

Lemma CreateTask_keeps LL id now input fuse d :
  plain_input input -> keeps_invariant d (fst (run (CreateTask LL id now input) fuse d)).
Proof.
  intros Hplain. destruct (run _ _ _) as [d' r] eqn:E. simpl. destruct r as [e|task].
  { apply run_atomic in E as ->; [done|apply atomic_CreateTask]. }
  apply run_inr in E as (s' & H & <-).
  apply CreateTask_steps in H as (task0 & n & s3 & s4 & s5 & Hadm & Hid & H3 & H4 & H5 & ->).
  cbn [committed] in *. etrans.
  { eapply insert_task_keeps; [|exact H3]. by eapply admitted_plain. }
  apply insert_task_inv in H3 as [_ Hw3]. etrans.
  { eapply attachToPlan_keeps; [|exact H4]. rewrite Hw3, Hid. apply lookup_insert_eq. }
  apply tame_keeps. pose proof (tame_prepare LL task now s4) as Hm. by rewrite H5 in Hm.
Qed.

(** ** Deleting points *)

Lemma state_row_plan status patch r :
  r_protection_plan_id (state_row status patch r) = r_protection_plan_id r /\
  (r_status r = "deleted" -> r_status (state_row status patch r) = "deleted").
Proof. split; [done|]. intros H. unfold state_row. cbn. by rewrite H, seqb_refl. Qed.

Section deletion.
Context (d : db) (id : string) (r r' : point_row).
Hypothesis (Hr : restore_points d !! id = Some r).
Hypothesis (Hplan : r_protection_plan_id r' = r_protection_plan_id r).
Hypothesis (Hdel : r_status r = "deleted" -> r_status r' = "deleted").
Hypothesis (Hback : r_backup_task_id r' = r_backup_task_id r).
Let d' := set_restore_points d (<[id := r']> (restore_points d)).
Let replaces (v : reservation_row) : bool :=
  active_reservation v && sql_eq (v_replacement_point_id v) (Some id).

Lemma live_after_state q :
  live_points q d' + (if live_point q r then 1 else 0) =
  live_points q d + (if live_point q r' then 1 else 0).
Proof.
  unfold live_points. rewrite (count_where_delete _ (restore_points d) id r Hr).
  rewrite (count_where_delete _ (restore_points d') id r') by apply lookup_insert_eq.
  unfold d'. cbn. rewrite delete_insert_eq. lia.
Qed.

Lemma reserves_slot_elsewhere q v : replaces v = false -> reserves_slot q d' v = reserves_slot q d v.
Proof.
  unfold replaces, reserves_slot. intros H. destruct (active_reservation v);
    [|by rewrite !andb_false_r]. f_equal. cbn [andb] in H.
  destruct (v_replacement_point_id v) as [pid|]; [|done]. unfold d'. cbn.
  rewrite lookup_insert_ne; [done|]. intros <-. cbn in H. by rewrite seqb_refl in H.
Qed.

(** The slot an active reservation takes over when its point is deleted. *)
Lemma reserves_slot_here q v :
  replaces v = true -> of_plan (v_protection_plan_id v) r = true ->
  (if reserves_slot q d' v then 1 else 0) + (if live_point q r' then 1 else 0) =
  (if reserves_slot q d v then 1 else 0) + (if live_point q r then 1 else 0).
Proof.
  unfold replaces, reserves_slot. intros [Ha Hid%sql_eq_Some]%andb_true_iff Hof.
  rewrite Ha, Hid, !andb_true_r. unfold d'. cbn. rewrite lookup_insert_eq, Hr.
  unfold live_point. assert (Hof' : of_plan q r' = of_plan q r) by (unfold of_plan; by rewrite Hplan).
  rewrite Hof'. assert (Hq : of_plan q r = (v_protection_plan_id v =s q)).
  { unfold of_plan in *. apply sql_eq_Some in Hof. by rewrite Hof. }
  rewrite Hq. destruct (_ =s q), (r_status r =s "deleted"), (r_status r' =s "deleted"); done.
Qed.

Lemma state_slots q : invariant d -> slots_used q d' <= slots_used q d.
Proof.
  intros I. unfold slots_used. pose proof (live_after_state q) as Hlive.
  destruct (exists_where (fun _ => replaces) (reservations d)) eqn:Hex.
  - apply exists_where_true in Hex as (k & v & Hv & Hrep).
    pose proof Hrep as [Ha Hid%sql_eq_Some]%andb_true_iff.
    destruct (inv_replaces d I k v id Hv Hid) as (r0 & Hr0 & Hof).
    assert (r0 = r) as -> by congruence.
    pose proof (reserves_slot_here q v Hrep Hof) as Hhere. unfold reserved_slots.
    rewrite (count_where_delete _ (reservations d') k v Hv).
    rewrite (count_where_delete _ (reservations d) k v Hv).
    rewrite (count_where_ext _ (fun _ => reserves_slot q d) (delete k (reservations d'))
      (delete k (reservations d))); [lia|].
    intros j. change (reservations d') with (reservations d).
    destruct (delete k (reservations d) !! j) as [w|] eqn:Ew; [|done]. cbn. f_equal.
    apply lookup_delete_Some in Ew as [Hne Ew]. apply reserves_slot_elsewhere.
    apply not_true_iff_false. intros [Hwa Hwid%sql_eq_Some]%andb_true_iff. apply Hne.
    by eapply (inv_exclusive d I k j v w id).
  - assert (Hres : reserved_slots q d' = reserved_slots q d).
    { apply count_where_ext. intros j. change (reservations d') with (reservations d).
      destruct (reservations d !! j) as [w|] eqn:Ew; [|done]. cbn. f_equal.
      apply reserves_slot_elsewhere. by eapply (proj1 (exists_where_false _ _) Hex). }
    assert (Hmono : (if live_point q r' then 1 else 0) <= (if live_point q r then 1 else 0)); [|lia].
    unfold live_point, of_plan. rewrite Hplan. destruct (sql_eq _ _); [|done]. cbn [andb].
    destruct (r_status r =s "deleted") eqn:E; [|by destruct (r_status r' =s "deleted")].
    apply seqb_true, Hdel in E. by rewrite E, seqb_refl.
Qed.

Lemma point_after_state q pid r0 :
  restore_points d !! pid = Some r0 -> of_plan q r0 = true ->
  exists r1, restore_points d' !! pid = Some r1 /\ of_plan q r1 = true.
Proof.
  intros Hr0 Hof. destruct (decide (pid = id)) as [->|Hne].
  - exists r'. split; [apply lookup_insert_eq|]. assert (r0 = r) as -> by congruence.
    unfold of_plan in *. by rewrite Hplan.
  - exists r0. split; [|done]. unfold d'. cbn. by rewrite lookup_insert_ne.
Qed.

Lemma state_keeps : keeps_invariant d d'.
Proof.
  intros I. split; try apply I.
  - intros k v Hv. destruct (inv_owner d I k v Hv) as (t & ? & ? & ? & Hset). exists t.
    split_and!; try done. destruct Hset as [?|[?|[? (pid & r0 & ? & Hr0 & Hof)]]]; [by auto..|].
    right; right. split; [done|]. destruct (point_after_state _ _ _ Hr0 Hof) as (r1 & ? & ?).
    by exists pid, r1.
  - intros k v pid Hv Hpid. destruct (inv_replaces d I k v pid Hv Hpid) as (r0 & Hr0 & Hof).
    by eapply point_after_state.
  - unfold d'. cbn. rewrite lookup_insert_ne; [apply (inv_points d I)|].
    intros ->. pose proof (inv_points d I). congruence.
  - intros pid r0. unfold d'. cbn. intros [(<- & <-)|[_ Hr0]]%lookup_insert_Some.
    + rewrite Hplan, Hback. by apply (inv_backups d I id).
    + by apply (inv_backups d I pid).
  - intros q Hq p c Hp Hc Hpos. pose proof (inv_slots d I q Hq p c Hp Hc Hpos).
    pose proof (state_slots q I). lia.
Qed.

End deletion.

Lemma UpdateRestorePointState_keeps input fuse d :
  keeps_invariant d (fst (run (UpdateRestorePointState input) fuse d)).
Proof.
  apply run_stable; [apply _|]. unfold UpdateRestorePointState, quotaPlanLock. tx_walk.
  apply stable_exec; [apply _|]. intros d0 d1 o. unfold set_point_state.
  destruct (restore_points d0 !! _) as [r|] eqn:Hr; [|by intros [= <- _]].
  intros [= <- _]. eapply state_keeps; [exact Hr|done| |done].
  apply state_row_plan.
Qed.

(** ** Publishing results *)

(** What ties a result to the task it was reported for. *)
Definition about (taskID : string) (t : task_row) (input : RestorePointInput) : Prop :=
  rpi_BackupTaskID input = taskID /\
  t_protection_plan_id t = Some (rpi_ProtectionPlanID input) /\
  t_cluster_id t = Some (rpi_SourceClusterID input) /\ rpi_Status input = "available".

(** A report as agents make it: of an available point. *)
Definition available_report (input : RestorePointInput) : Prop :=
  rpi_Status input = "" \/ rpi_Status input = "available".

Lemma available_normalize input :
  available_report input -> rpi_Status (normalize_input input) = "available".
Proof. by intros [H|H]; cbn; rewrite H. Qed.

(** Replacing the row of a task. *)
Lemma task_row_keeps id t t' d :
  tasks d !! id = Some t -> t_type t' = t_type t ->
  t_protection_plan_id t' = t_protection_plan_id t ->
  ~ settled t ->
  (forall raw snapshot, accepted_snapshot t' = Some raw -> unmarshal_input raw = Some snapshot ->
     result_of id t' snapshot) ->
  keeps_invariant d (set_tasks d (<[id := t']> (tasks d))).
Proof.
  intros Ht Htype Hplan Hset Hsnap I.
  assert (Hkept : tasks_kept d (set_tasks d (<[id := t']> (tasks d)))).
  { intros k t0 Hk. cbn. destruct (decide (k = id)) as [->|Hne].
    - exists t'. assert (t0 = t) as -> by congruence. by rewrite lookup_insert_eq.
    - exists t0. by rewrite lookup_insert_ne. }
  split; try apply I; cbn.
  - intros k v Hv. destruct (inv_owner d I k v Hv) as (t0 & Ht0 & H0 & H1 & H2).
    destruct (decide (k = id)) as [->|Hne].
    + exists t'. assert (t0 = t) as -> by congruence. rewrite lookup_insert_eq, Htype, Hplan.
      split_and!; try done. destruct H2 as [?|[?|[? _]]]; [by auto..|by destruct Hset].
    + exists t0. by rewrite lookup_insert_ne.
  - intros k t0 raw snapshot. destruct (decide (k = id)) as [->|Hne].
    + rewrite lookup_insert_eq. intros [= <-]. apply Hsnap.
    + rewrite lookup_insert_ne by done. apply (inv_snapshots d I).
  - eapply backups_ok_kept, (inv_backups d I); done.
  - eapply latest_ok_kept, (inv_latest d I); done.
Qed.

Lemma accept_row_snapshot input v t :
  marshal_input input = Some v -> accepted_snapshot (accept_row input v t) = Some v.
Proof.
  intros (_ & ->)%marshal_input_Some.
  unfold accepted_snapshot, accept_row. cbn [t_payload]. by rewrite get_insert.
Qed.

(** What acceptance establishes: the task holds a result about it, and the
    result to publish is about it too. *)
Record accepted_for (taskID : string) (input : RestorePointInput) (d : db) (t : task_row) : Prop := {
  af_id : taskID <> "";
  af_task : tasks d !! taskID = Some t;
  af_type : t_type t = "backup";
  af_about : about taskID t input;
  af_snapshot : accepted_snapshot t <> None;
  af_open : forall v, reservations d !! taskID = Some v ->
    active_reservation v = true \/ v_state v = "released";
  af_named : all_named (rpi_SourceClusterID input) (rpi_VeleroBackupName input) (Some taskID) d
}.

Lemma unconflicted_named input tenantID d d' :
  conflicting_point input tenantID d = false -> rpi_BackupTaskID input <> "" ->
  restore_points d' = restore_points d ->
  all_named (rpi_SourceClusterID input) (rpi_VeleroBackupName input)
    (Some (rpi_BackupTaskID input)) d'.
Proof.
  intros H Hid Hp k r. rewrite Hp. intros Hr Hn.
  pose proof (proj1 (exists_where_false _ _) H k r Hr) as Hno. cbn in Hno. rewrite Hn in Hno.
  apply orb_false_iff in Hno as [_ Hno%negb_false_iff%bool_decide_eq_true]. rewrite Hno.
  unfold nullif. by rewrite (proj2 (nonempty_true _) Hid).
Qed.

Lemma accept_keeps input tenantID s s' accepted :
  rpi_Status input = "available" -> invariant (working s) ->
  acceptBackupResult input tenantID s = (s', inr accepted) ->
  invariant (working s') /\
  match accepted with
  | AlreadyPublished _ => True
  | Publish input' => exists t, accepted_for (rpi_BackupTaskID input) input' (working s') t
  end.
Proof.
  intros Hst I H. apply acceptBackupResult_inr in H as (t & Hok & H).
  pose proof (acc_type _ _ _ _ Hok) as Htype.
  pose proof (backup_task_inv _ _ _ _ (acc_task _ _ _ _ Hok)) as (Hid & Ht & Hplan & Hcl).
  destruct (accepted_snapshot t) as [raw|] eqn:Hsnap.
  - destruct accepted as [pid|input']; [by destruct H as [-> _]|].
    destruct H as (-> & Hun & [Hname _] & Hno). split; [done|].
    destruct (inv_snapshots _ I _ t raw input' Ht Hsnap Hun) as (? & Hq & Hsc & ?).
    exists t. split; try done.
    + split_and!; try done. rewrite Hplan. f_equal. by apply Hq.
    + by rewrite Hsnap.
    + intros v Hv. destruct (inv_owner _ I _ v Hv) as (t0 & Ht0 & _ & _ & Hc).
      assert (t0 = t) as -> by congruence. destruct Hc as [?|[?|[(? & _ & ? & _) _]]]; tauto.
    + rewrite Hname. replace (rpi_SourceClusterID input') with (rpi_SourceClusterID input)
        by congruence. by eapply unconflicted_named; [apply (acc_conflict _ _ _ _ Hok)|..].
  - destruct accepted as [pid|input']; [done|].
    destruct H as (-> & _ & raw & n & Hm & Hu).
    rewrite (update_task_row _ _ _ _ _ _ Ht Hu).
    assert (Habout : about (rpi_BackupTaskID input) (accept_row input raw t) input) by done.
    split.
    + apply (task_row_keeps _ t); try done.
      * intros (_ & _ & _ & Hs). by rewrite Hsnap in Hs.
      * intros raw' snapshot. rewrite (accept_row_snapshot _ _ _ Hm). intros [= <-].
        rewrite (unmarshal_marshal _ _ Hm). destruct (in_int64 _); [|done]. intros [= <-].
        destruct Habout as (? & Hp & ? & ?). split_and!; try done. intros q. rewrite Hp.
        by intros [= <-].
    + exists (accept_row input raw t). split; try done.
      * apply lookup_insert_eq.
      * by rewrite (accept_row_snapshot _ _ _ Hm).
      * intros v Hv. destruct (inv_owner _ I _ v Hv) as (t0 & Ht0 & _ & _ & Hc).
        assert (t0 = t) as -> by congruence. destruct Hc as [?|[?|[(_ & _ & _ & Hs) _]]]; auto.
      * by eapply unconflicted_named; [apply (acc_conflict _ _ _ _ Hok)|..].
Qed.

(** What a search for the reservation of a plan's backup leaves: none when there
    is nothing to count, else the one there was or one just reserved. *)
Definition found_reservation (input : RestorePointInput) (d d' : db) : Prop :=
  match reservations d' !! rpi_BackupTaskID input with
  | None => rpi_ProtectionPlanID input <> "" -> uncounted (rpi_ProtectionPlanID input) d'
  | Some v => reservations d !! rpi_BackupTaskID input = Some v \/ v_state v = "reserved"
  end.

Lemma findReservation_keeps LL input now s s' columns t :
  tasks (working s) !! rpi_BackupTaskID input = Some t -> t_type t = "backup" ->
  t_protection_plan_id t = Some (rpi_ProtectionPlanID input) ->
  findReservation LL input now s = (s', inr columns) ->
  keeps_invariant (working s) (working s') /\ found_reservation input (working s) (working s').
Proof.
  intros Ht Htype Hplan H. unfold findReservation in H. unfold found_reservation.
  apply bind_inr in H as (found & s1 & H1 & H). apply attempt_lookup in H1.
  apply bind_inr in H as (found2 & s2 & H2 & H).
  assert (s' = s2 /\ found2 <> inl ErrDriver) as [-> Hnd].
  { destruct found2 as [[]|v]; try (by tx_inv); by apply ret_inr in H as [-> ->]. }
  clear H. destruct H1 as [->|[Hw1 ->]]; [by apply ret_inr in H2 as [-> ->]|].
  unfold reservation_of in *. destruct (reservations (working s) !! _) as [v|] eqn:Hv.
  { apply ret_inr in H2 as [-> ->]. rewrite Hw1, Hv. split; [reflexivity|by left]. }
  destruct (nonempty _) eqn:Hne.
  2: { apply ret_inr in H2 as [-> ->]. apply nonempty_false in Hne. by rewrite Hw1, Hv. }
  apply nonempty_true in Hne. apply bind_inr in H2 as ([] & s3 & H3 & H2).
  apply attempt_lookup in H2 as [->|[Hw3 ->]]; [done|]. rewrite Hw3. clear Hw3 Hnd.
  match type of H3 with reserveBackupQuota _ ?task _ _ = _ => set (task0 := task) in H3 end.
  rewrite <- Hw1 in Ht. rewrite <- Hw1. split.
  { by apply (reserve_keeps LL task0 now s1 s3 tt t). }
  destruct (reserve_cases LL task0 now s1 s3 tt) as [[Htame Hun]|(p & c & Hpol)]; try done.
  - pose proof (tame_reservations _ _ Htame (rpi_BackupTaskID input)) as Hrow.
    rewrite Hw1, Hv in Hrow. destruct (reservations (working s3) !! _); [done|].
    intros _ p c. rewrite (tame_policies _ _ Htame). apply Hun.
  - destruct (slots_after_reservation LL task0 now s1 p c) as [_ (v & Hv3 & Hst & _)]; try done.
    { unfold outcome. by rewrite H3. }
    unfold leaves in Hv3. rewrite H3 in Hv3. simpl in Hv3. rewrite Hv3. by right.
Qed.

(** The marshalled form of an available result. *)
Lemma marshalled_available input raw snapshot :
  rpi_Status input = "available" -> marshal_input input = Some raw ->
  unmarshal_input raw = Some snapshot -> rpi_Status snapshot = "available".
Proof.
  intros Hst Hm. rewrite (unmarshal_marshal _ _ Hm). destruct (in_int64 _); [|done].
  by intros [= <-].
Qed.

Lemma data_ready_kept input raw v :
  rpi_Status input = "available" -> marshal_input input = Some raw ->
  reservation_kept v (data_ready_row raw v).
Proof.
  intros Hst Hm. split_and!; [done|done| |].
  - right. cbn. destruct (v_state v =s "reserved") eqn:E; [right|by left].
    apply seqb_true in E. unfold active_reservation. cbn. by rewrite E.
  - intros _ raw' snapshot [= <-]. by eapply marshalled_available.
Qed.

Lemma awaitReplacement_keeps LL input now s s' pending t :
  rpi_BackupTaskID input <> "" -> rpi_Status input = "available" ->
  tasks (working s) !! rpi_BackupTaskID input = Some t -> t_type t = "backup" ->
  t_protection_plan_id t = Some (rpi_ProtectionPlanID input) ->
  awaitReplacement LL input now s = (s', inr pending) ->
  keeps_invariant (working s) (working s') /\
  (pending = false -> found_reservation input (working s) (working s')).
Proof.
  intros Hid Hav Ht Htype Hplan H. unfold awaitReplacement in H.
  rewrite (proj2 (nonempty_true _) Hid) in H.
  apply bind_inr in H as ([state replacement] & s1 & H1 & H).
  eapply findReservation_keeps in H1 as [Hk Hun]; [|done..].
  destruct (state =s "released"); [by tx_inv|].
  destruct (_ && _); [|by apply ret_inr in H as [-> ->]].
  apply bind_inr in H as (old & s2 & H2 & H). apply query_inr in H2 as (_ & Hw2 & _).
  destruct (old <>s "deleted"); [|apply ret_inr in H as [-> ->]; by rewrite Hw2].
  apply bind_inr in H as (raw & s3 & H3 & H). unfold or_fail in H3.
  destruct (marshal_input input) eqn:Hm; [|by tx_inv]. apply ret_inr in H3 as [-> ->].
  apply bind_inr in H as (n & s4 & H4 & H). apply exec_inr in H4 as [_ H4].
  apply ret_inr in H as [-> ->]. split; [|done]. etrans; [exact Hk|]. rewrite <- Hw2.
  apply tame_keeps. eapply update_reservations_tame; [|exact H4]. intros.
  by eapply data_ready_kept.
Qed.

Lemma names_await LL input now : moves names_kept (awaitReplacement LL input now).
Proof.
  unfold awaitReplacement, findReservation. tx_walk.
  - apply names_reserve.
  - match goal with H : update_reservations _ _ _ = _ |- _ => injection H as <- _ end.
    by intros ????.
Qed.

(** *** Storing the point *)

Lemma publish_reservations_lookup taskID raw d k v' :
  publish_reservations taskID raw d !! k = Some v' ->
  exists v, reservations d !! k = Some v /\
    v_protection_plan_id v' = v_protection_plan_id v /\
    v_replacement_point_id v' = v_replacement_point_id v /\
    (v' = v /\ (k = taskID -> active_reservation v = false) \/
     k = taskID /\ active_reservation v' = false /\ v_pending_point v' = Some raw).
Proof.
  unfold publish_reservations. rewrite lookup_update_where.
  destruct (reservations d !! k) as [v|]; [|done]. cbn. intros [= <-]. exists v. split; [done|].
  destruct (k =s taskID) eqn:E; cbn; [apply seqb_true in E|apply seqb_false in E].
  - destruct (active_reservation v) eqn:Ea; split_and!; try done; [right|left]; done.
  - split_and!; try done. by left.
Qed.

Lemma upsert_points id tenantID now input d d1 n :
  upsert_point id (new_point_row tenantID now input) d = Some (d1, n) -> id <> "" ->
  restore_points d !! "" = None ->
  restore_points d1 !! "" = None /\
  (forall q pid r, restore_points d !! pid = Some r -> of_plan q r = true ->
     exists r', restore_points d1 !! pid = Some r' /\ of_plan q r' = true).
Proof.
  intros Hup Hid Hnone. apply upsert_point_inv in Hup as (k & r' & -> & _ & Hnew). cbn. split.
  - rewrite lookup_insert_ne; [done|].
    destruct Hnew as [(_ & -> & _)|(old & Hold & _)]; [done|]. intros ->. congruence.
  - intros q pid r Hr Hof. destruct (decide (pid = k)) as [->|Hne].
    + exists r'. rewrite lookup_insert_eq. split; [done|].
      destruct Hnew as [(Hn & _)|(old & Hold & Hs & _)]; [congruence|].
      assert (old = r) as -> by congruence. by rewrite (standing_of_plan q r' r).
    + exists r. by rewrite lookup_insert_ne.
Qed.

(** The stored point is the only one of its name. *)
Lemma upsert_named id tenantID now input d d1 n :
  upsert_point id (new_point_row tenantID now input) d = Some (d1, n) ->
  rpi_BackupTaskID input <> "" ->
  all_named (rpi_SourceClusterID input) (rpi_VeleroBackupName input)
    (Some (rpi_BackupTaskID input)) d ->
  all_named (rpi_SourceClusterID input) (rpi_VeleroBackupName input)
    (Some (rpi_BackupTaskID input)) d1.
Proof.
  intros Hup Hid Hall k0 r0. apply upsert_point_inv in Hup as (k & r' & -> & _ & Hnew). cbn.
  intros [(<- & <-)|[_ Hr]]%lookup_insert_Some Hn; [|by eapply Hall].
  destruct Hnew as [(_ & _ & _ & ->)|(old & Hold & _ & Hno & ->)].
  - cbn. unfold nullif. by rewrite (proj2 (nonempty_true _) Hid).
  - by rewrite (Hall k old Hold Hno).
Qed.

Section publication.
Context (id tenantID : string) (now : time) (input : RestorePointInput) (d d' : db) (t : task_row).
Local Notation taskID := (rpi_BackupTaskID input).
Hypothesis (Hstored : stored id tenantID now input d d').
Hypothesis (Hchecked : checked d d').
Hypothesis (Hid : id <> "").
Hypothesis (Haf : accepted_for taskID input d t).
Hypothesis (Hfree : forall v, reservations d !! taskID = Some v -> slot_free d v).
Hypothesis (Hnone : rpi_ProtectionPlanID input <> "" -> reservations d !! taskID = None ->
  uncounted (rpi_ProtectionPlanID input) d).

Lemma publish_row_settled pid : pid <> "" -> settled (publish_row now (Some pid) t).
Proof.
  intros Hpid. unfold settled. cbn. split_and!; try done; [by destruct (t_completed_at t)|].
  unfold accepted_snapshot. cbn [t_payload publish_row]. rewrite !get_insert_ne by done.
  apply (af_snapshot _ _ _ _ Haf).
Qed.

Lemma publish_row_snapshot pid : accepted_snapshot (publish_row now pid t) = accepted_snapshot t.
Proof. unfold accepted_snapshot. cbn [t_payload publish_row]. by rewrite !get_insert_ne. Qed.

Lemma published_slots q : invariant d -> q <> "" -> ~ uncounted q d ->
  slots_used q d' <= slots_used q d.
Proof.
  intros I Hq Hcounted. pose proof (af_about _ _ _ _ Haf) as (_ & Hplan & _ & Hst).
  destruct (stored_standing _ _ _ _ _ _ Hstored) as [Hslots Hlive]; [by rewrite Hst|].
  specialize (Hlive q). destruct (st_reservations _ _ _ _ _ _ Hstored) as (raw & _ & Hrows).
  unfold slots_used. destruct (reservations d !! taskID) as [v|] eqn:Hv.
  - destruct (af_open _ _ _ _ Haf v Hv) as [Ha|Hr]; [|by destruct (Hfree v eq_refl)].
    pose proof (reserved_after_publish q _ raw _ _ v (Hslots q) Hrows Hv Ha) as Hcount.
    rewrite (reserves_slot_free q d v Ha (Hfree v eq_refl)) in Hcount.
    2: { intros Hp. destruct (inv_replaces d I _ v "" Hv Hp) as (r & Hr & _).
         pose proof (inv_points d I). congruence. }
    destruct (inv_owner d I _ v Hv) as (t0 & Ht0 & _ & Hp0 & _).
    pose proof (af_task _ _ _ _ Haf) as Ht. assert (t0 = t) as -> by congruence.
    rewrite Hplan in Hp0. injection Hp0 as Hp0. rewrite Hp0 in Hlive. lia.
  - assert (Hres : reserved_slots q d' = reserved_slots q d).
    { apply count_where_ext. intros k. rewrite Hrows. unfold publish_reservations.
      rewrite lookup_update_where. destruct (reservations d !! k) as [w|] eqn:Hk; [|done]. cbn.
      f_equal. rewrite Hslots. destruct (k =s taskID) eqn:E; [|done].
      apply seqb_true in E as ->. congruence. }
    destruct (rpi_ProtectionPlanID input =s q) eqn:E; [|lia]. apply seqb_true in E. subst q.
    by destruct Hcounted; auto.
Qed.

Lemma stored_keeps : keeps_invariant d d'.
Proof.
  intros I. pose proof (af_about _ _ _ _ Haf) as (_ & Hplan & Hcl & Hst).
  pose proof (af_task _ _ _ _ Haf) as Ht. pose proof (af_type _ _ _ _ Haf) as Htype.
  destruct (st_upsert _ _ _ _ _ _ Hstored) as (d1 & n & Hup & Hpts).
  destruct (upsert_points _ _ _ _ _ _ _ Hup Hid (inv_points d I)) as [Hempty Hkept].
  destruct (st_reservations _ _ _ _ _ _ Hstored) as (raw & Hraw & Hrows).
  destruct (st_task _ _ _ _ _ _ Hstored) as (pid & p & Hp & Hnamed & Htasks).
  specialize (Htasks t Ht). rewrite <- Hpts in Hempty.
  destruct Hchecked as (Hpolicies & Hb & Hl). specialize (Hb (inv_backups d I)).
  assert (Hown : of_plan (rpi_ProtectionPlanID input) p = true).
  { pose proof Hp as Hp1. rewrite Hpts in Hp1.
    pose proof (upsert_named _ _ _ _ _ _ _ Hup (af_id _ _ _ _ Haf) (af_named _ _ _ _ Haf)
      pid p Hp1 Hnamed) as Hp2. clear Hp1. rename Hp2 into Hp1.
    destruct (Hb pid p Hp) as (b & t0 & Hpb & Hb0 & Hpp). rewrite Hp1 in Hpb. injection Hpb as <-.
    rewrite Htasks, lookup_insert_eq in Hb0. injection Hb0 as <-. unfold of_plan.
    rewrite <- Hpp. cbn. rewrite Hplan. apply seqb_refl. }
  assert (Hset : settled (publish_row now (Some pid) t)).
  { apply publish_row_settled. intros ->. congruence. }
  split.
  - intros k v'. rewrite Hrows. intros (v & Hv & -> & _ & Hc)%publish_reservations_lookup.
    destruct (inv_owner d I k v Hv) as (t0 & Ht0 & H0 & H1 & H2). rewrite Htasks.
    destruct (decide (k = taskID)) as [->|Hne].
    + exists (publish_row now (Some pid) t). rewrite lookup_insert_eq.
      assert (t0 = t) as -> by congruence. split_and!; try done. right; right. split; [done|].
      exists pid, p. rewrite Hplan in H1. injection H1 as <-. done.
    + exists t0. rewrite lookup_insert_ne by done. destruct Hc as [[-> _]|[? _]]; [|done].
      split_and!; try done. destruct H2 as [?|[?|[? (pid0 & r0 & ? & Hr0 & Hof)]]]; [by auto..|].
      right; right. split; [done|]. destruct (Hkept _ _ _ Hr0 Hof) as (r1 & ? & ?).
      exists pid0, r1. by rewrite Hpts.
  - intros k k' v v'. rewrite Hrows. intros pid' H1 H2 Ha Ha' Hr Hr'.
    apply publish_reservations_lookup in H1 as (w & Hw & _ & Hrw & [[-> _]|(_ & ? & _)]); [|congruence].
    apply publish_reservations_lookup in H2 as (w' & Hw' & _ & Hrw' & [[-> _]|(_ & ? & _)]); [|congruence].
    by eapply (inv_exclusive d I k k' w w').
  - intros k v' q. rewrite Hrows. intros (v & Hv & -> & -> & _)%publish_reservations_lookup Hr.
    destruct (inv_replaces d I k v q Hv Hr) as (r & Hr0 & Hof). rewrite Hpts. eauto.
  - done.
  - intros k v'. rewrite Hrows.
    intros (v & Hv & _ & _ & [[-> _]|(_ & _ & Hpend)])%publish_reservations_lookup;
      [by eapply inv_pending|]. intros raw' snapshot. rewrite Hpend. intros [= <-].
    by eapply marshalled_available.
  - intros k t0 raw0 snapshot. rewrite Htasks. destruct (decide (k = taskID)) as [->|Hne].
    + rewrite lookup_insert_eq. intros [= <-]. rewrite publish_row_snapshot.
      apply (inv_snapshots d I taskID t raw0 snapshot Ht).
    + rewrite lookup_insert_ne by done. apply (inv_snapshots d I).
  - exact Hb.
  - apply Hl, (inv_latest d I).
  - intros q Hq p0 c Hp0 Hc Hpos. rewrite Hpolicies in Hp0.
    pose proof (inv_slots d I q Hq p0 c Hp0 Hc Hpos).
    assert (Hcounted : ~ uncounted q d) by (intros Hun; specialize (Hun p0 c Hp0 Hc); lia).
    pose proof (published_slots q I Hq Hcounted). lia.
Qed.

End publication.

Lemma backup_task_guard_inv d b q created :
  backup_task_guard d b q = Some created ->
  exists id t, b = Some id /\ tasks d !! id = Some t /\ t_protection_plan_id t = q.
Proof.
  unfold backup_task_guard. destruct b as [id|]; [|done].
  destruct (tasks d !! id) as [t|] eqn:E; [|done]. destruct (_ && _) eqn:Eg; [|done].
  intros _. apply andb_true_iff in Eg as [_ Eg%bool_decide_eq_true]. by exists id, t.
Qed.

Lemma point_checked d k r created :
  backup_task_guard d (r_backup_task_id r) (r_protection_plan_id r) = Some created ->
  checked d (set_restore_points d (<[k := r]> (restore_points d))).
Proof.
  intros (b & t & Hb & Ht & Hplan)%backup_task_guard_inv. split_and!; [done| |done].
  intros H pid r0. cbn. intros [(<- & <-)|[_ Hr]]%lookup_insert_Some; [|by eapply H].
  by exists b, t.
Qed.

Lemma upsert_checked id r d d' n : upsert_point id r d = Some (d', n) -> checked d d'.
Proof.
  unfold upsert_point. destruct (backup_task_guard d _ _) as [created|] eqn:Eg; [|done]. cbn.
  destruct (point_named _ _ d) as [k|]; [destruct (restore_points d !! k) as [old|]; [|done]|].
  - cbn. destruct (backup_task_guard d (coalesce _ _) _) as [created'|] eqn:Em; [|done]. cbn.
    destruct (point_references_ok _ _); [|done]. intros [= <- _]. by eapply point_checked.
  - destruct (_ || _); [done|]. intros [= <- _]. by eapply point_checked.
Qed.

Lemma update_task_checked id f d d' n :
  (forall t, t_type (f t) = t_type t /\ t_protection_plan_id (f t) = t_protection_plan_id t) ->
  update_task id f d = Some (d', n) -> checked d d'.
Proof.
  intros Hf [(_ & -> & _)|(t & Ht & -> & _)]%update_task_inv; [reflexivity|].
  assert (Hkept : tasks_kept d (set_tasks d (<[id := f t]> (tasks d)))).
  { intros k t0 Hk. cbn. destruct (decide (k = id)) as [->|Hne].
    - exists (f t). assert (t0 = t) as -> by congruence. rewrite lookup_insert_eq.
      split_and!; [done|apply Hf..].
    - exists t0. by rewrite lookup_insert_ne. }
  split_and!; [done|by apply backups_ok_kept|by apply latest_ok_kept].
Qed.

Lemma checked_store finalize id eventID tenantID now input :
  moves checked (storePoint finalize id eventID tenantID now input).
Proof.
  unfold storePoint. tx_walk.
  - by eapply upsert_checked.
  - by match goal with H : update_reservations _ _ _ = _ |- _ => injection H as <- _ end.
  - eapply update_task_checked; [|eassumption]. done.
  - by eapply tame_checked, insert_event_tame.
Qed.

Lemma publishPoint_keeps LL id eventID now input s s' published :
  id <> "" -> available_report input ->
  publishPoint LL true id eventID now input s = (s', inr published) ->
  keeps_invariant (working s) (working s').
Proof.
  intros Hid Hav H I.
  apply publishPoint_steps in H as (tenantID & s0 & s1 & accepted & _ & Hw0 & Hacc & H).
  rewrite <- Hw0 in I. apply accept_keeps in Hacc as [I1 Hacc];
    [|by apply available_normalize|done].
  destruct accepted as [pid|input1]; [by destruct H as [_ ->]|].
  destruct Hacc as (t & Haf). destruct H as (input2 & s2 & s3 & pending & Hfill & Hw2 & Hwait & H).
  apply fillSizeMetrics_subject in Hfill as (Hs1 & Hs2 & Hs3 & Hs4 & Hs5).
  assert (Haf2 : accepted_for (rpi_BackupTaskID input2) input2 (working s2) t).
  { rewrite Hw2, Hs1. destruct Haf as [? ? ? (Ha & ? & ? & ?) ? ? ?]. rewrite Ha.
    split; try done; [|by rewrite Hs2, Hs4]. unfold about. rewrite Hs1, Hs2, Hs3, Hs5. done. }
  rewrite <- Hw2 in I1. pose proof (af_about _ _ _ _ Haf2) as (_ & Hplan & _).
  pose proof Hwait as Hkeep.
  eapply awaitReplacement_keeps in Hkeep as [Hk Hun];
    [|by eapply af_id|apply (af_about _ _ _ _ Haf2)|by eapply af_task|by eapply af_type|done].
  specialize (Hk I1). destruct pending; [by destruct H as [_ ->]|]. destruct H as [Hstore _].
  pose proof (names_await LL input2 now s2) as Hnames. rewrite Hwait in Hnames. cbn in Hnames.
  pose proof (checked_store true id eventID tenantID now input2 s3) as Hpol.
  rewrite Hstore in Hpol. apply storePoint_inr in Hstore; [|by eapply af_id].
  apply awaitReplacement_inr in Hwait as (Hts & _ & Hsame & Hfree).
  eapply (stored_keeps id tenantID now input2 (working s3) (working s') t); try done.
  - destruct Haf2 as [? Htask ? ? ? Hopen ?]. split; try done; [by rewrite Hts| |by apply Hnames].
    intros v Hv. specialize (Hun eq_refl). unfold found_reservation in Hun. rewrite Hv in Hun.
    destruct Hun as [Hun|Hun]; [by apply Hopen|left]. unfold active_reservation. by rewrite Hun.
  - intros v Hv. apply Hfree; [by eapply af_id|done].
  - intros Hp Hnone. specialize (Hun eq_refl). unfold found_reservation in Hun.
    rewrite Hnone in Hun. auto.
Qed.

Lemma PublishBackupResult_keeps LL id eventID now input fuse d :
  id <> "" -> available_report input ->
  keeps_invariant d (fst (run (PublishBackupResult LL id eventID now input) fuse d)).
Proof.
  intros Hid Hav. destruct (run _ _ _) as [d' r] eqn:E. unfold PublishBackupResult in E.
  apply createRestorePoint_run in E as [[-> _]|(s1 & s2 & published & <- & H & -> & _)]; [done|].
  by eapply publishPoint_keeps.
Qed.

End bounded.

(** ** The system *)

Section system.
Context (LoadLocation : string -> option location).

(** One call of the store, with a statement failing anywhere or nowhere; its
    result does not matter. *)
Inductive operation : db -> db -> Prop :=
| op_create id now input fuse d :
    plain_input input -> operation d (fst (run (CreateTask LoadLocation id now input) fuse d))
| op_report now input fuse d :
    plain_report input -> operation d (fst (run (UpdateTaskStatus now input) fuse d))
| op_claim locked now taskType executorID fuse d :
    operation d (fst (run (ClaimQueuedTask locked now taskType executorID) fuse d))
| op_claim_by_id now taskID taskType executorID fuse d :
    operation d (fst (run (ClaimQueuedTaskByID now taskID taskType executorID) fuse d))
| op_publish id eventID now input fuse d :
    id <> "" -> available_report input ->
    operation d (fst (run (PublishBackupResult LoadLocation id eventID now input) fuse d))
| op_pending fuse d : operation d (fst (run PendingRestorePointReplacements fuse d))
| op_replace taskID cleanupID fuse d :
    operation d (fst (run (BeginRestorePointReplacement taskID cleanupID) fuse d))
| op_retain id tenantID retain fuse d :
    operation d (fst (run (SetRestorePointRetention id tenantID retain) fuse d))
| op_claim_deletion ids fuse d :
    operation d (fst (run (ClaimRestorePointDeletion ids) fuse d))
| op_point_state input fuse d :
    operation d (fst (run (UpdateRestorePointState input) fuse d))
| op_point_metrics id metrics fuse d :
    operation d (fst (run (UpdateRestorePointSizeMetrics id metrics) fuse d))
| op_cleanup now planID fuse d :
    operation d (fst (run (BeginProtectionPlanCleanup now planID) fuse d)).

Lemma operation_keeps bound d d' : operation d d' -> keeps_invariant bound d d'.
Proof.
  intros [].
  - by apply CreateTask_keeps.
  - by apply tame_keeps, run_stable, tame_UpdateTaskStatus; [apply _|].
  - apply tame_keeps, run_stable, tame_ClaimQueuedTask. apply _.
  - apply tame_keeps, run_stable, tame_ClaimQueuedTaskByID. apply _.
  - by apply PublishBackupResult_keeps.
  - apply tame_keeps, run_stable, tame_PendingRestorePointReplacements. apply _.
  - apply tame_keeps, run_stable, tame_BeginRestorePointReplacement. apply _.
  - apply tame_keeps, run_stable, tame_SetRestorePointRetention. apply _.
  - apply tame_keeps, run_stable, tame_ClaimRestorePointDeletion. apply _.
  - by apply UpdateRestorePointState_keeps.
  - apply tame_keeps, run_stable, tame_UpdateRestorePointSizeMetrics. apply _.
  - apply tame_keeps, run_stable, tame_BeginProtectionPlanCleanup. apply _.
Qed.

(** Each plan may keep what it holds. *)
Definition held (d : db) (q : string) : Z := slots_used q d.

Lemma slots_used_nonneg q d : 0 <= slots_used q d.
Proof.
  unfold slots_used. pose proof (count_where_nonneg (fun _ => live_point q) (restore_points d)).
  pose proof (count_where_nonneg (fun _ => reserves_slot q d) (reservations d)).
  unfold live_points, reserved_slots. lia.
Qed.

Lemma rebase bound d : invariant bound d -> invariant (held d) d.
Proof. intros []. split; try done. intros q _ p c _ _ _. unfold held. lia. Qed.

End system.
