(* ===== verification/LifeCycleRefinement.v ===== *)
(** What a reservation promises, as a small machine, and the proof that every
    operation of the store refines it: backend/internal/store/
    restore_point_quota.go, postgres_tasks.go and postgres_restore_points.go
    against the states of the table restore_point_reservations. *)

From S2P Require Import Prelude Calendar Value Types Retention Session Database.
From S2P Require Import Quota Tasks RestorePoints Plans Policies Lifecycle.

(** ** The machine *)

(** The state of a reservation, or none. *)
Inductive move : option string -> option string -> Prop :=
| reserve : move None (Some "reserved")
| store_result : move (Some "reserved") (Some "data_ready")
| start_deletion : move (Some "data_ready") (Some "deleting")
| publish st : st ∈ ["reserved"; "data_ready"; "deleting"] -> move (Some st) (Some "published")
| release : move (Some "reserved") (Some "released").

Definition path := rtc move.

Definition final (st : string) : Prop := st = "published" \/ st = "released".

Lemma final_path st o : final st -> path (Some st) o -> o = Some st.
Proof.
  intros Hf H. inversion H as [|? y ? Hm]; [done|]. exfalso. destruct Hf as [->| ->];
    inversion Hm; subst; set_solver.
Qed.

(** ** Reservations before and after *)

(** A reservation that is there keeps its plan, the point it replaces and the
    result it holds, and its state moves along the machine. *)
Definition advances (v v' : reservation_row) : Prop :=
  path (Some (v_state v)) (Some (v_state v')) /\
  v_protection_plan_id v' = v_protection_plan_id v /\
  v_replacement_point_id v' = v_replacement_point_id v /\
  (v_pending_point v <> None -> v_pending_point v' <> None).

#[export] Instance advances_preorder : PreOrder advances.
Proof.
  unfold advances, path. split; [done|]. intros x y z (?&?&?&?) (?&?&?&?).
  split_and!; [by etrans|congruence|congruence|auto].
Qed.

Definition appears (v : reservation_row) : Prop := path None (Some (v_state v)).

Lemma appears_advances v v' : appears v -> advances v v' -> appears v'.
Proof. unfold appears, advances, path. intros H [H' _]. by etrans. Qed.

Definition reservations_refine (d d' : db) : Prop :=
  forall id, match reservations d !! id, reservations d' !! id with
             | Some v, Some v' => advances v v'
             | None, Some v' => appears v'
             | Some _, None => False
             | None, None => True
             end.

#[export] Instance reservations_refine_preorder : PreOrder reservations_refine.
Proof.
  split; unfold reservations_refine.
  - intros d id. by destruct (reservations d !! id).
  - intros x y z Hxy Hyz id. specialize (Hxy id). specialize (Hyz id).
    destruct (reservations x !! id), (reservations y !! id), (reservations z !! id); try done.
    + by etrans.
    + by eapply appears_advances.
Qed.

(** *** Which application belongs to which plan *)

Definition identity (p : plan_row) : string * string := (p_tenant_id p, p_source_cluster_id p).

(** The plans, their tenants, clusters and applications stay as they are. *)
Record same_membership (d d' : db) : Prop := {
  sm_apps : plan_apps d' = plan_apps d;
  sm_plans : identity <$> protection_plans d' = identity <$> protection_plans d
}.

#[export] Instance same_membership_preorder : PreOrder same_membership.
Proof. split; [done|]. intros x y z [] []. split; congruence. Qed.

(** What the work of the store does to both. *)
Definition refines (d d' : db) : Prop := reservations_refine d d' /\ same_membership d d'.

#[export] Instance refines_preorder : PreOrder refines.
Proof.
  split; [by intros d; split|]. intros x y z [] []. split; by etrans.
Qed.

(** ** Statements *)

Lemma same_reservations d d' :
  reservations d' = reservations d -> same_membership d d' -> refines d d'.
Proof. intros H Hm. split; [|done]. intros id. rewrite H. by destruct (reservations d !! id). Qed.

Lemma update_reservations_refines p f d d' n :
  (forall k v, reservations d !! k = Some v -> p k v = true -> advances v (f k v)) ->
  update_reservations p f d = Some (d', n) -> refines d d'.
Proof.
  intros H. unfold update_reservations. intros [= <- _]. split; [|done]. intros k.
  specialize (H k). cbn. rewrite map_lookup_imap.
  destruct (reservations d !! k) as [v|]; [|done]. cbn. destruct (p k v) eqn:E; [by apply H|done].
Qed.

Lemma update_plan_identity p f (m : gmap string plan_row) :
  (forall q pp, identity (f q pp) = identity pp) ->
  identity <$> fst (update_where p f m) = identity <$> m.
Proof.
  intros H. apply map_eq. intros q. rewrite !lookup_fmap, lookup_update_where.
  destruct (m !! q) as [pp|]; [|done]. cbn. destruct (p q pp); [|done]. by rewrite H.
Qed.

Lemma insert_plan_identity q p p' (m : gmap string plan_row) :
  m !! q = Some p -> identity p' = identity p -> identity <$> <[q := p']> m = identity <$> m.
Proof.
  intros Hq Hi. rewrite fmap_insert, Hi. apply insert_id. by rewrite lookup_fmap, Hq.
Qed.

Lemma update_points_refines p f d d' n : update_points p f d = Some (d', n) -> refines d d'.
Proof. intros [= <- _]. by apply same_reservations. Qed.
Lemma update_plans_refines p f d d' n :
  (forall q pp, identity (f q pp) = identity pp) ->
  update_plans p f d = Some (d', n) -> refines d d'.
Proof.
  intros H [= <- _]. apply same_reservations; [done|]. split; [done|].
  by apply (update_plan_identity p f).
Qed.
Lemma update_status_refines p status now d d' n :
  update_plans p (fun _ pp => plan_with_status pp status now) d = Some (d', n) -> refines d d'.
Proof. by apply update_plans_refines. Qed.
Lemma update_schedules_refines p f d d' n : update_schedules p f d = Some (d', n) -> refines d d'.
Proof. intros [= <- _]. by apply same_reservations. Qed.
Lemma update_task_refines id f d d' n : update_task id f d = Some (d', n) -> refines d d'.
Proof.
  intros [(_ & -> & _)|(r & _ & -> & _)]%update_task_inv; by apply same_reservations.
Qed.
Lemma update_task_if_refines id p f d d' n : update_task_if id p f d = Some (d', n) -> refines d d'.
Proof.
  unfold update_task_if. destruct (tasks d !! id) as [t|]; [|by intros [= <- _]].
  destruct (p t); [apply update_task_refines|by intros [= <- _]].
Qed.
Lemma insert_task_refines id t d d' n : insert_task id t d = Some (d', n) -> refines d d'.
Proof. intros [_ ->]%insert_task_inv. by apply same_reservations. Qed.
Lemma insert_event_refines id e d d' n : insert_event id e d = Some (d', n) -> refines d d'.
Proof.
  unfold insert_event. destruct (_ || _); [done|]. intros [= <- _]. by apply same_reservations.
Qed.
Lemma set_latest_task_refines planID taskID kind d d' n :
  set_latest_task planID taskID kind d = Some (d', n) -> refines d d'.
Proof.
  unfold set_latest_task. destruct (protection_plans d !! planID) as [pp|] eqn:E;
    [|by intros [= <- _]].
  destruct (latest_tasks_guard _ _ _); [|done]. intros [= <- _].
  apply same_reservations; [done|]. split; [done|]. by eapply insert_plan_identity.
Qed.
Lemma upsert_point_refines id r d d' n : upsert_point id r d = Some (d', n) -> refines d d'.
Proof. intros (k & r' & -> & _)%upsert_point_inv. by apply same_reservations. Qed.
Lemma set_point_state_refines id status patch d d' o :
  set_point_state id status patch d = Some (d', o) -> refines d d'.
Proof.
  unfold set_point_state. destruct (restore_points d !! id); intros [= <- _];
    by apply same_reservations.
Qed.

Lemma insert_reservation_refines id task now replacement d d' n :
  insert_reservation id (new_reservation task now replacement) d = Some (d', n) -> refines d d'.
Proof.
  intros (-> & Hnone & _)%insert_reservation_inv. split; [|done]. intros k. cbn. destruct (decide (k = id)) as [->|Hne].
  - rewrite Hnone, lookup_insert_eq. apply rtc_once, reserve.
  - rewrite lookup_insert_ne by done. by destruct (reservations d !! k).
Qed.

Lemma released_advances v :
  v_state v = "reserved" -> advances v (reservation_with_state v "released").
Proof. intros H. split_and!; try done. rewrite H. apply rtc_once, release. Qed.

Lemma deletion_path st :
  one_of st ["data_ready"; "deleting"] = true -> path (Some st) (Some "deleting").
Proof.
  intros H%one_of_true. assert (st = "data_ready" \/ st = "deleting") as [->| ->] by set_solver.
  - apply rtc_once, start_deletion.
  - reflexivity.
Qed.

Lemma data_ready_advances raw v : advances v (data_ready_row raw v).
Proof.
  split_and!; try done. cbn. destruct (v_state v =s "reserved") eqn:E; [|reflexivity].
  apply seqb_true in E. rewrite E. apply rtc_once, store_result.
Qed.

Lemma published_advances raw v :
  active_reservation v = true -> advances v (published_row raw v).
Proof.
  intros H%one_of_true. split_and!; try done. cbn. by apply rtc_once, publish.
Qed.

Lemma release_failed_refines planID d d' n : release_failed planID d = Some (d', n) -> refines d d'.
Proof.
  unfold release_failed, both. destruct (update_points _ _ d) as [[d1 n1]|] eqn:E; [|done].
  intros H. etrans; [by eapply update_points_refines|]. eapply update_reservations_refines; [|exact H].
  intros k v _ Hp. apply released_advances. unfold releasable in Hp.
  rewrite !andb_true_iff in Hp. destruct Hp as [[_ Hp] _]. by apply seqb_true in Hp.
Qed.

#[export] Hint Resolve update_points_refines update_status_refines update_schedules_refines
  update_task_refines update_task_if_refines insert_task_refines insert_event_refines
  set_latest_task_refines upsert_point_refines set_point_state_refines
  insert_reservation_refines release_failed_refines : tx.

(** ** Operations *)

(** A computation that publishes nothing, inside its transaction. *)
Lemma stable_inside {A} (m : tx db A) : quiet m -> moves refines m -> stable refines m.
Proof.
  intros Hq Hm d s [Hc Hw]. split; [by rewrite Hq|]. etrans; [exact Hw|apply Hm].
Qed.

Ltac refine_statements :=
  tx_walk;
  try lazymatch goal with
  | |- stable _ (exec _) => apply stable_exec; [apply _|]; intros ? ? ?; eauto with tx
  end.

Lemma refines_lock_replaced task target owner : moves refines (lock_replaced task target owner).
Proof.
  unfold lock_replaced. apply moves_query_bind; [apply _|]. intros state s Hstate.
  destruct (reservations (working s) !! owner) as [v|] eqn:Hv; [|done]. simpl in Hstate.
  destruct (sql_eq _ _); [|done]. injection Hstate as <-.
  destruct (_ || _) eqn:Hst; [done|]. apply orb_false_iff in Hst as [_ Hst].
  apply negb_false_iff in Hst. unfold mbind, tx_bind, exec.
  destruct (burn s) as [s1|] eqn:E; [|done]. apply burn_Some in E as [_ Hw]. rewrite <- Hw in *.
  destruct (fk _ _); [|done]. destruct (update_reservations _ _ _) as [[d' n]|] eqn:Hu; [|done].
  cbn. eapply update_reservations_refines; [|exact Hu].
  intros k w Hk Hkey%seqb_true. subst k. assert (w = v) as -> by congruence.
  split_and!; try done. by apply deletion_path.
Qed.
#[export] Hint Resolve refines_lock_replaced : tx.

Lemma refines_prepare LL task now : moves refines (prepareRestorePointDeletion LL task now).
Proof.
  unfold prepareRestorePointDeletion, prepare_target, quotaPoints, selections_of. tx_walk.
Qed.

Lemma refines_reserve LL task now : moves refines (reserveBackupQuota LL task now).
Proof.
  unfold reserveBackupQuota, releaseFailedBackupReservations_tx, quotaPoints, selections_of,
    pick_replacement, choose_replacement, insert_slot. tx_walk.
Qed.
#[export] Hint Resolve refines_prepare refines_reserve : tx.

Lemma refines_CreateTask LL id now input : stable refines (CreateTask LL id now input).
Proof.
  unfold CreateTask. apply stable_bind; [tx_walk|intros _].
  apply stable_bind.
  { apply stable_inside; [tx_walk|]. unfold admitTask, resolveTaskTenant, lockRecoveryPoint,
      validateTaskReferences. tx_walk. }
  intros task. apply stable_bind; [refine_statements|intros _]. apply stable_bind.
  { apply stable_inside; [tx_walk|]. unfold attachToPlan, reserveOrFail, publishLatestPointer.
    tx_walk. }
  intros task'. apply stable_bind; [apply stable_inside; tx_walk|]. intros _. tx_walk.
Qed.

Lemma refines_UpdateTaskStatus now input : stable refines (UpdateTaskStatus now input).
Proof.
  unfold UpdateTaskStatus, quotaPlanLock, validateTenantReference, getTask. refine_statements.
  apply update_reservations_refines. intros k v _ Hp. apply released_advances.
  rewrite !andb_true_iff in Hp. destruct Hp as [[_ Hp] _]. by apply seqb_true in Hp.
Qed.

Lemma refines_storePoint id eventID tenantID now input :
  moves refines (storePoint true id eventID tenantID now input).
Proof.
  unfold storePoint. tx_walk. eapply update_reservations_refines; [|done].
  intros k v _ [_ Hp]%andb_true_iff. by apply published_advances.
Qed.

Lemma refines_awaitReplacement LL input now : moves refines (awaitReplacement LL input now).
Proof.
  unfold awaitReplacement, findReservation. tx_walk.
  eapply update_reservations_refines; [|done]. intros. apply data_ready_advances.
Qed.
#[export] Hint Resolve refines_storePoint refines_awaitReplacement : tx.

Lemma refines_publishPoint LL id eventID now input :
  moves refines (publishPoint LL true id eventID now input).
Proof.
  unfold publishPoint, clusterTenant, acceptBackupResult, fillSizeMetrics,
    validateRestorePointReferences. tx_walk.
Qed.

Lemma refines_PublishBackupResult LL id eventID now input :
  stable refines (PublishBackupResult LL id eventID now input).
Proof.
  unfold PublishBackupResult, createRestorePoint, ListRestorePoints, GetRestorePoint.
  apply stable_bind; [tx_walk|intros _]. apply stable_bind.
  { apply stable_inside; [tx_walk|]. apply refines_publishPoint. }
  intros published. tx_walk.
Qed.

Lemma operation_refines LL d d' : operation LL d d' -> refines d d'.
Proof.
  intros []; apply run_stable; try apply _.
  - apply refines_CreateTask.
  - apply refines_UpdateTaskStatus.
  - unfold ClaimQueuedTask, getTask. refine_statements.
  - unfold ClaimQueuedTaskByID, getTask. refine_statements.
  - apply refines_PublishBackupResult.
  - unfold PendingRestorePointReplacements, releaseFailedBackupReservations,
      releaseFailedBackupReservations_tx, quotaPlanLock, or_fail. refine_statements.
  - unfold BeginRestorePointReplacement. refine_statements. destruct (_ && _); [done|].
    intros H. eapply update_reservations_refines; [|exact H]. intros k v _ [_ Hp]%andb_true_iff.
    split_and!; try done. by apply deletion_path.
  - unfold SetRestorePointRetention, quotaPlanLock, pointBusy. refine_statements.
  - unfold ClaimRestorePointDeletion, claim_point, quotaPlanLock, pointBusy. refine_statements.
  - unfold UpdateRestorePointState, quotaPlanLock. refine_statements.
  - unfold UpdateRestorePointSizeMetrics. refine_statements.
  - unfold BeginProtectionPlanCleanup, quotaPlanLock. refine_statements.
Qed.

(** ** Plans and policies, but for deleting plans *)

Lemma schedules_refine d m : refines d (set_schedules d m).
Proof. by apply same_reservations. Qed.

Lemma policies_refine d m : refines d (set_policies d m).
Proof. by apply same_reservations. Qed.

Lemma refines_UpdateProtectionPlanStatus now id status :
  stable refines (UpdateProtectionPlanStatus now id status).
Proof. unfold UpdateProtectionPlanStatus, GetProtectionPlan. refine_statements. Qed.

Lemma refines_UpdateProtectionPlanStorageSize now id size :
  stable refines (UpdateProtectionPlanStorageSize now id size).
Proof.
  unfold UpdateProtectionPlanStorageSize, GetProtectionPlan. refine_statements.
  by apply update_plans_refines.
Qed.

Lemma refines_ClearProtectionPlanTargetCluster now id target :
  stable refines (ClearProtectionPlanTargetCluster now id target).
Proof.
  unfold ClearProtectionPlanTargetCluster, GetProtectionPlan. refine_statements.
  by apply update_plans_refines.
Qed.

Lemma refines_UpsertProtectionPlanSchedule now input :
  stable refines (UpsertProtectionPlanSchedule now input).
Proof.
  unfold UpsertProtectionPlanSchedule, upsert_schedule. refine_statements.
  destruct (fk _ _); [|done]. intros [= <- _]. apply schedules_refine.
Qed.

Lemma refines_MarkProtectionPlanScheduleFired now input :
  stable refines (MarkProtectionPlanScheduleFired now input).
Proof.
  unfold MarkProtectionPlanScheduleFired. refine_statements.
  destruct (schedules _ !! _); intros [= <- _]; [apply schedules_refine|reflexivity].
Qed.

Lemma refines_DisableProtectionPlanSchedule now id :
  stable refines (DisableProtectionPlanSchedule now id).
Proof. unfold DisableProtectionPlanSchedule. refine_statements. Qed.

Lemma refines_CreatePolicy LL newID now input : stable refines (CreatePolicy LL newID now input).
Proof.
  unfold CreatePolicy. refine_statements. unfold insert_policy. destruct (_ || _); [done|].
  intros [= <- _]. apply policies_refine.
Qed.

Lemma refines_UpdatePolicy LL now id input : stable refines (UpdatePolicy LL now id input).
Proof.
  unfold UpdatePolicy, checkOccupied, ListPolicies. refine_statements. unfold update_policy.
  destruct (policies _ !! id); [|by intros [= <- _]]. destruct (_ || _); [done|].
  intros [= <- _]. apply policies_refine.
Qed.

Lemma refines_DeletePolicy id : stable refines (DeletePolicy id).
Proof.
  unfold DeletePolicy. refine_statements. unfold delete_policy.
  destruct (policies _ !! id) as [c|]; [|by intros [= <- _]].
  destruct (_ =s _); [|by intros [= <- _]]. destruct (exists_where _ _); [done|].
  intros [= <- _]. apply policies_refine.
Qed.
