(* ===== verification/PlanLifecycle.v ===== *)
(** Plans and policies in the life of the store: the operations of
    backend/internal/store/postgres_protection.go and postgres_policies.go keep
    the invariant of [Lifecycle]. *)

From S2P Require Import Prelude Calendar Value Types Retention Session Database.
From S2P Require Import Quota Tasks RestorePoints Plans Policies Lifecycle.

(** ** Operations that touch no work *)

Lemma update_plan_tame d id p p' :
  protection_plans d !! id = Some p -> p_policy_id p' = p_policy_id p ->
  pointers p' = pointers p ->
  tame d (set_protection_plans d (<[id := p']> (protection_plans d))).
Proof.
  intros Hp Hpol Hptr. apply tame_plans.
  - intros q. destruct (decide (q = id)) as [->|Hne];
      [by rewrite lookup_insert_eq, Hp; cbn; rewrite Hpol|by rewrite lookup_insert_ne].
  - apply latest_kept; [reflexivity|]. intros q. cbn.
    destruct (decide (q = id)) as [->|Hne];
      [by rewrite lookup_insert_eq, Hp; cbn; rewrite Hptr|by rewrite lookup_insert_ne].
Qed.

Lemma set_schedules_tame d m : tame d (set_schedules d m).
Proof. split; try reflexivity. by apply latest_kept. Qed.

Lemma tame_GetProtectionPlan id : stable tame (GetProtectionPlan id).
Proof. unfold GetProtectionPlan. tx_walk. Qed.
#[export] Hint Resolve tame_GetProtectionPlan : tx.

Lemma tame_UpdateProtectionPlanStatus now id status :
  stable tame (UpdateProtectionPlanStatus now id status).
Proof.
  unfold UpdateProtectionPlanStatus. tx_walk. tame_statement. by apply update_plans_tame_when.
Qed.

Lemma tame_UpdateProtectionPlanStorageSize now id size :
  stable tame (UpdateProtectionPlanStorageSize now id size).
Proof.
  unfold UpdateProtectionPlanStorageSize. tx_walk. tame_statement.
  by apply update_plans_tame_when.
Qed.

Lemma save_capacity_tame now planID clusterID tenantID result requestedAt d d' n :
  save_capacity now planID clusterID tenantID result requestedAt d = Some (d', n) -> tame d d'.
Proof.
  unfold save_capacity. destruct (protection_plans _ !! _) as [p|] eqn:Hp; [|by intros [= <- _]].
  destruct (_ && _); [|by intros [= <- _]].
  destruct (requested_at _) as [t|]; [|done]. cbn [mbind option_bind].
  destruct (t <? _); [|by intros [= <- _]]. intros [= <- _]. by eapply update_plan_tame.
Qed.

Lemma tame_ClearProtectionPlanTargetCluster now id target :
  stable tame (ClearProtectionPlanTargetCluster now id target).
Proof.
  unfold ClearProtectionPlanTargetCluster. tx_walk. tame_statement.
  by apply update_plans_tame_when.
Qed.

Lemma tame_UpsertProtectionPlanSchedule now input :
  stable tame (UpsertProtectionPlanSchedule now input).
Proof.
  unfold UpsertProtectionPlanSchedule. tx_walk. tame_statement. unfold upsert_schedule.
  destruct (fk _ _); [|done]. intros [= <- _]. apply set_schedules_tame.
Qed.

Lemma tame_MarkProtectionPlanScheduleFired now input :
  stable tame (MarkProtectionPlanScheduleFired now input).
Proof.
  unfold MarkProtectionPlanScheduleFired. tx_walk. tame_statement.
  destruct (schedules _ !! _); intros [= <- _]; [apply set_schedules_tame|reflexivity].
Qed.

Lemma tame_DisableProtectionPlanSchedule now id :
  stable tame (DisableProtectionPlanSchedule now id).
Proof.
  unfold DisableProtectionPlanSchedule. tx_walk. tame_statement. apply update_schedules_tame.
Qed.

(** ** Saving a plan *)

Lemma within_same bound q d d' :
  same_work d d' -> retention_policy_row q d' = retention_policy_row q d ->
  within_count bound q d -> within_count bound q d'.
Proof.
  intros Hw Hq H p c Hp. rewrite Hq in Hp. rewrite (slots_used_work q d d' Hw). by apply H.
Qed.

(** A step that leaves the work alone keeps the invariant if it keeps the
    pointers valid and the plans within their counts. *)
Lemma same_work_keeps bound d d' :
  same_work d d' -> (latest_ok d -> latest_ok d') ->
  (invariant bound d -> forall q, q <> "" -> within_count bound q d') ->
  keeps_invariant bound d d'.
Proof.
  intros (Ht & Hp & Hv) Hl Hw I. pose proof (Hw I) as Hslots. destruct I.
  split; unfold backups_ok, names_own; rewrite ?Ht, ?Hp, ?Hv; auto.
Qed.

(** Only the policy of plan [id] may change, to [target]. *)
Record rebinds (id : string) (target : option string) (d d' : db) : Prop := {
  rb_work : same_work d d';
  rb_policies : policies d' = policies d;
  rb_latest : latest_ok d -> latest_ok d';
  rb_plans : forall q, p_policy_id <$> protection_plans d' !! q =
      p_policy_id <$> protection_plans d !! q \/
    q = id /\ p_policy_id <$> protection_plans d' !! q = Some target
}.

#[export] Instance rebinds_preorder id target : PreOrder (rebinds id target).
Proof.
  split.
  - intros d. split; try done. intros q. by left.
  - intros x y z [H1 H2 H3 H4] [G1 G2 G3 G4]. split; [by etrans|congruence|auto|].
    intros q. destruct (G4 q) as [->|?]; [apply H4|by right].
Qed.

Lemma rebinds_tame id target d d' :
  same_work d d' -> policies d' = policies d -> protection_plans d' = protection_plans d ->
  tasks d' = tasks d -> rebinds id target d d'.
Proof.
  intros Hw Hp Hpl Ht. split; try done.
  - unfold latest_ok, latest_tasks_guard, latest_task_ok. by rewrite Hpl, Ht.
  - intros q. rewrite Hpl. by left.
Qed.

Lemma rebinds_insert id p' d :
  pointers p' = match protection_plans d !! id with
                | Some p => pointers p
                | None => (None, None)
                end ->
  rebinds id (p_policy_id p') d (set_protection_plans d (<[id := p']> (protection_plans d))).
Proof.
  intros Hptr. split; try done.
  - intros H q pp. cbn. intros [(<- & <-)|[_ Hq]]%lookup_insert_Some; [|by apply (H q)].
    unfold latest_tasks_guard. unfold pointers in Hptr.
    destruct (protection_plans d !! id) as [p|] eqn:E; injection Hptr as -> ->; [|done].
    by apply (H id p).
  - intros q. cbn. destruct (decide (q = id)) as [->|Hne];
      [right; by rewrite lookup_insert_eq|left; by rewrite lookup_insert_ne].
Qed.

Lemma stable_checkExistingPlan id target i input :
  stable (rebinds id target) (checkExistingPlan i input).
Proof. unfold checkExistingPlan. tx_walk. Qed.

Lemma stable_checkApplications id target i input :
  stable (rebinds id target) (checkApplications i input).
Proof. unfold checkApplications. tx_walk. Qed.
#[export] Hint Resolve stable_checkExistingPlan stable_checkApplications : tx.

Lemma rebinds_CreateProtectionPlan newID now input :
  stable (rebinds newID (nullif (plani_PolicyID input))) (CreateProtectionPlan newID now input).
Proof.
  unfold CreateProtectionPlan, saveProtectionPlan. tx_walk.
  all: apply stable_exec; [apply _|]; intros d d' n H.
  - unfold insert_plan in H. destruct (_ || _) eqn:E; [done|]. injection H as <- _.
    repeat (apply orb_false_iff in E as [E _]).
    apply bool_decide_eq_false, eq_None_not_Some in E.
    change (protection_plans d !! newID = None) in E.
    match goal with |- rebinds _ _ _ (set_protection_plans _ (<[_ := ?p']> _)) =>
      apply (rebinds_insert newID p' d) end. by rewrite E.
  - unfold insert_plan_app in H. destruct (_ && _); [|done].
    destruct (plan_apps _ !! _); injection H as <- _; [reflexivity|by apply rebinds_tame].
Qed.

Lemma rebinds_UpdateProtectionPlan newID now id input :
  id <> "" ->
  stable (rebinds id (nullif (plani_PolicyID input))) (UpdateProtectionPlan newID now id input).
Proof.
  intros Hid%nonempty_true. unfold UpdateProtectionPlan, saveProtectionPlan. rewrite Hid. tx_walk.
  all: apply stable_exec; [apply _|]; intros d d' n H.
  - unfold update_plan_spec in H.
    destruct (protection_plans d !! id) as [p|] eqn:E; [|injection H as <- _; reflexivity].
    destruct (scope_ok _); [|done]. injection H as <- _.
    match goal with |- rebinds _ _ _ (set_protection_plans _ (<[_ := ?p']> _)) =>
      apply (rebinds_insert id p' d) end. by rewrite E.
  - injection H as <- _. by apply rebinds_tame.
Qed.

(** Every plan but [id] keeps its policy. *)
Lemma rebinds_policy id target d d' q :
  rebinds id target d d' ->
  p_policy_id <$> protection_plans d' !! q = p_policy_id <$> protection_plans d !! q ->
  retention_policy_row q d' = retention_policy_row q d.
Proof.
  intros [_ Hp _ _] Hq. unfold retention_policy_row. rewrite Hp.
  destruct (protection_plans d' !! q), (protection_plans d !! q); cbn in *; try done.
  by injection Hq as ->.
Qed.

(** No restore point, reservation or application names the plan. *)
Definition fresh_plan (id : string) (d : db) : Prop :=
  (forall k r, restore_points d !! k = Some r -> of_plan id r = false) /\
  (forall k v, reservations d !! k = Some v -> v_protection_plan_id v <> id) /\
  (forall app, plan_apps d !! (id, app) = None).

Lemma fresh_plan_slots id d : fresh_plan id d -> slots_used id d = 0.
Proof.
  intros (Hp & Hv & _). unfold slots_used, live_points, reserved_slots.
  rewrite (count_where_none _ (restore_points d)), (count_where_none _ (reservations d)); [done| |].
  - intros k v Hk. unfold reserves_slot. by rewrite (proj2 (seqb_false _ _) (Hv k v Hk)).
  - intros k r Hk. unfold live_point. by rewrite (Hp k r Hk).
Qed.

Lemma rebinds_fresh_keeps bound id target d d' :
  (forall q, 0 <= bound q) -> fresh_plan id d -> rebinds id target d d' ->
  keeps_invariant bound d d'.
Proof.
  intros Hb Hf H. apply same_work_keeps; [apply H..|]. intros I q Hq.
  destruct (rb_plans _ _ _ _ H q) as [Hsame|[-> _]].
  - eapply within_same; [apply H|by eapply rebinds_policy|by apply (inv_slots _ _ I)].
  - intros p c _ _ Hpos. rewrite (slots_used_work id d d') by apply H.
    rewrite fresh_plan_slots by done. lia.
Qed.

(** The edit names the policy the plan has. *)
Definition same_policy (id : string) (target : option string) (d : db) : Prop :=
  forall p, protection_plans d !! id = Some p -> p_policy_id p = target.

Lemma rebinds_same_keeps bound id target d d' :
  same_policy id target d -> rebinds id target d d' ->
  (protection_plans d !! id = None -> protection_plans d' !! id = None) ->
  keeps_invariant bound d d'.
Proof.
  intros Hs H Hno. apply same_work_keeps; [apply H..|]. intros I q Hq.
  eapply within_same; [apply H| |by apply (inv_slots _ _ I)]. eapply rebinds_policy; [done|].
  destruct (rb_plans _ _ _ _ H q) as [Hsame|[-> Htarget]]; [done|].
  destruct (protection_plans d !! id) as [p|] eqn:E; [|by rewrite Hno].
  rewrite Htarget. cbn. by rewrite (Hs p E).
Qed.

(** ** Policies *)

(** Only policy [id] may change. *)
Record repolicies (id : string) (d d' : db) : Prop := {
  rp_work : same_work d d';
  rp_plans : protection_plans d' = protection_plans d;
  rp_policies : forall k, k <> id -> policies d' !! k = policies d !! k
}.

#[export] Instance repolicies_preorder id : PreOrder (repolicies id).
Proof.
  split; [by intros d|]. intros x y z [] []. split; [by etrans|congruence|].
  intros k Hk. rewrite <- (rp_policies0 k Hk). auto.
Qed.

Lemma repolicies_latest id d d' : repolicies id d d' -> latest_ok d -> latest_ok d'.
Proof.
  intros [(Ht & _) Hp _]. unfold latest_ok, latest_tasks_guard, latest_task_ok.
  by rewrite Hp, Ht.
Qed.

(** Plans bound to other policies, or to none, retain what they retained. *)
Lemma repolicies_row id d d' q :
  repolicies id d d' ->
  (forall pp, protection_plans d !! q = Some pp -> p_policy_id pp <> Some id) ->
  retention_policy_row q d' = retention_policy_row q d.
Proof.
  intros [_ Hp Hpol] Hq. unfold retention_policy_row. rewrite Hp.
  destruct (protection_plans d !! q) as [pp|]; [|done]. cbn.
  destruct (p_policy_id pp) as [k|] eqn:E; [|done]. cbn. rewrite Hpol; [done|].
  intros ->. by apply (Hq pp).
Qed.

(** No plan is bound to the policy. *)
Definition unbound_policy (id : string) (d : db) : Prop :=
  forall q pp, protection_plans d !! q = Some pp -> p_policy_id pp <> Some id.

Lemma repolicies_keeps bound id d d' :
  unbound_policy id d -> repolicies id d d' -> keeps_invariant bound d d'.
Proof.
  intros Hf H. apply same_work_keeps; [apply H|by apply (repolicies_latest id)|]. intros I q Hq.
  eapply within_same; [apply H| |by apply (inv_slots _ _ I)].
  eapply repolicies_row; [done|]. apply Hf.
Qed.

Section location.
Context (LoadLocation : string -> option location).

Lemma repolicies_CreatePolicy newID now input :
  stable (repolicies newID) (CreatePolicy LoadLocation newID now input).
Proof.
  unfold CreatePolicy. tx_walk. apply stable_exec; [apply _|]. intros d d' n H.
  unfold insert_policy in H. destruct (_ || _); [done|]. injection H as <- _.
  split; try done. intros k Hk. cbn. by rewrite lookup_insert_ne.
Qed.

(** An unused policy is deleted, any other stays. *)
Lemma DeletePolicy_keeps bound id fuse d :
  keeps_invariant bound d (fst (run (DeletePolicy id) fuse d)).
Proof.
  apply run_stable; [apply _|]. unfold DeletePolicy. tx_walk.
  apply stable_exec; [apply _|]. intros d0 d1 n H. unfold delete_policy in H.
  destruct (policies d0 !! id) as [c|]; [|by injection H as <- _].
  destruct (_ =s _); [|by injection H as <- _].
  destruct (exists_where _ _) eqn:Hno; [done|]. injection H as <- _.
  apply (repolicies_keeps bound id).
  - intros q pp Hq Hp. pose proof (proj1 (exists_where_false _ _) Hno q pp Hq) as Hn.
    cbn in Hn. rewrite Hp in Hn. cbn in Hn. by rewrite seqb_refl in Hn.
  - split; try done. intros k Hk. cbn. by rewrite lookup_delete_ne.
Qed.

(** The checks of an update read only. *)
Lemma checkOccupied_inr input q s s' u :
  checkOccupied input q s = (s', inr u) ->
  working s' = working s /\
  (counts_points input = true -> slots_used q (working s) <= poli_RetentionCount input).
Proof.
  unfold checkOccupied. intros (used & s1 & H1 & H)%bind_inr.
  apply select_inr in H1 as (_ & Hw & ->). rewrite occupied_slots_used in H.
  destruct (counts_points input); cbn [andb] in H.
  - destruct (_ <? _) eqn:E; [done|]. apply Z.ltb_ge in E. by apply ret_inr in H as [-> _].
  - by apply ret_inr in H as [-> _].
Qed.

Lemma checks_inr input plans s s' u :
  for_each plans (checkOccupied input) s = (s', inr u) ->
  working s' = working s /\ forall q, q ∈ plans -> counts_points input = true ->
    slots_used q (working s) <= poli_RetentionCount input.
Proof.
  revert s. induction plans as [|q plans IH]; intros s H; simpl in H.
  { apply ret_inr in H as [-> _]. split; [done|]. by intros q ?%not_elem_of_nil. }
  apply bind_inr in H as (u1 & s1 & H1 & H). apply checkOccupied_inr in H1 as [Hw Hq].
  apply IH in H as [Hw' Hqs]. split; [congruence|].
  intros q' [->|Hin]%elem_of_cons Hc; [by apply Hq|]. rewrite <- Hw. by apply Hqs.
Qed.

Lemma quiet_checkOccupied input q : quiet (checkOccupied input q).
Proof. unfold checkOccupied. tx_walk. Qed.

(** The state an update publishes, and what it checked before. *)
Definition policy_updated (now : time) (id : string) (input : PolicyInput) (d d' : db) : Prop :=
  exists c, policies d !! id = Some c /\
    d' = set_policies d (<[id := updated_policy now input c]> (policies d)) /\
    (counts_points input = true -> forall q pp, protection_plans d !! q = Some pp ->
       p_policy_id pp = Some id -> slots_used q d <= poli_RetentionCount input).

Lemma UpdatePolicy_publishes now id input fuse d :
  fst (run (UpdatePolicy LoadLocation now id input) fuse d) = d \/
  policy_updated now id input d (fst (run (UpdatePolicy LoadLocation now id input) fuse d)).
Proof.
  apply (run_commits (fun d' => d' = d \/ policy_updated now id input d d')); [by left|].
  unfold UpdatePolicy. destruct (ValidateRetentionRules _ _ _).
  { apply commits_quiet, quiet_fail. }
  apply commits_bind; [apply quiet_begin|]. intros u s1 H1. apply begin_inr in H1 as [_ Hw1].
  simpl in Hw1. apply commits_bind; [apply quiet_select|]. intros plans s2 H2.
  apply select_inr in H2 as (_ & Hw2 & ->).
  apply commits_bind; [apply quiet_for_each; apply quiet_checkOccupied|]. intros u3 s3 H3.
  apply checks_inr in H3 as [Hw3 Hocc]. apply commits_bind; [apply quiet_exec|].
  intros n s4 H4. apply exec_inr in H4 as [_ H4]. rewrite Hw3, Hw2, Hw1 in H4.
  destruct (n =? 0) eqn:En; [apply commits_quiet, quiet_ret|].
  apply commits_commit; [unfold ListPolicies; tx_walk|]. right.
  unfold update_policy in H4. destruct (policies d !! id) as [c|] eqn:Ec.
  - destruct (_ || _); [done|]. injection H4 as H4 _. exists c. split; [done|]. split; [done|].
    rewrite Hw2, Hw1 in Hocc. intros Hc q pp Hq Hp. apply Hocc; [|done].
    apply plans_of_policy_in. by exists pp.
  - injection H4 as _ <-. done.
Qed.

Lemma counts_points_true input :
  0 < poli_RetentionCount input ->
  one_of (poli_Composition input) ["combined"; "retention"] = true -> counts_points input = true.
Proof.
  unfold counts_points. intros Hpos%Z.ltb_lt Hc. rewrite Hpos.
  apply one_of_true in Hc. by repeat (apply elem_of_cons in Hc as [->|Hc]);
    [..|apply not_elem_of_nil in Hc].
Qed.

Lemma UpdatePolicy_keeps bound now id input fuse d :
  (forall q, 0 <= bound q) ->
  keeps_invariant bound d (fst (run (UpdatePolicy LoadLocation now id input) fuse d)).
Proof.
  intros Hb. destruct (UpdatePolicy_publishes now id input fuse d) as [->|(c & Hc & -> & Hocc)];
    [reflexivity|].
  assert (H : repolicies id d
    (set_policies d (<[id := updated_policy now input c]> (policies d)))).
  { split; try done. intros k Hk. cbn. by rewrite lookup_insert_ne. }
  apply same_work_keeps; [done|by apply (repolicies_latest id)|]. intros I q Hq.
  destruct (protection_plans d !! q) as [pp|] eqn:Hpp.
  - destruct (decide (p_policy_id pp = Some id)) as [Hbound|Hne].
    + intros p n Hrow Hn Hpos. rewrite (slots_used_work q d) by done.
      unfold retention_policy_row in Hrow. cbn in Hrow. rewrite Hpp in Hrow. cbn in Hrow.
      rewrite Hbound in Hrow. cbn in Hrow. rewrite lookup_insert_eq in Hrow. cbn in Hrow.
      destruct (one_of _ _) eqn:Hcomp; [|done]. injection Hrow as <-. injection Hn as <-.
      specialize (Hocc (counts_points_true input Hpos Hcomp) q pp Hpp Hbound). lia.
    + eapply within_same; [apply H| |by apply (inv_slots _ _ I)].
      eapply repolicies_row; [done|]. intros pp' Hpp'. congruence.
  - eapply within_same; [apply H| |by apply (inv_slots _ _ I)].
    eapply repolicies_row; [done|]. intros pp' Hpp'. congruence.
Qed.

End location.

(** ** Deleting a plan *)

Section deleted.
Context (id : string) (d : db).

Let tasks' : gmap string task_row :=
  fst (update_where (fun _ => task_of_plan id) (fun _ => task_without_plan) (tasks d)).
Let archived (created : point_row -> time) : gmap string point_row :=
  fst (update_where (fun _ => of_plan id) (fun _ r => point_without_plan (created r) r)
         (restore_points d)).

(** What deleting the plan leaves: its tasks and points belong to no plan. *)
Record plan_archived (d' : db) : Prop := {
  pa_tasks : tasks d' = tasks';
  pa_points : exists created, restore_points d' = archived created;
  pa_backups : forall k r b t, restore_points d !! k = Some r -> of_plan id r = true ->
    r_backup_task_id r = Some b -> tasks' !! b = Some t -> t_protection_plan_id t = None;
  pa_reservations : reservations d' =
    filter (fun '(_, v) => v_protection_plan_id v <> id) (reservations d);
  pa_plans : protection_plans d' = delete id (protection_plans d);
  pa_policies : policies d' = policies d;
  pa_apps : plan_apps d' = filter (fun '(k, _) => k.1 <> id) (plan_apps d)
}.

Lemma DeleteProtectionPlan_publishes fuse :
  fst (run (DeleteProtectionPlan id) fuse d) = d \/
  plan_archived (fst (run (DeleteProtectionPlan id) fuse d)).
Proof.
  apply (run_commits (fun d' => d' = d \/ plan_archived d')); [by left|].
  unfold DeleteProtectionPlan.
  apply commits_bind; [apply quiet_begin|]. intros u s1 H1. apply begin_inr in H1 as [_ Hw1].
  simpl in Hw1. apply commits_bind; [apply quiet_attempt, quiet_query|]. intros found s2 H2.
  apply attempt_inr in H2. unfold with_plan.
  destruct found as [[]|item]; try (apply commits_quiet; tx_walk; fail).
  apply query_inr in H2 as (_ & Hw2 & _). rewrite Hw1 in Hw2.
  apply commits_bind; [apply quiet_exec|]. intros n3 s3 H3.
  apply exec_inr in H3 as [_ H3]. rewrite Hw2 in H3. injection H3 as H3 _.
  apply commits_bind; [apply quiet_exec|]. intros n4 s4 H4. apply exec_inr in H4 as [_ H4].
  apply commits_bind; [apply quiet_exec|]. intros n5 s5 H5. apply exec_inr in H5 as [_ H5].
  injection H5 as H5 _. apply commits_bind; [apply quiet_exec|]. intros n6 s6 H6.
  apply exec_inr in H6 as [_ H6]. unfold delete_plan in H6. destruct (_ || _); [done|].
  injection H6 as H6 _.
  apply commits_bind; [destruct (plan_AppIDs item); tx_walk|]. intros u7 s7 H7.
  apply commits_commit; [tx_walk|]. right.
  assert (H7' : exists apps, working s7 = set_applications (working s6) apps).
  { destruct (plan_AppIDs item).
    - apply ret_inr in H7 as [-> _]. exists (applications (working s6)). by destruct (working s6).
    - apply bind_inr in H7 as (n7 & s8 & H7 & H8). apply ret_inr in H8 as [-> _].
      apply exec_inr in H7 as [_ H7]. injection H7 as H7 _. rewrite <- H7. by eexists. }
  destruct H7' as [apps ->]. rewrite <- H6, <- H5. unfold archive_points in H4.
  destruct (exists_where _ _) eqn:Hno; [done|]. injection H4 as H4 _. rewrite <- H4.
  rewrite <- H3 in *. split; try done.
  - by eexists (fun r => _).
  - intros k r b t Hr Hof Hb Ht. pose proof (proj1 (exists_where_false _ _) Hno k r Hr) as Hk.
    cbn in Hk. rewrite Hof, Hb in Hk. unfold backup_task_guard in Hk. cbn in Hk.
    change (map_imap _ (tasks d)) with tasks' in Hk. rewrite Ht in Hk.
    destruct (_ && _) eqn:E in Hk; [|done]. by apply andb_true_iff in E as [_ E%bool_decide_eq_true].
  - by apply map_filter_filter_l.
Qed.

Section archived.
Context (d' : db) (bound : string -> Z).
Hypothesis (Ha : plan_archived d').
Hypothesis (I : invariant bound d).

Lemma archived_task k t :
  tasks d' !! k = Some t -> exists t0, tasks d !! k = Some t0 /\
    t_cluster_id t = t_cluster_id t0 /\ accepted_snapshot t = accepted_snapshot t0 /\
    (t_protection_plan_id t = None \/ t_protection_plan_id t = t_protection_plan_id t0).
Proof.
  rewrite (pa_tasks _ Ha). unfold tasks'. rewrite lookup_update_where.
  destruct (tasks d !! k) as [t0|]; [|done]. cbn. intros [= <-]. exists t0. split; [done|].
  destruct (task_of_plan id t0); [|by auto]. split_and!; try done; [|by left].
  unfold accepted_snapshot. cbn [t_payload task_without_plan]. by rewrite get_insert_ne.
Qed.

(** Rows of the other plans stay as they were. *)
Lemma other_task_archived k t q :
  tasks d !! k = Some t -> t_protection_plan_id t = Some q -> q <> id -> tasks d' !! k = Some t.
Proof.
  intros Ht Hq Hne. rewrite (pa_tasks _ Ha). unfold tasks'. rewrite lookup_update_where, Ht. cbn.
  unfold task_of_plan. rewrite Hq. cbn. by rewrite (proj2 (seqb_false q id) Hne).
Qed.

Lemma point_archived k r :
  restore_points d' !! k = Some r -> exists r0, restore_points d !! k = Some r0 /\
    r_backup_task_id r = r_backup_task_id r0 /\ r_status r = r_status r0 /\
    (of_plan id r0 = false /\ r = r0 \/ of_plan id r0 = true /\ r_protection_plan_id r = None).
Proof.
  destruct (pa_points _ Ha) as [created ->]. unfold archived. rewrite lookup_update_where.
  destruct (restore_points d !! k) as [r0|]; [|done]. cbn. intros [= <-]. exists r0.
  destruct (of_plan id r0); split_and!; try done; [by right|by left].
Qed.

Lemma other_point_archived k r q :
  restore_points d !! k = Some r -> of_plan q r = true -> q <> id ->
  restore_points d' !! k = Some r.
Proof.
  intros Hr Hof Hne. destruct (pa_points _ Ha) as [created ->]. unfold archived.
  rewrite lookup_update_where, Hr. cbn. unfold of_plan in *. apply sql_eq_Some in Hof.
  rewrite Hof. cbn. by rewrite (proj2 (seqb_false q id) Hne).
Qed.

Lemma reservation_left k v :
  reservations d' !! k = Some v -> reservations d !! k = Some v /\ v_protection_plan_id v <> id.
Proof. rewrite (pa_reservations _ Ha). by intros [? ?]%map_lookup_filter_Some. Qed.

Lemma archived_slots q : q <> id -> slots_used q d' <= slots_used q d.
Proof.
  intros Hne. apply Z.add_le_mono.
  - apply count_where_ind. intros k. destruct (restore_points d' !! k) as [r|] eqn:Hr.
    + destruct (point_archived k r Hr) as (r0 & -> & _ & Hst & [[_ ->]|[_ Hno]]); [done|].
      unfold live_point, of_plan. by rewrite Hno.
    + by destruct (restore_points d !! k).
  - apply count_where_ind. intros k. destruct (reservations d' !! k) as [v|] eqn:Hv.
    + apply reservation_left in Hv as [Hv Hplan]. rewrite Hv. unfold reserves_slot.
      destruct (v_replacement_point_id v) as [pid|] eqn:Hpid; [|done].
      destruct (inv_replaces _ _ I k v pid Hv Hpid) as (r & Hr & Hof).
      by rewrite Hr, (other_point_archived pid r _ Hr Hof Hplan).
    + by destruct (reservations d !! k).
Qed.

Lemma archived_keeps : invariant bound d'.
Proof.
  split.
  - intros k v [Hv Hne]%reservation_left.
    destruct (inv_owner _ _ I k v Hv) as (t & Ht & Htype & Hplan & Hset). exists t.
    split; [by eapply other_task_archived|]. split_and!; try done.
    destruct Hset as [?|[?|[? (pid & r & ? & Hr & Hof)]]]; [by auto..|]. right; right.
    split; [done|]. exists pid, r. split_and!; try done. by eapply other_point_archived.
  - intros k k' v v' pid [Hv _]%reservation_left [Hv' _]%reservation_left.
    by apply (inv_exclusive _ _ I).
  - intros k v pid [Hv Hne]%reservation_left Hpid.
    destruct (inv_replaces _ _ I k v pid Hv Hpid) as (r & Hr & Hof). exists r.
    split; [by eapply other_point_archived|done].
  - destruct (restore_points d' !! "") as [r|] eqn:E; [|done].
    apply point_archived in E as (r0 & E & _). by rewrite (inv_points _ _ I) in E.
  - intros k v [Hv _]%reservation_left. by eapply inv_pending.
  - intros k t raw snapshot Ht Hsnap Hun.
    destruct (archived_task k t Ht) as (t0 & Ht0 & Hcl & Hs & Hplan). rewrite Hs in Hsnap.
    destruct (inv_snapshots _ _ I k t0 raw snapshot Ht0 Hsnap Hun) as (? & Hq & ? & ?).
    split_and!; try done; [|congruence]. intros q Hqt. apply Hq. destruct Hplan; congruence.
  - intros k r Hr. destruct (point_archived k r Hr) as (r0 & Hr0 & -> & _ & Hcase).
    destruct (inv_backups _ _ I k r0 Hr0) as (b & t & Hb & Ht & Hplan).
    assert (Ht' : exists t', tasks' !! b = Some t' /\
      (t' = t \/ t_protection_plan_id t = Some id /\ t_protection_plan_id t' = None)).
    { unfold tasks'. rewrite lookup_update_where, Ht. cbn. eexists. split; [done|].
      destruct (task_of_plan id t) eqn:E; [right|by left]. split; [|done].
      by apply sql_eq_Some. }
    destruct Ht' as (t' & Ht' & Hcase'). exists b, t'. rewrite (pa_tasks _ Ha).
    split_and!; try done. destruct Hcase as [[Hof ->]|[Hof ->]].
    + destruct Hcase' as [->|[Hid _]]; [done|]. unfold of_plan in Hof.
      rewrite <- Hplan, Hid in Hof. cbn in Hof. by rewrite seqb_refl in Hof.
    + by eapply (pa_backups _ Ha).
  - intros q pp. rewrite (pa_plans _ Ha). intros [Hne Hq]%lookup_delete_Some.
    pose proof (inv_latest _ _ I q pp Hq) as [Hs Hr]%andb_true_iff.
    unfold latest_tasks_guard. apply andb_true_iff.
    assert (Hok : forall types o, latest_task_ok d q types o = true ->
      latest_task_ok d' q types o = true); [|by auto].
    intros types o Ho. unfold latest_task_ok in *. destruct o as [k|]; [|done].
    destruct (tasks d !! k) as [t|] eqn:Ht; [|done]. pose proof Ho as [Hp%sql_eq_Some _]%andb_true_iff.
    by rewrite (other_task_archived k t q Ht Hp (not_eq_sym Hne)).
  - intros q Hq p c Hrow Hc Hpos. destruct (decide (q = id)) as [->|Hne].
    { unfold retention_policy_row in Hrow. rewrite (pa_plans _ Ha), lookup_delete_eq in Hrow. done. }
    pose proof (archived_slots q Hne). enough (slots_used q d <= Z.max c (bound q)) by lia.
    apply (inv_slots _ _ I q Hq p c); try done. unfold retention_policy_row in *.
    by rewrite (pa_plans _ Ha), (pa_policies _ Ha), lookup_delete_ne in Hrow.
Qed.

End archived.

Lemma DeleteProtectionPlan_keeps bound fuse :
  keeps_invariant bound d (fst (run (DeleteProtectionPlan id) fuse d)).
Proof.
  intros I. destruct (DeleteProtectionPlan_publishes fuse) as [->|Ha]; [done|].
  by apply archived_keeps.
Qed.

End deleted.

(** ** Removing a plan with everything it protected *)

(** What the deletions do when nothing refuses them. *)
Lemma delete_points_inv p d d' n : delete_points p d = Some (d', n) -> d' = points_deleted p d.
Proof. unfold delete_points. destruct (exists_where _ _); [done|]. by intros [= <- _]. Qed.

Lemma delete_tasks_inv p d d' n : delete_tasks p d = Some (d', n) -> d' = tasks_deleted p d.
Proof. unfold delete_tasks. destruct (_ || _); [done|]. by intros [= <- _]. Qed.

Lemma delete_plan_inv id d d' n : delete_plan id d = Some (d', n) -> d' = plan_deleted id d.
Proof. unfold delete_plan. destruct (_ || _); [done|]. by intros [= <- _]. Qed.

Lemma forget_points_inv id d d' n :
  forget_points id d = Some (d', n) -> d' = set_tasks d (forgotten id d).
Proof. destruct (forget_points_eq id d) as [m ->]. by intros [= <- _]. Qed.

Lemma delete_plan_apps_inv id d d' n :
  delete_plan_apps id d = Some (d', n) ->
  d' = set_plan_apps d (filter (fun '(k, _) => k.1 <> id) (plan_apps d)).
Proof. unfold delete_plan_apps. by intros [= <- _]. Qed.

Lemma update_plans_inv p f d d' n :
  update_plans p f d = Some (d', n) ->
  d' = set_protection_plans d (fst (update_where p f (protection_plans d))).
Proof. unfold update_plans. by intros [= <- _]. Qed.

Lemma exec_step {D A} (f : D -> option (D * A)) (s s' : session D) n d :
  exec f s = (s', inr n) -> working s = d -> f d = Some (working s', n).
Proof. by intros [_ ?]%exec_inr <-. Qed.

(** The applications a plan protected get their status in the same transaction. *)
Lemma update_applications_inv p f d d' n :
  update_applications p f d = Some (d', n) -> exists apps, d' = set_applications d apps.
Proof. unfold update_applications. intros [= <- _]. by eexists. Qed.

Lemma CleanupProtectionPlanRecords_publishes id fuse d :
  let d' := fst (run (CleanupProtectionPlanRecords id) fuse d) in
  d' = d \/ exists apps, d' = set_applications (cleaned id d) apps.
Proof.
  intros d'. apply (run_commits (fun d' => d' = d \/
    exists apps, d' = set_applications (cleaned id d) apps)); [by left|].
  unfold CleanupProtectionPlanRecords.
  apply commits_bind; [apply quiet_begin|]. intros u s1 H1. apply begin_inr in H1 as [_ Hw1].
  simpl in Hw1. apply commits_bind; [apply quiet_attempt, quiet_query|]. intros found s2 H2.
  apply attempt_inr in H2. unfold with_plan.
  destruct found as [[]|item]; try (apply commits_quiet; tx_walk; fail).
  apply query_inr in H2 as (_ & Hw & _). rewrite Hw1 in Hw. clear Hw1.
  apply commits_bind; [apply quiet_exec|]. intros n3 s3 H.
  eapply exec_step, forget_points_inv in H; [|exact Hw]. clear Hw. rename H into Hw.
  apply commits_bind; [apply quiet_exec|]. intros n4 s4 H.
  eapply exec_step, delete_points_inv in H; [|exact Hw]. clear Hw. rename H into Hw.
  change (working s4 = points_gone id d) in Hw.
  apply commits_bind; [apply quiet_exec|]. intros n5 s5 H.
  eapply exec_step, update_plans_inv in H; [|exact Hw]. clear Hw. rename H into Hw.
  change (working s5 = pointers_gone id d) in Hw.
  apply commits_bind; [apply quiet_exec|]. intros n6 s6 H.
  eapply exec_step, delete_tasks_inv in H; [|exact Hw]. clear Hw. rename H into Hw.
  change (working s6 = tasks_gone id d) in Hw.
  apply commits_bind; [apply quiet_exec|]. intros n7 s7 H.
  eapply exec_step, delete_plan_apps_inv in H; [|exact Hw]. clear Hw. rename H into Hw.
  change (working s7 = apps_gone id d) in Hw.
  apply commits_bind; [apply quiet_exec|]. intros n8 s8 H.
  eapply exec_step, delete_plan_inv in H; [|exact Hw]. clear Hw. rename H into Hw.
  change (working s8 = cleaned id d) in Hw.
  apply commits_bind; [destruct (plan_AppIDs item); tx_walk|]. intros u9 s9 H9.
  apply commits_commit; [tx_walk|]. right. rewrite <- Hw. destruct (plan_AppIDs item).
  - apply ret_inr in H9 as [-> _]. exists (applications (working s8)). by destruct (working s8).
  - apply bind_inr in H9 as (n9 & s10 & H9 & H10). apply ret_inr in H10 as [-> _].
    apply exec_inr in H9 as [_ H9]. by apply update_applications_inv in H9.
Qed.

Section cleaned.
Context (id : string) (d : db) (bound : string -> Z).
Hypothesis (I : invariant bound d).
#[local] Notation d' := (cleaned id d).

Lemma cleaned_task k t :
  tasks d' !! k = Some t -> exists t0, tasks d !! k = Some t0 /\ task_of_plan id t0 = false /\
    t_cluster_id t = t_cluster_id t0 /\ accepted_snapshot t = accepted_snapshot t0 /\
    t_type t = t_type t0 /\ t_protection_plan_id t = t_protection_plan_id t0.
Proof.
  change (tasks d') with (cleaned_tasks id d). unfold cleaned_tasks, forgotten.
  intros [Hk Hof]%map_lookup_filter_Some. rewrite lookup_fmap in Hk.
  destruct (tasks d !! k) as [t0|]; [|done]. injection Hk as <-. exists t0. split; [done|].
  by destruct (names_point_of id d t0).
Qed.

Lemma cleaned_point k r :
  restore_points d' !! k = Some r <-> restore_points d !! k = Some r /\ of_plan id r = false.
Proof. apply map_lookup_filter_Some. Qed.

Lemma of_one_plan q r : of_plan q r = true -> q <> id -> of_plan id r = false.
Proof. unfold of_plan. intros ->%sql_eq_Some Hne. by apply seqb_false. Qed.

Lemma cleaned_reservation k v' :
  reservations d' !! k = Some v' -> exists v, reservations d !! k = Some v /\
    v_protection_plan_id v' = v_protection_plan_id v /\ v_protection_plan_id v <> id /\
    v_state v' = v_state v /\ v_replacement_point_id v' = v_replacement_point_id v /\
    v_pending_point v' = v_pending_point v.
Proof.
  change (reservations d') with
    (filter (fun '(_, v) => v_protection_plan_id v <> id) (reservations (tasks_gone id d))).
  intros [Hk Hne]%map_lookup_filter_Some. cbn in Hk. rewrite lookup_fmap in Hk.
  destruct (filter _ _ !! k) as [w|] eqn:Hw; [|done]. injection Hk as <-.
  apply map_lookup_filter_Some in Hw as [Hw _]. cbn in Hw. rewrite lookup_fmap in Hw.
  destruct (reservations d !! k) as [v|] eqn:Hv; [|done]. injection Hw as <-.
  exists v. split; [done|].
  assert (Hrefers : refers (fun _ => of_plan id) (restore_points d) (v_replacement_point_id v) = false
    \/ v_protection_plan_id v = id).
  { destruct (v_replacement_point_id v) as [pid|] eqn:Hpid; [|by left].
    destruct (inv_replaces _ _ I k v pid Hv Hpid) as (r & Hr & Hof). cbn. rewrite Hr.
    destruct (decide (v_protection_plan_id v = id)) as [|Hn]; [by right|left].
    by eapply of_one_plan. }
  destruct Hrefers as [Hrefers|Hid]; [rewrite Hrefers in *|].
  - by destruct (refers _ (forgotten id d) _).
  - destruct Hne. by destruct (refers _ (restore_points d) _), (refers _ (forgotten id d) _).
Qed.

(** The replacement points of other plans stay, so their reservations do too. *)
Lemma cleaned_other_point q k r :
  restore_points d !! k = Some r -> of_plan q r = true -> q <> id ->
  restore_points d' !! k = Some r.
Proof. intros Hr Hof Hne. apply cleaned_point. split; [done|]. by eapply of_one_plan. Qed.

Lemma kept_of_other k t q :
  tasks d !! k = Some t -> t_protection_plan_id t = Some q -> q <> id ->
  exists t', tasks d' !! k = Some t' /\ t_type t' = t_type t /\
    t_protection_plan_id t' = t_protection_plan_id t /\
    (names_own q t d -> t' = t).
Proof.
  intros Ht Hq Hne. assert (Hof : task_of_plan id t = false).
  { unfold task_of_plan. rewrite Hq. by apply seqb_false. }
  eexists. split; [by apply kept_task|].
  destruct (names_point_of id d t) eqn:E; split_and!; try done.
  intros (pid & r & Hpid & Hr & Hofr). unfold names_point_of in E. rewrite Hpid in E. cbn in E.
  rewrite Hr in E. unfold of_plan in *. apply sql_eq_Some in Hofr. rewrite Hofr in E.
  by apply seqb_true in E.
Qed.

Lemma cleaned_slots q : q <> id -> slots_used q d' <= slots_used q d.
Proof.
  intros Hne. apply Z.add_le_mono.
  - apply count_where_ind. intros k. destruct (restore_points d' !! k) as [r|] eqn:Hr.
    + apply cleaned_point in Hr as [-> _]. done.
    + by destruct (restore_points d !! k).
  - apply count_where_ind. intros k. destruct (reservations d' !! k) as [v'|] eqn:Hv'.
    + destruct (cleaned_reservation k v' Hv') as (v & Hv & Hplan & Hnid & Hst & Hrep & _).
      rewrite Hv. unfold reserves_slot, active_reservation. rewrite Hplan, Hst, Hrep.
      destruct (v_replacement_point_id v) as [pid|] eqn:Hpid; [|done].
      destruct (inv_replaces _ _ I k v pid Hv Hpid) as (r & Hr & Hof).
      by rewrite Hr, (cleaned_other_point _ pid r Hr Hof Hnid).
    + by destruct (reservations d !! k).
Qed.

Lemma cleaned_latest q types o :
  q <> id -> latest_task_ok d q types o = true -> latest_task_ok d' q types o = true.
Proof.
  intros Hne Ho. unfold latest_task_ok in *. destruct o as [k|]; [|done].
  destruct (tasks d !! k) as [t|] eqn:Ht; [|done].
  pose proof Ho as [Hp%sql_eq_Some _]%andb_true_iff.
  by destruct (kept_of_other k t q Ht Hp Hne) as (t' & -> & -> & -> & _).
Qed.

Lemma cleaned_plan : protection_plans d' !! id = None.
Proof.
  change (protection_plans d') with (delete id (protection_plans (apps_gone id d))).
  apply lookup_delete_eq.
Qed.

Lemma cleaned_retention q :
  retention_policy_row q d' = if decide (q = id) then None else retention_policy_row q d.
Proof.
  unfold retention_policy_row. change (policies d') with (policies d).
  destruct (decide (q = id)) as [->|Hne]; [by rewrite cleaned_plan|].
  by rewrite (other_plan_kept id d (inv_latest _ _ I) q Hne).
Qed.

Lemma cleaned_latest_ok : latest_ok d'.
Proof.
  intros q pp Hq. assert (Hne : q <> id) by (intros ->; by rewrite cleaned_plan in Hq).
  rewrite (other_plan_kept id d (inv_latest _ _ I) q Hne) in Hq.
  pose proof (inv_latest _ _ I q pp Hq) as [Hs Hr]%andb_true_iff.
  apply andb_true_iff. split; by apply cleaned_latest.
Qed.

Lemma cleaned_backups_ok : backups_ok d'.
Proof.
  intros k r [Hr Hof]%cleaned_point.
  destruct (inv_backups _ _ I k r Hr) as (b & t & Hb & Ht & Hplan).
  eexists b, _. split; [done|]. split; [apply (kept_task id d b t Ht)|].
  - unfold task_of_plan, of_plan in *. by rewrite Hplan.
  - by destruct (names_point_of id d t).
Qed.

Lemma cleaned_keeps : invariant bound d'.
Proof.
  split.
  - intros k v' Hv'. destruct (cleaned_reservation k v' Hv') as (v & Hv & -> & Hne & Hst & Hrep & _).
    destruct (inv_owner _ _ I k v Hv) as (t & Ht & Htype & Hplan & Hset).
    destruct (kept_of_other k t _ Ht Hplan Hne) as (t' & Ht' & Htype' & Hplan' & Hsame).
    exists t'. split_and!; try congruence. unfold active_reservation. rewrite Hst.
    destruct Hset as [?|[?|[? Hown]]]; [by auto..|]. right; right. rewrite (Hsame Hown).
    split; [done|]. destruct Hown as (pid & r & ? & Hr & Hof). exists pid, r.
    split_and!; try done. by eapply cleaned_other_point.
  - intros k k' v v' pid Hv Hv' Ha Ha'.
    destruct (cleaned_reservation k v Hv) as (w & Hw & _ & _ & Hs & -> & _).
    destruct (cleaned_reservation k' v' Hv') as (w' & Hw' & _ & _ & Hs' & -> & _).
    unfold active_reservation in *. rewrite Hs in Ha. rewrite Hs' in Ha'.
    by apply (inv_exclusive _ _ I k k' w w' pid).
  - intros k v' pid Hv' Hpid. destruct (cleaned_reservation k v' Hv') as (v & Hv & -> & Hne & _ & Hrep & _).
    rewrite Hrep in Hpid. destruct (inv_replaces _ _ I k v pid Hv Hpid) as (r & Hr & Hof).
    exists r. split; [by eapply cleaned_other_point|done].
  - destruct (restore_points d' !! "") as [r|] eqn:E; [|done]. apply cleaned_point in E as [E _].
    by rewrite (inv_points _ _ I) in E.
  - intros k v' Hv'. destruct (cleaned_reservation k v' Hv') as (v & Hv & _ & _ & _ & _ & Hpend).
    unfold waits_available. rewrite Hpend. by apply (inv_pending _ _ I k).
  - intros k t raw snapshot Ht Hsnap Hun.
    destruct (cleaned_task k t Ht) as (t0 & Ht0 & _ & Hcl & Hs & _ & Hplan).
    rewrite Hs in Hsnap. unfold result_of. rewrite Hcl, Hplan.
    by apply (inv_snapshots _ _ I k t0 raw).
  - apply cleaned_backups_ok.
  - apply cleaned_latest_ok.
  - intros q Hq p c Hrow Hc Hpos. rewrite cleaned_retention in Hrow.
    destruct (decide (q = id)) as [|Hne]; [discriminate Hrow|].
    pose proof (cleaned_slots q Hne). pose proof (inv_slots _ _ I q Hq p c Hrow Hc Hpos). lia.
Qed.

End cleaned.

Lemma applications_keep bound d apps :
  invariant bound d -> invariant bound (set_applications d apps).
Proof. by intros []. Qed.

Lemma CleanupProtectionPlanRecords_keeps bound id fuse d :
  keeps_invariant bound d (fst (run (CleanupProtectionPlanRecords id) fuse d)).
Proof.
  intros I. destruct (CleanupProtectionPlanRecords_publishes id fuse d) as [->|[apps ->]]; [done|].
  by apply applications_keep, cleaned_keeps.
Qed.
