(* ===== verification/System.v ===== *)
(** The whole store as one system: every operation of the task, restore point,
    plan and policy repositories (backend/internal/store), in any order, each
    against the database the previous ones left, each with a statement that may
    fail at any point.

    Plans and policies are created under identifiers nothing names yet (newID
    draws random UUIDs).  An edit that binds a plan to another policy is not one
    of the calls: nothing checks it against what the plan holds, and a plan may
    come out of it over its count; such edits are steps, after which a plan may
    keep what it holds but not grow. *)

From S2P Require Import Prelude Calendar Value Types Retention Session Database.
From S2P Require Import Quota Tasks RestorePoints Plans Policies Lifecycle LifeCycleRefinement.
From S2P Require Import PlanLifecycle Control Events Bindings.

(** Operations beside the work: task events, storage bindings, measured sizes. *)
Inductive aside (d : db) : db -> Prop :=
| aside_event writer eventID logID now input fuse :
    aside d (fst (run (AddTaskEvent writer eventID logID now input) fuse d))
| aside_binding id now input fuse :
    aside d (fst (run (UpsertClusterStorageBinding id now input) fuse d))
| aside_binding_status now input fuse :
    aside d (fst (run (UpdateClusterStorageBindingStatus now input) fuse d))
| aside_capacity now planID clusterID tenantID result requestedAt fuse :
    aside d (fst (run (SavePlanCapacityResult now planID clusterID tenantID result requestedAt)
      fuse d)).

(** What they leave alone: the work, the schedules, which plan protects what. *)
Record beside (d d' : db) : Prop := {
  beside_tasks : tasks d' = tasks d;
  beside_points : restore_points d' = restore_points d;
  beside_reservations : reservations d' = reservations d;
  beside_schedules : schedules d' = schedules d;
  beside_tame : tame d d';
  beside_membership : same_membership d d'
}.

#[local] Instance beside_preorder : PreOrder beside.
Proof.
  split.
  - intros d. by split.
  - intros x y z [] []. split; try congruence; by etrans.
Qed.

Lemma beside_untouched d d' :
  tasks d' = tasks d -> restore_points d' = restore_points d -> reservations d' = reservations d ->
  schedules d' = schedules d -> plan_apps d' = plan_apps d ->
  protection_plans d' = protection_plans d -> policies d' = policies d -> beside d d'.
Proof.
  intros Ht Hp Hv Hs Ha Hl Hc. split; try done.
  - split; rewrite ?Hp, ?Hv, ?Ht; try done.
    + intros q. unfold retention_policy_row. by rewrite Hl, Hc.
    + unfold latest_ok, latest_tasks_guard, latest_task_ok. by rewrite Hl, Ht.
  - split; [done|]. by rewrite Hl.
Qed.

Lemma capacity_beside now planID clusterID tenantID result requestedAt d d' n :
  save_capacity now planID clusterID tenantID result requestedAt d = Some (d', n) -> beside d d'.
Proof.
  intros H. pose proof (save_capacity_tame _ _ _ _ _ _ _ _ _ H) as Ht. unfold save_capacity in H.
  destruct (protection_plans d !! planID) as [p|] eqn:Hp; [|by injection H as <- _].
  destruct (_ && _); [|by injection H as <- _].
  destruct (requested_at _) as [t|]; [|done]. cbn [mbind option_bind] in H.
  destruct (t <? _); injection H as <- _; [|done]. split; try done. split; [done|].
  change (identity <$> <[planID := capacity_row now result p]> (protection_plans d) =
          identity <$> protection_plans d).
  rewrite fmap_insert. apply insert_id. by rewrite lookup_fmap, Hp.
Qed.

Lemma aside_beside d d' : aside d d' -> beside d d'.
Proof.
  intros [writer eventID logID now input fuse|id now input fuse|now input fuse|
    now planID clusterID tenantID result requestedAt fuse];
    apply run_stable; try apply _.
  - unfold AddTaskEvent. tx_walk.
    all: apply stable_exec; [apply _|]; intros d0 d1 n; unfold insert_event, insert_diagnostic;
      intros H; repeat case_match; simplify_eq; by apply beside_untouched.
  - unfold UpsertClusterStorageBinding. tx_walk.
    apply stable_exec; [apply _|]; intros d0 d1 n; unfold upsert_binding;
      intros H; repeat case_match; simplify_eq; by apply beside_untouched.
  - unfold UpdateClusterStorageBindingStatus. tx_walk.
    apply stable_exec; [apply _|]; intros d0 d1 n; unfold update_binding;
      intros H; repeat case_match; simplify_eq; by apply beside_untouched.
  - unfold SavePlanCapacityResult. tx_walk.
    apply stable_exec; [apply _|]; intros d0 d1 n. apply capacity_beside.
Qed.

Section system.
Context (LoadLocation : string -> option location).

(** One call of the store; its result does not matter. *)
Inductive call : db -> db -> Prop :=
| call_work d d' : operation LoadLocation d d' -> call d d'
| call_create_plan newID now input fuse d :
    fresh_plan newID d ->
    call d (fst (run (CreateProtectionPlan newID now input) fuse d))
| call_edit_plan newID now id input fuse d :
    id <> "" -> same_policy id (nullif (plani_PolicyID input)) d ->
    call d (fst (run (UpdateProtectionPlan newID now id input) fuse d))
| call_plan_status now id status fuse d :
    call d (fst (run (UpdateProtectionPlanStatus now id status) fuse d))
| call_plan_size now id size fuse d :
    call d (fst (run (UpdateProtectionPlanStorageSize now id size) fuse d))
| call_clear_target now id target fuse d :
    call d (fst (run (ClearProtectionPlanTargetCluster now id target) fuse d))
| call_upsert_schedule now input fuse d :
    call d (fst (run (UpsertProtectionPlanSchedule now input) fuse d))
| call_schedule_fired now input fuse d :
    call d (fst (run (MarkProtectionPlanScheduleFired now input) fuse d))
| call_disable_schedule now id fuse d :
    call d (fst (run (DisableProtectionPlanSchedule now id) fuse d))
| call_delete_plan id fuse d : call d (fst (run (DeleteProtectionPlan id) fuse d))
| call_cleanup_plan id fuse d : call d (fst (run (CleanupProtectionPlanRecords id) fuse d))
| call_create_policy newID now input fuse d :
    unbound_policy newID d ->
    call d (fst (run (CreatePolicy LoadLocation newID now input) fuse d))
| call_update_policy now id input fuse d :
    call d (fst (run (UpdatePolicy LoadLocation now id input) fuse d))
| call_delete_policy id fuse d : call d (fst (run (DeletePolicy id) fuse d))
| call_aside d d' : aside d d' -> call d d'.

(** Besides the calls: edits of plans that change their policy, and writes that
    leave the work and what the triggers watch over alone (inventory). *)
Inductive step (d : db) : db -> Prop :=
| step_call d' : call d d' -> step d d'
| step_rebind newID now id input fuse :
    id <> "" -> step d (fst (run (UpdateProtectionPlan newID now id input) fuse d))
| step_edit d' : same_work d d' -> (latest_ok d -> latest_ok d') -> step d d'.

(** A store no work has been done in. *)
Definition empty_store (d : db) : Prop :=
  tasks d = ∅ /\ restore_points d = ∅ /\ reservations d = ∅ /\ latest_ok d.

(** An edit adds no plan. *)
Lemma UpdateProtectionPlan_adds_none newID now id input fuse d :
  id <> "" -> protection_plans d !! id = None ->
  protection_plans (fst (run (UpdateProtectionPlan newID now id input) fuse d)) !! id = None.
Proof.
  intros Hid%nonempty_true.
  set (R := fun d d' : db => protection_plans d !! id = None -> protection_plans d' !! id = None).
  assert (PreOrder R) by (split; unfold R; auto).
  apply (run_stable R). unfold UpdateProtectionPlan, saveProtectionPlan. rewrite Hid.
  unfold checkExistingPlan, checkApplications. tx_walk.
  all: apply stable_exec; [apply _|]; intros d0 d1 n Hn Hnone.
  - unfold update_plan_spec in Hn. rewrite Hnone in Hn. by injection Hn as <- _.
  - by injection Hn as <- _.
Qed.

Lemma call_keeps bound d d' :
  (forall q, 0 <= bound q) -> call d d' -> keeps_invariant bound d d'.
Proof.
  intros Hb [].
  - by eapply operation_keeps.
  - eapply rebinds_fresh_keeps; [done|done|].
    exact (run_stable _ _ _ _ (rebinds_CreateProtectionPlan _ _ _)).
  - pose proof (run_stable _ _ fuse d0 (rebinds_UpdateProtectionPlan newID now id input H)) as Hr.
    eapply rebinds_same_keeps; [done|exact Hr|by apply UpdateProtectionPlan_adds_none].
  - apply tame_keeps, run_stable, tame_UpdateProtectionPlanStatus. apply _.
  - apply tame_keeps, run_stable, tame_UpdateProtectionPlanStorageSize. apply _.
  - apply tame_keeps, run_stable, tame_ClearProtectionPlanTargetCluster. apply _.
  - apply tame_keeps, run_stable, tame_UpsertProtectionPlanSchedule. apply _.
  - apply tame_keeps, run_stable, tame_MarkProtectionPlanScheduleFired. apply _.
  - apply tame_keeps, run_stable, tame_DisableProtectionPlanSchedule. apply _.
  - apply DeleteProtectionPlan_keeps.
  - apply CleanupProtectionPlanRecords_keeps.
  - eapply repolicies_keeps; [done|]. exact (run_stable _ _ _ _ (repolicies_CreatePolicy _ _ _ _)).
  - by apply UpdatePolicy_keeps.
  - apply DeletePolicy_keeps.
  - apply tame_keeps, beside_tame, aside_beside; assumption.
Qed.

Lemma edit_keeps bound d d' :
  same_work d d' -> (latest_ok d -> latest_ok d') -> invariant bound d -> invariant (held d') d'.
Proof.
  intros Hw Hl I. pose proof (rebase bound d I) as Ir.
  apply (same_work_keeps (held d') d d'); [done|done| |].
  - intros _ q _ p c _ _ _. unfold held. lia.
  - destruct I. split; try done. intros q Hq p c _ _ _. unfold held.
    rewrite (slots_used_work q d d' Hw). lia.
Qed.

Lemma empty_invariant d : empty_store d -> invariant (held d) d.
Proof.
  intros (Ht & Hp & Hv & Hl). split; unfold backups_ok; rewrite ?Ht, ?Hp, ?Hv; try done.
  intros q _ p c _ _ _. unfold held. lia.
Qed.

Lemma held_nonneg d q : 0 <= held d q.
Proof. apply slots_used_nonneg. Qed.

Lemma held_empty d q : empty_store d -> held d q = 0.
Proof.
  intros (_ & Hp & Hv & _). unfold held, slots_used, live_points, reserved_slots. by rewrite Hp, Hv.
Qed.

Lemma step_invariant d d' : step d d' -> invariant (held d) d -> invariant (held d') d'.
Proof.
  intros [d1 Hc|newID now id input fuse Hid|d1 Hw Hl] I.
  - eapply rebase, call_keeps; [apply held_nonneg|done|done].
  - pose proof (run_stable _ _ fuse d (rebinds_UpdateProtectionPlan newID now id input Hid)) as H.
    eapply edit_keeps; [apply H..|done].
  - by eapply edit_keeps.
Qed.

Lemma reachable_invariant d d' : empty_store d -> rtc step d d' -> invariant (held d') d'.
Proof.
  intros Hf%empty_invariant H. induction H as [d|d d1 d2 Hs _ IH]; [done|].
  by apply IH, (step_invariant d).
Qed.

Lemma calls_keep bound d d' :
  (forall q, 0 <= bound q) -> rtc call d d' -> keeps_invariant bound d d'.
Proof.
  intros Hb H. induction H as [d|d d1 d2 Hs _ IH]; [reflexivity|].
  etrans; [by apply call_keeps|done].
Qed.


(** C3.  A plan whose count was lowered below what it holds only drains: after
    any history, edits of plans and policies included, as long as no further
    edit binds a plan to another policy, the slots it uses never exceed the
    larger of its count and what it held. *)
Theorem overfull_plan_only_drains d0 d d' q p c :
  empty_store d0 -> rtc step d0 d -> rtc call d d' -> q <> "" ->
  retention_policy_row q d' = Some p -> c_retention_count p = Some c -> 0 < c ->
  slots_used q d' <= Z.max c (slots_used q d).
Proof.
  intros Hf H0 H Hq Hp Hc Hpos.
  pose proof (calls_keep _ _ _ (held_nonneg d) H (reachable_invariant _ _ Hf H0)) as I.
  exact (inv_slots _ _ I q Hq p c Hp Hc Hpos).
Qed.

(** C4.  In every reachable state each reservation belongs to a backup task of its
    plan and names at most a point of that plan; it is released, still holds its
    slot, or its task has succeeded with an accepted result and names a point of
    the plan; and no point is being replaced by two backups. *)
Theorem reservation_discipline d0 d id v :
  empty_store d0 -> rtc step d0 d -> reservations d !! id = Some v ->
  (exists t, tasks d !! id = Some t /\ t_type t = "backup" /\
     t_protection_plan_id t = Some (v_protection_plan_id v) /\
     (active_reservation v = true \/ v_state v = "released" \/
      settled t /\ names_own (v_protection_plan_id v) t d)) /\
  (forall pid, v_replacement_point_id v = Some pid ->
     (exists r, restore_points d !! pid = Some r /\ of_plan (v_protection_plan_id v) r = true) /\
     (active_reservation v = true -> forall id' v', reservations d !! id' = Some v' ->
        active_reservation v' = true -> v_replacement_point_id v' = Some pid -> id' = id)).
Proof.
  intros Hf H Hv. pose proof (reachable_invariant _ _ Hf H) as I.
  split; [by apply (inv_owner _ _ I)|]. intros pid Hpid.
  split; [by eapply (inv_replaces _ _ I)|]. intros Ha id' v' Hv' Ha' Hpid'.
  by eapply (inv_exclusive _ _ I).
Qed.

(** ** Refinement of the reservation machine *)

Lemma same_work_refines d d' : same_work d d' -> reservations_refine d d'.
Proof. intros (_ & _ & H) k. rewrite H. by destruct (reservations d !! k). Qed.

Lemma archived_refines id d d' v k :
  plan_archived id d d' -> reservations d !! k = Some v ->
  reservations d' !! k = Some v \/
  reservations d' !! k = None /\ protection_plans d' !! v_protection_plan_id v = None.
Proof.
  intros Ha Hv. rewrite (pa_reservations _ _ _ Ha), (pa_plans _ _ _ Ha).
  destruct (decide (v_protection_plan_id v = id)) as [Heq|Hne]; [right|left].
  - rewrite Heq. split; [|apply lookup_delete_eq]. apply map_lookup_filter_None. right.
    intros w Hw Hn. apply Hn. congruence.
  - by apply map_lookup_filter_Some.
Qed.

(** What a call does to a reservation: it advances, or goes with its plan. *)
Definition advances_or_goes (d d' : db) : Prop :=
  forall id, match reservations d !! id, reservations d' !! id with
             | Some v, Some v' => advances v v'
             | None, Some v' => appears v'
             | Some v, None => protection_plans d' !! v_protection_plan_id v = None
             | None, None => True
             end.

Lemma refines_goes d d' : reservations_refine d d' -> advances_or_goes d d'.
Proof. intros H k. specialize (H k). by destruct (reservations d !! k), (reservations d' !! k). Qed.

Lemma archived_goes id d d' : plan_archived id d d' -> advances_or_goes d d'.
Proof.
  intros Ha k. destruct (reservations d !! k) as [v|] eqn:Hv.
  - destruct (archived_refines id d d' v k Ha Hv) as [->|[-> ?]]; [reflexivity|done].
  - destruct (reservations d' !! k) as [v'|] eqn:Hv'; [|done].
    rewrite (pa_reservations _ _ _ Ha) in Hv'. apply map_lookup_filter_Some in Hv' as [Hv' _].
    congruence.
Qed.

(** What is left of the store does not depend on what becomes of applications. *)
Lemma set_applications_rest d x :
  reservations (set_applications d x) = reservations d /\
  protection_plans (set_applications d x) = protection_plans d /\
  schedules (set_applications d x) = schedules d /\
  plan_apps (set_applications d x) = plan_apps d /\
  tasks (set_applications d x) = tasks d /\
  restore_points (set_applications d x) = restore_points d.
Proof. done. Qed.

#[local] Opaque cleaned set_applications.

Lemma cleaned_goes bound id d apps :
  invariant bound d -> advances_or_goes d (set_applications (cleaned id d) apps).
Proof.
  intros I k. destruct (set_applications_rest (cleaned id d) apps) as (-> & -> & _).
  destruct (reservations (cleaned id d) !! k) as [v'|] eqn:Hv'.
  - destruct (cleaned_reservation id d bound I k v' Hv') as (v & -> & Hplan & _ & Hst & Hrep & Hpend).
    unfold advances. rewrite Hst, Hplan, Hrep, Hpend. by split_and!.
  - destruct (reservations d !! k) as [v|] eqn:Hv; [|done].
    destruct (decide (v_protection_plan_id v = id)) as [->|Hne]; [apply cleaned_plan|].
    destruct (inv_owner _ _ I k v Hv) as (t & Ht & _ & Hplan & _).
    destruct (kept_reservation id d k v Hv Hne) as (v' & Hk & _).
    + intros t0 Ht0. assert (t0 = t) as -> by congruence. unfold task_of_plan. rewrite Hplan.
      by apply seqb_false.
    + congruence.
Qed.

Lemma call_advances bound d d' : invariant bound d -> call d d' -> advances_or_goes d d'.
Proof.
  intros I Hc. revert I. destruct Hc as [d1 d2 Hop|newID now input fuse d1|newID now id input fuse d1 Hid|now id status fuse d1|
    now id size fuse d1|now id target fuse d1|now input fuse d1|now input fuse d1|now id fuse d1|
    id fuse d1|id fuse d1|newID now input fuse d1|now id input fuse d1|id fuse d1|d1 d2 Ha]; intros I.
  - eapply refines_goes, operation_refines, Hop.
  - eapply refines_goes, same_work_refines.
    exact (rb_work _ _ _ _ (run_stable _ _ _ _ (rebinds_CreateProtectionPlan _ _ _))).
  - pose proof (run_stable _ _ fuse d1 (rebinds_UpdateProtectionPlan newID now id input Hid)) as Hr.
    eapply refines_goes, same_work_refines, Hr.
  - apply refines_goes, (run_stable _ _ fuse d1 (refines_UpdateProtectionPlanStatus now id status)).
  - apply refines_goes, (run_stable _ _ fuse d1 (refines_UpdateProtectionPlanStorageSize now id size)).
  - apply refines_goes,
      (run_stable _ _ fuse d1 (refines_ClearProtectionPlanTargetCluster now id target)).
  - apply refines_goes, (run_stable _ _ fuse d1 (refines_UpsertProtectionPlanSchedule now input)).
  - apply refines_goes, (run_stable _ _ fuse d1 (refines_MarkProtectionPlanScheduleFired now input)).
  - apply refines_goes, (run_stable _ _ fuse d1 (refines_DisableProtectionPlanSchedule now id)).
  - destruct (DeleteProtectionPlan_publishes id d1 fuse) as [->|Ha];
      [by apply refines_goes|by eapply archived_goes].
  - destruct (CleanupProtectionPlanRecords_publishes id fuse d1) as [->|[apps ->]];
      [by apply refines_goes|by eapply cleaned_goes].
  - apply refines_goes, (run_stable _ _ fuse d1 (refines_CreatePolicy LoadLocation newID now input)).
  - apply refines_goes, (run_stable _ _ fuse d1 (refines_UpdatePolicy LoadLocation now id input)).
  - apply refines_goes, (run_stable _ _ fuse d1 (refines_DeletePolicy id)).
  - apply refines_goes. intros k. rewrite (beside_reservations _ _ (aside_beside _ _ Ha)).
    by destruct (reservations d1 !! k).
Qed.

(** C5.  In every reachable state every call of the store, wherever its statements
    fail, refines the reservation machine: each reservation goes along the moves
    none to reserved, reserved to data_ready or released, data_ready to deleting,
    and any of reserved, data_ready and deleting to published, keeping its plan,
    the point it replaces and the result it holds; it disappears only with its
    plan. *)
Theorem calls_refine_the_reservation_machine d0 d d' id :
  empty_store d0 -> rtc step d0 d -> call d d' ->
  (path (v_state <$> reservations d !! id) (v_state <$> reservations d' !! id) /\
   forall v, reservations d !! id = Some v -> exists v',
     reservations d' !! id = Some v' /\
     v_protection_plan_id v' = v_protection_plan_id v /\
     v_replacement_point_id v' = v_replacement_point_id v /\
     (v_pending_point v <> None -> v_pending_point v' <> None)) \/
  exists v, reservations d !! id = Some v /\ reservations d' !! id = None /\
    protection_plans d' !! v_protection_plan_id v = None.
Proof.
  intros Hf H0 Hc. pose proof (call_advances _ _ _ (reachable_invariant _ _ Hf H0) Hc id) as H.
  destruct (reservations d !! id) as [v|], (reservations d' !! id) as [v'|]; cbn in *.
  - destruct H as (Hpath & Hrest). left. split; [done|]. intros w [= <-]. by exists v'.
  - right. by exists v.
  - by left.
  - left. split; [reflexivity|done].
Qed.

(** ** Removing a plan *)

(** C6.  Removing a plan with everything it protected cannot be blocked: in every
    reachable state no constraint and no trigger refuses it, it succeeds when no
    statement fails, nothing of the plan is left (plan, schedule, applications,
    tasks, restore points, reservations), and every row of other plans stays, but
    for the restore point of tasks that named one of its points. *)
Theorem cleanup_removes_exactly_the_plan d0 d id p :
  empty_store d0 -> rtc step d0 d -> protection_plans d !! id = Some p ->
  exists d' item, run (CleanupProtectionPlanRecords id) None d = (d', inr (Some item)) /\
    (protection_plans d' !! id = None /\ schedules d' !! id = None /\
     (forall app, plan_apps d' !! (id, app) = None) /\
     (forall k t, tasks d' !! k = Some t -> task_of_plan id t = false) /\
     (forall k r, restore_points d' !! k = Some r -> of_plan id r = false) /\
     (forall k v, reservations d' !! k = Some v -> v_protection_plan_id v <> id)) /\
    (forall q, q <> id -> protection_plans d' !! q = protection_plans d !! q /\
       schedules d' !! q = schedules d !! q /\
       forall app, plan_apps d' !! (q, app) = plan_apps d !! (q, app)) /\
    (forall k t, tasks d !! k = Some t -> task_of_plan id t = false ->
       tasks d' !! k = Some (if names_point_of id d t then task_without_point t else t)) /\
    (forall k r, restore_points d !! k = Some r -> of_plan id r = false ->
       restore_points d' !! k = Some r) /\
    (forall k v, reservations d !! k = Some v -> v_protection_plan_id v <> id ->
       exists v', reservations d' !! k = Some v' /\ v_state v' = v_state v /\
         v_protection_plan_id v' = v_protection_plan_id v /\
         v_pending_point v' = v_pending_point v).
Proof.
  intros Hf H0 Hp. pose proof (reachable_invariant _ _ Hf H0) as I.
  destruct (cleanup_run id d (inv_backups _ _ I) (inv_latest _ _ I) p Hp)
    as (d' & item & Hrun & apps & ->).
  eexists _, item. split; [exact Hrun|]. split; [by apply nothing_left|].
  destruct (set_applications_rest (cleaned id d) apps) as (-> & -> & -> & -> & -> & ->).
  split; [intros q Hq; by apply (others_left id d (inv_latest _ _ I))|].
  split; [intros k t; apply kept_task|].
  split; [intros k r; apply kept_point|].
  intros k v Hv Hne. apply kept_reservation; [done|done|]. intros t Ht.
  destruct (inv_owner _ _ I k v Hv) as (t0 & Ht0 & _ & Hplan & _).
  assert (t0 = t) as -> by congruence. unfold task_of_plan. rewrite Hplan. by apply seqb_false.
Qed.

End system.
