(* ===== verification/Handlers.v ===== *)
(** The calls handlers make to the store, and what handlers are allowed to do to
    it: whatever a handler does, and whatever other requests, agents and platform
    processes do meanwhile, the store only moves by calls of [System]. *)

From S2P Require Import Prelude Calendar Timestamp Value Types Wire Messages Codec Retention Session.
From S2P Require Import Database Control Events Fleet Storage Catalog Commands Quota Tasks.
From S2P Require Import RestorePoints Plans Policies Bindings Dispatch Lifecycle LifeCycleRefinement.
From S2P Require Import PlanLifecycle System.

Section handlers.
Context (LoadLocation : string -> option location).
Context (diagnosticWriter : option (DiagnosticLogInput -> option error)).

Definition create_task (input : TaskInput) : ctl (failure + Task) :=
  store (fun id now => CreateTask LoadLocation id now input).
Definition add_task_event (input : TaskEventInput) : ctl unit :=
  ignore (add_event diagnosticWriter input).
Definition update_plan_status (id status : string) : ctl (failure + option ProtectionPlan) :=
  store (fun _ now => UpdateProtectionPlanStatus now id status).
Definition upsert_binding_row (input : ClusterStorageBindingInput)
    : ctl (failure + ClusterStorageBinding) :=
  store (fun id now => UpsertClusterStorageBinding id now input).
Definition update_binding_row (input : ClusterStorageBindingStatusInput)
    : ctl (failure + option ClusterStorageBinding) :=
  store (fun _ now => UpdateClusterStorageBindingStatus now input).

(** The handlers of this development: others may do anything the system's calls do. *)
Definition safe {A} (m : ctl A) : Prop := stays_in (call LoadLocation) m.

(** The states of the running system, which its calls keep. *)
Definition sound (d : db) : Prop := exists bound, (forall q, 0 <= bound q) /\ invariant bound d.

Lemma sound_kept d d' : rtc (call LoadLocation) d d' -> sound d -> sound d'.
Proof.
  intros H (bound & Hb & I). exists bound. split; [done|].
  by apply (calls_keep LoadLocation bound d d' Hb H).
Qed.

Definition safe_from {A} (m : ctl A) : Prop := stays_from sound (call LoadLocation) m.

Lemma safe_operation {A} (op : string -> time -> tx db A) :
  (forall id now fuse d, id <> "" -> operation LoadLocation d (fst (run (op id now) fuse d))) ->
  safe (store op).
Proof. intros H. apply stays_store. intros. by apply call_work, H. Qed.

Lemma safe_aside {A} (op : string -> time -> tx db A) :
  (forall id now fuse d, aside d (fst (run (op id now) fuse d))) -> safe (store op).
Proof. intros H. apply stays_store. intros. apply call_aside, H. Qed.

Lemma safe_create_task input : plain_input input -> safe (create_task input).
Proof. intros H. apply safe_operation. intros. by apply op_create. Qed.

Lemma safe_update_task_status input : plain_report input -> safe (update_task_status input).
Proof. intros H. apply safe_operation. intros. by apply op_report. Qed.

Lemma safe_report taskID status progress code message done :
  safe (update_task_status (report taskID status progress code message done)).
Proof. by apply safe_update_task_status. Qed.

Lemma safe_add_event input : safe (add_event diagnosticWriter input).
Proof.
  apply stays_bind; [apply stays_ask|]. intros logID. apply safe_aside. intros. apply aside_event.
Qed.

Lemma safe_add_task_event input : safe (add_task_event input).
Proof. apply stays_ignore, safe_add_event. Qed.

Lemma safe_update_plan_status id status : safe (update_plan_status id status).
Proof. apply stays_store. intros. apply call_plan_status. Qed.

Lemma safe_upsert_binding_row input : safe (upsert_binding_row input).
Proof. apply safe_aside. intros. apply aside_binding. Qed.

Lemma safe_update_binding_row input : safe (update_binding_row input).
Proof. apply safe_aside. intros. apply aside_binding_status. Qed.

Lemma quiet_GetProtectionPlan id : quiet (GetProtectionPlan id).
Proof. unfold GetProtectionPlan. tx_walk. Qed.
Lemma quiet_ListProtectionPlans id : quiet (ListProtectionPlans id).
Proof. unfold ListProtectionPlans. tx_walk. Qed.
Lemma quiet_ListPolicies : quiet ListPolicies.
Proof. unfold ListPolicies. tx_walk. Qed.
Lemma quiet_GetProtectionPlanSchedule id : quiet (GetProtectionPlanSchedule id).
Proof. unfold GetProtectionPlanSchedule. tx_walk. Qed.
Lemma quiet_ListDue now : quiet (ListDueProtectionPlanSchedules now).
Proof. unfold ListDueProtectionPlanSchedules. tx_walk. Qed.
Lemma quiet_listTasks filter : quiet (listTasks filter).
Proof. unfold listTasks. tx_walk. Qed.
Lemma quiet_ListTaskEvents id : quiet (ListTaskEvents id).
Proof. unfold ListTaskEvents. tx_walk. Qed.
Lemma quiet_ListRestorePoints filter : quiet (ListRestorePoints filter).
Proof. unfold ListRestorePoints. tx_walk. Qed.

End handlers.

#[export] Hint Resolve quiet_GetProtectionPlan quiet_ListProtectionPlans quiet_ListPolicies
  quiet_GetProtectionPlanSchedule quiet_ListDue quiet_listTasks quiet_ListTaskEvents
  quiet_ListRestorePoints : tx.
#[export] Hint Extern 5 (stays_in _ (store _)) => apply stays_read; intros; solve [auto with tx] : ctl.
#[export] Hint Extern 3 (stays_in _ (list_tasks _)) =>
  apply stays_read; intros; unfold ListTasks; solve [auto with tx] : ctl.
(** A literal payload without a result. *)
Ltac plain_payload :=
  unfold plain_input, plain_report; cbn [ti_Payload tsi_Payload];
  repeat (rewrite lookup_insert_ne by discriminate);
  first [apply lookup_empty | apply lookup_singleton_ne; discriminate | eassumption].

#[export] Hint Extern 3 (stays_in _ (create_task _ _)) =>
  apply safe_create_task; plain_payload : ctl.
#[export] Hint Extern 3 (stays_in _ (update_task_status (report _ _ _ _ _ _))) =>
  apply safe_report : ctl.
#[export] Hint Extern 4 (stays_in _ (update_task_status _)) =>
  apply safe_update_task_status; plain_payload : ctl.
#[export] Hint Extern 3 (stays_in _ (add_event _ _)) => apply safe_add_event : ctl.
#[export] Hint Extern 3 (stays_in _ (add_task_event _ _)) => apply safe_add_task_event : ctl.
#[export] Hint Extern 3 (stays_in _ (update_plan_status _ _)) => apply safe_update_plan_status : ctl.
#[export] Hint Extern 3 (stays_in _ (upsert_binding_row _)) => apply safe_upsert_binding_row : ctl.
#[export] Hint Extern 3 (stays_in _ (update_binding_row _)) => apply safe_update_binding_row : ctl.

(** Walk through a handler of the platform. *)
Ltac handler_walk := unfold safe in *; ctl_walk.

Section dispatch.
Context (LoadLocation : string -> option location).
Context (diagnosticWriter : option (DiagnosticLogInput -> option error)).
Notation safe := (safe LoadLocation).

Lemma safe_addTaskEventIfChanged input : safe (addTaskEventIfChanged diagnosticWriter input).
Proof. unfold addTaskEventIfChanged. handler_walk. Qed.

Lemma safe_findTask id : safe (findTask id).
Proof. unfold findTask. handler_walk. Qed.

Lemma safe_waitForTaskSucceeded id timeout : safe (waitForTaskSucceeded id timeout).
Proof.
  induction timeout as [|n IH]; cbn; (apply stays_bind; [apply safe_findTask|]); handler_walk.
Qed.

Lemma safe_task_command task deadline : safe (task_command task deadline).
Proof.
  unfold task_command, storage_sync_command, scheduleSyncCommandFromPayload, restore_readiness.
  handler_walk.
Qed.

Lemma safe_buildStoredTaskDispatch task : safe (buildStoredTaskDispatch task).
Proof.
  unfold buildStoredTaskDispatch. pose proof (safe_task_command task) as H. handler_walk.
Qed.

Lemma safe_dispatchStoredTask conn task : safe (dispatchStoredTask conn task).
Proof.
  unfold dispatchStoredTask, write_message. pose proof (safe_buildStoredTaskDispatch task) as H.
  handler_walk.
Qed.

Lemma safe_isStorageAlreadySynced c n r s : safe (isStorageAlreadySynced c n r s).
Proof. unfold isStorageAlreadySynced. handler_walk. Qed.

Lemma safe_resumeQueuedStoragePreflight task : safe (resumeQueuedStoragePreflight task).
Proof.
  unfold resumeQueuedStoragePreflight, resume_preflight.
  pose proof safe_isStorageAlreadySynced as H. handler_walk.
Qed.

Lemma safe_redispatch_all conn tasks : safe (redispatch_all diagnosticWriter conn tasks).
Proof.
  induction tasks as [|task tasks IH]; [apply stays_ret|]. cbn [redispatch_all].
  unfold redispatch_one, redispatch. pose proof (safe_resumeQueuedStoragePreflight task) as H.
  pose proof (safe_dispatchStoredTask conn task) as H'. handler_walk.
Qed.

Lemma safe_redispatchPendingTasks clusterID :
  safe (redispatchPendingTasks diagnosticWriter clusterID).
Proof. unfold redispatchPendingTasks. pose proof safe_redispatch_all as H. handler_walk. Qed.

End dispatch.

#[export] Hint Extern 3 (stays_in _ (addTaskEventIfChanged _ _)) =>
  apply safe_addTaskEventIfChanged : ctl.
#[export] Hint Extern 3 (stays_in _ (findTask _)) => apply safe_findTask : ctl.
#[export] Hint Extern 3 (stays_in _ (waitForTaskSucceeded _ _)) =>
  apply safe_waitForTaskSucceeded : ctl.
#[export] Hint Extern 3 (stays_in _ (dispatchStoredTask _ _)) => apply safe_dispatchStoredTask : ctl.
#[export] Hint Extern 3 (stays_in _ (isStorageAlreadySynced _ _ _ _)) =>
  apply safe_isStorageAlreadySynced : ctl.
