(* ===== verification/StorageSync.v ===== *)
(** Configuring storage on clusters: the sync tasks of
    backend/internal/httpserver/storage_sync.go, their results recorded in the
    binding, and the retries of protection_activation.go. *)

From S2P Require Import Prelude Calendar Timestamp Value Types Wire Messages Codec Retention Session.
From S2P Require Import Database Control Events Fleet Storage Catalog Commands Quota Tasks.
From S2P Require Import RestorePoints Plans Policies Bindings Dispatch System Handlers.

Definition storageSyncMaxAttempts : Z := 3.
Definition protectionPlanActivationTaskTimeout : Z := 90 * second.

(** [store.Task{}]. *)
Definition zero_task : Task :=
  {| task_ID := ""; task_TenantID := ""; task_ClusterID := ""; task_AppID := "";
     task_ProtectionPlanID := ""; task_RestorePointID := ""; task_Type := ""; task_Status := "";
     task_Progress := 0; task_CommandID := ""; task_ErrorCode := ""; task_ErrorMessage := "";
     task_Payload := ∅; task_CreatedAt := zero_time; task_DispatchedAt := zero_time;
     task_AcceptedAt := zero_time; task_StartedAt := zero_time; task_CompletedAt := zero_time |}.

Definition task_of (r : failure + option Task) : Task :=
  match r with inr (Some task) => task | _ => zero_task end.

Section sync.
Context (LoadLocation : string -> option location).
Context (diagnosticWriter : option (DiagnosticLogInput -> option error)).

Notation add_task_event := (add_task_event diagnosticWriter).

(** ** Creating and sending a sync task *)

Definition sync_payload (repo : StorageRepository) (bslName objectPrefix sourceClusterID : string)
    (binding : ClusterStorageBinding) (activationAttempt activationRole : string)
    (reconfigureStorage : bool) (retryAttempt : Z) : document :=
  let payload :=
    {[ "repositoryId" := VStr (repo_ID repo); "name" := VStr bslName;
       "displayName" := VStr (repo_Name repo); "sourceClusterId" := VStr sourceClusterID;
       "objectPrefix" := VStr objectPrefix; "type" := VStr (repo_Type repo);
       "endpoint" := VStr (repo_Endpoint repo); "bucket" := VStr (repo_Bucket repo);
       "region" := VStr (normalizedStorageRegion (repo_Type repo) (repo_Region repo));
       "tlsEnabled" := VBool (repo_TLSEnabled repo); "secretRef" := VStr (repo_SecretRef repo);
       "hasSecret" := VBool (negb (bool_decide (repo_Secret repo = ∅)));
       "config" := VObj (storageConfigWithPrefix repo objectPrefix) ]} : document in
  let payload := <["bindingId" := VStr (csb_ID binding)]> payload in
  let payload :=
    if nonempty activationAttempt then
      <["activationAttempt" := VStr activationAttempt]>
        (<["retryAttempt" := VNum retryAttempt]>
          (<["maxAttempts" := VNum storageSyncMaxAttempts]> payload))
    else payload in
  let payload :=
    if nonempty activationRole then <["activationRole" := VStr activationRole]> payload
    else payload in
  if reconfigureStorage then <["reconfigureStorage" := VBool true]> payload else payload.

Definition sync_task_input (clusterID protectionPlanID commandID : string) (payload : document)
    : TaskInput :=
  {| ti_TenantID := ""; ti_ClusterID := clusterID; ti_AppID := "";
     ti_ProtectionPlanID := protectionPlanID; ti_RestorePointID := ""; ti_Type := "storage-sync";
     ti_Status := "queued"; ti_CommandID := commandID; ti_Payload := payload;
     ti_SuppressLatestPointer := false |}.

Definition sync_message (id clusterID commandID : string) (timestamp deadline : time)
    (task : Task) (command : value) : Message :=
  {| m_Version := Version; m_MessageID := id; m_MessageKind := MessageKindRequest;
     m_Type := MessagePlatformTaskDispatch; m_TenantID := ""; m_ClusterID := clusterID;
     m_AgentID := ""; m_Timestamp := timestamp;
     m_Payload := struct TaskDispatchPayload
       [("taskId", VStr (task_ID task)); ("commandId", VStr commandID);
        ("type", VStr "storage-sync"); ("deadline", time_value (deadline + ten_minutes));
        ("storageSync", command)] |}.

(** The task, and what keeps it from running. *)
Definition send_sync_task (clusterID commandID : string) (task : Task) (command : value)
    : ctl (Task * string) :=
  connected ← hub_get clusterID;
  if negb connected then
    ignore (update_task_status
      (report (task_ID task) "queued" 0 "AGENT_OFFLINE" "agent is not connected" false));;
    mret (task, "agent is offline; task remains queued")
  else
    messageID ← NewPublicID;
    timestamp ← time_now;
    deadline ← time_now;
    written ← write_message clusterID
      (sync_message messageID clusterID commandID timestamp deadline task command);
    match written with
    | inl err =>
        message ← error_message err;
        ignore (update_task_status
          (report (task_ID task) "queued" 0 "DISPATCH_FAILED" message false));;
        mret (task, "task created but dispatch failed")
    | inr _ =>
        updated ← update_task_status (report (task_ID task) "dispatched" 0 "" "" false);
        mret (task_of updated, "")
    end.

Definition dispatchStorageSyncTaskForPlanActivationAttempt
    (clusterID repositoryID protectionPlanID sourceClusterID activationAttempt activationRole : string)
    (reconfigureStorage : bool) (retryAttempt : Z) : ctl (failure + Task * string) :=
  found ← store (fun _ _ => GetStorageRepository repositoryID);
  or_return found (fun found =>
    match found with
    | None => mret (inl (Failure "storage repository not found"))
    | Some repo =>
        let sourceClusterID := or_else sourceClusterID clusterID in
        let bslName := storageDomainBSLName repo sourceClusterID in
        let objectPrefix := storageDomainPrefix (repo_TenantID repo) sourceClusterID in
        binding ← upsert_binding_row
          {| csbi_ClusterID := clusterID; csbi_StorageRepoID := repo_ID repo;
             csbi_SourceClusterID := sourceClusterID; csbi_BSLName := bslName;
             csbi_ObjectPrefix := objectPrefix; csbi_Status := "configuring";
             csbi_RetryCount := retryAttempt; csbi_RepoUpdatedAt := repo_UpdatedAt repo |};
        or_return binding (fun binding =>
          commandID ← NewPublicID;
          created ← create_task LoadLocation (sync_task_input clusterID protectionPlanID commandID
            (sync_payload repo bslName objectPrefix sourceClusterID binding activationAttempt
               activationRole reconfigureStorage retryAttempt));
          or_return created (fun task =>
            sent ← send_sync_task clusterID commandID task
              (storage_sync repo bslName (storageConfigWithPrefix repo objectPrefix));
            mret (inr sent)))
    end).

Definition dispatchStorageSyncTaskForPlanActivation (clusterID repositoryID protectionPlanID
    activationAttempt activationRole : string) (reconfigureStorage : bool)
    : ctl (failure + Task * string) :=
  dispatchStorageSyncTaskForPlanActivationAttempt clusterID repositoryID protectionPlanID clusterID
    activationAttempt activationRole reconfigureStorage 1.

Definition dispatchStorageSyncTaskForPlan (clusterID repositoryID protectionPlanID : string)
    : ctl (failure + Task * string) :=
  dispatchStorageSyncTaskForPlanActivation clusterID repositoryID protectionPlanID "" "" false.

Definition dispatchStorageSyncTask (clusterID repositoryID : string)
    : ctl (failure + Task * string) :=
  dispatchStorageSyncTaskForPlan clusterID repositoryID "".

(** ** Waiting for it *)

Definition findStorageRepositoryByName (name : string) : ctl (failure + option StorageRepository) :=
  repos ← store (fun _ _ => ListStorageRepositories);
  or_return repos (fun repos => mret (inr (find_first (fun r => repo_Name r =s name) repos))).

(** A sync that is sent is waited for: two minutes. *)
Definition wait_for_sync (sent : Task * string) : ctl (Task * option failure) :=
  let '(task, warning) := sent in
  if nonempty warning then mret (task, Some (Failure warning))
  else
    done ← waitForTaskSucceeded (task_ID task) 120;
    mret (task, match done with inl err => Some err | inr _ => None end).

(** The task and the error. *)
Definition ensureStorageSynced (clusterID storageName repositoryID sourceClusterID : string)
    : ctl (Task * option failure) :=
  stop ← stopping;
  if stop : bool then mret (zero_task, Some (Failure "context canceled"))
  else
    repository ←
      (if nonempty repositoryID then mret (inr repositoryID)
       else
         found ← findStorageRepositoryByName storageName;
         or_return found (fun found =>
           mret match found with
                | Some repo => inr (repo_ID repo)
                | None => inl (Failure ("storage repository " +:+ storageName +:+ " not found"))
                end));
    match repository with
    | inl err => mret (zero_task, Some err)
    | inr repositoryID =>
        sent ← dispatchStorageSyncTaskForPlanActivationAttempt clusterID repositoryID ""
          (or_else sourceClusterID clusterID) "" "" false 1;
        match sent with
        | inl err => mret (zero_task, Some err)
        | inr sent => wait_for_sync sent
        end
    end.

(** ** Recording its result *)

Definition binding_status (task : Task) (sourceClusterID status : string) (synced success : time)
    (code message : string) (repoUpdatedAt : time) : ClusterStorageBindingStatusInput :=
  {| cssi_ClusterID := task_ClusterID task;
     cssi_StorageRepoID := taskPayloadString (task_Payload task) "repositoryId";
     cssi_SourceClusterID := sourceClusterID; cssi_Status := status;
     cssi_RetryCount := taskPayloadInt (task_Payload task) "retryAttempt";
     cssi_LastSyncedAt := synced; cssi_LastSuccessAt := success; cssi_LastErrorCode := code;
     cssi_LastErrorMessage := message; cssi_RepoUpdatedAt := repoUpdatedAt |}.

Definition sync_source (task : Task) : string :=
  or_else (taskPayloadString (task_Payload task) "sourceClusterId") (task_ClusterID task).

Definition markClusterStorageBindingReady (task : Task) : ctl unit :=
  let repositoryID := taskPayloadString (task_Payload task) "repositoryId" in
  if negb (nonempty (task_ClusterID task)) || negb (nonempty repositoryID) then mret tt
  else
    let source := sync_source task in
    found ← store (fun _ _ => GetStorageRepository repositoryID);
    match found with
    | inr (Some repo) =>
        clock ← time_now;
        let now := if task_CompletedAt task =? zero_time then clock else task_CompletedAt task in
        let ready := binding_status task source "ready" now now "" "" (repo_UpdatedAt repo) in
        updated ← update_binding_row ready;
        match updated with
        | inr None =>
            ignore (upsert_binding_row
              {| csbi_ClusterID := task_ClusterID task; csbi_StorageRepoID := repositoryID;
                 csbi_SourceClusterID := source;
                 csbi_BSLName := taskPayloadString (task_Payload task) "name";
                 csbi_ObjectPrefix := taskPayloadString (task_Payload task) "objectPrefix";
                 csbi_Status := "ready";
                 csbi_RetryCount := taskPayloadInt (task_Payload task) "retryAttempt";
                 csbi_RepoUpdatedAt := repo_UpdatedAt repo |});;
            ignore (update_binding_row ready)
        | _ => mret tt
        end
    | _ => mret tt
    end.

Definition markClusterStorageBindingFailed (task : Task) (code message : string) : ctl unit :=
  let repositoryID := taskPayloadString (task_Payload task) "repositoryId" in
  if negb (nonempty (task_ClusterID task)) || negb (nonempty repositoryID) then mret tt
  else
    found ← store (fun _ _ => GetStorageRepository repositoryID);
    match found with
    | inl _ => mret tt
    | inr repo =>
        now ← time_now;
        ignore (update_binding_row (binding_status task (sync_source task) "failed" now zero_time
          code message (default zero_time (repo_UpdatedAt <$> repo))))
    end.

(** ** Retrying it *)

Definition retry_attempt (task : Task) : Z :=
  let attempt := taskPayloadInt (task_Payload task) "retryAttempt" in
  if attempt <=? 0 then 1 else attempt.

Definition max_attempts (task : Task) : Z :=
  let most := taskPayloadInt (task_Payload task) "maxAttempts" in
  if most <=? 0 then storageSyncMaxAttempts else most.

Definition retry_events (task nextTask : Task) (role : string) (attempt most : Z)
    (failureMessage warning : string) : TaskEventInput * TaskEventInput :=
  let count := sprint_num (attempt + 1) +:+ "/" +:+ sprint_num most in
  let message := "Storage sync failed; retrying attempt " +:+ count +:+ "." in
  let message := if nonempty failureMessage
    then message +:+ " Last error: " +:+ failureMessage else message in
  let message := if nonempty warning then message +:+ " " +:+ warning else message in
  (event (task_ID task) "warning" "storage_sync_retry_scheduled" message
     {[ "nextTaskId" := VStr (task_ID nextTask); "retryAttempt" := VNum (attempt + 1);
        "maxAttempts" := VNum most; "activationRole" := VStr role ]},
   event (task_ID nextTask) "info" "storage_sync_retry"
     ("Storage sync retry attempt " +:+ count +:+ ".")
     {[ "previousTaskId" := VStr (task_ID task); "retryAttempt" := VNum (attempt + 1);
        "maxAttempts" := VNum most; "activationRole" := VStr role ]}).

Definition retryStorageSyncTask (task : Task) (failureMessage : string) : ctl bool :=
  let payload := task_Payload task in
  let attemptID := taskPayloadString payload "activationAttempt" in
  let attempt := retry_attempt task in
  let most := max_attempts task in
  let repositoryID := taskPayloadString payload "repositoryId" in
  if negb (nonempty attemptID) || (most <=? attempt) || negb (nonempty repositoryID)
  then mret false
  else
    let role := taskPayloadString payload "activationRole" in
    next ← dispatchStorageSyncTaskForPlanActivationAttempt (task_ClusterID task) repositoryID
      (task_ProtectionPlanID task) (sync_source task) attemptID role
      (taskPayloadBool payload "reconfigureStorage") (attempt + 1);
    match next with
    | inl _ => mret false
    | inr (nextTask, warning) =>
        let '(scheduled, retried) :=
          retry_events task nextTask role attempt most failureMessage warning in
        add_task_event scheduled;; add_task_event retried;; mret true
    end.

Notation safe := (safe LoadLocation).

Lemma sync_payload_plain repo b p s x a r reconf n :
  sync_payload repo b p s x a r reconf n !! "backupResult" = None.
Proof.
  unfold sync_payload. cbv zeta. destruct (nonempty a), (nonempty r), reconf; plain_payload.
Qed.

Lemma safe_send_sync_task c id task v : safe (send_sync_task c id task v).
Proof. unfold send_sync_task, write_message. handler_walk. Qed.

Lemma safe_dispatch_sync c r p s a role reconf n :
  safe (dispatchStorageSyncTaskForPlanActivationAttempt c r p s a role reconf n).
Proof.
  unfold dispatchStorageSyncTaskForPlanActivationAttempt. pose proof safe_send_sync_task as H.
  handler_walk. apply safe_create_task. apply sync_payload_plain.
Qed.

Lemma safe_ensureStorageSynced c n r s : safe (ensureStorageSynced c n r s).
Proof.
  unfold ensureStorageSynced, findStorageRepositoryByName, wait_for_sync.
  pose proof safe_dispatch_sync as H. handler_walk.
Qed.

Lemma safe_markReady task : safe (markClusterStorageBindingReady task).
Proof. unfold markClusterStorageBindingReady. handler_walk. Qed.

Lemma safe_markFailed task code message : safe (markClusterStorageBindingFailed task code message).
Proof. unfold markClusterStorageBindingFailed. handler_walk. Qed.

Lemma safe_retry task message : safe (retryStorageSyncTask task message).
Proof. unfold retryStorageSyncTask. pose proof safe_dispatch_sync as H. handler_walk. Qed.

End sync.

#[export] Hint Extern 3 (stays_in _ (ensureStorageSynced _ _ _ _ _)) =>
  apply safe_ensureStorageSynced : ctl.
#[export] Hint Extern 3 (stays_in _ (markClusterStorageBindingReady _)) => apply safe_markReady : ctl.
#[export] Hint Extern 3 (stays_in _ (markClusterStorageBindingFailed _ _ _)) =>
  apply safe_markFailed : ctl.
#[export] Hint Extern 3 (stays_in _ (retryStorageSyncTask _ _ _ _)) => apply safe_retry : ctl.
