(* ===== verification/SyncRetries.v ===== *)
(** A failed storage sync is retried by a new task, which may fail and be retried in
    turn (retryStorageSyncTask of backend/internal/httpserver/storage_sync.go): that
    this ends, as a well-founded relation between a task and what retries it. *)

From S2P Require Import Prelude Calendar Timestamp Value Types Retention Session Database Control.
From S2P Require Import Events Fleet Commands Quota Tasks Bindings Dispatch System Handlers StorageSync.

(** ** The payloads of new tasks

    Every row is an old one, of which [P] is kept, or one of which [P] holds. *)
Definition grows (P : document -> Prop) (d d' : db) : Prop :=
  forall id r', tasks d' !! id = Some r' ->
    P (t_payload r') \/ exists r, tasks d !! id = Some r /\ (P (t_payload r) -> P (t_payload r')).

#[export] Instance grows_preorder P : PreOrder (grows P).
Proof.
  split.
  - intros d id r Hr. right. by exists r.
  - intros x y z Hx Hy id r'' Hr. destruct (Hy id r'' Hr) as [|(r' & Hr' & Hk)]; [by left|].
    destruct (Hx id r' Hr') as [HP|(r & Hr0 & Hk0)]; [left; auto|]. right. exists r. auto.
Qed.

Lemma grows_keeps P d d' : keeps_tasks d d' -> grows P d d'.
Proof. unfold keeps_tasks. intros E id r Hr. rewrite E in Hr. right. by exists r. Qed.

Lemma grows_update_task P id f d d' n :
  (forall r, P (t_payload r) -> P (t_payload (f r))) ->
  update_task id f d = Some (d', n) -> grows P d d'.
Proof.
  intros Hf [(_ & -> & _)|(r & Hr & -> & _)]%update_task_inv; [reflexivity|].
  intros k r'. cbn. intros [[<- <-]|[_ Hk]]%lookup_insert_Some; right; [exists r|exists r']; auto.
Qed.

Section retries.
Context (LoadLocation : string -> option location).
Context (diagnosticWriter : option (DiagnosticLogInput -> option error)).

(** The attempt a payload is of, and how many there may be. *)
Definition is_attempt (n : Z) (payload : document) : Prop :=
  payload !! "retryAttempt" = Some (VNum n) /\
  payload !! "maxAttempts" = Some (VNum storageSyncMaxAttempts).

Lemma attempt_of_patched n payload now input :
  tsi_Payload input = ∅ -> is_attempt n payload ->
  is_attempt n (payload_or_empty_union payload (status_payload now input)).
Proof.
  unfold payload_or_empty_union, status_payload. intros -> [H1 H2].
  split; rewrite lookup_union_r; try done; unfold jsonify_doc;
    by rewrite lookup_fmap, lookup_insert_ne, lookup_empty by discriminate.
Qed.

Lemma grows_UpdateTaskStatus n now input fuse d :
  tsi_Payload input = ∅ -> grows (is_attempt n) d (fst (run (UpdateTaskStatus now input) fuse d)).
Proof.
  intros He. apply run_stable; [apply _|]. unfold UpdateTaskStatus.
  assert (Hkeep : forall b, tsi_Payload (keep_publishing input b) = ∅) by (by intros []).
  unfold quotaPlanLock, validateTenantReference, getTask.
  tx_walk; try (apply stable_exec; [apply _|]; intros; eapply grows_update_task; [|done];
    intros; by apply attempt_of_patched); apply stable_exec; try apply _; intros;
    apply grows_keeps; eauto using update_points_tasks, update_reservations_tasks.
Qed.

Lemma grows_CreateTask n id now input fuse d :
  ti_Type input = "storage-sync" -> is_attempt n (ti_Payload input) ->
  grows (is_attempt n) d (fst (run (CreateTask LoadLocation id now input) fuse d)).
Proof.
  intros Hkind Hp. destruct (run _ _ _) as [d' [err|task]] eqn:H; cbn.
  { apply run_atomic in H; [subst; reflexivity|apply atomic_CreateTask]. }
  apply run_inr in H as (s' & H & <-).
  apply CreateTask_inr in H as (task0 & r & Hadm & Hrow & Hnone & Htasks). cbn in *.
  destruct Hadm as (tenant & payload & -> & _ & Hadm).
  assert (Hk : task_kind input = "storage-sync") by (unfold task_kind; by rewrite Hkind).
  rewrite Hk in Hadm. rewrite andb_false_r in Hadm. subst payload.
  destruct Hrow as [[-> ->]|[Hb _]]; [|cbn in Hb; rewrite Hk in Hb; discriminate Hb].
  intros k r'. rewrite Htasks. intros [[<- <-]|[_ Hk']]%lookup_insert_Some; [left|right; by exists r'].
  cbn. destruct Hp as [H1 H2]. split; unfold jsonify_doc; by rewrite lookup_fmap, ?H1, ?H2.
Qed.

Lemma grows_aside P d d' : aside d d' -> grows P d d'.
Proof. intros [Ht _ _ _ _ _]%aside_beside. by apply grows_keeps. Qed.

(** ** The retry

    [sync_payload] carries the attempt when an activation asked for the sync. *)
Lemma sync_payload_attempt repo b p s x a r reconf n :
  nonempty a = true -> is_attempt n (sync_payload repo b p s x a r reconf n).
Proof.
  intros Ha. unfold sync_payload, is_attempt. cbv zeta. rewrite Ha. split;
  destruct (nonempty r), reconf; repeat first
    [ rewrite lookup_insert_eq; reflexivity | rewrite lookup_insert_ne by discriminate ].
Qed.

Notation grown n := (stays_in (grows (is_attempt n))).

Lemma grown_aside n {A} (op : string -> time -> tx db A) :
  (forall id now fuse d, aside d (fst (run (op id now) fuse d))) -> grown n (store op).
Proof. intros H. apply stays_store. intros. apply grows_aside, H. Qed.

Lemma grown_add_task_event n input : grown n (add_task_event diagnosticWriter input).
Proof.
  apply stays_ignore, stays_bind; [apply stays_ask|]. intros logID. apply grown_aside.
  intros. apply aside_event.
Qed.

Lemma grown_report n taskID status progress code message done :
  grown n (update_task_status (report taskID status progress code message done)).
Proof. apply stays_store. intros. by apply grows_UpdateTaskStatus. Qed.

Lemma grown_send n c id task v : grown n (send_sync_task c id task v).
Proof.
  unfold send_sync_task, write_message. pose proof (grown_report n) as H. ctl_walk.
Qed.

Lemma grown_dispatch n c r p s a role reconf :
  nonempty a = true ->
  grown n (dispatchStorageSyncTaskForPlanActivationAttempt LoadLocation c r p s a role reconf n).
Proof.
  intros Ha. unfold dispatchStorageSyncTaskForPlanActivationAttempt, upsert_binding_row.
  pose proof (grown_send n) as H1.
  assert (H2 : forall input, ti_Type input = "storage-sync" -> is_attempt n (ti_Payload input) ->
    grown n (create_task LoadLocation input))
    by (intros; apply stays_store; intros; by apply grows_CreateTask).
  ctl_walk; [apply grown_aside; intros; apply aside_binding|].
  apply H2; [done|]. by apply sync_payload_attempt.
Qed.

Lemma grown_retry task message :
  grown (retry_attempt task + 1) (retryStorageSyncTask LoadLocation diagnosticWriter task message).
Proof.
  unfold retryStorageSyncTask. cbv zeta.
  destruct (nonempty (taskPayloadString (task_Payload task) "activationAttempt")) eqn:Ha;
    cbn [negb orb]; [|apply stays_ret].
  pose proof (grown_add_task_event (retry_attempt task + 1)) as H.
  pose proof (fun c r p s role reconf => grown_dispatch (retry_attempt task + 1) c r p s _ role reconf Ha) as H1.
  ctl_walk.
Qed.

(** [next] is a task that retrying [task] added, while nobody else wrote. *)
Definition retried (next task : Task) : Prop :=
  exists e w w' message row,
    (forall n d, others_at e n d = d) /\ (forall n, id_at e n <> "") /\
    retryStorageSyncTask LoadLocation diagnosticWriter task message e w = (w', true) /\
    tasks (database w) !! task_ID next = None /\
    tasks (database w') !! task_ID next = Some row /\ next = task_of_row (task_ID next) row.

Lemma retried_attempt next task :
  retried next task ->
  retry_attempt next = retry_attempt task + 1 /\ max_attempts next = storageSyncMaxAttempts /\
    retry_attempt task < max_attempts task.
Proof.
  intros (e & w & w' & message & row & Ho & Hid & Hrun & Hnew & Hrow & Hnext).
  assert (Hg : grows (is_attempt (retry_attempt task + 1)) (database w) (database w')).
  { apply rtc_preorder; [apply _|]. replace w' with (fst (retryStorageSyncTask LoadLocation diagnosticWriter
      task message e w)) by (by rewrite Hrun).
    apply grown_retry. split; [|done]. intros n d. by rewrite Ho. }
  destruct (Hg _ _ Hrow) as [[H1 H2]|(r & Hr & _)]; [|congruence].
  assert (Hpos : 1 <= retry_attempt task) by (unfold retry_attempt; case_match; lia).
  unfold retry_attempt at 1, max_attempts at 1. rewrite Hnext. cbn [task_Payload task_of_row].
  unfold taskPayloadInt, get. rewrite H1, H2. cbn.
  split; [destruct (Z.leb_spec (retry_attempt task + 1) 0); lia|]. split; [done|].
  unfold retryStorageSyncTask in Hrun. cbv zeta in Hrun.
  destruct (Z.leb_spec (max_attempts task) (retry_attempt task)); [|done].
  by rewrite orb_true_r in Hrun.
Qed.


End retries.
