(* ===== verification/PlanPolicy.v ===== *)
(** The policy a plan is scheduled by: findPolicy, protectionPlanSchedulePolicy and
    policyCron of backend/internal/httpserver/protection_plan_handlers.go, and
    enabling its schedule (scheduler.go). *)

From S2P Require Import Prelude Calendar Value Types Scheduling Retention Session Database Control.
From S2P Require Import Policies Plans Handlers.

Definition protectionPlanAllowsBackup (status : string) : bool :=
  one_of (ToLower status) ["active"; "active_with_warning"].

Definition findPolicy (policyID : string) : ctl (failure + option Policy) :=
  policies ← store (fun _ _ => ListPolicies);
  or_return policies (fun policies =>
    mret (inr (find_first (fun p => pol_ID p =s policyID) policies))).

(** The cron text of a policy, or why it has none. *)
Definition interval_cron (value : Z) (unit : string) : string + string :=
  if value <=? 0 then inl "interval policy value must be greater than zero"
  else if one_of (ToLower unit) ["minute"; "minutes"] then
    if value =? 1 then inr "* * * * *"
    else if 59 <? value then inl "minute interval must be between 1 and 59"
    else inr ("*/" +:+ sprint_num value +:+ " * * * *")
  else if one_of (ToLower unit) ["hour"; "hours"; ""] then
    if value =? 1 then inr "0 * * * *"
    else if 23 <? value then inl "hour interval must be between 1 and 23"
    else inr ("0 */" +:+ sprint_num value +:+ " * * *")
  else inl ("unsupported interval unit: " +:+ unit).

Definition policyCron (policy : Policy) : string + string :=
  let clock := sprint_num (clampMinute (pol_Minute policy)) +:+ " " +:+
               sprint_num (clampHour (pol_Hour policy)) in
  match pol_ScheduleType policy with
  | "interval" => interval_cron (pol_IntervalValue policy) (pol_IntervalUnit policy)
  | "daily" => inr (clock +:+ " * * *")
  | "weekly" => inr (clock +:+ " * * " +:+ sprint_num (clampWeekday (pol_WeekDay policy)))
  | "monthly" => inr (clock +:+ " " +:+ sprint_num (clampMonthDay (pol_MonthDay policy)) +:+ " * *")
  | kind => inl ("unsupported schedule type: " +:+ kind)
  end.

(** Of a policy that is found: whether it schedules anything. *)
Definition schedules_backups (policy : Policy) : string + bool :=
  if (pol_Status policy <>s "active") || (pol_ScheduleType policy =s "manual") then inr false
  else match policyCron policy with inl err => inl err | inr _ => inr true end.

(** The policy of a plan that is to be scheduled; [None] when it is not. *)
Definition protectionPlanSchedulePolicy (plan : ProtectionPlan) : ctl (failure + option Policy) :=
  if negb (nonempty (plan_PolicyID plan)) then mret (inr None)
  else
    found ← findPolicy (plan_PolicyID plan);
    or_return found (fun found =>
      mret match found with
           | None => inl (Failure "policy not found")
           | Some policy =>
               match schedules_backups policy with
               | inl message => inl (Failure message)
               | inr true => inr (Some policy)
               | inr false => inr None
               end
           end).

Definition schedule_at (planID : string) (next : time) : ProtectionPlanScheduleInput :=
  {| schedi_ProtectionPlanID := planID; schedi_NextFireAt := next; schedi_Enabled := true |}.

Definition upsert_plan_schedule (input : ProtectionPlanScheduleInput)
    : ctl (failure + ProtectionPlanSchedule) :=
  store (fun _ now => UpsertProtectionPlanSchedule now input).

Definition enableProtectionPlanSchedule (plan : ProtectionPlan) (policy : Policy)
    : ctl (failure + ProtectionPlanSchedule) :=
  now ← time_now;
  upsert_plan_schedule (schedule_at (plan_ID plan) (NextPolicyFireAt policy now)).

Section safety.
Context (LoadLocation : string -> option location).
Notation safe := (safe LoadLocation).

Lemma safe_upsert_plan_schedule input : safe (upsert_plan_schedule input).
Proof. apply stays_store. intros. apply System.call_upsert_schedule. Qed.

Lemma safe_protectionPlanSchedulePolicy plan : safe (protectionPlanSchedulePolicy plan).
Proof. unfold protectionPlanSchedulePolicy, findPolicy. handler_walk. Qed.

Lemma safe_enableProtectionPlanSchedule plan policy : safe (enableProtectionPlanSchedule plan policy).
Proof.
  unfold enableProtectionPlanSchedule. pose proof safe_upsert_plan_schedule as H. handler_walk.
Qed.

End safety.

#[export] Hint Extern 3 (stays_in _ (upsert_plan_schedule _)) =>
  apply safe_upsert_plan_schedule : ctl.
#[export] Hint Extern 3 (stays_in _ (protectionPlanSchedulePolicy _)) =>
  apply safe_protectionPlanSchedulePolicy : ctl.
#[export] Hint Extern 3 (stays_in _ (enableProtectionPlanSchedule _ _)) =>
  apply safe_enableProtectionPlanSchedule : ctl.

(** ** An accepted policy fires in the future

    policyCron bounds the interval, so the 64-bit duration does not overflow. *)
Lemma accepted_interval policy :
  schedules_backups policy = inr true -> pol_ScheduleType policy = "interval" ->
  0 < pol_IntervalValue policy <= 59.
Proof.
  unfold schedules_backups. destruct (_ || _); [done|]. unfold policyCron. intros H Hk.
  rewrite Hk in H. unfold interval_cron in H. destruct (Z.leb_spec (pol_IntervalValue policy) 0); [done|].
  destruct (one_of _ _).
  - destruct (Z.eqb_spec (pol_IntervalValue policy) 1); [lia|].
    destruct (Z.ltb_spec 59 (pol_IntervalValue policy)); [done|lia].
  - destruct (one_of _ _); [|done]. destruct (Z.eqb_spec (pol_IntervalValue policy) 1); [lia|].
    destruct (Z.ltb_spec 23 (pol_IntervalValue policy)); [done|lia].
Qed.

Lemma accepted_fires_later policy now :
  schedules_backups policy = inr true -> now < NextPolicyFireAt policy now.
Proof.
  intros H. unfold NextPolicyFireAt. apply (next_fire_in_future 0). intros Hk.
  pose proof (accepted_interval _ H Hk). lia.
Qed.

(** The unit of an interval is read without regard to case where the schedule is
    checked, and exactly where it is computed: every five [Minutes] is accepted,
    and fires every hour. *)
Lemma capitalised_unit_fires_hourly policy after :
  pol_ScheduleType policy = "interval" -> pol_IntervalUnit policy = "Minutes" ->
  pol_IntervalValue policy = 5 ->
  policyCron policy = inr "*/5 * * * *" /\
  NextPolicyFireAt policy after = truncate second (after + hour).
Proof.
  intros Hs Hu Hv. unfold policyCron, NextPolicyFireAt, NextPolicyFireAtInLocation, interval_next.
  rewrite Hs, Hu, Hv. split; reflexivity.
Qed.
