(* ===== verification/Activation.v ===== *)
(** Activating a plan once its storage is configured, and keeping activations from
    hanging: backend/internal/httpserver/protection_activation.go.

    The error path of a handler only logs, so its errors end it. *)

From S2P Require Import Prelude Calendar Timestamp Value Types Retention Session Database Control.
From S2P Require Import Events Fleet Storage Quota Tasks RestorePoints Plans Policies Bindings.
From S2P Require Import Dispatch System Handlers StorageSync PlanPolicy.

Section activation.
Context (LoadLocation : string -> option location).
Context (diagnosticWriter : option (DiagnosticLogInput -> option error)).

Notation add_task_event := (add_task_event diagnosticWriter).
Notation retryStorageSyncTask := (retryStorageSyncTask LoadLocation diagnosticWriter).

Definition set_plan_status (id status : string) : ctl unit := ignore (update_plan_status id status).

(** The latest of the tasks that pass a test: the first one with the latest
    creation. *)
Fixpoint latest_task (found : option Task) (tasks : list Task) : option Task :=
  match tasks with
  | [] => found
  | task :: tasks =>
      match found with
      | Some t => latest_task (Some (if task_CreatedAt t <? task_CreatedAt task then task else t)) tasks
      | None => latest_task (Some task) tasks
      end
  end.

Definition storage_task_of (planID : string) (task : Task) : bool :=
  (task_ProtectionPlanID task =s planID) && (task_Type task =s "storage-sync").

Definition attempt_of (task : Task) : string :=
  taskPayloadString (task_Payload task) "activationAttempt".
Definition role_of (task : Task) : string :=
  taskPayloadString (task_Payload task) "activationRole".

(** The source's task of an attempt says whether its storage is ready. *)
Definition protectionPlanActivationStorageReady (planID attemptID : string)
    : ctl (failure + bool) :=
  tasks ← list_tasks "";
  or_return tasks (fun tasks =>
    mret match latest_task None (List.filter (fun task =>
           storage_task_of planID task && (attempt_of task =s attemptID) &&
           one_of (role_of task) [""; "source"]) tasks) with
         | None => inr false
         | Some source =>
             if isCompletedTaskStatus (task_Status source) then inr true
             else if ToLower (task_Status source) =s "failed" then
               inl (Failure (or_else (or_else (task_ErrorMessage source) (task_ErrorCode source))
                 "source storage sync task failed"))
             else inr false
         end).

(** The plan becomes active, with its schedule when it has one. *)
Definition activate (plan : ProtectionPlan) : ctl unit :=
  policy ← protectionPlanSchedulePolicy plan;
  match policy with
  | inl _ => set_plan_status (plan_ID plan) "schedule_failed"
  | inr None => set_plan_status (plan_ID plan) "active"
  | inr (Some policy) =>
      enabled ← enableProtectionPlanSchedule plan policy;
      match enabled with
      | inl _ => set_plan_status (plan_ID plan) "schedule_failed"
      | inr _ => set_plan_status (plan_ID plan) "active"
      end
  end.

Definition activate_when_ready (plan : ProtectionPlan) (task : Task) : ctl unit :=
  bindings ← protectionPlanStorageBindingsReady plan;
  match bindings with
  | inl _ => set_plan_status (plan_ID plan) "storage_failed"
  | inr (false, _) => mret tt
  | inr (true, _) =>
      if nonempty (attempt_of task) then
        ready ← protectionPlanActivationStorageReady (plan_ID plan) (attempt_of task);
        match ready with
        | inl _ => set_plan_status (plan_ID plan) "storage_failed"
        | inr false => mret tt
        | inr true => activate plan
        end
      else activate plan
  end.

Definition continueProtectionPlanActivationAfterStorage (task : Task) : ctl unit :=
  if negb (nonempty (task_ProtectionPlanID task)) || (role_of task =s "target") then mret tt
  else
    found ← store (fun _ _ => GetProtectionPlan (task_ProtectionPlanID task));
    match found with
    | inr (Some plan) =>
        if plan_Status plan <>s "activating_storage" then mret tt
        else activate_when_ready plan task
    | _ => mret tt
    end.

Definition finishProtectionPlanStorageReconfigure (task : Task) : ctl unit :=
  let planID := task_ProtectionPlanID task in
  if negb (nonempty planID) then mret tt
  else if negb (nonempty (attempt_of task)) then set_plan_status planID "active"
  else
    ready ← protectionPlanActivationStorageReady planID (attempt_of task);
    match ready with
    | inl _ => set_plan_status planID "storage_failed"
    | inr false => mret tt
    | inr true => continueProtectionPlanActivationAfterStorage task
    end.

(** ** Targets that could not be configured *)

Definition finishTargetStorageSyncFailed (task : Task) : ctl unit :=
  if negb (nonempty (task_ProtectionPlanID task)) then mret tt
  else
    add_task_event (event (task_ID task) "warning" "target_storage_warning"
      "Target cluster storage configuration failed after automatic retries. Backup schedule is not blocked, but restore, drill, and takeover may be unavailable until storage is reconfigured."
      {[ "impact" := VStrs ["restore_unavailable"; "drill_unavailable"; "takeover_unavailable"] ]});;
    found ← store (fun _ _ => GetProtectionPlan (task_ProtectionPlanID task));
    match found with
    | inr (Some plan) =>
        let status := ToLower (plan_Status plan) in
        if one_of status ["active"; "active_with_warning"]
        then set_plan_status (plan_ID plan) "active_with_warning"
        else if status =s "activating_storage"
        then continueProtectionPlanActivationAfterStorage task
        else mret tt
    | _ => mret tt
    end.

Definition hasTargetStorageWarning (planID : string) : ctl bool :=
  found ← store (fun _ _ => GetProtectionPlan planID);
  unready ←
    match found with
    | inr (Some plan) =>
        if nonempty (plan_TargetClusterID plan) &&
           (plan_TargetClusterID plan <>s plan_SourceClusterID plan) &&
           nonempty (plan_StorageRepoID plan)
        then
          ready ← clusterStorageBindingReady (plan_TargetClusterID plan) (plan_StorageRepoID plan)
            (plan_SourceClusterID plan);
          mret match ready with inr (ready, _) => negb ready | inl _ => false end
        else mret false
    | _ => mret false
    end;
  if unready : bool then mret true
  else
    tasks ← list_tasks "";
    mret match tasks with
         | inl _ => false
         | inr tasks =>
             match latest_task None (List.filter (fun task =>
                     storage_task_of planID task && (role_of task =s "target")) tasks) with
             | Some latest => EqualFold (task_Status latest) "failed"
             | None => false
             end
         end.

(** ** Reconciling activations *)

Definition latestStorageAttemptCreatedAt (tasks : list Task) (planID attemptID : string) : time :=
  fold_left (fun latest task => if latest <? task_CreatedAt task then task_CreatedAt task else latest)
    (List.filter (fun task => storage_task_of planID task && (attempt_of task =s attemptID)) tasks)
    zero_time.

Definition latestStorageTaskForAttempt (tasks : list Task) (planID attemptID : string)
    : option Task :=
  latest_task None
    (List.filter (fun task => storage_task_of planID task && (attempt_of task =s attemptID)) tasks).

Definition latest_attempt (tasks : list Task) (planID : string) : string :=
  fold_left (fun latest task =>
      let attempt := attempt_of task in
      if negb (nonempty attempt) then latest
      else if negb (nonempty latest) ||
              (latestStorageAttemptCreatedAt tasks planID latest <? task_CreatedAt task)
      then attempt else latest)
    (List.filter (storage_task_of planID) tasks) "".

Definition activation_timed_out (task : Task) (now : time) : bool :=
  isActiveTaskStatus (task_Status task) &&
  (task_CreatedAt task + protectionPlanActivationTaskTimeout <? now).

Definition timeout_event (task : Task) (reason message : string) : TaskEventInput :=
  event (task_ID task) "error" reason message
    {[ "timeoutSeconds" := VNum (protectionPlanActivationTaskTimeout / second) ]}.

Definition expire_storage_task (plan : ProtectionPlan) (task : Task) : ctl unit :=
  let message := "storage configuration timed out while waiting for agent response" in
  updated ← update_task_status
    (report (task_ID task) "failed" (task_Progress task) "STORAGE_SYNC_TIMEOUT" message true);
  match updated with
  | inl _ => mret tt
  | inr failed =>
      let failed := default zero_task failed in
      markClusterStorageBindingFailed failed "STORAGE_SYNC_TIMEOUT" message;;
      add_task_event (timeout_event task "storage_sync_timeout" message);;
      retried ← retryStorageSyncTask failed message;
      if retried : bool then mret tt
      else if role_of failed =s "target" then finishTargetStorageSyncFailed failed
      else set_plan_status (plan_ID plan) "storage_failed"
  end.

(** The clock is read only for active tasks. *)
Definition check_storage_task (plan : ProtectionPlan) (task : Task) : ctl unit :=
  if negb (isActiveTaskStatus (task_Status task)) then mret tt
  else
    now ← time_now;
    if activation_timed_out task now then expire_storage_task plan task else mret tt.

Definition reconcileProtectionPlanStorageActivation (plan : ProtectionPlan) : ctl unit :=
  tasks ← list_tasks "";
  match tasks with
  | inl _ => mret tt
  | inr tasks =>
      let attempt := latest_attempt tasks (plan_ID plan) in
      if negb (nonempty attempt) then mret tt
      else
        range (List.filter (fun task =>
            storage_task_of (plan_ID plan) task && (attempt_of task =s attempt)) tasks)
          (check_storage_task plan);;
        match latestStorageTaskForAttempt tasks (plan_ID plan) attempt with
        | None => mret tt
        | Some latest =>
            if taskPayloadBool (task_Payload latest) "reconfigureStorage"
            then finishProtectionPlanStorageReconfigure latest
            else continueProtectionPlanActivationAfterStorage latest
        end
  end.

Definition expire_schedule_task (plan : ProtectionPlan) (latest : Task) : ctl unit :=
  let message := "schedule configuration timed out while waiting for agent response" in
  updated ← update_task_status
    (report (task_ID latest) "failed" (task_Progress latest) "SCHEDULE_SYNC_TIMEOUT" message true);
  match updated with
  | inl _ => mret tt
  | inr _ =>
      add_task_event (timeout_event latest "schedule_sync_timeout" message);;
      set_plan_status (plan_ID plan) "schedule_failed"
  end.

Definition reconcileProtectionPlanScheduleActivation (plan : ProtectionPlan) : ctl unit :=
  tasks ← list_tasks "";
  match tasks with
  | inl _ => mret tt
  | inr tasks =>
      match latest_task None (List.filter (fun task =>
              (task_ProtectionPlanID task =s plan_ID plan) && (task_Type task =s "schedule-sync"))
              tasks) with
      | None => mret tt
      | Some latest =>
          if isCompletedTaskStatus (task_Status latest) then
            warning ← hasTargetStorageWarning (plan_ID plan);
            set_plan_status (plan_ID plan)
              (if warning : bool then "active_with_warning" else "active")
          else if EqualFold (task_Status latest) "failed"
          then set_plan_status (plan_ID plan) "schedule_failed"
          else if isActiveTaskStatus (task_Status latest) then
            now ← time_now;
            if activation_timed_out latest now then expire_schedule_task plan latest else mret tt
          else mret tt
      end
  end.

Definition reconcileProtectionPlanActivationStates (clusterID : string) : ctl unit :=
  plans ← store (fun _ _ => ListProtectionPlans clusterID);
  match plans with
  | inl _ => mret tt
  | inr plans =>
      range plans (fun plan =>
        let status := ToLower (plan_Status plan) in
        if status =s "activating_storage" then reconcileProtectionPlanStorageActivation plan
        else if status =s "activating_schedule" then reconcileProtectionPlanScheduleActivation plan
        else mret tt)
  end.

(** ** These only make calls of the system *)

Notation safe := (safe LoadLocation).

Lemma safe_set_plan_status id status : safe (set_plan_status id status).
Proof. unfold set_plan_status. handler_walk. Qed.

Lemma safe_activate plan : safe (activate plan).
Proof. unfold activate. pose proof safe_set_plan_status as H. handler_walk. Qed.

Lemma safe_storage_ready planID attempt : safe (protectionPlanActivationStorageReady planID attempt).
Proof. unfold protectionPlanActivationStorageReady. handler_walk. Qed.

Lemma safe_continue task : safe (continueProtectionPlanActivationAfterStorage task).
Proof.
  unfold continueProtectionPlanActivationAfterStorage, activate_when_ready.
  pose proof safe_set_plan_status as H. pose proof safe_activate as H1.
  pose proof safe_storage_ready as H2. handler_walk.
Qed.

Lemma safe_reconfigure task : safe (finishProtectionPlanStorageReconfigure task).
Proof.
  unfold finishProtectionPlanStorageReconfigure. pose proof safe_set_plan_status as H.
  pose proof safe_continue as H1. pose proof safe_storage_ready as H2. handler_walk.
Qed.

Lemma safe_target_failed task : safe (finishTargetStorageSyncFailed task).
Proof.
  unfold finishTargetStorageSyncFailed. pose proof safe_set_plan_status as H.
  pose proof safe_continue as H1. handler_walk.
Qed.

Lemma safe_target_warning planID : safe (hasTargetStorageWarning planID).
Proof. unfold hasTargetStorageWarning. handler_walk. Qed.

Lemma safe_reconcileStorage plan : safe (reconcileProtectionPlanStorageActivation plan).
Proof.
  unfold reconcileProtectionPlanStorageActivation, check_storage_task, expire_storage_task.
  pose proof safe_set_plan_status as H. pose proof safe_continue as H1.
  pose proof safe_reconfigure as H2. pose proof safe_target_failed as H3. handler_walk.
Qed.

Lemma safe_reconcileSchedule plan : safe (reconcileProtectionPlanScheduleActivation plan).
Proof.
  unfold reconcileProtectionPlanScheduleActivation, expire_schedule_task.
  pose proof safe_set_plan_status as H. pose proof safe_target_warning as H1. handler_walk.
Qed.

Lemma safe_reconcileActivations clusterID : safe (reconcileProtectionPlanActivationStates clusterID).
Proof.
  unfold reconcileProtectionPlanActivationStates. pose proof safe_reconcileStorage as H.
  pose proof safe_reconcileSchedule as H1. handler_walk.
Qed.

End activation.
