(* ===== verification/BackupTasks.v ===== *)
(** Backups on demand: backend/internal/httpserver/backup_handlers.go, and sending
    backup and recovery tasks once their storage is configured (recovery_handlers.go).

    A request is its decoded body, the user it is from and the tenants that user
    sees ([tenantVisible]). *)

From S2P Require Import Prelude Calendar Timestamp Value Types Retention Session Database Control.
From S2P Require Import Events Fleet Storage Commands Quota Tasks RestorePoints Plans Policies.
From S2P Require Import Bindings Dispatch System Handlers StorageSync PlanPolicy.

Record backupTaskRequest := {
  btr_ClusterID : string;
  btr_AppID : string;
  btr_ProtectionPlanID : string;
  btr_SourceNamespace : string;
  btr_SourceNamespaces : list string;
  btr_Scope : string;
  btr_IncludedResources : list string;
  btr_LabelSelector : LabelSelector;
  btr_StorageRepo : string;
  btr_ExcludedResources : list string;
  btr_ResourceSelection : ResourceSelection;
  btr_IncludeClusterResources : bool;
  btr_Trigger : string;
  btr_RequestedBy : string
}.

(** What the handler writes: an error, or the tasks and how many were running
    already. *)
Inductive backup_reply :=
| BackupRefused (status : Z) (error : string)
| BackupReply (status : Z) (tasks : list Task) (reused : Z).

(** ** Payload values *)

Definition given_strings (key : string) (l : list string) : list (string * value) :=
  match l with [] => [] | _ => [(key, VList (VStr <$> l))] end.

Definition selection_value (s : ResourceSelection) : value :=
  VObj (list_to_map ([("mode", VStr (rs_Mode s))] ++
    given_strings "namespaceScoped" (rs_NamespaceScoped s) ++
    given_strings "clusterScoped" (rs_ClusterScoped s))).

Definition expression_value (x : LabelSelectorExpression) : value :=
  VObj (list_to_map ([("key", VStr (lse_Key x)); ("operator", VStr (lse_Operator x))] ++
    given_strings "values" (lse_Values x))).

Definition selector_value (s : LabelSelector) : value :=
  VObj (list_to_map (
    (if bool_decide (ls_MatchLabels s = ∅) then []
     else [("matchLabels", VObj (VStr <$> ls_MatchLabels s))]) ++
    (match ls_MatchExpressions s with
     | [] => []
     | l => [("matchExpressions", VList (expression_value <$> l))]
     end))).

Definition backup_payload (body : backupTaskRequest) (veleroBackupName : string) : document :=
  {[ "sourceNamespace" := VStr (btr_SourceNamespace body);
     "sourceNamespaces" := VStrs (btr_SourceNamespaces body); "scope" := VStr (btr_Scope body);
     "includedResources" := VStrs (btr_IncludedResources body);
     "resourceSelection" := selection_value (btr_ResourceSelection body);
     "labelSelector" := selector_value (btr_LabelSelector body);
     "storageRepo" := VStr (btr_StorageRepo body);
     "excludedResources" := VStrs (btr_ExcludedResources body);
     "includeClusterResources" := VBool (btr_IncludeClusterResources body);
     "veleroBackupName" := VStr veleroBackupName; "trigger" := VStr (btr_Trigger body);
     "scheduled" := VBool (btr_Trigger body =s "scheduled");
     "requestedBy" := VStr (firstNonEmptyString [btr_RequestedBy body; "System"]) ]}.

Section backups.
Context (LoadLocation : string -> option location).
Context (diagnosticWriter : option (DiagnosticLogInput -> option error)).

Notation add_task_event := (add_task_event diagnosticWriter).

(** ** Finding what to back up *)

Definition plan_app_ids (plan : ProtectionPlan) : list string :=
  match plan_AppIDs plan with
  | [] => if nonempty (plan_AppID plan) then [plan_AppID plan] else []
  | l => l
  end.

(** [app, ok, _ := r.store.GetApplication(id)]. *)
Definition application (id : string) : ctl (option Application) :=
  app ← store (fun _ _ => GetApplication id);
  mret match app with inr app => app | inl _ => None end.

Definition add_new (x : string) (l : list string) : list string :=
  if one_of x l then l else l ++ [x].

(** The loop that stops at an error: namespaces, and the applications resolved. *)
Definition resolve_app (acc : list string * list string) (appID : string)
    : ctl (failure + list string * list string) :=
  let '(namespaces, resolved) := acc in
  if negb (nonempty appID) || one_of appID resolved then mret (inr acc)
  else
    found ← store (fun _ _ => GetApplication appID);
    or_return found (fun found =>
      mret (inr match found with
                | Some app =>
                    if nonempty (app_Namespace app)
                    then (add_new (app_Namespace app) namespaces, resolved ++ [appID]) else acc
                | None => acc
                end)).

Definition planSourceNamespaces (plan : ProtectionPlan)
    : ctl (failure + list string * list string) :=
  found ← collect (plan_app_ids plan) ([], []) resolve_app;
  or_return found (fun '(namespaces, resolved) =>
    mret (if bool_decide (namespaces = [])
          then inl (Failure "protection plan has no application namespaces")
          else inr (namespaces, resolved))).

(** The same loop of the handler, which ignores errors. *)
Definition resolve_quietly (acc : list string * list string) (appID : string)
    : ctl (failure + list string * list string) :=
  let '(namespaces, seen) := acc in
  if negb (nonempty appID) || one_of appID seen then mret (inr acc)
  else
    app ← application appID;
    mret (inr match app with
              | Some app =>
                  if nonempty (app_Namespace app)
                  then (add_new (app_Namespace app) namespaces, appID :: seen) else acc
              | None => acc
              end).

(** Applications of the plan as backup targets, with their namespaces: of a plan
    that is named, those that are asked for; of a plan that was found by its
    target, those the target names. *)
Definition named_target (acc : list (string * string)) (appID : string)
    : ctl (failure + list (string * string)) :=
  if negb (nonempty appID) || existsb (fun t => fst t =s appID) acc then mret (inr acc)
  else
    app ← application appID;
    mret (inr match app with
              | Some app => acc ++ [(appID, app_Namespace app)]
              | None => acc
              end).

Definition found_target (wantedApp wantedNamespace : string) (acc : list (string * string))
    (appID : string) : ctl (failure + list (string * string)) :=
  if negb (nonempty appID) then mret (inr acc)
  else
    app ← application appID;
    mret (inr match app with
              | Some app =>
                  if (nonempty wantedApp && (app_ID app <>s wantedApp)) ||
                     (nonempty wantedNamespace && (app_Namespace app <>s wantedNamespace)) ||
                     existsb (fun t => fst t =s app_ID app) acc
                  then acc else acc ++ [(app_ID app, app_Namespace app)]
              | None => acc
              end).

(** ** Running backups *)

Definition running_backup (protectionPlanID appID namespace : string) (task : Task) : bool :=
  (task_Type task =s "backup") && isActiveTaskStatus (task_Status task) &&
  (task_CompletedAt task =? zero_time) &&
  (negb (nonempty protectionPlanID) || (task_ProtectionPlanID task =s protectionPlanID)) &&
  (negb (nonempty appID) || negb (nonempty (task_AppID task)) || (task_AppID task =s appID)) &&
  (let taskNamespace := taskPayloadString (task_Payload task) "sourceNamespace" in
   negb (nonempty namespace) || negb (nonempty taskNamespace) || (taskNamespace =s namespace)) &&
  (nonempty protectionPlanID || nonempty appID || nonempty namespace).

Definition findActiveBackupTask (clusterID protectionPlanID appID namespace : string)
    : ctl (failure + option Task) :=
  tasks ← list_tasks clusterID;
  or_return tasks (fun tasks =>
    mret (inr (find_first (running_backup protectionPlanID appID namespace) tasks))).

(** Whether an application of the plan has the namespace. *)
Fixpoint protects_namespace (clusterID namespace : string) (appIDs : list string)
    : ctl (failure + bool) :=
  match appIDs with
  | [] => mret (inr false)
  | appID :: appIDs =>
      found ← store (fun _ _ => GetApplication appID);
      or_return found (fun found =>
        match found with
        | Some app =>
            if (app_ClusterID app =s clusterID) && (app_Namespace app =s namespace)
            then mret (inr true) else protects_namespace clusterID namespace appIDs
        | None => protects_namespace clusterID namespace appIDs
        end)
  end.

Fixpoint plan_for_target (clusterID appID namespace : string) (plans : list ProtectionPlan)
    : ctl (failure + option ProtectionPlan) :=
  match plans with
  | [] => mret (inr None)
  | plan :: plans =>
      if negb (protectionPlanAllowsBackup (plan_Status plan))
      then plan_for_target clusterID appID namespace plans
      else if nonempty appID && one_of appID (plan_app_ids plan) then mret (inr (Some plan))
      else if negb (nonempty namespace) then plan_for_target clusterID appID namespace plans
      else
        protects ← protects_namespace clusterID namespace (plan_app_ids plan);
        or_return protects (fun protects : bool =>
          if protects then mret (inr (Some plan))
          else plan_for_target clusterID appID namespace plans)
  end.

Definition findActiveProtectionPlanForBackupTarget (clusterID appID namespace : string)
    : ctl (failure + option ProtectionPlan) :=
  if negb (nonempty clusterID) then mret (inr None)
  else
    app ← (if nonempty appID then store (fun _ _ => GetApplication appID) else mret (inr None));
    or_return app (fun app =>
      let namespace :=
        match app with
        | Some app =>
            if (app_ClusterID app =s clusterID) && negb (nonempty namespace)
            then app_Namespace app else namespace
        | None => namespace
        end in
      plans ← store (fun _ _ => ListProtectionPlans clusterID);
      or_return plans (plan_for_target clusterID appID namespace)).

(** ** Creating the task *)

Definition backup_input (body : backupTaskRequest) (appID commandID name : string) : TaskInput :=
  {| ti_TenantID := ""; ti_ClusterID := btr_ClusterID body; ti_AppID := appID;
     ti_ProtectionPlanID := btr_ProtectionPlanID body; ti_RestorePointID := "";
     ti_Type := "backup"; ti_Status := "queued"; ti_CommandID := commandID;
     ti_Payload := backup_payload body name; ti_SuppressLatestPointer := false |}.

(** The application the task is recorded for, when none is given. *)
Definition primary_app (plan : ProtectionPlan) : string :=
  match plan_AppID plan, plan_AppIDs plan with
  | "", [appID] => appID
  | appID, _ => appID
  end.

Definition createPendingBackupTask (body : backupTaskRequest) (appID : string)
    : ctl (failure + Task) :=
  if negb (nonempty (btr_ProtectionPlanID body))
  then mret (inl (Failure "backup task requires protection plan id"))
  else
    app ← (if nonempty appID then mret (inr appID)
           else
             plan ← store (fun _ _ => GetProtectionPlan (btr_ProtectionPlanID body));
             or_return plan (fun plan =>
               mret match plan with
                    | None => inl (Failure "protection plan not found")
                    | Some plan => inr (primary_app plan)
                    end));
    or_return app (fun appID =>
      if negb (nonempty appID) then mret (inl (Failure "backup task requires application id"))
      else
        commandID ← NewPublicID;
        now ← time_now;
        create_task LoadLocation (backup_input body appID commandID
          (backupNameForPlan now (btr_ProtectionPlanID body) commandID (btr_Trigger body)))).

(** ** Sending it *)

(** dispatchBackupTask and dispatchRecoveryTask differ in what they say. *)
Definition send_task (task : Task) (offline dispatching : string) : ctl unit :=
  connected ← hub_get (task_ClusterID task);
  if negb connected then
    ignore (update_task_status (report (task_ID task) "queued" 0 "AGENT_OFFLINE" offline false));;
    add_task_event (event (task_ID task) "warning" "dispatch_waiting_agent" dispatching ∅)
  else
    sent ← dispatchStoredTask (task_ClusterID task) task;
    match sent with
    | inl err =>
        message ← error_message err;
        ignore (update_task_status
          (report (task_ID task) "queued" 0 "DISPATCH_FAILED" message false));;
        add_task_event (event (task_ID task) "warning" "dispatch_failed" dispatching ∅)
    | inr _ =>
        ignore (update_task_status (report (task_ID task) "dispatched" 0 "" "" false));;
        add_task_event (event (task_ID task) "info" "dispatched" dispatching ∅)
    end.

Definition dispatchBackupTask (task : Task) : ctl unit :=
  if negb (task_CompletedAt task =? zero_time) then mret tt
  else
    stop ← stopping;
    if stop : bool then mret tt
    else send_task task "agent is not connected; backup will be dispatched after reconnect"
           "Dispatching sync task...".

Definition recoveryDispatchMessage (taskType : string) : string :=
  if taskType =s "drill" then "Dispatching drill task..."
  else if taskType =s "takeover" then "Dispatching takeover task..."
  else "Dispatching restore task...".

Definition dispatchRecoveryTask (task : Task) : ctl unit :=
  stop ← stopping;
  if stop : bool then mret tt
  else send_task task "agent is not connected; recovery will be dispatched after reconnect"
         (recoveryDispatchMessage (task_Type task)).

(** Storage is configured first, unless it is already; a task whose storage cannot
    be configured fails. *)
Definition after_storage_sync (task : Task) (storageName storageRepoID sourceClusterID : string)
    (skipped dispatching : string) (send : Task -> ctl unit) : ctl unit :=
  if negb (nonempty storageRepoID) then send task
  else
    synced ← isStorageAlreadySynced (task_ClusterID task) storageName storageRepoID sourceClusterID;
    if synced : bool then
      add_task_event (event (task_ID task) "info" "storage_preflight_skipped" skipped ∅);;
      send task
    else
      add_task_event (event (task_ID task) "info" "storage_preflight_started"
        "Configuring storage..." ∅);;
      sync ← ensureStorageSynced LoadLocation (task_ClusterID task) storageName storageRepoID
        sourceClusterID;
      let '(storageTask, failed) := sync in
      let detail : document := {[ "storageTaskId" := VStr (task_ID storageTask) ]} in
      match failed with
      | Some err =>
          stop ← stopping;
          if stop : bool then mret tt
          else
            message ← error_message err;
            ignore (update_task_status
              (report (task_ID task) "failed" 0 "STORAGE_SYNC_FAILED" message true));;
            add_task_event (event (task_ID task) "error" "storage_preflight_failed" message detail)
      | None =>
          add_task_event (event (task_ID task) "info" "storage_preflight_succeeded" dispatching
            detail);;
          send task
      end.

Definition dispatchBackupTaskAfterStorageSync (task : Task)
    (storageName storageRepoID sourceClusterID : string) : ctl unit :=
  if negb (task_CompletedAt task =? zero_time) then mret tt
  else
    stop ← stopping;
    if stop : bool then mret tt
    else after_storage_sync task storageName storageRepoID sourceClusterID
           "Storage location already configured on source cluster." "Dispatching sync task..."
           dispatchBackupTask.

Definition dispatchRecoveryTaskAfterStorageSync (task : Task)
    (storageName storageRepoID sourceClusterID : string) : ctl unit :=
  stop ← stopping;
  if stop : bool then mret tt
  else after_storage_sync task storageName storageRepoID sourceClusterID
         "Storage location already configured on target cluster."
         (recoveryDispatchMessage (task_Type task)) dispatchRecoveryTask.

(** ** The handler *)

(** [body] with what the plan says and where the backup goes. *)
Definition request_of_plan (body : backupTaskRequest) (plan : ProtectionPlan)
    (namespace storageName : string) (namespaces : list string) (selection : ResourceSelection)
    : backupTaskRequest :=
  {| btr_ClusterID := plan_SourceClusterID plan; btr_AppID := btr_AppID body;
     btr_ProtectionPlanID := plan_ID plan; btr_SourceNamespace := namespace;
     btr_SourceNamespaces := namespaces; btr_Scope := plan_ScopeType plan;
     btr_IncludedResources := plan_IncludedResources plan;
     btr_LabelSelector := plan_LabelSelector plan; btr_StorageRepo := storageName;
     btr_ExcludedResources := plan_ExcludedResources plan; btr_ResourceSelection := selection;
     btr_IncludeClusterResources := plan_IncludeClusterScoped plan;
     btr_Trigger := btr_Trigger body; btr_RequestedBy := btr_RequestedBy body |}.

Definition create_failed (err : failure) : backup_reply :=
  match cause err with
  | Some ErrProtectionPlanBusy => BackupRefused 409 "sync_already_running"
  | _ => BackupRefused 500 "create_task_failed"
  end.

(** One backup of everything the plan protects. *)
Definition backup_plan (body : backupTaskRequest) (plan : ProtectionPlan) (storageName : string)
    : ctl backup_reply :=
  found ← collect (plan_app_ids plan) ([], []) resolve_quietly;
  match found with
  | inr ((first :: _) as namespaces, _) =>
      (* the plan's resource selection is not taken over *)
      let body := request_of_plan body plan first storageName namespaces
        (btr_ResourceSelection body) in
      running ← findActiveBackupTask (btr_ClusterID body) (btr_ProtectionPlanID body) "" "";
      match running with
      | inl _ => mret (BackupRefused 500 "check_active_backup_failed")
      | inr (Some existing) => mret (BackupReply 200 [existing] 1)
      | inr None =>
          created ← createPendingBackupTask body "";
          match created with
          | inl err => mret (create_failed err)
          | inr task =>
              startWorker (DispatchBackup task storageName (plan_StorageRepoID plan)
                (plan_SourceClusterID plan));;
              mret (BackupReply 201 [task] 0)
          end
      end
  | _ => mret (BackupRefused 400 "no_resolvable_applications")
  end.

Definition backup_target (body : backupTaskRequest) (plan : ProtectionPlan) (storageName : string)
    (acc : list Task * Z) (target : string * string)
    : ctl (backup_reply + list Task * Z) :=
  let '(tasks, reused) := acc in
  let '(appID, namespace) := target in
  let body := request_of_plan body plan namespace storageName (btr_SourceNamespaces body)
    (plan_ResourceSelection plan) in
  running ← findActiveBackupTask (btr_ClusterID body) (btr_ProtectionPlanID body) appID namespace;
  match running with
  | inl _ => mret (inl (BackupRefused 500 "check_active_backup_failed"))
  | inr (Some existing) =>
      add_task_event (event (task_ID existing) "info" "sync_already_running"
        "Sync is already running." ∅);;
      mret (inr (tasks ++ [existing], reused + 1))
  | inr None =>
      created ← createPendingBackupTask body appID;
      match created with
      | inl err => mret (inl (create_failed err))
      | inr task =>
          startWorker (DispatchBackup task storageName (plan_StorageRepoID plan)
            (btr_ClusterID body));;
          mret (inr (tasks ++ [task], reused))
      end
  end.

Definition backup_targets (body : backupTaskRequest) (plan : ProtectionPlan) (storageName : string)
    (targets : list (string * string)) : ctl backup_reply :=
  match targets with
  | [] => mret (BackupRefused 400 "no_resolvable_applications")
  | _ =>
      done ← collect targets ([], 0) (backup_target body plan storageName);
      mret match done with
           | inl reply => reply
           | inr (tasks, reused) =>
               BackupReply (if (0 <? reused) && (reused =? Z.of_nat (length tasks)) then 200 else 201)
                 tasks reused
           end
  end.

(** The location the plan's backups go to. *)
Definition storage_name (plan : ProtectionPlan) (otherwise : string) : ctl string :=
  repo ← store (fun _ _ => GetStorageRepository (plan_StorageRepoID plan));
  mret match repo with
       | inr (Some repo) => storageDomainBSLName repo (plan_SourceClusterID plan)
       | _ => otherwise
       end.

Definition no_targets {A} (r : failure + list A) : list A :=
  match r with inr l => l | inl _ => [] end.

Definition createBackupTask (visible : string -> bool) (body : backupTaskRequest)
    : ctl backup_reply :=
  if negb (nonempty (btr_ClusterID body)) ||
     negb (nonempty (btr_SourceNamespace body) || nonempty (btr_AppID body) ||
           nonempty (btr_ProtectionPlanID body))
  then mret (BackupRefused 400 "cluster_id_and_target_required")
  else if nonempty (btr_ProtectionPlanID body) then
    plan ← store (fun _ _ => GetProtectionPlan (btr_ProtectionPlanID body));
    match plan with
    | inl _ => mret (BackupRefused 500 "get_protection_plan_failed")
    | inr None => mret (BackupRefused 404 "protection_plan_not_found")
    | inr (Some plan) =>
        if negb (visible (plan_TenantID plan))
        then mret (BackupRefused 404 "protection_plan_not_found")
        else if negb (protectionPlanAllowsBackup (plan_Status plan))
        then mret (BackupRefused 409 "protection_plan_not_active")
        else
          storageName ← storage_name plan (btr_StorageRepo body);
          if negb (nonempty (btr_AppID body)) then backup_plan body plan storageName
          else
            targets ← collect (List.filter (fun id => id =s btr_AppID body) (plan_AppIDs plan)) []
              named_target;
            backup_targets body plan storageName (no_targets targets)
    end
  else
    plan ← findActiveProtectionPlanForBackupTarget (btr_ClusterID body) (btr_AppID body)
      (btr_SourceNamespace body);
    match plan with
    | inl _ => mret (BackupRefused 500 "resolve_protection_plan_failed")
    | inr None => mret (BackupRefused 409 "protection_plan_required")
    | inr (Some plan) =>
        if negb (visible (plan_TenantID plan))
        then mret (BackupRefused 409 "protection_plan_required")
        else
          storageName ← storage_name plan (btr_StorageRepo body);
          targets ← collect (plan_app_ids plan) []
            (found_target (btr_AppID body) (btr_SourceNamespace body));
          backup_targets body plan storageName (no_targets targets)
    end.

(** The body with the handler's defaults. *)
Definition with_defaults (body : backupTaskRequest) (actor : string) : backupTaskRequest :=
  {| btr_ClusterID := btr_ClusterID body; btr_AppID := btr_AppID body;
     btr_ProtectionPlanID := btr_ProtectionPlanID body;
     btr_SourceNamespace := btr_SourceNamespace body;
     btr_SourceNamespaces := btr_SourceNamespaces body;
     btr_Scope := or_else (btr_Scope body) "all";
     btr_IncludedResources := btr_IncludedResources body;
     btr_LabelSelector := btr_LabelSelector body;
     btr_StorageRepo := or_else (btr_StorageRepo body) "default";
     btr_ExcludedResources := btr_ExcludedResources body;
     btr_ResourceSelection := btr_ResourceSelection body;
     btr_IncludeClusterResources := btr_IncludeClusterResources body;
     btr_Trigger := or_else (btr_Trigger body) "manual"; btr_RequestedBy := actor |}.

(** ** These only make calls of the system *)

Notation safe := (safe LoadLocation).

Lemma backup_payload_plain body name : backup_payload body name !! "backupResult" = None.
Proof. unfold backup_payload. plain_payload. Qed.

Lemma safe_createPendingBackupTask body appID : safe (createPendingBackupTask body appID).
Proof.
  unfold createPendingBackupTask. handler_walk. apply safe_create_task. apply backup_payload_plain.
Qed.

Lemma safe_findActiveBackupTask c p a n : safe (findActiveBackupTask c p a n).
Proof. unfold findActiveBackupTask. handler_walk. Qed.

Lemma safe_planSourceNamespaces plan : safe (planSourceNamespaces plan).
Proof. unfold planSourceNamespaces, resolve_app. handler_walk. Qed.

Lemma safe_protects_namespace c n l : safe (protects_namespace c n l).
Proof. induction l as [|x l IH]; cbn; handler_walk. Qed.

Lemma safe_plan_for_target c a n l : safe (plan_for_target c a n l).
Proof.
  induction l as [|x l IH]; cbn; pose proof safe_protects_namespace as H; handler_walk.
Qed.

Lemma safe_findPlan c a n : safe (findActiveProtectionPlanForBackupTarget c a n).
Proof.
  unfold findActiveProtectionPlanForBackupTarget. pose proof safe_plan_for_target as H. handler_walk.
Qed.

Lemma safe_send_task task a b : safe (send_task task a b).
Proof. unfold send_task. handler_walk. Qed.

Lemma safe_dispatchBackupTask task : safe (dispatchBackupTask task).
Proof. unfold dispatchBackupTask. pose proof safe_send_task as H. handler_walk. Qed.

Lemma safe_dispatchRecoveryTask task : safe (dispatchRecoveryTask task).
Proof. unfold dispatchRecoveryTask. pose proof safe_send_task as H. handler_walk. Qed.

Lemma safe_after_storage_sync task n r s a b send :
  (forall t, safe (send t)) -> safe (after_storage_sync task n r s a b send).
Proof. intros H. unfold after_storage_sync. handler_walk. Qed.

Lemma safe_dispatchBackup task n r s : safe (dispatchBackupTaskAfterStorageSync task n r s).
Proof.
  unfold dispatchBackupTaskAfterStorageSync.
  pose proof (fun a b => safe_after_storage_sync task n r s a b _ safe_dispatchBackupTask) as H.
  handler_walk.
Qed.

Lemma safe_dispatchRecovery task n r s : safe (dispatchRecoveryTaskAfterStorageSync task n r s).
Proof.
  unfold dispatchRecoveryTaskAfterStorageSync.
  pose proof (fun a b => safe_after_storage_sync task n r s a b _ safe_dispatchRecoveryTask) as H.
  handler_walk.
Qed.

Lemma safe_backup_targets body plan name targets : safe (backup_targets body plan name targets).
Proof.
  unfold backup_targets, backup_target. pose proof safe_findActiveBackupTask as H.
  pose proof safe_createPendingBackupTask as H1. handler_walk.
Qed.

Lemma safe_createBackupTask visible body : safe (createBackupTask visible body).
Proof.
  unfold createBackupTask, backup_plan, storage_name, named_target, found_target, resolve_quietly,
    application.
  pose proof safe_findActiveBackupTask as H. pose proof safe_createPendingBackupTask as H1.
  pose proof safe_backup_targets as H2. pose proof safe_findPlan as H3. handler_walk.
Qed.

End backups.

#[export] Hint Extern 3 (stays_in _ (createPendingBackupTask _ _ _)) =>
  apply safe_createPendingBackupTask : ctl.
#[export] Hint Extern 3 (stays_in _ (findActiveBackupTask _ _ _ _)) =>
  apply safe_findActiveBackupTask : ctl.
#[export] Hint Extern 3 (stays_in _ (planSourceNamespaces _)) => apply safe_planSourceNamespaces : ctl.
