(* ===== verification/RetentionCleanup.v ===== *)
(** Deleting expired restore points: the retention part of
    backend/internal/httpserver/backup_events.go (reconcileRetention,
    createRestorePointDeleteTask and the handlers of a cleanup's result) and the
    replacement of restore points of restore_point_replacement.go.

    The error paths of these handlers only log, so an error ends them. *)

From S2P Require Import Prelude Calendar Timestamp Value Types Retention Session Database Control.
From S2P Require Import Events Fleet Storage Catalog Commands Quota Tasks RestorePoints Plans Policies.
From S2P Require Import Bindings Dispatch Lifecycle System Handlers StorageSync PlanPolicy.

(** [t.Format(time.RFC3339)]. *)
Definition format_rfc3339 (t : time) : string := format_rfc3339nano (truncate second t).

(** The first of the times that is set. *)
Definition first_time (l : list time) : time :=
  default zero_time (find_first (fun t => negb (t =? zero_time)) l).

(** ** Which points have expired *)

Definition retentionTaskStale : Z := 35 * minute.

(** Cleanups that are running and were heard of lately. *)
Definition active_retention_task (now : time) (task : Task) : bool :=
  (task_Type task =s "retention-cleanup") && isActiveTaskStatus (task_Status task) &&
  (now - retentionTaskStale <?
   first_time [task_StartedAt task; task_AcceptedAt task; task_DispatchedAt task;
               task_CreatedAt task]).

Definition expirable (active : list string) (point : RestorePoint) : bool :=
  (rp_Status point =s "available") && nonempty (rp_VeleroBackupName point) &&
  negb ((as_string (get (rp_Metadata point) "retentionState") =s "deleting") &&
        one_of (as_string (get (rp_Metadata point) "retentionCleanupTask")) active).

Definition completion_time (point : RestorePoint) : time :=
  if rp_CompletedAt point =? zero_time then rp_CreatedAt point else rp_CompletedAt point.

Definition newest_completed_le (x y : RestorePoint) : Prop := completion_time y <= completion_time x.
#[export] Instance newest_completed_le_dec : RelDecision newest_completed_le.
Proof. intros x y. unfold newest_completed_le. apply _. Defined.

Definition is_null_value (v : value) : bool := match v with VNull => true | _ => false end.

Definition spared (retained : selections) (point : RestorePoint) : bool :=
  as_bool (get (rp_Metadata point) "manualRetained") ||
  as_bool (get (rp_Metadata point) "drillRetained") ||
  negb (is_null_value (get (rp_Metadata point) "replacementTaskId")) ||
  selected_point retained (rp_ID point).

(** What is beyond the newest [count] points and nothing keeps. *)
Definition expired_points (count : Z) (retained : selections) (available : list RestorePoint)
    : list RestorePoint :=
  List.filter (fun p => negb (spared retained p))
    (drop (Z.to_nat count) (merge_sort newest_completed_le available)).

(** ** The tasks that delete them *)

Definition point_entry (namespace : string) (point : RestorePoint) : value :=
  VObj {[ "id" := VStr (rp_ID point); "taskCreatedAt" := VTime (rp_TaskCreatedAt point);
          "veleroBackupName" := VStr (rp_VeleroBackupName point);
          "namespace" := VStr namespace ]}.

Definition retention_input (clusterID planID commandID : string) (payload : document) : TaskInput :=
  {| ti_TenantID := ""; ti_ClusterID := clusterID; ti_AppID := "";
     ti_ProtectionPlanID := planID; ti_RestorePointID := ""; ti_Type := "retention-cleanup";
     ti_Status := "queued"; ti_CommandID := commandID; ti_Payload := payload;
     ti_SuppressLatestPointer := false |}.

Definition point_state (id status : string) (metadata : document) : RestorePointStateInput :=
  {| rps_ID := id; rps_Status := status; rps_Metadata := metadata |}.

#[export] Hint Extern 2 (stays_in _ (create_task _ (retention_input _ _ _ _))) =>
  apply safe_create_task; unfold retention_input; plain_payload : ctl.

(** [r.store.UpdateRestorePointState], its result dropped. *)
Definition update_point_state (input : RestorePointStateInput) : ctl unit :=
  ignore (store (fun _ _ => UpdateRestorePointState input)).

(** [points = append(points, entry(point))], with what is done to each of them. *)
Fixpoint entries (clusterID : string) (mark : RestorePoint -> ctl unit) (points : list RestorePoint)
    : ctl (list value) :=
  match points with
  | [] => mret []
  | point :: points =>
      namespace ← dataProtectionNamespaceForCluster clusterID;
      mark point;;
      rest ← entries clusterID mark points;
      mret (point_entry namespace point :: rest)
  end.

Definition finalizing (taskID : string) (payload : document) : TaskStatusInput :=
  {| tsi_TaskID := taskID; tsi_RestorePointID := ""; tsi_Status := "finalizing";
     tsi_Progress := 100; tsi_ErrorCode := ""; tsi_ErrorMessage := ""; tsi_Payload := payload;
     tsi_MarkAccepted := false; tsi_MarkStarted := false; tsi_MarkDone := false |}.

#[export] Hint Extern 2 (stays_in _ (update_task_status (finalizing _ _))) =>
  apply safe_update_task_status; unfold finalizing; plain_payload : ctl.

Section retention.
Context (LoadLocation : string -> option location).
Context (diagnosticWriter : option (DiagnosticLogInput -> option error)).

Notation add_task_event := (add_task_event diagnosticWriter).

(** ** What is recorded of a cleanup *)

Definition markRestorePointDeleted (id : string) : ctl unit :=
  if negb (nonempty id) then mret tt
  else
    now ← time_now;
    update_point_state (point_state id "deleted"
      {[ "retentionState" := VStr "deleted"; "deletedAt" := VStr (format_rfc3339 now) ]}).

Definition markBackupTaskRetentionWarning (taskID code message : string) : ctl unit :=
  if negb (nonempty taskID) then mret tt
  else
    let message := or_else message "Expired restore point cleanup did not complete." in
    ignore (update_task_status (report taskID "" 0 code message false));;
    add_task_event (event taskID "warning" code message ∅).

Definition clearBackupTaskRetentionWarning (taskID : string) : ctl unit :=
  if negb (nonempty taskID) then mret tt
  else ignore (update_task_status (report taskID "" 0 "" "" false)).

Definition point_ids (points : list value) : list string :=
  (fun v => stringFromMap (mapFromAny v) "id") <$> points.

Definition markRetentionCleanupFailed (task : Task) (message : string) : ctl unit :=
  let '(_, points) := retentionCleanupCommandFromPayload (task_Payload task) in
  range (point_ids points) (fun id =>
    update_point_state (point_state id "available"
      {[ "retentionState" := VStr "delete_failed"; "deleteError" := VStr message ]}));;
  markBackupTaskRetentionWarning (stringPayload (task_Payload task) "triggerTaskId")
    "RETENTION_CLEANUP_FAILED" message.

(** The strings of [[]any] or [[]string]. *)
Definition deleted_ids (v : value) : list string :=
  match v with
  | VList l => omap (fun v => match v with VStr s => Some s | _ => None end) l
  | VStrs l => l
  | _ => []
  end.

Definition finishRetentionCleanupTask (task : Task) (veleroPayload : document) : ctl unit :=
  range (deleted_ids (get veleroPayload "deleted")) markRestorePointDeleted;;
  clearBackupTaskRetentionWarning (stringPayload (task_Payload task) "triggerTaskId").

(** ** Retention of a plan *)

(** A failed dispatch ends the task: its result is the row as updated. *)
Definition cleanup_dispatch_failed (task : Task) (message : string) : ctl Task :=
  updated ← update_task_status (report (task_ID task) "failed" 0 "DISPATCH_FAILED" message true);
  let task := task_of updated in
  markRetentionCleanupFailed task message;;
  mret task.

Definition send_retention_cleanup (task : Task) (clusterID triggerTaskID : string) : ctl unit :=
  connected ← hub_get clusterID;
  if negb connected then
    ignore (update_task_status (report (task_ID task) "queued" 0 "AGENT_OFFLINE"
      "agent is not connected; retention cleanup will be dispatched after reconnect" false));;
    markBackupTaskRetentionWarning triggerTaskID "RETENTION_CLEANUP_PENDING"
      "Expired restore points were selected for deletion, but the source cluster agent is offline. Cleanup will retry after reconnect."
  else
    sent ← dispatchStoredTask clusterID task;
    match sent with
    | inl err =>
        message ← error_message err;
        ignore (cleanup_dispatch_failed task message);;
        markBackupTaskRetentionWarning triggerTaskID "RETENTION_CLEANUP_FAILED" message
    | inr _ => ignore (update_task_status (report (task_ID task) "dispatched" 0 "" "" false))
    end.

Definition delete_expired (plan : ProtectionPlan) (triggerTaskID : string)
    (candidates : list RestorePoint) : ctl unit :=
  let clusterID := plan_SourceClusterID plan in
  claimed ← store (fun _ _ => ClaimRestorePointDeletion (rp_ID <$> candidates));
  match claimed with
  | inl _ => mret tt
  | inr _ =>
      restorePoints ← entries clusterID (fun point =>
        update_point_state (point_state (rp_ID point) (rp_Status point)
          {[ "retentionState" := VStr "pending_delete" ]})) candidates;
      commandID ← NewPublicID;
      created ← create_task LoadLocation (retention_input clusterID (plan_ID plan) commandID
        {[ "planId" := VStr (plan_ID plan); "triggerTaskId" := VStr triggerTaskID;
           "restorePoints" := VList restorePoints ]});
      match created with
      | inl _ => mret tt
      | inr task =>
          range candidates (fun point =>
            update_point_state (point_state (rp_ID point) (rp_Status point)
              {[ "retentionState" := VStr "deleting";
                 "retentionCleanupTask" := VStr (task_ID task) ]}));;
          send_retention_cleanup task clusterID triggerTaskID
      end
  end.

Definition plan_points_filter (clusterID planID : string) : RestorePointFilter :=
  {| pf_TenantID := ""; pf_ClusterID := clusterID; pf_AppID := ""; pf_ProtectionPlanID := planID;
     pf_IncludeDeleted := false; pf_Limit := 0; pf_Offset := 0; pf_Summary := false |}.

(** The points of a plan that its policy lets go. *)
Definition expired_of (policy : Policy) (points : list RestorePoint) (active : list string)
    (now : time) : list RestorePoint :=
  let available := List.filter (expirable active) points in
  if Z.of_nat (length available) <=? pol_RetentionCount policy then []
  else
    match RetentionSelections LoadLocation points (pol_RetentionRules policy)
            (pol_RetentionTimezone policy) now with
    | inl _ => []
    | inr retained => expired_points (pol_RetentionCount policy) retained available
    end.

Definition reconcile_points (plan : ProtectionPlan) (policy : Policy) (triggerTaskID : string)
    : ctl unit :=
  points ← store (fun _ _ => ListRestorePoints
    (plan_points_filter (plan_SourceClusterID plan) (plan_ID plan)));
  match points with
  | inl _ => mret tt
  | inr points =>
      tasks ← list_tasks (plan_SourceClusterID plan);
      match tasks with
      | inl _ => mret tt
      | inr tasks =>
          cutoff ← time_now;
          let active := task_ID <$> List.filter (active_retention_task cutoff) tasks in
          now ← time_now;
          match expired_of policy points active now with
          | [] => mret tt
          | candidates => delete_expired plan triggerTaskID candidates
          end
      end
  end.

Definition reconcileRetention (planID triggerTaskID : string) : ctl unit :=
  if negb (nonempty planID) then mret tt
  else
    plan ← store (fun _ _ => GetProtectionPlan planID);
    match plan with
    | inr (Some plan) =>
        if negb (nonempty (plan_PolicyID plan)) then mret tt
        else
          policy ← findPolicy (plan_PolicyID plan);
          match policy with
          | inr (Some policy) =>
              if pol_RetentionCount policy <=? 0 then mret tt
              else reconcile_points plan policy triggerTaskID
          | _ => mret tt
          end
    | _ => mret tt
    end.

(** ** Deleting restore points on request *)

Definition manual_deletion (taskID : string) (now : time) : document :=
  {[ "retentionState" := VStr "deleting"; "retentionCleanupTask" := VStr taskID;
     "deleteRequestedAt" := VStr (format_rfc3339 now); "deleteRequestedBy" := VStr "manual" ]}.

(** A single point that is being replaced is deleted for its backup. *)
Definition begin_replacement (points : list RestorePoint) (cleanupID : string)
    : ctl (failure + unit) :=
  match points with
  | [point] =>
      let owner := as_string (get (rp_Metadata point) "replacementTaskId") in
      if nonempty owner then store (fun _ _ => BeginRestorePointReplacement owner cleanupID)
      else mret (inr tt)
  | _ => mret (inr tt)
  end.

(** The task and the warning. *)
Definition send_delete_task (clusterID : string) (task : Task) : ctl (Task * string) :=
  connected ← hub_get clusterID;
  if negb connected then
    ignore (update_task_status (report (task_ID task) "queued" 0 "AGENT_OFFLINE"
      "agent is not connected; restore point delete will be dispatched after reconnect" false));;
    mret (task, "agent is offline; restore point delete task remains queued")
  else
    sent ← dispatchStoredTask clusterID task;
    match sent with
    | inl err =>
        message ← error_message err;
        task ← cleanup_dispatch_failed task message;
        mret (task, "restore point delete task created but dispatch failed")
    | inr _ =>
        updated ← update_task_status (report (task_ID task) "dispatched" 0 "" "" false);
        let task := task_of updated in
        add_task_event (event (task_ID task) "info" "dispatched"
          "restore point delete task dispatched to agent" ∅);;
        mret (task, "")
    end.

Definition createRestorePointDeleteTask (clusterID : string) (points : list RestorePoint)
    : ctl (failure + Task * string) :=
  if negb (nonempty clusterID) || bool_decide (length points = 0%nat)
  then mret (inl (Failure "restore point delete target required"))
  else
    let protectionPlanID := default "" (find_first nonempty (rp_ProtectionPlanID <$> points)) in
    restorePoints ← entries clusterID (fun _ => mret tt) points;
    commandID ← NewPublicID;
    created ← create_task LoadLocation (retention_input clusterID protectionPlanID commandID
      {[ "planId" := VStr protectionPlanID; "manualDelete" := VBool true;
         "restorePoints" := VList restorePoints ]});
    or_return created (fun task =>
      begun ← begin_replacement points (task_ID task);
      or_return begun (fun _ =>
        range points (fun point =>
          now ← time_now;
          update_point_state (point_state (rp_ID point) (rp_Status point)
            (manual_deletion (task_ID task) now)));;
        add_task_event (event (task_ID task) "info" "manual_restore_point_delete"
          "restore point delete requested" {[ "restorePoints" := VList restorePoints ]});;
        sent ← send_delete_task clusterID task;
        mret (inr sent))).

(** ** Replacing restore points *)

Definition publish (input : RestorePointInput) : ctl (failure + RestorePoint) :=
  eventID ← NewPublicID;
  store (fun id now => PublishBackupResult LoadLocation id eventID now input).

Definition get_task (id : string) : ctl (failure + option Task) := store (fun _ _ => getTask id).

Definition markQuotaReplacementWarning (taskID message : string) : ctl unit :=
  found ← get_task taskID;
  let warned :=
    match found with
    | inr (Some task) => (task_ErrorCode task =s "QUOTA_REPLACEMENT_PENDING") &&
                         (task_ErrorMessage task =s message)
    | _ => false
    end in
  if warned then mret tt
  else markBackupTaskRetentionWarning taskID "QUOTA_REPLACEMENT_PENDING" message.

(** [false] when the error is another one. *)
Definition deferRestorePointReplacement (taskID : string) (err : failure) : ctl bool :=
  match cause err with
  | Some ErrRestorePointReplacementPending =>
      ignore (update_task_status (finalizing taskID {[ "quotaStage" := VStr "data_ready" ]}));;
      ignore (addTaskEventIfChanged diagnosticWriter (event taskID "info" "quota_replacement"
        "Backup data is ready. Waiting for old restore point deletion before publishing the new point."
        ∅));;
      mret true
  | _ => mret false
  end.

(** The metrics measured since, unless the task's result is accepted already. *)
Definition refreshed_input (found : failure + option Task) (input : RestorePointInput)
    : RestorePointInput :=
  match found with
  | inr (Some task) =>
      match get (task_Payload task) "backupResult" with
      | VNull =>
          let metrics := mapFromAnyJSON (get (task_Payload task) "sizeMetricsV2") in
          with_metadata input (<["sizeMetricsV2" := VObj metrics]> (rpi_Metadata input)) metrics
      | _ => input
      end
  | _ => input
  end.

Definition publish_replacement (item : RestorePointReplacement) : ctl unit :=
  found ← get_task (rep_TaskID item);
  created ← publish (refreshed_input found (rep_Input item));
  match created with
  | inl _ => mret tt
  | inr point =>
      startWorker (IndexContents point);;
      ignore (addTaskEventIfChanged diagnosticWriter (event (rep_TaskID item) "info"
        "restore_point_published" "Old restore point deleted; new restore point published." ∅))
  end.

(** The next attempt: half a minute after the first, twice as long after each, at
    most 32 minutes. *)
Definition replacement_delay (attempts : Z) : Z := 30 * second * Z.shiftl 1 (Z.min attempts 6).

(** Whether the cleanup of the replaced point is to be started again. *)
Definition cleanup_again (item : RestorePointReplacement) : ctl bool :=
  if negb (nonempty (rep_CleanupTaskID item)) then mret true
  else
    found ← get_task (rep_CleanupTaskID item);
    match found with
    | inr (Some cleanup) =>
        if task_Status cleanup =s "succeeded" then
          finishRetentionCleanupTask cleanup
            {[ "deleted" := get (task_Payload cleanup) "deletedRestorePointIds" ]};;
          mret false
        else if negb (one_of (task_Status cleanup) ["failed"; "canceled"; "cancelled"])
        then mret false
        else
          markQuotaReplacementWarning (rep_TaskID item)
            "New backup data is ready, but deletion of the old restore point failed. The replacement remains locked; cleanup will retry after resolving the cluster error.";;
          now ← time_now;
          mret (negb ((task_CompletedAt cleanup =? zero_time) ||
                      (now - task_CompletedAt cleanup <? replacement_delay (rep_Attempts item))))
    | _ => mret false
    end.

Definition start_cleanup (item : RestorePointReplacement) (point : RestorePoint) : ctl unit :=
  created ← createRestorePointDeleteTask (rp_SourceClusterID point) [point];
  match created with
  | inl err =>
      message ← error_message err;
      markQuotaReplacementWarning (rep_TaskID item) message
  | inr (cleanup, _) =>
      begun ← store (fun _ _ => BeginRestorePointReplacement (rep_TaskID item) (task_ID cleanup));
      match begun with
      | inl _ => mret tt
      | inr _ =>
          ignore (update_task_status (finalizing (rep_TaskID item)
            {[ "quotaStage" := VStr "deleting_old_point";
               "quotaCleanupTaskId" := VStr (task_ID cleanup) ]}))
      end
  end.

Definition replace_point (item : RestorePointReplacement) : ctl unit :=
  if negb (nonempty (rep_PointID item)) then publish_replacement item
  else
    found ← store (fun _ _ => GetRestorePoint (rep_PointID item));
    match found with
    | inr (Some point) =>
        if rp_Status point =s "deleted" then publish_replacement item
        else
          again ← cleanup_again item;
          if again : bool then start_cleanup item point else mret tt
    | _ => mret tt
    end.

Definition reconcileRestorePointReplacements : ctl unit :=
  items ← store (fun _ _ => PendingRestorePointReplacements);
  match items with
  | inl _ => mret tt
  | inr items => range items replace_point
  end.

(** ** These only make calls of the system *)

Notation safe := (safe LoadLocation).

Lemma safe_update_point_state input : safe (update_point_state input).
Proof. apply stays_ignore, safe_operation. intros. apply op_point_state. Qed.

Lemma safe_begin taskID cleanupID :
  safe (store (fun _ _ => BeginRestorePointReplacement taskID cleanupID)).
Proof. apply safe_operation. intros. apply op_replace. Qed.

Lemma safe_claim ids : safe (store (fun _ _ => ClaimRestorePointDeletion ids)).
Proof. apply safe_operation. intros. apply op_claim_deletion. Qed.

Lemma safe_publish input : available_report input -> safe (publish input).
Proof.
  intros H. apply stays_bind; [apply stays_ask|]. intros eventID. apply safe_operation.
  intros. by apply op_publish.
Qed.

Lemma safe_markRestorePointDeleted id : safe (markRestorePointDeleted id).
Proof.
  unfold markRestorePointDeleted. pose proof safe_update_point_state as H. handler_walk.
Qed.

Lemma safe_markBackupTaskRetentionWarning taskID code message :
  safe (markBackupTaskRetentionWarning taskID code message).
Proof. unfold markBackupTaskRetentionWarning. handler_walk. Qed.

Lemma safe_markRetentionCleanupFailed task message :
  safe (markRetentionCleanupFailed task message).
Proof.
  unfold markRetentionCleanupFailed. pose proof safe_update_point_state as H.
  pose proof safe_markBackupTaskRetentionWarning as H1. handler_walk.
Qed.

Lemma safe_finishRetentionCleanupTask task payload :
  safe (finishRetentionCleanupTask task payload).
Proof.
  unfold finishRetentionCleanupTask, clearBackupTaskRetentionWarning.
  pose proof safe_markRestorePointDeleted as H. handler_walk.
Qed.

Lemma safe_cleanup_dispatch_failed task message : safe (cleanup_dispatch_failed task message).
Proof.
  unfold cleanup_dispatch_failed. pose proof safe_markRetentionCleanupFailed as H. handler_walk.
Qed.

Lemma safe_entries clusterID mark points :
  (forall p, safe (mark p)) -> safe (entries clusterID mark points).
Proof. intros H. induction points as [|p points IH]; cbn; handler_walk. Qed.

Lemma safe_reconcileRetention planID taskID : safe (reconcileRetention planID taskID).
Proof.
  unfold reconcileRetention, reconcile_points, delete_expired, send_retention_cleanup, findPolicy.
  pose proof safe_update_point_state as H. pose proof safe_markBackupTaskRetentionWarning as H1.
  pose proof safe_cleanup_dispatch_failed as H2. pose proof safe_claim as H3.
  pose proof safe_entries as H4. handler_walk.
Qed.

Lemma safe_createRestorePointDeleteTask clusterID points :
  safe (createRestorePointDeleteTask clusterID points).
Proof.
  unfold createRestorePointDeleteTask, send_delete_task, begin_replacement.
  pose proof safe_update_point_state as H. pose proof safe_cleanup_dispatch_failed as H1.
  pose proof safe_begin as H2. pose proof safe_entries as H3. handler_walk.
Qed.

Lemma safe_markQuotaReplacementWarning taskID message :
  safe (markQuotaReplacementWarning taskID message).
Proof.
  unfold markQuotaReplacementWarning, get_task.
  pose proof safe_markBackupTaskRetentionWarning as H. handler_walk.
Qed.

Lemma safe_deferRestorePointReplacement taskID err :
  safe (deferRestorePointReplacement taskID err).
Proof. unfold deferRestorePointReplacement. handler_walk. Qed.

Definition available_item (item : RestorePointReplacement) : Prop :=
  rpi_Status (rep_Input item) = "available".

Lemma refreshed_available found input :
  rpi_Status input = "available" -> available_report (refreshed_input found input).
Proof.
  intros H. right. unfold refreshed_input. destruct found as [|[task|]]; try done.
  by destruct (get _ _).
Qed.

Lemma safe_replace_point item : available_item item -> safe (replace_point item).
Proof.
  intros Hitem. pose proof safe_begin as H. pose proof safe_createRestorePointDeleteTask as H1.
  pose proof safe_markQuotaReplacementWarning as H2. pose proof safe_finishRetentionCleanupTask as H3.
  assert (Hpub : forall found, safe (publish (refreshed_input found (rep_Input item))))
    by (intros; by apply safe_publish, refreshed_available).
  unfold replace_point, publish_replacement, cleanup_again, start_cleanup, get_task. handler_walk.
Qed.

(** What waits in a sound store is available. *)
Lemma pending_items_available fuse d d' items :
  sound d -> run PendingRestorePointReplacements fuse d = (d', inr items) ->
  Forall available_item items.
Proof.
  intros (bound & _ & I) H. unfold run in H.
  destruct (PendingRestorePointReplacements _) as [s r] eqn:E. injection H as <- ->.
  unfold PendingRestorePointReplacements in E. apply bind_inr in E as ([] & s1 & H1 & E).
  assert (Ht : tame d (working s1)).
  { pose proof (tame_releaseFailed d (Session d d fuse)) as Ht. rewrite H1 in Ht.
    apply Ht. split; reflexivity. }
  apply bind_inr in E as (rows & s2 & H2 & E). apply select_inr in H2 as (_ & _ & ->).
  unfold or_fail in E. destruct (mapM replacement_item _) as [l|] eqn:Em; [|by tx_inv].
  apply ret_inr in E as [_ ->]. apply mapM_Some_1 in Em.
  eapply Forall2_Forall_r; [exact Em|]. apply Forall_forall. intros [id v] Hin item Hitem.
  rewrite merge_sort_Permutation in Hin.
  apply list_elem_of_In, filter_In in Hin as [Hin _]. apply list_elem_of_In in Hin.
  apply elem_of_map_to_list in Hin. unfold replacement_item in Hitem.
  destruct (v_pending_point v) as [raw|] eqn:Hp; [|done]. cbn in Hitem.
  destruct (unmarshal_input raw) as [input|] eqn:Hu; [|done]. injection Hitem as <-.
  by apply (inv_pending _ _ (tame_keeps _ _ _ Ht I) id v Hin raw).
Qed.

End retention.

(** ** What retention leaves *)
Lemma merge_sort_newest l : StronglySorted newest_completed_le (merge_sort newest_completed_le l).
Proof.
  apply StronglySorted_merge_sort.
  - intros x y z. unfold newest_completed_le. lia.
  - intros x y. unfold newest_completed_le. lia.
Qed.

Lemma sorted_app_le {A} (R : A -> A -> Prop) l k x y :
  StronglySorted R (l ++ k) -> x ∈ l -> y ∈ k -> R x y.
Proof.
  induction l as [|a l IH]; cbn; [by intros _ ?%elem_of_nil|].
  intros [Hs Hf]%StronglySorted_inv [->|Hx]%elem_of_cons Hy; [|by apply IH].
  rewrite Forall_forall in Hf. apply Hf. apply elem_of_app. by right.
Qed.

Lemma in_drop {A} n (l : list A) x : x ∈ drop n l -> x ∈ l.
Proof. intros H. rewrite <- (take_drop n l). apply elem_of_app. by right. Qed.

Lemma expired_points_spec count retained available p :
  p ∈ expired_points count retained available ->
  p ∈ drop (Z.to_nat count) (merge_sort newest_completed_le available) /\ spared retained p = false.
Proof.
  unfold expired_points. intros Hin. apply list_elem_of_In, filter_In in Hin as [Hin Hs].
  apply list_elem_of_In in Hin. split; [done|]. by apply negb_true_iff.
Qed.

(** C22.  Retention never lets go of what it is to keep: of the points of a plan with
    distinct identifiers, those selected for deletion are available, have a backup
    behind them, are not already being deleted, and are neither retained by hand,
    nor by a drill, nor by a rule, nor being replaced; and as many available points
    as the policy's count stay, each completed no earlier than any point that
    goes. *)
Theorem retention_keeps_the_newest LoadLocation policy points active now expired :
  NoDup (rp_ID <$> points) ->
  expired_of LoadLocation policy points active now = expired ->
  (forall p, p ∈ expired ->
     p ∈ points /\ rp_Status p = "available" /\ rp_VeleroBackupName p <> "" /\
     get (rp_Metadata p) "manualRetained" <> VBool true /\
     get (rp_Metadata p) "drillRetained" <> VBool true /\
     get (rp_Metadata p) "replacementTaskId" = VNull /\
     (forall retained, RetentionSelections LoadLocation points (pol_RetentionRules policy)
        (pol_RetentionTimezone policy) now = inr retained ->
      selected_point retained (rp_ID p) = false)) /\
  (expired = [] \/ exists newest, newest ⊆+ List.filter (expirable active) points /\
     Z.of_nat (length newest) = Z.max 0 (pol_RetentionCount policy) /\
     forall q, q ∈ newest -> q ∉ expired /\
       forall p, p ∈ expired -> completion_time p <= completion_time q).
Proof.
  intros Hdup. unfold expired_of.
  set (available := List.filter (expirable active) points).
  destruct (Z.leb_spec (Z.of_nat (length available)) (pol_RetentionCount policy)) as [|Hmore].
  { intros <-. split; [by intros p ?%elem_of_nil|by left]. }
  destruct (RetentionSelections _ _ _ _ _) as [err|retained] eqn:Hsel.
  { intros <-. split; [by intros p ?%elem_of_nil|by left]. }
  intros <-. set (sorted := merge_sort newest_completed_le available).
  assert (Hperm : sorted ≡ₚ available) by apply merge_sort_Permutation.
  assert (Hsub : forall p, p ∈ sorted -> p ∈ points /\ expirable active p = true).
  { intros p Hp. rewrite Hperm in Hp. unfold available in Hp.
    apply list_elem_of_In, filter_In in Hp as [Hp He]. split; [by apply list_elem_of_In|done]. }
  split.
  - intros p [Hp%in_drop Hs]%expired_points_spec.
    destruct (Hsub p Hp) as [Hin He]. unfold expirable in He.
    rewrite !andb_true_iff in He. destruct He as [[Hst%seqb_true Hname%nonempty_true] _].
    unfold spared in Hs. rewrite !orb_false_iff in Hs. destruct Hs as [[[Hm Hd] Hr] Hret].
    split_and!; try done.
    + intros E. by rewrite E in Hm.
    + intros E. by rewrite E in Hd.
    + by destruct (get _ "replacementTaskId").
    + by intros ? [= <-].
  - right. exists (take (Z.to_nat (pol_RetentionCount policy)) sorted). split_and!.
    + rewrite <- Hperm. apply submseteq_take.
    + rewrite length_take. apply Permutation_length in Hperm. lia.
    + intros q Hq. assert (Hlt : forall p, p ∈ expired_points (pol_RetentionCount policy) retained available ->
        completion_time p <= completion_time q).
      { intros p [Hp _]%expired_points_spec. apply (sorted_app_le newest_completed_le
          (take (Z.to_nat (pol_RetentionCount policy)) sorted)
          (drop (Z.to_nat (pol_RetentionCount policy)) sorted) q p); [|done|done].
        rewrite take_drop. apply merge_sort_newest. }
      split; [|done]. intros [Hp _]%expired_points_spec.
      assert (HND : NoDup (take (Z.to_nat (pol_RetentionCount policy)) sorted ++
                           drop (Z.to_nat (pol_RetentionCount policy)) sorted)).
      { rewrite take_drop, Hperm. eapply NoDup_fmap_1 in Hdup. unfold available.
        by apply NoDup_ListNoDup, List.NoDup_filter, NoDup_ListNoDup. }
      apply NoDup_app in HND as (_ & Hdisj & _). by apply (Hdisj q Hq).
Qed.
