(* ===== verification/ProtectionCleanup.v ===== *)
(** Removing what a deleted plan protected: the cleanup tasks of
    backend/internal/httpserver/backup_events.go (createProtectionCleanupTask,
    finishProtectionCleanupTask, markProtectionCleanupFailed) and the scheduler's
    reconcileProtectionCleanupPlans (scheduler.go). *)

From S2P Require Import Prelude Calendar Timestamp Value Types Retention Session Database Control.
From S2P Require Import Events Fleet Storage Catalog Commands Quota Tasks RestorePoints Plans Policies.
From S2P Require Import Bindings Dispatch Lifecycle System Handlers StorageSync PlanPolicy Activation.
From S2P Require Import BackupTasks RetentionCleanup.

(** ** When all of a plan's cleanup has succeeded *)

Definition cleanup_mode (task : Task) : string := stringPayload (task_Payload task) "cleanupMode".
Definition for_target (task : Task) : bool := cleanup_mode task =s "target".

(** Cleanup tasks of the plan; of one run, when it is named. *)
Definition cleanup_task_of (planID cleanupRunID : string) (task : Task) : bool :=
  (task_ProtectionPlanID task =s planID) && (task_Type task =s "protection-cleanup") &&
  (negb (nonempty cleanupRunID) ||
   (stringPayload (task_Payload task) "cleanupRunId" =s cleanupRunID)).

Definition expects_target (plan : ProtectionPlan) : bool :=
  nonempty (plan_TargetClusterID plan) &&
  (plan_TargetClusterID plan <>s plan_SourceClusterID plan).

Definition succeeded_task (task : Task) : bool := task_Status task =s "succeeded".

Definition latest_succeeded (tasks : list Task) : bool :=
  match latest_task None tasks with Some task => succeeded_task task | None => false end.

Definition cleanup_complete (plan : ProtectionPlan) (cleanupRunID : string) (tasks : list Task)
    : bool :=
  let own := List.filter (cleanup_task_of (plan_ID plan) cleanupRunID) tasks in
  let source := List.filter (fun t => negb (for_target t)) own in
  let target := List.filter for_target own in
  if nonempty cleanupRunID then
    forallb succeeded_task own && negb (bool_decide (source = [])) &&
    (negb (expects_target plan) || negb (bool_decide (target = [])))
  else latest_succeeded source && (negb (expects_target plan) || latest_succeeded target).

Definition protectionCleanupTasksComplete (plan : ProtectionPlan) (cleanupRunID : string)
    : ctl (failure + bool) :=
  tasks ← list_tasks "";
  or_return tasks (fun tasks => mret (inr (cleanup_complete plan cleanupRunID tasks))).

(** ** What the tasks carry *)

Definition recovery_of_plan (planID : string) (task : Task) : bool :=
  ((task_ProtectionPlanID task =s planID) ||
   (stringPayload (task_Payload task) "protectionPlanId" =s planID) ||
   (stringPayload (task_Payload task) "planId" =s planID)) &&
  one_of (task_Type task) ["restore"; "drill"; "takeover"; "failback"].

Definition protectionPlanRestoreNames (planID : string) : ctl (failure + list string) :=
  tasks ← list_tasks "";
  or_return tasks (fun tasks =>
    mret (inr (uniqueNonEmptyStrings (List.filter nonempty
      ((fun t => TrimSpace (stringPayload (task_Payload t) "veleroBackupName"))
         <$> List.filter (recovery_of_plan planID) tasks))))).

Definition namespace_of_app (namespaces : list string) (appID : string)
    : ctl (failure + list string) :=
  found ← store (fun _ _ => GetApplication appID);
  or_return found (fun found =>
    mret (inr match found with
              | Some app => if nonempty (app_Namespace app) then add_new (app_Namespace app) namespaces
                            else namespaces
              | None => namespaces
              end)).

Definition protectionPlanNamespaces (plan : ProtectionPlan) : ctl (failure + list string) :=
  found ← collect (plan_app_ids plan) [] namespace_of_app;
  or_return found (fun namespaces =>
    mret (if bool_decide (namespaces = [])
          then inl (Failure "protection plan has no application namespaces")
          else inr namespaces)).

(** The payload of both tasks. *)
Definition cleanup_payload (plan : ProtectionPlan) (repo : StorageRepository)
    (cleanupRunID mode namespace : string) (sourceNamespaces restoreNames : list string)
    (restorePoints : list value) : document :=
  let source := mode =s "source" in
  let payload :=
    {[ "planId" := VStr (plan_ID plan); "cleanupRunId" := VStr cleanupRunID;
       "cleanupMode" := VStr mode; "backupNamePrefix" := VStr (scheduleNameForPlan (plan_ID plan));
       "namespace" := VStr namespace; "sourceNamespaces" := VStrs sourceNamespaces;
       "storageRepo" := VStr (storageDomainBSLName repo (plan_SourceClusterID plan));
       "storageRepoDisplayName" := VStr (repo_Name repo);
       "sourceClusterId" := VStr (plan_SourceClusterID plan);
       "objectPrefix" :=
         VStr (storageDomainPrefix (plan_TenantID plan) (plan_SourceClusterID plan));
       "cleanupObjectStorage" := VBool source; "restorePoints" := VList restorePoints;
       "restoreNames" := VStrs restoreNames ]} : document in
  if source then <["scheduleName" := VStr (scheduleNameForPlan (plan_ID plan))]> payload
  else payload.

Definition cleanup_input (clusterID planID commandID : string) (payload : document) : TaskInput :=
  {| ti_TenantID := ""; ti_ClusterID := clusterID; ti_AppID := ""; ti_ProtectionPlanID := planID;
     ti_RestorePointID := ""; ti_Type := "protection-cleanup"; ti_Status := "queued";
     ti_CommandID := commandID; ti_Payload := payload; ti_SuppressLatestPointer := false |}.

#[export] Hint Extern 2 (stays_in _ (create_task _ (cleanup_input _ _ _ _))) =>
  apply safe_create_task; unfold plain_input, cleanup_input; cbn [ti_Payload]; eassumption : ctl.

Section cleanup.
Context (LoadLocation : string -> option location).
Context (diagnosticWriter : option (DiagnosticLogInput -> option error)).

Notation add_task_event := (add_task_event diagnosticWriter).

(** ** Creating and sending the tasks *)

(** The task and the warning. *)
Definition send_cleanup_task (clusterID : string) (task : Task) (dispatchedMessage : string)
    : ctl (Task * string) :=
  connected ← hub_get clusterID;
  if negb connected then
    ignore (update_task_status (report (task_ID task) "queued" 0 "AGENT_OFFLINE"
      "agent is not connected; protection cleanup will be dispatched after reconnect" false));;
    mret (task, "agent is offline; protection cleanup task remains queued")
  else
    sent ← dispatchStoredTask clusterID task;
    match sent with
    | inl err =>
        message ← error_message err;
        updated ← update_task_status (report (task_ID task) "queued" 0 "DISPATCH_FAILED" message false);
        mret (task_of updated, "protection cleanup task created but dispatch failed")
    | inr _ =>
        updated ← update_task_status (report (task_ID task) "dispatched" 0 "" "" false);
        let task := task_of updated in
        add_task_event (event (task_ID task) "info" "dispatched" dispatchedMessage ∅);;
        mret (task, "")
    end.

Definition createAndDispatchProtectionCleanupTask (plan : ProtectionPlan) (clusterID : string)
    (payload : document) (dispatchedMessage : string) : ctl (failure + Task * string) :=
  commandID ← NewPublicID;
  created ← create_task LoadLocation (cleanup_input clusterID (plan_ID plan) commandID payload);
  or_return created (fun task =>
    add_task_event (event (task_ID task) "info" "protection_cleanup_requested"
      "protection resource cleanup requested"
      {[ "planId" := VStr (plan_ID plan);
         "cleanupMode" := VStr (stringPayload payload "cleanupMode");
         "clusterId" := VStr clusterID;
         "scheduleName" := VStr (stringPayload payload "scheduleName");
         "restorePointCount" := VNum (Z.of_nat (length
            (retentionRestorePointsFromAny (get payload "restorePoints")))) ]});;
    sent ← send_cleanup_task clusterID task dispatchedMessage;
    mret (inr sent)).

Definition pending_delete (point : RestorePoint) : ctl unit :=
  now ← time_now;
  update_point_state (point_state (rp_ID point) (rp_Status point)
    {[ "protectionCleanupState" := VStr "pending_delete";
       "cleanupRequestedAt" := VStr (format_rfc3339 now) ]}).

Definition to_clean (point : RestorePoint) : bool :=
  (rp_Status point <>s "deleted") && nonempty (rp_VeleroBackupName point).

(** The source's task, then the target's; an error leaves what was created. *)
Definition dispatch_cleanups (plan : ProtectionPlan) (repo : StorageRepository)
    (sourceNamespaces restoreNames : list string) (restorePoints : list value)
    : ctl (failure + Task * string) :=
  cleanupRunID ← NewPublicID;
  namespace ← dataProtectionNamespaceForCluster (plan_SourceClusterID plan);
  source ← createAndDispatchProtectionCleanupTask plan (plan_SourceClusterID plan)
    (cleanup_payload plan repo cleanupRunID "source" namespace sourceNamespaces restoreNames
       restorePoints)
    "source protection cleanup task dispatched to agent";
  or_return source (fun '(task, warning) =>
    if negb (expects_target plan) then mret (inr (task, warning))
    else
      namespace ← dataProtectionNamespaceForCluster (plan_TargetClusterID plan);
      target ← createAndDispatchProtectionCleanupTask plan (plan_TargetClusterID plan)
        (cleanup_payload plan repo cleanupRunID "target" namespace sourceNamespaces restoreNames
           restorePoints)
        "target protection cleanup task dispatched to agent";
      or_return target (fun '(_, targetWarning) =>
        mret (inr (task, join "; " (List.filter nonempty [warning; targetWarning]))))).

Definition createProtectionCleanupTask (plan : ProtectionPlan) : ctl (failure + Task * string) :=
  let clusterID := plan_SourceClusterID plan in
  if negb (nonempty (plan_ID plan)) || negb (nonempty clusterID)
  then mret (inl (Failure "protection cleanup target required"))
  else
    sourceNamespaces ← protectionPlanNamespaces plan;
    or_return sourceNamespaces (fun sourceNamespaces =>
      repo ← store (fun _ _ => GetStorageRepository (plan_StorageRepoID plan));
      or_return repo (fun repo =>
        match repo with
        | None => mret (inl (Failure "storage repository not found"))
        | Some repo =>
            points ← store (fun _ _ => ListRestorePoints (plan_points_filter clusterID (plan_ID plan)));
            or_return points (fun points =>
              restorePoints ← entries clusterID pending_delete (List.filter to_clean points);
              restoreNames ← protectionPlanRestoreNames (plan_ID plan);
              or_return restoreNames (fun restoreNames =>
                dispatch_cleanups plan repo sourceNamespaces restoreNames restorePoints))
        end)).

(** ** Their results *)

(** Records of the plan go when everything is cleaned; when they cannot, the plan
    says so. *)
Definition cleanup_records (planID : string) : ctl unit :=
  removed ← store (fun _ _ => CleanupProtectionPlanRecords planID);
  match removed with
  | inl _ => set_plan_status planID "cleanup_failed"
  | inr _ => mret tt
  end.

(** The worker that looks again half a second later ([FinishPlanCleanup]). *)
Definition finish_after_race (planID cleanupRunID : string) : ctl unit :=
  stop ← stopping;
  if stop : bool then mret tt
  else
    plan ← store (fun _ _ => GetProtectionPlan planID);
    match plan with
    | inr (Some plan) =>
        complete ← protectionCleanupTasksComplete plan cleanupRunID;
        match complete with
        | inr true => cleanup_records planID
        | _ => mret tt
        end
    | _ => mret tt
    end.

Definition finishProtectionCleanupTask (task : Task) : ctl unit :=
  if cleanup_mode task =s "drill" then mret tt
  else
    let planID := firstNonEmptyString
      [task_ProtectionPlanID task; stringPayload (task_Payload task) "planId"] in
    if negb (nonempty planID) then mret tt
    else
      plan ← store (fun _ _ => GetProtectionPlan planID);
      match plan with
      | inr (Some plan) =>
          let cleanupRunID := stringPayload (task_Payload task) "cleanupRunId" in
          complete ← protectionCleanupTasksComplete plan cleanupRunID;
          match complete with
          | inl _ => mret tt
          | inr false => startWorker (FinishPlanCleanup planID cleanupRunID)
          | inr true => cleanup_records planID
          end
      | _ => mret tt
      end.

Definition cleanup_point_ids (payload : document) : list string :=
  point_ids (retentionRestorePointsFromAny (get payload "restorePoints")).

Definition markProtectionCleanupFailed (task : Task) (message : string) : ctl unit :=
  let planID := firstNonEmptyString
    [task_ProtectionPlanID task; stringPayload (task_Payload task) "planId"] in
  (if nonempty planID then set_plan_status planID "cleanup_failed" else mret tt);;
  range (cleanup_point_ids (task_Payload task)) (fun id =>
    update_point_state (point_state id "available"
      {[ "protectionCleanupState" := VStr "delete_failed"; "cleanupError" := VStr message ]})).

(** ** The scheduler's pass over plans in cleanup *)

Definition reconcile_cleanup_plan (now : time) (plan : ProtectionPlan) : ctl unit :=
  if plan_Status plan <>s "cleanup_running" then mret tt
  else
    complete ← protectionCleanupTasksComplete plan "";
    match complete with
    | inl _ => mret tt
    | inr true => cleanup_records (plan_ID plan)
    | inr false =>
        if negb (plan_UpdatedAt plan =? zero_time) && (plan_UpdatedAt plan + 10 * minute <? now)
        then set_plan_status (plan_ID plan) "cleanup_failed" else mret tt
    end.

Definition reconcileProtectionCleanupPlans (now : time) : ctl unit :=
  plans ← store (fun _ _ => ListProtectionPlans "");
  match plans with
  | inl _ => mret tt
  | inr plans => range plans (reconcile_cleanup_plan now)
  end.

(** ** These only make calls of the system *)

Notation safe := (safe LoadLocation).

Lemma safe_cleanup_records planID : safe (cleanup_records planID).
Proof.
  unfold cleanup_records. apply stays_bind.
  - apply stays_store. intros. apply call_cleanup_plan.
  - pose proof (safe_set_plan_status LoadLocation) as H. handler_walk.
Qed.

Lemma safe_tasksComplete plan runID : safe (protectionCleanupTasksComplete plan runID).
Proof. unfold protectionCleanupTasksComplete. handler_walk. Qed.

Lemma safe_finish_after_race planID runID : safe (finish_after_race planID runID).
Proof.
  unfold finish_after_race. pose proof safe_cleanup_records as H. pose proof safe_tasksComplete as H1.
  handler_walk.
Qed.

Lemma safe_finishProtectionCleanupTask task : safe (finishProtectionCleanupTask task).
Proof.
  unfold finishProtectionCleanupTask. pose proof safe_cleanup_records as H.
  pose proof safe_tasksComplete as H1. handler_walk.
Qed.

Lemma safe_markProtectionCleanupFailed task message : safe (markProtectionCleanupFailed task message).
Proof.
  unfold markProtectionCleanupFailed. pose proof (safe_set_plan_status LoadLocation) as H.
  pose proof (safe_update_point_state LoadLocation) as H1. handler_walk.
Qed.

Lemma safe_reconcileProtectionCleanupPlans now : safe (reconcileProtectionCleanupPlans now).
Proof.
  unfold reconcileProtectionCleanupPlans, reconcile_cleanup_plan.
  pose proof (safe_set_plan_status LoadLocation) as H. pose proof safe_cleanup_records as H1.
  pose proof safe_tasksComplete as H2. handler_walk.
Qed.

Lemma cleanup_payload_plain plan repo runID mode ns namespaces names points :
  cleanup_payload plan repo runID mode ns namespaces names points !! "backupResult" = None.
Proof. unfold cleanup_payload. destruct (_ =s _); plain_payload. Qed.

Lemma safe_createAndDispatch plan clusterID payload message :
  payload !! "backupResult" = None ->
  safe (createAndDispatchProtectionCleanupTask plan clusterID payload message).
Proof.
  intros Hplain. unfold createAndDispatchProtectionCleanupTask, send_cleanup_task. handler_walk.
Qed.

Lemma safe_pending_delete point : safe (pending_delete point).
Proof.
  unfold pending_delete. pose proof (safe_update_point_state LoadLocation) as H. handler_walk.
Qed.

Lemma safe_createProtectionCleanupTask plan : safe (createProtectionCleanupTask plan).
Proof.
  unfold createProtectionCleanupTask, dispatch_cleanups, protectionPlanNamespaces, namespace_of_app,
    protectionPlanRestoreNames.
  pose proof (fun c l => safe_entries LoadLocation c _ l safe_pending_delete) as H1.
  pose proof (fun p c m q r a b x y z =>
    safe_createAndDispatch p c _ m (cleanup_payload_plain p q r a b x y z)) as H2.
  handler_walk.
Qed.

End cleanup.
