(* ===== verification/Capacity.v ===== *)
(** Measuring the storage plans take: backend/internal/httpserver/plan_capacity.go
    (the daily collection of a cluster, the first one of a plan, collections on
    request, and the reports agents send back) and dispatchComponentUpgrade of
    cluster_handlers.go, which sends its tasks. *)

From Stdlib Require Import Ascii.
From S2P Require Import Prelude Calendar Timestamp Value Types Text Retention Session Database Control.
From S2P Require Import Events Fleet Storage Catalog Commands Quota Tasks RestorePoints Plans Policies.
From S2P Require Import Bindings Dispatch Lifecycle System Handlers StorageSync BackupTasks.

(** ** When a cluster is due

    FNV-1a spreads the clusters over the first five minutes of the day. *)
Definition fnv1a_step (hash : Z) (c : ascii) : Z :=
  (Z.lxor hash (Z.of_N (N_of_ascii c)) * 16777619) mod 2 ^ 32.

Definition fnv1a (s : string) : Z := fold_left fnv1a_step (chars s) 2166136261.

Definition start_of_day (t : time) : time := Date (Year utc t) (Month utc t) (Day utc t) 0 0 0 0 utc.

Definition capacityDue (now : time) (clusterID : string) : bool :=
  fnv1a clusterID mod 300 * second <=? now - start_of_day now.

(** [now.Format("2006-01-02")]. *)
Definition date_text (t : time) : string := first_bytes 10 (format_rfc3339nano t).

(** ** What is measured of a plan *)

Definition capacityPlanEligible (plan : ProtectionPlan) : bool :=
  nonempty (plan_SourceClusterID plan) && nonempty (plan_StorageRepoID plan).

Definition target_of (plan : ProtectionPlan) (location : string) (namespaces : list string)
    (message : string) : capacityTarget :=
  {| ct_PlanID := plan_ID plan; ct_StorageRepositoryID := plan_StorageRepoID plan;
     ct_StorageLocation := location; ct_Namespaces := namespaces; ct_ErrorMessage := message |}.

(** The namespaces collected before an error are kept with it. *)
Fixpoint target_namespaces (plan : ProtectionPlan) (namespaces : list string)
    (appIDs : list string) : ctl (list string * option failure) :=
  match appIDs with
  | [] => mret (namespaces, None)
  | appID :: appIDs =>
      found ← store (fun _ _ => GetApplication appID);
      match found with
      | inl err => mret (namespaces, Some err)
      | inr found =>
          match found with
          | Some app =>
              if (app_ClusterID app =s plan_SourceClusterID plan) && nonempty (app_Namespace app)
              then target_namespaces plan (add_new (app_Namespace app) namespaces) appIDs
              else mret (namespaces, Some (Failure "plan namespace unavailable"))
          | None => mret (namespaces, Some (Failure "plan namespace unavailable"))
          end
      end
  end.

(** The target, as far as it is known, and what is wrong with it. *)
Definition planCapacityTarget (plan : ProtectionPlan) : ctl (capacityTarget * option failure) :=
  found ← store (fun _ _ => GetStorageRepository (plan_StorageRepoID plan));
  match found with
  | inl err => mret (target_of plan "" [] "", Some err)
  | inr found =>
      match found with
      | Some repo =>
          if repo_TenantID repo <>s plan_TenantID plan
          then mret (target_of plan "" [] "", Some (Failure "storage repository unavailable"))
          else
            let location := storageDomainBSLName repo (plan_SourceClusterID plan) in
            collected ← target_namespaces plan [] (plan_app_ids plan);
            match collected with
            | (namespaces, Some err) => mret (target_of plan location namespaces "", Some err)
            | ([], None) =>
                mret (target_of plan location [] "", Some (Failure "plan has no namespaces"))
            | (namespaces, None) =>
                mret (target_of plan location (merge_sort string_le namespaces) "", None)
            end
      | None => mret (target_of plan "" [] "", Some (Failure "storage repository unavailable"))
      end
  end.

Definition with_message (target : capacityTarget) (message : string) : capacityTarget :=
  {| ct_PlanID := ct_PlanID target; ct_StorageRepositoryID := ct_StorageRepositoryID target;
     ct_StorageLocation := ct_StorageLocation target; ct_Namespaces := ct_Namespaces target;
     ct_ErrorMessage := message |}.

(** The targets of the eligible plans, with their errors. *)
Fixpoint capacity_targets (plans : list ProtectionPlan) : ctl (list capacityTarget) :=
  match plans with
  | [] => mret []
  | plan :: plans =>
      if negb (capacityPlanEligible plan) then capacity_targets plans
      else
        found ← planCapacityTarget plan;
        let '(target, failed) := found in
        target ← match failed with
                 | Some err => message ← error_message err; mret (with_message target message)
                 | None => mret target
                 end;
        rest ← capacity_targets plans;
        mret (target :: rest)
  end.

(** ** Reading capacity tasks *)

Definition capacity_tasks (tenantID clusterID trigger day planID : string)
    (types statuses : list string) : TaskFilter :=
  {| tf_CapacityTrigger := trigger; tf_CapacityScheduleDay := day; tf_CapacityPlanID := planID;
     tf_TenantID := tenantID; tf_RegistrationOwnerID := ""; tf_RegistrationKey := "";
     tf_RegistrationSessionID := ""; tf_ClusterID := clusterID; tf_ProtectionPlanID := "";
     tf_Types := types; tf_Statuses := statuses; tf_Limit := 1; tf_Summary := false |}.

Definition backups_of_plan (plan : ProtectionPlan) : TaskFilter :=
  {| tf_CapacityTrigger := ""; tf_CapacityScheduleDay := ""; tf_CapacityPlanID := "";
     tf_TenantID := plan_TenantID plan; tf_RegistrationOwnerID := ""; tf_RegistrationKey := "";
     tf_RegistrationSessionID := ""; tf_ClusterID := plan_SourceClusterID plan;
     tf_ProtectionPlanID := plan_ID plan; tf_Types := ["backup"]; tf_Statuses := ["succeeded"];
     tf_Limit := 1; tf_Summary := false |}.

Definition list_filtered (filter : TaskFilter) : ctl (failure + list Task) :=
  store (fun _ _ => listTasks filter).

Definition names_plan (planID : string) (command : capacityCollection) : bool :=
  existsb (fun target => ct_PlanID target =s planID) (cc_Plans command).

Definition capacity_input (clusterID commandID : string) (payload : document) : TaskInput :=
  {| ti_TenantID := ""; ti_ClusterID := clusterID; ti_AppID := ""; ti_ProtectionPlanID := "";
     ti_RestorePointID := ""; ti_Type := "plan-capacity"; ti_Status := "queued";
     ti_CommandID := commandID; ti_Payload := payload; ti_SuppressLatestPointer := false |}.

Definition capacity_payload (command : capacityCollection) (trigger day : string) : document :=
  let payload := {[ "planCapacity" := capacity_collection command; "trigger" := VStr trigger ]}
                   : document in
  if trigger =s "scheduled" then
    <["trigger" := VStr "scheduled"]> (<["scheduleDay" := VStr day]> payload)
  else payload.

(** What an agent reports of a plan. *)
Record capacityResult := {
  cr_PlanID : string;
  cr_Status : string;
  cr_MetadataBytes : Z;
  cr_KopiaBytes : Z;
  cr_TotalBytes : Z;
  cr_CollectedAt : time;
  cr_ErrorMessage : string
}.

Section capacity.
Context (LoadLocation : string -> option location).
Context (diagnosticWriter : option (DiagnosticLogInput -> option error)).

Notation add_task_event := (add_task_event diagnosticWriter).

(** ** Creating a collection *)

(** The task, and whether it was there already. *)
Definition new_capacity_task (clusterID : string) (plans : list ProtectionPlan)
    (trigger day : string) : ctl (failure + Task * bool) :=
  supported ← supportsCapacity clusterID;
  if negb supported then mret (inl (Failure "cluster agent is offline or requires an upgrade"))
  else
    namespace ← dataProtectionNamespaceForCluster clusterID;
    targets ← capacity_targets plans;
    match targets with
    | [] => mret (inl (Failure "no eligible plans"))
    | _ =>
        commandID ← NewPublicID;
        created ← create_task LoadLocation (capacity_input clusterID commandID
          (capacity_payload {| cc_Namespace := namespace; cc_Plans := targets |} trigger day));
        or_return created (fun task =>
          connected ← hub_get clusterID;
          (if connected : bool
           then startWorker (DispatchUpgrade task "Plan capacity collection dispatched")
           else mret tt);;
          mret (inr (task, false)))
    end.

(** A collection that is running is taken when it measures the first plan, and
    always by the daily collection. *)
Definition running_collection (daily : bool) (first : ProtectionPlan) (task : Task)
    : ctl (failure + Task * bool) :=
  match capacityCommand (task_Payload task) with
  | None => mret (inl (Failure "capacity collection requires a namespace and plans"))
  | Some command =>
      if daily || names_plan (plan_ID first) command then mret (inr (task, true))
      else mret (inl (Failure "another capacity collection is running for this cluster"))
  end.

Definition createCapacityTaskTriggered (clusterID : string) (plans : list ProtectionPlan)
    (now : time) (trigger : string) : ctl (failure + Task * bool) :=
  let daily := trigger =s "scheduled" in
  match plans with
  | [] => mret (inl (Failure "no plans to collect"))
  | first :: _ =>
      running ← list_filtered (capacity_tasks "" clusterID "" "" "" ["plan-capacity"]
        ["queued"; "dispatched"; "accepted"; "running"]);
      or_return running (fun running =>
        match find_first (fun t => isActiveTaskStatus (task_Status t)) running with
        | Some task => running_collection daily first task
        | None =>
            let day := date_text now in
            previous ← (if daily then
                          list_filtered (capacity_tasks "" clusterID "" day "" ["plan-capacity"] [])
                        else mret (inr []));
            or_return previous (fun previous =>
              match previous with
              | task :: _ => mret (inr (task, true))
              | [] => new_capacity_task clusterID plans trigger day
              end)
        end)
  end.

Definition createCapacityTask (clusterID : string) (plans : list ProtectionPlan) (now : time)
    (daily : bool) : ctl (failure + Task * bool) :=
  createCapacityTaskTriggered clusterID plans now (if daily then "scheduled" else "manual").

(** Sending it: the worker [DispatchUpgrade]. *)
Definition dispatchComponentUpgrade (conn : string) (task : Task) (message : string) : ctl unit :=
  stop ← stopping;
  if stop : bool then mret tt
  else
    sent ← dispatchStoredTask conn task;
    match sent with
    | inl err =>
        message ← error_message err;
        ignore (update_task_status (report (task_ID task) "queued" 0 "DISPATCH_FAILED" message false));;
        add_task_event (event (task_ID task) "warning" "dispatch_failed"
          "Upgrade task was created but could not be dispatched; it remains queued for retry." ∅)
    | inr _ =>
        ignore (update_task_status (report (task_ID task) "dispatched" 0 "" "" false));;
        add_task_event (event (task_ID task) "info" "dispatched" message ∅)
    end.

(** ** The first collection of a plan *)

Definition measured (plan : ProtectionPlan) : bool :=
  (0 <? int64FromAny (get (plan_PlanStorageSize plan) "totalBytes")) &&
  nonempty (stringFromMap (plan_PlanStorageSize plan) "collectedAt").

Definition collectInitialPlanCapacity (plan : ProtectionPlan) (now : time) : ctl (failure + unit) :=
  if negb (capacityPlanEligible plan) then mret (inr tt)
  else
    supported ← supportsCapacity (plan_SourceClusterID plan);
    if negb supported || measured plan then mret (inr tt)
    else
      backups ← list_filtered (backups_of_plan plan);
      or_return backups (fun backups =>
        match backups with
        | [] => mret (inr tt)
        | _ =>
            tasks ← list_filtered (capacity_tasks (plan_TenantID plan) (plan_SourceClusterID plan)
              "first-backup" "" (plan_ID plan) ["plan-capacity"] []);
            or_return tasks (fun tasks =>
              match tasks with
              | _ :: _ => mret (inr tt)
              | [] =>
                  created ← createCapacityTaskTriggered (plan_SourceClusterID plan) [plan] now
                    "first-backup";
                  or_return created (fun _ => mret (inr tt))
              end)
        end).

Definition collectInitialPlanCapacityAfterBackup (planID : string) : ctl unit :=
  ignore (RunSchedulerExclusive (
    plan ← store (fun _ _ => GetProtectionPlan planID);
    match plan with
    | inr (Some plan) => now ← time_now; ignore (collectInitialPlanCapacity plan now)
    | _ => mret tt
    end)).

(** ** The daily collection *)

Definition group_plans (plans : list ProtectionPlan) : gmap string (list ProtectionPlan) :=
  fold_left (fun groups plan =>
    if capacityPlanEligible plan then
      let clusterID := plan_SourceClusterID plan in
      <[clusterID := default [] (groups !! clusterID) ++ [plan]]> groups
    else groups) plans ∅.

(** [order] is the order the runtime ranges over the map in. *)
Definition schedulePlanCapacity
    (order : gmap string (list ProtectionPlan) -> list (string * list ProtectionPlan))
    (now : time) : ctl unit :=
  plans ← store (fun _ _ => ListProtectionPlans "");
  match plans with
  | inl _ => mret tt
  | inr plans =>
      range (order (group_plans plans)) (fun '(clusterID, plans) =>
        if negb (capacityDue now clusterID) then mret tt
        else
          supported ← supportsCapacity clusterID;
          if negb supported then mret tt
          else ignore (createCapacityTask clusterID plans now true));;
      range plans (fun plan => ignore (collectInitialPlanCapacity plan now))
  end.

(** ** Reports *)

(** Results are accepted up to five minutes from the future. *)
Definition well_formed_result (now : time) (r : capacityResult) : string + unit :=
  if negb (one_of (cr_Status r) ["succeeded"; "failed"])
  then inl "invalid capacity result status"
  else if (cr_CollectedAt r =? zero_time) || (now + 5 * minute <? cr_CollectedAt r)
  then inl "invalid collection time"
  else if (cr_MetadataBytes r <? 0) || (cr_KopiaBytes r <? 0) || (cr_TotalBytes r <? 0) ||
          negb (cr_TotalBytes r - cr_MetadataBytes r =? cr_KopiaBytes r)
  then inl "invalid capacity values"
  else inr tt.

Definition check_result (command : capacityCollection) (seen : list string) (r : capacityResult)
    : ctl (failure + list string) :=
  if negb (names_plan (cr_PlanID r) command) || one_of (cr_PlanID r) seen
  then mret (inl (Failure "unexpected or duplicate plan capacity result"))
  else
    now ← time_now;
    mret match well_formed_result now r with
         | inl message => inl (Failure message)
         | inr _ => inr (seen ++ [cr_PlanID r])
         end.

(** One valid result for each plan of the command. *)
Definition check_report (command : capacityCollection) (report : option (list capacityResult))
    : ctl (failure + list capacityResult) :=
  match report with
  | Some results =>
      if negb (Nat.eqb (length results) (length (cc_Plans command)))
      then mret (inl (Failure "incomplete capacity report"))
      else
        checked ← collect results [] (check_result command);
        or_return checked (fun _ => mret (inr results))
  | None => mret (inl (Failure "incomplete capacity report"))
  end.

(** Of two targets of a plan the map keeps the later one. *)
Definition target_named (command : capacityCollection) (planID : string) : option capacityTarget :=
  find_first (fun target => ct_PlanID target =s planID) (rev (cc_Plans command)).

(** Whether the plan still is what was measured. *)
Definition same_target (plan : ProtectionPlan) (target current : capacityTarget)
    (failed : option failure) : bool :=
  (plan_StorageRepoID plan =s ct_StorageRepositoryID target) &&
  (nonempty (ct_ErrorMessage target) ||
   (match failed with Some _ => false | None => true end &&
    (ct_StorageLocation current =s ct_StorageLocation target) &&
    bool_decide (ct_Namespaces current = ct_Namespaces target))).

Definition result_patch (task : Task) (r : capacityResult) : document :=
  let patch :=
    {[ "status" := VStr (cr_Status r); "requestedAt" := VTime (task_CreatedAt task);
       "lastAttemptAt" := VTime (cr_CollectedAt r); "taskId" := VStr (task_ID task);
       "errorMessage" := VStr (cr_ErrorMessage r) ]} : document in
  if cr_Status r =s "succeeded" then
    <["metadataBytes" := VNum (cr_MetadataBytes r)]> (<["kopiaBytes" := VNum (cr_KopiaBytes r)]>
      (<["totalBytes" := VNum (cr_TotalBytes r)]> (<["collectedAt" := VTime (cr_CollectedAt r)]>
        patch)))
  else patch.

Definition save_result (task : Task) (command : capacityCollection) (_ : unit) (r : capacityResult)
    : ctl (failure + unit) :=
  found ← store (fun _ _ => GetProtectionPlan (cr_PlanID r));
  or_return found (fun found =>
    match found, target_named command (cr_PlanID r) with
    | Some plan, Some target =>
        if (plan_SourceClusterID plan <>s task_ClusterID task) ||
           (plan_TenantID plan <>s task_TenantID task)
        then mret (inr tt)
        else
          current ← planCapacityTarget plan;
          let '(current, failed) := current in
          if negb (same_target plan target current failed) then mret (inr tt)
          else store (fun _ now => SavePlanCapacityResult now (plan_ID plan) (task_ClusterID task)
                 (task_TenantID task) (result_patch task r) (task_CreatedAt task))
    | _, _ => mret (inr tt)
    end).

Definition persistCapacityReport (task : Task) (report : option (list capacityResult))
    : ctl (failure + unit) :=
  match capacityCommand (task_Payload task) with
  | None => mret (inl (Failure "capacity collection requires a namespace and plans"))
  | Some command =>
      checked ← check_report command report;
      or_return checked (fun results => collect results tt (save_result task command))
  end.

(** ** These only make calls of the system *)

Notation safe := (safe LoadLocation).

Lemma safe_target_namespaces plan namespaces appIDs :
  safe (target_namespaces plan namespaces appIDs).
Proof. revert namespaces. induction appIDs as [|x l IH]; intros; cbn; handler_walk. Qed.

Lemma safe_planCapacityTarget plan : safe (planCapacityTarget plan).
Proof. unfold planCapacityTarget. pose proof safe_target_namespaces as H. handler_walk. Qed.

Lemma safe_capacity_targets plans : safe (capacity_targets plans).
Proof.
  induction plans as [|x l IH]; cbn; pose proof safe_planCapacityTarget as H; handler_walk.
Qed.

Lemma capacity_payload_plain command trigger day :
  capacity_payload command trigger day !! "backupResult" = None.
Proof. unfold capacity_payload. destruct (_ =s _); plain_payload. Qed.

Lemma safe_create_capacity clusterID commandID command trigger day :
  safe (create_task LoadLocation
    (capacity_input clusterID commandID (capacity_payload command trigger day))).
Proof. apply safe_create_task. apply capacity_payload_plain. Qed.

Lemma safe_createCapacityTaskTriggered clusterID plans now trigger :
  safe (createCapacityTaskTriggered clusterID plans now trigger).
Proof.
  unfold createCapacityTaskTriggered, new_capacity_task, list_filtered, running_collection.
  pose proof safe_capacity_targets as H. pose proof safe_create_capacity as H1. handler_walk.
Qed.

Lemma safe_dispatchComponentUpgrade conn task message :
  safe (dispatchComponentUpgrade conn task message).
Proof. unfold dispatchComponentUpgrade. handler_walk. Qed.

Lemma safe_collectInitialPlanCapacity plan now : safe (collectInitialPlanCapacity plan now).
Proof.
  unfold collectInitialPlanCapacity, list_filtered.
  pose proof safe_createCapacityTaskTriggered as H. handler_walk.
Qed.

Lemma safe_collectAfterBackup planID : safe (collectInitialPlanCapacityAfterBackup planID).
Proof.
  unfold collectInitialPlanCapacityAfterBackup. apply stays_ignore, stays_exclusive.
  pose proof safe_collectInitialPlanCapacity as H. handler_walk.
Qed.

Lemma safe_schedulePlanCapacity order now : safe (schedulePlanCapacity order now).
Proof.
  unfold schedulePlanCapacity, createCapacityTask.
  pose proof safe_collectInitialPlanCapacity as H.
  pose proof safe_createCapacityTaskTriggered as H1. handler_walk.
Qed.

Lemma safe_save planID clusterID tenantID result requestedAt :
  safe (store (fun _ now => SavePlanCapacityResult now planID clusterID tenantID result requestedAt)).
Proof. apply safe_aside. intros. apply aside_capacity. Qed.

Lemma safe_persistCapacityReport task report : safe (persistCapacityReport task report).
Proof.
  unfold persistCapacityReport, check_report, check_result, save_result.
  pose proof safe_planCapacityTarget as H. pose proof safe_save as H1. handler_walk.
Qed.

(** ** What an accepted report says *)

(** Every result so far is of a plan of the command, none twice. *)
Definition covered (command : capacityCollection) (ids : list string) : Prop :=
  NoDup ids /\ ids ⊆ (ct_PlanID <$> cc_Plans command).

Lemma names_plan_in planID command :
  names_plan planID command = true <-> planID ∈ (ct_PlanID <$> cc_Plans command).
Proof.
  unfold names_plan. rewrite existsb_exists, list_elem_of_fmap. split.
  - intros (t & Hin%list_elem_of_In & <-%seqb_true). by exists t.
  - intros (t & -> & Hin%list_elem_of_In). exists t. split; [done|apply seqb_refl].
Qed.

(** The clock of a process, at some turn. *)
Definition clock_of (e : environment) (now : time) : Prop := exists n, now = now_at e n.

Lemma clock_answers e : answers (fun e' => e' = e) (clock_of e) time_now.
Proof. intros e' w ->. by exists (turn w). Qed.

Lemma check_results_covered e command results seen :
  covered command seen ->
  answers (fun e' => e' = e) (succeeds (fun ids =>
    ids = seen ++ (cr_PlanID <$> results) /\ covered command ids /\
    forall r, r ∈ results -> exists now, clock_of e now /\ well_formed_result now r = inr tt))
    (collect results seen (check_result command)).
Proof.
  set (P := fun e' => e' = e).
  revert seen. induction results as [|r results IH]; intros seen Hseen; cbn [collect].
  { apply answers_ret. cbn. rewrite app_nil_r. split_and!; [done|done|]. by intros r ?%elem_of_nil. }
  apply (answers_bind P (succeeds (fun ids => ids = seen ++ [cr_PlanID r] /\ covered command ids /\
    exists now, clock_of e now /\ well_formed_result now r = inr tt))).
  - unfold check_result. destruct (names_plan _ _) eqn:Hn; [|by apply answers_ret].
    destruct (one_of _ _) eqn:Ho; cbn; [by apply answers_ret|].
    apply (answers_bind P (clock_of e)); [apply clock_answers|]. intros now Hnow. apply answers_ret.
    destruct (well_formed_result now r) as [m|[]] eqn:Hw; cbn; [done|].
    split_and!; [done| |by exists now]. destruct Hseen as [Hd Hsub]. split.
    + apply NoDup_app. split_and!; [done| |apply NoDup_singleton].
      intros x Hx ->%list_elem_of_singleton. apply not_true_iff_false in Ho. apply Ho.
      by apply one_of_true.
    + apply list_subseteq_app_iff_l. split; [done|]. intros x ->%list_elem_of_singleton.
      by apply names_plan_in.
  - intros [err|ids]; [by intros _; apply answers_ret|]. intros (-> & Hc & Hr).
    intros e' w He. specialize (IH _ Hc e' w He). destruct (snd _) as [|ids]; [done|].
    destruct IH as (-> & Hcov & Hall). cbn. split_and!; [by rewrite <- app_assoc|done|].
    intros r' [->|?]%elem_of_cons; auto.
Qed.

Lemma checked_report e command report :
  answers (fun e' => e' = e) (succeeds (fun results =>
      report = Some results /\
      (cr_PlanID <$> results) ≡ₚ (ct_PlanID <$> cc_Plans command) /\
      forall r, r ∈ results -> exists now, clock_of e now /\ well_formed_result now r = inr tt))
    (check_report command report).
Proof.
  unfold check_report. destruct report as [results|]; [|by apply answers_ret].
  destruct (Nat.eqb_spec (length results) (length (cc_Plans command))) as [Hlen|];
    [|by apply answers_ret]. cbn [negb].
  eapply answers_bind; [apply (check_results_covered e command results [])|].
  { split; [constructor|]. by intros x ?%elem_of_nil. }
  intros [err|ids]; cbn; [by intros _; apply answers_ret|].
  intros (-> & [Hd Hsub] & Hall). apply answers_ret. split_and!; [done| |done].
  apply submseteq_length_Permutation; [by apply NoDup_submseteq|]. rewrite !length_fmap. lia.
Qed.

End capacity.

(** A capacity report is saved only when it has exactly one result for each
    plan the collection was sent for, in any order: whatever the environment does,
    when the check of a report succeeds the plans of its results are a permutation
    of the plans of the command, and each result has a known status, a collection
    time at most five minutes ahead of the clock, and sizes that are not negative
    and add up. *)
Theorem accepted_report_covers_the_command command report e w results :
  snd (check_report command report e w) = inr results ->
  report = Some results /\
  (cr_PlanID <$> results) ≡ₚ (ct_PlanID <$> cc_Plans command) /\
  forall r, r ∈ results ->
    one_of (cr_Status r) ["succeeded"; "failed"] = true /\ cr_CollectedAt r <> zero_time /\
    (exists n, cr_CollectedAt r <= now_at e n + 5 * minute) /\
    0 <= cr_MetadataBytes r /\ 0 <= cr_KopiaBytes r /\
    cr_TotalBytes r = cr_MetadataBytes r + cr_KopiaBytes r.
Proof.
  intros H. pose proof (checked_report e command report e w eq_refl) as Hc. rewrite H in Hc.
  destruct Hc as (Hr & Hperm & Hall). split_and!; [done|done|].
  intros r (now & [n ->] & Hw)%Hall. unfold well_formed_result in Hw.
  destruct (one_of _ _); [|done]. cbn [negb] in Hw.
  destruct (_ || _) eqn:Ht in Hw; [done|]. apply orb_false_iff in Ht as [Hz Ht].
  destruct (_ || negb _) eqn:Hv in Hw; [done|].
  rewrite !orb_false_iff, negb_false_iff in Hv. destruct Hv as [[[??]?]?].
  split_and!; [done|lia|exists n; lia|lia|lia|lia].
Qed.
