(* ===== verification/Scheduler.v ===== *)
(** The platform scheduler: backend/internal/httpserver/scheduler.go.

    [runSchedulerTick] is what the loop does every half minute, in the one process
    that holds the scheduler lock: it ends tasks nothing was heard of, finishes
    deletions of plans, replaces restore points, keeps schedules in step with the
    policies, has storage measured, and starts the backups that are due.  The
    maintenance of log files is left out. *)

From S2P Require Import Prelude Calendar Timestamp Value Types Scheduling Retention Session Database.
From S2P Require Import Control Events Fleet Storage Catalog Commands Quota Tasks RestorePoints Plans.
From S2P Require Import Policies Bindings Dispatch Lifecycle System Handlers StorageSync PlanPolicy.
From S2P Require Import Activation BackupTasks RetentionCleanup ProtectionCleanup Capacity.

Definition schedulerTickInterval : Z := 30 * second.
Definition componentUpgradeVerificationTimeout : Z := 10 * minute.
Definition recoveryTaskInactivityTimeout : Z := 15 * minute.
Definition maintenanceTaskInactivityTimeout : Z := 35 * minute.

(** ** Which tasks are abandoned *)

Definition later (x y : time) : time := if x <? y then y else x.

(** The stamp the agent's last report left in the payload. *)
Definition last_status_at (task : Task) : option time :=
  match get (task_Payload task) "lastStatusAt" with VStr raw => parse_rfc3339 raw | _ => None end.

Definition maintenance_activity (task : Task) : time :=
  let seen := fold_left later [task_DispatchedAt task; task_AcceptedAt task; task_StartedAt task]
                (task_CreatedAt task) in
  match last_status_at task with Some t => later seen t | None => seen end.

Definition maintenanceTaskTimedOut (task : Task) (now : time) : bool :=
  one_of (task_Type task) ["protection-cleanup"; "retention-cleanup"; "plan-capacity"] &&
  isActiveTaskStatus (task_Status task) &&
  negb (maintenance_activity task =? zero_time) &&
  (maintenance_activity task + maintenanceTaskInactivityTimeout <=? now).

(** A task that never stamped its activity does not time out. *)
Definition recoveryTaskTimedOut (task : Task) (now : time) : bool :=
  one_of (task_Type task) ["restore"; "drill"] && isActiveTaskStatus (task_Status task) &&
  match last_status_at task with
  | Some t => t + recoveryTaskInactivityTimeout <=? now
  | None => false
  end.

Definition upgrade_started (task : Task) : time :=
  first_time [task_StartedAt task; task_AcceptedAt task; task_DispatchedAt task;
              task_CreatedAt task].

Definition componentUpgradeTimedOut (task : Task) (now : time) : bool :=
  one_of (task_Type task) ["agent-upgrade"; "velero-upgrade"] &&
  isActiveTaskStatus (task_Status task) && negb (upgrade_started task =? zero_time) &&
  (upgrade_started task + componentUpgradeVerificationTimeout <=? now).

Definition maintenance_message (task : Task) : string :=
  if task_Type task =s "plan-capacity" then
    "No capacity collection status was received from the cluster agent for 35 minutes. Previous capacity values are retained. Retry the refresh after checking the cluster agent."
  else
    "No cleanup status was received from the cluster agent for 35 minutes. The maintenance task was closed so it cannot indefinitely block cluster lifecycle operations. Review the task events and cluster resources before retrying.".

Definition recovery_message (_ : Task) : string :=
  "No restore status was received from the cluster agent for 15 minutes. The agent may have restarted or the Velero restore may no longer exist. Source data and backup data were preserved; check the agent and Velero logs, then retry the drill.".

Definition upgrade_message (task : Task) : string :=
  (if task_Type task =s "velero-upgrade" then "Velero" else "Comm Agent") +:+
  " did not report the expected running image and version within 10 minutes. Check the workload rollout and image pull status in the managed cluster.".

Section scheduler.
Context (LoadLocation : string -> option location).
Context (diagnosticWriter : option (DiagnosticLogInput -> option error)).
Context (order : gmap string (list ProtectionPlan) -> list (string * list ProtectionPlan)).

Notation add_task_event := (add_task_event diagnosticWriter).

(** ** Ending them *)

(** The three passes differ in the tasks they end and in what they say. *)
Definition expire (code reason message : string) (task : Task) : ctl unit :=
  ended ← update_task_status (report (task_ID task) "failed" (task_Progress task) code message true);
  match ended with
  | inl _ => mret tt
  | inr _ => ignore (addTaskEventIfChanged diagnosticWriter
               (event (task_ID task) "error" reason message ∅))
  end.

Definition expire_tasks (timed_out : Task -> bool) (code reason : string)
    (message : Task -> string) : ctl unit :=
  tasks ← list_tasks "";
  match tasks with
  | inl _ => mret tt
  | inr tasks =>
      range tasks (fun task =>
        if negb (timed_out task) then mret tt else expire code reason (message task) task)
  end.

Definition reconcileAbandonedMaintenanceTasks (now : time) : ctl unit :=
  expire_tasks (fun task => maintenanceTaskTimedOut task now)
    "MAINTENANCE_STATUS_TIMEOUT" "maintenance_status_timeout" maintenance_message.

Definition reconcileAbandonedRecoveryTasks (now : time) : ctl unit :=
  expire_tasks (fun task => recoveryTaskTimedOut task now)
    "RESTORE_STATUS_TIMEOUT" "restore_status_timeout" recovery_message.

Definition reconcileComponentUpgradeTimeouts (now : time) : ctl unit :=
  expire_tasks (fun task => componentUpgradeTimedOut task now)
    "UPGRADE_VERIFICATION_TIMEOUT" "verification_timeout" upgrade_message.

(** ** Schedules *)

Definition reconcile_schedule (now : time) (plan : ProtectionPlan) : ctl unit :=
  if negb (protectionPlanAllowsBackup (plan_Status plan)) then mret tt
  else
    policy ← protectionPlanSchedulePolicy plan;
    match policy with
    | inr (Some policy) =>
        schedule ← store (fun _ _ => GetProtectionPlanSchedule (plan_ID plan));
        match schedule with
        | inl _ => mret tt
        | inr schedule =>
            let current :=
              match schedule with
              | Some s => sched_Enabled s && ScheduleMatchesPolicy (sched_NextFireAt s) policy utc
              | None => false
              end in
            if current then mret tt
            else ignore (upsert_plan_schedule
              (schedule_at (plan_ID plan) (NextPolicyFireAtInLocation policy now utc)))
        end
    | _ => mret tt
    end.

Definition reconcilePlatformSchedules (now : time) : ctl unit :=
  plans ← store (fun _ _ => ListProtectionPlans "");
  match plans with
  | inl _ => mret tt
  | inr plans => range plans (reconcile_schedule now)
  end.

(** The request has no actor, and no cluster-scoped resources. *)
Definition scheduled_request (plan : ProtectionPlan) (storageName : string)
    (sourceNamespaces appIDs : list string) : backupTaskRequest :=
  {| btr_ClusterID := plan_SourceClusterID plan; btr_AppID := firstStringFromStrings appIDs;
     btr_ProtectionPlanID := plan_ID plan;
     btr_SourceNamespace := firstStringFromStrings sourceNamespaces;
     btr_SourceNamespaces := sourceNamespaces; btr_Scope := plan_ScopeType plan;
     btr_IncludedResources := plan_IncludedResources plan;
     btr_LabelSelector := plan_LabelSelector plan; btr_StorageRepo := storageName;
     btr_ExcludedResources := plan_ExcludedResources plan;
     btr_ResourceSelection := plan_ResourceSelection plan; btr_IncludeClusterResources := false;
     btr_Trigger := "scheduled"; btr_RequestedBy := "" |}.

Definition createScheduledBackupTask (plan : ProtectionPlan) (policy : Policy) (now : time)
    : ctl (failure + Task) :=
  found ← planSourceNamespaces plan;
  or_return found (fun '(sourceNamespaces, appIDs) =>
    repo ← store (fun _ _ => GetStorageRepository (plan_StorageRepoID plan));
    or_return repo (fun repo =>
      match repo with
      | None => mret (inl (Failure "storage repository not found"))
      | Some repo =>
          let storageName := storageDomainBSLName repo (plan_SourceClusterID plan) in
          let request := scheduled_request plan storageName sourceNamespaces appIDs in
          created ← createPendingBackupTask LoadLocation request (btr_AppID request);
          or_return created (fun task =>
            add_task_event (event (task_ID task) "info" "scheduled_sync_created"
              "Scheduled sync task created."
              {[ "policyId" := VStr (pol_ID policy); "scheduledAt" := VTime now;
                 "sourceNamespaces" := VStrs sourceNamespaces ]});;
            startWorker (DispatchBackup task storageName (plan_StorageRepoID plan)
              (plan_SourceClusterID plan));;
            mret (inr task))
      end)).

Definition mark_fired (planID : string) (now next : time) : ctl unit :=
  ignore (store (fun _ clock => MarkProtectionPlanScheduleFired clock
    {| schedf_ProtectionPlanID := planID; schedf_LastFiredAt := now;
       schedf_NextFireAt := next |})).

Definition disable_schedule (planID : string) : ctl unit :=
  ignore (store (fun _ clock => DisableProtectionPlanSchedule clock planID)).

(** A plan whose backup is still running skips this one. *)
Definition fire_plan (plan : ProtectionPlan) (policy : Policy) (now : time) : ctl unit :=
  let next := NextPolicyFireAt policy now in
  running ← findActiveBackupTask (plan_SourceClusterID plan) (plan_ID plan) "" "";
  match running with
  | inl _ => mret tt
  | inr (Some existing) =>
      mark_fired (plan_ID plan) now next;;
      add_task_event (event (task_ID existing) "info" "scheduled_sync_skipped"
        "Scheduled sync skipped because a backup is already running for this protection plan." ∅)
  | inr None =>
      created ← createScheduledBackupTask plan policy now;
      match created with
      | inl _ => mret tt
      | inr _ => mark_fired (plan_ID plan) now next
      end
  end.

Definition fireProtectionPlanSchedule (now : time) (schedule : ProtectionPlanSchedule)
    : ctl unit :=
  plan ← store (fun _ _ => GetProtectionPlan (sched_ProtectionPlanID schedule));
  match plan with
  | inl _ => mret tt
  | inr None => disable_schedule (sched_ProtectionPlanID schedule)
  | inr (Some plan) =>
      policy ← protectionPlanSchedulePolicy plan;
      match policy with
      | inl _ => mret tt
      | inr (Some policy) =>
          if negb (protectionPlanAllowsBackup (plan_Status plan)) then disable_schedule (plan_ID plan)
          else fire_plan plan policy now
      | inr None => disable_schedule (plan_ID plan)
      end
  end.

(** ** The tick *)

Definition fire_due (now : time) : ctl unit :=
  due ← store (fun _ _ => ListDueProtectionPlanSchedules now);
  match due with
  | inl _ => mret tt
  | inr due => range due (fireProtectionPlanSchedule now)
  end.

(** Nothing is scheduled while an upgrade of the platform runs. *)
Definition schedule_work (now : time) : ctl unit :=
  jobs ← store (fun _ _ => ListPlatformUpgradeJobs);
  let upgrading :=
    match jobs with
    | inl _ => false
    | inr jobs => existsb (fun status => negb (isTerminalPlatformUpgradeStatus status)) jobs
    end in
  if upgrading then mret tt
  else
    reconcilePlatformSchedules now;;
    schedulePlanCapacity LoadLocation order now;;
    fire_due now.

(** The first thing a tick does. *)
Definition end_overdue (now : time) : ctl unit :=
  reconcileComponentUpgradeTimeouts now;;
  reconcileAbandonedRecoveryTasks now;;
  reconcileAbandonedMaintenanceTasks now.

Definition runSchedulerTickLocked (now : time) : ctl unit :=
  end_overdue now;;
  frozen ← store (fun _ clock => HasCommunityMigrationFreeze clock);
  match frozen with
  | inl _ => mret tt
  | inr true => mret tt
  | inr false =>
      reconcileProtectionCleanupPlans now;;
      reconcileRestorePointReplacements LoadLocation diagnosticWriter;;
      schedule_work now
  end.

Definition runSchedulerTick (now : time) : ctl unit :=
  ignore (RunSchedulerExclusive (runSchedulerTickLocked now)).

(** ** These only make calls of the system *)

Notation safe := (safe LoadLocation).

Lemma safe_expire_tasks timed_out code reason message :
  safe (expire_tasks timed_out code reason message).
Proof. unfold expire_tasks, expire. handler_walk. Qed.

Lemma safe_reconcilePlatformSchedules now : safe (reconcilePlatformSchedules now).
Proof. unfold reconcilePlatformSchedules, reconcile_schedule. handler_walk. Qed.

Lemma safe_createScheduledBackupTask plan policy now : safe (createScheduledBackupTask plan policy now).
Proof. unfold createScheduledBackupTask. handler_walk. Qed.

Lemma safe_mark_fired planID now next : safe (mark_fired planID now next).
Proof. apply stays_ignore, stays_store. intros. apply call_schedule_fired. Qed.

Lemma safe_disable_schedule planID : safe (disable_schedule planID).
Proof. apply stays_ignore, stays_store. intros. apply call_disable_schedule. Qed.

Lemma safe_fireProtectionPlanSchedule now schedule : safe (fireProtectionPlanSchedule now schedule).
Proof.
  unfold fireProtectionPlanSchedule, fire_plan. pose proof safe_mark_fired as H.
  pose proof safe_disable_schedule as H1. pose proof safe_createScheduledBackupTask as H2.
  handler_walk.
Qed.

Lemma safe_schedule_work now : safe (schedule_work now).
Proof.
  unfold schedule_work, fire_due. pose proof safe_reconcilePlatformSchedules as H.
  pose proof (safe_schedulePlanCapacity LoadLocation order now) as H1.
  pose proof safe_fireProtectionPlanSchedule as H2. handler_walk.
Qed.

Lemma safe_reconcileReplacements :
  safe_from LoadLocation (reconcileRestorePointReplacements LoadLocation diagnosticWriter).
Proof.
  unfold reconcileRestorePointReplacements.
  eapply (stays_from_bind_with _ _ (sound_kept LoadLocation)).
  - apply (stays_from_store _ _ (sound_kept LoadLocation) (Forall available_item)).
    + intros. by apply call_work, op_pending.
    + intros id now fuse d d' items Hd Hr. by eapply pending_items_available.
  - intros [err|items] Hitems; apply stays_from_any; [apply stays_ret|]. cbn in Hitems.
    induction Hitems as [|item items Hitem _ IH]; cbn; [apply stays_ret|].
    apply stays_bind; [by apply safe_replace_point|done].
Qed.

Lemma safe_runSchedulerTickLocked now : safe_from LoadLocation (runSchedulerTickLocked now).
Proof.
  unfold runSchedulerTickLocked.
  repeat (apply (stays_from_bind _ _ (sound_kept LoadLocation));
    [first [apply safe_reconcileReplacements | apply stays_from_any]|intros]).
  - unfold end_overdue. repeat (apply stays_bind; [apply safe_expire_tasks|intros _]). apply safe_expire_tasks.
  - handler_walk.
  - match goal with x : _ + bool |- _ => destruct x as [|[]] end; try apply stays_from_any, stays_ret.
    apply (stays_from_bind _ _ (sound_kept LoadLocation));
      [apply stays_from_any, safe_reconcileProtectionCleanupPlans|intros _].
    apply (stays_from_bind _ _ (sound_kept LoadLocation)); [apply safe_reconcileReplacements|].
    intros _. apply stays_from_any, safe_schedule_work.
Qed.

Lemma safe_runSchedulerTick now : safe_from LoadLocation (runSchedulerTick now).
Proof.
  unfold runSchedulerTick, ignore. apply (stays_from_bind _ _ (sound_kept LoadLocation)).
  - apply stays_from_exclusive, safe_runSchedulerTickLocked.
  - intros _. apply stays_from_any, stays_ret.
Qed.

End scheduler.
