(* ===== verification/Timeouts.v ===== *)
(** Tasks nothing is heard of any more: the scheduler ends them. *)

From S2P Require Import Prelude Calendar Timestamp Value Types Retention Session Database Control.
From S2P Require Import Events Quota Tasks RestorePoints Dispatch Lifecycle System Handlers Scheduler.

(** ** The schema's constraints on tasks

    Foreign keys, unique indexes, and whose the reservations are. *)
Record constrained (d : db) : Prop := {
  con_links : forall id t, tasks d !! id = Some t ->
    fk (t_protection_plan_id t) (protection_plans d) = true /\
    fk (t_restore_point_id t) (restore_points d) = true;
  con_unique : forall i j t u, tasks d !! i = Some t -> tasks d !! j = Some u -> i <> j ->
    task_clash t u = false;
  con_owner : forall id v t, reservations d !! id = Some v -> tasks d !! id = Some t ->
    t_type t = "backup"
}.

Lemma bind_step {D A B} (m : tx D A) (k : A -> tx D B) s s' a :
  m s = (s', inr a) -> (m ≫= k) s = k a s'.
Proof. unfold mbind, tx_bind. by intros ->. Qed.

Lemma exec_runs {D A} (f : D -> option (D * A)) c d d' n :
  f d = Some (d', n) -> exec f (Session c d None) = (Session c d' None, inr n).
Proof. unfold exec, burn. cbn. by intros ->. Qed.

Lemma schedule_day_reported now input t :
  tsi_Payload input = ∅ ->
  schedule_day (status_row now input (status_payload now input) t) = schedule_day t.
Proof.
  intros He. unfold schedule_day, status_row, payload_or_empty_union, status_payload. cbn.
  rewrite He. destruct (t_type t =s "plan-capacity"); [|done].
  unfold json_text, get. rewrite lookup_union_r; [done|].
  unfold jsonify_doc. by rewrite lookup_fmap, lookup_insert_ne, lookup_empty by discriminate.
Qed.

Lemma sql_eq_sym a b : sql_eq a b = sql_eq b a.
Proof. destruct a, b; try done. unfold sql_eq, seqb. by apply bool_decide_ext. Qed.

Lemma task_clash_sym t u : task_clash t u = task_clash u t.
Proof.
  unfold task_clash. rewrite (sql_eq_sym (t_cluster_id t)), (sql_eq_sym (schedule_day t)).
  by rewrite (andb_comm (plan_capacity_active t)).
Qed.

(** A report that a task failed. *)
Definition failure_report (input : TaskStatusInput) : Prop :=
  tsi_Status input = "failed" /\ tsi_MarkDone input = true /\ tsi_RestorePointID input = "" /\
  tsi_Payload input = ∅.

Definition failed_row now input t := status_row now input (status_payload now input) t.

Lemma failed_clash now input t u :
  failure_report input -> task_clash t u = false ->
  t_completed_at t = None -> task_clash (failed_row now input t) u = false.
Proof.
  intros (Hs & _ & _ & Hp) Hc Hopen. unfold task_clash in *. unfold failed_row.
  rewrite schedule_day_reported by done.
  assert (E : plan_capacity_active (status_row now input (status_payload now input) t) = false).
  { unfold plan_capacity_active, status_row. cbn. rewrite Hopen, Hs. cbn. apply andb_false_r. }
  rewrite E. cbn [t_cluster_id status_row orb andb].
  destruct (sql_eq (t_cluster_id t) (t_cluster_id u)); [|done].
  cbn in *. by apply orb_false_iff in Hc as [_ ->].
Qed.

(** What a task without a reservation leaves of the points and reservations. *)
Lemma releases_nothing taskID planID now d :
  reservations d !! taskID = None ->
  exists d2 d3 d4 n2 n3 n4,
    release_point taskID d = Some (d2, n2) /\ release_reservation taskID d2 = Some (d3, n3) /\
    retain_drilled taskID planID now d3 = Some (d4, n4) /\ tasks d4 = tasks d /\
    protection_plans d4 = protection_plans d /\ reservations d4 = reservations d /\
    forall id, is_Some (restore_points d4 !! id) <-> is_Some (restore_points d !! id).
Proof.
  intros Hnone. unfold release_point, release_reservation, retain_drilled.
  unfold update_points, update_reservations. do 6 eexists.
  split; [reflexivity|]. split; [reflexivity|]. split; [reflexivity|]. cbn.
  split; [done|]. split; [done|]. split.
  - apply map_eq. intros id. rewrite map_lookup_imap. cbn.
    destruct (decide (id = taskID)) as [->|Hne]; [by rewrite Hnone|].
    apply seqb_false in Hne. rewrite Hne. by destruct (reservations d !! id).
  - intros id. rewrite !map_lookup_imap. destruct (restore_points d !! id); cbn; [|done].
    split; by eexists.
Qed.

Lemma fk_dom {R} o (m m' : gmap string R) :
  (forall id, is_Some (m' !! id) <-> is_Some (m !! id)) -> fk o m' = fk o m.
Proof. intros H. unfold fk. destruct o as [id|]; [|done]. by apply bool_decide_ext. Qed.

(** When nothing fails, a report that a running task failed ends it. *)
Lemma failure_report_ends d now input t :
  constrained d -> failure_report input -> tasks d !! tsi_TaskID input = Some t ->
  t_completed_at t = None -> t_type t <> "backup" ->
  exists d' r, run (UpdateTaskStatus now input) None d = (d', inr r) /\
    tasks d' = <[tsi_TaskID input := failed_row now input t]> (tasks d) /\ constrained d'.
Proof.
  intros [Hlinks Huniq Howner] Hrep Ht Hopen Hkind.
  pose proof Hrep as (Hs & Hdone & Hpoint & Hp).
  destruct (Hlinks _ _ Ht) as [Hplan Hfk].
  assert (Hnone : reservations d !! tsi_TaskID input = None).
  { destruct (reservations d !! _) as [v|] eqn:Hv; [|done]. by destruct Hkind; eapply Howner. }
  set (d1 := set_tasks d (<[tsi_TaskID input := failed_row now input t]> (tasks d))).
  assert (Hupd : update_task (tsi_TaskID input) (status_row now input (status_payload now input)) d =
    Some (d1, 1)).
  { unfold update_task. rewrite Ht. replace (fk _ _) with true.
    - cbn [negb orb].
      destruct (exists_where _ _) eqn:E; [exfalso|done].
      apply exists_where_true in E as (k & other & Hk & [Hne E]%andb_true_iff).
      apply negb_true_iff, seqb_false in Hne.
      fold (failed_row now input t) in E.
      rewrite failed_clash in E; [done|done| |done]. by apply (Huniq _ _ _ _ Ht Hk).
    - cbn. rewrite Hopen, Hpoint. symmetry. exact Hfk. }
  destruct (releases_nothing (tsi_TaskID input) (text (t_protection_plan_id t)) now d1 Hnone)
    as (d2 & d3 & d4 & n2 & n3 & n4 & H2 & H3 & H4 & Et & Ep & Ev & Ek).
  exists d4, (task_of_row (tsi_TaskID input) <$> tasks d4 !! tsi_TaskID input). split.
  - unfold run, UpdateTaskStatus.
    rewrite (bind_step _ _ _ (Session d d None) tt) by reflexivity.
    rewrite (bind_step _ _ _ (Session d d None) (inr (text (t_protection_plan_id t))))
      by (unfold attempt, query; cbn; by rewrite Ht).
    rewrite (bind_step _ _ _ (Session d d None) tt).
    2:{ unfold quotaPlanLock. destruct (nonempty _) eqn:En; [|done]. cbn. unfold query. cbn.
        unfold fk in Hplan. destruct (t_protection_plan_id t) as [q|]; [|done]. cbn in *.
        apply bool_decide_eq_true in Hplan as [pp Hpp]. by rewrite Hpp. }
    rewrite Hdone, Hs. change ("failed" =s "succeeded") with false. cbn [andb negb].
    rewrite (bind_step _ _ _ (Session d d None) false).
    2:{ unfold select, query, publishing_task. cbn. by rewrite Hnone. }
    cbn [keep_publishing]. rewrite Hpoint. cbn [nonempty].
    rewrite (bind_step _ _ _ (Session d d None) tt) by reflexivity.
    change (<["lastStatusAt" := VStr (format_rfc3339nano now)]> (tsi_Payload input))
      with (status_payload now input).
    rewrite (bind_step _ _ _ (Session d d1 None) 1) by (by apply exec_runs).
    rewrite Hdone. cbn [orb].
    rewrite (bind_step _ _ _ (Session d d4 None) tt).
    2:{ rewrite (bind_step _ _ _ (Session d d2 None) n2) by (by apply exec_runs).
        rewrite (bind_step _ _ _ (Session d d3 None) n3) by (by apply exec_runs).
        by rewrite (bind_step _ _ _ (Session d d4 None) n4) by (by apply exec_runs). }
    rewrite (bind_step _ _ _ (Session d4 d4 None) tt) by reflexivity. reflexivity.
  - rewrite Et. split; [done|]. split.
    + intros id u. rewrite Et, Ep. cbn. rewrite (fk_dom _ _ _ Ek).
      intros [[<- <-]|[_ Hu]]%lookup_insert_Some; [|by apply (Hlinks id)].
      cbn. rewrite Hopen, Hpoint. done.
    + intros i j x y. rewrite Et. cbn. intros [[<- <-]|[Hi Hx]]%lookup_insert_Some
        [[<- <-]|[Hj Hy]]%lookup_insert_Some Hne; try done.
      * apply failed_clash; [done| |done]. by apply (Huniq _ _ _ _ Ht Hy).
      * rewrite task_clash_sym. apply failed_clash; [done| |done]. by apply (Huniq _ _ _ _ Ht Hx).
      * by apply (Huniq i j).
    + intros id v u. rewrite Ev, Et. cbn. intros Hv [[<- <-]|[_ Hu]]%lookup_insert_Some; [|by eapply Howner].
      by rewrite Hnone in Hv.
Qed.

(** ** The events of a task leave all this alone *)

Definition only_logs (d d' : db) : Prop :=
  tasks d' = tasks d /\ restore_points d' = restore_points d /\
  reservations d' = reservations d /\ protection_plans d' = protection_plans d.

#[export] Instance only_logs_preorder : PreOrder only_logs.
Proof.
  unfold only_logs. split; [done|].
  intros x y z (->&->&->&->) (->&->&->&->). done.
Qed.

Lemma only_logs_event writer eventID logID now input fuse d :
  only_logs d (fst (run (AddTaskEvent writer eventID logID now input) fuse d)).
Proof.
  apply run_stable; [apply _|]. unfold AddTaskEvent. tx_walk.
  all: apply stable_exec; [apply _|]; intros d0 d1 n; unfold insert_event, insert_diagnostic;
    intros H; repeat case_match; by simplify_eq.
Qed.

Lemma only_logs_constrained d d' : only_logs d d' -> constrained d -> constrained d'.
Proof. intros (Ht & Hp & Hv & Hq) [H1 H2 H3]. split; by rewrite Ht, ?Hp, ?Hv, ?Hq. Qed.

Lemma range_cons {A} (x : A) l body e w :
  range (x :: l) body e w = range l body e (fst (body x e w)).
Proof. cbn. unfold mbind, ctl_bind. by destruct (body x e w) as [w1 []]. Qed.

Lemma NoDup_fmap_filter {A B} (f : A -> B) p l : NoDup (f <$> l) -> NoDup (f <$> List.filter p l).
Proof.
  induction l as [|x l IH]; cbn; [done|]. intros [Hx Hl]%NoDup_cons.
  destruct (p x); [|by apply IH]. cbn. constructor; [|by apply IH].
  intros Hin. apply Hx. apply list_elem_of_fmap in Hin as (y & -> & Hy).
  apply list_elem_of_In, filter_In in Hy as [Hy _]. apply list_elem_of_fmap.
  exists y. by rewrite list_elem_of_In.
Qed.

Section timeouts.
Context (LoadLocation : string -> option location).
Context (diagnosticWriter : option (DiagnosticLogInput -> option error)).

Lemma only_logs_addTaskEventIfChanged input :
  stays_in only_logs (addTaskEventIfChanged diagnosticWriter input).
Proof.
  assert (H : forall i, stays_in only_logs (add_event diagnosticWriter i)).
  { intros i. apply stays_bind; [apply stays_ask|]. intros logID. apply stays_store.
    intros. apply only_logs_event. }
  unfold addTaskEventIfChanged. ctl_walk.
Qed.

(** A process that nothing goes wrong in, and that nobody disturbs. *)
Record undisturbed (e : environment) : Prop := {
  undisturbed_alone : alone e;
  undisturbed_ids : forall n, id_at e n <> ""
}.

Lemma undisturbed_relies R e : undisturbed e -> relies R e.
Proof. intros [[Ho _] Hid]. split; [|done]. intros n d. by rewrite Ho. Qed.

(** The row a pass leaves of a task: ended as failed with the code of the pass. *)
Definition timed_out_row (code : string) (t t' : task_row) : Prop :=
  t_status t' = "failed" /\ t_error_code t' = Some code /\ t_completed_at t' <> None /\
  t_type t' = t_type t /\ t_protection_plan_id t' = t_protection_plan_id t.

Lemma expire_ends e w code reason message id t :
  undisturbed e -> constrained (database w) -> tasks (database w) !! id = Some t ->
  t_completed_at t = None -> t_type t <> "backup" -> code <> "" ->
  let d' := database (fst (expire diagnosticWriter code reason message (task_of_row id t) e w)) in
  constrained d' /\
  exists t', tasks d' = <[id := t']> (tasks (database w)) /\ timed_out_row code t t'.
Proof.
  intros He Hc Ht Hopen Hkind Hcode. unfold expire.
  set (input := report _ _ _ _ _ _).
  destruct (failure_report_ends (database w) (now_at e (turn w)) input t) as (d1 & r & Hrun & Hd1 & Hc1);
    [done|by split_and!|done..|].
  unfold mbind, ctl_bind, update_task_status.
  rewrite (store_alone (fun _ now => UpdateTaskStatus now input) e w d1 r); [|apply He|exact Hrun].
  set (w1 := World d1 _ _ _).
  assert (Hlog : only_logs d1 (database (fst (ignore (addTaskEventIfChanged diagnosticWriter
    (event (task_ID (task_of_row id t)) "error" reason message ∅)) e w1)))).
  { apply rtc_preorder; [apply _|].
    apply (stays_ignore only_logs _ (only_logs_addTaskEventIfChanged _) e w1).
    by apply undisturbed_relies. }
  split; [by eapply only_logs_constrained|].
  exists (failed_row (now_at e (turn w)) input t). destruct Hlog as (-> & _). split; [done|].
  unfold timed_out_row, failed_row, status_row. cbn. rewrite Hopen. cbn.
  split_and!; try done. unfold nullif. by rewrite (proj2 (nonempty_true code) Hcode).
Qed.

(** ** One pass

    The tasks of a list are rows, each once, and those that timed out are not
    completed and no backups. *)
Definition rows_listed (timed_out : Task -> bool) (d : db) (l : list (string * task_row)) : Prop :=
  NoDup (fst <$> l) /\
  forall id t, (id, t) ∈ l -> tasks d !! id = Some t /\
    (timed_out (task_of_row id t) = true -> t_completed_at t = None /\ t_type t <> "backup").

Definition pass_row (timed_out : Task -> bool) (code id : string) (t t' : task_row) : Prop :=
  if timed_out (task_of_row id t) then timed_out_row code t t' else t' = t.

Lemma listed_cons timed_out d x l : rows_listed timed_out d (x :: l) ->
  x.1 ∉ l.*1 /\ rows_listed timed_out d l.
Proof.
  intros [[Hx Hl]%NoDup_cons Hrows]. split; [done|]. split; [done|].
  intros id t Hin. apply Hrows. by right.
Qed.

Lemma listed_insert timed_out d d' id t' l : rows_listed timed_out d l -> id ∉ l.*1 ->
  tasks d' = <[id := t']> (tasks d) -> rows_listed timed_out d' l.
Proof.
  intros [Hdup Hrows] Hid Ht. split; [done|]. intros k t Hin.
  destruct (Hrows k t Hin) as [Hk Ho]. split; [|done]. rewrite Ht, lookup_insert_ne; [done|].
  intros ->. apply Hid. apply list_elem_of_fmap. by exists (k, t).
Qed.

Lemma pass_over timed_out code reason message e l : undisturbed e -> code <> "" -> forall w,
  constrained (database w) -> rows_listed timed_out (database w) l ->
  let d' := database (fst (range ((fun '(id, t) => task_of_row id t) <$> l)
    (fun task => if negb (timed_out task) then mret tt
                 else expire diagnosticWriter code reason (message task) task) e w)) in
  constrained d' /\
  (forall id, id ∉ l.*1 -> tasks d' !! id = tasks (database w) !! id) /\
  forall id t, (id, t) ∈ l -> exists t', tasks d' !! id = Some t' /\ pass_row timed_out code id t t'.
Proof.
  intros He Hcode. induction l as [|[id t] l IH]; intros w Hc Hl; cbn zeta.
  { split; [done|]. split; [done|]. intros id t Hin. by apply elem_of_nil in Hin. }
  destruct (listed_cons _ _ _ _ Hl) as [Hnew Hl']. cbn in Hnew.
  destruct Hl as [_ Hrows]. destruct (Hrows id t) as [Ht Hopen]; [by left|].
  rewrite fmap_cons. set (body := fun task : Task => _). rewrite range_cons.
  set (first := body (task_of_row id t) e w).
  assert (H : constrained (database (fst first)) /\ exists t',
    tasks (database (fst first)) = <[id := t']> (tasks (database w)) /\
    pass_row timed_out code id t t').
  { unfold first, body, pass_row. destruct (timed_out (task_of_row id t)) eqn:E; cbn [negb].
    - destruct (Hopen eq_refl) as [Ho Hk]. by apply expire_ends.
    - split; [done|]. exists t. split; [|done]. cbn. by rewrite insert_id. }
  clearbody first. destruct first as [w1 []]. cbn [fst] in *.
  destruct H as (Hc1 & t' & Ht1 & Hrow).
  destruct (IH w1 Hc1) as (Hc2 & Hkeep & Hdone); [by eapply listed_insert|].
  split; [exact Hc2|]. split.
  - intros k Hk. cbn in Hk. rewrite not_elem_of_cons in Hk. destruct Hk as [Hne Hk].
    rewrite Hkeep by done. by rewrite Ht1, lookup_insert_ne.
  - intros k u [[= -> ->]|Hin]%elem_of_cons; [|by apply Hdone].
    exists t'. split; [|done]. rewrite Hkeep by done. by rewrite Ht1, lookup_insert_eq.
Qed.

(** What is overdue of the rows is not completed, and no backup. *)
Definition passes (timed_out : Task -> bool) (d : db) : Prop :=
  forall id t, tasks d !! id = Some t -> timed_out (task_of_row id t) = true ->
    t_completed_at t = None /\ t_type t <> "backup".

Lemma expire_tasks_ends timed_out code reason message e w :
  undisturbed e -> code <> "" -> constrained (database w) -> passes timed_out (database w) ->
  let d' := database (fst (expire_tasks diagnosticWriter timed_out code reason message e w)) in
  constrained d' /\
  (forall id, tasks (database w) !! id = None -> tasks d' !! id = None) /\
  forall id t, tasks (database w) !! id = Some t ->
    exists t', tasks d' !! id = Some t' /\ pass_row timed_out code id t t'.
Proof.
  intros He Hcode Hc Hover. unfold expire_tasks, mbind, ctl_bind, list_tasks.
  set (rows := merge_sort newest_le
    (List.filter (fun '(_, r) => task_matches (of_cluster "") r) (map_to_list (tasks (database w))))).
  assert (Hmem : forall id t, (id, t) ∈ rows <-> tasks (database w) !! id = Some t).
  { intros id t. unfold rows. rewrite merge_sort_Permutation, <- elem_of_map_to_list.
    rewrite !list_elem_of_In, filter_In. by split; [intros []|]. }
  rewrite (store_alone (fun _ _ => ListTasks "") e w (database w)
    ((fun '(id, t) => task_of_row id t) <$> rows)); [|apply He|].
  2:{ unfold run, ListTasks, listTasks, select, query, burn. reflexivity. }
  set (w1 := World (database w) _ _ _).
  destruct (pass_over timed_out code reason message e rows He Hcode w1 Hc) as (Hc' & Hkeep & Hdone).
  { split.
    - unfold rows. rewrite merge_sort_Permutation.
      apply NoDup_fmap_filter, NoDup_fst_map_to_list.
    - intros id t Hin%Hmem. split; [done|]. by apply Hover. }
  split; [exact Hc'|]. split.
  - intros id Hnone. rewrite <- Hnone. apply Hkeep.
    intros [[k t] [-> Hin]]%list_elem_of_fmap. apply Hmem in Hin. cbn in Hnone. congruence.
  - intros id t Ht. apply Hdone. by apply Hmem.
Qed.

(** ** The passes of a tick *)

(** The code a task that is overdue is ended with. *)
Definition overdue_code (now : time) (task : Task) : option string :=
  if componentUpgradeTimedOut task now then Some "UPGRADE_VERIFICATION_TIMEOUT"
  else if recoveryTaskTimedOut task now then Some "RESTORE_STATUS_TIMEOUT"
  else if maintenanceTaskTimedOut task now then Some "MAINTENANCE_STATUS_TIMEOUT"
  else None.

(** A task that is completed has no status of a running one. *)
Definition completed_rest (d : db) : Prop :=
  forall id t, tasks d !! id = Some t -> t_completed_at t <> None ->
    isActiveTaskStatus (t_status t) = false.

Lemma overdue_passes (timed_out : Task -> bool) kinds d : completed_rest d -> "backup" ∉ kinds ->
  (forall task, timed_out task = true ->
     one_of (task_Type task) kinds = true /\ isActiveTaskStatus (task_Status task) = true) ->
  passes timed_out d.
Proof.
  intros Hrest Hkinds Hover id t Ht H. apply Hover in H as [Hkind Hst]. cbn in *.
  split; [|by intros E; rewrite E in Hkind; apply Hkinds, one_of_true].
  destruct (t_completed_at t) eqn:E; [|done].
  rewrite (Hrest id t Ht) in Hst; [done|by rewrite E].
Qed.

Lemma pass_rests timed_out code d d' : completed_rest d ->
  (forall id, tasks d !! id = None -> tasks d' !! id = None) ->
  (forall id t, tasks d !! id = Some t ->
    exists t', tasks d' !! id = Some t' /\ pass_row timed_out code id t t') ->
  completed_rest d'.
Proof.
  intros Hrest Hnone Hrows id t' Ht'. destruct (tasks d !! id) as [t|] eqn:Ht.
  - destruct (Hrows id t Ht) as (u & Hu & Hrow). assert (u = t') as -> by congruence.
    unfold pass_row in Hrow. destruct (timed_out _).
    + by destruct Hrow as (-> & _).
    + subst. by apply (Hrest id).
  - rewrite Hnone in Ht' by done. done.
Qed.

Lemma maintenance_kinds now task : maintenanceTaskTimedOut task now = true ->
  one_of (task_Type task) ["protection-cleanup"; "retention-cleanup"; "plan-capacity"] = true /\
  isActiveTaskStatus (task_Status task) = true.
Proof. unfold maintenanceTaskTimedOut. rewrite !andb_true_iff. tauto. Qed.

Lemma recovery_kinds now task : recoveryTaskTimedOut task now = true ->
  one_of (task_Type task) ["restore"; "drill"] = true /\
  isActiveTaskStatus (task_Status task) = true.
Proof. unfold recoveryTaskTimedOut. rewrite !andb_true_iff. tauto. Qed.

Lemma upgrade_kinds now task : componentUpgradeTimedOut task now = true ->
  one_of (task_Type task) ["agent-upgrade"; "velero-upgrade"] = true /\
  isActiveTaskStatus (task_Status task) = true.
Proof. unfold componentUpgradeTimedOut. rewrite !andb_true_iff. tauto. Qed.

Lemma code_given code : nonempty code = true -> code <> "".
Proof. apply nonempty_true. Qed.

Lemma not_backup kinds : one_of "backup" kinds = false -> "backup" ∉ kinds.
Proof. apply one_of_false. Qed.

(** What has failed is left alone. *)
Lemma failed_pass (timed_out : Task -> bool) kinds code id t t' :
  (forall task, timed_out task = true ->
     one_of (task_Type task) kinds = true /\ isActiveTaskStatus (task_Status task) = true) ->
  t_status t = "failed" -> pass_row timed_out code id t t' -> t' = t.
Proof.
  intros Hover Hs. unfold pass_row. destruct (timed_out _) eqn:E; [|done].
  apply Hover in E as [_ E]. cbn in E. by rewrite Hs in E.
Qed.


End timeouts.
