(* ===== verification/Reports.v ===== *)
(** What the control plane reads in the reports of agents: the payload patches and
    failure messages of backend/internal/httpserver/backup_events.go, the metrics of
    a completed backup (backup_execution.go), sizes (task_payload.go), stale samples
    (agent_messages.go) and the level of readiness events (workload_readiness.go).

    A report is its decoded payload; structs that are only stored are the document
    they marshal to. *)

From Stdlib Require Import Ascii.
From S2P Require Import Prelude Calendar Timestamp Value Types Text Retention Session Database.
From S2P Require Import Control Events RestorePoints Capacity.

Record sizeProgress := {
  sp_Sequence : Z;
  sp_ObservedAt : time;
  sp_Document : document
}.

Record taskAccepted := {
  ta_TaskID : string;
  ta_CommandID : string
}.

Record taskProgress := {
  tp_TaskID : string;
  tp_CommandID : string;
  tp_Status : string;
  tp_Progress : Z;
  tp_TotalBytes : Z;
  tp_SyncedBytes : Z;
  tp_SpeedBytesPerSecond : Z;
  tp_Percent : Z;
  tp_EtaSeconds : Z;
  tp_Message : string;
  tp_Velero : document;
  tp_SizeProgressV2 : option sizeProgress
}.

Record taskCompleted := {
  tc_PlanCapacity : option (list capacityResult);
  tc_AckRequired : bool;
  tc_TaskID : string;
  tc_CommandID : string;
  tc_Status : string;
  tc_Operation : string;
  tc_Message : string;
  tc_Size : document;
  tc_Velero : document;
  tc_SizeMetricsV2 : option document
}.

Record taskFailed := {
  tf_AckRequired : bool;
  tf_TaskID : string;
  tf_CommandID : string;
  tf_ErrorCode : string;
  tf_Message : string;
  tf_Details : document
}.

Record veleroEvent := {
  ve_AckRequired : bool;
  ve_EventType : string;
  ve_BackupName : string;
  ve_PlanID : string;
  ve_TaskID : string;
  ve_CommandID : string;
  ve_Phase : string;
  ve_Labels : gmap string string;
  ve_Velero : document
}.

(** ** Patches *)

(** [if cond { patch[key] = value }]. *)
Definition put_if (cond : bool) (key : string) (v : value) (patch : document) : document :=
  if cond then <[key := v]> patch else patch.

(** [if m := mapFromAny(v); len(m) > 0 { patch[key] = m }], and its like. *)
Definition put_map (key : string) (m : document) : document -> document :=
  put_if (negb (empty_doc m)) key (VObj m).
Definition put_text (key s : string) : document -> document := put_if (nonempty s) key (VStr s).
Definition put_slice (key : string) (l : list value) : document -> document :=
  put_if (negb (bool_decide (length l = 0%nat))) key (VList l).
Definition put_positive (key : string) (z : Z) : document -> document := put_if (0 <? z) key (VNum z).

Definition readiness_keys : list string :=
  ["readiness"; "readinessStage"; "readinessStartedAt"; "readinessObservedAt";
   "readinessDeadline"; "readinessObservationError"].

Definition put_namespaces (namespaces : list string) (patch : document) : document :=
  match namespaces with
  | [] => patch
  | [namespace] =>
      <["sourceNamespace" := VStr namespace]> (<["includedNamespaces" := VStrs [namespace]]> patch)
  | _ => <["includedNamespaces" := VStrs namespaces]> patch
  end.

Definition backupTaskPayloadPatch (velero : document) : document :=
  if empty_doc velero then ∅
  else
    let patch : document :=
      match velero !! "readinessStage" with
      | Some _ => stable_fields readiness_keys velero
      | None => ∅
      end in
    let storage := stringFromMap velero "storageLocation" in
    put_slice "recoveryStages" (sliceFromAny (get velero "recoveryStages"))
      (put_text "phase" (stringFromMap velero "phase")
        (put_namespaces (stringArrayFromAny (get velero "includedNamespaces"))
          (put_text "storageLocation" storage
            (put_text "backupStorageName" storage
              (put_text "veleroBackupName" (stringFromMap velero "name") patch))))).

(** What [fmt.Sprint] leaves of a value that is given. *)
Definition shown (v : value) : string :=
  let s := TrimSpace (sprint v) in if s =s "<nil>" then "" else s.

Definition transfer_fields (p : taskProgress) (m : document) : document :=
  let m := put_positive "totalBytes" (tp_TotalBytes p)
    (put_positive "syncedBytes" (tp_SyncedBytes p)
      (put_positive "speedBytesPerSecond" (tp_SpeedBytesPerSecond p)
        (put_positive "percent" (tp_Percent p)
          (put_positive "etaSeconds" (tp_EtaSeconds p) m)))) in
  if 0 <? tp_TotalBytes p then
    <["syncedBytes" := VNum (tp_SyncedBytes p)]> (<["percent" := VNum (tp_Percent p)]>
      (<["speedBytesPerSecond" := VNum (tp_SpeedBytesPerSecond p)]>
        (<["etaSeconds" := VNum (tp_EtaSeconds p)]> m)))
  else m.

Definition taskProgressPayloadPatch (p : taskProgress) : document :=
  let patch := transfer_fields p (backupTaskPayloadPatch (tp_Velero p)) in
  let patch := put_map "progressMetrics" (transfer_fields p ∅) patch in
  let patch :=
    match tp_SizeProgressV2 p with
    | Some sample => <["sizeProgressV2" := VObj (sp_Document sample)]> patch
    | None => patch
    end in
  let patch :=
    put_if (nonempty (shown (get (tp_Velero p) "readinessStage"))) "sizeProgressV2" VNull patch in
  put_map "volumeProgress" (mapFromAny (get (tp_Velero p) "volumeProgress")) patch.

Definition put_sizes (size : document) (patch : document) : document :=
  if empty_doc size then patch
  else
    let total := int64FromAny (get size "totalBytes") in
    put_positive "totalBytes" total (put_positive "sizeBytes" total
      (<["size" := VObj size]> (<["restorePointSize" := VObj size]> patch))).

(** The running samples are cleared: a patch is merged into the stored payload. *)
Definition taskCompletedPayloadPatch (p : taskCompleted) : document :=
  let velero := tc_Velero p in
  let patch := backupTaskPayloadPatch velero in
  let patch :=
    match velero !! "deleted" with
    | Some deleted => <["deletedRestorePointIds" := deleted]> patch
    | None => patch
    end in
  let patch := put_sizes (firstNonEmptyMap [mapFromAny (get velero "restorePointSize"); tc_Size p;
                                           mapFromAny (get velero "size")]) patch in
  let patch := put_map "planStorageSize" (mapFromAny (get velero "planStorageSize")) patch in
  let patch :=
    match tc_SizeMetricsV2 p with
    | Some metrics => <["sizeMetricsV2" := VObj metrics]> patch
    | None => patch
    end in
  let patch := <["sizeProgressV2" := VNull]> patch in
  let patch := put_text "sizeStatus" (stringFromMap velero "sizeStatus") patch in
  let patch := put_slice "sizeWarnings" (sliceFromAny (get velero "sizeWarnings")) patch in
  let volumeProgress := mapFromAny (get velero "volumeProgress") in
  <["volumeProgress" := if empty_doc volumeProgress then VNull else VObj volumeProgress]> patch.

(** ** Failures *)

Definition humanizeBackupFailureMessage (message : string) : string :=
  if Contains message "repository not initialized in the provided storage" then
    message +:+ ". The Kopia filesystem backup repository is missing or uninitialized. Reconfigure or retry the cluster BackupStorageLocation before synchronizing. If its Kopia directory was manually deleted, allow the repository to initialize again."
  else message.

(** " value" when there is one. *)
Definition after_space (s : string) : string := if nonempty s then " " +:+ s else "".

Definition volume_failure (raw : value) : option string :=
  let item := mapFromAny raw in
  let message := shown (get item "message") in
  if nonempty message then
    Some ("Volume backup" +:+ after_space (shown (get item "name")) +:+
          after_space (shown (get item "phase")) +:+ ": " +:+ humanizeBackupFailureMessage message)
  else None.

Definition labelled (label s : string) : list string := if nonempty s then [label +:+ s] else [].

Definition taskFailureMessagesFromDetails (details : document) : list string :=
  let nested := mapFromAny (get details "velero") in
  let velero := if empty_doc nested then details else nested in
  let volumes := sliceFromAny (get (mapFromAny (get velero "volumeProgress")) "items") in
  let status := shown (get (mapFromAny (get velero "status")) "message") in
  let failure := mapFromAny (get velero "dataPathFailure") in
  dedupeStrings (omap volume_failure volumes ++
    labelled "" (if nonempty status then humanizeBackupFailureMessage status else "") ++
    labelled "Restore data-path Pod: " (shown (get failure "pod")) ++
    labelled "Target node: " (shown (get failure "node")) ++
    labelled "Original Kopia/Velero log: " (shown (get failure "logDetail"))).

Definition newline : string := String "010"%char EmptyString.

(** Velero's own summaries say less than the details. *)
Definition generic_failure (message : string) : bool :=
  EqualFold message "velero backup failed" ||
  existsb (HasPrefix message)
    ["Velero backup PartiallyFailed:"; "Velero backup Failed:";
     "Velero backup FailedValidation:"; "Velero backup Canceled:"].

Definition detailedTaskFailureMessage (fallback : string) (details : document) : string :=
  match taskFailureMessagesFromDetails details with
  | [] => if nonempty fallback then fallback else "Task failed"
  | messages =>
      let prefix := if generic_failure fallback then "" else fallback in
      if negb (nonempty prefix) ||
         existsb (fun m => EqualFold (TrimSpace m) (TrimSpace prefix)) messages
      then join newline messages else prefix +:+ newline +:+ join newline messages
  end.

Definition taskFailurePayloadPatch (details : document) : document :=
  let velero := mapFromAny (get details "velero") in
  let at_map (key : string) := put_map key (mapFromAny (get velero key)) in
  let patch : document := {[ "sizeProgressV2" := VNull ]} in
  let patch :=
    if empty_doc velero then patch
    else
      at_map "dataPathFailure"
        (put_slice "sizeWarnings" (sliceFromAny (get velero "sizeWarnings"))
          (put_text "sizeStatus" (stringFromMap velero "sizeStatus")
            (at_map "planStorageSize" (at_map "restorePointSize" (at_map "size"
              (at_map "volumeProgress"
                (put_slice "recoveryStages" (sliceFromAny (get velero "recoveryStages"))
                   patch))))))) in
  match taskFailureMessagesFromDetails details with
  | [] => patch
  | messages => <["failureDetails" := VStrs messages]> patch
  end.

(** ** Sizes of a completed backup *)

Definition veleroBackupSizeBytes (velero : document) : Z :=
  let totals := [int64FromAny (get (mapFromAny (get velero "restorePointSize")) "totalBytes");
                 int64FromAny (get (mapFromAny (get velero "size")) "totalBytes");
                 int64FromAny (get velero "sizeBytes")] in
  default 0 (find_first (fun z => 0 <? z) totals).

Definition all_known (size : document) : bool :=
  match size !! "allIncrementalKnown", size !! "volumeCount" with
  | Some v, _ => as_bool v
  | None, Some count => int64FromAny count =? int64FromAny (get size "incrementalKnownCount")
  | None, None => false
  end.

(** The metrics of version 2, adapted from a report of version 1. *)
Definition adapted_metrics (size : document) : document :=
  let three (known : bool) (total volume metadata : string) : value :=
    VObj {[ "known" := VBool known; "totalBytes" := get size total;
            "volumeBytes" := get size volume; "metadataBytes" := get size metadata ]} in
  {[ "schemaVersion" := VNum 2; "operation" := VStr "backup";
     "measurementStatus" := VStr "complete";
     "logical" := three true "totalBytes" "volumeBytes" "metadataBytes";
     "newData" := three true "uploadedBytes" "uploadedVolumeBytes" "uploadedMetadataBytes";
     "quality" := VObj {[ "source" := VStr "v1CompletionAdapter" ]} ]}.

Definition backupCompletionMetrics (p : taskCompleted) : document :=
  let metrics := default ∅ (jsonify_doc <$> tc_SizeMetricsV2 p) in
  if negb (empty_doc metrics) then metrics
  else
    let size := firstNonEmptyMap [mapFromAny (get (tc_Velero p) "restorePointSize"); tc_Size p;
                                  mapFromAny (get (tc_Velero p) "size")] in
    if negb (all_known size) || negb (bool_decide (is_Some (size !! "uploadedBytes"))) ||
       (int64FromAny (get size "totalBytes") <=? 0)
    then ∅ else adapted_metrics size.

(** ** Samples and events *)

(** Observation time survives agent restarts; the in-process sequence does not. *)
Definition staleSizeProgress (current : document) (incoming : sizeProgress) : bool :=
  let observed := parseTimeFromAny (get current "observedAt") in
  if negb (sp_ObservedAt incoming =? zero_time) && negb (observed =? zero_time)
  then sp_ObservedAt incoming <=? observed
  else
    let sequence := int64FromAny (get current "sequence") in
    (0 <? sequence) && (0 <? sp_Sequence incoming) && (sp_Sequence incoming <=? sequence).

Definition troubled_object (raw : value) : bool :=
  let object := mapFromAny raw in
  negb (one_of (stringFromMap object "State") ["Ready"; "Bound"]) &&
  existsb (Contains (ToLower (stringFromMap object "Reason")))
    ["backoff"; "failed"; "error"; "unschedulable"; "unhealthy"].

Definition readinessEventLevel (payload : document) : string :=
  if nonempty (stringFromMap payload "readinessObservationError") then "warning"
  else if existsb troubled_object
            (sliceFromAny (get (mapFromAny (get payload "readiness")) "Objects"))
  then "warning" else "info".

Definition isForceStoppedBackupTask (task : Task) : bool :=
  one_of (ToLower (task_Status task)) ["canceling"; "canceled"] ||
  EqualFold (task_ErrorCode task) "SYNC_FORCE_STOPPED".

(** ** Patches bring no result of their own *)

Definition plain (m : document) : Prop := m !! "backupResult" = None.

Lemma plain_insert key v m : key <> "backupResult" -> plain m -> plain (<[key := v]> m).
Proof. unfold plain. intros H Hm. by rewrite lookup_insert_ne. Qed.

Lemma plain_put_if b key v m : key <> "backupResult" -> plain m -> plain (put_if b key v m).
Proof. intros. unfold put_if. destruct b; [by apply plain_insert|done]. Qed.

Lemma plain_singleton key v : key <> "backupResult" -> plain {[ key := v ]}.
Proof. intros H. by apply lookup_singleton_ne. Qed.

Lemma plain_empty : plain ∅.
Proof. done. Qed.

Lemma plain_stable_fields m : plain (stable_fields readiness_keys m).
Proof.
  unfold plain, stable_fields. apply not_elem_of_list_to_map_1. cbn. intros H.
  repeat (apply elem_of_cons in H as [H|H]; [done|]). by apply elem_of_nil in H.
Qed.

Ltac plain_patch :=
  unfold put_map, put_text, put_slice, put_positive; cbv zeta;
  repeat match goal with
    | |- plain (put_if _ _ _ _) => apply plain_put_if; [discriminate|]
    | |- plain (<[_ := _]> _) => apply plain_insert; [discriminate|]
    | |- plain (stable_fields _ _) => apply plain_stable_fields
    | |- plain {[ _ := _ ]} => apply plain_singleton; discriminate
    | |- plain ∅ => apply plain_empty
    | H : plain ?m |- plain ?m => exact H
    | |- plain (match ?x with _ => _ end) => destruct x
    end.

Lemma plain_backup_patch velero : plain (backupTaskPayloadPatch velero).
Proof. unfold backupTaskPayloadPatch, put_namespaces. plain_patch. Qed.

Lemma plain_progress_patch p : plain (taskProgressPayloadPatch p).
Proof.
  unfold taskProgressPayloadPatch, transfer_fields. pose proof (plain_backup_patch (tp_Velero p)).
  plain_patch.
Qed.

Lemma plain_completed_patch p : plain (taskCompletedPayloadPatch p).
Proof.
  unfold taskCompletedPayloadPatch, put_sizes. pose proof (plain_backup_patch (tc_Velero p)).
  plain_patch.
Qed.

Lemma plain_failure_patch details : plain (taskFailurePayloadPatch details).
Proof. unfold taskFailurePayloadPatch. plain_patch. Qed.
