(* ===== verification/AgentMessages.v ===== *)
(** The reports of agents on their tasks: the message loop of
    backend/internal/httpserver/agent_messages.go for accepted, progress, completed
    and failed tasks and Velero events, with what it calls in backup_execution.go,
    backup_events.go and agent_connection.go.

    A handler is given the envelope and the decoded payload of a message that
    passed the protocol's contract; it says whether the loop reads on, closes the
    connection, or goes on to remove an unregistered cluster (finishUnregisterTask,
    which is not modelled). *)

From S2P Require Import Prelude Calendar Timestamp Value Types Wire Messages Codec Retention Session.
From S2P Require Import Database Control Events Fleet Storage Catalog Commands Quota Tasks.
From S2P Require Import RestorePoints Plans Policies Bindings Dispatch Lifecycle System Handlers.
From S2P Require Import StorageSync PlanPolicy Activation BackupTasks RetentionCleanup.
From S2P Require Import ProtectionCleanup Capacity Reports.

Inductive next := ReadOn | CloseConnection | Unregister (task : Task).

Record envelope := {
  env_AgentID : string;
  env_MessageID : string;
  env_Type : string
}.

(** ** Answers to the agent *)

Definition answer (clusterID : string) (env : envelope) (kind : string) (payload : value)
    : ctl unit :=
  id ← NewPublicID;
  now ← time_now;
  ignore (write_message clusterID
    {| m_Version := Version; m_MessageID := id; m_MessageKind := MessageKindResponse;
       m_Type := kind; m_TenantID := ""; m_ClusterID := clusterID; m_AgentID := env_AgentID env;
       m_Timestamp := now; m_Payload := payload |}).

Definition writeEventAck (clusterID : string) (env : envelope) (taskID commandID : string)
    : ctl unit :=
  let names_task := one_of (env_Type env) [MessageAgentTaskCompleted; MessageAgentTaskFailed] in
  answer clusterID env MessagePlatformEventAck
    (struct EventAckPayload
       [("ackMessageId", VStr (env_MessageID env)); ("ackType", VStr (env_Type env));
        ("taskId", VStr (if names_task then taskID else ""));
        ("commandId", VStr (if names_task then commandID else "")); ("persisted", VBool true)]).

Definition writeEventError (clusterID : string) (env : envelope) (taskID commandID code text : string)
    (retryable : bool) : ctl unit :=
  answer clusterID env MessagePlatformEventError
    (struct EventErrorPayload
       [("ackMessageId", VStr (env_MessageID env)); ("ackType", VStr (env_Type env));
        ("taskId", VStr taskID); ("commandId", VStr commandID); ("errorCode", VStr code);
        ("message", VStr text); ("retryable", VBool retryable)]).

Definition when (b : bool) (m : ctl unit) : ctl unit := if b then m else mret tt.

(** [if err != nil] of an error that is also told to the agent. *)
Definition tell_error (clusterID : string) (env : envelope) (required : bool)
    (taskID commandID code : string) (err : failure) (retryable : bool) : ctl unit :=
  when required (message ← error_message err;
                 writeEventError clusterID env taskID commandID code message retryable).

Definition findTaskByID (clusterID taskID : string) : ctl (failure + option Task) :=
  if negb (nonempty taskID) then mret (inr None)
  else
    tasks ← list_tasks clusterID;
    or_return tasks (fun tasks => mret (inr (find_first (fun t => task_ID t =s taskID) tasks))).

Definition has_result (task : Task) : bool :=
  negb (is_null_value (get (task_Payload task) "backupResult")).

(** A status report of a running task, with its patch. *)
Definition running_report (taskID status : string) (progress : Z) (payload : document)
    : TaskStatusInput :=
  {| tsi_TaskID := taskID; tsi_RestorePointID := ""; tsi_Status := status;
     tsi_Progress := progress; tsi_ErrorCode := ""; tsi_ErrorMessage := ""; tsi_Payload := payload;
     tsi_MarkAccepted := false; tsi_MarkStarted := true; tsi_MarkDone := false |}.

Definition done_report (taskID status : string) (progress : Z) (code message : string)
    (payload : document) (started : bool) : TaskStatusInput :=
  {| tsi_TaskID := taskID; tsi_RestorePointID := ""; tsi_Status := status;
     tsi_Progress := progress; tsi_ErrorCode := code; tsi_ErrorMessage := message;
     tsi_Payload := payload; tsi_MarkAccepted := false; tsi_MarkStarted := started;
     tsi_MarkDone := true |}.

Definition patch_report (taskID status code message : string) (progress : Z) (payload : document)
    : TaskStatusInput :=
  {| tsi_TaskID := taskID; tsi_RestorePointID := ""; tsi_Status := status;
     tsi_Progress := progress; tsi_ErrorCode := code; tsi_ErrorMessage := message;
     tsi_Payload := payload; tsi_MarkAccepted := false; tsi_MarkStarted := false;
     tsi_MarkDone := false |}.

Definition accepted_report (taskID : string) : TaskStatusInput :=
  {| tsi_TaskID := taskID; tsi_RestorePointID := ""; tsi_Status := "accepted"; tsi_Progress := 0;
     tsi_ErrorCode := ""; tsi_ErrorMessage := ""; tsi_Payload := ∅; tsi_MarkAccepted := true;
     tsi_MarkStarted := false; tsi_MarkDone := false |}.

Definition of_velero (velero : document) : document := {[ "velero" := VObj velero ]}.

Section messages.
Context (LoadLocation : string -> option location).
Context (diagnosticWriter : option (DiagnosticLogInput -> option error)).

Notation add_task_event := (add_task_event diagnosticWriter).
Notation addTaskEventIfChanged := (addTaskEventIfChanged diagnosticWriter).

(** ** Accepted and progress *)

(** [commandID] is given and is not the task's. *)
Definition other_command (commandID : string) (task : Task) : bool :=
  nonempty commandID && nonempty (task_CommandID task) && (commandID <>s task_CommandID task).

Definition taskAcceptedMessage (clusterID : string) (p : taskAccepted) : ctl next :=
  if negb (nonempty (TrimSpace (ta_TaskID p))) then mret ReadOn
  else
    found ← findTaskByID clusterID (ta_TaskID p);
    match found with
    | inr (Some existing) =>
        if other_command (ta_CommandID p) existing ||
           negb (task_CompletedAt existing =? zero_time) || has_result existing
        then mret ReadOn
        else
          updated ← update_task_status (accepted_report (ta_TaskID p));
          match updated with
          | inl _ => mret CloseConnection
          | inr _ =>
              add_task_event (event (ta_TaskID p) "info" "accepted" "agent accepted task" ∅);;
              mret ReadOn
          end
    | _ => mret ReadOn
    end.

(** Reports that come too late, or are not the task's. *)
Definition ignored_progress (existing : Task) (p : taskProgress) : bool :=
  negb (task_CompletedAt existing =? zero_time) ||
  negb (isActiveTaskStatus (task_Status existing)) ||
  other_command (tp_CommandID p) existing ||
  negb (isActiveTaskStatus (tp_Status p)) ||
  ((task_Type existing =s "backup") &&
   ((task_Status existing =s "finalizing") || has_result existing)) ||
  match tp_SizeProgressV2 p with
  | Some incoming =>
      staleSizeProgress (mapFromAny (get (task_Payload existing) "sizeProgressV2")) incoming
  | None => false
  end.

Definition progress_event (p : taskProgress) : ctl unit :=
  let input (reason : string) := event (tp_TaskID p) (readinessEventLevel (tp_Velero p)) reason
                                   (tp_Message p) (of_velero (tp_Velero p)) in
  match get (tp_Velero p) "readinessChanged" with
  | VBool true => add_task_event (input "workload_readiness_changed")
  | VBool false => mret tt
  | _ => ignore (addTaskEventIfChanged (input "progress"))
  end.

Definition taskProgressMessage (clusterID : string) (p : taskProgress) : ctl next :=
  found ← findTaskByID clusterID (tp_TaskID p);
  match found with
  | inr (Some existing) =>
      if ignored_progress existing p then mret ReadOn
      else
        updated ← update_task_status (running_report (tp_TaskID p) (tp_Status p) (tp_Progress p)
          (taskProgressPayloadPatch p));
        match updated with
        | inl _ => mret CloseConnection
        | inr _ => progress_event p;; mret ReadOn
        end
  | _ => mret ReadOn
  end.

(** ** Velero events and inventories *)

Definition recordBackupObservation (task : Task) (details : document) (phase : string)
    : ctl (failure + Task) :=
  now ← time_now;
  updated ← update_task_status (patch_report (task_ID task) "" "" "" 0
    {[ "backupObservation" := VObj {[ "phase" := VStr phase; "details" := VObj details;
                                      "observedAt" := VTime now ]} ]});
  or_return updated (fun updated => mret (inr (default zero_task updated))).

Definition findOrCreateVeleroBackupTask (clusterID : string) (plan : ProtectionPlan)
    (event : veleroEvent) (taskID : string) : ctl (failure + Task) :=
  found ← get_task taskID;
  or_return found (fun found =>
    mret match found with
         | None => inl (Failure
             "velero event task does not belong to this cluster and protection plan")
         | Some task =>
             let label := default "" (ve_Labels event !! "hypercdr.io/task-id") in
             let name := taskPayloadString (task_Payload task) "veleroBackupName" in
             if (task_ClusterID task <>s clusterID) ||
                (task_ProtectionPlanID task <>s plan_ID plan) || (task_Type task <>s "backup")
             then inl (Failure
               "velero event task does not belong to this cluster and protection plan")
             else if nonempty (ve_CommandID event) && (ve_CommandID event <>s task_CommandID task)
             then inl (Failure "velero event command id does not match task")
             else if nonempty label && (label <>s task_ID task)
             then inl (Failure "velero event task id conflicts with resource label")
             else if nonempty name && (name <>s ve_BackupName event)
             then inl (Failure "velero event backup name does not match task")
             else inr task
         end).

(** An event without a task of ours is of no task. *)
Definition handleVeleroBackupEvent (clusterID : string) (event : veleroEvent)
    : ctl (failure + Task) :=
  let label (key : string) := default "" (ve_Labels event !! key) in
  let planID := or_else (ve_PlanID event) (label "hypercdr.io/plan-id") in
  if negb (nonempty (ve_BackupName event)) || negb (nonempty planID) then mret (inr zero_task)
  else
    plan ← store (fun _ _ => GetProtectionPlan planID);
    or_return plan (fun plan =>
      match plan with
      | None => mret (inr zero_task)
      | Some plan =>
          if plan_SourceClusterID plan <>s clusterID then mret (inr zero_task)
          else
            let given := nonempty (TrimSpace (ve_TaskID event)) in
            let taskID := if given then ve_TaskID event
                          else TrimSpace (label "hypercdr.io/task-id") in
            if negb (nonempty taskID) then mret (inl (Failure "velero event missing task id"))
            else if EqualFold (ve_Phase event) "Deleting" ||
                    EqualFold (ve_EventType event) "backup_deleting"
            then mret (inr zero_task)
            else
              found ← findOrCreateVeleroBackupTask clusterID plan event taskID;
              or_return found (fun task =>
                (* a late event does not change the outcome of a task *)
                if negb (task_CompletedAt task =? zero_time) then mret (inr task)
                else recordBackupObservation task (ve_Velero event) (ve_Phase event))
      end).

Definition veleroEventMessage (clusterID : string) (env : envelope) (event : veleroEvent)
    : ctl next :=
  handled ← handleVeleroBackupEvent clusterID event;
  match handled with
  | inl err =>
      tell_error clusterID env (ve_AckRequired event) (ve_TaskID event) (ve_CommandID event)
        "VELERO_EVENT_HANDLE_FAILED" err true;;
      mret ReadOn
  | inr task =>
      when (ve_AckRequired event) (writeEventAck clusterID env
        (or_else (ve_TaskID event) (task_ID task))
        (or_else (ve_CommandID event) (task_CommandID task)));;
      mret ReadOn
  end.

Definition observe_backup (clusterID : string) (backup : document) : ctl unit :=
  let labels := mapPayload backup "labels" in
  let taskID := stringFromMap labels "hypercdr.io/task-id" in
  if negb (nonempty taskID) then mret tt
  else
    found ← findTaskByID clusterID taskID;
    match found with
    | inr (Some task) =>
        let name := taskPayloadString (task_Payload task) "veleroBackupName" in
        if (task_Type task <>s "backup") || negb (task_CompletedAt task =? zero_time) ||
           (task_ProtectionPlanID task <>s stringFromMap labels "hypercdr.io/plan-id") ||
           (nonempty name && (name <>s stringFromMap backup "name"))
        then mret tt
        else ignore (recordBackupObservation task backup (stringFromMap backup "phase"))
    | _ => mret tt
    end.

Definition observeInventoryBackups (clusterID : string) (backups : list document) : ctl unit :=
  range backups (observe_backup clusterID).

(** ** Completed backups *)

Definition restore_point_metadata (task : Task) (velero : document) : document :=
  let size := VObj (firstNonEmptyMap [mapFromAny (get velero "restorePointSize");
                                      mapFromAny (get velero "size")]) in
  {[ "velero" := VObj velero; "sizeMetricsV2" := get (task_Payload task) "sizeMetricsV2";
     "size" := size; "sizeStatus" := get velero "sizeStatus";
     "sizeWarnings" := match get velero "sizeWarnings" with VList l => VList l | _ => VNull end;
     "restorePointSize" := size;
     "planStorageSize" := VObj (mapFromAny (get velero "planStorageSize")) ]}.

(** The location in the manifest, or the task's. *)
Definition backup_storage (task : Task) (velero : document) : string :=
  let spec := mapFromAny (get (mapFromAny (get velero "manifest")) "spec") in
  or_else (as_string (get spec "storageLocation"))
    (as_string (get (task_Payload task) "storageRepo")).

Definition backup_result (task : Task) (velero : document) (storageRepoID : string)
    (completedAt : time) : RestorePointInput :=
  {| rpi_ProtectionPlanID := task_ProtectionPlanID task; rpi_SourceClusterID := task_ClusterID task;
     rpi_AppID := task_AppID task; rpi_StorageRepoID := storageRepoID; rpi_DisplayName := "";
     rpi_TaskCreatedAt := task_CreatedAt task;
     rpi_VeleroBackupName := as_string (get velero "name"); rpi_PointType := "backup";
     rpi_Status := "available"; rpi_SizeBytes := veleroBackupSizeBytes velero;
     rpi_StartedAt := zero_time; rpi_CompletedAt := completedAt; rpi_ExpiresAt := zero_time;
     rpi_SourceNamespace := as_string (get (task_Payload task) "sourceNamespace");
     rpi_LabelSelector := as_string (get (task_Payload task) "labelSelector");
     rpi_BackupTaskID := task_ID task; rpi_BackupStorageName := backup_storage task velero;
     rpi_Metadata := restore_point_metadata task velero;
     rpi_SizeMetricsV2 := mapFromAnyJSON (get (task_Payload task) "sizeMetricsV2") |}.

Definition update_plan_size (planID : string) (size : document) : ctl unit :=
  if negb (nonempty planID) || empty_doc size then mret tt
  else ignore (store (fun _ now => UpdateProtectionPlanStorageSize now planID size)).

Definition updateProtectionPlanStorageSizeFromVelero (planID : string) (velero : document)
    : ctl unit := update_plan_size planID (mapFromAny (get velero "planStorageSize")).

(** [None]: nothing to publish. *)
Definition createRestorePointFromBackup (task : Task) (velero : document)
    : ctl (failure + option RestorePoint) :=
  if negb (nonempty (task_ProtectionPlanID task))
  then mret (inl (Failure "backup restore point requires protection plan id"))
  else if (as_string (get velero "kind") <>s "Backup") ||
          negb (nonempty (as_string (get velero "name"))) then mret (inr None)
  else
    plan ← store (fun _ _ => GetProtectionPlan (task_ProtectionPlanID task));
    or_return plan (fun plan =>
      let elsewhere :=
        match plan with
        | Some plan => plan_SourceClusterID plan <>s task_ClusterID task
        | None => false
        end in
      if elsewhere then mret (inr None)
      else
        now ← time_now;
        let completedAt := if task_CompletedAt task =? zero_time then now
                           else task_CompletedAt task in
        let storageRepoID := match plan with Some plan => plan_StorageRepoID plan | None => "" end in
        point ← publish LoadLocation (backup_result task velero storageRepoID completedAt);
        or_return point (fun point =>
          startWorker (IndexContents point);;
          updateProtectionPlanStorageSizeFromVelero (task_ProtectionPlanID task) velero;;
          mret (inr (Some point)))).

Definition conflict (detail : string) : option failure :=
  Some (Wrapped ErrBackupResultConflict detail).

(** Why a completion is not of the task. *)
Definition completion_mismatch (task : Task) (p : taskCompleted) : option failure :=
  let velero := tc_Velero p in
  let phase := stringFromMap velero "phase" in
  let name := taskPayloadString (task_Payload task) "veleroBackupName" in
  if nonempty (tc_CommandID p) && (tc_CommandID p <>s task_CommandID task)
  then conflict "command does not match task"
  else if nonempty (tc_Operation p) && (tc_Operation p <>s "backup")
  then conflict "operation does not match task"
  else if nonempty (tc_Status p) && (tc_Status p <>s "succeeded")
  then conflict "outcome is not succeeded"
  else if (stringFromMap velero "kind" <>s "Backup") || negb (nonempty (stringFromMap velero "name"))
  then Some (StoreError ErrBackupResultIncomplete)
  else if nonempty phase && (phase <>s "Completed")
  then conflict "backup resource is not completed"
  else if nonempty name && (name <>s stringFromMap velero "name")
  then conflict "resource does not match task"
  else None.

Definition await_measurements (task : Task) : ctl (failure + unit) :=
  updated ← update_task_status (patch_report (task_ID task) "finalizing" "BACKUP_RESULT_INCOMPLETE"
    "Waiting for complete backup size measurements." 0
    {[ "backupResultStatus" := VStr "awaiting_measurements" ]});
  or_return updated (fun _ => mret (inl (StoreError ErrBackupResultIncomplete))).

(** The task with the report's patch over its payload. *)
Definition with_payload (task : Task) (payload : document) : Task :=
  {| task_ID := task_ID task; task_TenantID := task_TenantID task;
     task_ClusterID := task_ClusterID task; task_AppID := task_AppID task;
     task_ProtectionPlanID := task_ProtectionPlanID task;
     task_RestorePointID := task_RestorePointID task; task_Type := task_Type task;
     task_Status := task_Status task; task_Progress := task_Progress task;
     task_CommandID := task_CommandID task; task_ErrorCode := task_ErrorCode task;
     task_ErrorMessage := task_ErrorMessage task; task_Payload := payload;
     task_CreatedAt := task_CreatedAt task; task_DispatchedAt := task_DispatchedAt task;
     task_AcceptedAt := task_AcceptedAt task; task_StartedAt := task_StartedAt task;
     task_CompletedAt := task_CompletedAt task |}.

Definition completed_payload (task : Task) (p : taskCompleted) (metrics : document) : document :=
  <["sizeMetricsV2" := VObj metrics]> (taskCompletedPayloadPatch p) ∪ task_Payload task.

Definition publish_completion (task : Task) (velero : document) : ctl (failure + unit) :=
  created ← createRestorePointFromBackup task velero;
  match created with
  | inl err =>
      deferred ← deferRestorePointReplacement diagnosticWriter (task_ID task) err;
      mret (if deferred : bool then inr tt else inl err)
  | inr None => mret (inl (StoreError ErrBackupResultIncomplete))
  | inr (Some point) =>
      if negb (nonempty (rp_ID point)) then mret (inl (StoreError ErrBackupResultIncomplete))
      else
        reconcileRetention LoadLocation diagnosticWriter (rp_ProtectionPlanID point)
          (rp_BackupTaskID point);;
        collectInitialPlanCapacityAfterBackup LoadLocation (rp_ProtectionPlanID point);;
        mret (inr tt)
  end.

Definition acceptBackupCompletion (task : Task) (p : taskCompleted) : ctl (failure + unit) :=
  match completion_mismatch task p with
  | Some err => mret (inl err)
  | None =>
      let metrics := backupCompletionMetrics p in
      if negb (CompleteBackupMetrics metrics) then await_measurements task
      else publish_completion (with_payload task (completed_payload task p metrics)) (tc_Velero p)
  end.

(** ** Force stops *)

Definition cancel_patch (cancelTask : Task) (velero : document) : document :=
  let patch :=
    {[ "cancelTaskId" := VStr (task_ID cancelTask);
       "cancelReason" := VStr (firstNonEmptyString
          [stringPayload (task_Payload cancelTask) "reason"; "user_requested"]);
       "canceledByUser" := VBool true;
       "veleroBackupName" := VStr (firstNonEmptyString
          [stringPayload (task_Payload cancelTask) "veleroBackupName";
           stringPayload velero "backupName"]) ]} : document in
  match get velero "deleted" with
  | VBool deleted => <["veleroBackupDeleted" := VBool deleted]> patch
  | _ => patch
  end.

Definition cancel_target (clusterID : string) (cancelTask : Task) (p : taskCompleted)
    : ctl (failure + unit) :=
  let targetTaskID := firstNonEmptyString
    [stringPayload (task_Payload cancelTask) "targetTaskId";
     stringPayload (tc_Velero p) "targetTaskId"] in
  if negb (nonempty targetTaskID)
  then mret (inl (Failure "backup cancel target task id is missing"))
  else
    found ← findTaskByID clusterID targetTaskID;
    or_return found (fun found =>
      match found with
      | None => mret (inl (Failure "backup cancel target task not found"))
      | Some target =>
          if task_Type target <>s "backup"
          then mret (inl (Failure ("backup cancel target has unsupported task type " +:+
                 quoted (task_Type target))))
          else if negb (task_CompletedAt target =? zero_time) then mret (inr tt)
          else
            updated ← update_task_status (done_report (task_ID target) "canceled"
              (task_Progress target) "SYNC_FORCE_STOPPED" "Sync was force stopped by user."
              (cancel_patch cancelTask (tc_Velero p)) false);
            or_return updated (fun _ =>
              add_task_event (event (task_ID target) "warning" "canceled"
                "Sync was force stopped by user."
                {[ "cancelTaskId" := VStr (task_ID cancelTask); "velero" := VObj (tc_Velero p) ]});;
              mret (inr tt))
      end).

Definition finishBackupCancelTask (clusterID : string) (cancelTask : Task) (p : taskCompleted)
    : ctl (failure + unit) :=
  updated ← update_task_status (done_report (task_ID cancelTask) "succeeded" 100 "" ""
    (taskCompletedPayloadPatch p) true);
  or_return updated (fun updated =>
    let cancelTask := default zero_task updated in
    ignore (addTaskEventIfChanged (event (task_ID cancelTask) "info" "completed" (tc_Message p)
      (of_velero (tc_Velero p))));;
    cancel_target clusterID cancelTask p).

Definition markBackupCancelFailed (cancelTask : Task) (message : string) : ctl unit :=
  let targetTaskID := stringPayload (task_Payload cancelTask) "targetTaskId" in
  let detail : document := {[ "cancelTaskId" := VStr (task_ID cancelTask) ]} in
  if negb (nonempty targetTaskID) then mret tt
  else
    found ← findTaskByID (task_ClusterID cancelTask) targetTaskID;
    match found with
    | inr (Some target) =>
        if (task_Type target <>s "backup") || negb (task_CompletedAt target =? zero_time) ||
           (task_Status target <>s "canceling") then mret tt
        else
          let message := or_else message "Force stop failed." in
          ignore (update_task_status (patch_report (task_ID target) "running"
            "SYNC_FORCE_STOP_FAILED" message (task_Progress target)
            (<["cancelFailed" := VBool true]> detail)));;
          add_task_event (event (task_ID target) "error" "cancel_failed" message detail)
    | _ => mret tt
    end.

(** ** Completed tasks *)

Definition result_value (r : capacityResult) : value :=
  struct PlanCapacityResult
    [("planId", VStr (cr_PlanID r)); ("status", VStr (cr_Status r));
     ("metadataBytes", VNum (cr_MetadataBytes r)); ("kopiaBytes", VNum (cr_KopiaBytes r));
     ("totalBytes", VNum (cr_TotalBytes r)); ("collectedAt", time_value (cr_CollectedAt r));
     ("errorMessage", VStr (cr_ErrorMessage r))].

Definition capacity_report (report : option (list capacityResult)) : document :=
  {[ "capacityReport" := match report with
                         | Some results =>
                             struct PlanCapacityReport [("plans", values (result_value <$> results))]
                         | None => VNull
                         end ]}.

Definition ack_completed (clusterID : string) (env : envelope) (p : taskCompleted) : ctl unit :=
  when (tc_AckRequired p) (writeEventAck clusterID env (tc_TaskID p) (tc_CommandID p)).

Definition refuse_completed (clusterID : string) (env : envelope) (p : taskCompleted) (code : string)
    (err : failure) (retryable : bool) : ctl unit :=
  tell_error clusterID env (tc_AckRequired p) (tc_TaskID p) (tc_CommandID p) code err retryable.

(** Capacity errors are told whether or not an answer was asked for. *)
Definition completed_capacity (clusterID : string) (env : envelope) (task : Task)
    (p : taskCompleted) : ctl next :=
  if task_CommandID task <>s tc_CommandID p then
    writeEventError clusterID env (tc_TaskID p) (tc_CommandID p) "CAPACITY_COMMAND_MISMATCH"
      "Capacity command does not match" false;;
    mret ReadOn
  else if one_of (task_Status task) ["failed"; "cancelled"] then
    ack_completed clusterID env p;; mret ReadOn
  else
    saved ← persistCapacityReport task (tc_PlanCapacity p);
    saved ← (match saved with
             | inl err => mret (inl err)
             | inr _ =>
                 updated ← update_task_status (done_report (task_ID task) "succeeded" 100 "" ""
                   (capacity_report (tc_PlanCapacity p)) false);
                 or_return updated (fun _ => mret (inr tt))
             end);
    match saved with
    | inl err =>
        tell_error clusterID env true (tc_TaskID p) (tc_CommandID p) "CAPACITY_RESULT_SAVE_FAILED"
          err true;;
        mret ReadOn
    | inr _ =>
        ignore (addTaskEventIfChanged (event (task_ID task) "info" "completed"
          "Plan capacity collection completed" (capacity_report (tc_PlanCapacity p))));;
        ack_completed clusterID env p;; mret ReadOn
    end.

Definition completed_cancel (clusterID : string) (env : envelope) (task : Task)
    (p : taskCompleted) : ctl next :=
  finished ← finishBackupCancelTask clusterID task p;
  match finished with
  | inl err =>
      refuse_completed clusterID env p "BACKUP_CANCEL_FINISH_FAILED" err true;;
      mret CloseConnection
  | inr _ => ack_completed clusterID env p;; mret ReadOn
  end.

(** The rollout is done; the new version has yet to report. *)
Definition completed_upgrade (clusterID : string) (env : envelope) (task : Task)
    (p : taskCompleted) : ctl next :=
  let velero := task_Type task =s "velero-upgrade" in
  updated ← update_task_status (running_report (task_ID task) "running" (if velero then 90 else 70)
    (taskCompletedPayloadPatch p));
  match updated with
  | inl _ => mret CloseConnection
  | inr _ =>
      ignore (addTaskEventIfChanged (event (task_ID task) "info"
        (if velero then "waiting_for_verification" else "waiting_for_reconnect")
        (if velero then
           "velero rollout completed; waiting for server and node-agent digest verification"
         else "agent deployment updated; waiting for the new agent to reconnect") ∅));;
      ack_completed clusterID env p;; mret ReadOn
  end.

Definition completed_backup (clusterID : string) (env : envelope) (task : Task)
    (p : taskCompleted) : ctl next :=
  accepted ← acceptBackupCompletion task p;
  match accepted with
  | inl err =>
      let retryable := match cause err with Some ErrBackupResultConflict => false | _ => true end in
      refuse_completed clusterID env p "BACKUP_RESULT_REJECTED" err retryable;;
      mret ReadOn
  | inr _ => ack_completed clusterID env p;; mret ReadOn
  end.

(** What follows from a task that succeeded. *)
Definition after_success (task : Task) (velero : document) : ctl unit :=
  let kind := task_Type task in
  (if kind =s "storage-sync" then
     markClusterStorageBindingReady task;;
     (if taskPayloadBool (task_Payload task) "reconfigureStorage"
      then finishProtectionPlanStorageReconfigure task
      else continueProtectionPlanActivationAfterStorage task)
   else mret tt);;
  (if (kind =s "schedule-sync") && nonempty (task_ProtectionPlanID task) then
     warned ← hasTargetStorageWarning (task_ProtectionPlanID task);
     set_plan_status (task_ProtectionPlanID task)
       (if warned : bool then "active_with_warning" else "active")
   else mret tt);;
  when (kind =s "retention-cleanup") (finishRetentionCleanupTask task velero);;
  when (kind =s "protection-cleanup") (finishProtectionCleanupTask task).

(** A task is finalizing before it has succeeded. *)
Definition completed_task (clusterID : string) (env : envelope) (p : taskCompleted) : ctl next :=
  let patch := taskCompletedPayloadPatch p in
  finalized ← update_task_status (running_report (tc_TaskID p) "finalizing" 100 patch);
  match finalized with
  | inl err =>
      refuse_completed clusterID env p "TASK_FINALIZE_FAILED" err true;; mret CloseConnection
  | inr finalized =>
      let existing := default zero_task finalized in
      ignore (addTaskEventIfChanged (event (tc_TaskID p) "info" "finalizing"
        "finalizing restore point" (of_velero (tc_Velero p))));;
      if task_Type existing =s "unregister" then mret (Unregister existing)
      else
        updated ← update_task_status (done_report (tc_TaskID p) "succeeded" 100 "" "" patch false);
        match updated with
        | inl err =>
            refuse_completed clusterID env p "TASK_COMPLETE_FAILED" err true;; mret CloseConnection
        | inr updated =>
            ignore (addTaskEventIfChanged (event (tc_TaskID p) "info" "completed" (tc_Message p)
              (of_velero (tc_Velero p))));;
            after_success (default zero_task updated) (tc_Velero p);;
            ack_completed clusterID env p;; mret ReadOn
        end
  end.

Definition taskCompletedMessage (clusterID : string) (env : envelope) (p : taskCompleted)
    : ctl next :=
  if negb (nonempty (TrimSpace (tc_TaskID p))) then mret ReadOn
  else
    found ← findTaskByID clusterID (tc_TaskID p);
    match found with
    | inl err =>
        refuse_completed clusterID env p "TASK_COMPLETE_FAILED" err true;; mret CloseConnection
    | inr None =>
        refuse_completed clusterID env p "TASK_NOT_FOUND" (Failure "task not found") true;;
        mret CloseConnection
    | inr (Some task) =>
        let kind := task_Type task in
        if kind =s "plan-capacity" then completed_capacity clusterID env task p
        else if (kind =s "backup") && isForceStoppedBackupTask task then
          add_task_event (event (task_ID task) "warning" "completion_after_cancel"
            "Ignored backup completion because force stop already finalized this sync task."
            (of_velero (tc_Velero p)));;
          ack_completed clusterID env p;; mret ReadOn
        else if kind =s "backup-cancel" then completed_cancel clusterID env task p
        else if one_of kind ["agent-upgrade"; "velero-upgrade"]
        then completed_upgrade clusterID env task p
        else if kind =s "backup" then completed_backup clusterID env task p
        else completed_task clusterID env p
    end.

(** ** Failed tasks *)

Definition ack_failed (clusterID : string) (env : envelope) (p : taskFailed) : ctl unit :=
  when (tf_AckRequired p) (writeEventAck clusterID env (tf_TaskID p) (tf_CommandID p)).

Definition refuse_failed (clusterID : string) (env : envelope) (p : taskFailed)
    (code text : string) : ctl unit :=
  when (tf_AckRequired p)
    (writeEventError clusterID env (tf_TaskID p) (tf_CommandID p) code text false).

(** A sync that fails for a plan is tried again; the plan is told when it is not. *)
Definition after_failure (task : Task) (p : taskFailed) : ctl unit :=
  let kind := task_Type task in
  let planID := task_ProtectionPlanID task in
  when (kind =s "retention-cleanup")
    (markRetentionCleanupFailed diagnosticWriter task (tf_Message p));;
  when (kind =s "protection-cleanup") (markProtectionCleanupFailed task (tf_Message p));;
  when (kind =s "backup-cancel") (markBackupCancelFailed task (tf_Message p));;
  (if (kind =s "storage-sync") && nonempty planID then
     markClusterStorageBindingFailed task (tf_ErrorCode p) (tf_Message p);;
     retried ← retryStorageSyncTask LoadLocation diagnosticWriter task (tf_Message p);
     if retried : bool then mret tt
     else if taskPayloadString (task_Payload task) "activationRole" =s "target"
     then finishTargetStorageSyncFailed diagnosticWriter task
     else set_plan_status planID "storage_failed"
   else when (kind =s "storage-sync")
          (markClusterStorageBindingFailed task (tf_ErrorCode p) (tf_Message p)));;
  when ((kind =s "schedule-sync") && nonempty planID) (set_plan_status planID "schedule_failed").

Definition fail_task (clusterID : string) (env : envelope) (p : taskFailed) : ctl next :=
  let message := detailedTaskFailureMessage (tf_Message p) (tf_Details p) in
  updated ← update_task_status (done_report (tf_TaskID p) "failed" 0 (tf_ErrorCode p) message
    (taskFailurePayloadPatch (tf_Details p)) false);
  match updated with
  | inl err =>
      tell_error clusterID env (tf_AckRequired p) (tf_TaskID p) (tf_CommandID p)
        "TASK_FAIL_UPDATE_FAILED" err true;;
      mret CloseConnection
  | inr updated =>
      add_task_event (event (tf_TaskID p) "error" (tf_ErrorCode p) message (tf_Details p));;
      after_failure (default zero_task updated) p;;
      ack_failed clusterID env p;; mret ReadOn
  end.

Definition taskFailedMessage (clusterID : string) (env : envelope) (p : taskFailed) : ctl next :=
  if negb (nonempty (TrimSpace (tf_TaskID p))) then mret ReadOn
  else
    found ← findTaskByID clusterID (tf_TaskID p);
    match found with
    | inr (Some task) =>
        if nonempty (tf_CommandID p) && (tf_CommandID p <>s task_CommandID task) then
          refuse_failed clusterID env p "TASK_IDENTITY_MISMATCH"
            "Failure does not match a task on this cluster.";;
          mret ReadOn
        else if (task_Type task =s "backup") && has_result task then
          refuse_failed clusterID env p "BACKUP_RESULT_CONFLICT"
            "An accepted backup result cannot be replaced by a failure.";;
          mret ReadOn
        else if (task_Type task =s "backup") && isForceStoppedBackupTask task then
          add_task_event (event (task_ID task) "warning" (tf_ErrorCode p)
            "Ignored backup failure because force stop is in progress or already completed."
            (tf_Details p));;
          ack_failed clusterID env p;; mret ReadOn
        else fail_task clusterID env p
    | _ =>
        refuse_failed clusterID env p "TASK_IDENTITY_MISMATCH"
          "Failure does not match a task on this cluster.";;
        mret ReadOn
    end.

(** ** These only make calls of the system *)

Notation safe := (safe LoadLocation).

Lemma cancel_patch_plain cancelTask velero : plain (cancel_patch cancelTask velero).
Proof.
  unfold cancel_patch. destruct (get velero "deleted"); try (apply plain_insert; [discriminate|]);
    unfold plain; plain_payload.
Qed.

Lemma safe_answer clusterID env kind payload : safe (answer clusterID env kind payload).
Proof. unfold answer, write_message. handler_walk. Qed.

Lemma safe_ack clusterID env taskID commandID : safe (writeEventAck clusterID env taskID commandID).
Proof. apply safe_answer. Qed.

Lemma safe_event_error clusterID env t c code text r :
  safe (writeEventError clusterID env t c code text r).
Proof. apply safe_answer. Qed.

Lemma safe_when b m : safe m -> safe (when b m).
Proof. intros H. destruct b; [done|apply stays_ret]. Qed.

Lemma safe_tell_error clusterID env b t c code err r :
  safe (tell_error clusterID env b t c code err r).
Proof.
  unfold tell_error. apply safe_when. pose proof safe_event_error as H. handler_walk.
Qed.

Lemma safe_ack_completed clusterID env p : safe (ack_completed clusterID env p).
Proof. apply safe_when, safe_ack. Qed.
Lemma safe_ack_failed clusterID env p : safe (ack_failed clusterID env p).
Proof. apply safe_when, safe_ack. Qed.
Lemma safe_refuse_completed clusterID env p code err r :
  safe (refuse_completed clusterID env p code err r).
Proof. apply safe_tell_error. Qed.
Lemma safe_refuse_failed clusterID env p code text : safe (refuse_failed clusterID env p code text).
Proof. apply safe_when, safe_event_error. Qed.

Lemma safe_findTaskByID clusterID taskID : safe (findTaskByID clusterID taskID).
Proof. unfold findTaskByID. handler_walk. Qed.

End messages.

Ltac report_plain :=
  apply safe_update_task_status;
  unfold plain_report, running_report, done_report, patch_report, accepted_report, capacity_report;
  cbn [tsi_Payload];
  first [apply plain_completed_patch | apply plain_progress_patch | apply plain_failure_patch
        | apply cancel_patch_plain | plain_payload].

#[export] Hint Extern 2 (stays_in _ (update_task_status (running_report _ _ _ _))) => report_plain : ctl.
#[export] Hint Extern 2 (stays_in _ (update_task_status (done_report _ _ _ _ _ _ _))) =>
  report_plain : ctl.
#[export] Hint Extern 2 (stays_in _ (update_task_status (patch_report _ _ _ _ _ _))) =>
  report_plain : ctl.
#[export] Hint Extern 2 (stays_in _ (update_task_status (accepted_report _))) => report_plain : ctl.
#[export] Hint Extern 2 (stays_in _ (writeEventAck _ _ _ _)) => apply safe_ack : ctl.
#[export] Hint Extern 2 (stays_in _ (writeEventError _ _ _ _ _ _ _)) => apply safe_event_error : ctl.
#[export] Hint Extern 2 (stays_in _ (tell_error _ _ _ _ _ _ _ _)) => apply safe_tell_error : ctl.
#[export] Hint Extern 2 (stays_in _ (findTaskByID _ _)) => apply safe_findTaskByID : ctl.
#[export] Hint Extern 2 (stays_in _ (ack_completed _ _ _)) => apply safe_ack_completed : ctl.
#[export] Hint Extern 2 (stays_in _ (ack_failed _ _ _)) => apply safe_ack_failed : ctl.
#[export] Hint Extern 2 (stays_in _ (refuse_completed _ _ _ _ _ _)) =>
  apply safe_refuse_completed : ctl.
#[export] Hint Extern 2 (stays_in _ (refuse_failed _ _ _ _ _)) => apply safe_refuse_failed : ctl.

(** Walk through a handler with conditional steps. *)
Ltac message_walk :=
  handler_walk; repeat (match goal with |- stays_in _ (when _ _) => apply safe_when end; handler_walk).

Section safety.
Context (LoadLocation : string -> option location).
Context (diagnosticWriter : option (DiagnosticLogInput -> option error)).
Notation safe := (safe LoadLocation).

Lemma safe_taskAccepted clusterID p : safe (taskAcceptedMessage diagnosticWriter clusterID p).
Proof. unfold taskAcceptedMessage. handler_walk. Qed.

Lemma safe_taskProgress clusterID p : safe (taskProgressMessage diagnosticWriter clusterID p).
Proof. unfold taskProgressMessage, progress_event. handler_walk. Qed.

Lemma safe_recordObservation task details phase : safe (recordBackupObservation task details phase).
Proof. unfold recordBackupObservation. handler_walk. Qed.

Lemma safe_veleroEvent clusterID env event : safe (veleroEventMessage clusterID env event).
Proof.
  unfold veleroEventMessage, handleVeleroBackupEvent, findOrCreateVeleroBackupTask, get_task.
  pose proof safe_recordObservation as H. message_walk.
Qed.

Lemma safe_observeInventory clusterID backups : safe (observeInventoryBackups clusterID backups).
Proof.
  unfold observeInventoryBackups, observe_backup. pose proof safe_recordObservation as H.
  handler_walk.
Qed.

Lemma safe_createRestorePoint task velero : safe (createRestorePointFromBackup LoadLocation task velero).
Proof.
  unfold createRestorePointFromBackup, updateProtectionPlanStorageSizeFromVelero, update_plan_size.
  assert (H : forall r t, safe (publish LoadLocation (backup_result task velero r t)))
    by (intros; apply safe_publish; by right).
  assert (H1 : forall id size, safe (store (fun _ now => UpdateProtectionPlanStorageSize now id size)))
    by (intros; apply stays_store; intros; apply call_plan_size).
  handler_walk.
Qed.

Lemma safe_acceptBackupCompletion task p :
  safe (acceptBackupCompletion LoadLocation diagnosticWriter task p).
Proof.
  unfold acceptBackupCompletion, await_measurements, publish_completion.
  pose proof safe_createRestorePoint as H.
  pose proof (safe_deferRestorePointReplacement LoadLocation diagnosticWriter) as H1.
  pose proof (safe_reconcileRetention LoadLocation diagnosticWriter) as H2.
  pose proof (safe_collectAfterBackup LoadLocation) as H3. handler_walk.
Qed.

Lemma safe_finishBackupCancelTask clusterID task p :
  safe (finishBackupCancelTask diagnosticWriter clusterID task p).
Proof. unfold finishBackupCancelTask, cancel_target. handler_walk. Qed.

Lemma safe_markBackupCancelFailed task message :
  safe (markBackupCancelFailed diagnosticWriter task message).
Proof. unfold markBackupCancelFailed. handler_walk. Qed.

Lemma safe_after_success task velero : safe (after_success task velero).
Proof.
  unfold after_success. pose proof (safe_markReady LoadLocation) as H.
  pose proof (safe_reconfigure LoadLocation) as H1. pose proof (safe_continue LoadLocation) as H2.
  pose proof (safe_target_warning LoadLocation) as H3.
  pose proof (safe_finishRetentionCleanupTask LoadLocation) as H4.
  pose proof (safe_finishProtectionCleanupTask LoadLocation) as H5.
  pose proof (safe_set_plan_status LoadLocation) as H6. message_walk.
Qed.

Lemma safe_taskCompleted clusterID env p :
  safe (taskCompletedMessage LoadLocation diagnosticWriter clusterID env p).
Proof.
  unfold taskCompletedMessage, completed_capacity, completed_cancel, completed_upgrade,
    completed_backup, completed_task.
  pose proof (safe_persistCapacityReport LoadLocation) as H.
  pose proof safe_finishBackupCancelTask as H1. pose proof safe_acceptBackupCompletion as H2.
  pose proof safe_after_success as H3. message_walk.
Qed.

Lemma safe_after_failure task p : safe (after_failure LoadLocation diagnosticWriter task p).
Proof.
  unfold after_failure. pose proof (safe_markRetentionCleanupFailed LoadLocation diagnosticWriter) as H.
  pose proof (safe_markProtectionCleanupFailed LoadLocation) as H1.
  pose proof safe_markBackupCancelFailed as H2. pose proof (safe_markFailed LoadLocation) as H3.
  pose proof (safe_retry LoadLocation diagnosticWriter) as H4.
  pose proof (safe_target_failed LoadLocation diagnosticWriter) as H5.
  pose proof (safe_set_plan_status LoadLocation) as H6. message_walk.
Qed.

Lemma safe_taskFailed clusterID env p :
  safe (taskFailedMessage LoadLocation diagnosticWriter clusterID env p).
Proof.
  unfold taskFailedMessage, fail_task. pose proof safe_after_failure as H. message_walk.
Qed.

End safety.
