(* ===== verification/Platform.v ===== *)
(** The control plane as a whole: its routines, each run while other requests,
    agents and processes call the store in between, refine the system of store
    calls, so that what holds of every sequence of calls holds of them. *)

From S2P Require Import Prelude Calendar Timestamp Value Types Retention Session Database Control.
From S2P Require Import Events Fleet Storage Commands Quota Tasks RestorePoints Plans Policies.
From S2P Require Import Bindings Dispatch Lifecycle System Handlers StorageSync PlanPolicy Activation.
From S2P Require Import BackupTasks RetentionCleanup ProtectionCleanup Capacity Scheduler Reports.
From S2P Require Import AgentMessages.

Section platform.
Context (LoadLocation : string -> option location).
Context (diagnosticWriter : option (DiagnosticLogInput -> option error)).
Context (order : gmap string (list ProtectionPlan) -> list (string * list ProtectionPlan)).

Local Notation LL := LoadLocation.
Local Notation DW := diagnosticWriter.

(** Requests, workers, the messages of agents and the scheduler. *)
Inductive routine : ctl unit -> Prop :=
| request_backup visible body : routine (ignore (createBackupTask LL DW visible body))
| request_restore_point_deletion clusterID points :
    routine (ignore (createRestorePointDeleteTask LL DW clusterID points))
| request_plan_cleanup plan : routine (ignore (createProtectionCleanupTask LL DW plan))
| request_capacity clusterID plans now daily :
    routine (ignore (createCapacityTask LL clusterID plans now daily))
| worker_backup task storage repository source :
    routine (dispatchBackupTaskAfterStorageSync LL DW task storage repository source)
| worker_recovery task storage repository source :
    routine (dispatchRecoveryTaskAfterStorageSync LL DW task storage repository source)
| worker_upgrade conn task message : routine (dispatchComponentUpgrade DW conn task message)
| worker_plan_cleanup planID runID : routine (finish_after_race planID runID)
| agent_connects clusterID : routine (ignore (redispatchPendingTasks DW clusterID))
| agent_activations clusterID : routine (reconcileProtectionPlanActivationStates LL DW clusterID)
| agent_accepted clusterID p : routine (ignore (taskAcceptedMessage DW clusterID p))
| agent_progress clusterID p : routine (ignore (taskProgressMessage DW clusterID p))
| agent_completed clusterID env p : routine (ignore (taskCompletedMessage LL DW clusterID env p))
| agent_failed clusterID env p : routine (ignore (taskFailedMessage LL DW clusterID env p))
| agent_velero_event clusterID env event :
    routine (ignore (veleroEventMessage clusterID env event))
| agent_inventory clusterID backups : routine (observeInventoryBackups clusterID backups)
| scheduler_tick now : routine (runSchedulerTick LL DW order now).

Lemma routine_safe m : routine m -> safe_from LL m.
Proof.
  intros []; [..|apply safe_runSchedulerTick]; apply stays_from_any;
    try match goal with |- stays_in _ (ignore _) => apply stays_ignore end.
  - apply safe_createBackupTask.
  - apply safe_createRestorePointDeleteTask.
  - apply safe_createProtectionCleanupTask.
  - apply safe_createCapacityTaskTriggered.
  - apply safe_dispatchBackup.
  - apply safe_dispatchRecovery.
  - apply safe_dispatchComponentUpgrade.
  - apply safe_finish_after_race.
  - apply safe_redispatchPendingTasks.
  - apply safe_reconcileActivations.
  - apply safe_taskAccepted.
  - apply safe_taskProgress.
  - apply safe_taskCompleted.
  - apply safe_taskFailed.
  - apply safe_veleroEvent.
  - apply safe_observeInventory.
Qed.

(** One routine after the other, each in an environment of its own. *)
Inductive history : db -> db -> Prop :=
| history_start d : history d d
| history_routine d w m e :
    routine m -> relies (call LL) e -> history d (database w) ->
    history d (database (fst (m e w))).

Lemma history_calls d d' : sound d -> history d d' -> rtc (call LL) d d'.
Proof.
  intros Hd H. induction H as [d|d w m e Hm He _ IH]; [done|]. etrans; [by apply IH|].
  apply routine_safe; [done|done|]. by eapply sound_kept, Hd; apply IH.
Qed.

Lemma empty_sound d : empty_store d -> sound d.
Proof.
  intros H%empty_invariant. exists (held d). split; [apply held_nonneg|done].
Qed.


End platform.
