(* ===== verification/Membership.v ===== *)
(** Which applications a plan protects: no two plans of a tenant protect the same
    application of a cluster. *)

From S2P Require Import Prelude Calendar Value Types Retention Session Database.
From S2P Require Import Quota Tasks RestorePoints Plans Policies Lifecycle LifeCycleRefinement.
From S2P Require Import PlanLifecycle System.

(** ** The property and what keeps it *)

Definition protects (d : db) (plan app : string) : Prop := is_Some (plan_apps d !! (plan, app)).

Definition identity_of (d : db) (plan : string) : option (string * string) :=
  identity <$> protection_plans d !! plan.

Definition protected_once (d : db) : Prop :=
  forall p1 p2 app who, p1 <> "" -> p2 <> "" ->
    protects d p1 app -> protects d p2 app ->
    identity_of d p1 = Some who -> identity_of d p2 = Some who -> p1 = p2.

(** Plans and their applications only go. *)
Record membership_shrinks (d d' : db) : Prop := {
  ms_apps : forall plan app, protects d' plan app -> protects d plan app;
  ms_plans : forall plan who, identity_of d' plan = Some who -> identity_of d plan = Some who
}.

#[export] Instance membership_shrinks_preorder : PreOrder membership_shrinks.
Proof. split; [by intros d|]. intros x y z [] []. split; auto. Qed.

Lemma shrinks_once d d' : membership_shrinks d d' -> protected_once d -> protected_once d'.
Proof. intros [Ha Hp] H p1 p2 app who ? ? ? ? ? ?. apply (H p1 p2 app who); auto. Qed.

Lemma same_shrinks d d' : same_membership d d' -> membership_shrinks d d'.
Proof.
  intros [Ha Hp]. split.
  - intros plan app. unfold protects. by rewrite Ha.
  - intros plan who. unfold identity_of. by rewrite <- !lookup_fmap, Hp.
Qed.

(** ** Deleting a plan *)

Lemma filter_shrinks d d' id :
  plan_apps d' = filter (fun '(k, _) => k.1 <> id) (plan_apps d) ->
  (forall q, q <> id -> identity_of d' q = identity_of d q) -> identity_of d' id = None ->
  membership_shrinks d d'.
Proof.
  intros Ha Hp Hnone. split.
  - intros plan app [t Ht]. rewrite Ha in Ht. apply map_lookup_filter_Some in Ht as [Ht _].
    by exists t.
  - intros q who Hq. destruct (decide (q = id)) as [->|Hne]; [congruence|]. by rewrite <- Hp.
Qed.

Lemma DeleteProtectionPlan_shrinks id fuse d :
  membership_shrinks d (fst (run (DeleteProtectionPlan id) fuse d)).
Proof.
  destruct (DeleteProtectionPlan_publishes id d fuse) as [->|Ha]; [reflexivity|].
  apply (filter_shrinks _ _ id).
  - apply (pa_apps _ _ _ Ha).
  - intros q Hne. unfold identity_of. by rewrite (pa_plans _ _ _ Ha), lookup_delete_ne.
  - unfold identity_of. by rewrite (pa_plans _ _ _ Ha), lookup_delete_eq.
Qed.

Lemma cleaned_identity id d q : q <> id -> identity_of (cleaned id d) q = identity_of d q.
Proof.
  intros Hne. unfold identity_of.
  change (protection_plans (cleaned id d)) with (delete id (protection_plans (tasks_gone id d))).
  rewrite lookup_delete_ne by done. unfold tasks_gone. rewrite plans_after_tasks_deleted. cbn.
  rewrite map_lookup_imap. destruct (protection_plans d !! q) as [pp|]; [|done]. cbn.
  by destruct (q =s id).
Qed.

Lemma CleanupProtectionPlanRecords_shrinks id fuse d :
  membership_shrinks d (fst (run (CleanupProtectionPlanRecords id) fuse d)).
Proof.
  destruct (CleanupProtectionPlanRecords_publishes id fuse d) as [->|[apps ->]]; [reflexivity|].
  apply (filter_shrinks _ _ id).
  - change (plan_apps (set_applications (cleaned id d) apps)) with
      (filter (fun '(k, _) => k.1 <> id) (filter (fun '(k, _) => k.1 <> id) (plan_apps d))).
    apply map_filter_filter_l. by intros [? ?] ? ?.
  - intros q Hne. apply (cleaned_identity id d q Hne).
  - unfold identity_of. change (protection_plans (set_applications (cleaned id d) apps)) with
      (delete id (protection_plans (tasks_gone id d))). by rewrite lookup_delete_eq.
Qed.

(** ** Editing a plan *)

Lemma UpdateProtectionPlan_same newID now id input fuse d :
  id <> "" -> same_membership d (fst (run (UpdateProtectionPlan newID now id input) fuse d)).
Proof.
  intros Hid%nonempty_true. apply run_stable; [apply _|].
  unfold UpdateProtectionPlan, saveProtectionPlan. rewrite Hid.
  unfold checkExistingPlan, checkApplications. tx_walk.
  all: apply stable_exec; [apply _|]; intros d0 d1 n H.
  - unfold update_plan_spec in H.
    destruct (protection_plans d0 !! id) as [p|] eqn:E; [|by injection H as <- _].
    destruct (scope_ok _); [|done]. injection H as <- _. split; [done|].
    by eapply insert_plan_identity.
  - by injection H as <- _.
Qed.

Lemma plan_edit_same (d d' : db) : refines d d' -> same_membership d d'.
Proof. by intros [_ ?]. Qed.

(** ** Creating a plan *)

Lemma dedup_from_in seen l x :
  x ∈ dedup_from seen l -> x <> "" /\ x ∈ l.
Proof.
  revert seen. induction l as [|y l IH]; intros seen; cbn; [by intros ?%not_elem_of_nil|].
  destruct (negb (nonempty y)) eqn:Hy; cbn.
  - intros H. destruct (IH _ H). split; [done|by right].
  - apply negb_false_iff, nonempty_true in Hy. destruct (bool_decide _).
    + intros H. destruct (IH _ H). split; [done|by right].
    + intros [->|H]%elem_of_cons; [split; [done|by left]|].
      destruct (IH _ H). split; [done|by right].
Qed.

Lemma merged_apps_nonempty input app : app ∈ merged_apps input -> app <> "".
Proof.
  unfold merged_apps, dedupNonEmpty. destruct (nonempty _); by intros [? _]%dedup_from_in.
Qed.

Lemma planIDsSlice_in app l : app ∈ l -> app <> "" -> app ∈ planIDsSlice l.
Proof.
  intros Hin Hne. unfold planIDsSlice. apply list_elem_of_In, filter_In.
  split; [by apply list_elem_of_In|by apply nonempty_true].
Qed.

Lemma app_conflict_None id tenant cluster apps d p app :
  app_conflict id tenant cluster apps d = None -> app ∈ apps -> p <> id ->
  protects d p app -> identity_of d p <> Some (tenant, cluster).
Proof.
  intros Hno Happ Hne [t Ht] Hid. unfold app_conflict in Hno.
  destruct (List.filter _ _) as [|x l] eqn:E; [|done].
  assert (Hin : ((p, app), t) ∈ (List.filter
    (fun '((plan, app), _) => one_of app apps && (plan <>s id) &&
       match protection_plans d !! plan with
       | Some p => (p_tenant_id p =s tenant) && (p_source_cluster_id p =s cluster)
       | None => false
       end) (map_to_list (plan_apps d)))); [|rewrite E in Hin; by apply not_elem_of_nil in Hin].
  apply list_elem_of_In, filter_In. split; [by apply list_elem_of_In, elem_of_map_to_list|].
  unfold identity_of in Hid. destruct (protection_plans d !! p) as [pp|]; [|done].
  injection Hid as -> ->. rewrite !seqb_refl, (proj2 (one_of_true _ _) Happ).
  by rewrite (proj2 (seqb_false _ _) Hne).
Qed.

Lemma valid_apps_inr input l (s s' : session db) u :
  for_each l (fun appID => valid ← select (plan_app_valid input appID);
    if valid : bool then mret tt else fail ErrTenantResourceMismatch) s = (s', inr u) ->
  working s' = working s.
Proof.
  revert s. induction l as [|x l IH]; intros s H; cbn in H; [by apply ret_inr in H as [-> _]|].
  apply bind_inr in H as (u1 & s1 & H1 & H). apply IH in H as ->.
  apply bind_inr in H1 as (v & s2 & H2 & H1). apply select_inr in H2 as (_ & <- & _).
  destruct v; [by apply ret_inr in H1 as [-> _]|done].
Qed.

Lemma checkApplications_inr id input s s' u :
  checkApplications id input s = (s', inr u) ->
  working s' = working s /\
  forall p app, app ∈ merged_apps input -> p <> id -> protects (working s) p app ->
    identity_of (working s) p <> Some (plan_tenant input, plani_SourceClusterID input).
Proof.
  unfold checkApplications. intros (u1 & s1 & H1 & H)%bind_inr. apply valid_apps_inr in H1.
  destruct (merged_apps input) as [|x l] eqn:E.
  { apply ret_inr in H as [-> _]. split; [done|]. by intros p app ?%not_elem_of_nil. }
  apply bind_inr in H as (found & s2 & H2 & H). apply attempt_inr in H2.
  destruct found as [[]|[plan app]]; try discriminate H. apply ret_inr in H as [-> _].
  unfold query in H2. destruct (burn s1) as [s3|] eqn:Hb; [|done].
  apply burn_Some in Hb as [_ Hw]. rewrite Hw in H2.
  destruct (app_conflict _ _ _ _ (working s1)) as [pa|] eqn:Hno; [done|].
  injection H2 as <-. rewrite Hw, H1. split; [done|]. intros p app Happ Hne.
  rewrite H1 in Hno. eapply app_conflict_None; [exact Hno| |done].
  apply planIDsSlice_in; [done|]. apply (merged_apps_nonempty input). by rewrite E.
Qed.

(** The applications of the new plan are added, and no others. *)
Lemma insert_apps_inr plan now l (s s' : session db) u :
  for_each l (fun appID => exec (insert_plan_app plan appID now);; mret tt) s = (s', inr u) ->
  protection_plans (working s') = protection_plans (working s) /\
  forall p app, protects (working s') p app ->
    protects (working s) p app \/ p = plan /\ app ∈ l.
Proof.
  revert s. induction l as [|x l IH]; intros s H; cbn in H.
  { apply ret_inr in H as [-> _]. auto. }
  apply bind_inr in H as (u1 & s1 & H1 & H). apply IH in H as [Hp Ha].
  apply bind_inr in H1 as (n & s2 & H2 & H1). apply ret_inr in H1 as [-> _].
  apply exec_inr in H2 as [_ H2]. unfold insert_plan_app in H2. destruct (_ && _); [|done].
  destruct (plan_apps (working s) !! _) as [t|] eqn:Ht; injection H2 as H2 _; rewrite <- H2 in *.
  - split; [done|]. intros p app [?|[-> ?]]%Ha; [by left|right]. split; [done|by right].
  - split; [done|]. intros p app [[t Hpa]|[-> ?]]%Ha; [|right; split; [done|by right]].
    cbn in Hpa. apply lookup_insert_Some in Hpa as [[[= <- <-] _]|[_ Hpa]];
      [right; split; [done|by left]|left; by exists t].
Qed.

(** A created plan: its row and applications are new, and no other plan of the
    tenant and cluster has one of them. *)
Definition plan_created (newID : string) (input : ProtectionPlanInput) (d d' : db) : Prop :=
  identity_of d' newID = Some (plan_tenant input, plani_SourceClusterID input) /\
  (forall q, q <> newID -> identity_of d' q = identity_of d q) /\
  (forall p app, protects d' p app ->
     protects d p app \/ p = newID /\ app ∈ merged_apps input) /\
  (forall p app, app ∈ merged_apps input -> p <> "" -> protects d p app ->
     identity_of d p <> Some (plan_tenant input, plani_SourceClusterID input)).

Lemma CreateProtectionPlan_publishes newID now input fuse d :
  let d' := fst (run (CreateProtectionPlan newID now input) fuse d) in
  d' = d \/ plan_created newID input d d'.
Proof.
  intros d'. apply (run_commits (fun d' => d' = d \/ plan_created newID input d d')); [by left|].
  unfold CreateProtectionPlan, saveProtectionPlan.
  change (nonempty "") with false. cbv match.
  apply commits_bind; [apply quiet_begin|]. intros u s1 H1. apply begin_inr in H1 as [_ Hw].
  simpl in Hw. apply commits_bind; [apply quiet_ret|]. intros created s2 H2.
  apply ret_inr in H2 as [-> ->]. apply commits_bind; [apply quiet_select|]. intros valid s3 H3.
  apply select_inr in H3 as (_ & Hw3 & _). rewrite Hw in Hw3. clear Hw.
  destruct (negb valid); [apply commits_quiet, quiet_fail|].
  apply commits_bind; [unfold checkApplications; tx_walk|]. intros u4 s4 H4.
  apply checkApplications_inr in H4 as [Hw4 Hfree]. rewrite Hw3 in Hw4, Hfree. clear Hw3.
  apply commits_bind; [apply quiet_exec|]. intros n5 s5 H5. apply exec_inr in H5 as [_ H5].
  rewrite Hw4 in H5. unfold insert_plan in H5. destruct (_ || _); [done|]. injection H5 as H5 _.
  apply commits_bind; [tx_walk|]. intros u6 s6 H6. apply insert_apps_inr in H6 as [Hp Ha].
  rewrite <- H5 in Hp, Ha. apply commits_commit; [tx_walk|]. right. unfold plan_created.
  unfold identity_of in *. rewrite Hp. cbn. split_and!.
  - by rewrite lookup_insert_eq.
  - intros q Hq. by rewrite lookup_insert_ne.
  - exact Ha.
  - exact Hfree.
Qed.

Lemma plan_created_once newID input d d' :
  (forall app, ~ protects d newID app) -> plan_created newID input d d' ->
  protected_once d -> protected_once d'.
Proof.
  intros Hfresh (Hnew & Hold & Happs & Hfree) H p1 p2 app who Hn1 Hn2 H1 H2 Hi1 Hi2.
  assert (Hcase : forall p, protects d' p app -> identity_of d' p = Some who ->
    p = newID /\ app ∈ merged_apps input \/
    p <> newID /\ protects d p app /\ identity_of d p = Some who).
  { intros p Hp Hi. destruct (decide (p = newID)) as [->|Hne].
    - left. split; [done|]. destruct (Happs _ _ Hp) as [Hpa|[_ ?]]; [by destruct (Hfresh app)|done].
    - right. rewrite <- Hold by done. split_and!; try done.
      by destruct (Happs _ _ Hp) as [?|[-> _]]. }
  assert (Hclash : forall p, p <> "" -> app ∈ merged_apps input -> identity_of d' newID = Some who ->
    protects d p app -> identity_of d p = Some who -> False).
  { intros p Hne Hin Hi Hp Hip. apply (Hfree p app Hin Hne Hp). congruence. }
  destruct (Hcase p1 H1 Hi1) as [[-> Hin]|(Hne1 & Hp1 & Hq1)],
    (Hcase p2 H2 Hi2) as [[-> Hin2]|(Hne2 & Hp2 & Hq2)].
  - done.
  - by destruct (Hclash p2).
  - by destruct (Hclash p1).
  - by apply (H p1 p2 app who).
Qed.

(** ** The system *)

Section system.
Context (LoadLocation : string -> option location).

Lemma run_same {A} (m : tx db A) fuse d :
  stable refines m -> membership_shrinks d (fst (run m fuse d)).
Proof. intros Hm. by apply same_shrinks, plan_edit_same, run_stable; [apply _|]. Qed.

Lemma call_once d d' : call LoadLocation d d' -> protected_once d -> protected_once d'.
Proof.
  intros [d1 d2 Hop|newID now input fuse d1 (_ & _ & Hfresh)|newID now id input fuse d1 Hid| | | | | |
    |id fuse d1|id fuse d1| | | |d1 d2 Ha].
  - by apply shrinks_once, same_shrinks, plan_edit_same, (operation_refines LoadLocation).
  - destruct (CreateProtectionPlan_publishes newID now input fuse d1) as [->|Hc]; [done|].
    eapply plan_created_once; [|exact Hc]. intros app [t Ht]. by rewrite Hfresh in Ht.
  - by apply shrinks_once, same_shrinks, UpdateProtectionPlan_same.
  - apply shrinks_once, run_same, refines_UpdateProtectionPlanStatus.
  - apply shrinks_once, run_same, refines_UpdateProtectionPlanStorageSize.
  - apply shrinks_once, run_same, refines_ClearProtectionPlanTargetCluster.
  - apply shrinks_once, run_same, refines_UpsertProtectionPlanSchedule.
  - apply shrinks_once, run_same, refines_MarkProtectionPlanScheduleFired.
  - apply shrinks_once, run_same, refines_DisableProtectionPlanSchedule.
  - apply shrinks_once, DeleteProtectionPlan_shrinks.
  - apply shrinks_once, CleanupProtectionPlanRecords_shrinks.
  - apply shrinks_once, run_same, refines_CreatePolicy.
  - apply shrinks_once, run_same, refines_UpdatePolicy.
  - apply shrinks_once, run_same, refines_DeletePolicy.
  - by apply shrinks_once, same_shrinks, beside_membership, aside_beside.
Qed.

(** C7.  An application belongs to at most one protection plan of its tenant and
    cluster: no history of calls, edits that bind plans to other policies
    included, ever makes two plans of one tenant and source cluster protect the
    same application, wherever its statements fail. *)
Theorem application_protected_once d0 d p1 p2 app who :
  (forall plan a, plan_apps d0 !! (plan, a) = None) ->
  rtc (fun d d' => call LoadLocation d d' \/ exists newID now id input fuse, id <> "" /\
         d' = fst (run (UpdateProtectionPlan newID now id input) fuse d)) d0 d ->
  p1 <> "" -> p2 <> "" ->
  is_Some (plan_apps d !! (p1, app)) -> is_Some (plan_apps d !! (p2, app)) ->
  identity <$> protection_plans d !! p1 = Some who ->
  identity <$> protection_plans d !! p2 = Some who -> p1 = p2.
Proof.
  intros Hempty H. revert p1 p2 app who. change (protected_once d).
  assert (H0 : protected_once d0).
  { intros p1 p2 app who _ _ [t Ht]. by rewrite Hempty in Ht. }
  clear Hempty. induction H as [|x y z [Hc|(newID & now & id & input & fuse & Hid & ->)] _ IH];
    [done|by apply IH, (call_once x)|].
  apply IH, (shrinks_once x); [|done]. by apply same_shrinks, UpdateProtectionPlan_same.
Qed.

End system.
