(* ===== verification/PlanEdits.v ===== *)
(** What saving a plan does: a created plan reads back as it was given, an edited
    one keeps its identity and loses its schedule. *)

From S2P Require Import Prelude Calendar Value Types Retention Session Database.
From S2P Require Import Quota Tasks RestorePoints Plans Policies Lifecycle LifeCycleRefinement.
From S2P Require Import PlanLifecycle System Membership.

(** ** The applications of a plan *)

Lemma elem_of_apps_of_plan id d app : app ∈ apps_of_plan id d <-> protects d id app.
Proof.
  unfold apps_of_plan. rewrite (merge_sort_Permutation plan_app_le), list_elem_of_fmap. split.
  - intros ([a t] & -> & Hin). apply list_elem_of_omap in Hin as ([[p a'] t'] & Hin & Hp).
    apply elem_of_map_to_list in Hin. cbn in Hp. destruct (p =s id) eqn:E; [|done].
    apply seqb_true in E as ->. injection Hp as -> ->. by exists t.
  - intros [t Ht]. exists (app, t). split; [done|]. apply list_elem_of_omap.
    exists ((id, app), t). split; [by apply elem_of_map_to_list|]. cbn. by rewrite seqb_refl.
Qed.

Lemma NoDup_apps_of_plan id d : NoDup (apps_of_plan id d).
Proof.
  unfold apps_of_plan. rewrite (merge_sort_Permutation plan_app_le).
  pose proof (NoDup_fst_map_to_list (plan_apps d)) as Hnd.
  induction (map_to_list (plan_apps d)) as [|[[p a] t] l IH]; [constructor|].
  cbn in *. apply NoDup_cons in Hnd as [Hnotin Hnd]. destruct (p =s id) eqn:E; [|by apply IH].
  apply seqb_true in E as ->. cbn. constructor; [|by apply IH].
  intros Hin. apply Hnotin. apply list_elem_of_fmap in Hin as ([a' t'] & -> & Hin).
  apply list_elem_of_omap in Hin as ([[p' a''] t''] & Hin & Hp). cbn in Hp.
  destruct (p' =s id) eqn:E'; [|done]. apply seqb_true in E' as ->. injection Hp as -> ->.
  apply list_elem_of_fmap. by exists ((id, a'), t').
Qed.

Lemma NoDup_dedup_from seen l :
  NoDup (dedup_from seen l) /\ forall x, x ∈ dedup_from seen l -> x ∉ seen.
Proof.
  revert seen. induction l as [|y l IH]; intros seen; cbn.
  { split; [constructor|]. by intros x ?%not_elem_of_nil. }
  destruct (negb (nonempty y)); cbn; [apply IH|].
  destruct (bool_decide (y ∈ seen)) eqn:E; [apply IH|]. apply bool_decide_eq_false in E.
  destruct (IH ({[y]} ∪ seen)) as [Hnd Hout]. split.
  - constructor; [|done]. intros Hy%Hout. set_solver.
  - intros x [->|Hx%Hout]%elem_of_cons; set_solver.
Qed.

Lemma NoDup_merged_apps input : NoDup (merged_apps input).
Proof.
  unfold merged_apps, dedupNonEmpty. destruct (nonempty _); apply NoDup_dedup_from.
Qed.

(** ** Creating a plan *)

Lemma insert_apps_adds plan now l (s s' : session db) u :
  for_each l (fun appID => exec (insert_plan_app plan appID now);; mret tt) s = (s', inr u) ->
  schedules (working s') = schedules (working s) /\
  forall p app, protects (working s) p app \/ p = plan /\ app ∈ l -> protects (working s') p app.
Proof.
  revert s. induction l as [|x l IH]; intros s H; cbn in H.
  { apply ret_inr in H as [-> _]. split; [done|]. by intros p app [?|[_ ?%not_elem_of_nil]]. }
  apply bind_inr in H as (u1 & s1 & H1 & H). apply IH in H as [Hs Ha].
  apply bind_inr in H1 as (n & s2 & H2 & H1). apply ret_inr in H1 as [-> _].
  apply exec_inr in H2 as [_ H2]. unfold insert_plan_app in H2. destruct (_ && _); [|done].
  assert (Hadd : schedules (working s2) = schedules (working s) /\ forall p app,
    protects (working s) p app \/ p = plan /\ app = x -> protects (working s2) p app).
  { destruct (plan_apps (working s) !! _) as [t|] eqn:Ht; injection H2 as H2 _; rewrite <- H2.
    - split; [done|]. intros p app [?|[-> ->]]; [done|by exists t].
    - split; [done|]. unfold protects. cbn. intros p app Hp.
      destruct (decide ((p, app) = (plan, x))) as [->|Hne]; [by rewrite lookup_insert_eq|].
      rewrite lookup_insert_ne by done. destruct Hp as [?|[-> ->]]; done. }
  destruct Hadd as [Hs2 Ha2]. split; [congruence|].
  intros p app [Hp|[-> [->|Hin]%elem_of_cons]]; apply Ha; auto.
Qed.

(** The row a plan is stored as. *)
Definition plan_stored (now : time) (plan : ProtectionPlan) (spec : plan_spec) : plan_row :=
  {| p_tenant_id := plan_TenantID plan; p_source_cluster_id := plan_SourceClusterID plan;
     p_app_id := plan_AppID plan; p_spec := spec; p_policy_id := nullif (plan_PolicyID plan);
     p_status := plan_Status plan; p_storage_size := ∅; p_latest_sync_task_id := None;
     p_latest_recovery_task_id := None; p_created_at := pg_time now;
     p_updated_at := pg_time now |}.

Lemma CreateProtectionPlan_inr newID now input fuse d d' plan :
  run (CreateProtectionPlan newID now input) fuse d = (d', inr plan) ->
  plan = new_plan newID now now input /\
  protection_plans d' !! newID = Some (plan_stored now plan (input_spec input)) /\
  schedules d' = schedules d /\
  merged_apps input <> [] /\
  (forall app, app ∈ merged_apps input -> protects d' newID app) /\
  (forall app, protects d' newID app -> protects d newID app \/ app ∈ merged_apps input).
Proof.
  intros (s & H & <-)%run_inr. unfold CreateProtectionPlan, saveProtectionPlan in H.
  change (nonempty "") with false in H. cbv match in H.
  apply bind_inr in H as (u1 & s1 & H1 & H). apply begin_inr in H1 as [_ Hw]. simpl in Hw.
  apply bind_inr in H as (created & s2 & H2 & H). apply ret_inr in H2 as [-> ->].
  apply bind_inr in H as (valid & s3 & H3 & H). apply select_inr in H3 as (_ & Hw3 & _).
  destruct (negb valid); [done|]. rewrite Hw in Hw3. clear Hw.
  apply bind_inr in H as (u4 & s4 & H4 & H). apply checkApplications_inr in H4 as [Hw4 _].
  apply bind_inr in H as (n5 & s5 & H5 & H). apply exec_inr in H5 as [_ H5].
  rewrite Hw4, Hw3 in H5. unfold insert_plan in H5. destruct (_ || _) eqn:Hok; [done|].
  injection H5 as H5 _. apply bind_inr in H as (u6 & s6 & H6 & H). pose proof H6 as H6'.
  apply insert_apps_inr in H6 as [Hp Ha]. apply insert_apps_adds in H6' as [Hs Hadd].
  apply bind_inr in H as (u7 & s7 & H7 & H). apply ret_inr in H as [-> ->].
  apply commit_inr in H7 as [-> _]. rewrite <- H5 in Hp, Ha, Hs, Hadd. split_and!.
  - done.
  - rewrite Hp. cbn. by rewrite lookup_insert_eq.
  - by rewrite Hs.
  - intros Hnil. rewrite !orb_false_iff in Hok. destruct Hok as [[[_ Hok] _] _]. cbn in Hok.
    by rewrite Hnil in Hok.
  - intros app Hin. apply Hadd. by right.
  - intros app Hin. destruct (Ha newID app Hin) as [?|[_ ?]]; [by left|by right].
Qed.

(** A plan as it is read back: instants in microseconds, hooks as their JSON. *)
Definition read_back (now : time) (plan : ProtectionPlan) (apps : list string) : ProtectionPlan :=
  {| plan_ID := plan_ID plan; plan_TenantID := plan_TenantID plan;
     plan_SourceClusterID := plan_SourceClusterID plan; plan_AppID := plan_AppID plan;
     plan_AppIDs := apps; plan_ScopeType := plan_ScopeType plan;
     plan_IncludedResources := plan_IncludedResources plan;
     plan_ResourceSelection := plan_ResourceSelection plan;
     plan_LabelSelector := plan_LabelSelector plan;
     plan_IncludeClusterScoped := plan_IncludeClusterScoped plan;
     plan_StorageRepoID := plan_StorageRepoID plan; plan_PolicyID := plan_PolicyID plan;
     plan_TargetClusterID := plan_TargetClusterID plan;
     plan_ExcludedResources := plan_ExcludedResources plan;
     plan_PreHooks := jsonify_doc <$> plan_PreHooks plan;
     plan_PostHooks := jsonify_doc <$> plan_PostHooks plan;
     plan_PlanStorageSize := plan_PlanStorageSize plan; plan_NextFireAt := plan_NextFireAt plan;
     plan_ScheduleEnabled := plan_ScheduleEnabled plan;
     plan_LatestSyncTaskID := plan_LatestSyncTaskID plan;
     plan_LatestRecoveryTaskID := plan_LatestRecoveryTaskID plan;
     plan_Status := plan_Status plan; plan_CreatedAt := pg_time now;
     plan_UpdatedAt := pg_time now |}.

Lemma GetProtectionPlan_run id p d :
  protection_plans d !! id = Some p ->
  run (GetProtectionPlan id) None d =
    (d, inr (Some (plan_of_row d id p (p_app_id p :: apps_of_plan id d)))).
Proof.
  intros Hp. unfold run, GetProtectionPlan.
  erewrite bind_run by (apply attempt_run, query_run; rewrite Hp; reflexivity).
  reflexivity.
Qed.

Lemma normalize_selection_idem s : normalize_selection (normalize_selection s) = normalize_selection s.
Proof. unfold normalize_selection. cbn. destruct (nonempty (rs_Mode s)) eqn:E; cbn; by rewrite ?E. Qed.

(** A created plan reads back as it was returned, and protects exactly the
    applications of its input; but GetProtectionPlan lists the primary
    application twice, before and among the stored ones. *)
Theorem created_plan_reads_back newID now input fuse d d' plan :
  run (CreateProtectionPlan newID now input) fuse d = (d', inr plan) ->
  (forall app, plan_apps d !! (newID, app) = None) -> schedules d !! newID = None ->
  exists apps, apps ≡ₚ plan_AppIDs plan /\ plan_AppID plan ∈ apps /\
    run (GetProtectionPlan newID) None d' =
      (d', inr (Some (read_back now plan (plan_AppID plan :: apps)))).
Proof.
  intros H Hfresh Hsched.
  destruct (CreateProtectionPlan_inr _ _ _ _ _ _ _ H) as (-> & Hp & Hs & Happs & Hadd & Honly).
  exists (apps_of_plan newID d').
  assert (Hperm : apps_of_plan newID d' ≡ₚ merged_apps input).
  { apply NoDup_Permutation; [apply NoDup_apps_of_plan|apply NoDup_merged_apps|].
    intros app. rewrite elem_of_apps_of_plan. split; [|by apply Hadd].
    intros Hin. destruct (Honly app Hin) as [[t Ht]|?]; [by rewrite Hfresh in Ht|done]. }
  split; [exact Hperm|]. split.
  - rewrite Hperm. cbn. destruct (merged_apps input) as [|app l]; [done|by left].
  - rewrite (GetProtectionPlan_run newID _ d' Hp). unfold plan_of_row, read_back. rewrite Hs, Hsched.
    cbn. rewrite !text_nullif, normalize_selection_idem. reflexivity.
Qed.

(** ** Editing a plan *)

Lemma same_apps_true id l d :
  NoDup l -> same_apps id l d = true -> forall app, protects d id app <-> app ∈ l.
Proof.
  unfold same_apps. intros Hnd H. rewrite !andb_true_iff in H. destruct H as [[Hlen _] Hall].
  apply Nat.eqb_eq in Hlen. assert (Hsub : apps_of_plan id d ⊆ l).
  { intros app Hin. apply one_of_true. rewrite forallb_forall in Hall. apply Hall.
    by apply list_elem_of_In. }
  intros app. rewrite <- elem_of_apps_of_plan. split; [apply Hsub|].
  assert (Hperm : apps_of_plan id d ≡ₚ l).
  { apply submseteq_length_Permutation; [|lia].
    apply NoDup_submseteq; [apply NoDup_apps_of_plan|done]. }
  by rewrite Hperm.
Qed.

Lemma planIDsSlice_id l : (forall x, x ∈ l -> x <> "") -> planIDsSlice l = l.
Proof.
  unfold planIDsSlice. induction l as [|x l IH]; intros H; [done|]. cbn.
  rewrite (proj2 (nonempty_true x)) by (apply H; by left). f_equal. apply IH.
  intros y Hy. apply H. by right.
Qed.

(** What an accepted edit has checked. *)
Record editable (id : string) (input : ProtectionPlanInput) (d : db) (p : plan_row) : Prop := {
  ed_plan : protection_plans d !! id = Some p;
  ed_tenant : p_tenant_id p = plan_tenant input;
  ed_cluster : p_source_cluster_id p = plani_SourceClusterID input;
  ed_apps : forall app, protects d id app <-> app ∈ merged_apps input;
  ed_idle : plan_has_work id d = false;
  ed_status : plan_locked_status (p_status p) = false
}.

Lemma checkExistingPlan_inr id input s s' created :
  checkExistingPlan id input s = (s', inr created) ->
  working s' = working s /\ exists p, editable id input (working s) p /\ created = p_created_at p.
Proof.
  unfold checkExistingPlan. intros (p & s1 & H1 & H)%bind_inr.
  apply query_inr in H1 as (_ & Hw & Hp).
  destruct (p_tenant_id p <>s plan_tenant input) eqn:Ht; [done|].
  destruct (p_source_cluster_id p <>s plani_SourceClusterID input) eqn:Hc; [done|].
  apply negb_false_iff, seqb_true in Ht. apply negb_false_iff, seqb_true in Hc.
  apply bind_inr in H as (same & s2 & H2 & H). apply select_inr in H2 as (_ & Hw2 & ->).
  destruct (same_apps _ _ _) eqn:Hs; [|done]. cbn in H.
  apply bind_inr in H as (busy & s3 & H3 & H). apply select_inr in H3 as (_ & Hw3 & ->).
  destruct (_ || _) eqn:Hb; [done|]. apply ret_inr in H as [-> ->].
  apply orb_false_iff in Hb as [Hb Hl]. split; [congruence|]. exists p. split; [|done].
  rewrite planIDsSlice_id in Hs by apply merged_apps_nonempty.
  rewrite Hw2, Hw in Hb. rewrite Hw in Hs. split; try done. apply same_apps_true; [|done].
  apply NoDup_merged_apps.
Qed.

Definition edited_row (now : time) (plan : ProtectionPlan) (spec : plan_spec) (p : plan_row)
    : plan_row :=
  {| p_tenant_id := p_tenant_id p; p_source_cluster_id := p_source_cluster_id p;
     p_app_id := p_app_id p; p_spec := spec; p_policy_id := nullif (plan_PolicyID plan);
     p_status := plan_Status plan; p_storage_size := p_storage_size p;
     p_latest_sync_task_id := p_latest_sync_task_id p;
     p_latest_recovery_task_id := p_latest_recovery_task_id p;
     p_created_at := p_created_at p; p_updated_at := pg_time now |}.

Definition paused (now : time) (s : schedule_row) : schedule_row :=
  {| s_last_fired_at := s_last_fired_at s; s_next_fire_at := None; s_enabled := false;
     s_created_at := s_created_at s; s_updated_at := pg_time now |}.

(** C16.  Editing a plan is all or nothing.  It is accepted only for an idle plan,
    with its tenant, source cluster and applications unchanged; it then rewrites
    the plan's specification, policy and status alone, and pauses its schedule,
    so that nothing fires before the plan is activated again. *)
Theorem plan_edit_keeps_identity newID now id input fuse d d' r :
  id <> "" -> run (UpdateProtectionPlan newID now id input) fuse d = (d', r) ->
  match r with
  | inl _ => d' = d
  | inr plan => exists p, editable id input d p /\
      plan = new_plan id now (p_created_at p) input /\
      protection_plans d' =
        <[id := edited_row now plan (input_spec input) p]> (protection_plans d) /\
      schedules d' !! id = paused now <$> schedules d !! id /\
      (forall q, q <> id -> schedules d' !! q = schedules d !! q) /\
      plan_apps d' = plan_apps d /\ policies d' = policies d /\ same_work d d'
  end.
Proof.
  intros Hid%nonempty_true H. destruct r as [e|plan].
  { eapply run_atomic; [|exact H]. unfold UpdateProtectionPlan, saveProtectionPlan. rewrite Hid.
    unfold checkExistingPlan, checkApplications. tx_walk. }
  apply run_inr in H as (s & H & <-). unfold UpdateProtectionPlan, saveProtectionPlan in H.
  rewrite Hid in H. apply bind_inr in H as (u1 & s1 & H1 & H).
  apply begin_inr in H1 as [_ Hw]. simpl in Hw. apply bind_inr in H as (created & s2 & H2 & H).
  apply checkExistingPlan_inr in H2 as (Hw2 & p & Hed & ->). rewrite Hw in Hw2, Hed.
  apply bind_inr in H as (valid & s3 & H3 & H). apply select_inr in H3 as (_ & Hw3 & _).
  destruct (negb valid); [done|]. apply bind_inr in H as (u4 & s4 & H4 & H).
  apply checkApplications_inr in H4 as [Hw4 _]. apply bind_inr in H as (n5 & s5 & H5 & H).
  apply exec_inr in H5 as [_ H5]. rewrite Hw4, Hw3, Hw2 in H5. unfold update_plan_spec in H5.
  rewrite (ed_plan _ _ _ _ Hed) in H5. destruct (scope_ok _); [|done]. injection H5 as H5 _.
  apply bind_inr in H as (n6 & s6 & H6 & H). apply exec_inr in H6 as [_ H6].
  injection H6 as H6 _. apply bind_inr in H as (u7 & s7 & H7 & H).
  apply ret_inr in H as [-> ->]. apply commit_inr in H7 as [-> _]. rewrite <- H6, <- H5. cbn.
  exists p. split; [done|]. split; [done|]. split; [done|]. split_and!; try done.
  - rewrite map_lookup_imap. destruct (schedules d !! id) as [sc|]; [|done]. cbn.
    by rewrite seqb_refl.
  - intros q Hq. rewrite map_lookup_imap. destruct (schedules d !! q) as [sc|]; [|done]. cbn.
    by rewrite (proj2 (seqb_false q id) Hq).
Qed.
