(* ===== verification/Outbox.v ===== *)
(** What an agent must not forget across restarts:
    agent/comm-agent/internal/wsclient/outbox.go (the event outbox and the task
    ledger) and the parts of client.go that drive them.

    Both structures live in memory and in a file under the state directory, and
    every change is followed by a flush: the whole structure is written to a
    temporary file, which then replaces the file.  So the file is at any time
    what the last successful flush wrote, and the temporary file is never read.
    Whether a flush succeeds is an argument [io] of each operation.  Stored JSON
    is given as the value it parses to.  A nil receiver, which the client keeps
    using when the state directory cannot be made, is [None]. *)

From S2P Require Import Prelude Value Wire Messages Codec.

(** ** Event outbox *)

Record outbox := { items : gmap string value; saved_items : option (gmap string value) }.

(** [None] is a nil error. *)
Inductive outbox_error := ErrWriteFile | ErrMarshalEvent | ErrUnmarshalEvent.

Definition flush (io : bool) (o : outbox) : outbox * option outbox_error :=
  if io then ({| items := items o; saved_items := Some (items o) |}, None)
  else (o, Some ErrWriteFile).

Definition set_items (o : outbox) (m : gmap string value) : outbox :=
  {| items := m; saved_items := saved_items o |}.

(** [dir]: the state directory can be made. *)
Definition newEventOutbox (dir : bool) (file : option (gmap string value)) : option outbox :=
  if dir then Some {| items := default ∅ file; saved_items := file |} else None.

(** A JSON text decoded into a struct with one string field. *)
Definition decode_one (key : string) (raw : value) : option string :=
  match raw with
  | VObj m => decode_field decode_string m key ""
  | VNull => Some ""
  | _ => None
  end.

(** [message] is given by what it marshals to. *)
Definition add (io : bool) (message : option value) (o : option outbox)
    : option outbox * option outbox_error :=
  match o with
  | None => (None, None)
  | Some o =>
      match message with
      | None => (Some o, Some ErrMarshalEvent)
      | Some raw =>
          match decode_one "messageId" raw with
          | None => (Some o, Some ErrUnmarshalEvent)
          | Some id =>
              if negb (nonempty id) then (Some o, None)
              else let '(o, err) := flush io (set_items o (<[id := raw]> (items o))) in (Some o, err)
          end
      end
  end.

Definition remove (io : bool) (messageID : string) (o : option outbox)
    : option outbox * option outbox_error :=
  match o with
  | None => (None, None)
  | Some o =>
      if negb (nonempty messageID) then (Some o, None)
      else
        let '(o, err) := flush io (set_items o (delete messageID (items o))) in (Some o, err)
  end.

Record EventAck := {
  ack_AckMessageID : string;
  ack_AckType : string;
  ack_TaskID : string;
  ack_CommandID : string;
  ack_Persisted : bool
}.

(** The payload struct with fields taskId and commandId. *)
Definition decode_ids (acc : string * string) (v : value) : option (string * string) :=
  match v with
  | VObj m =>
      task ← decode_field decode_string m "taskId" (fst acc);
      command ← decode_field decode_string m "commandId" (snd acc);
      Some (task, command)
  | _ => None
  end.

(** Type, task and command of a stored event. *)
Definition decode_event (raw : value) : option (string * (string * string)) :=
  match raw with
  | VObj m =>
      type ← decode_field decode_string m "type" "";
      ids ← decode_field decode_ids m "payload" ("", "");
      Some (type, ids)
  | VNull => Some ("", ("", ""))
  | _ => None
  end.

(** The acknowledgement contradicts the event it names. *)
Definition ack_mismatch (ack : EventAck) (terminal : bool) (type task command : string) : bool :=
  nonempty (ack_AckType ack) && (ack_AckType ack <>s type) ||
  terminal && (ack_TaskID ack <>s task) ||
  nonempty (ack_TaskID ack) && (ack_TaskID ack <>s task) ||
  nonempty (ack_CommandID ack) && (ack_CommandID ack <>s command).

(** The contract of the event, when it is one an agent sends. *)
Definition agent_contract (type : string) : option Contract :=
  c ← LookupContract type;
  if bool_decide (c_Direction c = AgentToPlatform) then Some c else None.

Definition acknowledge (io : bool) (ack : EventAck) (o : option outbox)
    : option outbox * (string * bool * option outbox_error) :=
  let nothing := ("", false, None) in
  match o with
  | None => (None, nothing)
  | Some o =>
      if negb (ack_Persisted ack) || negb (nonempty (ack_AckMessageID ack)) then (Some o, nothing)
      else
        match items o !! ack_AckMessageID ack with
        | None => (Some o, nothing)
        | Some raw =>
            match decode_event raw with
            | None => (Some o, ("", false, Some ErrUnmarshalEvent))
            | Some (type, (task, command)) =>
                match agent_contract type with
                | None => (Some o, nothing)
                | Some definition =>
                    let terminal := c_TerminalResult definition in
                    if ack_mismatch ack terminal type task command then (Some o, nothing)
                    else
                      match flush io (set_items o (delete (ack_AckMessageID ack) (items o))) with
                      | (o', None) => (Some o', (task, terminal, None))
                      | (o', Some err) =>
                          (Some (set_items o' (<[ack_AckMessageID ack := raw]> (items o'))),
                           ("", false, Some err))
                      end
                end
            end
        end
  end.

(** In the order of the map, which is no order. *)
Definition list_events (o : option outbox) : list value :=
  match o with Some o => snd <$> map_to_list (items o) | None => [] end.

Definition decode_task_id (acc : string) (v : value) : option string :=
  match v with VObj m => decode_field decode_string m "taskId" acc | _ => None end.

Definition event_task (raw : value) : option string :=
  match raw with
  | VObj m => decode_field decode_task_id m "payload" ""
  | VNull => Some ""
  | _ => None
  end.

Definition outbox_hasTask (o : option outbox) (taskID : string) : bool :=
  match o with
  | Some o =>
      nonempty taskID &&
      existsb (fun raw => match event_task raw with Some t => t =s taskID | None => false end)
        (list_events (Some o))
  | None => false
  end.

(** ** Task ledger *)

Record taskLedgerObject := {
  lo_APIVersion : string;
  lo_Kind : string;
  lo_Namespace : string;
  lo_Name : string
}.

(** An empty [json.RawMessage] is [None]. *)
Record taskLedgerRecord := {
  lr_TaskID : string;
  lr_CommandID : string;
  lr_Type : string;
  lr_PlanID : string;
  lr_Task : option value;
  lr_Object : taskLedgerObject;
  lr_TerminalAcked : bool;
  lr_CleanupPending : bool;
  lr_CreatedAt : string;
  lr_UpdatedAt : string
}.

(** What the file holds. *)
Record ledger_content := {
  TaskIDs : gset string;
  CommandIDs : gset string;
  PlanIDs : gset string;
  Records : gmap string taskLedgerRecord
}.

Record taskLedger := { content : ledger_content; saved_content : option ledger_content }.

Definition empty_content : ledger_content :=
  {| TaskIDs := ∅; CommandIDs := ∅; PlanIDs := ∅; Records := ∅ |}.

Definition newTaskLedger (dir : bool) (file : option ledger_content) : option taskLedger :=
  if dir then Some {| content := default empty_content file; saved_content := file |} else None.

Definition flush_ledger (io : bool) (l : taskLedger) : taskLedger * option outbox_error :=
  if io then ({| content := content l; saved_content := Some (content l) |}, None)
  else (l, Some ErrWriteFile).

Definition set_content (l : taskLedger) (c : ledger_content) : taskLedger :=
  {| content := c; saved_content := saved_content l |}.

Definition put_content (io : bool) (l : taskLedger) (c : ledger_content)
    : option taskLedger * option outbox_error :=
  let '(l, err) := flush_ledger io (set_content l c) in (Some l, err).

Definition with_id (id : string) (s : gset string) : gset string :=
  if nonempty id then {[ id ]} ∪ s else s.

Definition remember_ids (taskID commandID planID : string) (c : ledger_content) : ledger_content :=
  {| TaskIDs := with_id taskID (TaskIDs c); CommandIDs := with_id commandID (CommandIDs c);
     PlanIDs := with_id planID (PlanIDs c); Records := Records c |}.

Definition with_record (c : ledger_content) (id : string) (r : taskLedgerRecord)
    : ledger_content :=
  {| TaskIDs := TaskIDs c; CommandIDs := CommandIDs c; PlanIDs := PlanIDs c;
     Records := <[id := r]> (Records c) |}.

Definition remember (io : bool) (taskID commandID planID : string) (l : option taskLedger)
    : option taskLedger * option outbox_error :=
  match l with
  | None => (None, None)
  | Some l => put_content io l (remember_ids taskID commandID planID (content l))
  end.

Definition has_id (ids : ledger_content -> gset string) (l : option taskLedger) (id : string)
    : bool :=
  match l with
  | Some l => nonempty id && bool_decide (id ∈ ids (content l))
  | None => false
  end.

Definition hasTask : option taskLedger -> string -> bool := has_id TaskIDs.
Definition hasCommand : option taskLedger -> string -> bool := has_id CommandIDs.
Definition hasPlan : option taskLedger -> string -> bool := has_id PlanIDs.

(** [now] is nowRFC3339(), [task] what the task marshals to. *)
Definition recordTask (io : bool) (now taskID commandID planID : string) (task : option value)
    (object : taskLedgerObject) (l : option taskLedger)
    : option taskLedger * option outbox_error :=
  match l with
  | None => (None, None)
  | Some l =>
      if negb (nonempty taskID) then (Some l, None)
      else
        match task with
        | None => (Some l, Some ErrMarshalEvent)
        | Some raw =>
            let old := Records (content l) !! taskID in
            let created := match old with Some r => lr_CreatedAt r | None => "" end in
            let record :=
              {| lr_TaskID := taskID; lr_CommandID := commandID;
                 lr_Type := default "" (decode_one "type" raw); lr_PlanID := planID;
                 lr_Task := Some raw; lr_Object := object; lr_TerminalAcked := false;
                 lr_CleanupPending :=
                   match old with Some r => lr_CleanupPending r | None => false end;
                 lr_CreatedAt := if nonempty created then created else now;
                 lr_UpdatedAt := now |} in
            put_content io l
              (remember_ids taskID commandID planID (with_record (content l) taskID record))
        end
  end.

(** Rewrite the record of a task, if there is one. *)
Definition update_record (io : bool) (taskID : string)
    (f : taskLedgerRecord -> taskLedgerRecord) (l : option taskLedger)
    : option taskLedger * option outbox_error :=
  match l with
  | None => (None, None)
  | Some l =>
      if negb (nonempty taskID) then (Some l, None)
      else
        match Records (content l) !! taskID with
        | None => (Some l, None)
        | Some r => put_content io l (with_record (content l) taskID (f r))
        end
  end.

Definition acked_record (now : string) (r : taskLedgerRecord) : taskLedgerRecord :=
  {| lr_TaskID := lr_TaskID r; lr_CommandID := lr_CommandID r; lr_Type := lr_Type r;
     lr_PlanID := lr_PlanID r; lr_Task := lr_Task r; lr_Object := lr_Object r;
     lr_TerminalAcked := true; lr_CleanupPending := lr_CleanupPending r;
     lr_CreatedAt := lr_CreatedAt r; lr_UpdatedAt := now |}.

Definition pending_record (pending : bool) (now : string) (r : taskLedgerRecord)
    : taskLedgerRecord :=
  {| lr_TaskID := lr_TaskID r; lr_CommandID := lr_CommandID r; lr_Type := lr_Type r;
     lr_PlanID := lr_PlanID r; lr_Task := lr_Task r; lr_Object := lr_Object r;
     lr_TerminalAcked := lr_TerminalAcked r; lr_CleanupPending := pending;
     lr_CreatedAt := lr_CreatedAt r; lr_UpdatedAt := now |}.

Definition markTerminalAcked (io : bool) (now taskID : string) :=
  update_record io taskID (acked_record now).

Definition markCleanupPending (io : bool) (now taskID : string) (pending : bool) :=
  update_record io taskID (pending_record pending now).

Definition isTerminalAcked (l : option taskLedger) (taskID : string) : bool :=
  match l with
  | Some l =>
      nonempty taskID &&
      match Records (content l) !! taskID with Some r => lr_TerminalAcked r | None => false end
  | None => false
  end.

Definition all_records (l : option taskLedger) : list taskLedgerRecord :=
  match l with Some l => snd <$> map_to_list (Records (content l)) | None => [] end.

Definition cleanup_pending (r : taskLedgerRecord) : bool :=
  lr_CleanupPending r && negb (is_null (lr_Task r)) && (lo_Kind (lr_Object r) =s "Restore") &&
  nonempty (lo_Name (lr_Object r)).

Definition recoverable_record (r : taskLedgerRecord) : bool :=
  negb (lr_TerminalAcked r || lr_CleanupPending r || is_null (lr_Task r) ||
        negb (nonempty (lo_Kind (lr_Object r))) || negb (nonempty (lo_Name (lr_Object r)))).

Definition cleanupPendingRecords (l : option taskLedger) : list taskLedgerRecord :=
  List.filter cleanup_pending (all_records l).

Definition recoverableRecords (l : option taskLedger) : list taskLedgerRecord :=
  List.filter recoverable_record (all_records l).

(** ** The client *)

Record agent := { box : option outbox; ledger : option taskLedger }.

(** An acknowledgement from the platform; [io1] and [io2] are the flushes of the
    outbox and of the ledger. *)
Definition handle_event_ack (io1 io2 : bool) (now : string) (ack : EventAck) (a : agent) : agent :=
  match acknowledge io1 ack (box a) with
  | (b, (taskID, terminal, None)) =>
      {| box := b;
         ledger :=
           if terminal : bool then fst (markTerminalAcked io2 now taskID (ledger a))
           else ledger a |}
  | (b, (_, _, Some _)) => {| box := b; ledger := ledger a |}
  end.

(** The platform refused an event; it is dropped unless worth sending again. *)
Definition handle_event_error (io : bool) (ackMessageID : string) (retryable : bool) (a : agent)
    : agent :=
  if retryable then a else {| box := fst (remove io ackMessageID (box a)); ledger := ledger a |}.

(** [sendReliableEvent]: stored first, then written to the connection, which may
    be down. *)
Definition sendReliableEvent (io : bool) (message : option value) (a : agent) : agent :=
  {| box := fst (add io message (box a)); ledger := ledger a |}.

(** [resendPendingEvents] on a connection that takes [n] messages. *)
Definition resendPendingEvents (n : nat) (a : agent) : list value := take n (list_events (box a)).

(** The records whose observation [recoverLedgerTasks] takes up again. *)
Definition resumed_records (a : agent) : list taskLedgerRecord :=
  List.filter (fun r => negb (outbox_hasTask (box a) (lr_TaskID r)))
    (recoverableRecords (ledger a)).

(** The agent process starts over from what is on disk.  Where the state directory
    could not be made there is no file. *)
Definition restart (dir : bool) (a : agent) : agent :=
  {| box := newEventOutbox dir (box a ≫= saved_items);
     ledger := newTaskLedger dir (ledger a ≫= saved_content) |}.

(** Everything that happens to the two structures. *)
Inductive action :=
| Send (io : bool) (message : option value)
| Acked (io1 io2 : bool) (now : string) (ack : EventAck)
| Refused (io : bool) (ackMessageID : string) (retryable : bool)
| Recorded (io : bool) (now taskID commandID planID : string) (task : option value)
    (object : taskLedgerObject)
| Remembered (io : bool) (taskID commandID planID : string)
| Cleanup (io : bool) (now taskID : string) (pending : bool)
| Restarted (dir : bool).

Definition act (a : agent) (x : action) : agent :=
  match x with
  | Send io message => sendReliableEvent io message a
  | Acked io1 io2 now ack => handle_event_ack io1 io2 now ack a
  | Refused io id retryable => handle_event_error io id retryable a
  | Recorded io now taskID commandID planID task object =>
      {| box := box a;
         ledger := fst (recordTask io now taskID commandID planID task object (ledger a)) |}
  | Remembered io taskID commandID planID =>
      {| box := box a; ledger := fst (remember io taskID commandID planID (ledger a)) |}
  | Cleanup io now taskID pending =>
      {| box := box a; ledger := fst (markCleanupPending io now taskID pending (ledger a)) |}
  | Restarted dir => restart dir a
  end.

Definition live : agent -> list action -> agent := foldl act.

(** ** What holds in memory and in the file *)

Definition in_outbox (P : gmap string value -> Prop) (b : option outbox) : Prop :=
  exists o, b = Some o /\ P (items o) /\ exists m, saved_items o = Some m /\ P m.

Definition in_ledger (P : ledger_content -> Prop) (l : option taskLedger) : Prop :=
  exists k, l = Some k /\ P (content k) /\ exists c, saved_content k = Some c /\ P c.

Lemma flush_keeps P io o m o' err :
  in_outbox P (Some o) -> P m -> flush io (set_items o m) = (o', err) -> in_outbox P (Some o').
Proof.
  intros (o1 & [= <-] & _ & m' & Hs & Hm') Hm. unfold flush.
  destruct io; intros [= <- _]; eexists; simpl; eauto 6.
Qed.

Lemma put_content_keeps P io l c :
  in_ledger P (Some l) -> P c -> in_ledger P (fst (put_content io l c)).
Proof.
  intros (l1 & [= <-] & _ & c' & Hs & Hc') Hc. unfold put_content, flush_ledger.
  destruct io; eexists; simpl; eauto 6.
Qed.

Lemma restart_outbox P a : in_outbox P (box a) -> in_outbox P (box (restart true a)).
Proof.
  intros (o & Ho & _ & m & Hs & Hm). simpl. rewrite Ho. simpl. rewrite Hs. eexists. simpl. eauto 6.
Qed.

Lemma restart_ledger P a : in_ledger P (ledger a) -> in_ledger P (ledger (restart true a)).
Proof.
  intros (l & Hl & _ & c & Hs & Hc). simpl. rewrite Hl. simpl. rewrite Hs. eexists. simpl. eauto 6.
Qed.

(** An operation on the ledger that keeps [P] of the content keeps it of both. *)
Lemma update_record_keeps P io id f l :
  (forall c r, P c -> Records c !! id = Some r -> P (with_record c id (f r))) ->
  in_ledger P l -> in_ledger P (fst (update_record io id f l)).
Proof.
  intros Hf Hl. destruct Hl as (k & -> & Hc & Hs). unfold update_record.
  destruct (negb _); [by exists k|]. destruct (Records (content k) !! id) eqn:E; [|by exists k].
  apply put_content_keeps; [by exists k|]. by apply Hf.
Qed.

Lemma remember_keeps P io t c p l :
  (forall k, P k -> P (remember_ids t c p k)) ->
  in_ledger P l -> in_ledger P (fst (remember io t c p l)).
Proof.
  intros Hf (k & -> & Hc & Hs). apply put_content_keeps; [by exists k|]. by apply Hf.
Qed.

Lemma recordTask_keeps P io now t c p task object l :
  (forall k r, P k -> P (remember_ids t c p (with_record k t r))) ->
  in_ledger P l -> in_ledger P (fst (recordTask io now t c p task object l)).
Proof.
  intros Hf (k & -> & Hc & Hs). unfold recordTask. destruct (negb _); [by exists k|].
  destruct task; [|by exists k]. apply put_content_keeps; [by exists k|]. by apply Hf.
Qed.

(** ** The outbox *)

Definition pending (id : string) (raw : value) (m : gmap string value) : Prop :=
  m !! id = Some raw.

(** The acknowledgement is for the stored event: persisted, of a type agents
    send, naming its type, task and command wherever it names any, and for a
    terminal result its task. *)
Definition acknowledges (ack : EventAck) (id : string) (raw : value) : Prop :=
  ack_Persisted ack = true /\ ack_AckMessageID ack = id /\ id <> "" /\
  exists type task command c, decode_event raw = Some (type, (task, command)) /\
    LookupContract type = Some c /\ c_Direction c = AgentToPlatform /\
    (ack_AckType ack = "" \/ ack_AckType ack = type) /\
    (ack_TaskID ack = task \/ ack_TaskID ack = "" /\ c_TerminalResult c = false) /\
    (ack_CommandID ack = "" \/ ack_CommandID ack = command).

Lemma agent_contract_Some type c :
  agent_contract type = Some c <-> LookupContract type = Some c /\ c_Direction c = AgentToPlatform.
Proof.
  unfold agent_contract. destruct (LookupContract type) as [d|]; simpl; [|naive_solver].
  case_bool_decide; naive_solver.
Qed.

Lemma ack_mismatch_false ack c type task command :
  ack_mismatch ack (c_TerminalResult c) type task command = false <->
  (ack_AckType ack = "" \/ ack_AckType ack = type) /\
  (ack_TaskID ack = task \/ ack_TaskID ack = "" /\ c_TerminalResult c = false) /\
  (ack_CommandID ack = "" \/ ack_CommandID ack = command).
Proof.
  unfold ack_mismatch. destruct (c_TerminalResult c); go_bool;
    destruct (decide (ack_TaskID ack = task)), (decide (ack_TaskID ack = ""));
    naive_solver.
Qed.

(** What acknowledging does. *)
Lemma acknowledge_spec io ack o raw :
  items o !! ack_AckMessageID ack = Some raw ->
  (acknowledges ack (ack_AckMessageID ack) raw /\ exists type task command c,
     decode_event raw = Some (type, (task, command)) /\ LookupContract type = Some c /\
     acknowledge io ack (Some o) =
       if io then
         let m := delete (ack_AckMessageID ack) (items o) in
         (Some {| items := m; saved_items := Some m |}, (task, c_TerminalResult c, None))
       else (Some o, ("", false, Some ErrWriteFile))) \/
  (~ acknowledges ack (ack_AckMessageID ack) raw /\
   exists e, acknowledge io ack (Some o) = (Some o, ("", false, e))).
Proof.
  intros Hraw. unfold acknowledge, acknowledges.
  destruct (ack_Persisted ack) eqn:Hp; [|right; naive_solver]. simpl.
  destruct (nonempty (ack_AckMessageID ack)) eqn:Hid; go_bool; [simpl|right; naive_solver].
  rewrite Hraw. destruct (decode_event raw) as [[type [task command]]|] eqn:He;
    [|right; naive_solver].
  destruct (agent_contract type) as [c|] eqn:Hc.
  2: { right. split; [|by eexists]. intros (_ & _ & _ & ? & ? & ? & c & [= <- <- <-] & H1 & H2 & _).
       by rewrite (proj2 (agent_contract_Some type c)) in Hc. }
  apply agent_contract_Some in Hc as [Hc Hdir].
  destruct (ack_mismatch _ _ _ _ _) eqn:Hm.
  - right. split; [|by eexists].
    intros (_ & _ & _ & ? & ? & ? & c' & [= <- <- <-] & H1 & H2 & H3).
    assert (c' = c) as -> by congruence. apply ack_mismatch_false in H3. congruence.
  - left. apply ack_mismatch_false in Hm as (Ht & Hk & Hcmd). split; [naive_solver|].
    exists type, task, command, c. split; [done|]. split; [done|].
    unfold flush. destruct io; [done|]. simpl. rewrite insert_delete_eq, insert_id by done.
    by destruct o.
Qed.

Lemma acknowledge_absent io ack o :
  items o !! ack_AckMessageID ack = None -> exists r, acknowledge io ack (Some o) = (Some o, r).
Proof.
  intros H. unfold acknowledge. destruct (negb _ || _); [by eexists|]. rewrite H. by eexists.
Qed.

(** An acknowledgement removes an event from the outbox exactly when it is for
    it and the change reaches the file; it touches no other event, and when the
    file cannot be written, the event stays. *)
Theorem acknowledgement_is_exact io ack o o' r id raw :
  items o !! id = Some raw -> acknowledge io ack (Some o) = (Some o', r) ->
  (items o' !! id = None <-> acknowledges ack id raw /\ io = true) /\
  (items o' !! id = None -> saved_items o' = Some (items o')) /\
  (forall k, k <> ack_AckMessageID ack -> items o' !! k = items o !! k).
Proof.
  intros Hid H.
  assert (Hkeep : o' = o -> ~ (acknowledges ack id raw /\ io = true) ->
    (items o' !! id = None <-> acknowledges ack id raw /\ io = true) /\
    (items o' !! id = None -> saved_items o' = Some (items o')) /\
    (forall k, k <> ack_AckMessageID ack -> items o' !! k = items o !! k)).
  { intros -> Hno. split; [split; [congruence|tauto]|]. split; [congruence|done]. }
  destruct (items o !! ack_AckMessageID ack) as [raw'|] eqn:E.
  2: { destruct (acknowledge_absent io ack o E) as [r' Hr]. apply Hkeep; [congruence|].
       intros [(_ & <- & _) _]. congruence. }
  destruct (acknowledge_spec io ack o raw' E) as [(Hack & ? & ? & ? & ? & _ & _ & Hr)|[Hno [e Hr]]].
  - rewrite Hr in H. destruct io; [|injection H as <- <-; apply Hkeep; [done|naive_solver]].
    injection H as <- <-. simpl. split; [|split; [done|intros k Hk; by rewrite lookup_delete_ne]].
    rewrite lookup_delete_None. split; [|by intros [(_ & -> & _) _]; left].
    intros [<-|?]; [|congruence]. split; [|done]. by assert (raw' = raw) as <- by congruence.
  - rewrite Hr in H. injection H as <- <-. apply Hkeep; [done|].
    intros [Hack _]. pose proof Hack as (_ & Heq & _). rewrite Heq in *. congruence.
Qed.

(** What ends the life of a stored event. *)
Definition settles (id : string) (raw : value) (x : action) : Prop :=
  match x with
  | Send _ (Some m) => decode_one "messageId" m = Some id
  | Acked _ _ _ ack => acknowledges ack id raw
  | Refused _ k retryable => retryable = false /\ k = id
  | Restarted dir => dir = false
  | _ => False
  end.

Lemma add_keeps io message b id raw :
  (forall m, message = Some m -> decode_one "messageId" m <> Some id) ->
  in_outbox (pending id raw) b -> in_outbox (pending id raw) (fst (add io message b)).
Proof.
  intros Hne Hb. pose proof Hb as (o & -> & Hid & Hs). unfold add.
  destruct message as [m|]; [|done]. specialize (Hne m eq_refl).
  destruct (decode_one _ m) as [k|]; [|done]. destruct (negb _); [done|].
  destruct (flush _ _) as [o' err] eqn:Hf. simpl.
  eapply flush_keeps; [exact Hb| |exact Hf]. unfold pending. rewrite lookup_insert_ne; congruence.
Qed.

Lemma remove_keeps io k b id raw :
  k <> id -> in_outbox (pending id raw) b -> in_outbox (pending id raw) (fst (remove io k b)).
Proof.
  intros Hne Hb. pose proof Hb as (o & -> & Hid & Hs). unfold remove.
  destruct (negb _); [done|]. destruct (flush _ _) as [o' err] eqn:Hf. simpl.
  eapply flush_keeps; [exact Hb| |exact Hf]. unfold pending. by rewrite lookup_delete_ne.
Qed.

Lemma acknowledge_keeps io ack b id raw :
  ~ acknowledges ack id raw ->
  in_outbox (pending id raw) b -> in_outbox (pending id raw) (fst (acknowledge io ack b)).
Proof.
  intros Hne Hb. pose proof Hb as (o & -> & Hid & m & Hs & Hm).
  destruct (items o !! ack_AckMessageID ack) as [raw'|] eqn:E.
  2: { destruct (acknowledge_absent io ack o E) as [r ->]. done. }
  destruct (acknowledge_spec io ack o raw' E) as [(Hack & ? & ? & ? & ? & _ & _ & ->)|[_ [e ->]]];
    [|done].
  destruct io; [|done]. simpl.
  assert (ack_AckMessageID ack <> id).
  { intros Heq. rewrite Heq in *. apply Hne. unfold pending in Hid.
    by assert (raw' = raw) as <- by congruence. }
  unfold pending in *. eexists. split; [done|]. simpl. split; [by rewrite lookup_delete_ne|].
  eexists. split; [done|]. by rewrite lookup_delete_ne.
Qed.

Lemma act_keeps_event a x id raw :
  ~ settles id raw x -> in_outbox (pending id raw) (box a) ->
  in_outbox (pending id raw) (box (act a x)).
Proof.
  intros Hx Ha. destruct x as [io m|io1 io2 now ack|io k [|]| | | |dir]; simpl in *; try done.
  - apply add_keeps; [|done]. intros m' ->. done.
  - unfold handle_event_ack. pose proof (acknowledge_keeps io1 ack (box a) id raw Hx Ha) as H.
    destruct (acknowledge _ _ _) as [b [[t te] [e|]]]; done.
  - apply remove_keeps; [|done]. intros ->. tauto.
  - destruct dir; [|done]. by apply restart_outbox.
Qed.

Lemma live_keeps (P : agent -> Prop) (Q : action -> Prop) :
  (forall a x, ~ Q x -> P a -> P (act a x)) ->
  forall xs a, Forall (fun x => ~ Q x) xs -> P a -> P (live a xs).
Proof.
  intros Hstep xs. induction xs as [|x xs IH]; intros a Hxs Ha; [done|]. simpl.
  apply Forall_cons in Hxs as [Hx Hxs]. apply IH; [done|]. by apply Hstep.
Qed.

(** C27.  An event that was accepted for reliable delivery is never lost: whatever
    is sent, acknowledged, refused, recorded, whichever writes fail and however
    often the agent restarts, it is kept, in memory and in the file, and sent
    again on every reconnection, until the platform acknowledges it, refuses it
    for good, or the agent replaces it under the same message id. *)
Theorem event_kept_until_settled a o raw id xs :
  box a = Some o -> decode_one "messageId" raw = Some id -> id <> "" ->
  Forall (fun x => ~ settles id raw x) xs ->
  let a' := live (act a (Send true (Some raw))) xs in
  in_outbox (pending id raw) (box a') /\
  forall n, (length (list_events (box a')) <= n)%nat -> raw ∈ resendPendingEvents n a'.
Proof.
  intros Ho Hm Hid Hxs a'.
  assert (H : in_outbox (pending id raw) (box a')).
  { apply (live_keeps (fun a => in_outbox (pending id raw) (box a)) (settles id raw)); [|done|].
    - intros. by apply act_keeps_event.
    - simpl. rewrite Ho. unfold add. rewrite Hm, (proj2 (nonempty_true id) Hid). simpl.
      eexists. split; [done|].
      split; [apply lookup_insert_eq|]. eexists. split; [done|apply lookup_insert_eq]. }
  split; [done|]. intros n Hn. unfold resendPendingEvents. rewrite take_ge by done.
  destruct H as (o' & -> & Hp & _). simpl. apply list_elem_of_fmap. exists (id, raw).
  split; [done|]. by apply elem_of_map_to_list.
Qed.

(** ** The ledger *)

(** What makes the client stop observing a recorded task. *)
Definition concludes (id : string) (x : action) : Prop :=
  match x with
  | Acked _ _ _ ack => ack_TaskID ack = id
  | Recorded _ _ taskID _ _ _ _ => taskID = id
  | Cleanup _ _ taskID _ => taskID = id
  | Restarted dir => dir = false
  | _ => False
  end.

Definition observed (id : string) (raw : value) (c : ledger_content) : Prop :=
  exists r, Records c !! id = Some r /\ recoverable_record r = true /\
    lr_TaskID r = id /\ lr_Task r = Some raw.

Lemma observed_other id raw c k r : k <> id -> observed id raw c -> observed id raw (with_record c k r).
Proof. intros Hk (x & Hx & H). exists x. split; [|done]. simpl. by rewrite lookup_insert_ne. Qed.

Lemma acknowledge_terminal io ack b b' t e :
  acknowledge io ack b = (b', (t, true, e)) -> t = ack_TaskID ack.
Proof.
  destruct b as [o|]; [|done].
  destruct (items o !! ack_AckMessageID ack) as [raw|] eqn:E.
  2: { unfold acknowledge. destruct (negb _ || _); [done|]. by rewrite E. }
  destruct (acknowledge_spec io ack o raw E)
    as [(Hack & type & task & cmd & c & He & Hc & ->)|[_ [e' ->]]]; [|done].
  destruct io; [|done]. intros [= <- <- Ht <-].
  destruct Hack as (_ & _ & _ & ty & tk & cm & c' & He' & Hc' & _ & _ & Htask & _).
  rewrite He in He'. injection He' as <- <- <-. assert (c' = c) as -> by congruence.
  destruct Htask as [<-|[_ Hf]]; [done|congruence].
Qed.

Lemma act_keeps_record a x id raw :
  ~ concludes id x -> in_ledger (observed id raw) (ledger a) ->
  in_ledger (observed id raw) (ledger (act a x)).
Proof.
  intros Hx Ha. destruct x as [io m|io1 io2 now ack|io k [|]|io now t c p task obj|io t c p
    |io now t b|dir]; simpl in *; try done.
  - unfold handle_event_ack. destruct (acknowledge _ _ _) as [b [[t te] [e|]]] eqn:E; [done|].
    destruct te; [|done]. simpl. apply acknowledge_terminal in E as ->.
    apply update_record_keeps; [|done]. intros k r Hk _. by apply observed_other.
  - apply recordTask_keeps; [|done]. intros k r Hk. by apply (observed_other id raw k t r).
  - apply remember_keeps; [|done]. done.
  - apply update_record_keeps; [|done]. intros k r Hk _. by apply observed_other.
  - destruct dir; [|done]. by apply restart_ledger.
Qed.


(** What the agent has accepted it recognises for good: a task, command or
    plan id once remembered is known after any later operation and restart. *)
Theorem remembered_ids_stay_known a l t c p xs :
  ledger a = Some l -> Forall (fun x => x <> Restarted false) xs ->
  let a' := live (act a (Remembered true t c p)) xs in
  (t <> "" -> hasTask (ledger a') t = true) /\
  (c <> "" -> hasCommand (ledger a') c = true) /\
  (p <> "" -> hasPlan (ledger a') p = true).
Proof.
  intros Hl Hxs a'.
  set (P := fun k => (t <> "" -> t ∈ TaskIDs k) /\ (c <> "" -> c ∈ CommandIDs k) /\
    (p <> "" -> p ∈ PlanIDs k)).
  assert (Hwith : forall id s x, x ∈ s -> x ∈ with_id id s).
  { intros id s x Hx. unfold with_id. destruct (nonempty id); [|done]. set_solver. }
  assert (Hgrow : forall k t c p, P k -> P (remember_ids t c p k)).
  { unfold P. simpl. intros k t' c' p' (?&?&?). split_and!; intros ?; apply Hwith; auto. }
  assert (H : in_ledger P (ledger a')).
  { apply (live_keeps (fun a => in_ledger P (ledger a)) (fun x => x = Restarted false)); [|done|].
    - intros b x Hx Hb. destruct x as [io m|io1 io2 now ack|io k [|]|io now t' c' p' task obj
        |io t' c' p'|io now t' b'|dir]; simpl in *; try done.
      + unfold handle_event_ack. destruct (acknowledge _ _ _) as [? [[? [|]] [?|]]]; try done.
        simpl. by apply update_record_keeps.
      + apply recordTask_keeps; [|done]. intros k r Hk. by apply Hgrow.
      + apply remember_keeps; [|done]. intros k Hk. by apply Hgrow.
      + by apply update_record_keeps.
      + destruct dir; [|done]. by apply restart_ledger.
    - simpl. rewrite Hl. simpl.
      assert (HP : P (remember_ids t c p (content l))).
      { unfold P, with_id. simpl. unfold with_id.
        split_and!; intros H; rewrite (proj2 (nonempty_true _) H); set_solver. }
      eexists. split; [done|]. simpl. eauto. }
  destruct H as (l' & -> & (Ht & Hc & Hp) & _). unfold hasTask, hasCommand, hasPlan, has_id.
  split_and!; intros Hne; rewrite (proj2 (nonempty_true _) Hne); simpl;
    apply bool_decide_eq_true; auto.
Qed.
