(* ===== verification/Witnesses.v ===== *)
(** A small control plane at work: one tenant, one cluster, a plan that keeps one
    restore point, its backups and drills.  Each lemma applies a theorem of the
    development to a concrete run over these rows, evaluated by the kernel. *)

From S2P Require Import Prelude Calendar Timestamp Value Types Retention Session.
From S2P Require Import Database Quota Tasks RestorePoints Lifecycle LifeCycleRefinement.
From S2P Require Import Wire Messages Codec Outbox.

(** ** Rows *)

Definition noon : time := Date 2024 5 6 12 0 0 0 utc.

Definition sample_task (kind status : string) (done : option time) : task_row :=
  {| t_tenant_id := "tenant"; t_cluster_id := Some "cluster"; t_app_id := None;
     t_protection_plan_id := Some "plan"; t_restore_point_id := None; t_type := kind;
     t_status := status; t_progress := 0; t_command_id := None; t_error_code := None;
     t_error_message := None; t_payload := ∅; t_created_at := noon; t_dispatched_at := None;
     t_accepted_at := None; t_started_at := None; t_completed_at := done |}.

Definition sample_point_row (metadata : document) : point_row :=
  {| r_tenant_id := "tenant"; r_protection_plan_id := Some "plan";
     r_source_cluster_id := "cluster"; r_app_id := None; r_storage_repo_id := None;
     r_display_name := ""; r_velero_backup_name := "backup-0"; r_point_type := "backup";
     r_status := "available"; r_size_bytes := None; r_started_at := None;
     r_completed_at := None; r_expires_at := None; r_metadata := metadata;
     r_created_at := noon; r_task_created_at := None; r_size_metrics_v2 := ∅;
     r_backup_task_id := Some "task-0" |}.

Definition sample_reservation (state : string) (replaced : option string) : reservation_row :=
  {| v_protection_plan_id := "plan"; v_replacement_point_id := replaced; v_state := state;
     v_pending_point := None; v_cleanup_task_id := None; v_cleanup_attempts := 0;
     v_created_at := noon |}.

Definition policy_of_count (count : Z) : policy_row :=
  {| c_tenant_id := "tenant"; c_name := "nightly"; c_composition := "combined";
     c_schedule_type := "daily"; c_interval_value := None; c_interval_unit := None;
     c_hour := Some 2; c_minute := Some 0; c_week_day := None; c_month_day := None;
     c_retention_count := Some count; c_retention_days := None; c_retention_rules := [];
     c_retention_timezone := "UTC"; c_status := "active"; c_created_at := noon;
     c_updated_at := noon |}.

Definition sample_policy : policy_row := policy_of_count 1.

Definition sample_spec : plan_spec :=
  {| ps_scope_type := "all"; ps_included_resources := [];
     ps_resource_selection :=
       {| rs_Mode := "all"; rs_NamespaceScoped := []; rs_ClusterScoped := [] |};
     ps_label_selector := {| ls_MatchLabels := ∅; ls_MatchExpressions := [] |};
     ps_include_cluster_scoped := false; ps_storage_repo_id := None;
     ps_target_cluster_id := None; ps_excluded_resources := []; ps_pre_hooks := [];
     ps_post_hooks := [] |}.

Definition sample_plan (status : string) (latest : option string) : plan_row :=
  {| p_tenant_id := "tenant"; p_source_cluster_id := "cluster"; p_app_id := "app";
     p_spec := sample_spec; p_policy_id := Some "policy"; p_status := status;
     p_storage_size := ∅; p_latest_sync_task_id := latest; p_latest_recovery_task_id := None;
     p_created_at := noon; p_updated_at := noon |}.

Definition sample_cluster : cluster_row :=
  {| k_tenant_id := "tenant"; k_cluster_type := "native-kubernetes"; k_created_at := noon |}.

Definition sample_app : app_row :=
  {| a_tenant_id := "tenant"; a_cluster_id := "cluster"; a_namespace := "shop";
     a_protection_status := "protected" |}.

(** The plan with one point, and the given other rows. *)
Definition sample_db (metadata : document) (more : list (string * task_row))
    (reserved : list (string * reservation_row)) : db :=
  {| tasks := list_to_map (("task-0", sample_task "backup" "succeeded" (Some noon)) :: more);
     restore_points := {[ "point-0" := sample_point_row metadata ]};
     reservations := list_to_map reserved;
     protection_plans := {[ "plan" := sample_plan "active" (Some "task-0") ]};
     plan_apps := {[ ("plan", "app") := noon ]};
     policies := {[ "policy" := sample_policy ]}; schedules := ∅; task_events := ∅;
     clusters := {[ "cluster" := sample_cluster ]}; applications := {[ "app" := sample_app ]};
     storage_repositories := ∅; resource_scopes := {[ "tenant" := "active" ]};
     diagnostic_logs := ∅; migration_sessions := ∅; upgrade_jobs := ∅;
     storage_bindings := ∅ |}.

Definition fresh (d : db) : session db := Session d d None.

Definition sample_input (kind point : string) : TaskInput :=
  {| ti_TenantID := "tenant"; ti_ClusterID := "cluster"; ti_AppID := "";
     ti_ProtectionPlanID := "plan"; ti_RestorePointID := point; ti_Type := kind;
     ti_Status := ""; ti_CommandID := ""; ti_Payload := ∅; ti_SuppressLatestPointer := false |}.

Definition sample_report (status : string) : TaskStatusInput :=
  {| tsi_TaskID := "task-1"; tsi_RestorePointID := ""; tsi_Status := status; tsi_Progress := 0;
     tsi_ErrorCode := ""; tsi_ErrorMessage := ""; tsi_Payload := ∅; tsi_MarkAccepted := false;
     tsi_MarkStarted := false; tsi_MarkDone := true |}.

Definition sample_measures : document :=
  {[ "schemaVersion" := VNum 2;
     "logical" := VObj {[ "known" := VBool true; "totalBytes" := VNum 10 ]};
     "newData" := VObj {[ "known" := VBool true; "totalBytes" := VNum 4 ]} ]}.

Definition sample_result : RestorePointInput :=
  {| rpi_ProtectionPlanID := "plan"; rpi_SourceClusterID := "cluster"; rpi_AppID := "";
     rpi_StorageRepoID := ""; rpi_DisplayName := ""; rpi_TaskCreatedAt := noon;
     rpi_VeleroBackupName := "backup-1"; rpi_PointType := ""; rpi_Status := "";
     rpi_SizeBytes := 10; rpi_StartedAt := noon; rpi_CompletedAt := noon;
     rpi_ExpiresAt := zero_time; rpi_SourceNamespace := "shop"; rpi_LabelSelector := "";
     rpi_BackupTaskID := "task-1"; rpi_BackupStorageName := ""; rpi_Metadata := ∅;
     rpi_SizeMetricsV2 := sample_measures |}.

(** What a run leaves and returns. *)
Lemma run_eq {A} (m : tx db A) fuse d : run m fuse d = (fst (run m fuse d), snd (run m fuse d)).
Proof. apply surjective_pairing. Defined.

(** ** Slots *)

Definition backup_running_db (metadata : document) : db :=
  sample_db metadata [("task-1", sample_task "backup" "queued" None)] [].

Definition backup_1 : Task := task_of_row "task-1" (sample_task "backup" "queued" None).

Lemma sample_counted metadata :
  counted_policy backup_1 (backup_running_db metadata) sample_policy 1.
Proof. split; [vm_compute; reflexivity|]. split; reflexivity. Defined.

Lemma replaced_point_was_expendable_witness :
  exists d n selected,
    release_failed "plan" (backup_running_db ∅) = Some (d, n) /\
    selections_in sample_zones backup_1 noon d sample_policy selected /\
    expendable backup_1 d selected "point-0".
Proof.
  apply (replaced_point_was_expendable sample_zones backup_1 noon (fresh (backup_running_db ∅))
    sample_policy 1 (sample_reservation "reserved" (Some "point-0"))).
  - reflexivity.
  - done.
  - apply sample_counted.
  - vm_compute. reflexivity.
  - vm_compute. reflexivity.
  - reflexivity.
Defined.

Definition retained_metadata : document := {[ "manualRetained" := VBool true ]}.


(** ** Tasks *)

Lemma create_task_all_or_nothing_witness :
  exists row task,
    tasks (fst (run (CreateTask sample_zones "task-1" noon (sample_input "backup" "")) None
                  (sample_db ∅ [] []))) = <["task-1" := row]> (tasks (sample_db ∅ [] [])) /\
    task_of_row "task-1" row = stored_task task.
Proof.
  set (d' := fst _).
  assert (H : exists task,
    run (CreateTask sample_zones "task-1" noon (sample_input "backup" "")) None
      (sample_db ∅ [] []) = (d', inr task)) by (eexists; vm_compute; reflexivity).
  destruct H as [task H].
  destruct (create_task_all_or_nothing _ _ _ _ _ _ _ _ H) as (row & _ & Htasks & Hrow).
  exists row, task. split; [exact Htasks|exact Hrow].
Defined.

Lemma created_backup_holds_a_slot_witness :
  exists v,
    reservations (fst (run (CreateTask sample_zones "task-1" noon (sample_input "backup" "")) None
                         (sample_db ∅ [] []))) !! "task-1" = Some v /\ v_state v = "reserved".
Proof.
  set (d' := fst _).
  assert (H : exists task,
    run (CreateTask sample_zones "task-1" noon (sample_input "backup" "")) None
      (sample_db ∅ [] []) = (d', inr task)) by (eexists; vm_compute; reflexivity).
  destruct H as [task H].
  destruct (created_backup_holds_a_slot sample_zones "task-1" noon (sample_input "backup" "") None
    (sample_db ∅ [] []) d' task sample_policy 1) as [_ [(_ & Hv)|(r & Hr & Hst & _)]];
    [reflexivity|split; done|vm_compute; reflexivity|reflexivity|reflexivity|exact H|exact Hv|].
  exfalso. assert (Hq : t_status <$> tasks d' !! "task-1" = Some "queued") by (vm_compute; reflexivity).
  rewrite Hr in Hq. injection Hq as Hq. congruence.
Defined.



Definition publishing_db (state : string) : db :=
  sample_db {[ "replacementTaskId" := VStr "task-1" ]}
    [("task-1", sample_task "backup" "running" None)]
    [("task-1", sample_reservation state (Some "point-0"))].

Lemma publishing_task_cannot_fail_witness :
  exists t', tasks (fst (run (UpdateTaskStatus noon (sample_report "failed")) None
                          (publishing_db "data_ready"))) !! "task-1" = Some t' /\
    t_status t' = "finalizing" /\ t_completed_at t' = None.
Proof.
  set (d' := fst _).
  assert (H : exists r, run (UpdateTaskStatus noon (sample_report "failed")) None
    (publishing_db "data_ready") = (d', inr r)) by (eexists; vm_compute; reflexivity).
  destruct H as [r H].
  apply (publishing_task_cannot_fail noon (sample_report "failed") None
    (publishing_db "data_ready") d' r (sample_task "backup" "running" None)
    (sample_reservation "data_ready" (Some "point-0")));
    [vm_compute; reflexivity|reflexivity|vm_compute; reflexivity|left|reflexivity|done|exact H].
Defined.

Lemma failed_backup_releases_its_slot_witness :
  reservations (fst (run (UpdateTaskStatus noon (sample_report "failed")) None
                       (publishing_db "reserved"))) !! "task-1" =
    Some (sample_reservation "released" (Some "point-0")).
Proof.
  set (d' := fst _).
  assert (H : exists r, run (UpdateTaskStatus noon (sample_report "failed")) None
    (publishing_db "reserved") = (d', inr r)) by (eexists; vm_compute; reflexivity).
  destruct H as [r H].
  apply (failed_backup_releases_its_slot noon (sample_report "failed") None
    (publishing_db "reserved") d' r (sample_task "backup" "running" None)
    (sample_reservation "reserved" (Some "point-0")));
    [vm_compute; reflexivity|reflexivity|vm_compute; reflexivity|reflexivity|reflexivity|exact H].
Defined.

Definition drilling : task_row :=
  {| t_tenant_id := "tenant"; t_cluster_id := Some "cluster"; t_app_id := None;
     t_protection_plan_id := Some "plan"; t_restore_point_id := Some "point-0";
     t_type := "drill"; t_status := "running"; t_progress := 0; t_command_id := None;
     t_error_code := None; t_error_message := None; t_payload := ∅; t_created_at := noon;
     t_dispatched_at := None; t_accepted_at := None; t_started_at := None;
     t_completed_at := None |}.

Lemma drill_retains_its_point_witness :
  exists p', restore_points (fst (run (UpdateTaskStatus noon (sample_report "succeeded")) None
      (sample_db ∅ [("task-1", drilling)] []))) !! "point-0" = Some p' /\
    get (r_metadata p') "drillRetained" = VBool true.
Proof.
  set (d := sample_db _ _ _). set (d' := fst _).
  assert (H : exists r, run (UpdateTaskStatus noon (sample_report "succeeded")) None d =
    (d', inr r)) by (eexists; vm_compute; reflexivity).
  destruct H as [r H].
  assert (Hp : exists p', restore_points d' !! "point-0" = Some p' /\ of_plan "plan" p' = true)
    by (eexists; split; vm_compute; reflexivity).
  destruct Hp as (p' & Hp & Hplan). exists p'. split; [exact Hp|].
  exact (drill_retains_its_point noon (sample_report "succeeded") None d d' r drilling "plan"
    "point-0" ltac:(vm_compute; reflexivity) eq_refl eq_refl eq_refl ltac:(vm_compute; reflexivity)
    eq_refl eq_refl eq_refl eq_refl H "point-0" p' Hp Hplan).
Defined.

(** ** Backup results *)

Definition sample_snapshot : value := default VNull (marshal_input (normalize_input sample_result)).

Definition published_task : task_row :=
  {| t_tenant_id := "tenant"; t_cluster_id := Some "cluster"; t_app_id := None;
     t_protection_plan_id := Some "plan"; t_restore_point_id := Some "point-0";
     t_type := "backup"; t_status := "succeeded"; t_progress := 100; t_command_id := None;
     t_error_code := None; t_error_message := None;
     t_payload := {[ "backupResult" := sample_snapshot ]};
     t_created_at := noon; t_dispatched_at := None; t_accepted_at := None;
     t_started_at := None; t_completed_at := Some noon |}.

Definition publish (input : RestorePointInput) : tx db RestorePoint :=
  PublishBackupResult sample_zones "point-1" "event-1" noon input.

Lemma published_result_is_final_witness :
  let d := sample_db ∅ [("task-1", published_task)] [] in
  fst (run (publish sample_result) None d) = d.
Proof.
  intros d.
  apply (published_result_is_final sample_zones "point-1" "event-1" noon sample_result None d _
    (snd (run (publish sample_result) None d)) published_task sample_snapshot).
  - vm_compute. reflexivity.
  - reflexivity.
  - done.
  - vm_compute. reflexivity.
  - apply run_eq.
Defined.

Definition failed_db : db :=
  sample_db ∅ [("task-1", sample_task "backup" "failed" (Some noon))] [].


(** A task that has accepted no result. *)
Lemma no_snapshot status : own_snapshot (sample_task "backup" status None) sample_result.
Proof. intros v snapshot H. discriminate H. Defined.

Definition room_db : db :=
  sample_db ∅ [("task-1", sample_task "backup" "running" None)]
    [("task-1", sample_reservation "reserved" None)].

Lemma publication_completes_the_backup_witness :
  exists t', tasks (fst (run (publish sample_result) None room_db)) !! "task-1" = Some t' /\
    t_status t' = "succeeded" /\ t_progress t' = 100.
Proof.
  set (d' := fst _).
  assert (H : exists p, run (publish sample_result) None room_db = (d', inr p))
    by (eexists; vm_compute; reflexivity).
  destruct H as [p H].
  destruct (publication_completes_the_backup sample_zones "point-1" "event-1" noon sample_result
    None room_db d' p (sample_task "backup" "running" None))
    as [(t' & _ & _ & Ht & Hst & Hpr & _) _];
    [vm_compute; reflexivity|apply no_snapshot|by left|exact H|].
  exists t'. split; [exact Ht|split; [exact Hst|exact Hpr]].
Defined.

Lemma result_waits_for_replacement_witness :
  exists e, snd (run (publish sample_result) None (publishing_db "reserved")) = inl e.
Proof.
  set (r := snd _).
  destruct (result_waits_for_replacement sample_zones "point-1" "event-1" noon sample_result
    None (publishing_db "reserved") (fst (run (publish sample_result) None (publishing_db "reserved")))
    r (sample_task "backup" "running" None) (sample_reservation "reserved" (Some "point-0"))
    (sample_point_row {[ "replacementTaskId" := VStr "task-1" ]}) "point-0") as (e & He & _);
    [vm_compute; reflexivity|apply no_snapshot|by left|reflexivity|vm_compute; reflexivity
    |done|reflexivity|done|vm_compute; reflexivity|done|apply run_eq|].
  exists e. exact He.
Defined.

Lemma publishing_uses_its_own_slot_witness :
  slots_used "plan" (fst (run (publish sample_result) None room_db)) <= slots_used "plan" room_db.
Proof.
  apply (publishing_uses_its_own_slot sample_zones "point-1" "event-1" noon sample_result None
    room_db _ (snd (run (publish sample_result) None room_db))
    (sample_task "backup" "running" None) (sample_reservation "reserved" None)).
  - vm_compute. reflexivity.
  - apply no_snapshot.
  - done.
  - vm_compute. reflexivity.
  - reflexivity.
  - reflexivity.
  - done.
  - apply run_eq.
Defined.

Lemma snapshot_roundtrip_witness :
  unmarshal_input sample_snapshot = Some (json_input (normalize_input sample_result)).
Proof.
  apply (snapshot_roundtrip (normalize_input sample_result) sample_snapshot).
  - vm_compute. reflexivity.
  - reflexivity.
Defined.

(** ** Messages *)

Definition sample_ack : value :=
  VObj {[ "ackMessageId" := VStr "m-1"; "persisted" := VBool true ]}.

Definition sample_message : Message :=
  {| m_Version := "v1"; m_MessageID := "m-2"; m_MessageKind := "response";
     m_Type := "platform.event.ack"; m_TenantID := "tenant"; m_ClusterID := "cluster";
     m_AgentID := ""; m_Timestamp := noon; m_Payload := VNull |}.

Definition ack_contract : Contract :=
  contract MessagePlatformEventAck PlatformToAgent "control"
    "EventAckPayload" EventAckPayload false [MessageKindResponse].

Lemma encode_decode_roundtrip_witness :
  DecodeMessage (EncodeMessage sample_message (Some sample_ack)) PlatformToAgent "cluster" =
    inr (with_payload sample_message sample_ack).
Proof.
  assert (H : exists data, EncodeMessage sample_message (Some sample_ack) = Some data)
    by (eexists; vm_compute; reflexivity).
  destruct H as [data H]. rewrite H.
  apply (encode_decode_roundtrip sample_message sample_ack data ack_contract "cluster").
  - exact H.
  - reflexivity.
  - right. right. reflexivity.
Defined.

Lemma contract_accepts_its_own_payload_witness :
  validatePayload sample_ack ack_contract = true.
Proof.
  apply (contract_accepts_its_own_payload ack_contract).
  - apply list_elem_of_In. simpl. tauto.
  - vm_compute. reflexivity.
Defined.

Lemma unknown_payload_field_is_ignored_witness :
  validatePayload (VObj {[ "added" := VNum 1 ]}) ack_contract =
  validatePayload (VObj ∅) ack_contract.
Proof.
  eapply (unknown_payload_field_is_ignored ack_contract _ ∅ "added" (VNum 1)).
  - reflexivity.
  - reflexivity.
  - reflexivity.
Defined.

(** ** The agent's outbox and ledger *)

Definition sample_event : value :=
  VObj {[ "version" := VStr "v1"; "messageId" := VStr "m-1"; "type" := VStr "agent.task.completed";
          "payload" := VObj {[ "taskId" := VStr "task-1"; "commandId" := VStr "command-1" ]} ]}.

Definition sample_ack_of (task : string) : EventAck :=
  {| ack_AckMessageID := "m-1"; ack_AckType := "agent.task.completed"; ack_TaskID := task;
     ack_CommandID := "command-1"; ack_Persisted := true |}.

Definition new_agent : agent :=
  {| box := newEventOutbox true None; ledger := newTaskLedger true None |}.

Definition sample_box : outbox := {| items := {[ "m-1" := sample_event ]}; saved_items := None |}.

Lemma acknowledges_task ack :
  acknowledges ack "m-1" sample_event -> ack_TaskID ack = "task-1".
Proof.
  intros (_ & _ & _ & type & task & command & c & He & Hc & _ & _ & Htask & _).
  assert (Hev : decode_event sample_event = Some ("agent.task.completed", ("task-1", "command-1")))
    by (vm_compute; reflexivity).
  rewrite Hev in He. injection He as <- <- <-. destruct Htask as [?|[_ Ht]]; [done|].
  injection Hc as <-. discriminate Ht.
Defined.

Lemma acknowledgement_is_exact_witness :
  exists o', fst (acknowledge true (sample_ack_of "task-1") (Some sample_box)) = Some o' /\
    (items o' !! "m-1" = None <-> acknowledges (sample_ack_of "task-1") "m-1" sample_event /\ true = true).
Proof.
  eexists. split; [vm_compute; reflexivity|].
  eapply (acknowledgement_is_exact true (sample_ack_of "task-1") sample_box _ _ "m-1").
  - vm_compute. reflexivity.
  - vm_compute. reflexivity.
Defined.

(** Another task's acknowledgement, a restart, a refused message, a failed write. *)
Definition sample_history : list action :=
  [Acked true true "t" (sample_ack_of "task-2"); Restarted true; Refused true "m-0" false;
   Send false (Some (VObj {[ "messageId" := VStr "m-2" ]})); Restarted true].

Lemma event_kept_until_settled_witness :
  sample_event ∈ resendPendingEvents 5
    (live (act new_agent (Send true (Some sample_event))) sample_history).
Proof.
  eapply (event_kept_until_settled new_agent _ sample_event "m-1" sample_history).
  - reflexivity.
  - vm_compute. reflexivity.
  - done.
  - repeat (apply Forall_cons; split); [| | | | |apply Forall_nil; done].
    + intros Hack%acknowledges_task. discriminate Hack.
    + intros H. discriminate H.
    + intros [_ H]. discriminate H.
    + vm_compute. intros H. discriminate H.
    + intros H. discriminate H.
  - vm_compute. lia.
Defined.

Definition sample_object : taskLedgerObject :=
  {| lo_APIVersion := "velero.io/v1"; lo_Kind := "Backup"; lo_Namespace := "dr"; lo_Name := "b-1" |}.


Lemma remembered_ids_stay_known_witness :
  hasTask (ledger (live (act new_agent (Remembered true "task-1" "" "")) sample_history)) "task-1"
    = true.
Proof.
  eapply (remembered_ids_stay_known new_agent); [reflexivity| |done].
  repeat constructor; discriminate.
Defined.
