(* ===== verification/SystemWitnesses.v ===== *)
(** A history from an empty store: a policy and a plan are created, backups are
    taken and published, the plan is edited and cleaned up.  Each lemma applies a
    theorem about the whole store to states of this history. *)

From S2P Require Import Prelude Calendar Timestamp Value Types Retention Session.
From S2P Require Import Database Quota Tasks RestorePoints Plans Policies Lifecycle.
From S2P Require Import LifeCycleRefinement PlanLifecycle System Membership PlanEdits Witnesses.

(** ** The history *)

(** One tenant with a cluster and an application, nothing protected. *)
Definition base_db : db :=
  {| tasks := ∅; restore_points := ∅; reservations := ∅; protection_plans := ∅;
     plan_apps := ∅; policies := ∅; schedules := ∅; task_events := ∅;
     clusters := {[ "cluster" := sample_cluster ]}; applications := {[ "app" := sample_app ]};
     storage_repositories := ∅; resource_scopes := {[ "tenant" := "active" ]};
     diagnostic_logs := ∅; migration_sessions := ∅; upgrade_jobs := ∅;
     storage_bindings := ∅ |}.

Definition policy_input (name : string) (count : Z) : PolicyInput :=
  {| poli_RetentionRules := []; poli_RetentionTimezone := "UTC"; poli_TenantID := "tenant";
     poli_Name := name; poli_Composition := "combined"; poli_ScheduleType := "daily";
     poli_IntervalValue := 0; poli_IntervalUnit := ""; poli_Hour := 2; poli_Minute := 0;
     poli_WeekDay := 0; poli_MonthDay := 0; poli_RetentionCount := count;
     poli_RetentionDays := 0; poli_Status := "active" |}.

Definition plan_input (policy : string) : ProtectionPlanInput :=
  {| plani_TenantID := "tenant"; plani_SourceClusterID := "cluster"; plani_AppID := "app";
     plani_AppIDs := ["app"]; plani_ScopeType := ""; plani_IncludedResources := [];
     plani_ResourceSelection :=
       {| rs_Mode := ""; rs_NamespaceScoped := []; rs_ClusterScoped := [] |};
     plani_LabelSelector := {| ls_MatchLabels := ∅; ls_MatchExpressions := [] |};
     plani_IncludeClusterScoped := false; plani_StorageRepoID := ""; plani_PolicyID := policy;
     plani_TargetClusterID := ""; plani_ExcludedResources := []; plani_PreHooks := [];
     plani_PostHooks := []; plani_Status := "" |}.

Definition result_for (task name : string) : RestorePointInput :=
  {| rpi_ProtectionPlanID := "plan"; rpi_SourceClusterID := "cluster"; rpi_AppID := "";
     rpi_StorageRepoID := ""; rpi_DisplayName := ""; rpi_TaskCreatedAt := noon;
     rpi_VeleroBackupName := name; rpi_PointType := ""; rpi_Status := "";
     rpi_SizeBytes := 10; rpi_StartedAt := noon; rpi_CompletedAt := noon;
     rpi_ExpiresAt := zero_time; rpi_SourceNamespace := "shop"; rpi_LabelSelector := "";
     rpi_BackupTaskID := task; rpi_BackupStorageName := ""; rpi_Metadata := ∅;
     rpi_SizeMetricsV2 := sample_measures |}.

(** A policy that keeps [count] points and a plan bound to it. *)
Definition policy_db (count : Z) : db :=
  fst (run (CreatePolicy sample_zones "policy" noon (policy_input "nightly" count)) None base_db).
Definition plan_db (count : Z) : db :=
  fst (run (CreateProtectionPlan "plan" noon (plan_input "policy")) None (policy_db count)).

Definition backup (task : string) (d : db) : db :=
  fst (run (CreateTask sample_zones task noon (sample_input "backup" "")) None d).
Definition published (task point event name : string) (d : db) : db :=
  fst (run (PublishBackupResult sample_zones point event noon (result_for task name)) None d).

Lemma base_empty : empty_store base_db.
Proof. split_and!; try reflexivity. intros q pp H. discriminate H. Defined.

Lemma policy_call count : call sample_zones base_db (policy_db count).
Proof. apply call_create_policy. intros q pp H. discriminate H. Defined.

Lemma fresh_plan_policy_db : fresh_plan "plan" (policy_db 1) /\ fresh_plan "plan" (policy_db 2).
Proof.
  split; (split_and!; [intros k r H; discriminate H|intros k v H; discriminate H|reflexivity]).
Defined.

Lemma backup_call task d : call sample_zones d (backup task d).
Proof. apply call_work. by apply (op_create sample_zones task noon (sample_input "backup" "")). Defined.

Lemma published_call task point event name d :
  point <> "" -> call sample_zones d (published task point event name d).
Proof.
  intros Hp. apply call_work. apply (op_publish sample_zones point event noon (result_for task name)).
  - exact Hp.
  - left. reflexivity.
Defined.

(** A first backup under a count of one, its result, and the next backup, which
    will replace its point. *)
Definition first_backup : db := backup "task-1" (plan_db 1).
Definition first_result : db := published "task-1" "point-1" "event-1" "backup-1" first_backup.
Definition second_backup : db := backup "task-2" first_result.

Lemma first_calls : rtc (call sample_zones) base_db first_result.
Proof.
  eapply rtc_l; [apply (policy_call 1)|].
  eapply rtc_l; [apply (call_create_plan sample_zones "plan" noon (plan_input "policy") None);
    apply fresh_plan_policy_db|].
  eapply rtc_l; [apply (backup_call "task-1")|].
  apply rtc_once. by apply published_call.
Defined.

Lemma second_calls : rtc (call sample_zones) base_db second_backup.
Proof. eapply rtc_r; [apply first_calls|]. apply (backup_call "task-2"). Defined.

Lemma calls_steps d : rtc (call sample_zones) base_db d -> rtc (step sample_zones) base_db d.
Proof. apply rtc_subrel. intros x y. apply step_call. Defined.

(** ** The store as a system *)


(** Two backups under a count of two; then the plan is bound to a policy that
    keeps one. *)
Definition two_points : db :=
  published "task-2" "point-2" "event-2" "backup-2" (backup "task-2"
    (published "task-1" "point-1" "event-1" "backup-1" (backup "task-1" (plan_db 2)))).
Definition small_policy : db :=
  fst (run (CreatePolicy sample_zones "small" noon (policy_input "weekly" 1)) None two_points).
Definition rebound : db :=
  fst (run (UpdateProtectionPlan "unused" noon "plan" (plan_input "small")) None small_policy).
Definition point_deleted (point : string) (d : db) : db :=
  fst (run (UpdateRestorePointState {| rps_ID := point; rps_Status := "deleted";
    rps_Metadata := ∅ |}) None d).
Definition drained : db := point_deleted "point-1" rebound.

Lemma point_deleted_call point d : call sample_zones d (point_deleted point d).
Proof.
  apply call_work. apply (op_point_state sample_zones
    {| rps_ID := point; rps_Status := "deleted"; rps_Metadata := ∅ |}).
Defined.

Lemma small_policy_calls : rtc (call sample_zones) base_db small_policy.
Proof.
  eapply rtc_l; [apply (policy_call 2)|].
  eapply rtc_l; [apply (call_create_plan sample_zones "plan" noon (plan_input "policy") None);
    apply fresh_plan_policy_db|].
  eapply rtc_l; [apply (backup_call "task-1")|].
  eapply rtc_l; [by apply (published_call "task-1" "point-1" "event-1" "backup-1")|].
  eapply rtc_l; [apply (backup_call "task-2")|].
  eapply rtc_l; [by apply (published_call "task-2" "point-2" "event-2" "backup-2")|].
  apply rtc_once. apply call_create_policy.
  apply (bool_decide_unpack (map_Forall (fun _ pp => p_policy_id pp <> Some "small")
    (protection_plans two_points))).
  vm_compute. exact I.
Defined.

Lemma rebound_steps : rtc (step sample_zones) base_db rebound.
Proof.
  eapply rtc_r; [apply calls_steps, small_policy_calls|].
  apply (step_rebind sample_zones small_policy "unused" noon "plan" (plan_input "small") None).
  discriminate.
Defined.

Lemma small_retained d :
  d = rebound \/ d = drained -> exists p, retention_policy_row "plan" d = Some p /\
    c_retention_count p = Some 1.
Proof. intros [->| ->]; eexists; split; vm_compute; reflexivity. Defined.

Lemma overfull_plan_only_drains_witness :
  slots_used "plan" rebound = 2 /\ slots_used "plan" drained <= Z.max 1 (slots_used "plan" rebound).
Proof.
  split; [vm_compute; reflexivity|].
  destruct (small_retained drained (or_intror eq_refl)) as (p & Hp & Hc).
  apply (overfull_plan_only_drains sample_zones base_db rebound drained "plan" p 1).
  - apply base_empty.
  - apply rebound_steps.
  - apply rtc_once, (point_deleted_call "point-1" rebound).
  - discriminate.
  - exact Hp.
  - exact Hc.
  - lia.
Defined.

Lemma rebound_run : exists plan,
  run (UpdateProtectionPlan "unused" noon "plan" (plan_input "small")) None small_policy
    = (rebound, inr plan).
Proof.
  assert (H : exists plan, snd (run (UpdateProtectionPlan "unused" noon "plan"
    (plan_input "small")) None small_policy) = inr plan) by (eexists; vm_compute; reflexivity).
  destruct H as [plan H]. exists plan. unfold rebound. rewrite <- H. apply run_eq.
Defined.

Lemma rebound_holds_two : live_points "plan" rebound = 2.
Proof. vm_compute. reflexivity. Defined.

(** Binding a plan to another policy is not checked against what the plan
    holds: from an empty store, one edit of an idle plan leaves it with two
    restore points under a policy that retains one. *)
Theorem plan_edit_can_exceed_the_count :
  exists (d : db) plan d' p, rtc (call sample_zones) base_db d /\
    run (UpdateProtectionPlan "unused" noon "plan" (plan_input "small")) None d = (d', inr plan) /\
    retention_policy_row "plan" d' = Some p /\ c_retention_count p = Some 1 /\
    live_points "plan" d' = 2.
Proof.
  destruct rebound_run as [plan Hrun].
  destruct (small_retained rebound (or_introl eq_refl)) as (p & Hp & Hc).
  exists small_policy, plan, rebound, p. split; [apply small_policy_calls|].
  split; [exact Hrun|]. split; [exact Hp|]. split; [exact Hc|apply rebound_holds_two].
Qed.

Lemma reservation_discipline_witness :
  exists t, tasks second_backup !! "task-2" = Some t /\ t_type t = "backup".
Proof.
  assert (H : exists v, reservations second_backup !! "task-2" = Some v)
    by (eexists; vm_compute; reflexivity).
  destruct H as [v Hv].
  pose proof (reservation_discipline sample_zones base_db second_backup "task-2" v
    base_empty (calls_steps _ second_calls) Hv) as [(t & Ht & Htype & _) _].
  exists t. split; [exact Ht|exact Htype].
Defined.

Lemma calls_refine_the_reservation_machine_witness :
  path None (v_state <$> reservations second_backup !! "task-2").
Proof.
  assert (H : (v_state <$> reservations first_result !! "task-2") = None)
    by (vm_compute; reflexivity).
  assert (H' : is_Some (reservations second_backup !! "task-2")) by (eexists; vm_compute; reflexivity).
  destruct (calls_refine_the_reservation_machine sample_zones base_db first_result second_backup
    "task-2" base_empty (calls_steps _ first_calls) (backup_call "task-2" first_result))
    as [[Hp _]|(v & Hv & _)].
  - rewrite <- H. exact Hp.
  - rewrite Hv in H. discriminate H.
Defined.

Lemma cleanup_removes_exactly_the_plan_witness :
  exists d' item, run (CleanupProtectionPlanRecords "plan") None second_backup
    = (d', inr (Some item)) /\ protection_plans d' !! "plan" = None /\
    forall k t, tasks d' !! k = Some t -> task_of_plan "plan" t = false.
Proof.
  assert (H : exists p, protection_plans second_backup !! "plan" = Some p)
    by (eexists; vm_compute; reflexivity).
  destruct H as [p Hp].
  destruct (cleanup_removes_exactly_the_plan sample_zones base_db second_backup "plan" p
    base_empty (calls_steps _ second_calls) Hp) as (d' & item & Hrun & (Hplan & _ & _ & Ht & _) & _).
  exists d', item. split; [exact Hrun|]. split; [exact Hplan|exact Ht].
Defined.

(** ** Plans *)

Lemma application_protected_once_witness :
  fst <$> elements (dom (plan_apps rebound)) = ["plan"] /\ "plan" = "plan".
Proof.
  split; [vm_compute; reflexivity|].
  apply (application_protected_once sample_zones base_db rebound "plan" "plan" "app"
    ("tenant", "cluster")).
  - reflexivity.
  - eapply rtc_r; [eapply (rtc_subrel (call sample_zones)); [intros x y H; left; exact H|];
      apply small_policy_calls|].
    right. exists "unused", noon, "plan", (plan_input "small"), None. split; [discriminate|].
    reflexivity.
  - discriminate.
  - discriminate.
  - eexists. vm_compute. reflexivity.
  - eexists. vm_compute. reflexivity.
  - vm_compute. reflexivity.
  - vm_compute. reflexivity.
Defined.

Lemma created_plan_reads_back_witness : exists plan apps,
  run (GetProtectionPlan "plan") None (plan_db 1)
    = (plan_db 1, inr (Some (read_back noon plan ("app" :: apps)))) /\ "app" ∈ apps.
Proof.
  assert (H : exists plan, snd (run (CreateProtectionPlan "plan" noon (plan_input "policy")) None
    (policy_db 1)) = inr plan /\ plan_AppID plan = "app")
    by (eexists; split; vm_compute; reflexivity).
  destruct H as (plan & H & Happ).
  assert (Hrun : run (CreateProtectionPlan "plan" noon (plan_input "policy")) None (policy_db 1)
    = (plan_db 1, inr plan)) by (unfold plan_db; rewrite <- H; apply run_eq).
  destruct (created_plan_reads_back "plan" noon (plan_input "policy") None (policy_db 1) (plan_db 1)
    plan Hrun) as (apps & _ & Hin & Hget).
  - intros app. reflexivity.
  - reflexivity.
  - exists plan, apps. rewrite Happ in Hin, Hget. split; [exact Hget|exact Hin].
Defined.

Lemma plan_edit_keeps_identity_witness : exists p,
  protection_plans small_policy !! "plan" = Some p /\ plan_has_work "plan" small_policy = false /\
  plan_apps rebound = plan_apps small_policy.
Proof.
  destruct rebound_run as [plan Hrun].
  destruct (plan_edit_keeps_identity "unused" noon "plan" (plan_input "small") None small_policy
    rebound (inr plan) ltac:(discriminate) Hrun)
    as (p & Hed & _ & _ & _ & _ & Happs & _).
  exists p. destruct Hed as [Hp _ _ _ Hidle _]. split; [exact Hp|]. split; [exact Hidle|exact Happs].
Defined.
