(* ===== verification/SchedulerWitnesses.v ===== *)
(** The scheduler at work: an empty store with one plan whose schedule is due.  Each
    lemma applies a theorem about the whole control plane to concrete runs over it. *)

From S2P Require Import Prelude Calendar Timestamp Value Types Retention Session Database Control.
From S2P Require Import Quota Tasks RestorePoints Plans Lifecycle System Handlers BackupTasks.
From S2P Require Import Commands StorageSync SyncRetries RetentionCleanup Capacity Scheduler Timeouts.
From S2P Require Import Platform Witnesses.

(** ** The store *)

Definition nightly_spec : plan_spec :=
  {| ps_scope_type := "all"; ps_included_resources := [];
     ps_resource_selection :=
       {| rs_Mode := "all"; rs_NamespaceScoped := []; rs_ClusterScoped := [] |};
     ps_label_selector := {| ls_MatchLabels := ∅; ls_MatchExpressions := [] |};
     ps_include_cluster_scoped := false; ps_storage_repo_id := Some "repo";
     ps_target_cluster_id := None; ps_excluded_resources := []; ps_pre_hooks := [];
     ps_post_hooks := [] |}.

Definition nightly_plan : plan_row :=
  {| p_tenant_id := "tenant"; p_source_cluster_id := "cluster"; p_app_id := "app";
     p_spec := nightly_spec; p_policy_id := Some "policy"; p_status := "active";
     p_storage_size := ∅; p_latest_sync_task_id := None; p_latest_recovery_task_id := None;
     p_created_at := noon; p_updated_at := noon |}.

Definition sample_repo : repo_row :=
  {| o_tenant_id := "tenant"; o_name := "primary"; o_type := "s3"; o_endpoint := None;
     o_bucket := Some "backups"; o_region := None; o_tls_enabled := true; o_status := "ready";
     o_config := ∅; o_secret_ref := None; o_secret := Some ∅; o_last_validated_at := None;
     o_created_at := noon; o_updated_at := noon |}.

(** Due since two in the morning. *)
Definition due_schedule_row : schedule_row :=
  {| s_last_fired_at := None; s_next_fire_at := Some (Date 2024 5 6 2 0 0 0 utc);
     s_enabled := true; s_created_at := noon; s_updated_at := noon |}.

Definition due_db : db :=
  {| tasks := ∅; restore_points := ∅; reservations := ∅;
     protection_plans := {[ "plan" := nightly_plan ]};
     plan_apps := {[ ("plan", "app") := noon ]};
     policies := {[ "policy" := policy_of_count 1 ]};
     schedules := {[ "plan" := due_schedule_row ]}; task_events := ∅;
     clusters := {[ "cluster" := sample_cluster ]}; applications := {[ "app" := sample_app ]};
     storage_repositories := {[ "repo" := sample_repo ]};
     resource_scopes := {[ "tenant" := "active" ]};
     diagnostic_logs := ∅; migration_sessions := ∅; upgrade_jobs := ∅;
     storage_bindings := ∅ |}.

Lemma due_empty : empty_store due_db.
Proof.
  split_and!; try reflexivity. intros q pp H. unfold due_db in H. cbn in H. apply lookup_singleton_Some in H as [_ <-].
  split; intros id H; discriminate H.
Defined.

Definition in_order (plans : gmap string (list ProtectionPlan)) : list (string * list ProtectionPlan) :=
  map_to_list plans.

Definition day : environment := quiet_environment noon.

Definition one_tick : world * unit :=
  runSchedulerTick sample_zones None in_order noon day (in_world due_db).
Definition ticked : db := database (fst one_tick).

Definition running_backups (d : db) : list (string * string) :=
  (fun '(id, r) => (id, t_status r)) <$>
    List.filter (fun '(_, r) => t_type r =s "backup") (map_to_list (tasks d)).

Lemma day_relies : relies (call sample_zones) day.
Proof. split; [intros n d; apply rtc_refl|intros n H; discriminate H]. Defined.


(** ** Retention *)

Definition point_at (id : string) (hour : Z) (metadata : document) : RestorePoint :=
  {| rp_ID := id; rp_TenantID := "tenant"; rp_ProtectionPlanID := "plan";
     rp_SourceClusterID := "cluster"; rp_AppID := ""; rp_StorageRepoID := "repo";
     rp_DisplayName := ""; rp_VeleroBackupName := "backup-" +:+ id; rp_PointType := "backup";
     rp_Status := "available"; rp_SizeBytes := 0; rp_StartedAt := noon;
     rp_CompletedAt := Date 2024 5 6 hour 0 0 0 utc; rp_ExpiresAt := zero_time;
     rp_SourceNamespace := "shop"; rp_LabelSelector := ""; rp_BackupTaskID := "";
     rp_BackupStorageName := ""; rp_TaskCreatedAt := noon; rp_Metadata := metadata;
     rp_SizeMetricsV2 := ∅; rp_CreatedAt := noon |}.

Definition keep_one : Policy :=
  {| pol_RetentionRules := []; pol_RetentionTimezone := "UTC"; pol_ID := "policy";
     pol_TenantID := "tenant"; pol_Name := "nightly"; pol_Composition := "combined";
     pol_ScheduleType := "daily"; pol_IntervalValue := 0; pol_IntervalUnit := "";
     pol_Hour := 2; pol_Minute := 0; pol_WeekDay := 0; pol_MonthDay := 0;
     pol_RetentionCount := 1; pol_RetentionDays := 0; pol_Status := "active";
     pol_BoundCount := 1; pol_CreatedAt := noon; pol_UpdatedAt := noon |}.

Definition three_points : list RestorePoint :=
  [point_at "old" 8 ∅; point_at "kept" 9 {[ "manualRetained" := VBool true ]};
   point_at "new" 10 ∅].

(** The newest stays, one is retained by hand, the oldest goes. *)
Lemma retention_keeps_the_newest_witness :
  rp_ID <$> expired_of sample_zones keep_one three_points [] noon = ["old"] /\
  exists newest, newest ⊆+ List.filter (expirable []) three_points /\
    Z.of_nat (length newest) = 1.
Proof.
  set (expired := expired_of sample_zones keep_one three_points [] noon).
  assert (Hids : rp_ID <$> expired = ["old"]) by (vm_compute; reflexivity).
  split; [exact Hids|].
  assert (Hdup : NoDup (rp_ID <$> three_points))
    by (apply (bool_decide_unpack _); vm_compute; exact I).
  destruct (retention_keeps_the_newest sample_zones keep_one three_points [] noon expired
    Hdup eq_refl) as [_ [Hnone|(newest & Hsub & Hlen & _)]].
  - rewrite Hnone in Hids. discriminate Hids.
  - exists newest. by split.
Defined.

(** ** A task nothing is heard of *)

Definition silent_db : db :=
  set_tasks due_db {[ "task-1" := sample_task "retention-cleanup" "running" None ]}.

Lemma silent_constrained : constrained silent_db /\ completed_rest silent_db.
Proof.
  split; [split|].
  - intros id t H. cbn in H. apply lookup_singleton_Some in H as [_ <-]. by split.
  - intros i j t u Hi Hj. cbn in Hi, Hj. apply lookup_singleton_Some in Hi as [<- _].
    apply lookup_singleton_Some in Hj as [<- _]. done.
  - intros id v t H. cbn in H. discriminate H.
  - intros id t H. cbn in H. apply lookup_singleton_Some in H as [_ <-]. done.
Defined.

Lemma day_undisturbed : undisturbed day.
Proof. split; [apply quiet_alone|intros n H; discriminate H]. Defined.


(** ** A storage sync that is retried *)

Definition failed_sync : Task :=
  {| task_ID := "sync-1"; task_TenantID := "tenant"; task_ClusterID := "cluster";
     task_AppID := ""; task_ProtectionPlanID := "plan"; task_RestorePointID := "";
     task_Type := "storage-sync"; task_Status := "failed"; task_Progress := 0;
     task_CommandID := "command-1"; task_ErrorCode := "TIMEOUT"; task_ErrorMessage := "";
     task_Payload := {[ "repositoryId" := VStr "repo"; "activationAttempt" := VStr "try";
       "activationRole" := VStr "source"; "retryAttempt" := VNum 1; "maxAttempts" := VNum 3 ]};
     task_CreatedAt := noon; task_DispatchedAt := zero_time; task_AcceptedAt := zero_time;
     task_StartedAt := zero_time; task_CompletedAt := noon |}.

Definition after_retry : world * bool :=
  retryStorageSyncTask sample_zones None failed_sync "timed out" day (in_world due_db).


(** ** A capacity report *)

Definition measured_plan : capacityResult :=
  {| cr_PlanID := "plan"; cr_Status := "succeeded"; cr_MetadataBytes := 10; cr_KopiaBytes := 32;
     cr_TotalBytes := 42; cr_CollectedAt := noon; cr_ErrorMessage := "" |}.

Definition one_plan : capacityCollection :=
  {| cc_Namespace := "velero";
     cc_Plans := [{| ct_PlanID := "plan"; ct_StorageRepositoryID := "repo";
       ct_StorageLocation := "primary-cluster"; ct_Namespaces := ["shop"]; ct_ErrorMessage := "" |}] |}.

Lemma accepted_report_covers_the_command_witness :
  snd (check_report one_plan (Some [measured_plan]) day (in_world due_db)) = inr [measured_plan] /\
  [cr_PlanID measured_plan] ≡ₚ ["plan"].
Proof.
  assert (H : snd (check_report one_plan (Some [measured_plan]) day (in_world due_db)) =
    inr [measured_plan]) by (vm_compute; reflexivity).
  split; [exact H|].
  destruct (accepted_report_covers_the_command one_plan (Some [measured_plan]) day (in_world due_db)
    [measured_plan] H) as (_ & Hperm & _). exact Hperm.
Defined.
